(* ===== verification/_CoqProject ===== *)
-Q . S2P
Prelude.v
Netip.v
Hmac.v
Time.v
Url.v
UrlFacts.v
Json.v
Float64.v
Durations.v
Models.v
Scheduler.v
Store.v
StoreFacts.v
Routing.v
Effects.v
StoreRuns.v
Sweep.v
Restart.v
Lifecycle.v
LifecycleMoves.v
CreateFacts.v
AckFacts.v
EventFacts.v
RequestFacts.v
Reschedule.v
IdleReaper.v
Reconciler.v
Adapters.v
Caddy.v
Flushes.v
Interleave.v
StoreAdapter.v
Api.v
Responses.v
Register.v
Ports.v
Executor.v
ExecutorFacts.v
Wire.v
AgentClient.v
ClientFacts.v
Watcher.v
Pipeline.v
Paths.v
FilePush.v
Push.v
PushFacts.v
AgentHttp.v
DockerClient.v
DockerFacts.v
AgentLoops.v
System.v
Control.v
Router.v
Cli.v
Commands.v
Cluster.v
CliFacts.v
EndToEnd.v
Turns.v
Startup.v
Teardown.v
Recovery.v
Misrouting.v
CrashLoop.v
Failover.v
Restarts.v
Idle.v
Agent.v
