(* ===== verification/Prelude.v ===== *)
(** * Forge: a control plane that runs application sandboxes on nodes

    The program (Go) has a control plane (control/), an agent on every node
    (agent/) and a command line client (cli/), which share the sandbox state
    machine and the signed URLs (shared-go/).  A sandbox is one container of one
    application.  Users create, destroy, wake and restart sandboxes over HTTP;
    the control plane keeps them in Postgres, schedules them on nodes, and queues
    commands that the agents poll, execute against Docker and acknowledge.
    Agents also send heartbeats with the list of their containers, and container
    events.  Background services watch the heartbeats and move sandboxes off
    silent nodes, stop idle sandboxes, and keep the routes of the Caddy proxy
    equal to the running sandboxes.

    This library translates that code into executable definitions and proves
    what makes each part correct, and what the parts do together.

    ** How the code is modelled

    A function that only computes is a function.  A function that talks to the
    outside is a [prog] (this file): a finite tree that returns, or performs one
    effect and goes on with the answer.  Each process has its effects:
    - [Effects.ctlE], the control plane's: one SQL statement, one UUID, the clock,
      random bytes, one call of the route notifier, one HTTP request;
    - [Executor.agentE] and [AgentClient.clientE], the agent's: Docker, the clock
      and the reports of the executor; the HTTP requests, waits and credentials
      of its client ([AgentLoops.loopE] is both);
    - [Watcher.watchE], [DockerClient.dockerE], [FilePush.fileE]: the event
      stream, Docker's SDK and the file system;
    - [Control.mainE], [Agent.runE]: the calls of the two processes, with the
      goroutines they start as effects;
    - [Cli.cliE]: the client's requests and the clock.
    A program is used in four ways:
    - [run]/[wp] execute it from a state, for exact statements of what it does
      (with [Effects.exec] on a [World]: the database, the clock, scheduled
      failures of database calls, the route batcher and the HTTP peers; with
      [Effects.exec_clock] time passes before every effect, where the [NOW()]
      of one statement and that of the next must not be confused);
    - [issues] bounds every effect it can perform whatever it was answered,
      which is what interleavings need (file Interleave);
    - [behaves] relates its effects, answers and result for an arbitrary
      environment (the agent's files);
    - [interp] replaces its effects by programs over others: the executor runs
      on the Docker client ([DockerClient.on_docker]) and its reports on the
      control plane client, the client's requests on the router and the handlers
      ([Cluster.answer]), which is how the processes are composed.
    A Go [error] is a value ([error]); [fmt.Errorf] with %w keeps the wrapped
    error and [errors_Is] finds it.  Logging is left out.  Machine integers are
    [Z] with [wrap32] and the like where the code computes, and int4 columns
    refuse what does not fit.  SQL statements are atomic steps on finite maps
    that check the constraints of control/migrations.  What Go's map iteration
    picks is a parameter ([MapOrder]) or an effect, and so is what libraries
    answer: UUIDs and the texts of errors ([Effects.External]), cobra
    ([Commands.CobraLib]).

    ** Files

    Go's standard library, as far as the program uses it: [Prelude] (errors,
    results, strings, [prog] and its rules, loops, orders), [Netip], [Hmac],
    [Time], [Url] and [UrlFacts], [Json], [Float64], [Durations].

    The control plane:
    - [Models] (shared-go/models): states, events, the transition table.
    - [Scheduler] (control/internal/scheduler/scheduler.go): placement.
    - [Store], [StoreFacts], [StoreRuns], [Sweep] (control/internal/store): the
      tables, every query, the schema invariant [db_wf], and the exact effect of
      each statement; [StoreFacts.db_step] is all a statement can do.
    - [Routing] (control/internal/routing: manager.go, batcher.go, the JSON of
      caddy.go) and [Caddy] (caddy.go, drift.go): the debounced batcher, the
      proxy client against an interface of the proxy ([Caddy.CaddyServer]), and
      the drift detector.  [Flushes]: the batcher with its calls of [Apply] in
      flight beside it, as a step relation over events and single requests.
    - [Effects]: the effects of the control plane and its [External] interface
      (UUIDs, the texts of Postgres errors, the HTTP peers).
    - [Restart], [Lifecycle] (control/internal/lifecycle: restart.go,
      lifecycle.go); their facts are in [LifecycleMoves], [CreateFacts],
      [AckFacts], [EventFacts], [RequestFacts].
    - [Reschedule] (reschedule.go and the heartbeat monitor of
      control/cmd/forge-control/main.go), [IdleReaper] (idle_reaper.go).
    - [Reconciler] (control/internal/scheduler: heartbeat_reconciler.go,
      sandbox_freshness.go), against the interfaces the package declares, and
      [Adapters] (main.go), which implements them on the store and over HTTP.
    - [Interleave]: all of these in flight at once.
    - [StoreAdapter] (the interface [NodeStore] of api/nodes.go, and main.go's
      adapter that implements it on the queries), [Api], [Register], [Push],
      [Responses], [Router] (control/internal/api): authentication, the handlers,
      node registration, the file push redirect, the JSON of every reply, and the
      table of routes.
    - [System], [Control] (server.go, config.go, main.go): the deployment, the
      background loops, the migrations, start-up and shutdown.

    The agent:
    - [Ports] (agent/internal/ports), [Executor], [ExecutorFacts]
      (agent/internal/agent/executor.go), [DockerClient], [DockerFacts]
      (agent/internal/docker), [Paths], [FilePush] (agent/internal/filepush),
      [Push], [PushFacts] (its handler, and shared-go/auth).
    - [AgentClient], [ClientFacts] (agent/internal/controlclient), [Wire] (its
      types, and the JSON both sides agree on), [Watcher] (agent/internal/events,
      as a sequence) and [Pipeline] (the goroutines and channels that carry it
      out, as a step relation), [AgentHttp] (its server), [AgentLoops] (heartbeats, events, polls), [Agent]
      (agent.go, config.go, main.go).

    The command line client: [Cli] (client.go and what every command does),
    [Commands] (the cobra commands, root.go, main.go), [CliFacts] (against the
    control plane).

    Together: [Cluster] (the agent's client against the router), [EndToEnd]
    (heartbeats and crash reports), [Turns] (a turn of the poll loop), and on it
    [Startup], [Teardown], [Recovery], [Failover], [Restarts] and [Idle]: how a
    sandbox comes up, is destroyed, survives a crash, survives its node, what a
    requested restart does to it, and how it falls asleep and wakes.  On
    [Recovery] stand [Misrouting] (a restart against the proxy) and [CrashLoop]
    (crashes without end).

    ** What is shown

    - State machine and schema: the table is a typed machine from which every
      state can reach [destroyed]; every statement keeps [db_wf] and moves the
      state column along its own edge; of two racing transitions one wins; in
      every run of the control plane's requests and services, however they
      interleave and with failures at any point, each step leaves every row
      there is with its identity and moves it only along the table's edges and
      the moves the services make past it.
    - Lifecycle: the exact outcome of create, acknowledge, container events,
      destroy and wake on every branch, with the database they leave.
    - Background services: failover, idle reaping, reconciliation and freshness
      as functions of the tables; the drift pass makes the routed applications
      equal to the running ones.
    - Routing: after any sequence of changes, timer firings and a stop, the last
      batch that mentions an application tells the proxy what was asked last;
      the buffer is bounded and a waiting change has an armed timer; and as long
      as no two calls of [Apply] are in flight together, the proxy routes an
      application exactly when it was last asked to; it keeps the route it has
      until a removal reaches it, because it refuses a second one.
    - API: only the public endpoints answer without the token; a command is
      handed to a poller at most once; registration is idempotent; a node is
      removed only when empty.
    - Agent: the port pool is partitioned; commands are acknowledged exactly
      once; containers are hardened and confined; pushes write below the code
      directory only, and only under a signature for their sandbox that has not
      expired; calls, registrations and pulls are tried a bounded number of
      times; the goroutines behind the watcher deliver every event of a stream
      once and in order through their bounded channels, and then wait for ever,
      since Docker's client reports the end of a stream on a channel they do not
      get to.
    - Client: a command is the request it stands for, a command line that cobra
      does not answer itself is exactly one command, and [routes verify] is exact.
    - Together: a created sandbox comes up, a destroyed one goes away and gives
      its port back, a crashed one runs again and, if its removal was flushed, is
      routed to its new port, one whose node went silent runs on another, an idle
      one sleeps and wakes as it was; a heartbeat reconciles exactly and heals a
      lost registration.
    - Behaviours of the code that contradict its comments or its purpose are
      stated as theorems too: a crash beyond the last attempt leaves the sandbox
      restarting ([EventFacts.HandleEvent_exhausted_stuck]), a restart loses the
      limits and the environment and clears the count of failures
      ([Recovery.crash_recovers]), a restart a user asks for is taken for a crash
      ([Restarts.requested_restart_recreates]), recycling is blocked by a foreign key
      ([CreateFacts.CreateSandbox_recycle_blocked]), a create without capacity
      leaves a pending row ([CreateFacts.CreateSandbox_no_capacity]), an unplaced
      sandbox cannot be destroyed cleanly ([RequestFacts.DestroySandbox_unplaced]),
      a heartbeat undoes a drain ([Api.heartbeat_undoes_drain]), a report revives
      a destroyed row ([Adapters.Reconcile_resurrects]), a refreshed read is stale
      ([Adapters.GetSandboxFresh_stale]), agents lose their own containers
      ([EndToEnd.own_containers_lost]) and, once restarted, crashes
      ([EndToEnd.restarted_agent_loses_crashes]), failover herds
      ([Reschedule.RescheduleNode_herd]), missing sandboxes are server errors
      ([Api.missing_sandbox_is_500]), restarts leak ports
      ([ExecutorFacts.restart_leaks_port]), so that a crash loop, which never
      ends, drains the node ([CrashLoop.crash_loop_drains]), calls of [Apply]
      that overlap bring a removed route back
      ([Flushes.overlapping_flushes_resurrect]), stopping the batcher leaves them
      behind ([Flushes.stop_leaves_flight]), a removal and an addition in one
      window leave the old route alone ([Flushes.window_keeps_old_route]),
      which is what a quick restart does ([Misrouting.quick_restart_misroutes]),
      and a stream of events that ends with an error hangs the watcher
      ([Pipeline.pipeline_delivers]).

    ** Bounds

    Loops run over lists and programs are finite trees.  A loop that the code
    ends only with its context takes the number of its turns: [Watcher.watch_turns],
    [Agent.pollLoop], the heartbeats and the periodic pulls, the tickers of
    [Control.on_ticker]; what is shown holds for every number.  The poll handler
    is given the ticks before its deadline.  Parsers over strings recurse on the
    string.  Times are microseconds in the control plane (what Postgres stores)
    and nanoseconds in the agent and the client.  Exact runs assume the counters
    of a row are below the int32 maximum ([StoreRuns.roomy]), since the update
    fails otherwise.

    ** Not modelled

    The one-line methods of the other store adapters of main.go (a call of the
    query of the same name, its answer handed on: the statements stand for them);
    the migrations are read as the constraints of [Store], and applying them
    (goose), reading the environment (envconfig) and the logger are calls of
    [migrateE] and [mainE].
    Postgres, Docker, Caddy, cobra and net/http are parameters; of Caddy the
    theorems use that ids are unique, that a POST of an id it has is refused
    and that a DELETE removes it ([Caddy.CaddyServer]).  The
    TypeScript SDK, the deployment files and the test code are left out.  In
    [Interleave] the route notifier's batches are recorded in the order they
    are flushed; their calls of [Apply], which run without the batcher's
    lock, are programs in flight like the others, and in [Flushes] against
    the proxy.  [Pipeline] runs one session of the event stream
    with an agent that is not being shut down.  Path confinement is lexical:
    a symbolic link that already exists below the code directory is followed
    by the system. *)

From stdpp Require Export base gmap strings list relations sorting pretty.
From Stdlib Require Export ZArith QArith.
From Stdlib Require Export Lia.

#[global] Set Default Goal Selector "!".
#[global] Open Scope Z_scope.

Declare Scope forge_scope.
Delimit Scope forge_scope with forge.
#[global] Open Scope forge_scope.

(** ** Go errors *)

(** The constraint classes a Postgres statement of this program can violate. *)
Inductive violation :=
| UniqueViolation
| ForeignKeyViolation
| NotNullViolation
| CheckViolation
| NumericOutOfRange.

(** Go [error] values: the driver's [pgx.ErrNoRows], a Postgres error with the
    class and the name of the constraint, any other failure (network, context,
    decoding) with its text, a sentinel made by [errors.New], and
    the two ways the program wraps one: [fmt.Errorf("ctx: %w", inner)] and
    [fmt.Errorf("%w: detail", inner)]. *)
Inductive error :=
| ErrNoRows
| PgError (v : violation) (constraint : string)
| OtherError (msg : string)
| Sentinel (msg : string)
| Wrap (ctx : string) (inner : error)
| Annotate (inner : error) (detail : string).

#[export] Instance violation_eq_dec : EqDecision violation.
Proof. solve_decision. Defined.
#[export] Instance error_eq_dec : EqDecision error.
Proof. solve_decision. Defined.

(** [errors.Is]: compare, then unwrap. *)
Fixpoint errors_Is (e target : error) : bool :=
  if decide (e = target) then true
  else match e with
       | Wrap _ inner | Annotate inner _ => errors_Is inner target
       | _ => false
       end.

(** Go's pair of a value and an error. *)
Inductive result (A : Type) :=
| Ok (a : A)
| Err (e : error).
Arguments Ok {A} a.
Arguments Err {A} e.

Definition is_ok {A} (r : result A) : bool :=
  match r with Ok _ => true | Err _ => false end.

(** ** Fixed-width integers *)

Definition max_int32 : Z := 2147483647.
Definition min_int32 : Z := -2147483648.

(** Two's-complement wrap-around of Go's [int32] arithmetic. *)
Definition wrap32 (z : Z) : Z := (z + 2147483648) mod 4294967296 - 2147483648.

Definition in_int32 (z : Z) : Prop := min_int32 <= z <= max_int32.

Lemma wrap32_id z : in_int32 z -> wrap32 z = z.
Proof.
  unfold in_int32, wrap32, min_int32, max_int32. intros H.
  rewrite Z.mod_small by lia. lia.
Qed.

Lemma wrap32_range z : in_int32 (wrap32 z).
Proof.
  unfold in_int32, wrap32, min_int32, max_int32.
  pose proof (Z.mod_pos_bound (z + 2147483648) 4294967296). lia.
Qed.

(** ** Strings *)

(** [strings.HasPrefix] and [strings.TrimPrefix]. *)
Definition HasPrefix (s prefix : string) : bool := String.prefix prefix s.

Definition TrimPrefix (s prefix : string) : string :=
  if HasPrefix s prefix
  then String.substring (String.length prefix) (String.length s - String.length prefix) s
  else s.

(** [strings.Contains] *)
Definition Contains (s sub : string) : bool :=
  match String.index 0 sub s with Some _ => true | None => false end.

Lemma prefix_app p s : String.prefix p (p +:+ s) = true.
Proof. induction p as [|a p IH]; simpl; [by destruct s|]. by destruct (Ascii.ascii_dec a a). Qed.

Lemma substring_all s : String.substring 0 (String.length s) s = s.
Proof. induction s as [|a s IH]; simpl; [done|]. by rewrite IH. Qed.

Lemma substring_app p s :
  String.substring (String.length p) (String.length s) (p +:+ s) = s.
Proof. induction p as [|a p IH]; simpl; [apply substring_all|done]. Qed.

Lemma string_app_nil s : s +:+ "" = s.
Proof. induction s as [|c s IH]; [done|]. exact (f_equal (String c) IH). Qed.

Lemma string_app_assoc (a b c : string) : a +:+ (b +:+ c) = (a +:+ b) +:+ c.
Proof. induction a as [|x a IH]; [done|]. exact (f_equal (String x) IH). Qed.

Lemma string_length_app p s :
  String.length (p +:+ s) = (String.length p + String.length s)%nat.
Proof. induction p as [|a p IH]; simpl; [done|]. by rewrite IH. Qed.

Lemma TrimPrefix_app p s : TrimPrefix (p +:+ s) p = s.
Proof.
  unfold TrimPrefix, HasPrefix. rewrite prefix_app, string_length_app.
  replace (_ + _ - _)%nat with (String.length s) by lia. apply substring_app.
Qed.

(** A decimal digit and its value. *)
Definition digit_of (c : Ascii.ascii) : option Z :=
  let n := Z.of_nat (Ascii.nat_of_ascii c) in
  if (48 <=? n) && (n <=? 57) then Some (n - 48) else None.

Definition digit_char (z : Z) : Ascii.ascii := Ascii.ascii_of_nat (Z.to_nat (48 + z)).

Lemma digit_of_char z : 0 <= z < 10 -> digit_of (digit_char z) = Some z.
Proof.
  intros Hz. unfold digit_of, digit_char. rewrite Ascii.nat_ascii_embedding by lia.
  rewrite Z2Nat.id by lia. destruct (Z.leb_spec 48 (48 + z)), (Z.leb_spec (48 + z) 57); try lia.
  simpl. f_equal. lia.
Qed.

(** ** Programs with effects

    A Go function that talks to the database, the clock, the proxy or an agent
    is a program over an effect signature [E]: it returns, or performs one
    effect and continues with the answer.  The same program is run
    sequentially ([run]) and interleaved with others (file Interleave). *)
Inductive prog (E : Type -> Type) (A : Type) : Type :=
| Ret (a : A)
| Vis {X : Type} (e : E X) (k : X -> prog E A).
Arguments Ret {E A} a.
Arguments Vis {E A X} e k.

Section Prog.
Context {E : Type -> Type}.

Fixpoint bind {A B} (p : prog E A) (f : A -> prog E B) : prog E B :=
  match p with
  | Ret a => f a
  | Vis e k => Vis e (fun x => bind (k x) f)
  end.

Definition trigger {X} (e : E X) : prog E X := Vis e Ret.

(** Handlers thread a state; [run] interprets a program sequentially. *)
Context {S : Type} (handle : forall X, E X -> S -> X * S).

Fixpoint run {A} (p : prog E A) (s : S) : A * S :=
  match p with
  | Ret a => (a, s)
  | Vis e k => let '(x, s') := handle _ e s in run (k x) s'
  end.

Lemma run_bind {A B} (p : prog E A) (f : A -> prog E B) s :
  run (bind p f) s = let '(a, s') := run p s in run (f a) s'.
Proof.
  revert s. induction p as [a|X e k IH]; intros s; simpl; [done|].
  destruct (handle X e s) as [x s']. apply IH.
Qed.

(** [wp p Q s]: running [p] from [s] ends with a value and a state in [Q].
    Programs are finite trees, so this is total correctness. *)
Definition wp {A} (p : prog E A) (Q : A -> S -> Prop) (s : S) : Prop :=
  let '(a, s') := run p s in Q a s'.

Lemma wp_run {A} (p : prog E A) Q s : wp p Q s <-> Q (run p s).1 (run p s).2.
Proof. unfold wp. by destruct (run p s). Qed.

Lemma wp_ret {A} (a : A) (Q : A -> S -> Prop) s : Q a s -> wp (Ret a) Q s.
Proof. done. Qed.

Lemma wp_vis {A X} (e : E X) (k : X -> prog E A) Q s :
  (let '(x, s') := handle X e s in wp (k x) Q s') -> wp (Vis e k) Q s.
Proof. unfold wp. simpl. by destruct (handle X e s). Qed.

Lemma wp_bind {A B} (p : prog E A) (f : A -> prog E B) Q s :
  wp p (fun a s' => wp (f a) Q s') s -> wp (bind p f) Q s.
Proof. unfold wp. rewrite run_bind. by destruct (run p s). Qed.

Lemma wp_mono {A} (p : prog E A) (Q Q' : A -> S -> Prop) s :
  (forall a s', Q a s' -> Q' a s') -> wp p Q s -> wp p Q' s.
Proof. unfold wp. destruct (run p s). auto. Qed.

(** [issues P p]: every effect [p] can perform, whatever the answers it got
    before, satisfies [P]. *)
Fixpoint issues {A} (P : forall X, E X -> Prop) (p : prog E A) : Prop :=
  match p with
  | Ret _ => True
  | Vis e k => P _ e /\ forall x, issues P (k x)
  end.

Lemma issues_bind {A B} P (p : prog E A) (f : A -> prog E B) :
  issues P p -> (forall a, issues P (f a)) -> issues P (bind p f).
Proof.
  intros Hp Hf. induction p as [a|X e k IH]; simpl in *; [apply Hf|].
  destruct Hp as [He Hk]. split; [done|]. intros x. by apply IH.
Qed.

Lemma issues_mono {A} (P P' : forall X, E X -> Prop) (p : prog E A) :
  (forall X e, P X e -> P' X e) -> issues P p -> issues P' p.
Proof.
  intros HP. induction p as [a|X e k IH]; simpl; [done|].
  intros [He Hk]. split; [by apply HP|]. intros x. by apply IH.
Qed.

(** A relation every permitted effect respects holds of the whole run. *)
Lemma run_preserves {A} (P : forall X, E X -> Prop) (R : S -> S -> Prop) (p : prog E A) :
  (forall s, R s s) -> (forall a b c, R a b -> R b c -> R a c) ->
  (forall X (e : E X) s, P X e -> R s (handle X e s).2) ->
  issues P p -> forall s, R s (run p s).2.
Proof.
  intros Hrefl Htrans Hstep. induction p as [a|X e k IH]; intros Hi s; simpl; [done|].
  destruct Hi as [He Hk]. specialize (Hstep X e s He).
  destruct (handle X e s) as [x s']. simpl in *. eauto.
Qed.

(** [behaves observe p Q]: however the environment answers, the run of [p] makes
    a list of observations and a result in [Q].  Also total correctness. *)
Fixpoint behaves {O A} (observe : forall X, E X -> X -> O) (p : prog E A)
    (Q : list O -> A -> Prop) : Prop :=
  match p with
  | Ret a => Q [] a
  | Vis e k => forall x, behaves observe (k x) (fun t a => Q (observe _ e x :: t) a)
  end.

Lemma behaves_mono {O A} (observe : forall X, E X -> X -> O) (p : prog E A)
    (Q Q' : list O -> A -> Prop) :
  (forall t a, Q t a -> Q' t a) -> behaves observe p Q -> behaves observe p Q'.
Proof.
  revert Q Q'. induction p as [a|X e k IH]; intros Q Q' HQ; simpl; [auto|].
  intros Hk x. eapply IH, Hk. auto.
Qed.

Lemma behaves_bind {O A B} (observe : forall X, E X -> X -> O) (p : prog E A)
    (f : A -> prog E B) (Q : list O -> B -> Prop) :
  behaves observe p (fun t a => behaves observe (f a) (fun t' b => Q (t ++ t') b)) ->
  behaves observe (bind p f) Q.
Proof.
  revert Q. induction p as [a|X e k IH]; intros Q; simpl; [done|].
  intros Hk x. by apply IH.
Qed.

(** [for _, x := range l] with the loop's variables threaded. *)
Fixpoint range {A B} (body : B -> A -> prog E B) (l : list A) (acc : B) : prog E B :=
  match l with
  | [] => Ret acc
  | x :: l' => bind (body acc x) (fun acc' => range body l' acc')
  end.

Lemma issues_range {A B} P (body : B -> A -> prog E B) l acc :
  (forall b x, x ∈ l -> issues P (body b x)) -> issues P (range body l acc).
Proof.
  revert acc. induction l as [|x l IH]; intros acc Hb; simpl; [done|].
  apply issues_bind; [apply Hb; left|]. intros b. apply IH. intros. apply Hb. by right.
Qed.

(** The loop rule: an invariant over the elements done and the elements left. *)
Lemma wp_range {A B} (I : list A -> list A -> B -> S -> Prop) (body : B -> A -> prog E B) l acc s :
  I [] l acc s ->
  (forall before x after b t, l = before ++ x :: after -> I before (x :: after) b t ->
     wp (body b x) (fun b' t' => I (before ++ [x]) after b' t') t) ->
  wp (range body l acc) (fun b t => I l [] b t) s.
Proof.
  intros Hinit Hstep.
  enough (forall after before b t, l = before ++ after -> I before after b t ->
    wp (range body after b) (fun b t => I l [] b t) t) as Hgen by by apply (Hgen l [] acc s).
  induction after as [|x after IH]; intros before b t -> HI; simpl.
  - apply wp_ret. by rewrite app_nil_r.
  - apply wp_bind. eapply wp_mono; [|by eapply Hstep].
    intros b' t' HI'. apply (IH (before ++ [x])); [by rewrite <- app_assoc|done].
Qed.
End Prog.

(** Runs of a program that is in two postconditions at once. *)
Lemma behaves_and {E : Type -> Type} {O A} (observe : forall X, E X -> X -> O) (p : prog E A)
    (Q Q' : list O -> A -> Prop) :
  behaves observe p Q -> behaves observe p Q' -> behaves observe p (fun t a => Q t a /\ Q' t a).
Proof.
  revert Q Q'. induction p as [a|X e k IH]; intros Q Q'; simpl; [auto|].
  intros HQ HQ' x. by apply IH.
Qed.

(** A program over the effects [E] whose every effect is carried out by a
    program over [F]. *)
Fixpoint interp {E F : Type -> Type} (h : forall X, E X -> prog F X) {A} (p : prog E A) : prog F A :=
  match p with
  | Ret a => Ret a
  | Vis e k => bind (h _ e) (fun x => interp h (k x))
  end.

(** What can be observed of it: for each effect, what its program shows. *)
Lemma behaves_interp {E F : Type -> Type} {O O' A} (observe : forall X, E X -> X -> O)
    (observe' : forall X, F X -> X -> O') (h : forall X, E X -> prog F X)
    (R : O -> list O' -> Prop) (p : prog E A) (Q : list O -> A -> Prop) :
  (forall X (e : E X), behaves observe' (h X e) (fun t x => R (observe X e x) t)) ->
  behaves observe p Q ->
  behaves observe' (interp h p)
    (fun t a => exists os ts, t = concat ts /\ Forall2 R os ts /\ Q os a).
Proof.
  intros Hh. revert Q. induction p as [a|X e k IH]; intros Q HQ; simpl in *.
  { exists [], []. by repeat constructor. }
  apply behaves_bind. eapply behaves_mono; [|apply Hh]. intros t x HR. cbv beta.
  eapply behaves_mono; [|apply IH, HQ]. intros t' a (os & ts & -> & Hts & Ha).
  exists (observe X e x :: os), (t :: ts). split_and!; [done|by constructor|done].
Qed.

Lemma issues_interp {E F : Type -> Type} (P : forall X, E X -> Prop) (P' : forall X, F X -> Prop)
    (h : forall X, E X -> prog F X) {A} (p : prog E A) :
  (forall X (e : E X), P X e -> issues P' (h X e)) -> issues P p -> issues P' (interp h p).
Proof.
  intros Hh. induction p as [a|X e k IH]; simpl; [done|]. intros [He Hk].
  apply issues_bind; auto.
Qed.

(** A continuation may rely on what the program before it returns. *)
Lemma issues_bind_post {E : Type -> Type} {O A B} (observe : forall X, E X -> X -> O)
    (P : forall X, E X -> Prop) (I : A -> Prop) (p : prog E A) (f : A -> prog E B) :
  issues P p -> behaves observe p (fun _ a => I a) -> (forall a, I a -> issues P (f a)) ->
  issues P (bind p f).
Proof.
  intros Hp Hb Hf. induction p as [a|X e k IH]; simpl in *; [by apply Hf|].
  destruct Hp as [He Hk]. split; [done|]. intros x. apply IH; [done|]. apply Hb.
Qed.

Lemma run_interp {E F : Type -> Type} {S A} (h : forall X, E X -> prog F X)
    (handle : forall X, F X -> S -> X * S) (p : prog E A) s :
  run handle (interp h p) s = run (fun X e => run handle (h X e)) p s.
Proof.
  revert s. induction p as [a|X e k IH]; intros s; simpl; [done|].
  rewrite run_bind. destruct (run handle (h X e) s) as [x s']. apply IH.
Qed.

Notation "x <- c ;; k" := (bind c (fun x => k))
  (at level 60, c at next level, right associativity) : forge_scope.
Notation "c ;;; k" := (bind c (fun _ => k))
  (at level 60, right associativity) : forge_scope.

(** [x, err := c; if err != nil { return fmt.Errorf("ctx: %w", err) }] *)
Notation "x <-? c 'orelse' ctx ;; k" :=
  (bind c (fun r => match r with Err e => Ret (Err (Wrap ctx e)) | Ok x => k end))
  (at level 60, c at next level, ctx at next level, right associativity) : forge_scope.

(** [strconv.Quote], which only error texts use. *)
Class Quoting := { quoted : string -> string }.

Definition demo_quoting : Quoting := {| quoted s := s |}.

(** ** Maps

    The order in which Go visits a map: any. *)
Class MapOrder := {
  visit {V} : gmap string V -> list (string * V);
  visit_perm {V} (m : gmap string V) : visit m ≡ₚ map_to_list m;
}.

Definition demo_order : MapOrder := {|
  visit V m := map_to_list m; visit_perm V m := reflexivity (map_to_list m) |}.

(** ** Lists *)

(** Results of SQL's [ORDER BY]: a stable sort by a key. *)
Section SortBy.
Context {A : Type} (key : A -> Z).

Definition le_key (x y : A) : Prop := key x <= key y.
#[export] Instance le_key_dec x y : Decision (le_key x y).
Proof. unfold le_key. apply _. Defined.
#[local] Instance le_key_total : Total le_key.
Proof. intros x y. unfold le_key. lia. Qed.
#[local] Instance le_key_trans : Transitive le_key.
Proof. intros x y z. unfold le_key. lia. Qed.

Definition order_by (l : list A) : list A := merge_sort le_key l.

Lemma order_by_perm l : order_by l ≡ₚ l.
Proof. apply merge_sort_Permutation. Qed.

Lemma order_by_sorted l : StronglySorted le_key (order_by l).
Proof. unfold order_by. apply StronglySorted_merge_sort; apply _. Qed.

Lemma elem_of_order_by x l : x ∈ order_by l <-> x ∈ l.
Proof. by rewrite order_by_perm. Qed.
End SortBy.

Lemma filter_all {A} (P : A -> Prop) `{forall x, Decision (P x)} (l : list A) :
  (forall x, x ∈ l -> P x) -> filter P l = l.
Proof.
  induction l as [|x l IH]; intros Hall; [done|].
  rewrite filter_cons_True by (apply Hall; left). f_equal. apply IH. intros. apply Hall. by right.
Qed.

Lemma filter_none {A} (P : A -> Prop) `{forall x, Decision (P x)} (l : list A) :
  (forall x, x ∈ l -> ~ P x) -> filter P l = [].
Proof.
  induction l as [|x l IH]; intros Hall; [done|].
  rewrite filter_cons_False by (apply Hall; left). apply IH. intros y Hy. apply Hall. by right.
Qed.

Lemma filter_iff_in {A} (P Q : A -> Prop) `{forall x, Decision (P x), forall x, Decision (Q x)}
    (l : list A) :
  (forall x, x ∈ l -> P x <-> Q x) -> filter P l = filter Q l.
Proof.
  induction l as [|x l IH]; intros Hiff; [done|]. rewrite !filter_cons.
  rewrite IH by (intros; apply Hiff; by right).
  assert (P x <-> Q x) by (apply Hiff; left). repeat case_decide; tauto.
Qed.

(** ** Rows of a table *)

(** The rows of a table whose key is one of their columns. *)
Lemma NoDup_rows `{Countable K} {A} (key : A -> K) (m : gmap K A) :
  (forall i x, m !! i = Some x -> key x = i) -> NoDup (key <$> (map_to_list m).*2).
Proof.
  intros Hkey. replace (key <$> (map_to_list m).*2) with ((map_to_list m).*1);
    [apply NoDup_fst_map_to_list|].
  rewrite <- list_fmap_compose. apply list_fmap_ext. intros i [k x] Hl. simpl.
  apply list_elem_of_lookup_2, elem_of_map_to_list in Hl. by rewrite (Hkey _ _ Hl).
Qed.

Lemma singleton_of {A} (l : list A) a : NoDup l -> (forall x, x ∈ l <-> x = a) -> l = [a].
Proof.
  intros Hnd Hl. apply Permutation_singleton_r, NoDup_Permutation; [done|apply NoDup_singleton|].
  intros x. by rewrite Hl, list_elem_of_singleton.
Qed.

Lemma order_by_single {A} (key : A -> Z) x : order_by key [x] = [x].
Proof. apply Permutation_singleton_r, order_by_perm. Qed.

(** A loop that does something at one element only. *)
Lemma range_idle {E : Type -> Type} {A B} (body : B -> A -> prog E B) l acc :
  (forall x b, x ∈ l -> body b x = Ret b) -> range body l acc = Ret acc.
Proof.
  induction l as [|x l IH]; intros Hidle; [done|]. simpl. rewrite Hidle by left. simpl.
  apply IH. intros y b Hy. apply Hidle. by right.
Qed.

Lemma wp_range_lone {S} {E : Type -> Type} (h : forall X, E X -> S -> X * S) {A B} (body : B -> A -> prog E B)
    l a acc (Q : B -> S -> Prop) s :
  NoDup l -> a ∈ l -> (forall x b, x ∈ l -> x <> a -> body b x = Ret b) ->
  wp h (body acc a) Q s -> wp h (range body l acc) Q s.
Proof.
  intros Hnd (l1 & l2 & ->)%list_elem_of_split Hidle Ha.
  apply NoDup_app in Hnd as (_ & Hdis & [Hl2 _]%NoDup_cons).
  induction l1 as [|x l1 IH]; simpl.
  - apply wp_bind. eapply wp_mono; [|exact Ha]. intros b t HQ.
    rewrite range_idle; [by apply wp_ret|]. intros y c Hy. apply Hidle; [by right|]. by intros ->.
  - rewrite Hidle; [|by left|].
    + simpl. apply IH; [intros y Hy; apply Hdis; by right|]. intros y c Hy. apply Hidle. by right.
    + intros ->. apply (Hdis a); left.
Qed.

(** ** Automation *)

Create HintDb forge.
#[export] Hint Resolve wrap32_range wp_ret : forge.

(** Case analysis on the scrutinee of the first match of the goal. *)
Ltac case_match_goal :=
  match goal with
  | |- context [match ?x with _ => _ end] => destruct x eqn:?
  end.
