(* ===== verification/Netip.v ===== *)
(** Addresses of Go's [net/netip]: the type, [ParseAddr] and [Addr.String], as
    the program uses them to register a node and to build the addresses it
    calls. *)

From S2P Require Import Prelude.

(** The octets of an IPv4 address, or the eight groups of an IPv6 address
    (IPv4-mapped ones included) and its zone. *)
Inductive Addr :=
| Addr4 (octets : list Z)
| Addr6 (groups : list Z) (zone : string).

#[export] Instance Addr_eq_dec : EqDecision Addr.
Proof. solve_decision. Defined.

Definition dot : Ascii.ascii := Ascii.ascii_of_nat 46.
Definition colon : Ascii.ascii := Ascii.ascii_of_nat 58.
Definition percent : Ascii.ascii := Ascii.ascii_of_nat 37.

Definition decimal_digit (c : Ascii.ascii) : option Z :=
  let n := Z.of_nat (Ascii.nat_of_ascii c) in
  if (48 <=? n) && (n <=? 57) then Some (n - 48) else None.

Definition hex_digit (c : Ascii.ascii) : option Z :=
  let n := Z.of_nat (Ascii.nat_of_ascii c) in
  if (48 <=? n) && (n <=? 57) then Some (n - 48)
  else if (97 <=? n) && (n <=? 102) then Some (n - 87)
  else if (65 <=? n) && (n <=? 70) then Some (n - 55)
  else None.

(** ** IPv4 *)

(** The state of [parseIPv4Fields]: the octets closed so far, and the value and
    the number of digits of the current one. *)
Record fields := mkFields { fl_done : list Z; fl_val : Z; fl_len : nat }.

Definition field_step (st : fields) (c : Ascii.ascii) : option fields :=
  match decimal_digit c with
  | Some d =>
      if (fl_len st =? 1)%nat && (fl_val st =? 0) then None
      else let v := fl_val st * 10 + d in
           if 255 <? v then None else Some (mkFields (fl_done st) v (S (fl_len st)))
  | None =>
      if Ascii.eqb c dot
      then if (fl_len st =? 0)%nat || (3 <=? length (fl_done st))%nat then None
           else Some (mkFields (fl_done st ++ [fl_val st]) 0 0)
      else None
  end.

Fixpoint field_run (s : string) (st : fields) : option fields :=
  match s with
  | EmptyString => Some st
  | String c s' => st' ← field_step st c; field_run s' st'
  end.

Definition parseIPv4Fields (s : string) : option (list Z) :=
  st ← field_run s (mkFields [] 0 0);
  if (fl_len st =? 0)%nat || negb (length (fl_done st) =? 3)%nat then None
  else Some (fl_done st ++ [fl_val st]).

(** ** IPv6 *)

(** The hexadecimal digits a group starts with, at most four: their number,
    their value and the rest. *)
Fixpoint hex_run (n : nat) (acc : Z) (s : string) : option (nat * Z * string) :=
  match s with
  | EmptyString => Some (n, acc, s)
  | String c s' =>
      match hex_digit c with
      | None => Some (n, acc, s)
      | Some d => if (3 <? n)%nat then None else hex_run (S n) (16 * acc + d) s'
      end
  end.

(** The loop over groups, with room for [fuel] more: the groups read, the
    position of the ellipsis and what is left. *)
Fixpoint group_run (fuel : nat) (gs : list Z) (ell : option nat) (s : string)
  : option (list Z * option nat * string) :=
  match fuel with
  | O => Some (gs, ell, s)
  | S fuel' =>
      '(n, v, rest) ← hex_run 0 0 s;
      if (n =? 0)%nat then None
      else match rest with
           | EmptyString => Some (gs ++ [v], ell, "")
           | String c s1 =>
               if Ascii.eqb c dot
               then if negb (bool_decide (is_Some ell)) && negb (length gs =? 6)%nat then None
                    else if (6 <? length gs)%nat then None
                    else match parseIPv4Fields s with
                         | Some [a; b; c; d] =>
                             Some (gs ++ [256 * a + b; 256 * c + d], ell, "")
                         | _ => None
                         end
               else if negb (Ascii.eqb c colon) then None
               else match s1 with
                    | EmptyString => None
                    | String c2 s2 =>
                        if negb (Ascii.eqb c2 colon) then group_run fuel' (gs ++ [v]) ell s1
                        else match ell, s2 with
                             | Some _, _ => None
                             | None, EmptyString => Some (gs ++ [v], Some (S (length gs)), "")
                             | None, _ => group_run fuel' (gs ++ [v]) (Some (S (length gs))) s2
                             end
                    end
           end
  end.

(** The ellipsis stands for at least one group of zeros. *)
Definition expand (gs : list Z) (ell : option nat) : option (list Z) :=
  match ell with
  | Some i => if (length gs <? 8)%nat
              then Some (take i gs ++ replicate (8 - length gs) 0 ++ drop i gs) else None
  | None => if (length gs <? 8)%nat then None else Some gs
  end.

Fixpoint cut_zone (s : string) : string * option string :=
  match s with
  | EmptyString => ("", None)
  | String c s' =>
      if Ascii.eqb c percent then ("", Some s')
      else let '(a, z) := cut_zone s' in (String c a, z)
  end.

Definition parseIPv6 (inp : string) : option Addr :=
  let '(s, zone) := cut_zone inp in
  if decide (zone = Some "") then None
  else
    let zone := default "" zone in
    let '(s, ell) := if HasPrefix s "::" then (TrimPrefix s "::", Some 0%nat) else (s, None) in
    if decide (s = "" /\ ell = Some 0%nat) then Some (Addr6 (replicate 8 0) zone)
    else '(gs, ell, rest) ← group_run 8 [] ell s;
         if String.eqb rest "" then gs ← expand gs ell; Some (Addr6 gs zone) else None.

(** ** ParseAddr: the first of the characters [.], [:] and [%] decides. *)
Fixpoint addr_kind (s : string) : option Ascii.ascii :=
  match s with
  | EmptyString => None
  | String c s' =>
      if Ascii.eqb c dot || Ascii.eqb c colon || Ascii.eqb c percent then Some c else addr_kind s'
  end.

Definition ParseAddr (s : string) : option Addr :=
  c ← addr_kind s;
  if Ascii.eqb c dot then Addr4 <$> parseIPv4Fields s
  else if Ascii.eqb c colon then parseIPv6 s
  else None.

(** ** String *)

Definition hex_char (d : Z) : string :=
  match String.get (Z.to_nat d) "0123456789abcdef" with
  | Some c => String c ""
  | None => ""
  end.

(** Without leading zeros. *)
Definition appendHex (x : Z) : string :=
  (if 4096 <=? x then hex_char (x / 4096 mod 16) else "") +:+
  (if 256 <=? x then hex_char (x / 256 mod 16) else "") +:+
  (if 16 <=? x then hex_char (x / 16 mod 16) else "") +:+ hex_char (x mod 16).

Fixpoint zeros (gs : list Z) : nat :=
  match gs with 0 :: gs' => S (zeros gs') | _ => O end.

(** The first of the longest runs of two or more zero groups. *)
Definition zero_step (gs : list Z) (best : nat * nat) (i : nat) : nat * nat :=
  let l := zeros (drop i gs) in
  if (2 <=? l)%nat && (best.2 <? l)%nat then (i, l) else best.

Definition zero_run (gs : list Z) : nat * nat := foldl (zero_step gs) (0%nat, 0%nat) (seq 0 8).

Definition join_hex (gs : list Z) : string := String.concat ":" (appendHex <$> gs).

Definition join_dec (os : list Z) : string := String.concat "." (pretty <$> os).

Definition Addr_String (a : Addr) : string :=
  match a with
  | Addr4 os => join_dec os
  | Addr6 gs zone =>
      let body :=
        if decide (take 6 gs = [0; 0; 0; 0; 0; 65535])
        then "::ffff:" +:+ join_dec (drop 6 gs ≫= (fun g => [g / 256; g mod 256]))
        else match zero_run gs with
             | (_, O) => join_hex gs
             | (i, l) => join_hex (take i gs) +:+ "::" +:+ join_hex (drop (i + l) gs)
             end in
      if String.eqb zone "" then body else body +:+ "%" +:+ zone
  end.

(** The value an INET column holds for an address: the driver sends it as a
    prefix, which has no zone. *)
Definition inet (a : Addr) : Addr :=
  match a with Addr6 gs _ => Addr6 gs "" | Addr4 _ => a end.

