(* ===== verification/Hmac.v ===== *)
(** Go's [crypto/sha256] and [crypto/hmac], and [encoding/hex], over byte
    strings. *)

From S2P Require Import Prelude Netip.

(** ** encoding/hex *)

Fixpoint hex_EncodeToString (b : string) : string :=
  match b with
  | EmptyString => EmptyString
  | String c b' =>
      let n := Z.of_nat (Ascii.nat_of_ascii c) in
      hex_char (n / 16) +:+ hex_char (n mod 16) +:+ hex_EncodeToString b'
  end.

(** [None] for an odd length or another character. *)
Fixpoint hex_DecodeString (s : string) : option string :=
  match s with
  | EmptyString => Some ""
  | String a (String b s') =>
      x ← hex_digit a; y ← hex_digit b; r ← hex_DecodeString s';
      Some (String (Ascii.ascii_of_nat (Z.to_nat (16 * x + y))) r)
  | _ => None
  end.

(** ** SHA-256 *)

Definition word (z : Z) : Z := z mod 2 ^ 32.
Definition rotr (x n : Z) : Z := Z.lor (Z.shiftr x n) (word (Z.shiftl x (32 - n))).

(** The constants of the standard are the first 32 bits of the fractions of the
    cube roots (rounds) and square roots (initial value) of the first primes. *)
Definition first_primes : list Z :=
  base.filter (fun p => forallb (fun d => negb (p mod d =? 0)) (Z.of_nat <$> seq 2 (Z.to_nat (p - 2))) = true)
    (Z.of_nat <$> seq 2 310).

(** The floor of the cube root of [n], below [2 ^ bits]. *)
Definition cube_root (bits : nat) (n : Z) : Z :=
  foldl (fun r i => let r' := r + 2 ^ Z.of_nat i in if r' ^ 3 <=? n then r' else r) 0
    (rev (seq 0 bits)).

Definition round_constants : list Z :=
  Eval vm_compute in (fun p => cube_root 36 (p * 2 ^ 96) mod 2 ^ 32) <$> first_primes.

Definition initial_hash : list Z :=
  Eval vm_compute in (fun p => Z.sqrt (p * 2 ^ 64) mod 2 ^ 32) <$> take 8 first_primes.

Definition bytes_of (s : string) : list Z :=
  (fun c => Z.of_nat (Ascii.nat_of_ascii c)) <$> String.list_ascii_of_string s.
Definition string_of (l : list Z) : string :=
  String.string_of_list_ascii ((fun z => Ascii.ascii_of_nat (Z.to_nat z)) <$> l).

(** [n] bytes, most significant first. *)
Definition big_endian (n : nat) (x : Z) : list Z :=
  (fun i => Z.shiftr x (8 * Z.of_nat i) mod 256) <$> rev (seq 0 n).

(** A one bit, zeros, and the length in bits as 64 bits, to a multiple of 64
    bytes. *)
Definition pad (l : list Z) : list Z :=
  let n := Z.of_nat (length l) in
  l ++ [128] ++ replicate (Z.to_nat ((- (n + 9)) mod 64)) 0 ++ big_endian 8 (8 * n).

Fixpoint words (l : list Z) : list Z :=
  match l with
  | a :: b :: c :: d :: l' => ((a * 256 + b) * 256 + c) * 256 + d :: words l'
  | _ => []
  end.

Definition sigma (x a b c : Z) : Z := Z.lxor (rotr x a) (Z.lxor (rotr x b) (rotr x c)).
Definition small_sigma (x a b c : Z) : Z := Z.lxor (rotr x a) (Z.lxor (rotr x b) (Z.shiftr x c)).

(** The message schedule, built with the latest word first. *)
Fixpoint schedule (n : nat) (w : list Z) : list Z :=
  match n with
  | O => rev w
  | S n' =>
      let at_ i := nth i w 0 in
      schedule n' (word (small_sigma (at_ 1%nat) 17 19 10 + at_ 6%nat +
                         small_sigma (at_ 14%nat) 7 18 3 + at_ 15%nat) :: w)
  end.

Definition sha_round (st : list Z) (kw : Z * Z) : list Z :=
  match st with
  | [a; b; c; d; e; f; g; h] =>
      let ch := Z.lxor (Z.land e f) (Z.land (Z.lxor e (2 ^ 32 - 1)) g) in
      let maj := Z.lxor (Z.land a b) (Z.lxor (Z.land a c) (Z.land b c)) in
      let t1 := word (h + sigma e 6 11 25 + ch + kw.1 + kw.2) in
      let t2 := word (sigma a 2 13 22 + maj) in
      [word (t1 + t2); a; b; c; word (d + t1); e; f; g]
  | _ => st
  end.

Definition sha_block (st : list Z) (block : list Z) : list Z :=
  let w := schedule 48 (rev (words block)) in
  zip_with (fun x y => word (x + y)) st (foldl sha_round st (zip round_constants w)).

Fixpoint blocks (fuel : nat) (l : list Z) : list (list Z) :=
  match fuel, l with
  | O, _ | _, [] => []
  | S n, _ => take 64 l :: blocks n (drop 64 l)
  end.

(** A block takes 64 bytes, so the length is fuel enough. *)
Definition sha256_bytes (l : list Z) : list Z :=
  let p := pad l in
  foldl sha_block initial_hash (blocks (length p) p) ≫= big_endian 4.

(** ** HMAC *)

Definition hmac_bytes (key msg : list Z) : list Z :=
  let k := if (64 <? length key)%nat then sha256_bytes key else key in
  let k := k ++ replicate (64 - length k) 0 in
  sha256_bytes ((Z.lxor 92 <$> k) ++ sha256_bytes ((Z.lxor 54 <$> k) ++ msg)).

(** [hmac.New(sha256.New, key)], one [Write] and [Sum]. *)
Definition hmac_sha256 (key msg : string) : string := string_of (hmac_bytes (bytes_of key) (bytes_of msg)).

(** FIPS 180-4 and RFC 4231. *)
Example sha256_abc :
  hex_EncodeToString (string_of (sha256_bytes (bytes_of "abc"))) =
    "ba7816bf8f01cfea414140de5dae2223b00361a396177a9cb410ff61f20015ad".
Proof. vm_compute. reflexivity. Qed.

Example hmac_jefe :
  hex_EncodeToString (hmac_sha256 "Jefe" "what do ya want for nothing?") =
    "5bdcc146bf60754e6a042426089575c75a003f089d2739839dec58b964ec3843".
Proof. vm_compute. reflexivity. Qed.

(** ** Facts *)

(** What [EncodeToString] writes. *)
Definition lower_hex (c : Ascii.ascii) : bool :=
  let n := Z.of_nat (Ascii.nat_of_ascii c) in
  ((48 <=? n) && (n <=? 57)) || ((97 <=? n) && (n <=? 102)).

Lemma hex_roundtrip s : hex_DecodeString (hex_EncodeToString s) = Some s.
Proof.
  induction s as [|c s IH]; [done|]. cbn [hex_EncodeToString].
  assert (forall r, hex_DecodeString (hex_char (Z.of_nat (Ascii.nat_of_ascii c) / 16) +:+
    hex_char (Z.of_nat (Ascii.nat_of_ascii c) mod 16) +:+ r) =
    (d ← hex_DecodeString r; Some (String c d))) as ->.
  { intros r. clear. destruct c as [[] [] [] [] [] [] [] []]; reflexivity. }
  by rewrite IH.
Qed.

Lemma hex_length s : String.length (hex_EncodeToString s) = (2 * String.length s)%nat.
Proof.
  induction s as [|c s IH]; [done|]. cbn [hex_EncodeToString]. rewrite !string_length_app, IH.
  assert (String.length (hex_char (Z.of_nat (Ascii.nat_of_ascii c) / 16)) = 1%nat /\
    String.length (hex_char (Z.of_nat (Ascii.nat_of_ascii c) mod 16)) = 1%nat) as [-> ->].
  { clear. destruct c as [[] [] [] [] [] [] [] []]; split; reflexivity. }
  simpl. lia.
Qed.

(** *** The digest is 32 bytes *)

Lemma sha_round_length st kw : length st = 8%nat -> length (sha_round st kw) = 8%nat.
Proof. intros Hl. by destruct st as [|? [|? [|? [|? [|? [|? [|? [|? [|]]]]]]]]]. Qed.

Lemma foldl_length {A B} (f : list A -> B -> list A) n l st :
  (forall st x, length st = n -> length (f st x) = n) -> length st = n -> length (foldl f st l) = n.
Proof. intros Hf. revert st. induction l as [|x l IH]; intros st Hst; simpl; [done|]. apply IH, Hf, Hst. Qed.

Lemma sha_block_length st b : length st = 8%nat -> length (sha_block st b) = 8%nat.
Proof.
  intros Hst. unfold sha_block. rewrite length_zip_with.
  rewrite (foldl_length sha_round 8 _ st); [lia|apply sha_round_length|done].
Qed.

Lemma sha256_length l : length (sha256_bytes l) = 32%nat.
Proof.
  unfold sha256_bytes.
  pose proof (foldl_length sha_block 8 (blocks (length (pad l)) (pad l)) initial_hash
    sha_block_length eq_refl) as Hl.
  destruct (foldl _ _ _) as [|? [|? [|? [|? [|? [|? [|? [|? [|]]]]]]]]]; done.
Qed.

Lemma digest_nonempty l : hex_EncodeToString (string_of (sha256_bytes l)) <> "".
Proof.
  intros Heq. apply (f_equal String.length) in Heq. rewrite hex_length in Heq.
  pose proof (sha256_length l) as Hl. by destruct (sha256_bytes l).
Qed.

Lemma hmac_nonempty key msg : hex_EncodeToString (hmac_sha256 key msg) <> "".
Proof. apply digest_nonempty. Qed.
