(* ===== verification/Time.v ===== *)
(** The part of package time the program uses: the proleptic Gregorian calendar
    and the layouts [time.RFC3339] and "2006-01-02T15:04:05Z".  Instants are
    seconds since 1970 UTC; a zone is its offset in seconds. *)

From S2P Require Import Prelude.

(** ** The calendar

    Days are counted from 1970-01-01.  Years of the computation begin in March,
    so that a leap day ends them; an era is 400 of them. *)

Definition era_days : Z := 146097.

(** The year of the era, by its day. *)
Definition year_of_era (doe : Z) : Z := (doe - doe / 1460 + doe / 36524 - doe / 146096) / 365.

Definition days_before (yoe : Z) : Z := 365 * yoe + yoe / 4 - yoe / 100.

(** Days of the year before the month ([0] is March). *)
Definition month_days (mp : Z) : Z := (153 * mp + 2) / 5.

Definition civil_of_days (z : Z) : Z * Z * Z :=
  let z := z + 719468 in
  let era := z / era_days in
  let doe := z mod era_days in
  let yoe := year_of_era doe in
  let doy := doe - days_before yoe in
  let mp := (5 * doy + 2) / 153 in
  let m := if mp <? 10 then mp + 3 else mp - 9 in
  (yoe + 400 * era + (if m <=? 2 then 1 else 0), m, doy - month_days mp + 1).

Definition days_of_civil (y m d : Z) : Z :=
  let y := if m <=? 2 then y - 1 else y in
  let mp := if 2 <? m then m - 3 else m + 9 in
  era_days * (y / 400) + days_before (y mod 400) + month_days mp + d - 1 - 719468.

Definition leap (y : Z) : bool := (y mod 4 =? 0) && (negb (y mod 100 =? 0) || (y mod 400 =? 0)).

Definition days_in (y m : Z) : Z :=
  if m =? 2 then (if leap y then 29 else 28)
  else if (m =? 4) || (m =? 6) || (m =? 9) || (m =? 11) then 30 else 31.

(** What the computations above need of the days of an era, checked for each. *)
Definition era_day_ok (doe : Z) : bool :=
  let yoe := year_of_era doe in
  let doy := doe - days_before yoe in
  let mp := (5 * doy + 2) / 153 in
  let m := if mp <? 10 then mp + 3 else mp - 9 in
  let y := yoe + (if m <=? 2 then 1 else 0) in
  let d := doy - month_days mp + 1 in
  (0 <=? yoe) && (yoe <? 400) && (0 <=? mp) && (mp <? 12) && (1 <=? d) && (d <=? days_in y m).

Fixpoint all_below (n : nat) (p : Z -> bool) (z : Z) : bool :=
  match n with O => true | S n' => p z && all_below n' p (z + 1) end.

Lemma all_below_spec n p z x : all_below n p z = true -> z <= x < z + Z.of_nat n -> p x = true.
Proof.
  revert z. induction n as [|n IH]; intros z; simpl; [lia|]. intros [Hz Hn]%andb_true_iff Hx.
  destruct (decide (x = z)) as [->|]; [done|]. apply (IH (z + 1)); [done|lia].
Qed.

Lemma era_day doe : 0 <= doe < era_days -> era_day_ok doe = true.
Proof.
  intros Hd. apply (all_below_spec (Z.to_nat era_days) _ 0); [vm_compute; reflexivity|].
  rewrite Z2Nat.id by done. lia.
Qed.

Lemma leap_era y e : leap (y + 400 * e) = leap y.
Proof.
  unfold leap. replace (y + 400 * e) with (y + 100 * e * 4) at 1 by lia.
  rewrite Z.mod_add by lia. replace (y + 400 * e) with (y + 4 * e * 100) at 1 by lia.
  rewrite Z.mod_add by lia. replace (y + 400 * e) with (y + e * 400) by lia.
  by rewrite Z.mod_add by lia.
Qed.

Lemma civil_roundtrip z :
  let '(y, m, d) := civil_of_days z in
  days_of_civil y m d = z /\ 1 <= m <= 12 /\ 1 <= d <= days_in y m.
Proof.
  unfold civil_of_days. cbv zeta. set (z' := z + 719468).
  pose proof (Z.mod_pos_bound z' era_days ltac:(done)) as Hr.
  pose proof (Z.div_mod z' era_days ltac:(done)) as Hz.
  pose proof (era_day (z' mod era_days) Hr) as Hok. unfold era_day_ok in Hok. cbv zeta in Hok.
  set (doe := z' mod era_days) in *. set (era := z' / era_days) in *.
  set (yoe := year_of_era doe) in *. set (doy := doe - days_before yoe) in *.
  set (mp := (5 * doy + 2) / 153) in *. set (m := if mp <? 10 then mp + 3 else mp - 9) in *.
  repeat rewrite andb_true_iff in Hok. rewrite !Z.leb_le, !Z.ltb_lt in Hok.
  destruct Hok as [[[[[Hy0 Hy1] Hm0] Hm1] Hd0] Hd1].
  assert (1 <= m <= 12 /\ (if 2 <? m then m - 3 else m + 9) = mp /\ (m <=? 2) = (10 <=? mp)) as (Hm & Hmp & Hm2).
  { subst m. destruct (Z.ltb_spec mp 10).
    - split; [lia|]. destruct (Z.ltb_spec 2 (mp + 3)), (Z.leb_spec (mp + 3) 2), (Z.leb_spec 10 mp); lia.
    - split; [lia|]. destruct (Z.ltb_spec 2 (mp - 9)), (Z.leb_spec (mp - 9) 2), (Z.leb_spec 10 mp); lia. }
  split_and!; [|lia..|].
  - unfold days_of_civil. rewrite Hmp.
    assert ((if m <=? 2 then yoe + 400 * era + (if m <=? 2 then 1 else 0) - 1
             else yoe + 400 * era + (if m <=? 2 then 1 else 0)) = yoe + era * 400) as ->
      by (destruct (m <=? 2); lia).
    rewrite Z.div_add, Z.mod_add by lia. rewrite Z.div_small, Z.mod_small by lia.
    subst doy z'. lia.
  - replace (yoe + 400 * era + (if m <=? 2 then 1 else 0))
      with (yoe + (if m <=? 2 then 1 else 0) + 400 * era) by lia.
    unfold days_in in *. by rewrite leap_era.
Qed.

(** ** Text *)

Definition pad2 (n : Z) (s : string) : string :=
  String (digit_char (n / 10 mod 10)) (String (digit_char (n mod 10)) s).
Definition pad4 (n : Z) (s : string) : string := pad2 (n / 100) (pad2 (n mod 100) s).

Definition year_text (y : Z) (s : string) : string :=
  if y <? 0 then "-" +:+ (if -10000 <? y then pad4 (- y) s else pretty (- y) +:+ s)
  else if y <? 10000 then pad4 y s else pretty y +:+ s.

(** Date and time of day of an instant in a zone, then [rest]. *)
Definition clock_text (offset t : Z) (rest : string) : string :=
  let local := t + offset in
  let '(y, m, d) := civil_of_days (local / 86400) in
  let sec := local mod 86400 in
  year_text y ("-" +:+ pad2 m ("-" +:+ pad2 d ("T" +:+
    pad2 (sec / 3600) (":" +:+ pad2 (sec / 60 mod 60) (":" +:+ pad2 (sec mod 60) rest))))).

Lemma clock_text_nonempty offset t rest : String.eqb (clock_text offset t rest) "" = false.
Proof.
  unfold clock_text. destruct (civil_of_days _) as [[y m] d]. unfold year_text.
  destruct (y <? 0); [done|]. destruct (y <? 10000); [done|]. by destruct (pretty y).
Qed.

(** [Z07:00] prints whole minutes. *)
Definition zone_text (offset : Z) : string :=
  if offset =? 0 then "Z"
  else
    let m := Z.abs (Z.quot offset 60) in
    (if offset <? 0 then "-" else "+") +:+ pad2 (m / 60) (":" +:+ pad2 (m mod 60) "").

Definition Format_RFC3339 (offset t : Z) : string := clock_text offset t (zone_text offset).

(** "2006-01-02T15:04:05Z": the Z is a literal, whatever the zone. *)
Definition Format_Z (offset t : Z) : string := clock_text offset t "Z".

(** *** Parsing, with the strictness of [time.Time.UnmarshalJSON] *)

Fixpoint take_digits (n : nat) (acc : Z) (s : string) : option (Z * string) :=
  match n with
  | O => Some (acc, s)
  | S n' =>
      match s with
      | String c s' => d ← digit_of c; take_digits n' (10 * acc + d) s'
      | EmptyString => None
      end
  end.

(** [n] digits with a value between [lo] and [hi]. *)
Definition number (n : nat) (lo hi : Z) (s : string) : option (Z * string) :=
  '(z, s) ← take_digits n 0 s; if (lo <=? z) && (z <=? hi) then Some (z, s) else None.

Definition expect (c : string) (s : string) : option string :=
  if HasPrefix s c then Some (TrimPrefix s c) else None.

(** A run of digits, and as nanoseconds its first nine. *)
Fixpoint fraction (unit_ acc : Z) (s : string) : Z * string :=
  match s with
  | String c s' =>
      match digit_of c with
      | Some d => fraction (unit_ / 10) (acc + d * unit_) s'
      | None => (acc, s)
      end
  | EmptyString => (acc, s)
  end.

Definition parse_fraction (s : string) : option (Z * string) :=
  match expect "." s with
  | None => Some (0, s)
  | Some s' =>
      '(_, _) ← take_digits 1 0 s';
      Some (fraction 100000000 0 s')
  end.

Definition signed_zone (sign : Z) (s : string) : option Z :=
  '(h, s) ← number 2 0 23 s; s ← expect ":" s; '(m, s) ← number 2 0 59 s;
  if String.eqb s "" then Some (sign * (h * 3600 + m * 60)) else None.

Definition parse_zone (s : string) : option Z :=
  if String.eqb s "Z" then Some 0
  else
    match expect "+" s, expect "-" s with
    | Some s, _ => signed_zone 1 s
    | None, Some s => signed_zone (-1) s
    | None, None => None
    end.

(** Nanoseconds since 1970. *)
Definition Parse_RFC3339 (s : string) : option Z :=
  '(y, s) ← number 4 0 9999 s; s ← expect "-" s;
  '(m, s) ← number 2 1 12 s; s ← expect "-" s;
  '(d, s) ← number 2 1 (days_in y m) s; s ← expect "T" s;
  '(h, s) ← number 2 0 23 s; s ← expect ":" s;
  '(mi, s) ← number 2 0 59 s; s ← expect ":" s;
  '(sec, s) ← number 2 0 59 s;
  '(ns, s) ← parse_fraction s;
  offset ← parse_zone s;
  Some ((days_of_civil y m d * 86400 + h * 3600 + mi * 60 + sec - offset) * 1000000000 + ns).

Example parse_formatted :
  Format_RFC3339 7200 1700000000 = "2023-11-15T00:13:20+02:00" /\
  Parse_RFC3339 "2023-11-15T00:13:20.25+02:00" = Some 1700000000250000000 /\
  Parse_RFC3339 "2023-02-29T00:00:00Z" = None.
Proof. vm_compute. split_and!; reflexivity. Qed.

(** ** Round trip *)

Lemma pad2_digits n s k acc : 0 <= n < 100 ->
  take_digits (S (S k)) acc (pad2 n s) = take_digits k (100 * acc + n) s.
Proof.
  intros Hn. unfold pad2. cbn [take_digits].
  pose proof (Z.mod_pos_bound (n / 10) 10 ltac:(done)).
  pose proof (Z.mod_pos_bound n 10 ltac:(done)).
  rewrite !digit_of_char by done. cbn [mbind option_bind]. f_equal.
  rewrite (Z.mod_small (n / 10) 10) by (split; [apply Z.div_pos; lia|apply Z.div_lt_upper_bound; lia]).
  pose proof (Z.div_mod n 10 ltac:(done)). lia.
Qed.

Lemma number_pad2 lo hi n s : 0 <= n < 100 -> lo <= n <= hi -> number 2 lo hi (pad2 n s) = Some (n, s).
Proof.
  intros Hn Hr. unfold number. rewrite pad2_digits by done. cbn.
  replace (100 * 0 + n) with n by lia.
  by rewrite (proj2 (Z.leb_le lo n)), (proj2 (Z.leb_le n hi)) by lia.
Qed.

Lemma number_pad4 lo hi n s : 0 <= n < 10000 -> lo <= n <= hi -> number 4 lo hi (pad4 n s) = Some (n, s).
Proof.
  intros Hn Hr. unfold number, pad4.
  pose proof (Z.mod_pos_bound n 100 ltac:(done)). pose proof (Z.div_mod n 100 ltac:(done)).
  rewrite pad2_digits by lia. rewrite pad2_digits by lia. cbn [take_digits mbind option_bind].
  replace (100 * (100 * 0 + n / 100) + n mod 100) with n by lia.
  by rewrite (proj2 (Z.leb_le lo n)), (proj2 (Z.leb_le n hi)) by lia.
Qed.

Lemma expect_app c s : expect c (c +:+ s) = Some s.
Proof. unfold expect, HasPrefix. by rewrite prefix_app, TrimPrefix_app. Qed.

Lemma expect_other a c s : c <> a -> expect (String a "") (String c s) = None.
Proof.
  intros Hne. unfold expect, HasPrefix. cbn [String.prefix].
  destruct (Ascii.ascii_dec a c); [congruence|done].
Qed.

Lemma zone_roundtrip offset :
  offset mod 60 = 0 -> Z.abs offset < 86400 -> parse_zone (zone_text offset) = Some offset.
Proof.
  intros Hm Hr. unfold zone_text. destruct (Z.eqb_spec offset 0) as [->|Hne]; [done|].
  set (a := Z.abs (Z.quot offset 60)).
  assert (Z.abs offset = 60 * a) as Ha.
  { subst a. assert (offset = offset / 60 * 60) as He by (rewrite (Z.div_mod offset 60) at 1; lia).
    rewrite He at 2. rewrite Z.quot_mul by done. lia. }
  pose proof (Z.mod_pos_bound a 60 ltac:(done)). pose proof (Z.div_mod a 60 ltac:(done)).
  assert (0 <= a / 60 < 24) by lia.
  assert (forall sign, signed_zone sign (pad2 (a / 60) (":" +:+ pad2 (a mod 60) "")) =
    Some (sign * (60 * a))) as Hz.
  { intros sign. unfold signed_zone. rewrite number_pad2 by lia. cbn [mbind option_bind].
    rewrite expect_app. cbn [mbind option_bind]. rewrite number_pad2 by lia. cbn. f_equal. lia. }
  unfold parse_zone. set (x := pad2 (a / 60) _) in *. clearbody x.
  destruct (Z.ltb_spec offset 0).
  - rewrite expect_app. change (signed_zone (-1) x = Some offset). rewrite Hz. f_equal. lia.
  - rewrite expect_app. change (signed_zone 1 x = Some offset). rewrite Hz. f_equal. lia.
Qed.

(** A year the layouts print with four digits. *)
Definition plain_year (offset t : Z) : Prop := 0 <= (civil_of_days ((t + offset) / 86400)).1.1 < 10000.

(** The digits of such a text. *)
Lemma clock_fields offset t z : plain_year offset t -> exists y m d h mi sec,
  clock_text offset t z = pad4 y ("-" +:+ pad2 m ("-" +:+ pad2 d ("T" +:+
    pad2 h (":" +:+ pad2 mi (":" +:+ pad2 sec z))))) /\
  0 <= y < 10000 /\ 1 <= m <= 12 /\ (1 <= d <= days_in y m /\ d <= 31) /\
  0 <= h < 24 /\ 0 <= mi < 60 /\ 0 <= sec < 60 /\
  days_of_civil y m d * 86400 + h * 3600 + mi * 60 + sec = t + offset.
Proof.
  intros Hy. unfold clock_text, plain_year in *. cbv zeta.
  set (local := t + offset) in *. pose proof (civil_roundtrip (local / 86400)) as Hc.
  destruct (civil_of_days _) as [[y m] d]. cbn [fst] in Hy. destruct Hc as (Hdays & Hm & Hd).
  pose proof (Z.mod_pos_bound local 86400 ltac:(done)) as Hs.
  pose proof (Z.div_mod local 86400 ltac:(done)) as Hl.
  set (sec := local mod 86400) in *.
  pose proof (Z.mod_pos_bound (sec / 60) 60 ltac:(done)).
  pose proof (Z.mod_pos_bound sec 60 ltac:(done)).
  exists y, m, d, (sec / 3600), (sec / 60 mod 60), (sec mod 60). split_and!; try lia.
  - unfold year_text. destruct (Z.ltb_spec y 0); [lia|]. by destruct (Z.ltb_spec y 10000); [|lia].
  - unfold days_in in Hd. repeat case_match; lia.
  - apply Z.div_pos; lia.
  - apply Z.div_lt_upper_bound; lia.
  - assert (sec = sec / 3600 * 3600 + sec / 60 mod 60 * 60 + sec mod 60); [|lia].
    pose proof (Z.div_mod sec 60 ltac:(done)). pose proof (Z.div_mod (sec / 60) 60 ltac:(done)).
    rewrite Z.div_div in * by done. change (60 * 60) with 3600 in *. lia.
Qed.

Lemma parse_clock offset t z : plain_year offset t ->
  (forall c s, z = String c s -> digit_of c = None /\ c <> Ascii.ascii_of_nat 46) ->
  Parse_RFC3339 (clock_text offset t z) =
    (o ← parse_zone z; Some ((t + offset - o) * 1000000000)).
Proof.
  intros Hy Hz. destruct (clock_fields offset t z Hy) as (y & m & d & h & mi & sec & -> & ? & ? & [? ?] & ? & ? & ? & Heq).
  unfold Parse_RFC3339. rewrite number_pad4 by lia. cbn [mbind option_bind]. rewrite expect_app. cbn [mbind option_bind].
  do 5 (rewrite number_pad2 by lia; cbn [mbind option_bind]; try (rewrite expect_app; cbn [mbind option_bind])).
  assert (parse_fraction z = Some (0, z)) as ->.
  { unfold parse_fraction. destruct z as [|c s]; [done|]. destruct (Hz c s eq_refl) as [_ Hdot].
    change (expect "." (String c s)) with (expect (String (Ascii.ascii_of_nat 46) "") (String c s)).
    by rewrite expect_other. }
  cbn [mbind option_bind]. destruct (parse_zone z) as [o|]; [|done]. cbn. do 2 f_equal. lia.
Qed.

(** What is printed with the zone is read as the same instant; what is printed
    with the literal Z is read with the offset added. *)
Lemma rfc3339_roundtrip offset t :
  plain_year offset t -> offset mod 60 = 0 -> Z.abs offset < 86400 ->
  Parse_RFC3339 (Format_RFC3339 offset t) = Some (t * 1000000000).
Proof.
  intros Hy Hm Ho. unfold Format_RFC3339. rewrite parse_clock; [|done|].
  - rewrite zone_roundtrip by done. cbn. do 2 f_equal. lia.
  - intros c s. unfold zone_text. repeat case_match; intros [= <- _]; done.
Qed.

Lemma literal_zone_shifts offset t :
  plain_year offset t -> Parse_RFC3339 (Format_Z offset t) = Some ((t + offset) * 1000000000).
Proof.
  intros Hy. unfold Format_Z. rewrite parse_clock; [|done|].
  - cbn. do 2 f_equal. lia.
  - by intros c s [= <- _].
Qed.
