(* ===== verification/Url.v ===== *)
(** Go's [net/url] as the signed URLs use it: escaping, query strings,
    [Parse] and [URL.String]. *)

From S2P Require Import Prelude Netip.

(** ** Characters *)

Definition ch (n : nat) : Ascii.ascii := Ascii.ascii_of_nat n.
Definition code (c : Ascii.ascii) : Z := Z.of_nat (Ascii.nat_of_ascii c).

(** [c] is one of the bytes of [s]. *)
Fixpoint one_of (s : string) (c : Ascii.ascii) : bool :=
  match s with EmptyString => false | String d s' => Ascii.eqb c d || one_of s' c end.

Definition letter (c : Ascii.ascii) : bool :=
  ((97 <=? code c) && (code c <=? 122)) || ((65 <=? code c) && (code c <=? 90)).
Definition digit (c : Ascii.ascii) : bool := (48 <=? code c) && (code c <=? 57).

Fixpoint string_all (p : Ascii.ascii -> bool) (s : string) : bool :=
  match s with EmptyString => true | String c s' => p c && string_all p s' end.

(** [strings.Cut]: what is before and after the first [sep], if there is one. *)
Fixpoint cut (sep : Ascii.ascii) (s : string) : string * option string :=
  match s with
  | EmptyString => ("", None)
  | String c s' =>
      if Ascii.eqb c sep then ("", Some s')
      else let '(a, b) := cut sep s' in (String c a, b)
  end.

(** The same at the last [sep]. *)
Fixpoint cut_last (sep : Ascii.ascii) (s : string) : option (string * string) :=
  match s with
  | EmptyString => None
  | String c s' =>
      match cut_last sep s' with
      | Some (a, b) => Some (String c a, b)
      | None => if Ascii.eqb c sep then Some ("", s') else None
      end
  end.

(** [strings.Split] at one byte. *)
Fixpoint split_at (sep : Ascii.ascii) (s : string) : list string :=
  match s with
  | EmptyString => [""]
  | String c s' =>
      if Ascii.eqb c sep then "" :: split_at sep s'
      else match split_at sep s' with [] => [String c ""] | p :: ps => String c p :: ps end
  end.

(** ** Escaping *)

Inductive mode :=
| encodePath | encodeHost | encodeZone | encodeUserPassword | encodeQueryComponent
| encodeFragment.

Definition host_mode (m : mode) : bool := match m with encodeHost | encodeZone => true | _ => false end.
Definition query_mode (m : mode) : bool := match m with encodeQueryComponent => true | _ => false end.

(** The double quote has code 34. *)
Definition shouldEscape (c : Ascii.ascii) (m : mode) : bool :=
  if letter c || digit c then false
  else if host_mode m && (one_of "!$&'()*+,;=:[]<>" c || (code c =? 34)) then false
  else if one_of "-_.~" c then false
  else if one_of "$&+,/:;=?@" c then
    match m with
    | encodePath => one_of "?" c
    | encodeUserPassword => one_of "@/?:" c
    | encodeQueryComponent => true
    | encodeFragment => false
    | encodeHost | encodeZone => true
    end
  else if match m with encodeFragment => one_of "!()*" c | _ => false end then false
  else true.

Definition hex_upper (d : Z) : Ascii.ascii :=
  match String.get (Z.to_nat d) "0123456789ABCDEF" with Some c => c | None => ch 0 end.

Fixpoint escape (s : string) (m : mode) : string :=
  match s with
  | EmptyString => ""
  | String c s' =>
      if shouldEscape c m
      then if query_mode m && Ascii.eqb c (ch 32) then String (ch 43) (escape s' m)
           else String (ch 37) (String (hex_upper (code c / 16))
                  (String (hex_upper (code c mod 16)) (escape s' m)))
      else String c (escape s' m)
  end.

(** May [%xy] with value [v] stand in a text of this mode? *)
Definition escape_allowed (m : mode) (v : Z) : bool :=
  match m with
  | encodeHost => (128 <=? v) || (v =? 37)
  | encodeZone => (v =? 37) || (v =? 32) || negb (shouldEscape (ch (Z.to_nat v)) encodeHost)
  | _ => true
  end.

(** [None] is an escape error or an invalid host. *)
Fixpoint unescape (s : string) (m : mode) : option string :=
  match s with
  | EmptyString => Some ""
  | String c s' =>
      if Ascii.eqb c (ch 37) then
        match s' with
        | String a (String b rest) =>
            x ← hex_digit a; y ← hex_digit b;
            let v := 16 * x + y in
            if escape_allowed m v
            then r ← unescape rest m; Some (String (ch (Z.to_nat v)) r) else None
        | _ => None
        end
      else if Ascii.eqb c (ch 43) && query_mode m
      then r ← unescape s' m; Some (String (ch 32) r)
      else if host_mode m && (code c <? 128) && shouldEscape c m then None
      else r ← unescape s' m; Some (String c r)
  end.

(** ** url.Values *)

Abbreviation Values := (gmap string (list string)).

Definition Get (q : Values) (key : string) : string :=
  match q !! key with Some (v :: _) => v | _ => "" end.
Definition Set' (key v : string) (q : Values) : Values := <[key := [v]]> q.
Definition Del (key : string) (q : Values) : Values := delete key q.

(** One piece between [&]s; a piece with [;] or a bad escape is dropped. *)
Definition add_pair (m : Values) (piece : string) : Values :=
  if one_of piece (ch 59) || String.eqb piece "" then m
  else
    let '(k, v) := cut (ch 61) piece in
    match unescape k encodeQueryComponent, unescape (default "" v) encodeQueryComponent with
    | Some key, Some value => <[key := default [] (m !! key) ++ [value]]> m
    | _, _ => m
    end.

(** [URL.Query]: the errors are ignored. *)
Definition Query (rawQuery : string) : Values := foldl add_pair ∅ (split_at (ch 38) rawQuery).

Definition query_pair (k v : string) : string :=
  escape k encodeQueryComponent +:+ "=" +:+ escape v encodeQueryComponent.

(** [Values.Encode]: by key. *)
Definition sorted_keys (q : Values) : list string :=
  merge_sort (fun a b => Is_true (String.leb a b)) (map_to_list q).*1.

Definition Encode (q : Values) : string :=
  String.concat "&" (k ← sorted_keys q; query_pair k <$> default [] (q !! k)).

(** ** URL *)

Record userinfo := mkUserinfo { ui_username : string; ui_password : option string }.

Record URL := mkURL {
  u_Scheme : string;
  u_Opaque : string;
  u_User : option userinfo;
  u_Host : string;
  u_Path : string;
  u_RawPath : string;
  u_OmitHost : bool;
  u_ForceQuery : bool;
  u_RawQuery : string;
  u_Fragment : string;
  u_RawFragment : string;
}.

Definition with_query (u : URL) (q : string) : URL :=
  mkURL (u_Scheme u) (u_Opaque u) (u_User u) (u_Host u) (u_Path u) (u_RawPath u) (u_OmitHost u)
    (u_ForceQuery u) q (u_Fragment u) (u_RawFragment u).
Definition no_force_query (u : URL) : URL :=
  mkURL (u_Scheme u) (u_Opaque u) (u_User u) (u_Host u) (u_Path u) (u_RawPath u) (u_OmitHost u)
    false (u_RawQuery u) (u_Fragment u) (u_RawFragment u).

(** *** Parse *)

(** [getScheme]: a scheme and the rest, or [None] for "missing protocol scheme". *)
Fixpoint scheme_run (full acc : string) (s : string) : option (string * string) :=
  match s with
  | EmptyString => Some ("", full)
  | String c s' =>
      if letter c then scheme_run full (acc +:+ String c "") s'
      else if digit c || one_of "+-." c
      then if String.eqb acc "" then Some ("", full) else scheme_run full (acc +:+ String c "") s'
      else if Ascii.eqb c colon then if String.eqb acc "" then None else Some (acc, s')
      else Some ("", full)
  end.

Definition getScheme (s : string) : option (string * string) := scheme_run s "" s.

Definition to_lower (c : Ascii.ascii) : Ascii.ascii :=
  if (65 <=? code c) && (code c <=? 90) then ch (Z.to_nat (code c + 32)) else c.
Fixpoint string_map (f : Ascii.ascii -> Ascii.ascii) (s : string) : string :=
  match s with EmptyString => "" | String c s' => String (f c) (string_map f s') end.

(** [validOptionalPort] *)
Definition validOptionalPort (port : string) : bool :=
  match port with
  | EmptyString => true
  | String c s => Ascii.eqb c colon && string_all digit s
  end.

(** [parseHost] of Go 1.25.0.  A bracketed host may have a zone after [%25]. *)
Definition parseHost (host : string) : option string :=
  if HasPrefix host "[" then
    '(inside, port) ← cut_last (ch 93) host;
    if negb (validOptionalPort port) then None
    else match String.index 0 "%25" inside with
         | Some z =>
             h1 ← unescape (String.substring 0 z inside) encodeHost;
             h2 ← unescape (String.substring z (String.length inside - z) inside) encodeZone;
             h3 ← unescape ("]" +:+ port) encodeHost;
             Some (h1 +:+ h2 +:+ h3)
         | None => unescape host encodeHost
         end
  else
    match cut_last colon host with
    | Some (_, port) => if validOptionalPort (String colon port) then unescape host encodeHost else None
    | None => unescape host encodeHost
    end.

Definition userinfo_char (c : Ascii.ascii) : bool :=
  letter c || digit c || one_of "-._:~!$&'()*+,;=%@" c.

Definition parseUser (s : string) : option userinfo :=
  if negb (string_all userinfo_char s) then None
  else match cut colon s with
       | (name, None) => n ← unescape name encodeUserPassword; Some (mkUserinfo n None)
       | (name, Some pw) =>
           n ← unescape name encodeUserPassword; p ← unescape pw encodeUserPassword;
           Some (mkUserinfo n (Some p))
       end.

Definition parseAuthority (authority : string) : option (option userinfo * string) :=
  match cut_last (ch 64) authority with
  | None => h ← parseHost authority; Some (None, h)
  | Some (user, host) => h ← parseHost host; u ← parseUser user; Some (Some u, h)
  end.

(** [setPath] and [setFragment]: the decoded text, and the original when it is
    not the canonical escaping. *)
Definition set_escaped (p : string) (m : mode) : option (string * string) :=
  d ← unescape p m; Some (d, if String.eqb p (escape d m) then "" else p).

Definition control_byte (c : Ascii.ascii) : bool := (code c <? 32) || (code c =? 127).

(** [count]: how many [sep] there are. *)
Fixpoint count_char (sep : Ascii.ascii) (s : string) : nat :=
  match s with
  | EmptyString => O
  | String c s' => if Ascii.eqb c sep then S (count_char sep s') else count_char sep s'
  end.

(** A final lone [?] only sets ForceQuery. *)
Definition cut_query (s : string) : string * string * bool :=
  match cut (ch 63) s with
  | (rest, None) => (rest, "", false)
  | (rest, Some EmptyString) => (rest, "", true)
  | (rest, Some q) => (rest, q, false)
  end.

(** [parse] after the scheme and the query were cut off; [via] is set for the
    target of a request. *)
Definition parse_rest (via : bool) (scheme rest query : string) (force : bool) : option URL :=
  let slash := HasPrefix rest "/" in
  if negb slash && negb (String.eqb scheme "")
  then Some (mkURL scheme rest None "" "" "" false force query "" "")
  else if negb slash && (via || one_of (fst (cut (ch 47) rest)) colon) then None
  else if (negb (String.eqb scheme "") || negb via && negb (HasPrefix rest "///")) && HasPrefix rest "//"
  then
    let '(authority, path) := cut (ch 47) (TrimPrefix rest "//") in
    '(user, host) ← parseAuthority authority;
    '(p, raw) ← set_escaped (match path with Some p => String (ch 47) p | None => "" end) encodePath;
    Some (mkURL scheme "" user host p raw false force query "" "")
  else
    '(p, raw) ← set_escaped rest encodePath;
    Some (mkURL scheme "" None "" p raw (negb (String.eqb scheme "") && slash) force query "" "").

(** [parse] of a text without fragment. *)
Definition parse (via : bool) (s : string) : option URL :=
  if negb (string_all (fun c => negb (control_byte c)) s) then None
  else if via && String.eqb s "" then None
  else if String.eqb s "*" then Some (mkURL "" "" None "" "*" "" false false "" "" "")
  else
    '(scheme, rest) ← getScheme s;
    let '(rest, query, force) := cut_query rest in
    parse_rest via (string_map to_lower scheme) rest query force.

Definition Parse (rawURL : string) : option URL :=
  let '(s, frag) := cut (ch 35) rawURL in
  u ← parse false s;
  match frag with
  | None | Some EmptyString => Some u
  | Some f =>
      '(d, raw) ← set_escaped f encodeFragment;
      Some (mkURL (u_Scheme u) (u_Opaque u) (u_User u) (u_Host u) (u_Path u) (u_RawPath u)
              (u_OmitHost u) (u_ForceQuery u) (u_RawQuery u) d raw)
  end.

(** The target of a request has no fragment. *)
Definition ParseRequestURI (s : string) : option URL := parse true s.

(** *** String *)

(** [validEncoded]: could the text be an escaping in this mode? *)
Definition valid_encoded (s : string) (m : mode) : bool :=
  string_all (fun c => one_of "!$&'()*+,;=:@[]%" c || negb (shouldEscape c m)) s.

Definition escaped (dec raw : string) (m : mode) : string :=
  if negb (String.eqb raw "") && valid_encoded raw m && bool_decide (unescape raw m = Some dec)
  then raw
  else if (match m with encodePath => String.eqb dec "*" | _ => false end) then "*"
  else escape dec m.

Definition EscapedPath (u : URL) : string := escaped (u_Path u) (u_RawPath u) encodePath.
Definition EscapedFragment (u : URL) : string := escaped (u_Fragment u) (u_RawFragment u) encodeFragment.

Definition Userinfo_String (ui : userinfo) : string :=
  escape (ui_username ui) encodeUserPassword +:+
  match ui_password ui with Some p => ":" +:+ escape p encodeUserPassword | None => "" end.

Definition authority_String (u : URL) : string :=
  if String.eqb (u_Scheme u) "" && String.eqb (u_Host u) "" && negb (bool_decide (is_Some (u_User u)))
  then ""
  else if u_OmitHost u && String.eqb (u_Host u) "" && negb (bool_decide (is_Some (u_User u))) then ""
  else
    (if negb (String.eqb (u_Host u) "") || negb (String.eqb (u_Path u) "") || bool_decide (is_Some (u_User u))
     then "//" else "") +:+
    match u_User u with Some ui => Userinfo_String ui +:+ "@" | None => "" end +:+
    escape (u_Host u) encodeHost.

(** The path, kept apart from the host, and from a scheme it could look like. *)
Definition path_String (u : URL) (before : string) : string :=
  let path := EscapedPath u in
  (if negb (String.eqb path "") && negb (HasPrefix path "/") && negb (String.eqb (u_Host u) "")
   then "/" else "") +:+
  (if String.eqb before "" && (String.eqb (u_Host u) "" || String.eqb path "" || HasPrefix path "/")
      && one_of (fst (cut (ch 47) path)) colon then "./" else "") +:+ path.

Definition URL_String (u : URL) : string :=
  let scheme := if String.eqb (u_Scheme u) "" then "" else u_Scheme u +:+ ":" in
  (if negb (String.eqb (u_Opaque u) "") then scheme +:+ u_Opaque u
   else let before := scheme +:+ authority_String u in before +:+ path_String u before) +:+
  (if u_ForceQuery u || negb (String.eqb (u_RawQuery u) "") then "?" +:+ u_RawQuery u else "") +:+
  (if String.eqb (u_Fragment u) "" then "" else "#" +:+ EscapedFragment u).
