(* ===== verification/UrlFacts.v ===== *)
(** Facts on query strings and on plain URLs: what [Encode] writes [Query]
    reads back, and a URL of plain parts parses into them. *)

From S2P Require Import Prelude Netip Hmac Url.

(** ** Strings and predicates on their bytes *)

Lemma string_all_app p a b : string_all p (a +:+ b) = string_all p a && string_all p b.
Proof. induction a as [|c a IH]; simpl; [done|]. by rewrite IH, andb_assoc. Qed.

Lemma string_all_impl (p q : Ascii.ascii -> bool) s :
  (forall c, p c = true -> q c = true) -> string_all p s = true -> string_all q s = true.
Proof.
  intros Hpq. induction s as [|c s IH]; simpl; [done|]. rewrite !andb_true_iff. naive_solver.
Qed.

Definition not_byte (sep c : Ascii.ascii) : bool := negb (Ascii.eqb c sep).

Lemma not_byte_ne sep c : sep <> c -> string_all (not_byte sep) (String c "") = true.
Proof. unfold not_byte. intros Hne. simpl. destruct (Ascii.eqb_spec c sep); [by subst|done]. Qed.

Lemma cut_here sep a b : string_all (not_byte sep) a = true -> cut sep (a +:+ String sep b) = (a, Some b).
Proof.
  unfold not_byte. induction a as [|c a IH]; simpl.
  - by rewrite Ascii.eqb_refl.
  - intros [Hc Ha]%andb_true_iff. destruct (Ascii.eqb c sep); [done|]. by rewrite IH.
Qed.

Lemma cut_none sep a : string_all (not_byte sep) a = true -> cut sep a = (a, None).
Proof.
  unfold not_byte. induction a as [|c a IH]; simpl; [done|].
  intros [Hc Ha]%andb_true_iff. destruct (Ascii.eqb c sep); [done|]. by rewrite IH.
Qed.

Lemma cut_last_none sep a : string_all (not_byte sep) a = true -> cut_last sep a = None.
Proof.
  unfold not_byte. induction a as [|c a IH]; simpl; [done|].
  intros [Hc Ha]%andb_true_iff. rewrite IH by done. by destruct (Ascii.eqb c sep).
Qed.

Lemma cut_last_here sep a b :
  string_all (not_byte sep) b = true -> cut_last sep (a +:+ String sep b) = Some (a, b).
Proof.
  intros Hb. induction a as [|c a IH]; simpl.
  - by rewrite cut_last_none, Ascii.eqb_refl.
  - by rewrite IH.
Qed.

(** The last separator splits in one way only. *)
Lemma last_split_inj sep a b a' b' :
  string_all (not_byte sep) b = true -> string_all (not_byte sep) b' = true ->
  a +:+ String sep b = a' +:+ String sep b' -> a = a' /\ b = b'.
Proof.
  intros Hb Hb' Heq. pose proof (cut_last_here sep a b Hb) as H1.
  rewrite Heq, (cut_last_here sep a' b' Hb') in H1. by simplify_eq.
Qed.

Lemma one_of_none s c : string_all (not_byte c) s = true -> one_of s c = false.
Proof.
  unfold not_byte. induction s as [|d s IH]; simpl; [done|].
  intros [Hd Hs]%andb_true_iff. rewrite IH by done. rewrite orb_false_r.
  destruct (Ascii.eqb_spec c d) as [->|]; [by rewrite Ascii.eqb_refl in Hd|done].
Qed.

Lemma split_at_none sep a : string_all (not_byte sep) a = true -> split_at sep a = [a].
Proof.
  unfold not_byte. induction a as [|c a IH]; simpl; [done|].
  intros [Hc Ha]%andb_true_iff. destruct (Ascii.eqb c sep); [done|]. by rewrite IH.
Qed.

Lemma split_at_here sep a b :
  string_all (not_byte sep) a = true -> split_at sep (a +:+ String sep b) = a :: split_at sep b.
Proof.
  unfold not_byte. induction a as [|c a IH]; simpl.
  - by rewrite Ascii.eqb_refl.
  - intros [Hc Ha]%andb_true_iff. destruct (Ascii.eqb c sep); [done|]. by rewrite IH.
Qed.

Lemma split_concat sep ps :
  ps <> [] -> Forall (fun p => string_all (not_byte sep) p = true) ps ->
  split_at sep (String.concat (String sep "") ps) = ps.
Proof.
  intros Hne Hps. induction ps as [|p ps IH]; [done|]. apply Forall_cons in Hps as [Hp Hps].
  destruct ps as [|q ps]; [by apply split_at_none|].
  change (String.concat (String sep "") (p :: q :: ps))
    with (p +:+ String sep "" +:+ String.concat (String sep "") (q :: ps)).
  change (String sep "" +:+ ?x) with (String sep x). rewrite split_at_here by done. by rewrite IH.
Qed.

(** ** Properties of all bytes, by computation *)

Definition every_byte : list Ascii.ascii := Ascii.ascii_of_nat <$> seq 0 256.

Lemma elem_of_every_byte c : c ∈ every_byte.
Proof.
  apply list_elem_of_fmap. exists (Ascii.nat_of_ascii c). rewrite Ascii.ascii_nat_embedding. split; [done|].
  apply elem_of_seq. pose proof (Ascii.nat_ascii_bounded c). lia.
Qed.

Lemma by_bytes (P Q : Ascii.ascii -> bool) :
  forallb (fun c => implb (P c) (Q c)) every_byte = true -> forall c, P c = true -> Q c = true.
Proof.
  intros Hall c HP. rewrite forallb_forall in Hall.
  specialize (Hall c (proj1 (list_elem_of_In _ _) (elem_of_every_byte c))). by rewrite HP in Hall.
Qed.

Ltac bytes := refine (by_bytes _ _ _); vm_compute; reflexivity.

(** ** Query strings *)

(** What an escaped component is made of. *)
Definition component_byte (c : Ascii.ascii) : bool :=
  letter c || digit c || one_of "-_.~+%" c.

Lemma escape_component s : string_all component_byte (escape s encodeQueryComponent) = true.
Proof.
  assert (forall c, true = true -> string_all component_byte (escape (String c "") encodeQueryComponent) = true)
    as Hc by bytes.
  induction s as [|c s IH]; [done|]. specialize (Hc c eq_refl). revert Hc. cbn [escape].
  destruct (shouldEscape c _); [destruct (_ && _)|]; cbn [string_all];
    intros [-> Hc]%andb_true_iff; [exact IH| |exact IH].
  apply andb_true_iff in Hc as [-> Hc]. apply andb_true_iff in Hc as [-> _]. exact IH.
Qed.

Lemma unescape_escape s :
  unescape (escape s encodeQueryComponent) encodeQueryComponent = Some s.
Proof.
  assert (forall c, true = true ->
    bool_decide (unescape (escape (String c "") encodeQueryComponent) encodeQueryComponent = Some (String c "")) = true)
    as Hc by bytes.
  induction s as [|c s IH]; [done|]. specialize (Hc c eq_refl). apply bool_decide_eq_true_1 in Hc. revert Hc.
  cbn [escape]. destruct (shouldEscape c _); [destruct (query_mode _ && _) eqn:Hsp|]; cbn [unescape].
  - apply Ascii.eqb_eq in Hsp as ->. intros _. change (Ascii.eqb (ch 43) (ch 37)) with false.
    change (Ascii.eqb (ch 43) (ch 43) && query_mode encodeQueryComponent) with true. cbv iota. by rewrite IH.
  - change (Ascii.eqb (ch 37) (ch 37)) with true. cbv iota.
    destruct (hex_digit (hex_upper (code c / 16))) as [x|]; [|done].
    destruct (hex_digit (hex_upper (code c mod 16))) as [y|]; [|done]. cbn. rewrite IH. cbn. congruence.
  - destruct (Ascii.eqb c (ch 37)); [done|]. rewrite IH.
    destruct (Ascii.eqb_spec c (ch 43)) as [->|]; [done|]. by cbn.
Qed.

Lemma component_not sep s :
  component_byte sep = false -> string_all component_byte s = true -> string_all (not_byte sep) s = true.
Proof.
  intros Hsep. apply string_all_impl. intros c Hc. unfold not_byte.
  destruct (Ascii.eqb_spec c sep) as [->|]; [congruence|done].
Qed.

Lemma add_query_pair m k v :
  add_pair m (query_pair k v) = <[k := default [] (m !! k) ++ [v]]> m.
Proof.
  unfold add_pair, query_pair. pose proof (escape_component k) as Hk. pose proof (escape_component v) as Hv.
  rewrite one_of_none.
  2: { by rewrite !string_all_app, (component_not (ch 59) _ eq_refl Hk), (component_not (ch 59) _ eq_refl Hv). }
  replace (String.eqb _ "") with false.
  2: { symmetry. apply String.eqb_neq. intros Heq. apply (f_equal String.length) in Heq.
       rewrite !string_length_app in Heq. simpl in Heq. lia. }
  simpl orb. cbv iota.
  change ("=" +:+ escape v encodeQueryComponent) with (String (ch 61) (escape v encodeQueryComponent)).
  rewrite cut_here by (by apply component_not). simpl default. by rewrite !unescape_escape.
Qed.

Lemma add_values m k vs :
  vs <> [] -> foldl add_pair m (query_pair k <$> vs) = <[k := default [] (m !! k) ++ vs]> m.
Proof.
  revert m. induction vs as [|v vs IH]; intros m Hne; [done|]. cbn [fmap list_fmap foldl].
  rewrite add_query_pair. destruct vs as [|v' vs]; [done|]. rewrite IH by done.
  rewrite lookup_insert_eq, insert_insert_eq. simpl. by rewrite <- app_assoc.
Qed.

(** A query without a key of no values, as [Query] makes them. *)
Definition proper (q : Values) : Prop := map_Forall (fun _ vs => vs <> []) q.

Lemma sorted_keys_perm q : sorted_keys q ≡ₚ (map_to_list q).*1.
Proof. apply merge_sort_Permutation. Qed.

Lemma NoDup_sorted_keys q : NoDup (sorted_keys q).
Proof. rewrite sorted_keys_perm. apply NoDup_fst_map_to_list. Qed.

Lemma elem_of_sorted_keys q k : k ∈ sorted_keys q <-> is_Some (q !! k).
Proof.
  rewrite sorted_keys_perm, list_elem_of_fmap. split.
  - intros ([k' vs] & -> & Hin%elem_of_map_to_list). by exists vs.
  - intros [vs Hq]. exists (k, vs). split; [done|]. by apply elem_of_map_to_list.
Qed.

Lemma foldl_pieces q (ks : list string) (m : Values) :
  proper q -> NoDup ks -> (forall k, k ∈ ks -> is_Some (q !! k) /\ m !! k = None) ->
  forall k, foldl add_pair m (k ← ks; query_pair k <$> default [] (q !! k)) !! k =
    if decide (k ∈ ks) then q !! k else m !! k.
Proof.
  intros Hq. revert m. induction ks as [|k0 ks IH]; intros m Hnd Hks k.
  { rewrite decide_False; [done|]. apply not_elem_of_nil. }
  cbn [mbind list_bind].
  apply NoDup_cons in Hnd as [Hk0 Hnd]. destruct (Hks k0) as [[vs Hvs] Hm]; [left|].
  rewrite foldl_app, Hvs. simpl default. rewrite add_values by exact (Hq k0 vs Hvs).
  rewrite Hm. simpl app. rewrite IH.
  - destruct (decide (k = k0)) as [->|Hne].
    + rewrite decide_False by done. rewrite decide_True by left. by rewrite lookup_insert_eq, Hvs.
    + rewrite lookup_insert_ne by done. apply decide_ext. set_solver.
  - done.
  - intros k' Hk'. destruct (Hks k') as [? ?]; [by right|]. split; [done|].
    rewrite lookup_insert_ne; [done|]. by intros ->.
Qed.

Lemma query_pair_not sep k v :
  component_byte sep = false -> sep <> ch 61 -> string_all (not_byte sep) (query_pair k v) = true.
Proof.
  intros Hsep Hne. unfold query_pair.
  change "=" with (String (ch 61) "").
  by rewrite !string_all_app, !(component_not sep _ Hsep (escape_component _)), not_byte_ne.
Qed.

(** The encoding has no byte but those of components, [=] and [&]. *)
Lemma concat_all p sep ps :
  string_all p sep = true -> Forall (fun s => string_all p s = true) ps ->
  string_all p (String.concat sep ps) = true.
Proof.
  intros Hsep Hps. induction ps as [|s ps IH]; [done|]. apply Forall_cons in Hps as [Hs Hps].
  destruct ps as [|t ps]; [done|].
  change (String.concat sep (s :: t :: ps)) with (s +:+ sep +:+ String.concat sep (t :: ps)).
  rewrite !string_all_app, Hs, Hsep. by apply IH.
Qed.

Definition pieces (q : Values) : list string := k ← sorted_keys q; query_pair k <$> default [] (q !! k).

Lemma pieces_pairs q : Forall (fun s => exists k v, s = query_pair k v) (pieces q).
Proof.
  unfold pieces. apply Forall_forall. intros s [k [Hs _]]%list_elem_of_bind.
  apply list_elem_of_fmap in Hs as (v & -> & _). eauto.
Qed.

Lemma Encode_not sep q :
  component_byte sep = false -> sep <> ch 61 -> sep <> ch 38 ->
  string_all (not_byte sep) (Encode q) = true.
Proof.
  intros Hsep Heq Hamp. unfold Encode. apply concat_all.
  - by apply (not_byte_ne sep (ch 38)).
  - eapply Forall_impl; [apply pieces_pairs|]. intros s (k & v & ->). by apply query_pair_not.
Qed.

(** Reading an encoded query gives it back. *)
Lemma Query_Encode q : proper q -> Query (Encode q) = q.
Proof.
  intros Hq. unfold Query, Encode. fold (pieces q).
  assert (foldl add_pair ∅ (split_at (ch 38) (String.concat "&" (pieces q))) =
          foldl add_pair ∅ (pieces q)) as ->.
  { destruct (pieces q) as [|p ps] eqn:Hp; [done|]. change "&" with (String (ch 38) "").
    rewrite split_concat; [done|done|]. rewrite <- Hp. eapply Forall_impl; [apply pieces_pairs|].
    intros s (k & v & ->). by apply query_pair_not. }
  apply map_eq. intros k. unfold pieces. rewrite foldl_pieces.
  - case_decide as Hk; [done|]. rewrite lookup_empty. symmetry. apply eq_None_not_Some.
    by rewrite <- elem_of_sorted_keys.
  - done.
  - apply NoDup_sorted_keys.
  - intros k' Hk'. split; [by apply elem_of_sorted_keys|]. apply lookup_empty.
Qed.

(** Queries that were read are proper. *)
Lemma add_pair_proper m piece : proper m -> proper (add_pair m piece).
Proof.
  intros Hm. unfold add_pair. destruct (_ || _); [done|]. destruct (cut _ _) as [k v].
  destruct (unescape k _) as [key|]; [|done]. destruct (unescape _ _) as [value|]; [|done].
  apply map_Forall_insert_2; [|done]. by destruct (default [] _).
Qed.

Lemma Query_proper s : proper (Query s).
Proof.
  unfold Query. assert (proper ∅) as He by apply map_Forall_empty. revert He.
  generalize (∅ : Values). induction (split_at (ch 38) s) as [|p ps IH]; intros m Hm; simpl; [done|].
  by apply IH, add_pair_proper.
Qed.

(** ** Plain URLs *)

Lemma escape_id m s : string_all (fun c => negb (shouldEscape c m)) s = true -> escape s m = s.
Proof.
  induction s as [|c s IH]; simpl; [done|]. intros [Hc Hs]%andb_true_iff.
  apply negb_true_iff in Hc. by rewrite Hc, IH.
Qed.

Lemma unescape_id m s :
  query_mode m = false -> string_all (fun c => not_byte (ch 37) c && negb (shouldEscape c m)) s = true ->
  unescape s m = Some s.
Proof.
  intros Hm. induction s as [|c s IH]; simpl; [done|]. intros [Hc Hs]%andb_true_iff.
  apply andb_true_iff in Hc as [Hc Hc'%negb_true_iff]. unfold not_byte in Hc.
  destruct (Ascii.eqb c (ch 37)); [done|]. rewrite Hm, andb_false_r, Hc', andb_false_r.
  by rewrite IH.
Qed.

Definition host_byte (c : Ascii.ascii) : bool := digit c || one_of "." c.
Definition path_byte (c : Ascii.ascii) : bool := letter c || digit c || one_of "-_.~/" c.
Definition query_byte (c : Ascii.ascii) : bool := component_byte c || one_of "=&" c.
Definition url_byte (c : Ascii.ascii) : bool := query_byte c || one_of ":/?" c.


Lemma host_path_mode c : path_byte c = true ->
  not_byte (ch 37) c && negb (shouldEscape c encodePath) = true.
Proof. revert c. bytes. Qed.

Lemma host_host_mode c : host_byte c = true ->
  not_byte (ch 37) c && negb (shouldEscape c encodeHost) = true.
Proof. revert c. bytes. Qed.

Lemma url_no_control c : url_byte c = true -> not_byte (ch 35) c && negb (control_byte c) = true.
Proof. revert c. bytes. Qed.

(** [http://h:p/path] and [http://h:p/path?q]. *)
Definition query_text (q : string) : string := if String.eqb q "" then "" else "?" +:+ q.
Definition plain_text (h p path q : string) : string :=
  "http://" +:+ h +:+ ":" +:+ p +:+ "/" +:+ path +:+ query_text q.
Definition plain_url (h p path q : string) : URL :=
  mkURL "http" "" None (h +:+ ":" +:+ p) ("/" +:+ path) "" false false q "" "".

Lemma Encode_query_bytes q : string_all query_byte (Encode q) = true.
Proof.
  unfold Encode. apply concat_all; [done|]. fold (pieces q).
  eapply Forall_impl; [apply pieces_pairs|]. intros s (k & v & ->). unfold query_pair.
  assert (forall s, string_all query_byte (escape s encodeQueryComponent) = true) as Hc.
  { intros s. eapply string_all_impl; [|apply escape_component]. intros c Hc. unfold query_byte. by rewrite Hc. }
  by rewrite !string_all_app, !Hc.
Qed.

Section Plain.
Context (h p path q : string).
Hypothesis Hh : string_all host_byte h = true.
Hypothesis Hp : string_all digit p = true.
Hypothesis Hpath : string_all path_byte path = true.
Hypothesis Hq : string_all query_byte q = true.

Lemma plain_bytes : string_all url_byte (plain_text h p path q) = true.
Proof.
  unfold plain_text. rewrite !string_all_app.
  rewrite (string_all_impl host_byte url_byte h), (string_all_impl digit url_byte p),
    (string_all_impl path_byte url_byte path) by (done || bytes).
  unfold query_text. destruct (String.eqb q ""); [done|]. rewrite string_all_app.
  by rewrite (string_all_impl query_byte url_byte q) by (done || bytes).
Qed.

Lemma host_no_at : string_all (not_byte (ch 64)) (h +:+ ":" +:+ p) = true.
Proof.
  rewrite !string_all_app, (string_all_impl host_byte _ h), (string_all_impl digit _ p) by (done || bytes).
  done.
Qed.

Lemma authority_no_slash : string_all (not_byte (ch 47)) (h +:+ ":" +:+ p) = true.
Proof.
  rewrite !string_all_app, (string_all_impl host_byte _ h), (string_all_impl digit _ p) by (done || bytes).
  done.
Qed.

Lemma plain_before_query :
  string_all (not_byte (ch 63)) ("//" +:+ h +:+ ":" +:+ p +:+ "/" +:+ path) = true.
Proof.
  rewrite !string_all_app, (string_all_impl host_byte _ h), (string_all_impl digit _ p),
    (string_all_impl path_byte _ path) by (done || bytes).
  done.
Qed.

Lemma parse_plain_host : parseHost (h +:+ ":" +:+ p) = Some (h +:+ ":" +:+ p).
Proof.
  unfold parseHost. replace (HasPrefix _ "[") with false.
  2: { symmetry. destruct h as [|c h']; [done|]. simpl in Hh. apply andb_true_iff in Hh as [Hc _].
       clear -Hc. revert Hc. destruct c as [[] [] [] [] [] [] [] []]; simpl; try done. }
  change (":" +:+ p) with (String colon p).
  rewrite cut_last_here by (apply (string_all_impl digit); [bytes|done]).
  simpl validOptionalPort. rewrite Hp. apply unescape_id; [done|].
  rewrite string_all_app. simpl.
  by rewrite (string_all_impl host_byte _ h host_host_mode),
    (string_all_impl digit _ p) by (done || bytes).
Qed.

Lemma set_plain_path : set_escaped ("/" +:+ path) encodePath = Some ("/" +:+ path, "").
Proof.
  unfold set_escaped. assert (string_all path_byte ("/" +:+ path) = true) as Ha
    by (by rewrite string_all_app).
  rewrite unescape_id; [|done|by apply (string_all_impl path_byte _ _ host_path_mode)]. simpl mbind.
  rewrite escape_id, String.eqb_refl; [done|].
  eapply string_all_impl; [|exact Ha]. intros c Hc%host_path_mode. by apply andb_true_iff in Hc as [_ ?].
Qed.

Lemma cut_plain_query a :
  string_all (not_byte (ch 63)) a = true -> cut_query (a +:+ query_text q) = (a, q, false).
Proof.
  intros Ha. unfold cut_query, query_text. destruct (String.eqb_spec q "") as [->|Hne].
  - rewrite string_app_nil. simpl. by rewrite cut_none.
  - change ("?" +:+ q) with (String (ch 63) q). rewrite cut_here by done. by destruct q.
Qed.

Lemma Parse_plain : Parse (plain_text h p path q) = Some (plain_url h p path q).
Proof.
  unfold Parse. pose proof plain_bytes as Hb.
  assert (string_all (not_byte (ch 35)) (plain_text h p path q) = true) as Hf.
  { eapply string_all_impl; [|exact Hb]. intros c Hc%url_no_control. by apply andb_true_iff in Hc as [? _]. }
  rewrite cut_none by done.
  assert (parse false (plain_text h p path q) = Some (plain_url h p path q)) as ->; [|done].
  unfold parse. rewrite (string_all_impl url_byte (fun c => negb (control_byte c)) _) by
    (done || (intros c Hc%url_no_control; by apply andb_true_iff in Hc as [_ ?])).
  simpl negb. cbv iota.
  replace (String.eqb (plain_text h p path q) "*") with false by done.
  set (rest := "//" +:+ h +:+ ":" +:+ p +:+ "/" +:+ path).
  assert (getScheme (plain_text h p path q) = Some ("http", rest +:+ query_text q)) as ->.
  { unfold rest, plain_text. by rewrite <- !string_app_assoc. }
  simpl mbind. rewrite (cut_plain_query rest plain_before_query). unfold parse_rest.
  change (string_map to_lower "http") with "http".
  change (HasPrefix rest "/") with true.
  replace (HasPrefix rest "//") with true by (symmetry; apply prefix_app).
  cbn [andb orb String.eqb Ascii.eqb Bool.eqb negb].
  replace (TrimPrefix rest "//") with ((h +:+ ":" +:+ p) +:+ String (ch 47) path).
  2: { unfold rest. rewrite TrimPrefix_app. by rewrite <- !string_app_assoc. }
  rewrite (cut_here (ch 47)) by apply authority_no_slash.
  unfold parseAuthority. rewrite cut_last_none by apply host_no_at.
  rewrite parse_plain_host. simpl mbind. cbn [mbind option_bind].
  change (String (ch 47) path) with ("/" +:+ path). by rewrite set_plain_path.
Qed.

Lemma plain_authority : authority_String (plain_url h p path q) = "//" +:+ h +:+ ":" +:+ p.
Proof.
  assert (String.eqb (h +:+ ":" +:+ p) "" = false) as Ene by (by destruct h).
  unfold authority_String. cbn [u_Scheme u_User u_Host u_Path u_OmitHost plain_url].
  rewrite Ene. change (String.eqb "http" "") with false. cbn [andb orb negb].
  rewrite escape_id; [done|]. rewrite !string_all_app, (string_all_impl host_byte _ h),
      (string_all_impl digit _ p) by (done || bytes). done.
Qed.

Lemma plain_path before :
  String.eqb before "" = false -> path_String (plain_url h p path q) before = "/" +:+ path.
Proof.
  intros Hb. assert (EscapedPath (plain_url h p path q) = "/" +:+ path) as Epath.
  { unfold EscapedPath, escaped. cbn [u_Path u_RawPath plain_url]. simpl String.eqb. cbn [negb andb].
    apply escape_id. rewrite string_all_app, (string_all_impl path_byte _ path) by (done || bytes). done. }
  unfold path_String. rewrite Epath, Hb.
  replace (HasPrefix ("/" +:+ path) "/") with true by (symmetry; apply prefix_app).
  cbn [negb andb]. by rewrite andb_false_r.
Qed.

Lemma String_plain : URL_String (plain_url h p path q) = plain_text h p path q.
Proof.
  unfold URL_String. rewrite plain_authority, plain_path by done.
  cbn [u_Scheme u_Opaque u_ForceQuery u_RawQuery u_Fragment plain_url].
  change (String.eqb "http" "") with false. change (String.eqb "" "") with true.
  cbn [negb orb]. unfold plain_text, query_text.
  destruct (String.eqb q ""); cbn [negb]; rewrite !string_app_nil, <- ?string_app_assoc; reflexivity.
Qed.
End Plain.

(** ** The target of a request and the URL made of it

    A server parses the target of a request; the handlers parse the URL they
    put together from scheme, host and target.  Both see the same path. *)

(** A scheme does not start with a slash. *)
Lemma no_scheme s : getScheme (String (ch 47) s) = Some ("", String (ch 47) s).
Proof. done. Qed.

Lemma slash_prefix s : HasPrefix (String (ch 47) s) "/" = true.
Proof. apply (prefix_app "/" s). Qed.

Lemma cut_query_first s : (cut_query s).1.1 = (cut (ch 63) s).1.
Proof. unfold cut_query. by destruct (cut (ch 63) s) as [a [[|c q]|]]. Qed.

Lemma set_escaped_Some p m d raw : set_escaped p m = Some (d, raw) -> unescape p m = Some d.
Proof. unfold set_escaped. destruct (unescape p m); [|done]. simpl. congruence. Qed.

Lemma request_rest s q f u :
  parse_rest true "" (String (ch 47) s) q f = Some u ->
  unescape (String (ch 47) s) encodePath = Some (u_Path u).
Proof.
  intros Hu. unfold parse_rest in Hu. rewrite slash_prefix in Hu. cbn [negb andb orb String.eqb] in Hu.
  destruct (set_escaped _ _) as [[d raw]|] eqn:Hs; [|done]. apply set_escaped_Some in Hs.
  rewrite Hs. by injection Hu as <-.
Qed.

(** What is before the query of a text that starts with a slash. *)
Lemma cut_slash sep s : sep <> ch 47 -> exists b, (cut sep (String (ch 47) s)).1 = String (ch 47) b.
Proof.
  intros Hne. cbn [cut]. destruct (Ascii.eqb_spec (ch 47) sep) as [<-|_]; [done|].
  destruct (cut sep s) as [b o]. by exists b.
Qed.

Lemma ParseRequestURI_path s u :
  ParseRequestURI (String (ch 47) s) = Some u ->
  unescape (cut (ch 63) (String (ch 47) s)).1 encodePath = Some (u_Path u).
Proof.
  unfold ParseRequestURI, parse. destruct (negb _); [done|].
  change (true && String.eqb (String (ch 47) s) "") with false.
  change (String.eqb (String (ch 47) s) "*") with false. cbv iota. rewrite no_scheme.
  cbn [mbind option_bind]. destruct (cut_slash (ch 63) s) as [b Hb]; [done|].
  rewrite Hb. rewrite <- cut_query_first in Hb. destruct (cut_query _) as [[rest q] f].
  simpl in Hb. subst rest. apply request_rest.
Qed.

(** A host without the bytes that delimit it. *)
Definition plain_host (c : Ascii.ascii) : bool := negb (one_of "/?#" c).

Lemma host_rest host b q f u :
  string_all (not_byte (ch 47)) host = true ->
  parse_rest false "http" ("//" +:+ host +:+ String (ch 47) b) q f = Some u ->
  unescape (String (ch 47) b) encodePath = Some (u_Path u).
Proof.
  intros Hhost Hu. unfold parse_rest in Hu.
  replace (HasPrefix ("//" +:+ host +:+ String (ch 47) b) "//") with true in Hu
    by (symmetry; apply prefix_app).
  change (HasPrefix ("//" +:+ host +:+ String (ch 47) b) "/") with true in Hu.
  cbn [negb andb orb String.eqb] in Hu. rewrite TrimPrefix_app, cut_here in Hu by done.
  destruct (parseAuthority host) as [[user h]|]; [|done]. cbn [mbind option_bind] in Hu.
  destruct (set_escaped _ _) as [[d raw]|] eqn:Hs; [|done]. apply set_escaped_Some in Hs.
  rewrite Hs. by injection Hu as <-.
Qed.

(** [cut] of an append. *)
Lemma cut_app sep a b :
  string_all (not_byte sep) a = true -> cut sep (a +:+ b) = (a +:+ (cut sep b).1, (cut sep b).2).
Proof.
  unfold not_byte. induction a as [|c a IH]; intros Ha.
  - exact (surjective_pairing _).
  - cbn [string_all] in Ha. apply andb_true_iff in Ha as [Hc Ha].
    change (String c a +:+ b) with (String c (a +:+ b)). cbn [cut].
    destruct (Ascii.eqb c sep); [done|]. rewrite IH by done. by destruct (cut sep b).
Qed.

(** A first cut elsewhere does not move a cut that is still there. *)
Lemma cut_cut h p x : is_Some (cut p (cut h x).1).2 -> (cut p (cut h x).1).1 = (cut p x).1.
Proof.
  induction x as [|c x IH]; [done|]. cbn [cut]. destruct (Ascii.eqb c h); [by intros [? ?]|].
  destruct (cut h x) as [a o]. cbn [fst cut]. destruct (Ascii.eqb c p); [done|].
  cbn [fst] in IH. destruct (cut p a) as [a1 o1], (cut p x) as [x1 o2]. cbn [fst snd] in *.
  intros Ho. by rewrite IH.
Qed.

Lemma cut_query_path b s :
  string_all (not_byte (ch 63)) b = true -> (cut_query (b +:+ s)).1.2 <> "" ->
  (cut_query (b +:+ s)).1.1 = b +:+ (cut (ch 63) s).1 /\ is_Some (cut (ch 63) s).2.
Proof.
  intros Hb. unfold cut_query. rewrite (cut_app _ _ _ Hb). destruct (cut (ch 63) s) as [s1 o].
  cbn [fst snd]. destruct o as [[|c q]|]; by cbn [fst snd].
Qed.

Lemma parse_rest_query via scheme rest q f u :
  parse_rest via scheme rest q f = Some u -> u_RawQuery u = q.
Proof.
  unfold parse_rest. destruct (_ && _); [by intros [= <-]|]. destruct (_ && _); [done|].
  destruct (_ && _).
  - destruct (cut _ _) as [a p]. destruct (parseAuthority a) as [[us h]|]; [|done]. simpl.
    destruct (set_escaped _ _) as [[d raw]|]; [|done]. by intros [= <-].
  - destruct (set_escaped _ _) as [[d raw]|]; [|done]. by intros [= <-].
Qed.

Lemma Parse_http_path host s u :
  Parse ("http://" +:+ host +:+ s) = Some u -> string_all (not_byte (ch 35)) host = true ->
  let '(rest, q, f) := cut_query ("//" +:+ host +:+ (cut (ch 35) s).1) in
  exists u', parse_rest false "http" rest q f = Some u' /\ u_Path u = u_Path u' /\ u_RawQuery u = q.
Proof.
  intros Hu Hhost. unfold Parse in Hu. rewrite string_app_assoc in Hu.
  rewrite cut_app in Hu by (by rewrite string_all_app, Hhost).
  rewrite <- string_app_assoc in Hu. unfold parse in Hu.
  destruct (negb _); [done|]. cbn [andb] in Hu.
  change (getScheme ("http://" +:+ host +:+ (cut (ch 35) s).1))
    with (Some ("http", "//" +:+ host +:+ (cut (ch 35) s).1)) in Hu.
  change (String.eqb ("http://" +:+ host +:+ (cut (ch 35) s).1) "*") with false in Hu.
  cbn [mbind option_bind] in Hu.
  destruct (cut_query _) as [[rest q] f]. change (string_map to_lower "http") with "http" in Hu.
  destruct (parse_rest _ _ _ _ _) as [u'|] eqn:Hr; [|done]. cbn [mbind option_bind] in Hu.
  exists u'. apply parse_rest_query in Hr as Hq. split; [done|].
  destruct (cut (ch 35) s).2 as [[|c fr]|]; [by simplify_eq| |by simplify_eq].
  destruct (set_escaped _ _) as [[d raw]|]; [|done]. by injection Hu as <-.
Qed.

(** The path a handler verifies is the path the request is dispatched on. *)
Lemma path_agree host s u v :
  string_all plain_host host = true ->
  Parse ("http://" +:+ host +:+ String (ch 47) s) = Some u -> u_RawQuery u <> "" ->
  ParseRequestURI (String (ch 47) s) = Some v -> u_Path u = u_Path v.
Proof.
  intros Hhost Hu Hq Hv%ParseRequestURI_path.
  assert (forall sep, one_of "/?#" sep = true -> string_all (not_byte sep) host = true) as Hno.
  { intros sep Hsep. eapply string_all_impl; [|exact Hhost]. intros c Hc. unfold not_byte.
    destruct (Ascii.eqb_spec c sep) as [->|]; [|done]. unfold plain_host in Hc. by rewrite Hsep in Hc. }
  apply Parse_http_path in Hu; [|by apply Hno].
  set (t := (cut (ch 35) (String (ch 47) s)).1) in *.
  pose proof (cut_query_path ("//" +:+ host) t) as Hcut. rewrite <- string_app_assoc in Hcut.
  rewrite string_all_app, Hno in Hcut by done. specialize (Hcut eq_refl).
  destruct (cut_query _) as [[rest q] f]. destruct Hu as (u' & Hr & Hp & HQ).
  cbn [fst snd] in Hcut. destruct Hcut as [-> Hsome]; [congruence|].
  unfold t in *. rewrite cut_cut in Hr by done.
  destruct (cut_slash (ch 63) s) as [b Hb]; [done|]. rewrite Hb in Hr, Hv.
  rewrite <- string_app_assoc in Hr. apply host_rest in Hr; [|by apply Hno]. congruence.
Qed.

(** The target of a plain URL. *)
Lemma target_plain path q :
  string_all path_byte path = true -> string_all query_byte q = true ->
  exists v, ParseRequestURI ("/" +:+ path +:+ query_text q) = Some v /\ u_Path v = "/" +:+ path.
Proof.
  intros Hpath Hq.
  assert (string_all url_byte ("/" +:+ path +:+ query_text q) = true) as Hb.
  { unfold query_text. destruct (String.eqb q "");
      rewrite !string_all_app, (string_all_impl path_byte url_byte path) by (done || bytes); [done|].
    by rewrite (string_all_impl query_byte url_byte q) by (done || bytes). }
  unfold ParseRequestURI, parse.
  rewrite (string_all_impl url_byte (fun c => negb (control_byte c)) _) by
    (done || (intros c Hc%url_no_control; by apply andb_true_iff in Hc as [_ ?])).
  change (true && String.eqb ("/" +:+ path +:+ query_text q) "") with false.
  change (String.eqb ("/" +:+ path +:+ query_text q) "*") with false. cbn [negb].
  change ("/" +:+ path +:+ query_text q) with (String (ch 47) (path +:+ query_text q)).
  rewrite no_scheme. cbn [mbind option_bind].
  change (String (ch 47) (path +:+ query_text q)) with (("/" +:+ path) +:+ query_text q).
  rewrite cut_plain_query by (done || rewrite string_all_app, (string_all_impl path_byte _ path) by (done || bytes); done).
  unfold parse_rest. replace (HasPrefix ("/" +:+ path) "/") with true by (symmetry; apply prefix_app).
  change (string_map to_lower "") with "". cbn [negb andb orb String.eqb].
  rewrite set_plain_path by done. by eexists.
Qed.
