(* ===== verification/Json.v ===== *)
(** JSON documents and the part of Go's [encoding/json] the program uses:
    building objects, decoding a struct field by field into Go zero values
    with the "first error is remembered, the other fields are still decoded"
    behaviour of [json.Unmarshal], and Postgres' [jsonb || jsonb]. *)

From S2P Require Import Prelude.

(** A number is an integer literal or a literal with a fractional part (kept
    as the exact rational it denotes). *)
Inductive json :=
| JNull
| JBool (b : bool)
| JInt (z : Z)
| JDec (q : Q)
| JStr (s : string)
| JArr (l : list json)
| JObj (m : list (string * json)).

(** [len(raw) == 0] of a [json.RawMessage] is [None]; [{}] is [json_empty]. *)
Definition json_empty : json := JObj [].

(** Go prints a float64 with an integral value without a fraction. *)
Definition json_of_float (q : Q) : json :=
  let r := Qred q in
  if decide (Qden r = 1%positive) then JInt (Qnum r) else JDec r.

(** Key matching of [json.Unmarshal]: ASCII case-insensitive. *)
Definition ascii_lower (a : Ascii.ascii) : Ascii.ascii :=
  let n := Ascii.nat_of_ascii a in
  if (65 <=? n)%nat && (n <=? 90)%nat then Ascii.ascii_of_nat (n + 32) else a.

Fixpoint lower (s : string) : string :=
  match s with
  | EmptyString => EmptyString
  | String a s' => String (ascii_lower a) (lower s')
  end.

Definition key_matches (field key : string) : bool := String.eqb (lower field) (lower key).

(** Decoders of one JSON value into a Go variable holding [old]: the new value
    and whether the type matched.  [null] leaves the variable unchanged. *)
Definition decoder (A : Type) : Type := A -> json -> A * bool.

Definition dec_string : decoder string := fun old j =>
  match j with JStr s => (s, true) | JNull => (old, true) | _ => (old, false) end.

Definition dec_int (lo hi : Z) : decoder Z := fun old j =>
  match j with
  | JInt z => if (lo <=? z) && (z <=? hi) then (z, true) else (old, false)
  | JNull => (old, true)
  | _ => (old, false)
  end.

Definition dec_int32 : decoder Z := dec_int min_int32 max_int32.
Definition dec_int64 : decoder Z := dec_int (-(2 ^ 63)) (2 ^ 63 - 1).

Definition dec_float : decoder Q := fun old j =>
  match j with
  | JInt z => (inject_Z z, true)
  | JDec q => (q, true)
  | JNull => (old, true)
  | _ => (old, false)
  end.

Definition dec_bool : decoder bool := fun old j =>
  match j with JBool b => (b, true) | JNull => (old, true) | _ => (old, false) end.

(** [map[string]string] ([None] is the nil map): the entries of the object are
    added to the map, which is made if it is nil; an entry of another type is
    an error that does not stop the others. *)
Definition dec_entries (m : list (string * json)) (base : gmap string string)
  : gmap string string * bool :=
  foldl (fun '(acc, ok) '(k, v) =>
           match v with
           | JStr s => (<[k := s]> acc, ok)
           | JNull => (<[k := ""]> acc, ok)
           | _ => (<[k := ""]> acc, false)
           end) (base, true) m.

Definition dec_env : decoder (option (gmap string string)) := fun old j =>
  match j with
  | JNull => (None, true)
  | JObj m => let '(env, ok) := dec_entries m (default ∅ old) in (Some env, ok)
  | _ => (old, false)
  end.

(** Decode one struct field out of the members of an object: members are
    visited in order, every match overwrites. *)
Definition dec_field {A} (name : string) (d : decoder A) (zero : A)
    (members : list (string * json)) : A * bool :=
  foldl (fun '(old, ok) '(k, v) =>
           if key_matches name k
           then let '(x, ok') := d old v in (x, ok && ok') else (old, ok))
        (zero, true) members.

(** The members a struct is decoded from; [None] is a type error. *)
Definition members_of (j : json) : option (list (string * json)) :=
  match j with
  | JObj m => Some m
  | JNull => Some []
  | _ => None
  end.

(** A slice: [null] is nil, an array decodes each element into a zero value. *)
Definition dec_list {A} (d : decoder A) (zero : A) : decoder (list A) := fun old j =>
  match j with
  | JNull => ([], true)
  | JArr l => let rs := d zero <$> l in (rs.*1, forallb snd rs)
  | _ => (old, false)
  end.

(** Postgres [a || b] on jsonb. *)
Definition obj_set (k : string) (v : json) (m : list (string * json)) : list (string * json) :=
  filter (fun '(k', _) => k' <> k) m ++ [(k, v)].

Definition jsonb_concat (a b : json) : json :=
  match a, b with
  | JObj ma, JObj mb => JObj (foldl (fun m '(k, v) => obj_set k v m) ma mb)
  | JArr la, JArr lb => JArr (la ++ lb)
  | JArr la, _ => JArr (la ++ [b])
  | _, JArr lb => JArr (a :: lb)
  | _, _ => JArr [a; b]
  end.

(** A string-keyed Go map marshals with its keys in sorted order; the model
    keeps the map's own enumeration since no consumer depends on it.  A nil
    map is [null]. *)
Definition json_of_env (env : option (gmap string string)) : json :=
  match env with
  | None => JNull
  | Some e => JObj ((fun '(k, v) => (k, JStr v)) <$> map_to_list e)
  end.

Lemma dec_entries_fold (l : list (string * string)) (acc : gmap string string) :
  NoDup l.*1 -> (forall k, k ∈ l.*1 -> acc !! k = None) ->
  dec_entries ((fun '(k, v) => (k, JStr v)) <$> l) acc
  = (list_to_map l ∪ acc, true).
Proof.
  unfold dec_entries.
  revert acc. induction l as [|[k v] l IH]; intros acc Hnd Hfresh; simpl.
  - by rewrite map_empty_union.
  - apply NoDup_cons in Hnd as [Hk Hnd]. rewrite IH; [|done|].
    + f_equal. rewrite <- insert_union_l. rewrite insert_union_r; [done|].
      by apply not_elem_of_list_to_map_1.
    + intros k' Hk'. rewrite lookup_insert_ne; [|set_solver].
      apply Hfresh. set_solver.
Qed.

(** Decoding a marshalled environment into a nil map gives it back. *)
Lemma dec_env_roundtrip env : dec_env None (json_of_env env) = (env, true).
Proof.
  destruct env as [env|]; [|done].
  unfold dec_env, json_of_env. simpl. rewrite dec_entries_fold.
  - by rewrite list_to_map_to_list, map_union_empty.
  - apply NoDup_fst_map_to_list.
  - intros. apply lookup_empty.
Qed.
