(* ===== verification/Float64.v ===== *)
(** float64 numbers: rounding of rationals, conversion to int64, decoding. *)

From S2P Require Import Prelude Json.

(** Division to the nearest integer, ties to even. *)
Definition round_even (n d : Z) : Z :=
  let q := n / d in
  let r := n mod d in
  if 2 * r <? d then q else if d <? 2 * r then q + 1 else if Z.even q then q else q + 1.

(** [floor (log2 (n / d))] of positive [n], [d]. *)
Definition log2_quotient (n d : Z) : Z :=
  let e := Z.log2 n - Z.log2 d in
  if (if 0 <=? e then d * 2 ^ e <=? n else d <=? n * 2 ^ (- e)) then e else e - 1.

(** The nearest float64 of a rational; [None] is an overflow. *)
Definition round64 (x : Q) : option Q :=
  let n := Z.abs (Qnum x) in
  let d := Z.pos (Qden x) in
  if n =? 0 then Some 0%Q
  else
    let u := Z.max (log2_quotient n d - 52) (-1074) in
    let m := if 0 <=? u then round_even n (d * 2 ^ u) else round_even (n * 2 ^ (- u)) d in
    let v := Z.sgn (Qnum x) * m in
    if 0 <=? u
    then if Z.abs v * 2 ^ u <? 2 ^ 1024 then Some (inject_Z (v * 2 ^ u)) else None
    else Some (Qred (v # Z.to_pos (2 ^ (- u)))).

(** [int64(f)] truncates.  What it gives outside int64 depends on the platform
    (here amd64). *)
Definition int64_of_float (f : option Q) : Z :=
  match f with
  | None => - 2 ^ 63
  | Some f =>
      let z := Z.quot (Qnum f) (Z.pos (Qden f)) in
      if (- 2 ^ 63 <=? z) && (z <? 2 ^ 63) then z else - 2 ^ 63
  end.

Definition dec_float64 : decoder Q := fun old j =>
  match dec_float old j with
  | (q, true) => match j with
                 | JNull => (old, true)
                 | _ => match round64 q with Some f => (f, true) | None => (old, false) end
                 end
  | (_, false) => (old, false)
  end.
