(* ===== verification/Durations.v ===== *)
(** More of package time, for the command line client: [ParseDuration], the
    float64 views of a duration and the parser of "2006-01-02T15:04:05Z".
    Durations and instants are nanoseconds. *)

From S2P Require Import Prelude Json Float64 Time.

(** ** ParseDuration

    An automaton over the characters: the number before the point, the one
    after it, and the unit, which ends where the next number begins. *)

Inductive duration_phase :=
| InNumber (v : Z) (pre : bool)
| InFraction (v f : Z) (scale : Q) (full pre post : bool)
| InUnit (v f : Z) (scale : Q) (u : string).

Definition duration_units (u : string) : option Z :=
  if String.eqb u "ns" then Some 1
  else if bool_decide (u = "us" \/ u = "µs" \/ u = "μs") then Some 1000
  else if String.eqb u "ms" then Some 1000000
  else if String.eqb u "s" then Some 1000000000
  else if String.eqb u "m" then Some 60000000000
  else if String.eqb u "h" then Some 3600000000000
  else None.

(** float64 arithmetic; an infinite scale makes its quotients zero. *)
Definition fl (x : Q) : Q := default 0%Q (round64 x).

(** [v * unit + uint64(float64(f) * (float64(unit) / scale))] *)
Definition duration_part (v f : Z) (scale : Q) (unit_ : Z) : option Z :=
  if 2 ^ 63 / unit_ <? v then None
  else
    let x := if 0 <? f
             then let p := fl (fl (inject_Z f) * fl (inject_Z unit_ / scale)) in
                  Z.quot (Qnum p) (Z.pos (Qden p))
             else 0 in
    if 2 ^ 63 <? v * unit_ + x then None else Some (v * unit_ + x).

(** The sum so far with one more number and its unit, in uint64. *)
Definition end_unit (d : Z) (v f : Z) (scale : Q) (u : string) : option Z :=
  unit_ ← duration_units u;
  x ← duration_part v f scale unit_;
  let d := (d + x) mod 2 ^ 64 in
  if 2 ^ 63 <? d then None else Some d.

Definition leading_digit (v c : Z) : option Z :=
  if 2 ^ 63 / 10 <? v then None
  else if 2 ^ 63 <? v * 10 + c then None else Some (v * 10 + c).

Definition is_dot (a : Ascii.ascii) : bool := Ascii.eqb a (Ascii.ascii_of_nat 46).

Fixpoint duration_sum (d : Z) (ph : duration_phase) (s : string) : option Z :=
  match s with
  | EmptyString =>
      match ph with InUnit v f scale u => end_unit d v f scale u | _ => None end
  | String a s' =>
      match ph with
      | InNumber v pre =>
          match digit_of a with
          | Some c => v ← leading_digit v c; duration_sum d (InNumber v true) s'
          | None =>
              if is_dot a then duration_sum d (InFraction v 0 1 false pre false) s'
              else if pre then duration_sum d (InUnit v 0 1 (String a "")) s' else None
          end
      | InFraction v f scale full pre post =>
          match digit_of a with
          | Some c =>
              if full || ((2 ^ 63 - 1) / 10 <? f) || (2 ^ 63 <? f * 10 + c)
              then duration_sum d (InFraction v f scale true pre true) s'
              else duration_sum d (InFraction v (f * 10 + c) (fl (scale * 10)) full pre true) s'
          | None =>
              if is_dot a || negb (pre || post) then None
              else duration_sum d (InUnit v f scale (String a "")) s'
          end
      | InUnit v f scale u =>
          match digit_of a with
          | Some c => d ← end_unit d v f scale u; duration_sum d (InNumber c true) s'
          | None =>
              if is_dot a
              then d ← end_unit d v f scale u; duration_sum d (InFraction 0 0 1 false false false) s'
              else duration_sum d (InUnit v f scale (u +:+ String a "")) s'
          end
      end
  end.

Definition ParseDuration (s : string) : option Z :=
  let neg := HasPrefix s "-" in
  let s := if neg then TrimPrefix s "-" else TrimPrefix s "+" in
  if String.eqb s "0" then Some 0
  else
    d ← duration_sum 0 (InNumber 0 false) s;
    if neg then Some (- d) else if 2 ^ 63 - 1 <? d then None else Some d.

Example parse_durations :
  ParseDuration "1h30m" = Some 5400000000000 /\ ParseDuration "-1.5s" = Some (-1500000000) /\
  ParseDuration ".5m2ms" = Some 30002000000 /\ ParseDuration "24h" = Some 86400000000000 /\
  ParseDuration "5" = None /\ ParseDuration "" = None /\ ParseDuration "1.2.3s" = None /\
  ParseDuration "+0" = Some 0 /\ ParseDuration "9223372036854775808ns" = None /\
  ParseDuration "1x" = None.
Proof. vm_compute. split_and!; reflexivity. Qed.

(** ** Views of a duration *)

Definition truncated (x : Q) : Z := Z.quot (Qnum x) (Z.pos (Qden x)).

(** [math.Round]: halves away from zero. *)
Definition Round (x : Q) : Z :=
  let n := Z.abs (Qnum x) in
  Z.sgn (Qnum x) * ((2 * n + Z.pos (Qden x)) / (2 * Z.pos (Qden x))).

(** [d.Seconds()], [d.Minutes()], [d.Hours()]: whole units plus a quotient. *)
Definition in_units (unit_ d : Z) : Q :=
  fl (inject_Z (Z.quot d unit_) + fl (Z.rem d unit_ # Z.to_pos unit_)).

Definition Second : Z := 1000000000.
Definition Minute : Z := 60 * Second.
Definition Hour : Z := 60 * Minute.

(** [t.Sub(u)] saturates. *)
Definition Sub (t u : Z) : Z := Z.max (- 2 ^ 63) (Z.min (2 ^ 63 - 1) (t - u)).

(** ** Parsing "2006-01-02T15:04:05Z"

    The hour may have one digit, and a fraction may follow the seconds after a
    point or a comma. *)

Definition hour_number (s : string) : option (Z * string) :=
  match take_digits 2 0 s with
  | Some (z, s) => if z <=? 23 then Some (z, s) else None
  | None => take_digits 1 0 s
  end.

Definition loose_fraction (s : string) : Z * string :=
  match s with
  | String a s' =>
      if (is_dot a || Ascii.eqb a (Ascii.ascii_of_nat 44)) && bool_decide (is_Some (take_digits 1 0 s'))
      then fraction 100000000 0 s' else (0, s)
  | EmptyString => (0, s)
  end.

Definition Parse_Z (s : string) : option Z :=
  '(y, s) ← number 4 0 9999 s; s ← expect "-" s;
  '(m, s) ← number 2 1 12 s; s ← expect "-" s;
  '(d, s) ← number 2 0 99 s; s ← expect "T" s;
  '(h, s) ← hour_number s; s ← expect ":" s;
  '(mi, s) ← number 2 0 59 s; s ← expect ":" s;
  '(sec, s) ← number 2 0 59 s;
  let '(ns, s) := loose_fraction s in
  if String.eqb s "Z" && (1 <=? d) && (d <=? days_in y m)
  then Some ((days_of_civil y m d * 86400 + h * 3600 + mi * 60 + sec) * 1000000000 + ns) else None.

Example parse_z :
  Parse_Z (Format_Z 7200 1700000000) = Some ((1700000000 + 7200) * 1000000000) /\
  Parse_Z "2024-02-29T7:00:00,5Z" = Some 1709190000500000000 /\ Parse_Z "2023-02-29T07:00:00Z" = None.
Proof. vm_compute. split_and!; reflexivity. Qed.

Lemma hour_pad2 h s : 0 <= h < 24 -> hour_number (pad2 h s) = Some (h, s).
Proof.
  intros Hh. pose proof (number_pad2 0 23 h s ltac:(lia) ltac:(lia)) as Hn.
  unfold number in Hn. unfold hour_number.
  destruct (take_digits 2 0 (pad2 h s)) as [[z s']|]; [|done]. cbn in Hn.
  destruct (Z.leb_spec 0 z), (Z.leb_spec z 23); simpl in Hn; by simplify_eq.
Qed.

(** What is printed with the literal Z is read with the offset added. *)
Lemma Parse_Z_shifts offset t :
  plain_year offset t -> Parse_Z (Format_Z offset t) = Some ((t + offset) * 1000000000).
Proof.
  intros Hy. unfold Format_Z.
  destruct (clock_fields offset t "Z" Hy) as (y & m & d & h & mi & sec & -> & ? & ? & [? ?] & ? & ? & ? & Heq).
  unfold Parse_Z. rewrite number_pad4 by lia. cbn [mbind option_bind]. rewrite expect_app. cbn [mbind option_bind].
  do 2 (rewrite number_pad2 by lia; cbn [mbind option_bind]; rewrite expect_app; cbn [mbind option_bind]).
  rewrite hour_pad2 by lia. cbn [mbind option_bind]. rewrite expect_app. cbn [mbind option_bind].
  do 2 (rewrite number_pad2 by lia; cbn [mbind option_bind]; try (rewrite expect_app; cbn [mbind option_bind])).
  cbn. rewrite (proj2 (Z.leb_le 1 d)), (proj2 (Z.leb_le d _)) by lia. cbn. do 2 f_equal. lia.
Qed.
