(* ===== verification/Models.v ===== *)
(** The shared types of shared-go/models: the sandbox state machine
    ([SandboxState], [SandboxEvent], [ValidTransitions], [NextState]), node
    statuses, command types and command statuses.  All of them are Go string
    types whose values travel through the database, so they are strings here. *)

From S2P Require Import Prelude.

(** ** Sandbox states and events *)

Definition StatePending : string := "pending".
Definition StateStarting : string := "starting".
Definition StateRunning : string := "running".
Definition StateRestarting : string := "restarting".
Definition StateStopped : string := "stopped".
Definition StateDestroying : string := "destroying".
Definition StateDestroyed : string := "destroyed".
Definition StateFailed : string := "failed".

Definition EventScheduled : string := "scheduled".
Definition EventStarted : string := "started".
Definition EventContainerExited : string := "container_exited".
Definition EventIdleTimeout : string := "idle_timeout".
Definition EventDestroyRequest : string := "destroy_requested".
Definition EventDestroyed : string := "destroyed".
Definition EventRestartAttempt : string := "restart_attempt".
Definition EventNodeFailed : string := "node_failed".
Definition EventStartFailed : string := "start_failed".

Definition ValidTransitions : gmap string (gmap string string) :=
  {[ StatePending := {[ EventScheduled := StateStarting;
                        EventDestroyRequest := StateDestroyed ]};
     StateStarting := {[ EventStarted := StateRunning;
                         EventContainerExited := StateFailed;
                         EventStartFailed := StateFailed;
                         EventDestroyRequest := StateDestroying ]};
     StateRunning := {[ EventContainerExited := StateRestarting;
                        EventDestroyRequest := StateDestroying;
                        EventIdleTimeout := StateStopped;
                        EventNodeFailed := StatePending ]};
     StateRestarting := {[ EventRestartAttempt := StateStarting;
                           EventDestroyRequest := StateDestroying ]};
     StateStopped := {[ EventScheduled := StateStarting;
                        EventDestroyRequest := StateDestroyed ]};
     StateDestroying := {[ EventDestroyed := StateDestroyed ]};
     StateFailed := {[ EventRestartAttempt := StateStarting;
                       EventDestroyRequest := StateDestroyed;
                       EventStarted := StateRunning ]} ]}.

(** [NextState] returns the empty string and [false] where there is no edge. *)
Definition NextState (current event : string) : string * bool :=
  match ValidTransitions !! current with
  | None => ("", false)
  | Some transitions =>
      match transitions !! event with
      | Some next => (next, true)
      | None => ("", false)
      end
  end.

Definition AllStates : list string :=
  [StatePending; StateStarting; StateRunning; StateRestarting;
   StateStopped; StateDestroying; StateDestroyed; StateFailed].

Definition AllEvents : list string :=
  [EventScheduled; EventStarted; EventContainerExited; EventIdleTimeout;
   EventDestroyRequest; EventDestroyed; EventRestartAttempt; EventNodeFailed;
   EventStartFailed].

Definition IsTerminal (state : string) : bool := bool_decide (state = StateDestroyed).

(** ** Node and command constants *)

Definition NodeHealthy : string := "healthy".
Definition NodeUnhealthy : string := "unhealthy".
Definition NodeDraining : string := "draining".
Definition NodeRemoved : string := "removed".

Definition CmdStartSandbox : string := "start_sandbox".
Definition CmdStopSandbox : string := "stop_sandbox".
Definition CmdRestartSandbox : string := "restart_sandbox".
Definition CmdGetLogs : string := "get_logs".
Definition CmdPrune : string := "prune".

Definition CmdPending : string := "pending".
Definition CmdDispatched : string := "dispatched".
Definition CmdCompleted : string := "completed".
Definition CmdFailed : string := "failed".

(** ** The edges of the state machine *)

(** [s] steps to [s'] on some event. *)
Definition edge (s s' : string) : Prop := exists ev, NextState s ev = (s', true).

(** The table as a list, for case analysis. *)
Definition transition_table : list (string * string * string) :=
  map_to_list ValidTransitions ≫=
    λ '(s, m), (λ '(ev, s'), (s, ev, s')) <$> map_to_list m.

Lemma NextState_table s ev s' :
  NextState s ev = (s', true) <-> (s, ev, s') ∈ transition_table.
Proof.
  unfold NextState, transition_table. rewrite list_elem_of_bind. split.
  - intros H. destruct (ValidTransitions !! s) as [m|] eqn:Hs; [|done].
    destruct (m !! ev) as [n|] eqn:He; [|done]. simplify_eq.
    exists (s, m). split; [|by apply elem_of_map_to_list].
    apply list_elem_of_fmap. exists (ev, s'). split; [done|]. by apply elem_of_map_to_list.
  - intros ([s0 m] & Hin & Hs). apply list_elem_of_fmap in Hin as ([ev0 n] & Heq & Hin).
    simplify_eq. apply elem_of_map_to_list in Hs, Hin. by rewrite Hs, Hin.
Qed.

(** The decision procedure behind the case analyses below: a property of all
    edges is checked on the finite table. *)
Lemma table_forall (P : string * string * string -> Prop) `{HP : forall t, Decision (P t)} :
  bool_decide (Forall P transition_table) = true ->
  forall s ev s', NextState s ev = (s', true) -> P (s, ev, s').
Proof.
  intros Hall s ev s' H%NextState_table.
  apply bool_decide_eq_true_1 in Hall. rewrite Forall_forall in Hall. exact (Hall _ H).
Qed.

(** [by_table P H] replaces the edge [H] by the instance of [P] for it. *)
Ltac by_table P H :=
  let E := fresh in let R := fresh in
  assert (bool_decide (Forall P transition_table) = true) as E
    by (vm_compute; reflexivity);
  pose proof (table_forall P E _ _ _ H) as R;
  clear E H; rename R into H; simpl in H.

Lemma NextState_false s ev : (NextState s ev).2 = false -> NextState s ev = ("", false).
Proof. unfold NextState. repeat case_match; simpl; congruence. Qed.

#[export] Instance edge_dec s s' : Decision (edge s s').
Proof.
  destruct (decide (s' ∈ ((λ t, t.2) <$> filter (λ t, t.1.1 = s) transition_table)))
    as [H|H].
  - left. apply list_elem_of_fmap in H as ([[s0 ev] n] & -> & Hin).
    apply list_elem_of_filter in Hin as [Hs Hin]. simpl in *. subst.
    exists ev. by apply NextState_table.
  - right. intros [ev Hev]. apply H. apply NextState_table in Hev.
    apply list_elem_of_fmap. exists (s, ev, s'). split; [done|].
    by apply list_elem_of_filter.
Defined.

(** Reachability along edges. *)
Definition reaches : string -> string -> Prop := rtc edge.

(** ** Facts about the table *)

Lemma edge_closed s s' : edge s s' -> s ∈ AllStates /\ s' ∈ AllStates.
Proof.
  intros [ev Hev].
  by by_table (λ t : string * string * string, t.1.1 ∈ AllStates /\ t.2 ∈ AllStates) Hev.
Qed.

Lemma reaches_closed s s' : reaches s s' -> s ∈ AllStates -> s' ∈ AllStates.
Proof. induction 1 as [|x y z Hxy _ IH]; [done|]. intros _. by apply IH, (edge_closed x y). Qed.

Lemma reaches_step s ev m s' : NextState s ev = (m, true) -> reaches m s' -> reaches s s'.
Proof. intros H ?. eapply rtc_l; [by exists ev|done]. Qed.

(** Case analysis over the eight states. *)
Lemma AllStates_cases (P : string -> Prop) :
  P StatePending -> P StateStarting -> P StateRunning -> P StateRestarting ->
  P StateStopped -> P StateDestroying -> P StateDestroyed -> P StateFailed ->
  forall s, s ∈ AllStates -> P s.
Proof.
  intros ???????? s Hs. unfold AllStates in Hs.
  rewrite !elem_of_cons in Hs.
  by repeat destruct Hs as [->|Hs]; [..|apply not_elem_of_nil in Hs].
Qed.

(** An accepted event from a known state pins the target. *)
Lemma NextState_det s ev s1 s2 :
  NextState s ev = (s1, true) -> NextState s ev = (s2, true) -> s1 = s2.
Proof. congruence. Qed.

Lemma NextState_exited_restarting s :
  NextState s EventContainerExited = (StateRestarting, true) -> s = StateRunning.
Proof.
  intros H.
  by_table (λ t : string * string * string, t.1.2 = EventContainerExited ->
              t.2 = StateRestarting -> t.1.1 = StateRunning) H. by apply H.
Qed.

Lemma NextState_started s s' :
  NextState s EventStarted = (s', true) ->
  s' = StateRunning /\ (s = StateStarting \/ s = StateFailed).
Proof.
  intros H.
  by_table (λ t : string * string * string, t.1.2 = EventStarted ->
              t.2 = StateRunning /\ (t.1.1 = StateStarting \/ t.1.1 = StateFailed)) H.
  by apply H.
Qed.

(** ** Properties *)

(** [solve_terminal] decides one state's line of the table; [solve_reach] walks
    to [destroyed] along destroy requests. *)
Ltac solve_terminal :=
  first [ split; intros _; [intros ev; reflexivity|reflexivity]
        | split; [vm_compute; discriminate|]; intros Hno; exfalso;
          first [ specialize (Hno EventDestroyRequest); vm_compute in Hno; discriminate Hno
                | specialize (Hno EventDestroyed); vm_compute in Hno; discriminate Hno ] ].
Ltac solve_reach :=
  first [ apply rtc_refl
        | apply (reaches_step _ EventDestroyRequest StateDestroyed); [done|apply rtc_refl]
        | apply (reaches_step _ EventDestroyed StateDestroyed); [done|apply rtc_refl]
        | apply (reaches_step _ EventDestroyRequest StateDestroying); [done|];
          apply (reaches_step _ EventDestroyed StateDestroyed); [done|apply rtc_refl] ].

Section Properties.

(** The table is a well-typed state machine over the declared constants:
    [NextState] accepts only declared states and declared events, answers a
    declared state, and answers the pair of the zero string and [false]
    everywhere else. *)
Theorem NextState_typed s ev :
  match NextState s ev with
  | (s', true) => s ∈ AllStates /\ ev ∈ AllEvents /\ s' ∈ AllStates
  | (s', false) => s' = ""
  end.
Proof.
  destruct (NextState s ev) as [s' []] eqn:H.
  - by by_table (λ t : string * string * string,
         t.1.1 ∈ AllStates /\ t.1.2 ∈ AllEvents /\ t.2 ∈ AllStates) H.
  - pose proof (NextState_false s ev) as Hf. rewrite H in Hf. naive_solver.
Qed.

(** [IsTerminal] is exact and every other state can be left for good: a
    declared state has no outgoing transition iff it is [destroyed], and from
    every declared state [destroyed] can be reached. *)
Theorem IsTerminal_exact s :
  s ∈ AllStates ->
  (IsTerminal s = true <-> forall ev, NextState s ev = ("", false)) /\
  reaches s StateDestroyed.
Proof.
  revert s. apply AllStates_cases; split.
  all: first [ by solve_terminal | by solve_reach ].
Qed.

(** A failed sandbox, which is not terminal. *)
Lemma IsTerminal_exact_witness :
  (IsTerminal StateFailed = true <-> forall ev, NextState StateFailed ev = ("", false)) /\
  reaches StateFailed StateDestroyed.
Proof. apply (IsTerminal_exact StateFailed). by apply (bool_decide_unpack _); vm_compute. Defined.

End Properties.
