(* ===== verification/Scheduler.v ===== *)
(** Bin-packing node selection: [Schedule] of control/internal/scheduler. *)

From S2P Require Import Prelude Models.

(** uuid.UUID: sixteen bytes, kept as the number they spell; [uuid.Nil] is 0. *)
Abbreviation uuid := N (only parsing).
Definition uuid_Nil : uuid := 0%N.

Record NodeCandidate := mkCandidate {
  cand_ID : uuid;
  cand_CapacityMB : Z;
  cand_UsedMB : Z;
  cand_Status : string;
}.

Definition ErrNoNodes : error := Sentinel "scheduler: no nodes available".
Definition ErrNoCapacity : error := Sentinel "scheduler: no node has sufficient capacity".

(** [c.CapacityMB - c.UsedMB], an int32 subtraction. *)
Definition free_mb (c : NodeCandidate) : Z := wrap32 (cand_CapacityMB c - cand_UsedMB c).

(** One iteration of the selection loop over the best so far. *)
Definition schedule_step (requiredMB : Z) (best : uuid * Z) (c : NodeCandidate) : uuid * Z :=
  let '(bestID, bestFree) := best in
  if negb (String.eqb (cand_Status c) NodeHealthy) then best
  else
    let free := free_mb c in
    if free <? requiredMB then best
    else if bestFree <? free then (cand_ID c, free)
    else best.

Definition Schedule (candidates : list NodeCandidate) (requiredMB : Z) : result uuid :=
  match candidates with
  | [] => Err ErrNoNodes
  | _ =>
      let '(bestID, bestFree) := foldl (schedule_step requiredMB) (uuid_Nil, -1) candidates in
      if bestFree <? 0 then Err ErrNoCapacity else Ok bestID
  end.

(** ** Specification *)

(** A node the scheduler may pick: healthy, with non-negative free memory that
    covers the request. *)
Definition fits (requiredMB : Z) (c : NodeCandidate) : Prop :=
  cand_Status c = NodeHealthy /\ requiredMB <= free_mb c /\ 0 <= free_mb c.

#[export] Instance fits_dec r c : Decision (fits r c).
Proof. unfold fits. apply _. Defined.

(** [c] is the first of the fitting candidates with the most free memory. *)
Definition best_fit (requiredMB : Z) (l : list NodeCandidate) (c : NodeCandidate) : Prop :=
  exists before after,
    l = before ++ c :: after /\ fits requiredMB c /\
    Forall (fun d => fits requiredMB d -> free_mb d < free_mb c) before /\
    Forall (fun d => fits requiredMB d -> free_mb d <= free_mb c) after.

(** What the loop knows after a prefix of the list. *)
Definition loop_inv (requiredMB : Z) (l : list NodeCandidate) (best : uuid * Z) : Prop :=
  (best = (uuid_Nil, -1) /\ Forall (fun d => ~ fits requiredMB d) l) \/
  (exists c, best_fit requiredMB l c /\ best = (cand_ID c, free_mb c)).

Lemma schedule_step_fits r best c :
  -1 <= best.2 ->
  schedule_step r best c =
    if decide (fits r c /\ best.2 < free_mb c) then (cand_ID c, free_mb c) else best.
Proof.
  destruct best as [b f]. unfold schedule_step, fits. simpl. intros Hf.
  destruct (String.eqb_spec (cand_Status c) NodeHealthy) as [Hs|Hs]; simpl;
    [|rewrite decide_False; naive_solver].
  destruct (Z.ltb_spec (free_mb c) r); [rewrite decide_False; naive_solver lia|].
  destruct (Z.ltb_spec f (free_mb c)).
  - by rewrite decide_True by (split_and!; naive_solver lia).
  - rewrite decide_False; naive_solver lia.
Qed.

Lemma loop_inv_step r l best c :
  loop_inv r l best -> loop_inv r (l ++ [c]) (schedule_step r best c).
Proof.
  intros Hinv. rewrite schedule_step_fits; cycle 1.
  { destruct Hinv as [[-> _]|(d & (b & a & _ & (_ & _ & ?) & _) & ->)]; simpl; lia. }
  destruct (decide _) as [[Hfit Hlt]|Hno].
  - right. exists c. split; [|done]. exists l, []. split_and!; [done|done| |done].
    destruct Hinv as [[-> Hnone]|(d & (b & a & -> & Hd & Hb & Ha) & ->)]; simpl in *.
    + eapply Forall_impl; [done|]. simpl. tauto.
    + apply Forall_app. split; [|apply Forall_cons; split; [lia|]];
        eapply Forall_impl; try done; simpl; intros x Hx Hfx; specialize (Hx Hfx); lia.
  - destruct Hinv as [[-> Hnone]|(d & (b & a & -> & Hd & Hb & Ha) & ->)]; simpl in *.
    + left. split; [done|]. apply Forall_app. split; [done|]. apply Forall_singleton.
      intros Hfit. apply Hno. split; [done|]. destruct Hfit as (_ & _ & ?). lia.
    + right. exists d. split; [|done]. exists b, (a ++ [c]).
      rewrite <- app_assoc. split_and!; try done.
      apply Forall_app. split; [done|]. apply Forall_singleton.
      intros Hfit. destruct (decide (free_mb c <= free_mb d)); [done|].
      exfalso. apply Hno. split; [done|lia].
Qed.

Lemma loop_inv_foldl r l : loop_inv r l (foldl (schedule_step r) (uuid_Nil, -1) l).
Proof.
  induction l as [|c l IH] using rev_ind; [by left|].
  rewrite foldl_app. by apply loop_inv_step.
Qed.

(** A chosen node is one of the candidates. *)
Lemma Schedule_in l r id : Schedule l r = Ok id -> exists c, c ∈ l /\ cand_ID c = id.
Proof.
  unfold Schedule. destruct l as [|c0 l0]; [done|].
  pose proof (loop_inv_foldl r (c0 :: l0)) as Hinv. destruct (foldl _ _ _) as [b f].
  destruct Hinv as [[Heq _]|(c & (be & af & Hl & _) & Heq)]; simplify_eq; [done|].
  destruct (Z.ltb_spec (free_mb c) 0); [done|]. intros [= <-]. exists c. split; [|done].
  rewrite Hl. set_solver.
Qed.

(** ** Properties *)

Section Properties.

(** C35: [Schedule] meets its contract exactly: [ErrNoNodes] on the empty list,
    the id of the first candidate with the most free memory among the healthy
    ones that cover the request, and [ErrNoCapacity] exactly when no candidate
    fits. *)
Theorem Schedule_spec candidates requiredMB :
  match Schedule candidates requiredMB with
  | Ok id => exists c, best_fit requiredMB candidates c /\ cand_ID c = id
  | Err e => (e = ErrNoNodes /\ candidates = []) \/
             (e = ErrNoCapacity /\ candidates <> [] /\
              Forall (fun c => ~ fits requiredMB c) candidates)
  end.
Proof.
  unfold Schedule. destruct candidates as [|c0 l0]; [by left|].
  pose proof (loop_inv_foldl requiredMB (c0 :: l0)) as Hinv.
  destruct (foldl _ _ _) as [b f].
  destruct Hinv as [[Heq Hnone]|(c & Hbest & Heq)]; simplify_eq.
  - right. by split_and!.
  - assert (0 <= free_mb c) as Hnn by (by destruct Hbest as (?&?&?&(?&?&?)&?)).
    destruct (Z.ltb_spec (free_mb c) 0); [lia|]. by exists c.
Qed.

(** The int32 subtraction cannot misplace a sandbox on a sane node: for a
    candidate whose used memory lies between 0 and its int32 capacity, fitting
    means exactly that the mathematical free memory covers the request. *)
Theorem fits_no_overflow requiredMB c :
  in_int32 (cand_CapacityMB c) -> 0 <= cand_UsedMB c <= cand_CapacityMB c ->
  (fits requiredMB c <->
   cand_Status c = NodeHealthy /\ cand_UsedMB c + requiredMB <= cand_CapacityMB c).
Proof.
  intros Hcap Hused. unfold fits, free_mb. unfold in_int32, min_int32, max_int32 in *.
  rewrite wrap32_id by (unfold in_int32, min_int32, max_int32; lia).
  naive_solver lia.
Qed.

Lemma fits_no_overflow_witness :
  (fits 512 (mkCandidate 7 1024 512 NodeHealthy) <->
   NodeHealthy = NodeHealthy /\ 512 + 512 <= 1024).
Proof. apply (fits_no_overflow 512 (mkCandidate 7 1024 512 NodeHealthy)); vm_compute; split; discriminate. Defined.

End Properties.
