(* ===== verification/Store.v ===== *)
(** The database of the control plane: the rows of control/internal/store, the
    constraints of control/migrations and one definition per query of
    control/internal/store/*.sql.go, executed atomically.

    A table is a finite map from the primary key; [NOW()] is the argument
    [now] (microseconds); a violated constraint is a [PgError] that leaves the
    database unchanged.  Rows that a query leaves unordered come in the map's
    enumeration order, ties of an [ORDER BY] too. *)

From S2P Require Import Prelude Netip Json Models Scheduler.

(** ** Rows *)

(** [pgtype.UUID], [pgtype.Text], [pgtype.Int4]: [None] is [Valid: false]. *)
Record Sandbox := mkSandbox {
  sb_ID : uuid;
  sb_AppName : string;
  sb_UserID : string;
  sb_NodeID : option uuid;
  sb_ContainerID : option string;
  sb_HostPort : option Z;
  sb_Image : string;
  sb_State : string;
  sb_StateVersion : Z;
  sb_Resources : json;
  sb_Env : json;
  sb_IdleTimeoutSeconds : Z;
  sb_CreatedAt : Z;
  sb_UpdatedAt : Z;
  sb_LastActiveAt : Z;
  sb_FailureCount : Z;
  sb_Metadata : json;
  sb_VerifiedAt : Z;
}.

Record Node := mkNode {
  nd_ID : uuid;
  nd_Hostname : string;
  nd_TailscaleIp : Addr;
  nd_AgentListenPort : Z;
  nd_CapacityMb : Z;
  nd_CapacityCpu : Z;           (* NUMERIC(4,1), in tenths *)
  nd_UsedMb : Z;
  nd_RunningContainers : Z;
  nd_Status : string;
  nd_AgentVersion : string;
  nd_LastSeenAt : Z;
  nd_RegisteredAt : Z;
  nd_Metadata : json;
  nd_AgentToken : string;
}.

Record Command := mkCommand {
  cmd_ID : uuid;
  cmd_NodeID : uuid;
  cmd_SandboxID : option uuid;
  cmd_CommandType : string;
  cmd_Payload : json;
  cmd_Status : string;
  cmd_DispatchedAt : option Z;
  cmd_AckedAt : option Z;
  cmd_Result : option json;
  cmd_TimeoutSeconds : Z;
  cmd_CreatedAt : Z;
}.

Record Event := mkEvent {
  ev_ID : Z;
  ev_SandboxID : option uuid;
  ev_NodeID : option uuid;
  ev_EventType : string;
  ev_Actor : string;
  ev_PrevState : option string;
  ev_NextState : option string;
  ev_Payload : json;
  ev_CreatedAt : Z;
}.

Record DB := mkDB {
  sandboxes : gmap uuid Sandbox;
  nodes : gmap uuid Node;
  commands : gmap uuid Command;
  events : list Event;          (* in order of insertion *)
  events_seq : Z;               (* next value of the BIGSERIAL *)
}.

Definition set_sandboxes (m : gmap uuid Sandbox) (db : DB) : DB :=
  mkDB m (nodes db) (commands db) (events db) (events_seq db).
Definition set_nodes (m : gmap uuid Node) (db : DB) : DB :=
  mkDB (sandboxes db) m (commands db) (events db) (events_seq db).
Definition set_commands (m : gmap uuid Command) (db : DB) : DB :=
  mkDB (sandboxes db) (nodes db) m (events db) (events_seq db).

(** A column update of one sandbox row: the columns some UPDATE of the program
    writes, everything else kept. *)
Definition upd_sandbox (s : Sandbox) (node : option uuid) (container : option string)
    (port : option Z) (state : string) (version updated active failures : Z)
    (metadata : json) (verified : Z) : Sandbox :=
  mkSandbox (sb_ID s) (sb_AppName s) (sb_UserID s) node container port (sb_Image s)
    state version (sb_Resources s) (sb_Env s) (sb_IdleTimeoutSeconds s) (sb_CreatedAt s)
    updated active failures metadata verified.

(** ** CHECK constraints *)

Definition check_state (s : string) : bool := bool_decide (s ∈ AllStates).
Definition check_node_status (s : string) : bool :=
  bool_decide (s ∈ [NodeHealthy; NodeUnhealthy; NodeDraining; NodeRemoved]).
Definition check_command_type (s : string) : bool :=
  bool_decide (s ∈ [CmdStartSandbox; CmdStopSandbox; CmdRestartSandbox; CmdGetLogs; CmdPrune]).
Definition check_command_status (s : string) : bool :=
  bool_decide (s ∈ [CmdPending; CmdDispatched; CmdCompleted; CmdFailed]).

Definition int4_ok (z : Z) : bool := (min_int32 <=? z) && (z <=? max_int32).

(** States a container can be alive in: the working set of the reconciler. *)
Definition live_state (s : string) : bool :=
  bool_decide (s ∈ [StatePending; StateStarting; StateRunning; StateRestarting]).

Definition second : Z := 1000000.

(** A statement: its answer and the database after it. *)
Definition stmt (A : Type) : Type := Z -> DB -> result A * DB.

Definition find_sandbox (db : DB) (id : option uuid) : option Sandbox :=
  i ← id; sandboxes db !! i.

(** Write back a row, checking the constraints an UPDATE of it can violate. *)
Definition write_sandbox (s : Sandbox) (db : DB) : result Sandbox * DB :=
  if negb (check_state (sb_State s))
  then (Err (PgError CheckViolation "sandboxes_state_check"), db)
  else if negb (int4_ok (sb_StateVersion s) && int4_ok (sb_FailureCount s))
  then (Err (PgError NumericOutOfRange "integer"), db)
  else match sb_NodeID s with
       | Some n =>
           match nodes db !! n with
           | Some _ => (Ok s, set_sandboxes (<[sb_ID s := s]> (sandboxes db)) db)
           | None => (Err (PgError ForeignKeyViolation "sandboxes_node_id_fkey"), db)
           end
       | None => (Ok s, set_sandboxes (<[sb_ID s := s]> (sandboxes db)) db)
       end.

(** [:exec] statements report no row. *)
Definition exec_unit {A} (r : result A * DB) : result unit * DB :=
  match r with (Ok _, db) => (Ok tt, db) | (Err e, db) => (Err e, db) end.

(** ** Sandboxes *)

Record CreateSandboxParams := mkCreateSandboxParams {
  cs_ID : uuid; cs_AppName : string; cs_UserID : string; cs_Image : string;
  cs_Resources : json; cs_Env : json; cs_IdleTimeoutSeconds : Z; cs_Metadata : json }.

Definition app_name_taken (db : DB) (app : string) : bool :=
  bool_decide (Exists (fun p => sb_AppName p.2 = app) (map_to_list (sandboxes db))).

Definition CreateSandbox (arg : CreateSandboxParams) : stmt Sandbox := fun now db =>
  let row := mkSandbox (cs_ID arg) (cs_AppName arg) (cs_UserID arg) None None None
               (cs_Image arg) StatePending 0 (cs_Resources arg) (cs_Env arg)
               (cs_IdleTimeoutSeconds arg) now now now 0 (cs_Metadata arg) now in
  match sandboxes db !! cs_ID arg with
  | Some _ => (Err (PgError UniqueViolation "sandboxes_pkey"), db)
  | None =>
      if app_name_taken db (cs_AppName arg)
      then (Err (PgError UniqueViolation "sandboxes_app_name_key"), db)
      else (Ok row, set_sandboxes (<[cs_ID arg := row]> (sandboxes db)) db)
  end.

Definition GetSandbox (id : option uuid) : stmt Sandbox := fun _ db =>
  match find_sandbox db id with
  | Some s => (Ok s, db)
  | None => (Err ErrNoRows, db)
  end.

Definition find_by_app (db : DB) (app : string) : option Sandbox :=
  head (filter (fun s => sb_AppName s = app) (map_to_list (sandboxes db)).*2).

Definition GetSandboxByAppName (app : string) : stmt Sandbox := fun _ db =>
  match find_by_app db app with
  | Some s => (Ok s, db)
  | None => (Err ErrNoRows, db)
  end.

(** The rows of the table, and [ORDER BY created_at DESC] of a selection. *)
Definition sandbox_rows (db : DB) : list Sandbox := (map_to_list (sandboxes db)).*2.
Definition newest_first (l : list Sandbox) : list Sandbox := order_by (fun s => - sb_CreatedAt s) l.

Definition ListSandboxes (limit : Z) : stmt (list Sandbox) := fun _ db =>
  if limit <? 0 then (Err (OtherError "LIMIT must not be negative"), db)
  else (Ok (take (Z.to_nat limit) (newest_first (sandbox_rows db))), db).

Definition ListSandboxesByState (state : string) : stmt (list Sandbox) := fun _ db =>
  (Ok (newest_first (filter (fun s => sb_State s = state) (sandbox_rows db))), db).

Definition ListSandboxesByNode (node : option uuid) : stmt (list Sandbox) := fun _ db =>
  (Ok (newest_first (filter (fun s => is_Some node /\ sb_NodeID s = node) (sandbox_rows db))), db).

Definition ListSandboxesByUser (user : string) : stmt (list Sandbox) := fun _ db =>
  (Ok (newest_first (filter (fun s => sb_UserID s = user) (sandbox_rows db))), db).

(** Optimistic locking: the row is written only while it is in the expected
    state, and [pgx.ErrNoRows] reports that it was not. *)
Definition TransitionSandboxState (state : string) (id : option uuid) (state_2 : string)
  : stmt Sandbox := fun now db =>
  match find_sandbox db id with
  | Some s =>
      if decide (sb_State s = state_2)
      then write_sandbox (upd_sandbox s (sb_NodeID s) (sb_ContainerID s) (sb_HostPort s)
             state (sb_StateVersion s + 1) now (sb_LastActiveAt s) (sb_FailureCount s)
             (sb_Metadata s) (sb_VerifiedAt s)) db
      else (Err ErrNoRows, db)
  | None => (Err ErrNoRows, db)
  end.

Definition AssignSandboxToNode (node : option uuid) (port : option Z) (container : option string)
    (id : option uuid) : stmt Sandbox := fun now db =>
  match find_sandbox db id with
  | Some s =>
      if decide (sb_State s = StatePending)
      then write_sandbox (upd_sandbox s node container port StateStarting
             (sb_StateVersion s + 1) now (sb_LastActiveAt s) (sb_FailureCount s)
             (sb_Metadata s) (sb_VerifiedAt s)) db
      else (Err ErrNoRows, db)
  | None => (Err ErrNoRows, db)
  end.

(** An [:exec] UPDATE by primary key; no row is no error. *)
Definition update_row (id : option uuid) (f : Sandbox -> Sandbox) (db : DB) : result unit * DB :=
  match find_sandbox db id with
  | Some s => exec_unit (write_sandbox (f s) db)
  | None => (Ok tt, db)
  end.

Definition UpdateSandboxLastActive (id : option uuid) : stmt unit := fun now db =>
  update_row id (fun s => upd_sandbox s (sb_NodeID s) (sb_ContainerID s) (sb_HostPort s)
    (sb_State s) (sb_StateVersion s) (sb_UpdatedAt s) now (sb_FailureCount s)
    (sb_Metadata s) (sb_VerifiedAt s)) db.

Definition UpdateSandboxRuntime (container : option string) (port : option Z) (id : option uuid)
  : stmt unit := fun now db =>
  update_row id (fun s => upd_sandbox s (sb_NodeID s) container port
    (sb_State s) (sb_StateVersion s) now (sb_LastActiveAt s) (sb_FailureCount s)
    (sb_Metadata s) (sb_VerifiedAt s)) db.

Definition IncrementSandboxFailureCount (id : option uuid) : stmt Sandbox := fun now db =>
  match find_sandbox db id with
  | Some s =>
      write_sandbox (upd_sandbox s (sb_NodeID s) (sb_ContainerID s) (sb_HostPort s)
        (sb_State s) (sb_StateVersion s) now (sb_LastActiveAt s) (sb_FailureCount s + 1)
        (sb_Metadata s) (sb_VerifiedAt s)) db
  | None => (Err ErrNoRows, db)
  end.

Definition ResetSandboxFailureCount (id : option uuid) : stmt unit := fun now db =>
  update_row id (fun s => upd_sandbox s (sb_NodeID s) (sb_ContainerID s) (sb_HostPort s)
    (sb_State s) (sb_StateVersion s) now (sb_LastActiveAt s) 0
    (sb_Metadata s) (sb_VerifiedAt s)) db.

(** Idle: running, and silent for longer than the row's own timeout. *)
Definition idle_row (now : Z) (s : Sandbox) : Prop :=
  sb_State s = StateRunning /\ sb_LastActiveAt s < now - sb_IdleTimeoutSeconds s * second.
#[export] Instance idle_row_dec now s : Decision (idle_row now s).
Proof. unfold idle_row. apply _. Defined.

Definition ListIdleSandboxes : stmt (list Sandbox) := fun now db =>
  (Ok (order_by sb_LastActiveAt (filter (idle_row now) (sandbox_rows db))), db).

Definition ListRunningSandboxesByNode (node : option uuid) : stmt (list Sandbox) := fun _ db =>
  (Ok (order_by sb_CreatedAt
        (filter (fun s => is_Some node /\ sb_NodeID s = node /\ sb_State s = StateRunning)
          (sandbox_rows db))), db).

(** [commands.sandbox_id REFERENCES sandboxes(id)], with no ON DELETE action. *)
Definition referenced (db : DB) (id : uuid) : bool :=
  bool_decide (Exists (fun p => cmd_SandboxID p.2 = Some id) (map_to_list (commands db))).

Definition DeleteSandbox (id : option uuid) : stmt unit := fun _ db =>
  match id with
  | Some i =>
      match sandboxes db !! i with
      | Some _ =>
          if referenced db i
          then (Err (PgError ForeignKeyViolation "commands_sandbox_id_fkey"), db)
          else (Ok tt, set_sandboxes (delete i (sandboxes db)) db)
      | None => (Ok tt, db)
      end
  | None => (Ok tt, db)
  end.

(** Counts per state, one row per state that occurs. *)
Definition CountSandboxesByState : stmt (list (string * Z)) := fun _ db =>
  (Ok ((fun st => (st, Z.of_nat (length (filter (fun s => sb_State s = st) (sandbox_rows db)))))
         <$> remove_dups (sb_State <$> sandbox_rows db)), db).

(** ** Verification marks *)

(** [now] is the [NOW()] of this statement, which is a transaction of its own:
    a mark that runs later in the same request has a later one, and its guard
    holds again. *)

Definition MarkSandboxVerified (app state : string) : stmt unit := fun now db =>
  match find_by_app db app with
  | Some s =>
      if decide (sb_VerifiedAt s < now)
      then exec_unit (write_sandbox (upd_sandbox s (sb_NodeID s) (sb_ContainerID s)
             (sb_HostPort s) state (sb_StateVersion s) (sb_UpdatedAt s) (sb_LastActiveAt s)
             (sb_FailureCount s) (sb_Metadata s) now) db)
      else (Ok tt, db)
  | None => (Ok tt, db)
  end.

Definition reason_doc (reason : string) : json := JObj [("reason", JStr reason)].

Definition MarkSandboxAgentLost (app : string) (node : option uuid) : stmt unit := fun now db =>
  match find_by_app db app with
  | Some s =>
      if decide (is_Some node /\ sb_NodeID s = node /\ live_state (sb_State s) = true /\
                 sb_CreatedAt s < now - 60 * second)
      then exec_unit (write_sandbox (upd_sandbox s (sb_NodeID s) (sb_ContainerID s)
             (sb_HostPort s) StateDestroyed (sb_StateVersion s) (sb_UpdatedAt s)
             (sb_LastActiveAt s) (sb_FailureCount s)
             (jsonb_concat (sb_Metadata s) (reason_doc "agent_lost_at_heartbeat")) now) db)
      else (Ok tt, db)
  | None => (Ok tt, db)
  end.

Definition MarkSandboxDestroyed (app reason : string) : stmt unit := fun now db =>
  match find_by_app db app with
  | Some s =>
      if live_state (sb_State s)
      then exec_unit (write_sandbox (upd_sandbox s (sb_NodeID s) (sb_ContainerID s)
             (sb_HostPort s) StateDestroyed (sb_StateVersion s + 1) now
             (sb_LastActiveAt s) (sb_FailureCount s)
             (jsonb_concat (sb_Metadata s) (reason_doc reason)) now) db)
      else (Ok tt, db)
  | None => (Ok tt, db)
  end.

Definition ListSandboxesForNode (node : option uuid) : stmt (list (string * string * Z)) :=
  fun _ db =>
  (Ok ((fun s => (sb_AppName s, sb_State s, sb_CreatedAt s)) <$>
        filter (fun s => is_Some node /\ sb_NodeID s = node /\ live_state (sb_State s) = true)
          (sandbox_rows db)), db).

(** ** Nodes *)

(** [pgtype.Numeric]: [Int * 10^Exp]. *)
Record Numeric := mkNumeric { num_Int : Z; num_Exp : Z }.

(** Storing into NUMERIC(4,1): round half away from zero to tenths; more than
    three integral digits overflow. *)
Definition to_tenths (n : Numeric) : option Z :=
  let scaled :=
    if 0 <=? num_Exp n + 1 then num_Int n * 10 ^ (num_Exp n + 1)
    else let d := 10 ^ (- (num_Exp n + 1)) in
         Z.sgn (num_Int n) * ((2 * Z.abs (num_Int n) + d) / (2 * d)) in
  if Z.abs scaled <? 10000 then Some scaled else None.

Record CreateNodeParams := mkCreateNodeParams {
  cn_ID : uuid; cn_Hostname : string; cn_TailscaleIp : Addr; cn_AgentListenPort : Z;
  cn_CapacityMb : Z; cn_CapacityCpu : Numeric; cn_AgentVersion : string; cn_Metadata : json }.

Definition CreateNode (arg : CreateNodeParams) : stmt Node := fun now db =>
  match to_tenths (cn_CapacityCpu arg) with
  | None => (Err (PgError NumericOutOfRange "capacity_cpu"), db)
  | Some cpu =>
      let row := mkNode (cn_ID arg) (cn_Hostname arg) (inet (cn_TailscaleIp arg))
                   (cn_AgentListenPort arg) (cn_CapacityMb arg) cpu 0 0 NodeHealthy
                   (cn_AgentVersion arg) now now (cn_Metadata arg) "" in
      match nodes db !! cn_ID arg with
      | Some _ => (Err (PgError UniqueViolation "nodes_pkey"), db)
      | None => (Ok row, set_nodes (<[cn_ID arg := row]> (nodes db)) db)
      end
  end.

Definition find_node (db : DB) (id : option uuid) : option Node := i ← id; nodes db !! i.

Definition GetNode (id : option uuid) : stmt Node := fun _ db =>
  match find_node db id with
  | Some n => (Ok n, db)
  | None => (Err ErrNoRows, db)
  end.

Definition node_rows (db : DB) : list Node := (map_to_list (nodes db)).*2.

Definition ListNodes : stmt (list Node) := fun _ db =>
  (Ok (order_by (fun n => - nd_RegisteredAt n) (node_rows db)), db).

(** The healthy nodes by [capacity_mb - used_mb], descending. *)
Definition healthy_nodes (db : DB) : list Node :=
  order_by (fun n => - (nd_CapacityMb n - nd_UsedMb n))
    (filter (fun n => nd_Status n = NodeHealthy) (node_rows db)).

(** The subtraction is int4: it fails when it overflows for any of the rows. *)
Definition memory_ok (db : DB) : bool :=
  forallb (fun n => int4_ok (nd_CapacityMb n - nd_UsedMb n)) (healthy_nodes db).

Definition ListHealthyNodes : stmt (list Node) := fun _ db =>
  if memory_ok db then (Ok (healthy_nodes db), db)
  else (Err (PgError NumericOutOfRange "integer"), db).

Definition write_node (n : Node) (db : DB) : result unit * DB :=
  if check_node_status (nd_Status n)
  then (Ok tt, set_nodes (<[nd_ID n := n]> (nodes db)) db)
  else (Err (PgError CheckViolation "nodes_status_check"), db).

(** An [:exec] UPDATE of one node. *)
Definition update_node (id : option uuid) (f : Node -> Node) (db : DB) : result unit * DB :=
  match find_node db id with
  | Some n => write_node (f n) db
  | None => (Ok tt, db)
  end.

Definition UpdateNodeHeartbeat (id : option uuid) (usedMb running : Z) : stmt unit :=
  fun now db =>
  update_node id (fun n => mkNode (nd_ID n) (nd_Hostname n) (nd_TailscaleIp n)
    (nd_AgentListenPort n) (nd_CapacityMb n) (nd_CapacityCpu n) usedMb running NodeHealthy
    (nd_AgentVersion n) now (nd_RegisteredAt n) (nd_Metadata n) (nd_AgentToken n)) db.

Definition UpdateNodeStatus (id : option uuid) (status : string) : stmt unit := fun _ db =>
  update_node id (fun n => mkNode (nd_ID n) (nd_Hostname n) (nd_TailscaleIp n)
    (nd_AgentListenPort n) (nd_CapacityMb n) (nd_CapacityCpu n) (nd_UsedMb n)
    (nd_RunningContainers n) status (nd_AgentVersion n) (nd_LastSeenAt n)
    (nd_RegisteredAt n) (nd_Metadata n) (nd_AgentToken n)) db.

Definition UpdateNodeToken (token version : string) (id : option uuid) : stmt unit :=
  fun now db =>
  update_node id (fun n => mkNode (nd_ID n) (nd_Hostname n) (nd_TailscaleIp n)
    (nd_AgentListenPort n) (nd_CapacityMb n) (nd_CapacityCpu n) (nd_UsedMb n)
    (nd_RunningContainers n) (nd_Status n) version now (nd_RegisteredAt n)
    (nd_Metadata n) token) db.

(** [:one] takes the first of the matching rows. *)
Definition GetNodeByHostnameAndIP (hostname : string) (ip : Addr) : stmt Node := fun _ db =>
  match filter (fun n => nd_Hostname n = hostname /\ nd_TailscaleIp n = inet ip) (node_rows db) with
  | n :: _ => (Ok n, db)
  | [] => (Err ErrNoRows, db)
  end.

Definition active_on (node : option uuid) (s : Sandbox) : Prop :=
  is_Some node /\ sb_NodeID s = node /\
  sb_State s <> StateDestroyed /\ sb_State s <> StateStopped.
#[export] Instance active_on_dec node s : Decision (active_on node s).
Proof. unfold active_on. apply _. Defined.

Definition CountActiveSandboxesByNode (node : option uuid) : stmt Z := fun _ db =>
  (Ok (Z.of_nat (length (filter (active_on node) (sandbox_rows db)))), db).

(** ** Commands *)

Record CreateCommandParams := mkCreateCommandParams {
  cc_ID : uuid; cc_NodeID : option uuid; cc_SandboxID : option uuid;
  cc_CommandType : string; cc_Payload : json; cc_TimeoutSeconds : Z }.

(** The nullable foreign key [commands.sandbox_id]. *)
Definition sandbox_ref_ok (db : DB) (id : option uuid) : bool :=
  match id with
  | None => true
  | Some i => bool_decide (is_Some (sandboxes db !! i))
  end.

(** Postgres checks NOT NULL and CHECK constraints before the unique index,
    and foreign keys last. *)
Definition CreateCommand (arg : CreateCommandParams) : stmt Command := fun now db =>
  match cc_NodeID arg with
  | None => (Err (PgError NotNullViolation "node_id"), db)
  | Some node =>
      let row := mkCommand (cc_ID arg) node (cc_SandboxID arg) (cc_CommandType arg)
                   (cc_Payload arg) CmdPending None None None (cc_TimeoutSeconds arg) now in
      if negb (check_command_type (cc_CommandType arg))
      then (Err (PgError CheckViolation "commands_command_type_check"), db)
      else match commands db !! cc_ID arg with
           | Some _ => (Err (PgError UniqueViolation "commands_pkey"), db)
           | None =>
               if negb (bool_decide (is_Some (nodes db !! node)))
               then (Err (PgError ForeignKeyViolation "commands_node_id_fkey"), db)
               else if negb (sandbox_ref_ok db (cc_SandboxID arg))
               then (Err (PgError ForeignKeyViolation "commands_sandbox_id_fkey"), db)
               else (Ok row, set_commands (<[cc_ID arg := row]> (commands db)) db)
           end
  end.

Definition GetCommand (id : option uuid) : stmt Command := fun _ db =>
  match (i ← id; commands db !! i) with
  | Some c => (Ok c, db)
  | None => (Err ErrNoRows, db)
  end.

Definition command_rows (db : DB) : list Command := (map_to_list (commands db)).*2.

Definition dispatched (now : Z) (c : Command) : Command :=
  mkCommand (cmd_ID c) (cmd_NodeID c) (cmd_SandboxID c) (cmd_CommandType c) (cmd_Payload c)
    CmdDispatched (Some now) (cmd_AckedAt c) (cmd_Result c) (cmd_TimeoutSeconds c)
    (cmd_CreatedAt c).

(** The ten oldest pending commands of the node are claimed in one statement. *)
Definition pending_commands (db : DB) (node : option uuid) : list Command :=
  take 10 (order_by cmd_CreatedAt
    (filter (fun c => Some (cmd_NodeID c) = node /\ cmd_Status c = CmdPending)
      (command_rows db))).

Definition PollPendingCommands (node : option uuid) : stmt (list Command) := fun now db =>
  let claimed := dispatched now <$> pending_commands db node in
  (Ok claimed,
   set_commands (foldr (fun c m => <[cmd_ID c := c]> m) (commands db) claimed) db).

Definition AckCommand (id : option uuid) (status : string) (res : option json) : stmt unit :=
  fun now db =>
  match (i ← id; commands db !! i) with
  | None => (Ok tt, db)
  | Some c =>
      if check_command_status status
      then (Ok tt, set_commands (<[cmd_ID c :=
              mkCommand (cmd_ID c) (cmd_NodeID c) (cmd_SandboxID c) (cmd_CommandType c)
                (cmd_Payload c) status (cmd_DispatchedAt c) (Some now) res
                (cmd_TimeoutSeconds c) (cmd_CreatedAt c)]> (commands db)) db)
      else (Err (PgError CheckViolation "commands_status_check"), db)
  end.

(** ** Events *)

Record RecordEventParams := mkRecordEventParams {
  re_SandboxID : option uuid; re_NodeID : option uuid; re_EventType : string;
  re_Actor : string; re_PrevState : option string; re_NextState : option string;
  re_Payload : json }.

Definition RecordEvent (arg : RecordEventParams) : stmt Event := fun now db =>
  let row := mkEvent (events_seq db) (re_SandboxID arg) (re_NodeID arg) (re_EventType arg)
               (re_Actor arg) (re_PrevState arg) (re_NextState arg) (re_Payload arg) now in
  (Ok row, mkDB (sandboxes db) (nodes db) (commands db) (events db ++ [row])
             (events_seq db + 1)).

Definition limited (limit : Z) (l : list Event) : result (list Event) :=
  if limit <? 0 then Err (OtherError "LIMIT must not be negative")
  else Ok (take (Z.to_nat limit) (order_by (fun e => - ev_CreatedAt e) l)).

Definition ListEventsBySandbox (sandbox : option uuid) (limit : Z) : stmt (list Event) :=
  fun _ db =>
  (limited limit (filter (fun e => is_Some sandbox /\ ev_SandboxID e = sandbox) (events db)), db).

Definition ListEventsByType (event_type : string) (limit : Z) : stmt (list Event) := fun _ db =>
  (limited limit (filter (fun e => ev_EventType e = event_type) (events db)), db).

Definition ListRecentEvents (limit : Z) : stmt (list Event) := fun _ db =>
  (limited limit (events db), db).
