(* ===== verification/StoreFacts.v ===== *)
(** What the statements of Store promise their callers: the schema's
    constraints are an invariant of every statement, each statement moves the
    state column only along the edges it is allowed to, and the optimistic
    lock of [TransitionSandboxState]. *)

From S2P Require Import Prelude Netip Json Models Scheduler Store.

(** ** The schema invariant *)

Record sandbox_ok (db : DB) (id : uuid) (s : Sandbox) : Prop := mk_sandbox_ok {
  so_key : sb_ID s = id;
  so_state : sb_State s ∈ AllStates;
  so_node : forall n, sb_NodeID s = Some n -> is_Some (nodes db !! n);
}.

Record command_ok (db : DB) (id : uuid) (c : Command) : Prop := mk_command_ok {
  co_key : cmd_ID c = id;
  co_type : check_command_type (cmd_CommandType c) = true;
  co_status : check_command_status (cmd_Status c) = true;
  co_node : is_Some (nodes db !! cmd_NodeID c);
  co_sandbox : forall i, cmd_SandboxID c = Some i -> is_Some (sandboxes db !! i);
}.

Record db_wf (db : DB) : Prop := mk_db_wf {
  wf_sandboxes : forall id s, sandboxes db !! id = Some s -> sandbox_ok db id s;
  wf_unique : forall i j s t, sandboxes db !! i = Some s -> sandboxes db !! j = Some t ->
                sb_AppName s = sb_AppName t -> i = j;
  wf_nodes : forall id n, nodes db !! id = Some n ->
               nd_ID n = id /\ check_node_status (nd_Status n) = true;
  wf_commands : forall id c, commands db !! id = Some c -> command_ok db id c;
  wf_events : Forall (fun e => ev_ID e < events_seq db) (events db);
}.

Definition empty_db : DB := mkDB ∅ ∅ ∅ [] 1.

Lemma empty_db_wf : db_wf empty_db.
Proof. by split; simpl. Qed.

(** ** Reading rows *)

Lemma elem_of_sandbox_rows db s :
  db_wf db -> s ∈ sandbox_rows db <-> sandboxes db !! sb_ID s = Some s.
Proof.
  intros Hwf. unfold sandbox_rows. rewrite list_elem_of_fmap. split.
  - intros ([i t] & -> & Hin). apply elem_of_map_to_list in Hin. simpl.
    by rewrite (so_key _ _ _ (wf_sandboxes _ Hwf _ _ Hin)).
  - intros H. exists (sb_ID s, s). split; [done|]. by apply elem_of_map_to_list.
Qed.

Lemma elem_of_node_rows db n :
  db_wf db -> n ∈ node_rows db <-> nodes db !! nd_ID n = Some n.
Proof.
  intros Hwf. unfold node_rows. rewrite list_elem_of_fmap. split.
  - intros ([i m] & -> & Hin). apply elem_of_map_to_list in Hin. simpl.
    by destruct (wf_nodes _ Hwf _ _ Hin) as [-> _].
  - intros Hn. exists (nd_ID n, n). split; [done|]. by apply elem_of_map_to_list.
Qed.

Lemma find_by_app_Some db app s :
  db_wf db -> find_by_app db app = Some s <->
    sandboxes db !! sb_ID s = Some s /\ sb_AppName s = app.
Proof.
  intros Hwf. unfold find_by_app. fold (sandbox_rows db). split.
  - destruct (filter _ _) as [|t l] eqn:Hf; [done|]. intros [= ->].
    assert (s ∈ filter (fun s => sb_AppName s = app) (sandbox_rows db)) as Hin
      by (rewrite Hf; left).
    apply list_elem_of_filter in Hin as [? Hin]. by apply elem_of_sandbox_rows in Hin.
  - intros [Hs Happ].
    assert (s ∈ filter (fun s => sb_AppName s = app) (sandbox_rows db)) as Hin.
    { apply list_elem_of_filter. by rewrite elem_of_sandbox_rows. }
    destruct (filter _ _) as [|t l] eqn:Hf; [by apply not_elem_of_nil in Hin|].
    assert (t ∈ filter (fun s => sb_AppName s = app) (sandbox_rows db)) as Ht
      by (rewrite Hf; left).
    apply list_elem_of_filter in Ht as [Hta Ht]. apply elem_of_sandbox_rows in Ht; [|done].
    simpl. f_equal.
    pose proof (wf_unique _ Hwf _ _ _ _ Ht Hs ltac:(congruence)) as Heq.
    rewrite Heq in Ht. congruence.
Qed.

Lemma find_by_app_None db app :
  find_by_app db app = None <->
  forall id s, sandboxes db !! id = Some s -> sb_AppName s <> app.
Proof.
  unfold find_by_app. fold (sandbox_rows db). split.
  - destruct (filter _ _) as [|t l] eqn:Hf; [|done]. intros _ id s Hs Happ.
    assert (s ∈ filter (fun s => sb_AppName s = app) (sandbox_rows db)) as Hin.
    { apply list_elem_of_filter. split; [done|]. apply list_elem_of_fmap.
      exists (id, s). split; [done|]. by apply elem_of_map_to_list. }
    rewrite Hf in Hin. by apply not_elem_of_nil in Hin.
  - intros Hno. destruct (filter _ _) as [|t l] eqn:Hf; [done|].
    assert (t ∈ filter (fun s => sb_AppName s = app) (sandbox_rows db)) as Ht
      by (rewrite Hf; left).
    apply list_elem_of_filter in Ht as [Hta Ht].
    apply list_elem_of_fmap in Ht as ([i t'] & -> & Hin).
    apply elem_of_map_to_list in Hin. by destruct (Hno _ _ Hin).
Qed.

Lemma app_name_taken_spec db app :
  app_name_taken db app = true <-> exists id s, sandboxes db !! id = Some s /\ sb_AppName s = app.
Proof.
  unfold app_name_taken. rewrite bool_decide_eq_true, Exists_exists. split.
  - intros ([i s] & Hin & ?). exists i, s. by apply elem_of_map_to_list in Hin.
  - intros (i & s & Hs & ?). exists (i, s). split; [by apply elem_of_map_to_list|done].
Qed.

Lemma referenced_spec db id :
  referenced db id = true <-> exists k c, commands db !! k = Some c /\ cmd_SandboxID c = Some id.
Proof.
  unfold referenced. rewrite bool_decide_eq_true, Exists_exists. split.
  - intros ([i c] & Hin & ?). exists i, c. by apply elem_of_map_to_list in Hin.
  - intros (i & c & Hc & ?). exists (i, c). split; [by apply elem_of_map_to_list|done].
Qed.

Lemma find_sandbox_Some db oid s :
  find_sandbox db oid = Some s <-> exists id, oid = Some id /\ sandboxes db !! id = Some s.
Proof. unfold find_sandbox. destruct oid; simpl; naive_solver. Qed.

(** ** Writing one row *)

(** [s'] is a later version of row [s]: the columns no statement writes after
    the insertion are equal and the version counter has not gone back. *)
Record same_row (s s' : Sandbox) : Prop := mk_same_row {
  sr_ID : sb_ID s' = sb_ID s;
  sr_AppName : sb_AppName s' = sb_AppName s;
  sr_UserID : sb_UserID s' = sb_UserID s;
  sr_Image : sb_Image s' = sb_Image s;
  sr_Resources : sb_Resources s' = sb_Resources s;
  sr_Env : sb_Env s' = sb_Env s;
  sr_Idle : sb_IdleTimeoutSeconds s' = sb_IdleTimeoutSeconds s;
  sr_Created : sb_CreatedAt s' = sb_CreatedAt s;
  sr_Version : sb_StateVersion s <= sb_StateVersion s';
}.

Lemma same_row_refl s : same_row s s.
Proof. by split. Qed.

Lemma same_row_trans a b c : same_row a b -> same_row b c -> same_row a c.
Proof. intros [] []. split; [congruence..|lia]. Qed.

Lemma upd_sandbox_same s n c p st v u a f m vf :
  sb_StateVersion s <= v -> same_row s (upd_sandbox s n c p st v u a f m vf).
Proof. by split. Qed.
#[export] Hint Resolve upd_sandbox_same : forge.

Lemma write_sandbox_cases s db :
  (exists v c, write_sandbox s db = (Err (PgError v c), db)) \/
  (check_state (sb_State s) = true /\
   (forall n, sb_NodeID s = Some n -> is_Some (nodes db !! n)) /\
   write_sandbox s db = (Ok s, set_sandboxes (<[sb_ID s := s]> (sandboxes db)) db)).
Proof.
  unfold write_sandbox.
  destruct (check_state (sb_State s)); simpl; [|eauto].
  destruct (int4_ok _ && int4_ok _); simpl; [|eauto].
  destruct (sb_NodeID s) as [n|] eqn:Hn; [|right; naive_solver].
  destruct (nodes db !! n) eqn:Hd; [|eauto]. right. split_and!; [done| |done].
  intros n' [= <-]. by rewrite Hd.
Qed.

Lemma insert_row_wf db s s' :
  db_wf db -> sandboxes db !! sb_ID s = Some s -> same_row s s' ->
  check_state (sb_State s') = true ->
  (forall n, sb_NodeID s' = Some n -> is_Some (nodes db !! n)) ->
  db_wf (set_sandboxes (<[sb_ID s' := s']> (sandboxes db)) db).
Proof.
  intros Hwf Hs [Hid Happ _ _ _ _ _ _ _] Hst Hnode. unfold check_state in Hst.
  apply bool_decide_eq_true_1 in Hst. split; simpl.
  - intros id t. rewrite lookup_insert. case_decide as Hd; [intros [= <-]; by split|].
    intros Ht. destruct (wf_sandboxes _ Hwf _ _ Ht). by split.
  - intros i j t u Hi Hj Heq. rewrite lookup_insert in Hi, Hj.
    repeat case_decide; simplify_eq; try done.
    + rewrite Hid. eapply wf_unique; eauto. congruence.
    + rewrite Hid. symmetry. eapply wf_unique; eauto. congruence.
    + eapply wf_unique; eauto.
  - apply (wf_nodes _ Hwf).
  - intros id c Hc. destruct (wf_commands _ Hwf _ _ Hc). split; simpl; try done.
    intros i Hi. destruct (decide (i = sb_ID s')) as [->|];
      [rewrite lookup_insert_eq; eauto|rewrite lookup_insert_ne by done; eauto].
  - apply (wf_events _ Hwf).
Qed.

Lemma exec_unit_snd {A} (r : result A * DB) : (exec_unit r).2 = r.2.
Proof. by destruct r as [[] ?]. Qed.

(** ** What one statement can do

    [db_step R db db'] lists the changes one statement can make.  [R] bounds
    the moves of the state column of an existing row: a row that is written
    keeps its state or moves along an edge of [R]. *)
Inductive db_step (R : string -> string -> Prop) (db : DB) : DB -> Prop :=
| step_same : db_step R db db
| step_row s s' :
    sandboxes db !! sb_ID s = Some s -> same_row s s' ->
    check_state (sb_State s') = true ->
    (forall n, sb_NodeID s' = Some n -> is_Some (nodes db !! n)) ->
    (sb_State s' = sb_State s \/ R (sb_State s) (sb_State s')) ->
    db_step R db (set_sandboxes (<[sb_ID s' := s']> (sandboxes db)) db)
| step_insert s :
    sandboxes db !! sb_ID s = None -> app_name_taken db (sb_AppName s) = false ->
    sb_State s = StatePending -> sb_NodeID s = None ->
    db_step R db (set_sandboxes (<[sb_ID s := s]> (sandboxes db)) db)
| step_delete i :
    referenced db i = false ->
    db_step R db (set_sandboxes (delete i (sandboxes db)) db)
| step_node n :
    check_node_status (nd_Status n) = true ->
    db_step R db (set_nodes (<[nd_ID n := n]> (nodes db)) db)
| step_commands m :
    (forall id c, m !! id = Some c -> command_ok db id c) ->
    (forall id, is_Some (commands db !! id) -> is_Some (m !! id)) ->
    db_step R db (set_commands m db)
| step_event row :
    ev_ID row = events_seq db ->
    db_step R db (mkDB (sandboxes db) (nodes db) (commands db) (events db ++ [row])
                    (events_seq db + 1)).

Lemma insert_new_wf db s :
  db_wf db -> sandboxes db !! sb_ID s = None -> app_name_taken db (sb_AppName s) = false ->
  sb_State s = StatePending -> sb_NodeID s = None ->
  db_wf (set_sandboxes (<[sb_ID s := s]> (sandboxes db)) db).
Proof.
  intros Hwf Hfresh Htaken Hst Hnode. split; simpl.
  - intros id t. rewrite lookup_insert. case_decide as Hd.
    + intros [= <-]. split; [done|rewrite Hst; by left|by rewrite Hnode].
    + intros Ht. destruct (wf_sandboxes _ Hwf _ _ Ht). by split.
  - assert (forall i t, sandboxes db !! i = Some t -> sb_AppName t <> sb_AppName s) as Hno.
    { intros i t Ht Heq. apply not_true_iff_false in Htaken. apply Htaken.
      apply app_name_taken_spec. eauto. }
    intros i j t u Hi Hj Heq. rewrite lookup_insert in Hi, Hj.
    repeat case_decide; simplify_eq; [done|naive_solver..|]. eapply wf_unique; eauto.
  - apply (wf_nodes _ Hwf).
  - intros id c Hc. destruct (wf_commands _ Hwf _ _ Hc). split; simpl; try done.
    intros i Hi. rewrite lookup_insert. case_decide; [done|eauto].
  - apply (wf_events _ Hwf).
Qed.

Lemma delete_wf db i :
  db_wf db -> referenced db i = false ->
  db_wf (set_sandboxes (delete i (sandboxes db)) db).
Proof.
  intros Hwf Href. split; simpl.
  - intros id t [_ Ht]%lookup_delete_Some. destruct (wf_sandboxes _ Hwf _ _ Ht). by split.
  - intros j k t u [_ Ht]%lookup_delete_Some [_ Hu]%lookup_delete_Some.
    eapply wf_unique; eauto.
  - apply (wf_nodes _ Hwf).
  - intros id c Hc. destruct (wf_commands _ Hwf _ _ Hc). split; simpl; try done.
    intros j Hj. rewrite lookup_delete_ne; [eauto|]. intros <-.
    apply not_true_iff_false in Href. apply Href, referenced_spec. eauto.
  - apply (wf_events _ Hwf).
Qed.

Lemma node_insert_wf db n :
  db_wf db -> check_node_status (nd_Status n) = true ->
  db_wf (set_nodes (<[nd_ID n := n]> (nodes db)) db).
Proof.
  intros Hwf Hst.
  assert (forall k, is_Some (nodes db !! k) -> is_Some (<[nd_ID n := n]> (nodes db) !! k))
    as Hmono by (intros k Hk; rewrite lookup_insert; by case_decide).
  split; simpl.
  - intros id s Hs. destruct (wf_sandboxes _ Hwf _ _ Hs). split; simpl; eauto.
  - apply (wf_unique _ Hwf).
  - intros id m. rewrite lookup_insert. case_decide; [naive_solver|apply (wf_nodes _ Hwf)].
  - intros id c Hc. destruct (wf_commands _ Hwf _ _ Hc). split; simpl; eauto.
  - apply (wf_events _ Hwf).
Qed.

Lemma db_step_wf R db db' : db_wf db -> db_step R db db' -> db_wf db'.
Proof.
  intros Hwf [ |s s' Hs Hrow Hst Hn _|s Hf Ha Hst Hn|i Hi|n Hn|m Hm _|row Hrow].
  - done.
  - by eapply insert_row_wf.
  - by apply insert_new_wf.
  - by apply delete_wf.
  - by apply node_insert_wf.
  - destruct Hwf. split; simpl; try done.
    + intros id s Hs. destruct (wf_sandboxes0 _ _ Hs). by split.
    + intros id c Hc. destruct (Hm _ _ Hc). by split.
  - destruct Hwf. split; simpl; try done.
    + intros id s Hs. destruct (wf_sandboxes0 _ _ Hs). by split.
    + intros id c Hc. destruct (wf_commands0 _ _ Hc). by split.
    + apply Forall_app. split; [|apply Forall_singleton; lia].
      eapply Forall_impl; [done|]. simpl. lia.
Qed.

Lemma db_step_mono (R R' : string -> string -> Prop) db db' :
  (forall a b, R a b -> R' a b) -> db_step R db db' -> db_step R' db db'.
Proof.
  intros HR []; [apply step_same|by eapply step_row; eauto; naive_solver|by apply step_insert
    |by apply step_delete|by apply step_node|by apply step_commands|by apply step_event].
Qed.

(** ** What each statement does

    [does R q]: from a well-formed database the statement [q] makes one
    [db_step R]. *)
Definition does {A} (R : string -> string -> Prop) (q : stmt A) : Prop :=
  forall now db, db_wf db -> db_step R db (q now db).2.

Definition no_move : string -> string -> Prop := fun _ _ => False.
Definition moves (a b : string) : string -> string -> Prop := fun x y => x = a /\ y = b.
Definition moves_live : string -> string -> Prop :=
  fun x y => live_state x = true /\ y = StateDestroyed.
Definition moves_to (b : string) : string -> string -> Prop := fun _ y => y = b.

Lemma does_mono {A} (R R' : string -> string -> Prop) (q : stmt A) :
  (forall a b, R a b -> R' a b) -> does R q -> does R' q.
Proof. intros HR Hq now db Hwf. eapply db_step_mono; eauto. Qed.

Lemma does_any {A} R (q : stmt A) : does no_move q -> does R q.
Proof. by apply does_mono. Qed.

(** Writing a new version of a row found in the table. *)
Lemma write_sandbox_does R db s s' :
  sandboxes db !! sb_ID s = Some s -> same_row s s' ->
  (sb_State s' = sb_State s \/ R (sb_State s) (sb_State s')) ->
  db_step R db (write_sandbox s' db).2.
Proof.
  intros Hs Hrow HR. destruct (write_sandbox_cases s' db) as [(v & c & ->)|(? & ? & ->)];
    simpl; by econstructor.
Qed.

Lemma find_sandbox_key db oid s :
  db_wf db -> find_sandbox db oid = Some s -> sandboxes db !! sb_ID s = Some s.
Proof.
  intros Hwf (id & -> & Hs)%find_sandbox_Some.
  by rewrite (so_key _ _ _ (wf_sandboxes _ Hwf _ _ Hs)).
Qed.

Lemma find_by_app_key db app s :
  db_wf db -> find_by_app db app = Some s -> sandboxes db !! sb_ID s = Some s.
Proof. intros Hwf H. by apply (find_by_app_Some _ _ _ Hwf) in H as [? _]. Qed.

#[export] Hint Constructors db_step : forge.
#[export] Hint Resolve find_sandbox_key same_row_refl does_any : forge.

(** Statements that write one row found by id or by name: case analysis down to
    [write_sandbox_does]. *)
#[local] Arguments write_sandbox : simpl never.
#[local] Arguments upd_sandbox : simpl never.
Ltac row_stmt :=
  intros now db Hwf; simpl;
  repeat (case_match; simpl; rewrite ?exec_unit_snd);
  first [ apply step_same
        | eapply write_sandbox_does;
          [ first [ by eapply find_sandbox_key | by eapply find_by_app_key ]
          | apply upd_sandbox_same; lia
          | unfold upd_sandbox, moves, moves_live, moves_to; simpl; naive_solver ] ].

Lemma does_CreateSandbox arg : does no_move (CreateSandbox arg).
Proof.
  intros now db Hwf. unfold CreateSandbox.
  destruct (sandboxes db !! cs_ID arg) eqn:Hf; simpl; [apply step_same|].
  destruct (app_name_taken db _) eqn:Ht; simpl; [apply step_same|]. by apply step_insert.
Qed.

Lemma does_GetSandbox id : does no_move (GetSandbox id).
Proof. unfold GetSandbox. row_stmt. Qed.
Lemma does_GetSandboxByAppName app : does no_move (GetSandboxByAppName app).
Proof. unfold GetSandboxByAppName. row_stmt. Qed.
Lemma does_ListSandboxes limit : does no_move (ListSandboxes limit).
Proof. unfold ListSandboxes. row_stmt. Qed.
Lemma does_ListHealthyNodes : does no_move ListHealthyNodes.
Proof.
  intros now db Hwf. unfold ListHealthyNodes. destruct (memory_ok db); apply step_same.
Qed.

Lemma does_read {A} (f : Z -> DB -> A) : does no_move (fun now db => (Ok (f now db), db)).
Proof. intros now db Hwf. apply step_same. Qed.

Lemma does_TransitionSandboxState b id a : does (moves a b) (TransitionSandboxState b id a).
Proof. unfold TransitionSandboxState. row_stmt. Qed.
Lemma does_AssignSandboxToNode n p c id :
  does (moves StatePending StateStarting) (AssignSandboxToNode n p c id).
Proof. unfold AssignSandboxToNode. row_stmt. Qed.
Lemma does_UpdateSandboxLastActive id : does no_move (UpdateSandboxLastActive id).
Proof. unfold UpdateSandboxLastActive, update_row. row_stmt. Qed.
Lemma does_UpdateSandboxRuntime c p id : does no_move (UpdateSandboxRuntime c p id).
Proof. unfold UpdateSandboxRuntime, update_row. row_stmt. Qed.
Lemma does_IncrementSandboxFailureCount id : does no_move (IncrementSandboxFailureCount id).
Proof. unfold IncrementSandboxFailureCount. row_stmt. Qed.
Lemma does_ResetSandboxFailureCount id : does no_move (ResetSandboxFailureCount id).
Proof. unfold ResetSandboxFailureCount, update_row. row_stmt. Qed.
Lemma does_MarkSandboxVerified app st : does (moves_to st) (MarkSandboxVerified app st).
Proof. unfold MarkSandboxVerified. row_stmt. Qed.
Lemma does_MarkSandboxAgentLost app n : does moves_live (MarkSandboxAgentLost app n).
Proof. unfold MarkSandboxAgentLost. row_stmt. Qed.
Lemma does_MarkSandboxDestroyed app r : does moves_live (MarkSandboxDestroyed app r).
Proof. unfold MarkSandboxDestroyed. row_stmt. Qed.

Lemma does_DeleteSandbox id : does no_move (DeleteSandbox id).
Proof.
  intros now db Hwf. unfold DeleteSandbox. repeat (case_match; simpl); eauto with forge.
Qed.

(** Nodes, commands, events. *)
Ltac node_stmt :=
  intros now db Hwf; repeat (case_match; simpl; try by auto with forge).

Lemma does_update_node id f :
  does no_move (fun _ => update_node id f).
Proof. unfold update_node, write_node. node_stmt. Qed.
Lemma does_CreateNode arg : does no_move (CreateNode arg).
Proof. unfold CreateNode. node_stmt. by apply (step_node _ _ (mkNode _ _ _ _ _ _ _ _ _ _ _ _ _ _)). Qed.
Lemma does_GetNode id : does no_move (GetNode id).
Proof. unfold GetNode. node_stmt. Qed.
Lemma does_GetNodeByHostnameAndIP h ip : does no_move (GetNodeByHostnameAndIP h ip).
Proof. unfold GetNodeByHostnameAndIP. node_stmt. Qed.
Lemma does_UpdateNodeHeartbeat id u r : does no_move (UpdateNodeHeartbeat id u r).
Proof. intros now. apply (does_update_node id _ now). Qed.
Lemma does_UpdateNodeStatus id st : does no_move (UpdateNodeStatus id st).
Proof. intros now. apply (does_update_node id _ now). Qed.
Lemma does_UpdateNodeToken t v id : does no_move (UpdateNodeToken t v id).
Proof. intros now. apply (does_update_node id _ now). Qed.

Lemma insert_command_step R db c :
  db_wf db -> command_ok db (cmd_ID c) c ->
  db_step R db (set_commands (<[cmd_ID c := c]> (commands db)) db).
Proof.
  intros Hwf Hc. apply step_commands.
  - intros id d. rewrite lookup_insert. case_decide; [intros; by simplify_eq|].
    apply (wf_commands _ Hwf).
  - intros id Hid. rewrite lookup_insert. by case_decide.
Qed.

Lemma does_CreateCommand arg : does no_move (CreateCommand arg).
Proof.
  intros now db Hwf. unfold CreateCommand.
  destruct (cc_NodeID arg) as [n|]; simpl; [|apply step_same].
  destruct (check_command_type _) eqn:Ht; simpl; [|apply step_same].
  destruct (commands db !! _); simpl; [apply step_same|].
  destruct (bool_decide _) eqn:Hn; simpl; [|apply step_same].
  destruct (sandbox_ref_ok _ _) eqn:Hs; simpl; [|apply step_same].
  apply (insert_command_step _ _ (mkCommand _ _ _ _ _ _ _ _ _ _ _) Hwf). split; simpl; try done.
  - by apply bool_decide_eq_true_1 in Hn.
  - intros i Hi. rewrite Hi in Hs. by apply bool_decide_eq_true_1 in Hs.
Qed.

Lemma does_GetCommand id : does no_move (GetCommand id).
Proof. unfold GetCommand. node_stmt. Qed.

Lemma does_AckCommand id st res : does no_move (AckCommand id st res).
Proof.
  intros now db Hwf. unfold AckCommand.
  destruct (id ≫= _) as [c|] eqn:Hc; simpl; [|apply step_same].
  destruct (check_command_status st) eqn:Hst; simpl; [|apply step_same].
  destruct id as [i|]; simpl in Hc; [|done].
  destruct (wf_commands _ Hwf _ _ Hc) as [Hk ?? ??].
  apply (insert_command_step _ _ (mkCommand _ _ _ _ _ _ _ _ _ _ _) Hwf). by split.
Qed.

(** [PollPendingCommands] rewrites the claimed commands in place. *)
Lemma foldr_insert_lookup (l : list Command) (m : gmap uuid Command) id c :
  foldr (fun c m => <[cmd_ID c := c]> m) m l !! id = Some c ->
  (c ∈ l /\ cmd_ID c = id) \/ m !! id = Some c.
Proof.
  induction l as [|d l IH]; simpl; [by right|]. rewrite lookup_insert.
  case_decide as Hd; [intros [= ->]; left; split; [by left|done]|].
  intros [[? ?]|?]%IH; [left; split; [by right|done]|by right].
Qed.

Lemma foldr_insert_mono (l : list Command) (m : gmap uuid Command) id :
  is_Some (m !! id) -> is_Some (foldr (fun c m => <[cmd_ID c := c]> m) m l !! id).
Proof.
  intros Hm. induction l as [|d l IH]; simpl; [done|]. rewrite lookup_insert. by case_decide.
Qed.

Lemma elem_of_pending db node c :
  c ∈ pending_commands db node ->
  (exists id, commands db !! id = Some c) /\ Some (cmd_NodeID c) = node /\ cmd_Status c = CmdPending.
Proof.
  intros Hc. unfold pending_commands in Hc.
  apply list_elem_of_lookup in Hc as [i Hi]. apply lookup_take_Some in Hi as [Hi _].
  apply list_elem_of_lookup_2, elem_of_order_by, list_elem_of_filter in Hi as [? Hi].
  split; [|done]. unfold command_rows in Hi.
  apply list_elem_of_fmap in Hi as ([id d] & -> & Hin). apply elem_of_map_to_list in Hin. eauto.
Qed.

Lemma does_PollPendingCommands node : does no_move (PollPendingCommands node).
Proof.
  intros now db Hwf. apply step_commands; simpl.
  - intros id c [[Hc <-]|Hc]%foldr_insert_lookup; [|by apply (wf_commands _ Hwf)].
    apply list_elem_of_fmap in Hc as (d & -> & Hd).
    destruct (elem_of_pending _ _ _ Hd) as [[i Hi] _].
    destruct (wf_commands _ Hwf _ _ Hi) as [Hk ????]. by split.
  - intros id. apply foldr_insert_mono.
Qed.

Lemma does_RecordEvent arg : does no_move (RecordEvent arg).
Proof. intros now db Hwf. by apply step_event. Qed.

(** ** The statements of the package *)

(** All queries of control/internal/store/*.sql.go, with the moves of the state
    column each may make. *)
Inductive statement : forall {A}, (string -> string -> Prop) -> stmt A -> Prop :=
| st_CreateSandbox a : statement no_move (CreateSandbox a)
| st_DeleteSandbox i : statement no_move (DeleteSandbox i)
| st_GetSandbox i : statement no_move (GetSandbox i)
| st_GetSandboxByAppName a : statement no_move (GetSandboxByAppName a)
| st_ListSandboxes l : statement no_move (ListSandboxes l)
| st_ListSandboxesByState s : statement no_move (ListSandboxesByState s)
| st_ListSandboxesByNode n : statement no_move (ListSandboxesByNode n)
| st_ListSandboxesByUser u : statement no_move (ListSandboxesByUser u)
| st_TransitionSandboxState b i a : statement (moves a b) (TransitionSandboxState b i a)
| st_AssignSandboxToNode n p c i :
    statement (moves StatePending StateStarting) (AssignSandboxToNode n p c i)
| st_UpdateSandboxLastActive i : statement no_move (UpdateSandboxLastActive i)
| st_UpdateSandboxRuntime c p i : statement no_move (UpdateSandboxRuntime c p i)
| st_IncrementSandboxFailureCount i : statement no_move (IncrementSandboxFailureCount i)
| st_ResetSandboxFailureCount i : statement no_move (ResetSandboxFailureCount i)
| st_ListIdleSandboxes : statement no_move ListIdleSandboxes
| st_ListRunningSandboxesByNode n : statement no_move (ListRunningSandboxesByNode n)
| st_CountSandboxesByState : statement no_move CountSandboxesByState
| st_MarkSandboxVerified a s : statement (moves_to s) (MarkSandboxVerified a s)
| st_MarkSandboxAgentLost a n : statement moves_live (MarkSandboxAgentLost a n)
| st_MarkSandboxDestroyed a r : statement moves_live (MarkSandboxDestroyed a r)
| st_ListSandboxesForNode n : statement no_move (ListSandboxesForNode n)
| st_CreateNode a : statement no_move (CreateNode a)
| st_GetNode i : statement no_move (GetNode i)
| st_ListNodes : statement no_move ListNodes
| st_ListHealthyNodes : statement no_move ListHealthyNodes
| st_UpdateNodeHeartbeat i u r : statement no_move (UpdateNodeHeartbeat i u r)
| st_UpdateNodeStatus i s : statement no_move (UpdateNodeStatus i s)
| st_UpdateNodeToken t v i : statement no_move (UpdateNodeToken t v i)
| st_GetNodeByHostnameAndIP h i : statement no_move (GetNodeByHostnameAndIP h i)
| st_CountActiveSandboxesByNode n : statement no_move (CountActiveSandboxesByNode n)
| st_CreateCommand a : statement no_move (CreateCommand a)
| st_GetCommand i : statement no_move (GetCommand i)
| st_PollPendingCommands n : statement no_move (PollPendingCommands n)
| st_AckCommand i s r : statement no_move (AckCommand i s r)
| st_RecordEvent a : statement no_move (RecordEvent a)
| st_ListEventsBySandbox s l : statement no_move (ListEventsBySandbox s l)
| st_ListEventsByType t l : statement no_move (ListEventsByType t l)
| st_ListRecentEvents l : statement no_move (ListRecentEvents l).

#[export] Hint Constructors statement : forge.

#[export] Hint Resolve does_CreateSandbox does_DeleteSandbox does_GetSandbox does_ListHealthyNodes
  does_GetSandboxByAppName does_ListSandboxes does_TransitionSandboxState
  does_AssignSandboxToNode does_UpdateSandboxLastActive does_UpdateSandboxRuntime
  does_IncrementSandboxFailureCount does_ResetSandboxFailureCount does_MarkSandboxVerified
  does_MarkSandboxAgentLost does_MarkSandboxDestroyed does_CreateNode does_GetNode
  does_GetNodeByHostnameAndIP does_UpdateNodeHeartbeat does_UpdateNodeStatus
  does_UpdateNodeToken does_CreateCommand does_GetCommand does_AckCommand
  does_PollPendingCommands does_RecordEvent : forge.

Lemma statement_does {A} R (q : stmt A) : statement R q -> does R q.
Proof. destruct 1; auto with forge; intros now db Hwf; apply step_same. Qed.

(** A database with one node and one sandbox on it, for concrete runs. *)
Definition demo_node : Node :=
  mkNode 1%N "node-1" (Addr4 [100; 64; 1; 5]) 8090 4096 40 0 0 NodeHealthy "0.1.0" 0 0 json_empty "tok".

Definition demo_sandbox (st : string) (failures : Z) : Sandbox :=
  mkSandbox 7%N "my-app" "user" (Some 1%N) (Some "abc") (Some 40001) "img" st 1
    (JObj [("cpu_cores", JDec (1 # 2)); ("memory_mb", JInt 512)]) json_empty 1800
    0 0 0 failures json_empty 0.

Definition demo_db (st : string) (failures : Z) : DB :=
  mkDB {[ 7%N := demo_sandbox st failures ]} {[ 1%N := demo_node ]} ∅ [] 1.

Lemma demo_db_wf st failures : st ∈ AllStates -> db_wf (demo_db st failures).
Proof.
  intros Hst. split; simpl.
  - intros id s [<- <-]%lookup_singleton_Some. split; simpl; [done|done|].
    intros n [= <-]. by rewrite lookup_singleton_eq.
  - intros i j s t [<- <-]%lookup_singleton_Some [<- <-]%lookup_singleton_Some. done.
  - intros id n [<- <-]%lookup_singleton_Some. by vm_compute.
  - intros id c Hc. by rewrite lookup_empty in Hc.
  - constructor.
Qed.

Lemma in_states st : check_state st = true -> st ∈ AllStates.
Proof. apply bool_decide_eq_true_1. Qed.

(** ** Properties *)

Section Properties.

(** C18: every query of the package does no more than its kind allows, whether it
    succeeds or fails: it changes nothing, or one sandbox row, whose identity,
    owner, image, resources, environment, idle timeout and creation time it
    keeps, whose version it does not decrease and whose state it leaves or moves
    along the edge of the query ([from] to [to] of a transition, pending to
    starting of an assignment, a live state to destroyed of the two marks that
    lose a sandbox, to the reported state of a verification, none otherwise); or
    it inserts one pending row on no node under a new id and a new name, deletes
    one row that no command refers to, writes one node, writes commands without
    losing any, or appends one event with the next id.  So the constraints of
    the migrations hold after every query on a database in which they hold. *)
Theorem statement_moves {A} R (q : stmt A) now db :
  statement R q -> db_wf db -> db_step R db (q now db).2 /\ db_wf (q now db).2.
Proof.
  intros Hq Hwf. pose proof (statement_does R q Hq now db Hwf) as Hstep.
  split; [done|by eapply db_step_wf].
Qed.

(** A transition out of starting on the demo database. *)
Lemma statement_moves_witness :
  let q := TransitionSandboxState StateRunning (Some 7%N) StateStarting in
  db_step (moves StateStarting StateRunning) (demo_db StateStarting 0) (q 5 (demo_db StateStarting 0)).2 /\
  (sb_State <$> sandboxes (q 5 (demo_db StateStarting 0)).2 !! 7%N) = Some StateRunning.
Proof.
  intros q. split; [|reflexivity].
  exact (proj1 (statement_moves (moves StateStarting StateRunning) q 5 (demo_db StateStarting 0)
    (st_TransitionSandboxState _ _ _) (demo_db_wf _ _ (in_states StateStarting eq_refl)))).
Defined.

(** [TransitionSandboxState] is a compare-and-swap.  It succeeds exactly
    when the row exists in the expected state, the new state passes the CHECK,
    the int4 counters fit and the row's node exists; then only this row
    changes, and only in its state, its version (plus one) and its update
    time.  In every other case nothing is written, and a row that is missing
    or in another state is reported as [pgx.ErrNoRows]. *)
Theorem TransitionSandboxState_cas state id from now db :
  db_wf db ->
  match TransitionSandboxState state (Some id) from now db with
  | (Ok s', db') =>
      exists s, sandboxes db !! id = Some s /\ sb_State s = from /\ check_state state = true /\
        s' = upd_sandbox s (sb_NodeID s) (sb_ContainerID s) (sb_HostPort s) state
               (sb_StateVersion s + 1) now (sb_LastActiveAt s) (sb_FailureCount s)
               (sb_Metadata s) (sb_VerifiedAt s) /\
        db' = set_sandboxes (<[id := s']> (sandboxes db)) db
  | (Err e, db') =>
      db' = db /\
      (e = ErrNoRows <-> (forall s, sandboxes db !! id = Some s -> sb_State s <> from))
  end.
Proof.
  intros Hwf. unfold TransitionSandboxState, find_sandbox. simpl.
  destruct (sandboxes db !! id) as [s|] eqn:Hs; [|naive_solver].
  destruct (decide (sb_State s = from)) as [Hst|Hst]; [|naive_solver].
  destruct (write_sandbox_cases (upd_sandbox s (sb_NodeID s) (sb_ContainerID s) (sb_HostPort s)
    state (sb_StateVersion s + 1) now (sb_LastActiveAt s) (sb_FailureCount s) (sb_Metadata s)
    (sb_VerifiedAt s)) db) as [(v & c & ->)|(Hc & _ & ->)].
  - split; [done|]. split; [done|]. intros Hno. by destruct (Hno s).
  - exists s. simpl in *. rewrite (so_key _ _ _ (wf_sandboxes _ Hwf _ _ Hs)). by split_and!.
Qed.

Lemma TransitionSandboxState_cas_witness :
  exists s s', sandboxes (demo_db StateStarting 0) !! 7%N = Some s /\
    sb_State s = StateStarting /\ sb_State s' = StateRunning /\
    (TransitionSandboxState StateRunning (Some 7%N) StateStarting 5 (demo_db StateStarting 0)).1
      = Ok s'.
Proof.
  pose proof (TransitionSandboxState_cas StateRunning 7%N StateStarting 5
    (demo_db StateStarting 0) (demo_db_wf _ _ (in_states StateStarting eq_refl))) as H.
  destruct (TransitionSandboxState _ _ _ _ _) as [[s'|e] db'] eqn:E.
  - destruct H as (s & Hs & Hst & _ & -> & _). exists s; eexists. split; [exact Hs|]. split; [exact Hst|]. split; [|reflexivity]. reflexivity.
  - vm_compute in E. discriminate E.
Defined.

(** C9: of two handlers that race to move the same row out of the same state,
    at most one wins: after a successful transition out of [from] any other
    transition out of [from] gets [pgx.ErrNoRows] and writes nothing. *)
Theorem transition_race_one_winner a b id from now now' db s db' :
  db_wf db -> a <> from ->
  TransitionSandboxState a (Some id) from now db = (Ok s, db') ->
  TransitionSandboxState b (Some id) from now' db' = (Err ErrNoRows, db').
Proof.
  intros Hwf Hne H.
  assert (exists t, sandboxes db' !! id = Some t /\ sb_State t = a) as (t & Ht & Hta).
  { unfold TransitionSandboxState, find_sandbox in H. simpl in H.
    destruct (sandboxes db !! id) as [s0|] eqn:Hs; [|done].
    destruct (decide _); [|done].
    destruct (write_sandbox_cases (upd_sandbox s0 (sb_NodeID s0) (sb_ContainerID s0)
      (sb_HostPort s0) a (sb_StateVersion s0 + 1) now (sb_LastActiveAt s0) (sb_FailureCount s0)
      (sb_Metadata s0) (sb_VerifiedAt s0)) db) as [(v & c & Hw)|(_ & _ & Hw)];
      rewrite Hw in H; simplify_eq. simpl.
    rewrite (so_key _ _ _ (wf_sandboxes _ Hwf _ _ Hs)), lookup_insert_eq. eauto. }
  unfold TransitionSandboxState, find_sandbox. simpl. rewrite Ht.
  by rewrite decide_False by congruence.
Qed.

Lemma transition_race_one_winner_witness :
  TransitionSandboxState StateDestroying (Some 7%N) StateRunning 9
    (TransitionSandboxState StateStopped (Some 7%N) StateRunning 5 (demo_db StateRunning 0)).2 =
  (Err ErrNoRows,
    (TransitionSandboxState StateStopped (Some 7%N) StateRunning 5 (demo_db StateRunning 0)).2).
Proof.
  eapply (transition_race_one_winner StateStopped StateDestroying 7%N StateRunning 5 9
    (demo_db StateRunning 0)).
  - apply demo_db_wf, in_states. reflexivity.
  - discriminate.
  - vm_compute. reflexivity.
Defined.

End Properties.
