(* ===== verification/Routing.v ===== *)
(** Proxy routing of control/internal/routing: the route manager (lifecycle
    events to route changes), the debouncing batcher, and the JSON mapping of a
    route to Caddy's configuration and back. *)

From S2P Require Import Prelude Json.

(** ** Routes *)

Record Route := mkRoute {
  rt_AppName : string;
  rt_SandboxID : string;
  rt_Upstream : string;
}.

Definition zero_route : Route := mkRoute "" "" "".

#[export] Instance Route_eq_dec : EqDecision Route.
Proof. solve_decision. Defined.

(** [Action] is "add" or "remove"; [Route] is set for adds, [AppName] for
    removes. *)
Record RouteChange := mkChange {
  rc_Action : string;
  rc_Route : Route;
  rc_AppName : string;
}.

(** ** Batcher *)

(** [b.pending] (last write wins per application), whether the debounce timer
    is armed, and [b.stopped].  [maxBuf] is a parameter of the operations: the
    constructors set it to 50. *)
Record Batcher := mkBatcher {
  b_pending : gmap string RouteChange;
  b_timer : bool;
  b_stopped : bool;
}.

Definition NewBatcher : Batcher := mkBatcher ∅ false false.
Definition defaultMaxBuf : Z := 50.

(** One call of [Flusher.Apply]: the adds and the removes of a batch. *)
Definition batch : Type := list Route * list string.

Definition change_key (c : RouteChange) : string :=
  if String.eqb (rc_Action c) "add" then rt_AppName (rc_Route c) else rc_AppName c.

Definition collect (changes : list RouteChange) : batch :=
  (rc_Route <$> filter (fun c => rc_Action c = "add") changes,
   rc_AppName <$> filter (fun c => rc_Action c = "remove") changes).

(** [flushLocked]: an empty buffer is left alone (the timer too); otherwise the
    buffer and the timer are cleared and the batch is handed to [Apply].  The
    mutex is released during [Apply], after the state change, so the state
    change is one atomic step and the batch its output. *)
Definition flushLocked (b : Batcher) : Batcher * list batch :=
  if bool_decide (b_pending b = ∅) then (b, [])
  else (mkBatcher ∅ false (b_stopped b), [collect (map_to_list (b_pending b)).*2]).

Definition stopTimerLocked (b : Batcher) : Batcher :=
  mkBatcher (b_pending b) false (b_stopped b).

Definition Enqueue (maxBuf : Z) (change : RouteChange) (b : Batcher) : Batcher * list batch :=
  if b_stopped b then (b, [])
  else
    let b1 := mkBatcher (<[change_key change := change]> (b_pending b)) (b_timer b)
                (b_stopped b) in
    if maxBuf <=? Z.of_nat (size (b_pending b1)) then flushLocked (stopTimerLocked b1)
    else (mkBatcher (b_pending b1) true (b_stopped b), []).

(** The function armed with [time.AfterFunc]. *)
Definition timer_fired (b : Batcher) : Batcher * list batch :=
  if b_stopped b then (b, []) else flushLocked b.

Definition Stop (b : Batcher) : Batcher * list batch :=
  if b_stopped b then (b, [])
  else
    let b1 := stopTimerLocked (mkBatcher (b_pending b) (b_timer b) true) in
    if (0 <? Z.of_nat (size (b_pending b1))) then flushLocked b1 else (b1, []).

(** ** Route manager *)

(** [lifecycle.RouteNotifier]'s two callbacks. *)
Inductive RouteNotification :=
| OnSandboxRunning (appName sandboxID upstream : string)
| OnSandboxStopped (appName : string).

Definition route_change (n : RouteNotification) : result RouteChange :=
  match n with
  | OnSandboxRunning app sid up =>
      if String.eqb up "" then Err (Sentinel "route manager: upstream must not be empty")
      else Ok (mkChange "add" (mkRoute app sid up) "")
  | OnSandboxStopped app => Ok (mkChange "remove" zero_route app)
  end.

(** The manager's callback: refuse an empty upstream, else enqueue. *)
Definition notify (maxBuf : Z) (n : RouteNotification) (b : Batcher)
  : result unit * (Batcher * list batch) :=
  match route_change n with
  | Err e => (Err e, (b, []))
  | Ok c => (Ok tt, Enqueue maxBuf c b)
  end.

(** ** A batcher's life

    The events that reach a batcher, in the order in which they take the
    mutex. *)
Inductive batcher_event :=
| BEnqueue (c : RouteChange)
| BTimer
| BStop.

Definition batcher_step (maxBuf : Z) (e : batcher_event) (b : Batcher) : Batcher * list batch :=
  match e with
  | BEnqueue c => Enqueue maxBuf c b
  | BTimer => timer_fired b
  | BStop => Stop b
  end.

Fixpoint batcher_run (maxBuf : Z) (es : list batcher_event) (b : Batcher)
  : Batcher * list batch :=
  match es with
  | [] => (b, [])
  | e :: es' =>
      let '(b1, out1) := batcher_step maxBuf e b in
      let '(b2, out2) := batcher_run maxBuf es' b1 in
      (b2, out1 ++ out2)
  end.

(** ** Specification: what the proxy is last told about an application *)

(** An instruction to the proxy. *)
Inductive intent := Present (r : Route) | Absent.

(** The last instruction about [app] in a batch ([Apply] runs the adds first). *)
Definition batch_intent (app : string) (bt : batch) : option intent :=
  if bool_decide (app ∈ bt.2) then Some Absent
  else Present <$> last (filter (fun r => rt_AppName r = app) bt.1).

Definition change_intent (c : RouteChange) : option intent :=
  if String.eqb (rc_Action c) "add" then Some (Present (rc_Route c))
  else if String.eqb (rc_Action c) "remove" then Some Absent
  else None.

(** The last of the present answers in a sequence. *)
Definition last_intent (l : list (option intent)) : option intent :=
  foldl (fun acc o => match o with Some i => Some i | None => acc end) None l.

(** What was told by the flushed batches and is still waiting in the buffer. *)
Definition told (app : string) (out : list batch) (b : Batcher) : option intent :=
  last_intent ((batch_intent app <$> out) ++ [b_pending b !! app ≫= change_intent]).

(** What the callers asked for, up to [Stop]. *)
Fixpoint asked (app : string) (es : list batcher_event) : list (option intent) :=
  match es with
  | [] => []
  | BEnqueue c :: es' =>
      (if String.eqb (change_key c) app then change_intent c else None) :: asked app es'
  | BTimer :: es' => asked app es'
  | BStop :: _ => []
  end.

(** The changes the route manager makes: an add or a remove, stored under the
    application it is about. *)
Definition good_change (c : RouteChange) : Prop :=
  rc_Action c = "add" \/ rc_Action c = "remove".

Record batcher_ok (maxBuf : Z) (b : Batcher) : Prop := mk_batcher_ok {
  bo_keys : forall k c, b_pending b !! k = Some c -> change_key c = k /\ good_change c;
  bo_bound : Z.of_nat (size (b_pending b)) < maxBuf;
  bo_timer : b_pending b <> ∅ -> b_timer b = true;
  bo_stopped : b_stopped b = true -> b_pending b = ∅;
}.

(** ** Facts *)

Definition later (a b : option intent) : option intent :=
  match b with Some i => Some i | None => a end.

Lemma later_assoc a b c : later a (later b c) = later (later a b) c.
Proof. by destruct c. Qed.

Lemma later_None a : later None a = a.
Proof. by destruct a. Qed.

Lemma last_intent_acc l acc :
  foldl (fun acc o => match o with Some i => Some i | None => acc end) acc l =
  later acc (last_intent l).
Proof.
  revert acc. unfold last_intent. induction l as [|o l IH]; intros acc; simpl; [done|].
  rewrite IH. rewrite (IH (match o with Some i => Some i | None => None end)).
  by destruct o, (foldl _ _ _).
Qed.

Lemma last_intent_cons o l : last_intent (o :: l) = later o (last_intent l).
Proof. unfold last_intent at 1. simpl. rewrite last_intent_acc. by destruct o. Qed.

Lemma last_intent_app l1 l2 : last_intent (l1 ++ l2) = later (last_intent l1) (last_intent l2).
Proof.
  induction l1 as [|o l1 IH]; simpl; [by rewrite later_None|].
  by rewrite !last_intent_cons, IH, later_assoc.
Qed.

Lemma last_all_equal {A} (x : A) l : x ∈ l -> (forall y, y ∈ l -> y = x) -> last l = Some x.
Proof.
  intros Hx Hall. destruct (last l) as [y|] eqn:Hl.
  - f_equal. apply Hall. by apply last_Some_elem_of.
  - apply last_None in Hl. subst. by apply not_elem_of_nil in Hx.
Qed.

Definition pending_intent (app : string) (m : gmap string RouteChange) : option intent :=
  m !! app ≫= change_intent.

Lemma elem_of_map_values {V} (m : gmap string V) c :
  c ∈ (map_to_list m).*2 <-> exists k, m !! k = Some c.
Proof.
  rewrite list_elem_of_fmap. split.
  - intros ([k d] & -> & H). apply elem_of_map_to_list in H. eauto.
  - intros [k H]. exists (k, c). split; [done|]. by apply elem_of_map_to_list.
Qed.

Lemma good_change_cases c :
  good_change c ->
  (rc_Action c = "add" /\ change_key c = rt_AppName (rc_Route c) /\
     change_intent c = Some (Present (rc_Route c))) \/
  (rc_Action c = "remove" /\ change_key c = rc_AppName c /\ change_intent c = Some Absent).
Proof. unfold change_key, change_intent. intros [H|H]; rewrite H; simpl; auto. Qed.

Section Collect.
Context (m : gmap string RouteChange).
Hypothesis Hkeys : forall k c, m !! k = Some c -> change_key c = k /\ good_change c.

Lemma elem_of_removes app :
  app ∈ (collect (map_to_list m).*2).2 <->
  exists c, m !! app = Some c /\ rc_Action c = "remove".
Proof.
  unfold collect. simpl. rewrite list_elem_of_fmap. split.
  - intros (c & -> & Hc). apply list_elem_of_filter in Hc as [Ha Hc].
    apply elem_of_map_values in Hc as [k Hk]. destruct (Hkeys _ _ Hk) as [Hck Hg].
    exists c. split; [|done]. destruct (good_change_cases _ Hg) as [(?&?&?)|(?&Hn&?)];
      [congruence|]. rewrite <- Hn, Hck. done.
  - intros (c & Hc & Ha). exists c. destruct (Hkeys _ _ Hc) as [Hck Hg]. split.
    + destruct (good_change_cases _ Hg) as [(?&?&?)|(?&Hn&?)]; congruence.
    + apply list_elem_of_filter. split; [done|]. apply elem_of_map_values. eauto.
Qed.

Lemma elem_of_adds r :
  r ∈ (collect (map_to_list m).*2).1 <->
  exists c, m !! rt_AppName r = Some c /\ rc_Action c = "add" /\ rc_Route c = r.
Proof.
  unfold collect. simpl. rewrite list_elem_of_fmap. split.
  - intros (c & -> & Hc). apply list_elem_of_filter in Hc as [Ha Hc].
    apply elem_of_map_values in Hc as [k Hk]. destruct (Hkeys _ _ Hk) as [Hck Hg].
    exists c. split_and!; [|done|done].
    destruct (good_change_cases _ Hg) as [(?&Hn&?)|(?&?&?)]; [|congruence].
    rewrite <- Hn, Hck. done.
  - intros (c & Hc & Ha & <-). exists c. split; [done|]. apply list_elem_of_filter.
    split; [done|]. apply elem_of_map_values. eauto.
Qed.

Lemma collect_intent app :
  batch_intent app (collect (map_to_list m).*2) = pending_intent app m.
Proof.
  unfold batch_intent, pending_intent. case_bool_decide as Hrem.
  - apply elem_of_removes in Hrem as (c & Hc & Ha). destruct (Hkeys _ _ Hc) as [_ Hg].
    rewrite Hc. simpl. destruct (good_change_cases _ Hg) as [(?&?&?)|(?&?&->)]; congruence.
  - destruct (m !! app) as [c|] eqn:Hc.
    + simpl. destruct (Hkeys _ _ Hc) as [Hck Hg].
      destruct (good_change_cases _ Hg) as [(Ha&Hn&->)|(Ha&_&_)].
      * rewrite (last_all_equal (rc_Route c)); [done| |].
        -- apply list_elem_of_filter. split; [congruence|]. apply elem_of_adds.
           exists c. by rewrite <- Hn, Hck.
        -- intros r [Hr Hin]%list_elem_of_filter.
           apply elem_of_adds in Hin as (d & Hd & _ & <-). congruence.
      * exfalso. apply Hrem, elem_of_removes. eauto.
    + destruct (filter _ _) as [|r l] eqn:Hf; [done|]. exfalso.
      assert (r ∈ r :: l) as Hr by left.
      rewrite <- Hf in Hr. apply list_elem_of_filter in Hr as [Happ Hr].
      apply elem_of_adds in Hr as (d & Hd & _). congruence.
Qed.
End Collect.

(** ** The invariant is kept, and no instruction is lost *)

Section BatcherFacts.
Context (maxBuf : Z).
Hypothesis Hmax : 1 <= maxBuf.

Lemma NewBatcher_ok : batcher_ok maxBuf NewBatcher.
Proof. split; simpl; try done; rewrite ?map_size_empty; try lia. Qed.

(** Flushing empties the buffer and tells exactly what it held. *)
Lemma flushLocked_spec b app :
  (forall k c, b_pending b !! k = Some c -> change_key c = k /\ good_change c) ->
  b_pending (flushLocked b).1 = ∅ /\ b_stopped (flushLocked b).1 = b_stopped b /\
  last_intent (batch_intent app <$> (flushLocked b).2) = pending_intent app (b_pending b).
Proof.
  intros Hk. unfold flushLocked. case_bool_decide as He; simpl.
  - rewrite He. unfold pending_intent. by rewrite lookup_empty.
  - split_and!; [done|done|]. rewrite last_intent_cons, collect_intent by done.
    unfold last_intent. simpl. by rewrite later_None || destruct (pending_intent _ _).
Qed.

Lemma empty_ok b : b_pending b = ∅ -> batcher_ok maxBuf b.
Proof.
  intros He. split; rewrite He; try done. rewrite map_size_empty. lia.
Qed.

Lemma pending_insert_ok b c :
  batcher_ok maxBuf b -> good_change c ->
  forall k d, <[change_key c := c]> (b_pending b) !! k = Some d ->
              change_key d = k /\ good_change d.
Proof.
  intros Hok Hg k d. rewrite lookup_insert. case_decide; [intros; by simplify_eq|].
  apply (bo_keys _ _ Hok).
Qed.

Lemma Enqueue_spec b c app :
  batcher_ok maxBuf b -> good_change c -> b_stopped b = false ->
  let '(b', out) := Enqueue maxBuf c b in
  batcher_ok maxBuf b' /\ b_stopped b' = false /\
  later (last_intent (batch_intent app <$> out)) (pending_intent app (b_pending b')) =
  later (pending_intent app (b_pending b))
    (if String.eqb (change_key c) app then change_intent c else None).
Proof.
  intros Hok Hg Hst. unfold Enqueue. rewrite Hst. simpl.
  pose proof (pending_insert_ok b c Hok Hg) as Hkeys.
  assert (pending_intent app (<[change_key c := c]> (b_pending b)) =
          later (pending_intent app (b_pending b))
            (if String.eqb (change_key c) app then change_intent c else None)) as Hpi.
  { unfold pending_intent. destruct (String.eqb_spec (change_key c) app) as [<-|Hne].
    - rewrite lookup_insert_eq. simpl.
      destruct (good_change_cases _ Hg) as [(?&?&->)|(?&?&->)]; done.
    - by rewrite lookup_insert_ne by done. }
  destruct (maxBuf <=? _) eqn:Hfull.
  - destruct (flushLocked_spec (stopTimerLocked (mkBatcher
      (<[change_key c:=c]> (b_pending b)) (b_timer b) false)) app Hkeys) as (He & Hs & Hi).
    destruct (flushLocked _) as [b' out]. simpl in *. split_and!; [by apply empty_ok|done|].
    rewrite Hi, He, Hpi. unfold pending_intent at 2. by rewrite lookup_empty.
  - apply Z.leb_gt in Hfull. simpl. split_and!; [split; simpl; try done; lia|done|].
    by rewrite later_None.
Qed.

Lemma timer_fired_spec b app :
  batcher_ok maxBuf b -> b_stopped b = false ->
  let '(b', out) := timer_fired b in
  batcher_ok maxBuf b' /\ b_stopped b' = false /\
  later (last_intent (batch_intent app <$> out)) (pending_intent app (b_pending b')) =
  pending_intent app (b_pending b).
Proof.
  intros Hok Hst. unfold timer_fired. rewrite Hst.
  destruct (flushLocked_spec b app (bo_keys _ _ Hok)) as (He & Hs & Hi).
  destruct (flushLocked b) as [b' out]. simpl in *.
  split_and!; [by apply empty_ok|congruence|].
  rewrite Hi, He. unfold pending_intent at 2. by rewrite lookup_empty.
Qed.

Lemma Stop_spec b app :
  batcher_ok maxBuf b -> b_stopped b = false ->
  let '(b', out) := Stop b in
  b_pending b' = ∅ /\ b_stopped b' = true /\
  last_intent (batch_intent app <$> out) = pending_intent app (b_pending b).
Proof.
  intros Hok Hst. unfold Stop. rewrite Hst. simpl. destruct (0 <? _) eqn:Hsz.
  - destruct (flushLocked_spec (stopTimerLocked (mkBatcher (b_pending b) (b_timer b) true))
      app (bo_keys _ _ Hok)) as (He & Hs & Hi).
    by destruct (flushLocked _) as [b' out].
  - apply Z.ltb_ge in Hsz. assert (b_pending b = ∅) as He
      by (apply map_size_empty_inv; lia).
    simpl. rewrite He. split_and!; [done|done|]. unfold pending_intent. by rewrite lookup_empty.
Qed.

Lemma stopped_run es b :
  b_stopped b = true -> batcher_run maxBuf es b = (b, []).
Proof.
  intros Hst. induction es as [|e es IH]; simpl; [done|].
  assert (batcher_step maxBuf e b = (b, [])) as ->
    by (destruct e; simpl; unfold Enqueue, timer_fired, Stop; by rewrite Hst).
  by rewrite IH.
Qed.

Definition good_event (e : batcher_event) : Prop :=
  match e with BEnqueue c => good_change c | _ => True end.

Lemma batcher_run_spec es b app :
  batcher_ok maxBuf b -> b_stopped b = false -> Forall good_event es ->
  let '(b', out) := batcher_run maxBuf es b in
  batcher_ok maxBuf b' /\
  later (last_intent (batch_intent app <$> out)) (pending_intent app (b_pending b')) =
  later (pending_intent app (b_pending b)) (last_intent (asked app es)).
Proof.
  revert b. induction es as [|e es IH]; intros b Hok Hst Hg; simpl.
  { by rewrite later_None. }
  apply Forall_cons in Hg as [Hge Hges]. destruct e as [c| |]; simpl in *.
  - pose proof (Enqueue_spec b c app Hok Hge Hst) as He.
    destruct (Enqueue maxBuf c b) as [b1 o1]. destruct He as (Hok1 & Hst1 & Hi1).
    specialize (IH b1 Hok1 Hst1 Hges). destruct (batcher_run maxBuf es b1) as [b2 o2].
    destruct IH as [Hok2 Hi2]. split; [done|].
    rewrite fmap_app, last_intent_app, last_intent_cons, later_assoc, <- Hi1.
    by rewrite <- later_assoc, Hi2, later_assoc.
  - pose proof (timer_fired_spec b app Hok Hst) as He.
    destruct (timer_fired b) as [b1 o1]. destruct He as (Hok1 & Hst1 & Hi1).
    specialize (IH b1 Hok1 Hst1 Hges). destruct (batcher_run maxBuf es b1) as [b2 o2].
    destruct IH as [Hok2 Hi2]. split; [done|].
    rewrite fmap_app, last_intent_app, <- Hi1.
    by rewrite <- later_assoc, Hi2, later_assoc.
  - pose proof (Stop_spec b app Hok Hst) as He.
    destruct (Stop b) as [b1 o1]. destruct He as (He1 & Hst1 & Hi1).
    rewrite stopped_run by done. rewrite app_nil_r. split; [by apply empty_ok|].
    rewrite Hi1, He1. unfold pending_intent at 2. rewrite lookup_empty.
    unfold last_intent. by simpl.
Qed.
End BatcherFacts.

(** ** Caddy's configuration of a route *)

(** [buildRouteJSON]; a Go map marshals with sorted keys, which no reader of the
    document depends on. *)
Definition buildRouteJSON (r : Route) : json :=
  JObj [("@id", JStr ("route-" +:+ rt_AppName r));
        ("handle", JArr [JObj [
            ("handler", JStr "reverse_proxy");
            ("headers", JObj [("request", JObj [("set", JObj [
               ("X-Forwarded-Host", JArr [JStr "{http.request.host}"]);
               ("X-Sandbox-ID", JArr [JStr (rt_SandboxID r)])])])]);
            ("transport", JObj [("protocol", JStr "http")]);
            ("upstreams", JArr [JObj [("dial", JStr (rt_Upstream r))]])]]);
        ("match", JArr [JObj [("host", JArr [JStr (rt_AppName r +:+ ".myappx.live")])]])].

Record caddyRoutePayload := mkPayload {
  cp_ID : string;
  cp_Match : list (list string);                  (* host of each matcher *)
  cp_Handle : list (string * list string);        (* handler, dials of its upstreams *)
}.

Definition dec_struct {A} (f : list (string * json) -> A * bool) : decoder A := fun old j =>
  match j with
  | JObj m => f m
  | JNull => (old, true)
  | _ => (old, false)
  end.

Definition dec_match : decoder (list string) :=
  dec_struct (fun m => dec_field "host" (dec_list dec_string "") [] m).

Definition dec_upstream : decoder string :=
  dec_struct (fun m => dec_field "dial" dec_string "" m).

Definition dec_handle : decoder (string * list string) :=
  dec_struct (fun m =>
    let '(h, ok1) := dec_field "handler" dec_string "" m in
    let '(us, ok2) := dec_field "upstreams" (dec_list dec_upstream "") [] m in
    ((h, us), ok1 && ok2)).

Definition dec_payload : decoder caddyRoutePayload :=
  dec_struct (fun m =>
    let '(id, ok1) := dec_field "@id" dec_string "" m in
    let '(ms, ok2) := dec_field "match" (dec_list dec_match []) [] m in
    let '(hs, ok3) := dec_field "handle" (dec_list dec_handle ("", [])) [] m in
    (mkPayload id ms hs, ok1 && ok2 && ok3)).

(** [parseRoute]: the name from the id, the upstream from the first handler;
    the sandbox id is not recovered. *)
Definition parseRoute (p : caddyRoutePayload) : Route :=
  mkRoute
    (if HasPrefix (cp_ID p) "route-" then TrimPrefix (cp_ID p) "route-" else "")
    ""
    (match cp_Handle p with
     | (_, dial :: _) :: _ => dial
     | _ => ""
     end).

(** The routes [ListRoutes] makes of a decoded response. *)
Definition parse_routes (raw : list caddyRoutePayload) : list Route :=
  filter (fun r => rt_AppName r <> "") (parseRoute <$> raw).

Definition decode_routes (body : json) : result (list Route) :=
  let '(raw, ok) := dec_list dec_payload (mkPayload "" [] []) [] body in
  if ok then Ok (parse_routes raw) else Err (OtherError "decode routes").

Lemma dec_payload_build r old :
  dec_payload old (buildRouteJSON r) =
  (mkPayload ("route-" +:+ rt_AppName r) [[rt_AppName r +:+ ".myappx.live"]]
     [("reverse_proxy", [rt_Upstream r])], true).
Proof. reflexivity. Qed.

Lemma parse_build_payload r :
  parseRoute (mkPayload ("route-" +:+ rt_AppName r) [[rt_AppName r +:+ ".myappx.live"]]
     [("reverse_proxy", [rt_Upstream r])]) = mkRoute (rt_AppName r) "" (rt_Upstream r).
Proof.
  unfold parseRoute. cbn [cp_ID cp_Handle].
  unfold HasPrefix. by rewrite prefix_app, TrimPrefix_app.
Qed.

Lemma decode_build_routes (rs : list Route) :
  Forall (fun r => rt_AppName r <> "") rs ->
  decode_routes (JArr (buildRouteJSON <$> rs)) =
  Ok ((fun r => mkRoute (rt_AppName r) "" (rt_Upstream r)) <$> rs).
Proof.
  intros Hne. unfold decode_routes, dec_list. rewrite <- list_fmap_compose.
  assert (forall l, (dec_payload (mkPayload "" [] []) ∘ buildRouteJSON) <$> l =
    (fun r => (mkPayload ("route-" +:+ rt_AppName r) [[rt_AppName r +:+ ".myappx.live"]]
       [("reverse_proxy", [rt_Upstream r])], true)) <$> l) as ->.
  { intros l. by apply list_fmap_ext. }
  replace (forallb _ _) with true; cycle 1.
  { symmetry. apply forallb_forall. intros x Hx. apply list_elem_of_In in Hx.
    by apply list_elem_of_fmap in Hx as (r & -> & _). }
  f_equal. unfold parse_routes. rewrite <- !list_fmap_compose.
  induction Hne as [|r l Hr _ IH]; [done|]. rewrite !fmap_cons. simpl compose.
  rewrite parse_build_payload. by rewrite filter_cons_True, IH by done.
Qed.

(** ** Properties *)

Section Properties.

(** The batcher loses nothing and invents nothing.  For any order of
    enqueues, timer expiries and stops, what the flushed batches followed by
    the buffer last say about an application is the last add or remove that
    was enqueued for it before the stop. *)
Theorem batcher_tells_last_request maxBuf es app :
  1 <= maxBuf -> Forall good_event es ->
  let '(b, out) := batcher_run maxBuf es NewBatcher in
  told app out b = last_intent (asked app es).
Proof.
  intros Hmax Hg.
  pose proof (batcher_run_spec maxBuf Hmax es NewBatcher app (NewBatcher_ok maxBuf Hmax)
    eq_refl Hg) as H.
  destruct (batcher_run maxBuf es NewBatcher) as [b out]. destruct H as [_ H].
  unfold told. rewrite last_intent_app, last_intent_cons.
  change (last_intent []) with (@None intent). cbn [later].
  fold (pending_intent app (b_pending b)). rewrite H.
  unfold pending_intent. simpl. by rewrite lookup_empty, later_None.
Qed.

Lemma batcher_tells_last_request_witness :
  let '(b, out) := batcher_run 2 [BEnqueue (mkChange "add" (mkRoute "a" "s" "h:1") "");
      BTimer; BEnqueue (mkChange "remove" zero_route "a"); BStop] NewBatcher in
  told "a" out b = Some Absent.
Proof.
  apply (batcher_tells_last_request 2
    [BEnqueue (mkChange "add" (mkRoute "a" "s" "h:1") ""); BTimer;
     BEnqueue (mkChange "remove" zero_route "a"); BStop] "a").
  - lia.
  - repeat (apply Forall_cons_2 || apply Forall_nil_2); simpl; unfold good_change; auto.
Defined.

(** The buffer stays below its limit and no change waits without a timer:
    after any sequence of events the buffer holds fewer than [maxBuf] changes,
    a non-empty buffer has its debounce timer armed, and a stopped batcher
    holds nothing. *)
Theorem batcher_bounded_and_armed maxBuf es :
  1 <= maxBuf -> Forall good_event es ->
  let '(b, out) := batcher_run maxBuf es NewBatcher in
  Z.of_nat (size (b_pending b)) < maxBuf /\
  (b_pending b <> ∅ -> b_timer b = true) /\
  (b_stopped b = true -> b_pending b = ∅).
Proof.
  intros Hmax Hg.
  pose proof (batcher_run_spec maxBuf Hmax es NewBatcher "" (NewBatcher_ok maxBuf Hmax)
    eq_refl Hg) as H.
  destruct (batcher_run maxBuf es NewBatcher) as [b out]. by destruct H as [[] _].
Qed.

Lemma batcher_bounded_and_armed_witness :
  let '(b, out) := batcher_run 2 [BEnqueue (mkChange "remove" zero_route "a")] NewBatcher in
  Z.of_nat (size (b_pending b)) < 2 /\
  (b_pending b <> ∅ -> b_timer b = true) /\ (b_stopped b = true -> b_pending b = ∅).
Proof.
  apply (batcher_bounded_and_armed 2 [BEnqueue (mkChange "remove" zero_route "a")]).
  - lia.
  - repeat (apply Forall_cons_2 || apply Forall_nil_2); simpl; unfold good_change; auto.
Defined.

(** A list of named routes that is built into Caddy's JSON and listed back
    decodes without error to the same application names and upstreams in the
    same order; the sandbox ids are not recovered. *)
Theorem routes_roundtrip (rs : list Route) :
  Forall (fun r => rt_AppName r <> "") rs ->
  decode_routes (JArr (buildRouteJSON <$> rs)) =
  Ok ((fun r => mkRoute (rt_AppName r) "" (rt_Upstream r)) <$> rs).
Proof.
  apply decode_build_routes.
Qed.

Lemma routes_roundtrip_witness :
  decode_routes (JArr (buildRouteJSON <$> [mkRoute "my-app" "sid" "100.64.1.5:40001"])) =
  Ok [mkRoute "my-app" "" "100.64.1.5:40001"].
Proof.
  apply (routes_roundtrip [mkRoute "my-app" "sid" "100.64.1.5:40001"]).
  repeat constructor. discriminate.
Defined.

End Properties.
