(* ===== verification/Effects.v ===== *)
(** The effects of the control plane and the world that answers them: database
    statements (with injected failures), the clock, [uuid.New], the route
    notifier, and HTTP calls to Caddy and to the agents. *)

From S2P Require Import Prelude Netip Json Models Scheduler Store StoreFacts Routing.

(** ** External code *)

Record http_request := mkRequest {
  rq_method : string;
  rq_url : string;
  rq_body : option json;
}.

(** [rs_json] is [None] when the body is not a JSON document. *)
Record http_response := mkResponse {
  rs_status : Z;
  rs_json : option json;
}.

(** What the source takes from code outside the repository: random UUIDs, their
    text form and its parser (google/uuid), the system's random bytes (as many
    as asked for), the text of Postgres' errors, and the peers reached over HTTP
    with their state. *)
Class External := {
  uuid_New : nat -> uuid;
  uuid_String : uuid -> string;
  uuid_Parse : string -> option uuid;
  random_bytes : nat -> nat -> result string;
  pg_text : violation -> string -> string;
  peers : Type;
  peer_http : http_request -> peers -> result http_response * peers;
}.

(** ** The signature *)

Inductive ctlE : Type -> Type :=
| EDb {X} (q : stmt X) : ctlE (result X)
| EUuidNew : ctlE uuid
| ERandom (len : nat) : ctlE (result string)
| ENow : ctlE Z
| ENotify (n : RouteNotification) : ctlE (result unit)
| EHttp (r : http_request) : ctlE (result http_response).

Abbreviation ctl A := (prog ctlE A) (only parsing).

Definition db {X} (q : stmt X) : ctl (result X) := trigger (EDb q).
Definition new_uuid : ctl uuid := trigger EUuidNew.
Definition rand_Read (len : nat) : ctl (result string) := trigger (ERandom len).
Definition time_Now : ctl Z := trigger ENow.
Definition notifier (n : RouteNotification) : ctl (result unit) := trigger (ENotify n).
Definition http_Do (r : http_request) : ctl (result http_response) := trigger (EHttp r).

(** ** The world *)

Section World.
Context `{External}.

(** [err.Error()]. *)
Fixpoint error_text (e : error) : string :=
  match e with
  | ErrNoRows => "no rows in result set"
  | PgError v c => pg_text v c
  | OtherError m => m
  | Sentinel m => m
  | Wrap ctx e' => ctx +:+ ": " +:+ error_text e'
  | Annotate e' detail => error_text e' +:+ ": " +:+ detail
  end.

(** [w_faults] schedules failures of the next database calls (connection
    errors and the like): [Some e] makes the call fail with [e] and no
    effect; past the end of the list calls run. *)
Record World := mkWorld {
  w_db : DB;
  w_now : Z;
  w_rng : nat;
  w_faults : list (option error);
  w_batcher : Batcher;
  w_out : list batch;
  w_peers : peers;
}.

Definition set_db (d : DB) (w : World) : World :=
  mkWorld d (w_now w) (w_rng w) (w_faults w) (w_batcher w) (w_out w) (w_peers w).
Definition set_faults (f : list (option error)) (w : World) : World :=
  mkWorld (w_db w) (w_now w) (w_rng w) f (w_batcher w) (w_out w) (w_peers w).
Definition next_rng (w : World) : World :=
  mkWorld (w_db w) (w_now w) (S (w_rng w)) (w_faults w) (w_batcher w) (w_out w) (w_peers w).
Definition set_batcher (b : Batcher) (out : list batch) (w : World) : World :=
  mkWorld (w_db w) (w_now w) (w_rng w) (w_faults w) b out (w_peers w).
Definition set_peers (p : peers) (w : World) : World :=
  mkWorld (w_db w) (w_now w) (w_rng w) (w_faults w) (w_batcher w) (w_out w) p.

Definition exec_db {X} (q : stmt X) (w : World) : result X * World :=
  let '(r, d) := q (w_now w) (w_db w) in (r, set_db d w).

Definition call_db {X} (q : stmt X) (w : World) : result X * World :=
  match w_faults w with
  | Some e :: fs => (Err e, set_faults fs w)
  | None :: fs => exec_db q (set_faults fs w)
  | [] => exec_db q w
  end.

Definition call_notify (n : RouteNotification) (w : World) : result unit * World :=
  let '(r, (b, out)) := notify defaultMaxBuf n (w_batcher w) in
  (r, set_batcher b (w_out w ++ out) w).

Definition handle {X} (e : ctlE X) : World -> X * World :=
  match e with
  | EDb q => fun w => call_db q w
  | EUuidNew => fun w => (uuid_New (w_rng w), next_rng w)
  | ERandom len => fun w => (random_bytes (w_rng w) len, next_rng w)
  | ENow => fun w => (w_now w, w)
  | ENotify n => fun w => call_notify n w
  | EHttp r => fun w =>
      let '(x, p) := peer_http r (w_peers w) in (x, set_peers p w)
  end.

Definition set_now (t : Z) (w : World) : World :=
  mkWorld (w_db w) t (w_rng w) (w_faults w) (w_batcher w) (w_out w) (w_peers w).

(** Sequential execution with the clock standing still and nobody interfering.
    Postgres gives every statement a [NOW()] of its own, and [exec_clock] below
    lets time pass between effects: what depends on that (a second
    verification of a row in one request) is stated there. *)
Definition exec {A} (p : ctl A) (w : World) : A * World := run (@handle) p w.
Definition ctl_wp {A} (p : ctl A) (Q : A -> World -> Prop) (w : World) : Prop :=
  wp (@handle) p Q w.

Lemma exec_wp {A} (p : ctl A) (Q : A -> World -> Prop) w :
  ctl_wp p Q w -> let '(a, w') := exec p w in Q a w'.
Proof. done. Qed.

(** ** Rules *)

Lemma exec_statement {X} (q : stmt X) w : w_faults w = [] -> exec (db q) w = exec_db q w.
Proof.
  intros Hf. unfold exec, db, trigger. simpl. unfold call_db. rewrite Hf. by destruct (exec_db q w).
Qed.

Lemma exec_http r w :
  exec (http_Do r) w = ((peer_http r (w_peers w)).1, set_peers (peer_http r (w_peers w)).2 w).
Proof. unfold exec, http_Do, trigger. simpl. by destruct (peer_http r (w_peers w)). Qed.

Lemma exec_ret {A} (a : A) w : exec (Ret a) w = (a, w).
Proof. done. Qed.

Lemma exec_bind {A B} (p : ctl A) (f : A -> ctl B) w :
  exec (bind p f) w = let '(a, w') := exec p w in exec (f a) w'.
Proof. apply run_bind. Qed.

Lemma wp_db {A X} (q : stmt X) (k : result X -> ctl A) Q w r d :
  w_faults w = [] -> q (w_now w) (w_db w) = (r, d) ->
  ctl_wp (k r) Q (set_db d w) -> ctl_wp (Vis (EDb q) k) Q w.
Proof.
  intros Hf Hq Hk. apply wp_vis. simpl. unfold call_db, exec_db. by rewrite Hf, Hq.
Qed.

Lemma wp_uuid {A} (k : uuid -> ctl A) Q w :
  ctl_wp (k (uuid_New (w_rng w))) Q (next_rng w) -> ctl_wp (Vis EUuidNew k) Q w.
Proof. intros Hk. by apply wp_vis. Qed.

Lemma wp_notify {A} (k : result unit -> ctl A) n Q w :
  (let '(r, w') := call_notify n w in ctl_wp (k r) Q w') -> ctl_wp (Vis (ENotify n) k) Q w.
Proof. intros Hk. by apply wp_vis. Qed.

Lemma ctl_wp_ret {A} (a : A) (Q : A -> World -> Prop) w : Q a w -> ctl_wp (Ret a) Q w.
Proof. by apply wp_ret. Qed.

Lemma ctl_wp_bind {A B} (p : ctl A) (f : A -> ctl B) Q w :
  ctl_wp p (fun a w' => ctl_wp (f a) Q w') w -> ctl_wp (bind p f) Q w.
Proof. by apply wp_bind. Qed.

Lemma ctl_wp_mono {A} (p : ctl A) (Q Q' : A -> World -> Prop) w :
  (forall a w', Q a w' -> Q' a w') -> ctl_wp p Q w -> ctl_wp p Q' w.
Proof. by apply wp_mono. Qed.

Lemma call_notify_keeps n w :
  w_db (call_notify n w).2 = w_db w /\ w_now (call_notify n w).2 = w_now w /\
  w_faults (call_notify n w).2 = w_faults w /\ w_rng (call_notify n w).2 = w_rng w /\
  w_peers (call_notify n w).2 = w_peers w.
Proof. unfold call_notify. by destruct (notify _ _ _) as [? []]. Qed.

(** ** Execution while time passes *)

(** [g n] is the time that passes before effect [n]. *)
Definition next (g : nat -> Z) : nat -> Z := fun n => g (S n).
Definition skip (k : nat) (g : nat -> Z) : nat -> Z := fun n => g (k + n)%nat.

Definition handle_clock {X} (e : ctlE X) (s : (nat -> Z) * World) : X * ((nat -> Z) * World) :=
  let '(g, w) := s in
  let '(x, w') := handle e (set_now (w_now w + g 0%nat) w) in (x, (next g, w')).

Definition exec_clock {A} (p : ctl A) (g : nat -> Z) (w : World) : A * ((nat -> Z) * World) :=
  run (@handle_clock) p (g, w).

Lemma exec_clock_bind {A B} (p : ctl A) (f : A -> ctl B) g w :
  exec_clock (bind p f) g w = let '(a, (g', w')) := exec_clock p g w in exec_clock (f a) g' w'.
Proof. unfold exec_clock. rewrite run_bind. by destruct (run _ p _) as [a [g' w']]. Qed.

Lemma exec_clock_statement {X} (q : stmt X) g w :
  w_faults w = [] ->
  exec_clock (db q) g w =
    let '(r, w') := exec_db q (set_now (w_now w + g 0%nat) w) in (r, (next g, w')).
Proof.
  intros Hf. unfold exec_clock, db, trigger. simpl. unfold call_db. simpl. rewrite Hf.
  by destruct (exec_db q _).
Qed.

Lemma set_now_same w : set_now (w_now w) w = w.
Proof. by destruct w. Qed.

(** [exec] is the case in which no time passes. *)
Lemma exec_clock_frozen {A} (p : ctl A) w :
  exec_clock p (fun _ => 0) w = let '(a, w') := exec p w in (a, (fun _ => 0, w')).
Proof.
  unfold exec_clock, exec. revert w. induction p as [a|X e k IH]; intros w; [done|].
  cbn [run]. unfold handle_clock at 1. rewrite Z.add_0_r, set_now_same.
  destruct (handle e w) as [x w1]. apply IH.
Qed.

(** The times at which the effects for the items of a list run, one each, and
    the time after all of them. *)
Fixpoint stamps {A} (g : nat -> Z) (t : Z) (l : list A) : list (Z * A) :=
  match l with
  | [] => []
  | x :: l => (t + g 0%nat, x) :: stamps (next g) (t + g 0%nat) l
  end.

Fixpoint elapsed (g : nat -> Z) (n : nat) : Z :=
  match n with
  | O => 0
  | S n => g 0%nat + elapsed (next g) n
  end.

Lemma stamps_snd {A} g t (l : list A) : (stamps g t l).*2 = l.
Proof. revert g t. induction l as [|x l IH]; intros g t; simpl; [done|]. by rewrite IH. Qed.

Lemma elapsed_nonneg g n : (forall k, 0 <= g k) -> 0 <= elapsed g n.
Proof.
  revert g. induction n as [|n IH]; intros g Hg; simpl; [done|].
  pose proof (Hg 0%nat). assert (0 <= elapsed (next g) n); [|lia]. apply IH. intros k. apply Hg.
Qed.

Lemma elapsed_zero g n : (forall k, g k = 0) -> elapsed g n = 0.
Proof.
  revert g. induction n as [|n IH]; intros g Hg; simpl; [done|]. rewrite Hg, IH; [done|].
  intros k. apply Hg.
Qed.

Lemma elapsed_app g m n : elapsed g (m + n) = elapsed g m + elapsed (skip m g) n.
Proof.
  revert g. induction m as [|m IH]; intros g; simpl; [done|]. rewrite IH.
  change (skip m (next g)) with (skip (S m) g). lia.
Qed.

Lemma stamps_bounds {A} g t (l : list A) u x :
  (forall k, 0 <= g k) -> (u, x) ∈ stamps g t l ->
  t + g 0%nat <= u <= t + elapsed g (length l).
Proof.
  revert g t. induction l as [|y l IH]; intros g t Hg Hin; simpl in *; [by apply elem_of_nil in Hin|].
  assert (forall k, 0 <= next g k) as Hg' by (intros k; apply Hg).
  apply elem_of_cons in Hin as [[= -> ->]|Hin].
  - pose proof (elapsed_nonneg (next g) (length l) Hg'). lia.
  - apply IH in Hin; [|done]. pose proof (Hg' 0%nat). lia.
Qed.

(** When time passes before every effect the stamps increase. *)
Lemma stamps_increase {A} g t (l : list A) :
  (forall k, 0 < g k) -> StronglySorted (fun a b => a.1 < b.1) (stamps g t l).
Proof.
  revert g t. induction l as [|x l IH]; intros g t Hg; simpl; [constructor|].
  assert (forall k, 0 < next g k) as Hg' by (intros k; apply Hg).
  constructor; [by apply IH|]. apply Forall_forall. intros [u y] Hin.
  apply stamps_bounds in Hin; [|intros k; specialize (Hg' k); lia].
  pose proof (Hg' 0%nat). simpl. lia.
Qed.

(** ** What the effects of a program may do to the database *)

(** An effect is within [R] if it is no statement, or a statement whose moves
    of the state column are in [R]. *)
Definition within (R : string -> string -> Prop) : forall X, ctlE X -> Prop :=
  fun X e => match e with EDb q => does R q | _ => True end.

(** One effect makes at most one [db_step], faults included. *)
Lemma handle_within R X (e : ctlE X) w :
  within R X e -> db_wf (w_db w) ->
  db_step R (w_db w) (w_db (handle e w).2).
Proof.
  destruct e as [Y q| |l| |n|r]; simpl; intros He Hwf.
  - unfold call_db, exec_db. destruct (w_faults w) as [|[err|] fs]; simpl.
    + specialize (He (w_now w) (w_db w) Hwf). by destruct (q _ _).
    + apply step_same.
    + specialize (He (w_now w) (w_db w) Hwf). by destruct (q _ _).
  - apply step_same.
  - apply step_same.
  - apply step_same.
  - rewrite (proj1 (call_notify_keeps n w)). apply step_same.
  - destruct (peer_http _ _). apply step_same.
Qed.

Lemma within_mono (R R' : string -> string -> Prop) X (e : ctlE X) :
  (forall a b, R a b -> R' a b) -> within R X e -> within R' X e.
Proof. intros HR. destruct e; simpl; try done. by apply does_mono. Qed.

Lemma issues_db R {X} (q : stmt X) : does R q -> issues (within R) (db q).
Proof. by split. Qed.
Lemma issues_uuid R : issues (within R) new_uuid.
Proof. done. Qed.
Lemma issues_random R n : issues (within R) (rand_Read n).
Proof. done. Qed.
Lemma issues_now R : issues (within R) time_Now.
Proof. done. Qed.
Lemma issues_notifier R n : issues (within R) (notifier n).
Proof. done. Qed.
Lemma issues_http R r : issues (within R) (http_Do r).
Proof. done. Qed.

(** Many steps. *)
Definition db_steps (R : string -> string -> Prop) : DB -> DB -> Prop := rtc (db_step R).

Lemma db_steps_wf R d d' : db_wf d -> db_steps R d d' -> db_wf d'.
Proof. intros Hwf Hs. induction Hs; [done|]. apply IHHs. by eapply db_step_wf. Qed.

(** A program within [R] run from a well-formed world makes [R] steps only. *)
Lemma exec_within R {A} (p : ctl A) w :
  issues (within R) p -> db_wf (w_db w) -> db_steps R (w_db w) (w_db (exec p w).2).
Proof.
  intros Hp. pose proof (run_preserves (@handle) (within R)
    (fun w w' => db_wf (w_db w) -> db_wf (w_db w') /\ db_steps R (w_db w) (w_db w')) p) as Hr.
  intros Hwf. refine (proj2 (Hr _ _ _ Hp w Hwf)).
  - intros s Hs. split; [done|apply rtc_refl].
  - intros a b c Hab Hbc Ha. destruct (Hab Ha) as [Hb ?]. destruct (Hbc Hb) as [? ?].
    split; [done|]. unfold db_steps in *. by etrans.
  - intros X e s He Hs. pose proof (handle_within R X e s He Hs) as Hd.
    split; [by eapply db_step_wf|by apply rtc_once].
Qed.
End World.

(** Oracles for concrete runs: numbered ids, the wording of Postgres' messages,
    and peers that answer 200 to everything. *)
Definition demo_external : External := {|
  uuid_New n := (1000 + N.of_nat n)%N;
  uuid_String i := pretty i;
  uuid_Parse s := if String.eqb s "7" then Some 7%N else if String.eqb s "1" then Some 1%N else None;
  random_bytes n len :=
    Ok (String.concat "" (replicate len (String (Ascii.ascii_of_nat (n mod 256)) "")));
  pg_text v c :=
    match v with
    | UniqueViolation => "duplicate key value violates unique constraint " +:+ c
    | ForeignKeyViolation => "violates foreign key constraint " +:+ c
    | NotNullViolation => "null value in column " +:+ c
    | CheckViolation => "violates check constraint " +:+ c
    | NumericOutOfRange => c +:+ " out of range"
    end;
  peers := unit;
  peer_http _ p := (Ok (mkResponse 200 None), p);
|}.

Definition demo_world (d : DB) : @World demo_external :=
  @mkWorld demo_external d 100 0 [] NewBatcher [] tt.

(** An hour later. *)
Definition demo_late (d : DB) : @World demo_external :=
  @mkWorld demo_external d (3600 * second) 0 [] NewBatcher [] tt.

#[export] Hint Resolve within_mono issues_uuid issues_random issues_now issues_notifier issues_http : forge.

(** [issue_tac] discharges [issues (within R) p] for a program written with the
    combinators above: it walks the effects, splits the matches on answers and
    closes each statement with the lemmas of StoreFacts. *)
Ltac issue_stmt :=
  first [ solve [eauto with forge]
        | apply does_any; solve [eauto with forge]
        | intros ? ? ?; apply step_same ].
Ltac issue_step :=
  first
    [ exact I
    | match goal with |- issues _ (bind _ _) => apply issues_bind; [|intros] end
    | match goal with |- issues _ (match ?x with _ => _ end) => destruct x eqn:? end
    | match goal with |- issues _ (let '(_, _) := ?x in _) => destruct x eqn:? end
    | match goal with |- issues _ (db _) => apply issues_db; issue_stmt end
    | match goal with |- issues _ _ => solve [eauto with forge] end ].
Ltac issue_tac := repeat issue_step.
