(* ===== verification/StoreRuns.v ===== *)
(** Exact outcomes of the statements of Store on rows known to be there: the
    rules the execution proofs of the services step with. *)

From S2P Require Import Prelude Netip Json Models Scheduler Store StoreFacts Routing Effects.

(** ** Writing *)

Definition put_sandbox (s : Sandbox) (db : DB) : DB :=
  set_sandboxes (<[sb_ID s := s]> (sandboxes db)) db.
Definition put_command (c : Command) (db : DB) : DB :=
  set_commands (<[cmd_ID c := c]> (commands db)) db.
Definition put_event (e : Event) (db : DB) : DB :=
  mkDB (sandboxes db) (nodes db) (commands db) (events db ++ [e]) (events_seq db + 1).

(** The row after a state change at [now]. *)
Definition in_state (st : string) (now : Z) (s : Sandbox) : Sandbox :=
  upd_sandbox s (sb_NodeID s) (sb_ContainerID s) (sb_HostPort s) st (sb_StateVersion s + 1) now
    (sb_LastActiveAt s) (sb_FailureCount s) (sb_Metadata s) (sb_VerifiedAt s).

(** The row after a failure count update. *)
Definition with_failures (n now : Z) (s : Sandbox) : Sandbox :=
  upd_sandbox s (sb_NodeID s) (sb_ContainerID s) (sb_HostPort s) (sb_State s)
    (sb_StateVersion s) now (sb_LastActiveAt s) n (sb_Metadata s) (sb_VerifiedAt s).

(** The row after a runtime update. *)
Definition with_runtime (cid : option string) (port : option Z) (now : Z) (s : Sandbox) : Sandbox :=
  upd_sandbox s (sb_NodeID s) cid port (sb_State s) (sb_StateVersion s) now
    (sb_LastActiveAt s) (sb_FailureCount s) (sb_Metadata s) (sb_VerifiedAt s).

(** The row after its assignment to a node. *)
Definition assigned_to (node : uuid) (now : Z) (s : Sandbox) : Sandbox :=
  upd_sandbox s (Some node) None None StateStarting (sb_StateVersion s + 1) now
    (sb_LastActiveAt s) (sb_FailureCount s) (sb_Metadata s) (sb_VerifiedAt s).

Definition event_row (a : RecordEventParams) (now : Z) (db : DB) : Event :=
  mkEvent (events_seq db) (re_SandboxID a) (re_NodeID a) (re_EventType a) (re_Actor a)
    (re_PrevState a) (re_NextState a) (re_Payload a) now.

Definition command_row (a : CreateCommandParams) (node : uuid) (now : Z) : Command :=
  mkCommand (cc_ID a) node (cc_SandboxID a) (cc_CommandType a) (cc_Payload a) CmdPending
    None None None (cc_TimeoutSeconds a) now.

Definition acked (c : Command) (status : string) (now : Z) (res : option json) : Command :=
  mkCommand (cmd_ID c) (cmd_NodeID c) (cmd_SandboxID c) (cmd_CommandType c) (cmd_Payload c)
    status (cmd_DispatchedAt c) (Some now) res (cmd_TimeoutSeconds c) (cmd_CreatedAt c).

(** The counters of a row have room for the few increments of one request. *)
Definition roomy (s : Sandbox) : Prop :=
  0 <= sb_StateVersion s <= max_int32 - 4 /\ 0 <= sb_FailureCount s <= max_int32 - 4.

Definition node_there (db : DB) (s : Sandbox) : Prop :=
  forall n, sb_NodeID s = Some n -> is_Some (nodes db !! n).

Lemma run_write_sandbox s db :
  check_state (sb_State s) = true ->
  int4_ok (sb_StateVersion s) = true -> int4_ok (sb_FailureCount s) = true ->
  node_there db s ->
  write_sandbox s db = (Ok s, put_sandbox s db).
Proof.
  intros Hst Hv Hf Hn. unfold write_sandbox, put_sandbox. rewrite Hst, Hv, Hf. simpl.
  destruct (sb_NodeID s) as [n|] eqn:E; [|done]. by destruct (Hn n E) as [? ->].
Qed.

Lemma int4_small z : 0 <= z <= max_int32 -> int4_ok z = true.
Proof.
  intros [? ?]. unfold int4_ok. apply andb_true_intro.
  split; apply Z.leb_le; [unfold min_int32; lia|done].
Qed.

(** A row of a well-formed database and what its writes need. *)
Record row_in (db : DB) (id : uuid) (s : Sandbox) : Prop := mk_row_in {
  ri_row : sandboxes db !! id = Some s;
  ri_id : sb_ID s = id;
  ri_state : check_state (sb_State s) = true;
  ri_version : 0 <= sb_StateVersion s <= max_int32;
  ri_failures : 0 <= sb_FailureCount s <= max_int32;
  ri_node : node_there db s;
}.

Lemma row_in_wf db id s :
  db_wf db -> sandboxes db !! id = Some s -> roomy s -> row_in db id s.
Proof.
  intros Hwf Hs [? ?]. destruct (wf_sandboxes _ Hwf _ _ Hs) as [Hid Hst Hn].
  split; [done|done| |lia|lia|done]. by apply bool_decide_eq_true_2.
Qed.

(** Reading back what was put. *)
Lemma put_sandbox_eq s db : sandboxes (put_sandbox s db) !! sb_ID s = Some s.
Proof. apply lookup_insert_eq. Qed.

Lemma put_sandbox_twice s t db :
  sb_ID s = sb_ID t -> put_sandbox s (put_sandbox t db) = put_sandbox s db.
Proof.
  intros Heq. unfold put_sandbox, set_sandboxes. simpl. f_equal. rewrite Heq.
  apply insert_insert_eq.
Qed.

Lemma row_in_put db s :
  check_state (sb_State s) = true -> 0 <= sb_StateVersion s <= max_int32 ->
  0 <= sb_FailureCount s <= max_int32 -> node_there db s ->
  row_in (put_sandbox s db) (sb_ID s) s.
Proof. intros ????. by split; [apply put_sandbox_eq|..]. Qed.

Lemma row_in_event db id s e : row_in db id s -> row_in (put_event e db) id s.
Proof. intros []. by split. Qed.
Lemma row_in_command db id s c : row_in db id s -> row_in (put_command c db) id s.
Proof. intros []. by split. Qed.
#[export] Hint Resolve row_in_event row_in_command : forge.

(** ** Statements *)

Lemma run_GetSandbox id now db s :
  sandboxes db !! id = Some s -> GetSandbox (Some id) now db = (Ok s, db).
Proof. intros H. unfold GetSandbox, find_sandbox. simpl. by rewrite H. Qed.

Lemma run_GetByApp app now db s :
  find_by_app db app = Some s -> GetSandboxByAppName app now db = (Ok s, db).
Proof. intros H. unfold GetSandboxByAppName. by rewrite H. Qed.

Lemma run_Delete_referenced id now db s :
  sandboxes db !! id = Some s -> referenced db id = true ->
  DeleteSandbox (Some id) now db =
    (Err (PgError ForeignKeyViolation "commands_sandbox_id_fkey"), db).
Proof. intros Hs Hr. unfold DeleteSandbox. by rewrite Hs, Hr. Qed.

Lemma run_Transition st id from now db s :
  row_in db id s -> sb_State s = from -> check_state st = true ->
  sb_StateVersion s + 1 <= max_int32 ->
  TransitionSandboxState st (Some id) from now db =
    (Ok (in_state st now s), put_sandbox (in_state st now s) db) /\
  row_in (put_sandbox (in_state st now s) db) id (in_state st now s).
Proof.
  intros [Hs Hid _ Hv Hf Hn] Hst Hck Hroom. split.
  - unfold TransitionSandboxState, find_sandbox. simpl. rewrite Hs, decide_True by done.
    apply run_write_sandbox; simpl; [done|apply int4_small; lia..|done].
  - rewrite <- Hid. by apply (row_in_put db (in_state st now s)); simpl; [|lia..|].
Qed.

(** A missed compare-and-swap. *)
Lemma run_Transition_miss st id from now db s :
  sandboxes db !! id = Some s -> sb_State s <> from ->
  TransitionSandboxState st (Some id) from now db = (Err ErrNoRows, db).
Proof.
  intros Hs Hne. unfold TransitionSandboxState, find_sandbox. simpl.
  by rewrite Hs, decide_False.
Qed.

Lemma run_Assign node id now db s :
  row_in db id s -> sb_State s = StatePending -> is_Some (nodes db !! node) ->
  sb_StateVersion s + 1 <= max_int32 ->
  AssignSandboxToNode (Some node) None None (Some id) now db =
    (Ok (assigned_to node now s), put_sandbox (assigned_to node now s) db) /\
  row_in (put_sandbox (assigned_to node now s) db) id (assigned_to node now s).
Proof.
  intros [Hs Hid _ Hv Hf Hn] Hst Hnode Hroom.
  assert (node_there db (assigned_to node now s)) by (by intros n [= <-]). split.
  - unfold AssignSandboxToNode, find_sandbox. simpl. rewrite Hs, decide_True by done.
    apply run_write_sandbox; simpl; [done|apply int4_small; lia..|done].
  - rewrite <- Hid. by apply (row_in_put db (assigned_to node now s)); simpl; [|lia..|].
Qed.

Lemma run_Increment id now db s :
  row_in db id s -> sb_FailureCount s + 1 <= max_int32 ->
  IncrementSandboxFailureCount (Some id) now db =
    (Ok (with_failures (sb_FailureCount s + 1) now s),
     put_sandbox (with_failures (sb_FailureCount s + 1) now s) db) /\
  row_in (put_sandbox (with_failures (sb_FailureCount s + 1) now s) db) id
    (with_failures (sb_FailureCount s + 1) now s).
Proof.
  intros [Hs Hid Hst Hv Hf Hn] Hroom. split.
  - unfold IncrementSandboxFailureCount, find_sandbox. simpl. rewrite Hs.
    apply run_write_sandbox; simpl; [done|apply int4_small; lia..|done].
  - rewrite <- Hid. by apply (row_in_put db (with_failures _ now s)); simpl; [|lia..|].
Qed.

Lemma run_Reset id now db s :
  row_in db id s ->
  ResetSandboxFailureCount (Some id) now db = (Ok tt, put_sandbox (with_failures 0 now s) db) /\
  row_in (put_sandbox (with_failures 0 now s) db) id (with_failures 0 now s).
Proof.
  intros [Hs Hid Hst Hv Hf Hn]. split.
  - unfold ResetSandboxFailureCount, update_row, find_sandbox. simpl. rewrite Hs.
    rewrite (run_write_sandbox (with_failures 0 now s)); simpl;
      [done|done|apply int4_small; lia|done|done].
  - rewrite <- Hid. apply (row_in_put db (with_failures 0 now s)); simpl; [done|lia| |done].
    unfold max_int32. lia.
Qed.

Lemma run_Runtime cid port id now db s :
  row_in db id s ->
  UpdateSandboxRuntime cid port (Some id) now db =
    (Ok tt, put_sandbox (with_runtime cid port now s) db) /\
  row_in (put_sandbox (with_runtime cid port now s) db) id (with_runtime cid port now s).
Proof.
  intros [Hs Hid Hst Hv Hf Hn]. split.
  - unfold UpdateSandboxRuntime, update_row, find_sandbox. simpl. rewrite Hs.
    rewrite (run_write_sandbox (with_runtime cid port now s)); simpl;
      [done|done|apply int4_small; lia..|done].
  - rewrite <- Hid. by apply (row_in_put db (with_runtime cid port now s)); simpl.
Qed.

Lemma run_RecordEvent a now db :
  RecordEvent a now db = (Ok (event_row a now db), put_event (event_row a now db) db).
Proof. done. Qed.

Lemma run_CreateCommand a node now db :
  cc_NodeID a = Some node -> check_command_type (cc_CommandType a) = true ->
  commands db !! cc_ID a = None -> is_Some (nodes db !! node) ->
  (forall i, cc_SandboxID a = Some i -> is_Some (sandboxes db !! i)) ->
  CreateCommand a now db =
    (Ok (command_row a node now), put_command (command_row a node now) db).
Proof.
  intros Hn Ht Hf Hnode Hsb. unfold CreateCommand. rewrite Hn, Ht, Hf. simpl.
  rewrite bool_decide_eq_true_2 by done. simpl.
  replace (sandbox_ref_ok db (cc_SandboxID a)) with true; [done|].
  unfold sandbox_ref_ok. destruct (cc_SandboxID a); [|done].
  symmetry. apply bool_decide_eq_true_2. eauto.
Qed.

Lemma run_AckCommand id st res now db c :
  commands db !! id = Some c -> cmd_ID c = id -> check_command_status st = true ->
  AckCommand (Some id) st res now db = (Ok tt, put_command (acked c st now res) db).
Proof. intros Hc Hid Hst. unfold AckCommand. simpl. by rewrite Hc, Hst. Qed.

Lemma run_GetNode id now db n :
  nodes db !! id = Some n -> GetNode (Some id) now db = (Ok n, db).
Proof. intros H. unfold GetNode, find_node. simpl. by rewrite H. Qed.

(** ** Steps of a fault-free execution *)

Section Steps.
Context `{External}.

Lemma wp_bind_db {A X} (q : stmt X) (f : result X -> ctl A) Q w r d :
  w_faults w = [] -> q (w_now w) (w_db w) = (r, d) ->
  ctl_wp (f r) Q (set_db d w) -> ctl_wp (bind (db q) f) Q w.
Proof. intros Hf Hq Hk. by apply (wp_db q f Q w r d). Qed.

(** A call that may fail: with an error of the schedule and no effect, or as
    the statement answers. *)
Lemma wp_bind_db_any {A X} (q : stmt X) (f : result X -> ctl A) Q w :
  (forall e fs, w_faults w = Some e :: fs -> ctl_wp (f (Err e)) Q (set_faults fs w)) ->
  (forall r d, q (w_now w) (w_db w) = (r, d) ->
     ctl_wp (f r) Q (set_db d (set_faults (tail (w_faults w)) w))) ->
  ctl_wp (bind (db q) f) Q w.
Proof.
  intros Hfail Hrun. apply (wp_vis (@handle _) (EDb q) f). simpl. unfold call_db, exec_db.
  destruct (w_faults w) as [|[e|] fs] eqn:Hf; [|by apply Hfail|].
  - specialize (Hrun (q (w_now w) (w_db w)).1 (q (w_now w) (w_db w)).2).
    destruct (q _ _) as [r d]. specialize (Hrun eq_refl). unfold set_db, set_faults in *.
    simpl in *. by rewrite Hf.
  - specialize (Hrun (q (w_now w) (w_db w)).1 (q (w_now w) (w_db w)).2). simpl in *.
    destruct (q _ _) as [r d]. by apply Hrun.
Qed.

Lemma wp_bind_random {A} n (f : result string -> ctl A) Q w :
  ctl_wp (f (random_bytes (w_rng w) n)) Q (next_rng w) -> ctl_wp (bind (rand_Read n) f) Q w.
Proof. intros Hk. by apply (wp_vis (@handle _) (ERandom n) f). Qed.

Lemma wp_bind_uuid {A} (f : uuid -> ctl A) Q w :
  ctl_wp (f (uuid_New (w_rng w))) Q (next_rng w) -> ctl_wp (bind new_uuid f) Q w.
Proof. apply wp_uuid. Qed.

Lemma wp_bind_now {A} (f : Z -> ctl A) Q w :
  ctl_wp (f (w_now w)) Q w -> ctl_wp (bind time_Now f) Q w.
Proof. intros Hk. by apply (wp_vis (@handle _) ENow f). Qed.

Lemma wp_bind_notify {A} (f : result unit -> ctl A) n Q w :
  ctl_wp (f (call_notify n w).1) Q (call_notify n w).2 ->
  ctl_wp (bind (notifier n) f) Q w.
Proof. intros Hk. apply wp_notify. by destruct (call_notify n w). Qed.

Lemma wp_bind_http {A} (f : result http_response -> ctl A) r Q w :
  (let '(x, p) := peer_http r (w_peers w) in ctl_wp (f x) Q (set_peers p w)) ->
  ctl_wp (bind (http_Do r) f) Q w.
Proof.
  intros Hk. apply (wp_vis (@handle _) (EHttp r) f). simpl.
  by destruct (peer_http r (w_peers w)).
Qed.

Lemma bind_assoc {A B C} (p : ctl A) (f : A -> ctl B) (g : B -> ctl C) Q w :
  ctl_wp (bind p (fun a => bind (f a) g)) Q w -> ctl_wp (bind (bind p f) g) Q w.
Proof.
  intros Hk. apply ctl_wp_bind. apply ctl_wp_bind. unfold ctl_wp, wp in *.
  rewrite run_bind in Hk. destruct (run _ p w) as [a w1]. rewrite run_bind in Hk.
  by destruct (run _ (f a) w1).
Qed.

Lemma wp_bind_ret {A B} (a : A) (f : A -> ctl B) Q w :
  ctl_wp (f a) Q w -> ctl_wp (bind (Ret a) f) Q w.
Proof. done. Qed.

(** [exec] from [ctl_wp]. *)
Lemma wp_exec {A} (p : ctl A) (Q : A -> World -> Prop) w :
  ctl_wp p Q w -> Q (exec p w).1 (exec p w).2.
Proof. intros Hp. by apply wp_run in Hp. Qed.

Lemma exec_eq {A} (p : ctl A) w a w' :
  ctl_wp p (fun x y => x = a /\ y = w') w -> exec p w = (a, w').
Proof. intros [? ?]%wp_exec. destruct (exec p w). simpl in *. congruence. Qed.

(** [exec] against an answer given by a match. *)
Lemma exec_wp_eq {A} (p : ctl A) w aw :
  ctl_wp p (fun x y => (x, y) = aw) w -> exec p w = aw.
Proof. intros Hp%wp_exec. by destruct (exec p w). Qed.

Lemma set_db_same w : set_db (w_db w) w = w.
Proof. by destruct w. Qed.
End Steps.

(** [step_with L]: run the next statement with the equation [L]. *)
Ltac step_with L := eapply wp_bind_db; [simpl; eassumption|simpl; eapply L|cbv beta iota].
Tactic Notation "step_by" tactic3(t) :=
  eapply wp_bind_db; [simpl; done|t|cbv beta iota].
Ltac step_uuid := apply wp_bind_uuid; cbv beta iota.
