(* ===== verification/Sweep.v ===== *)
(** Passes over many rows: the background services list a set of sandboxes and
    treat them one by one.  A pass whose body writes only its own row, as a
    function of that row, rewrites exactly the listed rows. *)

From S2P Require Import Prelude Netip Json Models Scheduler Store StoreFacts Routing Effects StoreRuns.

(** ** The rows of a list have distinct keys *)

Lemma NoDup_sandbox_rows db : db_wf db -> NoDup (sb_ID <$> sandbox_rows db).
Proof.
  intros Hwf. apply NoDup_rows. intros id s Hs. apply (so_key _ _ _ (wf_sandboxes _ Hwf _ _ Hs)).
Qed.

Lemma NoDup_node_rows db : db_wf db -> NoDup (nd_ID <$> node_rows db).
Proof. intros Hwf. apply NoDup_rows. intros id n Hn. apply (wf_nodes _ Hwf _ _ Hn). Qed.

(** A selection of rows, in whatever order. *)
Lemma NoDup_selection db (P : Sandbox -> Prop) `{forall s, Decision (P s)} key :
  db_wf db -> NoDup (sb_ID <$> order_by key (filter P (sandbox_rows db))).
Proof.
  intros Hwf. rewrite order_by_perm.
  eapply sublist_NoDup; [by apply NoDup_sandbox_rows|]. apply fmap_sublist, sublist_filter.
Qed.

Lemma elem_of_selection db (P : Sandbox -> Prop) `{forall s, Decision (P s)} key s :
  db_wf db -> s ∈ order_by key (filter P (sandbox_rows db)) <->
    P s /\ sandboxes db !! sb_ID s = Some s.
Proof.
  intros Hwf. rewrite elem_of_order_by, list_elem_of_filter. by rewrite elem_of_sandbox_rows.
Qed.

(** ** Rewriting the listed rows *)

Definition sweep (f : Sandbox -> Sandbox) (l : list Sandbox) (m : gmap uuid Sandbox)
  : gmap uuid Sandbox :=
  foldl (fun m s => <[sb_ID s := f s]> m) m l.

Lemma sweep_other f l m id :
  id ∉ sb_ID <$> l -> sweep f l m !! id = m !! id.
Proof.
  unfold sweep. revert m. induction l as [|s l IH]; intros m Hid; simpl; [done|].
  rewrite fmap_cons, not_elem_of_cons in Hid. destruct Hid as [Hne Hid].
  rewrite IH by done. by rewrite lookup_insert_ne.
Qed.

Lemma sweep_listed f l m s :
  NoDup (sb_ID <$> l) -> s ∈ l -> sweep f l m !! sb_ID s = Some (f s).
Proof.
  unfold sweep. revert m. induction l as [|t l IH]; intros m Hnd Hs; simpl.
  { by apply not_elem_of_nil in Hs. }
  rewrite fmap_cons in Hnd. apply NoDup_cons in Hnd as [Hnot Hnd].
  apply elem_of_cons in Hs as [->|Hs]; [|by apply IH].
  fold (sweep f l (<[sb_ID t := f t]> m)). rewrite sweep_other by done.
  apply lookup_insert_eq.
Qed.

(** A pass over a selection, as one statement about every row of the table. *)
Lemma sweep_selection f db (P : Sandbox -> Prop) `{forall s, Decision (P s)} key id :
  db_wf db ->
  sweep f (order_by key (filter P (sandbox_rows db))) (sandboxes db) !! id =
    (fun s => if decide (P s) then f s else s) <$> sandboxes db !! id.
Proof.
  intros Hwf. set (l := order_by key _).
  destruct (decide (id ∈ sb_ID <$> l)) as [Hin|Hout].
  - apply list_elem_of_fmap in Hin as (s & -> & Hs). rewrite sweep_listed; [|by apply NoDup_selection|done].
    apply elem_of_selection in Hs as [HP Hs]; [|done]. rewrite Hs. simpl. by rewrite decide_True.
  - rewrite sweep_other by done. destruct (sandboxes db !! id) as [s|] eqn:Hs; [|done]. simpl.
    destruct (decide (P s)) as [HP|]; [|done]. destruct Hout.
    apply list_elem_of_fmap. exists s. rewrite (so_key _ _ _ (wf_sandboxes _ Hwf _ _ Hs)).
    split; [done|]. apply elem_of_selection; [done|]. split; [done|].
    by rewrite (so_key _ _ _ (wf_sandboxes _ Hwf _ _ Hs)).
Qed.

(** The only row of its kind. *)
Lemma selection_lone db (P : Sandbox -> Prop) `{forall s, Decision (P s)} key id row :
  db_wf db -> sandboxes db !! id = Some row -> P row ->
  (forall i s, sandboxes db !! i = Some s -> P s -> i = id) -> order_by key (filter P (sandbox_rows db)) = [row].
Proof.
  intros Hwf Hrow HP Hone. pose proof (so_key _ _ _ (wf_sandboxes _ Hwf _ _ Hrow)) as Hid.
  rewrite (singleton_of (filter P (sandbox_rows db)) row); [apply order_by_single| |].
  - apply NoDup_filter, (NoDup_fmap_1 sb_ID), NoDup_sandbox_rows, Hwf.
  - intros s. rewrite list_elem_of_filter, elem_of_sandbox_rows by done. split.
    + intros [Hs Hin]. pose proof (Hone _ _ Hin Hs) as Heq. rewrite Heq in Hin. congruence.
    + intros ->. by rewrite Hid.
Qed.

(** ** Passes *)

Section Pass.
Context `{External}.
Context {B : Type} (body : B -> Sandbox -> ctl B).
Context (f : Sandbox -> Sandbox) (next : B -> Sandbox -> B) (I : World -> Prop).

(** The body, on a row that is as it was listed. *)
Definition sweeps (l : list Sandbox) : Prop := forall w acc s,
  s ∈ l -> I w -> row_in (w_db w) (sb_ID s) s ->
  ctl_wp (body acc s) (fun r w' => r = next acc s /\ I w' /\
    nodes (w_db w') = nodes (w_db w) /\
    sandboxes (w_db w') = <[sb_ID s := f s]> (sandboxes (w_db w))) w.

Lemma pass_runs l acc w :
  sweeps l -> I w -> NoDup (sb_ID <$> l) ->
  (forall s, s ∈ l -> row_in (w_db w) (sb_ID s) s) ->
  ctl_wp (range body l acc) (fun r w' => r = foldl next acc l /\ I w' /\
    nodes (w_db w') = nodes (w_db w) /\
    sandboxes (w_db w') = sweep f l (sandboxes (w_db w))) w.
Proof.
  intros Hbody Hinit Hnd Hrows. unfold ctl_wp.
  pose (J := fun before (after : list Sandbox) b t => b = foldl next acc before /\ I t /\
    nodes (w_db t) = nodes (w_db w) /\
    sandboxes (w_db t) = sweep f before (sandboxes (w_db w))).
  apply (wp_range (@handle _) J); [by split_and!|].
  intros before s after b t -> (-> & HI & Hn & Hsb).
  rewrite fmap_app, fmap_cons in Hnd. apply NoDup_app in Hnd as (_ & Hdis & Hnd).
  assert (sb_ID s ∉ sb_ID <$> before) as Hfresh.
  { intros Hin. destruct (Hdis _ Hin). by left. }
  destruct (Hrows s) as [H1 H2 H3 H4 H5 H6]; [set_solver|].
  assert (row_in (w_db t) (sb_ID s) s) as Hrow.
  { split; try done; [by rewrite Hsb, sweep_other|]. intros n Hs. rewrite Hn. by apply H6. }
  eapply wp_mono; [|apply (Hbody t (foldl next acc before) s); [set_solver|done|done]].
  intros b' t' (-> & HI' & Hn' & Hsb'). unfold J, sweep. rewrite !foldl_app. simpl.
  split_and!; [done|done|congruence|]. by rewrite Hsb', Hsb.
Qed.
End Pass.
