(* ===== verification/Restart.v ===== *)
(** Crash recovery with exponential backoff: [RestartManager] of
    control/internal/lifecycle/restart.go. *)

From S2P Require Import Prelude Netip Json Models Scheduler Store StoreFacts Routing Effects.

Definition maxRestartAttempts : Z := 3.

(** Durations in nanoseconds. *)
Definition nanosecond_per_second : Z := 1000000000.
Definition baseRestartDelay : Z := 5 * nanosecond_per_second.

Record CrashResult := mkCrashResult {
  cr_ShouldRestart : bool;
  cr_Delay : Z;
}.

(** [baseRestartDelay * (1 << (newCount - 1))]; Go panics on a negative shift
    count, which is an error here. *)
Definition restart_delay (newCount : Z) : result Z :=
  if newCount <? 1 then Err (OtherError "negative shift amount")
  else Ok (baseRestartDelay * Z.shiftl 1 (newCount - 1)).

Definition delay_seconds (delay : Z) : Z := delay / nanosecond_per_second.

(** [pgtype.Text.String] of a NULL is the empty string. *)
Definition text_String (t : option string) : string := default "" t.

(** The payload of the restart's start_sandbox command. *)
Definition restart_payload (sandbox : Sandbox) (delay : Z) : json :=
  JObj [("app_name", JStr (sb_AppName sandbox));
        ("container_id", JStr (text_String (sb_ContainerID sandbox)));
        ("image", JStr (sb_Image sandbox));
        ("restart_delay", JInt (delay_seconds delay))].

Section Restart.
Context `{External}.

(** Max retries exceeded: move to failed, from the state the caller read. *)
Definition exhausted (sandbox : Sandbox) : ctl (result CrashResult) :=
  _ <-? db (TransitionSandboxState StateFailed (Some (sb_ID sandbox)) (sb_State sandbox))
    orelse "transition to failed" ;;
  db (RecordEvent (mkRecordEventParams (Some (sb_ID sandbox)) (sb_NodeID sandbox)
        "restart_exhausted" "control-plane" (Some (sb_State sandbox)) (Some StateFailed)
        json_empty)) ;;;
  Ret (Ok (mkCrashResult false 0)).

Definition dispatch_restart (sandbox : Sandbox) (delay : Z) : ctl (result CrashResult) :=
  _ <-? db (TransitionSandboxState StateStarting (Some (sb_ID sandbox)) StateRestarting)
    orelse "transition restarting->starting" ;;
  cmdID <- new_uuid ;;
  _ <-? db (CreateCommand (mkCreateCommandParams cmdID (sb_NodeID sandbox)
        (Some (sb_ID sandbox)) CmdStartSandbox (restart_payload sandbox delay)
        (60 + delay_seconds delay)))
    orelse "create restart command" ;;
  db (RecordEvent (mkRecordEventParams (Some (sb_ID sandbox)) (sb_NodeID sandbox)
        EventRestartAttempt "control-plane" (Some StateRestarting) (Some StateStarting)
        (restart_payload sandbox delay))) ;;;
  Ret (Ok (mkCrashResult true delay)).

Definition HandleCrash (sandbox : Sandbox) : ctl (result CrashResult) :=
  updated <-? db (IncrementSandboxFailureCount (Some (sb_ID sandbox)))
    orelse "increment failure count" ;;
  let newCount := sb_FailureCount updated in
  if maxRestartAttempts <? newCount then exhausted sandbox
  else
    match restart_delay newCount with
    | Err e => Ret (Err e)
    | Ok delay => dispatch_restart sandbox delay
    end.

Definition HandleRestarted (sandboxID : uuid) : ctl (result unit) :=
  _ <-? db (ResetSandboxFailureCount (Some sandboxID)) orelse "reset failure count" ;;
  Ret (Ok tt).
End Restart.
