(* ===== verification/Lifecycle.v ===== *)
(** The lifecycle service of control/internal/lifecycle/lifecycle.go: create,
    acknowledge, container events, destroy, wake and restart. *)

From S2P Require Import Prelude Netip Json Models Scheduler Store StoreFacts Routing Effects Restart.

(** ** Sentinel errors *)

Definition ErrConflict : error := Sentinel "lifecycle: app_name already exists".
Definition ErrNoCapacity : error := Sentinel "lifecycle: no node has sufficient capacity".
Definition ErrNotFound : error := Sentinel "lifecycle: sandbox not found".
Definition ErrInvalidTransition : error := Sentinel "lifecycle: invalid state transition".
Definition ErrInvalidState : error := Sentinel "lifecycle: sandbox not in expected state".

(** ** Requests and results *)

(** A float64 is carried as the rational it denotes: the service only compares
    it with zero and copies it. *)
Record Resources := mkResources {
  CPUCores : Q;
  MemoryMB : Z;
}.

Definition json_of_resources (r : Resources) : json :=
  JObj [("cpu_cores", json_of_float (CPUCores r)); ("memory_mb", JInt (MemoryMB r))].

(** [json.Unmarshal(raw, &res)] into a zero struct: the struct and whether
    there was no error. *)
Definition resources_of_json (j : json) : Resources * bool :=
  match members_of j with
  | None => (mkResources 0 0, false)
  | Some m =>
      let '(cpu, ok1) := dec_field "cpu_cores" dec_float 0%Q m in
      let '(mem, ok2) := dec_field "memory_mb" dec_int32 0 m in
      (mkResources cpu mem, ok1 && ok2)
  end.

Record CreateRequest := mkCreateRequest {
  cr_AppName : string;
  cr_UserID : string;
  cr_Image : string;
  cr_Resources : Resources;
  cr_Env : option (gmap string string);
  cr_IdleTimeoutSeconds : Z;
  cr_Metadata : option json;
}.

Record SandboxResult := mkSandboxResult {
  res_ID : uuid;
  res_AppName : string;
  res_UserID : string;
  res_State : string;
  res_URL : string;
  res_NodeID : option uuid;
  res_Image : string;
}.

(** The two optional collaborators of the service. *)
Record LifecycleService := mkService {
  ls_routeNotifier : bool;
  ls_restartMgr : bool;
}.

(** [safePayload] *)
Definition safePayload (p : option json) : json := default json_empty p.

Definition to_candidate (n : Node) : NodeCandidate :=
  mkCandidate (nd_ID n) (nd_CapacityMb n) (nd_UsedMb n) (nd_Status n).

(** The payload of a start_sandbox command. *)
Definition start_payload (app image : string) (res env : json) : json :=
  JObj [("app_name", JStr app); ("env", env); ("image", JStr image); ("resources", res)].

Definition container_payload (sandbox : Sandbox) : json :=
  JObj [("container_id", JStr (text_String (sb_ContainerID sandbox)))].

Section Lifecycle.
Context `{External}.

(** ** CreateSandbox *)

(** A prior row of the application is deleted when it is destroyed or failed,
    and a conflict otherwise. *)
Definition soft_recycle (app : string) : ctl (result unit) :=
  existing <- db (GetSandboxByAppName app) ;;
  match existing with
  | Ok ex =>
      if bool_decide (sb_State ex = StateDestroyed \/ sb_State ex = StateFailed)
      then r <- db (DeleteSandbox (Some (sb_ID ex))) ;;
           match r with
           | Err e => Ret (Err (Wrap "recycle destroyed sandbox" e))
           | Ok _ => Ret (Ok tt)
           end
      else Ret (Err ErrConflict)
  | Err e =>
      if errors_Is e ErrNoRows then Ret (Ok tt)
      else Ret (Err (Wrap "lookup existing sandbox" e))
  end.

(** How the failure of the INSERT is reported. *)
Definition insert_error (e : error) : error :=
  if Contains (error_text e) "unique" || Contains (error_text e) "duplicate"
  then ErrConflict else Wrap "create sandbox" e.

Definition default_idle (t : Z) : Z := if t =? 0 then 1800 else t.
Definition default_memory (m : Z) : Z := if m =? 0 then 512 else m.

Definition sandbox_url (app : string) : string := "https://" +:+ app +:+ ".myappx.live".

(** From the inserted pending row on: schedule, assign, dispatch, record. *)
Definition place_sandbox (req : CreateRequest) (id : uuid) : ctl (result SandboxResult) :=
  ns <-? db ListHealthyNodes orelse "list healthy nodes" ;;
  match Schedule (to_candidate <$> ns) (default_memory (MemoryMB (cr_Resources req))) with
  | Err _ => Ret (Err ErrNoCapacity)
  | Ok node =>
      assigned <-? db (AssignSandboxToNode (Some node) None None (Some id))
        orelse "assign sandbox to node" ;;
      let payload := start_payload (cr_AppName req) (cr_Image req)
                       (json_of_resources (cr_Resources req)) (json_of_env (cr_Env req)) in
      cmdID <- new_uuid ;;
      _ <-? db (CreateCommand (mkCreateCommandParams cmdID (Some node) (Some id)
                  CmdStartSandbox payload 60)) orelse "create start command" ;;
      db (RecordEvent (mkRecordEventParams (Some id) (Some node) EventScheduled
            "control-plane" (Some StatePending) (Some StateStarting) payload)) ;;;
      Ret (Ok (mkSandboxResult id (sb_AppName assigned) (sb_UserID assigned)
             (sb_State assigned) (sandbox_url (cr_AppName req)) (Some node) (cr_Image req)))
  end.

Definition CreateSandbox (req : CreateRequest) : ctl (result SandboxResult) :=
  id <- new_uuid ;;
  recycled <- soft_recycle (cr_AppName req) ;;
  match recycled with
  | Err e => Ret (Err e)
  | Ok _ =>
      created <- db (Store.CreateSandbox (mkCreateSandboxParams id (cr_AppName req)
        (cr_UserID req) (cr_Image req) (json_of_resources (cr_Resources req))
        (json_of_env (cr_Env req)) (default_idle (cr_IdleTimeoutSeconds req))
        (default json_empty (cr_Metadata req)))) ;;
      match created with
      | Err e => Ret (Err (insert_error e))
      | Ok _ => place_sandbox req id
      end
  end.

(** ** Route notifications and runtime info *)

Definition notifyRouteAdd (sandbox : Sandbox) (sandboxID : uuid) : ctl unit :=
  match sb_NodeID sandbox, sb_HostPort sandbox with
  | Some node, Some port =>
      n <- db (GetNode (Some node)) ;;
      match n with
      | Err _ => Ret tt
      | Ok nd =>
          notifier (OnSandboxRunning (sb_AppName sandbox) (uuid_String sandboxID)
            (Addr_String (nd_TailscaleIp nd) +:+ ":" +:+ pretty port)) ;;;
          Ret tt
      end
  | _, _ => Ret tt
  end.

Definition notifyRouteRemove (app : string) : ctl unit :=
  notifier (OnSandboxStopped app) ;;; Ret tt.

(** The container id and port of an ack result; [None] if there is nothing to
    persist (empty, malformed, or both fields zero). *)
Definition runtime_info (ackResult : option json) : option (option string * option Z) :=
  match ackResult with
  | None => None
  | Some j =>
      match members_of j with
      | None => None
      | Some m =>
          let '(cid, ok1) := dec_field "container_id" dec_string "" m in
          let '(port, ok2) := dec_field "host_port" dec_int32 0 m in
          if negb (ok1 && ok2) then None
          else if bool_decide (cid = "" /\ port = 0) then None
          else Some (if bool_decide (cid = "") then None else Some cid,
                     if bool_decide (port = 0) then None else Some port)
      end
  end.

Definition persistRuntimeInfo (sandboxID : uuid) (ackResult : option json) : ctl unit :=
  match runtime_info ackResult with
  | None => Ret tt
  | Some (cid, port) => db (UpdateSandboxRuntime cid port (Some sandboxID)) ;;; Ret tt
  end.

(** ** HandleAck *)

(** The state machine event of an acknowledgment, [None] when none is due. *)
Definition ack_event (cmdType status state : string) : option string :=
  if bool_decide (cmdType = CmdStartSandbox /\ status = "success") then Some EventStarted
  else if bool_decide (cmdType = CmdStartSandbox /\ status = "failure")
  then Some EventStartFailed
  else if bool_decide (cmdType = CmdStopSandbox /\ status = "success")
  then if bool_decide (state = StateDestroying) then Some EventDestroyed else None
  else None.

(** The state an event is meant to end in, as [HandleAck] spells it out. *)
Definition at_target (event state : string) : bool :=
  bool_decide ((event = EventStarted /\ state = StateRunning) \/
               (event = EventStartFailed /\ state = StateFailed) \/
               (event = EventDestroyed /\ state = StateDestroyed)).

Definition ack_status (status : string) : string :=
  if bool_decide (status = "failure") then CmdFailed else CmdCompleted.

Definition ack_command (cmdID : uuid) (status : string) (ackResult : option json)
  : ctl (result unit) :=
  _ <-? db (AckCommand (Some cmdID) (ack_status status) ackResult) orelse "ack command" ;;
  Ret (Ok tt).

(** The transition of an acknowledgment: the row it goes on with and the
    state it counts as reached. *)
Definition ack_transition (sandboxID : uuid) (cmdType status event : string)
    (sandbox : Sandbox) : ctl (result (Sandbox * string)) :=
  match NextState (sb_State sandbox) event with
  | (_, false) =>
      if at_target event (sb_State sandbox) then Ret (Ok (sandbox, sb_State sandbox))
      else Ret (Err (Annotate ErrInvalidTransition
                       (cmdType +:+ " + " +:+ status +:+ " from " +:+ sb_State sandbox)))
  | (nextState, true) =>
      r <- db (TransitionSandboxState nextState (Some sandboxID) (sb_State sandbox)) ;;
      match r with
      | Ok _ => Ret (Ok (sandbox, nextState))
      | Err e =>
          if errors_Is e ErrNoRows
          then refreshed <- db (GetSandbox (Some sandboxID)) ;;
               match refreshed with
               | Ok s =>
                   if bool_decide (sb_State s = nextState) || at_target event (sb_State s)
                   then Ret (Ok (s, sb_State s))
                   else Ret (Err (Wrap "transition state" e))
               | Err _ => Ret (Err (Wrap "transition state" e))
               end
          else Ret (Err (Wrap "transition state" e))
      end
  end.

(** A started sandbox: persist the container's id and port, read the row again. *)
Definition ack_runtime (sandboxID : uuid) (event : string) (ackResult : option json)
    (sandbox : Sandbox) : ctl Sandbox :=
  if bool_decide (event = EventStarted)
  then persistRuntimeInfo sandboxID ackResult ;;;
       r <- db (GetSandbox (Some sandboxID)) ;;
       Ret (match r with Ok s => s | Err _ => sandbox end)
  else Ret sandbox.

Definition ack_routes (ls : LifecycleService) (nextState : string) (sandbox : Sandbox)
    (sandboxID : uuid) : ctl unit :=
  if ls_routeNotifier ls
  then if bool_decide (nextState = StateRunning) then notifyRouteAdd sandbox sandboxID
       else if bool_decide (nextState = StateDestroyed)
       then notifyRouteRemove (sb_AppName sandbox)
       else Ret tt
  else Ret tt.

Definition ack_reset (ls : LifecycleService) (nextState : string) (sandbox : Sandbox)
    (sandboxID : uuid) : ctl unit :=
  if ls_restartMgr ls && bool_decide (nextState = StateRunning) &&
     (0 <? sb_FailureCount sandbox)
  then HandleRestarted sandboxID ;;; Ret tt
  else Ret tt.

(** From the transition on. *)
Definition ack_tail (ls : LifecycleService) (cmdID sandboxID : uuid) (status event : string)
    (ackResult : option json) (sandbox : Sandbox) (nextState : string) : ctl (result unit) :=
  sandbox2 <- ack_runtime sandboxID event ackResult sandbox ;;
  db (RecordEvent (mkRecordEventParams (Some sandboxID) (sb_NodeID sandbox2) event
        "agent" (Some (sb_State sandbox2)) (Some nextState) (safePayload ackResult))) ;;;
  ack_routes ls nextState sandbox2 sandboxID ;;;
  ack_reset ls nextState sandbox2 sandboxID ;;;
  ack_command cmdID status ackResult.

Definition HandleAck (ls : LifecycleService) (cmdID sandboxID : uuid)
    (cmdType status : string) (ackResult : option json) : ctl (result unit) :=
  sandbox <-? db (GetSandbox (Some sandboxID)) orelse "get sandbox" ;;
  match ack_event cmdType status (sb_State sandbox) with
  | None => ack_command cmdID status ackResult
  | Some event =>
      t <- ack_transition sandboxID cmdType status event sandbox ;;
      match t with
      | Err e => Ret (Err e)
      | Ok (sandbox1, nextState) =>
          ack_tail ls cmdID sandboxID status event ackResult sandbox1 nextState
      end
  end.

(** ** HandleEvent *)

Definition container_event (eventType : string) : option string :=
  if bool_decide (eventType = "container_started") then Some EventStarted
  else if bool_decide (eventType = "container_exited") then Some EventContainerExited
  else if bool_decide (eventType = "container_oom") then Some EventContainerExited
  else None.

Definition event_routes (ls : LifecycleService) (currentState nextState : string)
    (sandbox : Sandbox) : ctl unit :=
  if ls_routeNotifier ls && bool_decide (currentState = StateRunning) &&
     bool_decide (nextState ∈ [StateRestarting; StateStopped; StateFailed])
  then notifyRouteRemove (sb_AppName sandbox)
  else Ret tt.

Definition HandleEvent (ls : LifecycleService) (nodeID sandboxID : uuid)
    (eventType : string) (payload : option json) : ctl (result unit) :=
  sandbox <-? db (GetSandbox (Some sandboxID)) orelse "get sandbox" ;;
  match container_event eventType with
  | None => Ret (Ok tt)
  | Some event =>
      match NextState (sb_State sandbox) event with
      | (_, false) => Ret (Ok tt)
      | (nextState, true) =>
          _ <-? db (TransitionSandboxState nextState (Some sandboxID) (sb_State sandbox))
            orelse "transition state" ;;
          db (RecordEvent (mkRecordEventParams (Some sandboxID) (Some nodeID) eventType
                "agent" (Some (sb_State sandbox)) (Some nextState)
                (safePayload payload))) ;;;
          event_routes ls (sb_State sandbox) nextState sandbox ;;;
          (if ls_restartMgr ls && bool_decide (nextState = StateRestarting)
           then HandleCrash sandbox ;;; Ret tt else Ret tt) ;;;
          Ret (Ok tt)
      end
  end.

(** ** DestroySandbox, WakeSandbox, RestartSandbox *)

Definition DestroySandbox (sandboxID : uuid) : ctl (result unit) :=
  sandbox <-? db (GetSandbox (Some sandboxID)) orelse "get sandbox" ;;
  match NextState (sb_State sandbox) EventDestroyRequest with
  | (_, false) => Ret (Err (Annotate ErrInvalidTransition
      ("cannot destroy sandbox in state " +:+ sb_State sandbox)))
  | (nextState, true) =>
      _ <-? db (TransitionSandboxState nextState (Some sandboxID) (sb_State sandbox))
        orelse "transition state" ;;
      cmdID <- new_uuid ;;
      _ <-? db (CreateCommand (mkCreateCommandParams cmdID (sb_NodeID sandbox)
                  (Some sandboxID) CmdStopSandbox (container_payload sandbox) 60))
        orelse "create stop command" ;;
      db (RecordEvent (mkRecordEventParams (Some sandboxID) (sb_NodeID sandbox)
            EventDestroyRequest "control-plane" (Some (sb_State sandbox)) (Some nextState)
            (container_payload sandbox))) ;;;
      Ret (Ok tt)
  end.

(** The environment read back from the row: [json.Unmarshal] into a nil map,
    ignoring errors. *)
Definition reencode_env (j : json) : json := json_of_env (dec_env None j).1.

Definition WakeSandbox (sandboxID : uuid) : ctl (result unit) :=
  sandbox <-? db (GetSandbox (Some sandboxID)) orelse "get sandbox" ;;
  if negb (bool_decide (sb_State sandbox = StateStopped))
  then Ret (Err (Annotate ErrInvalidState
    ("sandbox must be stopped to wake, current state: " +:+ sb_State sandbox)))
  else
    _ <-? db (TransitionSandboxState StateStarting (Some sandboxID) (sb_State sandbox))
      orelse "transition state" ;;
    let payload := start_payload (sb_AppName sandbox) (sb_Image sandbox)
                     (json_of_resources (resources_of_json (sb_Resources sandbox)).1)
                     (reencode_env (sb_Env sandbox)) in
    cmdID <- new_uuid ;;
    _ <-? db (CreateCommand (mkCreateCommandParams cmdID (sb_NodeID sandbox)
                (Some sandboxID) CmdStartSandbox payload 60)) orelse "create start command" ;;
    db (RecordEvent (mkRecordEventParams (Some sandboxID) (sb_NodeID sandbox)
          EventScheduled "control-plane-wake" (Some StateStopped) (Some StateStarting)
          payload)) ;;;
    Ret (Ok tt).

Definition RestartSandbox (sandboxID : uuid) : ctl (result unit) :=
  sandbox <-? db (GetSandbox (Some sandboxID)) orelse "get sandbox" ;;
  if negb (bool_decide (sb_State sandbox = StateRunning))
  then Ret (Err (Annotate ErrInvalidState
    ("sandbox must be running to restart, current state: " +:+ sb_State sandbox)))
  else
    cmdID <- new_uuid ;;
    _ <-? db (CreateCommand (mkCreateCommandParams cmdID (sb_NodeID sandbox)
                (Some sandboxID) CmdRestartSandbox (container_payload sandbox) 60))
      orelse "create restart command" ;;
    db (RecordEvent (mkRecordEventParams (Some sandboxID) (sb_NodeID sandbox)
          "restart_requested" "control-plane" (Some (sb_State sandbox))
          (Some (sb_State sandbox)) (container_payload sandbox))) ;;;
    Ret (Ok tt).
End Lifecycle.
