(* ===== verification/LifecycleMoves.v ===== *)
(** The state moves of the lifecycle service: whatever the database answers,
    every statement a handler issues moves the state column along the
    transition table, with the one exception of the crash handler's give-up. *)

From S2P Require Import Prelude Netip Json Models Scheduler Store StoreFacts Routing Effects.
From S2P Require Import StoreRuns Restart Lifecycle.

(** ** The state moves of the service *)

(** The moves the handlers may make: the edges of the table, and the one of
    [HandleCrash]'s give-up, which compares with the state its caller read
    before moving the row to restarting. *)
Definition service_move (a b : string) : Prop :=
  edge a b \/ (a = StateRunning /\ b = StateFailed).

Section Moves.
Context `{External}.

(** The operations of the service, as the API calls them. *)
Inductive operation :=
| OpCreate (req : CreateRequest)
| OpAck (cmdID sandboxID : uuid) (cmdType status : string) (ackResult : option json)
| OpEvent (nodeID sandboxID : uuid) (eventType : string) (payload : option json)
| OpDestroy (sandboxID : uuid)
| OpWake (sandboxID : uuid)
| OpRestart (sandboxID : uuid).

Definition discard {A} (p : ctl (result A)) : ctl (result unit) :=
  r <- p ;; Ret (match r with Ok _ => Ok tt | Err e => Err e end).

Definition run_operation (ls : LifecycleService) (op : operation) : ctl (result unit) :=
  match op with
  | OpCreate req => discard (CreateSandbox req)
  | OpAck c i t s r => HandleAck ls c i t s r
  | OpEvent n i t p => HandleEvent ls n i t p
  | OpDestroy i => DestroySandbox i
  | OpWake i => WakeSandbox i
  | OpRestart i => RestartSandbox i
  end.

Lemma does_edge st i from :
  edge from st -> does service_move (TransitionSandboxState st i from).
Proof.
  intros He. eapply does_mono; [|apply does_TransitionSandboxState].
  intros a b [-> ->]. by left.
Qed.
Lemma does_assign n p c i : does service_move (AssignSandboxToNode n p c i).
Proof.
  eapply does_mono; [|apply does_AssignSandboxToNode].
  intros a b [-> ->]. left. by exists EventScheduled.
Qed.
#[local] Hint Resolve does_edge does_assign : forge.
Lemma table_edge st ev st' : NextState st ev = (st', true) -> edge st st'.
Proof. by exists ev. Qed.
#[local] Hint Resolve table_edge : forge.
Lemma edge_restart_attempt : edge StateRestarting StateStarting.
Proof. by exists EventRestartAttempt. Qed.
Lemma edge_wake : edge StateStopped StateStarting.
Proof. by exists EventScheduled. Qed.
#[local] Hint Resolve edge_restart_attempt edge_wake : forge.

Lemma issues_create req : issues (within service_move) (CreateSandbox req).
Proof. unfold CreateSandbox, soft_recycle, place_sandbox. issue_tac. Qed.

Lemma issues_notifyRouteAdd s i : issues (within service_move) (notifyRouteAdd s i).
Proof. unfold notifyRouteAdd. issue_tac. Qed.
Lemma issues_notifyRouteRemove a : issues (within service_move) (notifyRouteRemove a).
Proof. unfold notifyRouteRemove. issue_tac. Qed.
#[local] Hint Resolve issues_notifyRouteAdd issues_notifyRouteRemove : forge.

Lemma issues_ack_command c st r : issues (within service_move) (ack_command c st r).
Proof. unfold ack_command. issue_tac. Qed.
Lemma issues_ack_transition i ty st ev s :
  issues (within service_move) (ack_transition i ty st ev s).
Proof. unfold ack_transition. issue_tac. Qed.
Lemma issues_ack_runtime i ev r s : issues (within service_move) (ack_runtime i ev r s).
Proof. unfold ack_runtime, persistRuntimeInfo. issue_tac. Qed.
Lemma issues_ack_routes ls st s i : issues (within service_move) (ack_routes ls st s i).
Proof. unfold ack_routes. issue_tac. Qed.
Lemma issues_ack_reset ls st s i : issues (within service_move) (ack_reset ls st s i).
Proof. unfold ack_reset, HandleRestarted. issue_tac. Qed.
#[local] Hint Resolve issues_ack_command issues_ack_transition issues_ack_runtime
  issues_ack_routes issues_ack_reset : forge.

Lemma issues_ack ls c i t st r : issues (within service_move) (HandleAck ls c i t st r).
Proof. unfold HandleAck, ack_tail. issue_tac. Qed.

(** [HandleCrash] is called with the row as it was before the crash moved it
    to restarting, so it was running. *)
Lemma issues_crash s :
  sb_State s = StateRunning -> issues (within service_move) (HandleCrash s).
Proof.
  intros Hs. unfold HandleCrash, exhausted, dispatch_restart. issue_tac.
  rewrite Hs. apply issues_db. eapply does_mono; [|apply does_TransitionSandboxState].
  intros x y [-> ->]. by right.
Qed.

(** Of the three container events only an exit leads to restarting. *)
Lemma container_restarting ty ev s :
  container_event ty = Some ev -> NextState s ev = (StateRestarting, true) -> s = StateRunning.
Proof.
  unfold container_event. repeat case_bool_decide; intros [= <-] Hn;
    first [by apply NextState_exited_restarting | by apply NextState_started in Hn as [? _]].
Qed.

Lemma issues_event ls n i t p : issues (within service_move) (HandleEvent ls n i t p).
Proof.
  unfold HandleEvent, event_routes. issue_tac.
  apply issues_crash.
  match goal with H : ls_restartMgr ls && bool_decide _ = true |- _ =>
    apply andb_true_iff in H as [_ H%bool_decide_eq_true_1]; subst end.
  eapply container_restarting; eauto.
Qed.

Lemma issues_destroy i : issues (within service_move) (DestroySandbox i).
Proof. unfold DestroySandbox. issue_tac. Qed.
Lemma issues_wake i : issues (within service_move) (WakeSandbox i).
Proof. 
  unfold WakeSandbox. issue_tac. apply issues_db.
  match goal with H : negb (bool_decide _) = false |- _ =>
    apply negb_false_iff, bool_decide_eq_true_1 in H as -> end. auto with forge.
Qed.
Lemma issues_restart i : issues (within service_move) (RestartSandbox i).
Proof. unfold RestartSandbox. issue_tac. Qed.

Lemma issues_discard {A} R (p : ctl (result A)) :
  issues (within R) p -> issues (within R) (discard p).
Proof. intros Hp. by apply issues_bind. Qed.

Lemma issues_operation ls op : issues (within service_move) (run_operation ls op).
Proof.
  destruct op; [apply issues_discard, issues_create|apply issues_ack|apply issues_event
    |apply issues_destroy|apply issues_wake|apply issues_restart].
Qed.
End Moves.

