(* ===== verification/CreateFacts.v ===== *)
(** [CreateSandbox]: the recycling of a prior row, the placement on the best
    node, and the error branches. *)

From S2P Require Import Prelude Netip Json Models Scheduler Store StoreFacts Routing Effects.
From S2P Require Import StoreRuns Restart Lifecycle.

Section Create.
Context `{External}.

(** What the recycling of a prior row of the application leaves. *)
Inductive recycles (db : DB) (app : string) : DB -> Prop :=
| no_prior : find_by_app db app = None -> recycles db app db
| prior ex :
    find_by_app db app = Some ex ->
    sb_State ex = StateDestroyed \/ sb_State ex = StateFailed ->
    referenced db (sb_ID ex) = false ->
    recycles db app (set_sandboxes (delete (sb_ID ex) (sandboxes db)) db).

Lemma recycles_wf db app db' : db_wf db -> recycles db app db' -> db_wf db'.
Proof. intros Hwf []; [done|by apply delete_wf]. Qed.

Lemma recycles_free db app db' :
  db_wf db -> recycles db app db' -> find_by_app db' app = None.
Proof.
  intros Hwf [|ex Hex _ _]; [done|]. apply find_by_app_None.
  intros id s Hs Happ. simpl in Hs.
  apply lookup_delete_Some in Hs as [Hne Hs].
  apply (find_by_app_Some _ _ _ Hwf) in Hex as [Hex Ha].
  apply Hne. eapply wf_unique; eauto. congruence.
Qed.

Lemma recycles_keeps db app db' :
  recycles db app db' -> nodes db' = nodes db /\ commands db' = commands db /\
    events db' = events db /\ events_seq db' = events_seq db /\
    forall id, sandboxes db !! id = None -> sandboxes db' !! id = None.
Proof.
  intros []; split_and!; try done. simpl. intros id Hid.
  destruct (decide (sb_ID ex = id)) as [->|]; [apply lookup_delete_eq|].
  by rewrite lookup_delete_ne.
Qed.

Lemma soft_recycle_runs w app db' (Q : result unit -> World -> Prop) :
  w_faults w = [] -> db_wf (w_db w) -> recycles (w_db w) app db' ->
  Q (Ok tt) (set_db db' w) -> ctl_wp (soft_recycle app) Q w.
Proof.
  intros Hf Hwf Hr HQ. unfold soft_recycle.
  destruct Hr as [Hnone|ex Hex Hst Href].
  - eapply wp_bind_db; [done|unfold GetSandboxByAppName; by rewrite Hnone|].
    cbv beta iota. replace (errors_Is ErrNoRows ErrNoRows) with true by done.
    apply ctl_wp_ret. by destruct w.
  - eapply wp_bind_db; [done|unfold GetSandboxByAppName; by rewrite Hex|].
    cbv beta iota. rewrite bool_decide_eq_true_2 by done.
    apply (find_by_app_Some _ _ _ Hwf) in Hex as [Hex _].
    eapply wp_bind_db; [done| |].
    + simpl. rewrite Hex, Href. done.
    + by apply ctl_wp_ret.
Qed.

Lemma soft_recycle_conflict w app ex (Q : result unit -> World -> Prop) :
  w_faults w = [] -> find_by_app (w_db w) app = Some ex ->
  sb_State ex <> StateDestroyed -> sb_State ex <> StateFailed ->
  Q (Err ErrConflict) w -> ctl_wp (soft_recycle app) Q w.
Proof.
  intros Hf Hex Hd Hfl HQ. unfold soft_recycle.
  eapply wp_bind_db; [done|by apply run_GetByApp|]. cbv beta iota.
  rewrite bool_decide_eq_false_2 by tauto. apply ctl_wp_ret. by destruct w.
Qed.

Definition create_params (id : uuid) (req : CreateRequest) : CreateSandboxParams :=
  mkCreateSandboxParams id (cr_AppName req) (cr_UserID req) (cr_Image req)
    (json_of_resources (cr_Resources req)) (json_of_env (cr_Env req))
    (default_idle (cr_IdleTimeoutSeconds req)) (default json_empty (cr_Metadata req)).

(** The row of a new sandbox. *)
Definition pending_row (id : uuid) (req : CreateRequest) (now : Z) : Sandbox :=
  mkSandbox id (cr_AppName req) (cr_UserID req) None None None (cr_Image req) StatePending 0
    (json_of_resources (cr_Resources req)) (json_of_env (cr_Env req))
    (default_idle (cr_IdleTimeoutSeconds req)) now now now 0
    (default json_empty (cr_Metadata req)) now.

Lemma run_insert id req now db :
  sandboxes db !! id = None -> find_by_app db (cr_AppName req) = None ->
  Store.CreateSandbox (create_params id req) now db =
    (Ok (pending_row id req now), put_sandbox (pending_row id req now) db) /\
  row_in (put_sandbox (pending_row id req now) db) id (pending_row id req now).
Proof.
  intros Hid Happ. split.
  - unfold Store.CreateSandbox. simpl. rewrite Hid.
    destruct (app_name_taken db (cr_AppName req)) eqn:Ht; [|done].
    apply app_name_taken_spec in Ht as (i & s & Hs & Ha).
    by destruct (proj1 (find_by_app_None _ _) Happ _ _ Hs).
  - apply (row_in_put db (pending_row id req now)); simpl; [done|done|done|].
    by intros n Hn.
Qed.

(** The scheduler's choice among the healthy nodes. *)
Definition chosen_node (db : DB) (mem : Z) : result uuid :=
  Schedule (to_candidate <$> healthy_nodes db) mem.

Lemma chosen_node_there db mem n :
  db_wf db -> chosen_node db mem = Ok n ->
  exists nd, nodes db !! n = Some nd /\ nd_Status nd = NodeHealthy.
Proof.
  intros Hwf (c & Hc & <-)%Schedule_in. apply list_elem_of_fmap in Hc as (nd & -> & Hnd).
  unfold healthy_nodes in Hnd. rewrite elem_of_order_by, list_elem_of_filter in Hnd.
  destruct Hnd as [Hh Hnd]. apply elem_of_node_rows in Hnd; [|done]. by exists nd.
Qed.

Lemma healthy_nodes_eq db db' : nodes db = nodes db' -> healthy_nodes db = healthy_nodes db'.
Proof. intros Hn. unfold healthy_nodes, node_rows. by rewrite Hn. Qed.

Lemma run_ListHealthyNodes db0 now db :
  memory_ok db0 = true -> nodes db = nodes db0 ->
  ListHealthyNodes now db = (Ok (healthy_nodes db0), db).
Proof.
  intros Hm Hn. unfold ListHealthyNodes, memory_ok in *. rewrite (healthy_nodes_eq db db0) by done.
  by rewrite Hm.
Qed.

(** *** Placement *)

Definition create_mem (req : CreateRequest) : Z := default_memory (MemoryMB (cr_Resources req)).

Definition create_payload (req : CreateRequest) : json :=
  start_payload (cr_AppName req) (cr_Image req) (json_of_resources (cr_Resources req))
    (json_of_env (cr_Env req)).

Definition create_command (req : CreateRequest) (cmdID id node : uuid) : CreateCommandParams :=
  mkCreateCommandParams cmdID (Some node) (Some id) CmdStartSandbox (create_payload req) 60.

Definition create_event (req : CreateRequest) (id node : uuid) : RecordEventParams :=
  mkRecordEventParams (Some id) (Some node) EventScheduled "control-plane"
    (Some StatePending) (Some StateStarting) (create_payload req).

(** The database after a placement on [node] at [now]. *)
Definition placed (req : CreateRequest) (id cmdID node : uuid) (now : Z) (db : DB) : DB :=
  let db1 := put_sandbox (assigned_to node now (pending_row id req now)) db in
  let db2 := put_command (command_row (create_command req cmdID id node) node now) db1 in
  put_event (event_row (create_event req id node) now db2) db2.

Definition placed_result (req : CreateRequest) (id node : uuid) : SandboxResult :=
  mkSandboxResult id (cr_AppName req) (cr_UserID req) StateStarting
    (sandbox_url (cr_AppName req)) (Some node) (cr_Image req).

Lemma place_sandbox_runs w req id node db0 :
  w_faults w = [] -> db_wf db0 -> sandboxes db0 !! id = None ->
  w_db w = put_sandbox (pending_row id req (w_now w)) db0 ->
  commands db0 !! uuid_New (w_rng w) = None ->
  memory_ok db0 = true -> chosen_node db0 (create_mem req) = Ok node ->
  ctl_wp (place_sandbox req id)
    (fun r w' => r = Ok (placed_result req id node) /\
       w' = set_db (placed req id (uuid_New (w_rng w)) node (w_now w) db0) (next_rng w)) w.
Proof.
  intros Hf Hwf Hid Hdb Hcmd Hmem Hch. unfold place_sandbox.
  destruct (chosen_node_there _ _ _ Hwf Hch) as (nd & Hnd & _).
  assert (row_in (w_db w) id (pending_row id req (w_now w))) as Hrow.
  { rewrite Hdb. apply (row_in_put db0 (pending_row id req (w_now w))); by simpl. }
  step_by (apply (run_ListHealthyNodes db0); [done|by rewrite Hdb]). rewrite set_db_same.
  change (Schedule _ _) with (chosen_node db0 (create_mem req)). rewrite Hch.
  destruct (run_Assign node id (w_now w) (w_db w) _ Hrow) as [Hassign Hrow2];
    [done|rewrite Hdb; by exists nd|done|].
  step_with Hassign. step_uuid.
  eapply wp_bind_db; [done| |].
  { apply (run_CreateCommand _ node); simpl; [done|done| | |].
    - by rewrite Hdb.
    - rewrite Hdb. by exists nd.
    - intros i [= <-]. by rewrite lookup_insert_eq. }
  cbv beta iota. step_with run_RecordEvent. apply ctl_wp_ret. split; [done|].
  rewrite Hdb. unfold placed, set_db, next_rng. simpl. f_equal.
  rewrite put_sandbox_twice; reflexivity.
Qed.
(** A placement, start to end. *)
Lemma CreateSandbox_exec req w db0 node :
  let id := uuid_New (w_rng w) in
  let cmdID := uuid_New (S (w_rng w)) in
  w_faults w = [] -> db_wf (w_db w) -> recycles (w_db w) (cr_AppName req) db0 ->
  sandboxes (w_db w) !! id = None -> commands (w_db w) !! cmdID = None ->
  memory_ok (w_db w) = true -> chosen_node (w_db w) (create_mem req) = Ok node ->
  exec (CreateSandbox req) w =
    (Ok (placed_result req id node),
     set_db (placed req id cmdID node (w_now w) db0) (next_rng (next_rng w))).
Proof.
  intros id cmdID Hf Hwf Hr Hid Hcmd Hmem Hch. apply exec_eq. unfold CreateSandbox. step_uuid.
  destruct (recycles_keeps _ _ _ Hr) as (Hn & Hc & _ & _ & Hs).
  pose proof (recycles_wf _ _ _ Hwf Hr) as Hwf0.
  apply ctl_wp_bind. apply (soft_recycle_runs (next_rng w) _ db0); [done..|].
  destruct (run_insert id req (w_now w) db0) as [Hins _];
    [by apply Hs|exact (recycles_free _ _ _ Hwf Hr)|].
  step_with Hins.
  eapply ctl_wp_mono; [|apply (place_sandbox_runs _ req id node db0)]; try done.
  - by apply Hs.
  - simpl. by rewrite Hc.
  - unfold memory_ok. by rewrite (healthy_nodes_eq db0 (w_db w)).
  - unfold chosen_node. by rewrite (healthy_nodes_eq db0 (w_db w)).
Qed.
End Create.

(** A request for concrete runs. *)
Definition demo_request (app : string) (mem : Z) : CreateRequest :=
  mkCreateRequest app "user" "img" (mkResources (1 # 2) mem) None 0 None.

(** ** Properties *)

Section Properties.
#[local] Existing Instance demo_external | 100.

(** C8: [CreateSandbox] places: when the application has no row (or a destroyed
    or failed one that no command refers to, which is deleted first), the
    generated ids are new, the free memory of the healthy nodes fits an int4 and
    the scheduler picks a node, the answer is the
    starting sandbox on that node, and the database has gained exactly the
    starting row with version 1, the pending start command for the node and
    the audit event. *)
Theorem CreateSandbox_places `{External} req w db0 node :
  let id := uuid_New (w_rng w) in
  let cmdID := uuid_New (S (w_rng w)) in
  w_faults w = [] -> db_wf (w_db w) -> recycles (w_db w) (cr_AppName req) db0 ->
  sandboxes (w_db w) !! id = None -> commands (w_db w) !! cmdID = None ->
  memory_ok (w_db w) = true -> chosen_node (w_db w) (create_mem req) = Ok node ->
  exec (CreateSandbox req) w =
    (Ok (placed_result req id node),
     set_db (placed req id cmdID node (w_now w) db0) (next_rng (next_rng w))).
Proof. apply CreateSandbox_exec. Qed.

Lemma CreateSandbox_places_witness :
  let w := demo_world (demo_db StateDestroyed 0) in
  exec (CreateSandbox (demo_request "my-app" 512)) w =
    (Ok (placed_result (demo_request "my-app" 512) 1000 1),
     set_db (placed (demo_request "my-app" 512) 1000 1001 1 100
              (set_sandboxes ∅ (demo_db StateDestroyed 0))) (next_rng (next_rng w))).
Proof.
  intros w.
  apply (@CreateSandbox_places demo_external (demo_request "my-app" 512) w
    (set_sandboxes ∅ (demo_db StateDestroyed 0)) 1%N); try reflexivity.
  - apply demo_db_wf, in_states. reflexivity.
  - apply (prior (demo_db StateDestroyed 0) "my-app" (demo_sandbox StateDestroyed 0));
      [reflexivity|by left|reflexivity].
Defined.

(** [CreateSandbox] refuses duplicates: while the application has a row
    that is neither destroyed nor failed the answer is [ErrConflict] and
    nothing is written, dispatched or recorded. *)
Theorem CreateSandbox_conflict `{External} req w ex :
  w_faults w = [] -> find_by_app (w_db w) (cr_AppName req) = Some ex ->
  sb_State ex <> StateDestroyed -> sb_State ex <> StateFailed ->
  exec (CreateSandbox req) w = (Err ErrConflict, next_rng w).
Proof.
  intros Hf Hex Hd Hfl. apply exec_eq. unfold CreateSandbox. step_uuid.
  apply ctl_wp_bind. by apply soft_recycle_conflict with ex.
Qed.

Lemma CreateSandbox_conflict_witness :
  let w := demo_world (demo_db StateStopped 0) in
  exec (CreateSandbox (demo_request "my-app" 512)) w = (Err ErrConflict, next_rng w).
Proof.
  intros w.
  by apply (@CreateSandbox_conflict demo_external (demo_request "my-app" 512) w
    (demo_sandbox StateStopped 0)).
Defined.

(** A prior row that a command still refers to cannot be recycled: the
    DELETE violates the foreign key [commands.sandbox_id], the request fails
    with that error and the application stays blocked, whatever its state. *)
Theorem CreateSandbox_recycle_blocked `{External} req w ex :
  w_faults w = [] -> db_wf (w_db w) -> find_by_app (w_db w) (cr_AppName req) = Some ex ->
  sb_State ex = StateDestroyed \/ sb_State ex = StateFailed ->
  referenced (w_db w) (sb_ID ex) = true ->
  exec (CreateSandbox req) w =
    (Err (Wrap "recycle destroyed sandbox"
            (PgError ForeignKeyViolation "commands_sandbox_id_fkey")), next_rng w).
Proof.
  intros Hf Hwf Hex Hst Href. apply exec_eq. unfold CreateSandbox. step_uuid.
  apply ctl_wp_bind. unfold soft_recycle.
  step_by (by apply run_GetByApp).
  rewrite bool_decide_eq_true_2 by done.
  apply (find_by_app_Some _ _ _ Hwf) in Hex as [Hex _].
  step_by (by apply (run_Delete_referenced _ _ _ ex)). apply ctl_wp_ret. by destruct w.
Qed.

(** A failed sandbox whose start command is still in the table. *)
Definition demo_referenced : DB :=
  put_command (mkCommand 50 1 (Some 7%N) CmdStartSandbox json_empty CmdFailed None None None 60 0)
    (demo_db StateFailed 0).

Lemma demo_referenced_wf : db_wf demo_referenced.
Proof.
  eapply db_step_wf; [apply (demo_db_wf StateFailed 0), in_states; reflexivity|].
  apply (insert_command_step no_move).
  - apply demo_db_wf, in_states. reflexivity.
  - by split; simpl; [..|intros i [= <-]].
Qed.

Lemma CreateSandbox_recycle_blocked_witness :
  let w := demo_world demo_referenced in
  exec (CreateSandbox (demo_request "my-app" 512)) w =
    (Err (Wrap "recycle destroyed sandbox"
            (PgError ForeignKeyViolation "commands_sandbox_id_fkey")), next_rng w).
Proof.
  intros w.
  apply (@CreateSandbox_recycle_blocked demo_external (demo_request "my-app" 512) w
    (demo_sandbox StateFailed 0)); try reflexivity.
  - apply demo_referenced_wf.
  - by right.
Defined.

(** Without capacity the request fails with [ErrNoCapacity], but the
    pending row it has inserted stays, with no command and no event; the same
    request sent again, whatever nodes have joined meanwhile, answers
    [ErrConflict]. *)
Theorem CreateSandbox_no_capacity `{External} req w db0 e :
  let id := uuid_New (w_rng w) in
  w_faults w = [] -> db_wf (w_db w) -> recycles (w_db w) (cr_AppName req) db0 ->
  sandboxes (w_db w) !! id = None ->
  memory_ok (w_db w) = true -> chosen_node (w_db w) (create_mem req) = Err e ->
  let db1 := put_sandbox (pending_row id req (w_now w)) db0 in
  exec (CreateSandbox req) w = (Err ErrNoCapacity, set_db db1 (next_rng w)) /\
  forall w', w_faults w' = [] -> sandboxes (w_db w') = sandboxes db1 ->
    db_wf (w_db w') -> (exec (CreateSandbox req) w').1 = Err ErrConflict.
Proof.
  intros id Hf Hwf Hr Hid Hmem Hch db1. split.
  - apply exec_eq. unfold CreateSandbox. step_uuid.
    destruct (recycles_keeps _ _ _ Hr) as (Hn & _ & _ & _ & Hs).
    apply ctl_wp_bind. apply (soft_recycle_runs (next_rng w) _ db0); [done..|].
    destruct (run_insert id req (w_now w) db0) as [Hins _];
      [by apply Hs|exact (recycles_free _ _ _ Hwf Hr)|].
    step_with Hins. unfold place_sandbox.
    step_by (apply (run_ListHealthyNodes (w_db w)); [done|exact Hn]).
    change (Schedule _ _) with (chosen_node (w_db w) (create_mem req)). rewrite Hch.
    by apply ctl_wp_ret.
  - intros w' Hf' Hsb Hwf'.
    assert (find_by_app (w_db w') (cr_AppName req) = Some (pending_row id req (w_now w))) as Hex.
    { apply find_by_app_Some; [done|]. split; [|done]. rewrite Hsb. apply lookup_insert_eq. }
    apply (wp_exec _ (fun r _ => r = Err ErrConflict)). unfold CreateSandbox. step_uuid.
    apply ctl_wp_bind. by apply soft_recycle_conflict with (pending_row id req (w_now w)).
Qed.

(** One healthy node whose free memory overflows an int4 (a heartbeat may report
    any int32) makes the query of the nodes fail: every request fails, and
    leaves its pending row behind. *)
Theorem CreateSandbox_overflow `{External} req w db0 :
  let id := uuid_New (w_rng w) in
  w_faults w = [] -> db_wf (w_db w) -> recycles (w_db w) (cr_AppName req) db0 ->
  sandboxes (w_db w) !! id = None -> memory_ok (w_db w) = false ->
  exec (CreateSandbox req) w =
    (Err (Wrap "list healthy nodes" (PgError NumericOutOfRange "integer")),
     set_db (put_sandbox (pending_row id req (w_now w)) db0) (next_rng w)).
Proof.
  intros id Hf Hwf Hr Hid Hmem. apply exec_eq. unfold CreateSandbox. step_uuid.
  destruct (recycles_keeps _ _ _ Hr) as (Hn & _ & _ & _ & Hs).
  apply ctl_wp_bind. apply (soft_recycle_runs (next_rng w) _ db0); [done..|].
  destruct (run_insert id req (w_now w) db0) as [Hins _];
    [by apply Hs|exact (recycles_free _ _ _ Hwf Hr)|].
  step_with Hins. unfold place_sandbox. unfold memory_ok in Hmem.
  step_by (unfold ListHealthyNodes, memory_ok; rewrite (healthy_nodes_eq _ (w_db w)) by done;
           rewrite Hmem; reflexivity).
  by apply ctl_wp_ret.
Qed.

Lemma CreateSandbox_no_capacity_witness :
  let w := demo_world (demo_db StateRunning 0) in
  let db1 := put_sandbox (pending_row 1000 (demo_request "big" 9000) 100) (demo_db StateRunning 0) in
  exec (CreateSandbox (demo_request "big" 9000)) w = (Err ErrNoCapacity, set_db db1 (next_rng w)).
Proof.
  intros w db1.
  refine (proj1 (@CreateSandbox_no_capacity demo_external (demo_request "big" 9000) w
    (demo_db StateRunning 0) Scheduler.ErrNoCapacity _ _ _ _ _ _)); try reflexivity.
  - apply demo_db_wf, in_states. reflexivity.
  - by apply no_prior.
Defined.

End Properties.
