(* ===== verification/AckFacts.v ===== *)
(** [HandleAck]: what an acknowledgment of a command does to the sandbox, the
    command, the audit log and the proxy, on each branch. *)

From S2P Require Import Prelude Netip Json Models Scheduler Store StoreFacts Routing Effects.
From S2P Require Import StoreRuns Restart Lifecycle.

Section Ack.
Context `{External}.

(** The world after the route notification of a state: the batcher and its
    output, nothing else. *)
Definition announce (ls : LifecycleService) (st : string) (s : Sandbox) (id : uuid) (w : World)
  : World :=
  if ls_routeNotifier ls
  then if bool_decide (st = StateRunning)
       then match sb_NodeID s, sb_HostPort s with
            | Some n, Some port =>
                match nodes (w_db w) !! n with
                | Some nd =>
                    (call_notify (OnSandboxRunning (sb_AppName s) (uuid_String id)
                      (Addr_String (nd_TailscaleIp nd) +:+ ":" +:+ pretty port)) w).2
                | None => w
                end
            | _, _ => w
            end
       else if bool_decide (st = StateDestroyed)
       then (call_notify (OnSandboxStopped (sb_AppName s)) w).2
       else w
  else w.

Lemma set_db_notify n d w :
  set_db d (call_notify n w).2 = (call_notify n (set_db d w)).2.
Proof. unfold call_notify. simpl. by destruct (notify _ _ _) as [? []]. Qed.

Lemma announce_keeps ls st s id w :
  w_db (announce ls st s id w) = w_db w /\ w_now (announce ls st s id w) = w_now w /\
  w_faults (announce ls st s id w) = w_faults w /\ w_rng (announce ls st s id w) = w_rng w.
Proof.
  unfold announce. repeat case_match; try done.
  - destruct (call_notify_keeps (OnSandboxRunning (sb_AppName s) (uuid_String id)
      (Addr_String (nd_TailscaleIp n0) +:+ ":" +:+ pretty z)) w) as (?&?&?&?&_). done.
  - destruct (call_notify_keeps (OnSandboxStopped (sb_AppName s)) w) as (?&?&?&?&_). done.
Qed.

(** The notification depends on the rows of the nodes only. *)
Lemma announce_db ls st s id w d :
  nodes d = nodes (w_db w) ->
  announce ls st s id (set_db d w) = set_db d (announce ls st s id w).
Proof.
  intros Hn. unfold announce. simpl. rewrite Hn.
  repeat case_match; rewrite ?set_db_notify; done.
Qed.

Lemma ack_routes_runs ls st s id w (Q : unit -> World -> Prop) :
  w_faults w = [] -> Q tt (announce ls st s id w) -> ctl_wp (ack_routes ls st s id) Q w.
Proof.
  intros Hf HQ. unfold ack_routes, announce, notifyRouteAdd, notifyRouteRemove in *.
  destruct (ls_routeNotifier ls); [|by apply ctl_wp_ret].
  destruct (bool_decide (st = StateRunning)).
  - destruct (sb_NodeID s) as [n|]; [|by apply ctl_wp_ret].
    destruct (sb_HostPort s) as [port|]; [|by apply ctl_wp_ret].
    destruct (nodes (w_db w) !! n) as [nd|] eqn:Hn.
    + step_by (by apply run_GetNode). apply wp_bind_notify. rewrite set_db_same.
      by apply ctl_wp_ret.
    + step_by (unfold GetNode, find_node; simpl; by rewrite Hn).
      rewrite set_db_same. by apply ctl_wp_ret.
  - destruct (bool_decide (st = StateDestroyed)); [|by apply ctl_wp_ret].
    apply wp_bind_notify. by apply ctl_wp_ret.
Qed.

(** The row after the runtime info of an ack result was persisted. *)
Definition runtime_row (event : string) (res : option json) (now : Z) (s : Sandbox) : Sandbox :=
  if bool_decide (event = EventStarted)
  then match runtime_info res with
       | Some (cid, port) => with_runtime cid port now s
       | None => s
       end
  else s.

(** The row [HandleAck] goes on with: read again after a start. *)
Definition reread (event : string) (fresh old : Sandbox) : Sandbox :=
  if bool_decide (event = EventStarted) then fresh else old.

Lemma put_same id s db : row_in db id s -> put_sandbox s db = db.
Proof.
  intros [Hs Hid _ _ _ _]. unfold put_sandbox, set_sandboxes. rewrite Hid.
  rewrite insert_id by done. by destruct db.
Qed.

Lemma ack_runtime_runs id event res s old w (Q : Sandbox -> World -> Prop) :
  w_faults w = [] -> row_in (w_db w) id s ->
  (row_in (put_sandbox (runtime_row event res (w_now w) s) (w_db w)) id
     (runtime_row event res (w_now w) s) ->
   Q (reread event (runtime_row event res (w_now w) s) old)
     (set_db (put_sandbox (runtime_row event res (w_now w) s) (w_db w)) w)) ->
  ctl_wp (ack_runtime id event res old) Q w.
Proof.
  intros Hf Hs. unfold ack_runtime, runtime_row, reread.
  destruct (bool_decide _); intros HQ; cycle 1.
  { rewrite (put_same _ _ _ Hs), set_db_same in HQ. by apply ctl_wp_ret, HQ. }
  apply ctl_wp_bind. unfold persistRuntimeInfo.
  destruct (runtime_info res) as [[cid port]|].
  - destruct (run_Runtime cid port id (w_now w) (w_db w) s Hs) as [Hrun Hrow].
    step_by (apply Hrun). apply ctl_wp_ret.
    step_by (by apply run_GetSandbox, (ri_row _ _ _ Hrow)). by apply ctl_wp_ret, HQ.
  - apply ctl_wp_ret. rewrite (put_same _ _ _ Hs) in HQ.
    step_by (by apply run_GetSandbox, (ri_row _ _ _ Hs)). by apply ctl_wp_ret, HQ.
Qed.

(** The row after the failure counter was reset. *)
Definition reset_row (ls : LifecycleService) (st : string) (now : Z) (s : Sandbox) : Sandbox :=
  if ls_restartMgr ls && bool_decide (st = StateRunning) && (0 <? sb_FailureCount s)
  then with_failures 0 now s else s.

Lemma ack_reset_runs ls st s t id w (Q : unit -> World -> Prop) :
  w_faults w = [] -> row_in (w_db w) id t -> sb_FailureCount s = sb_FailureCount t ->
  Q tt (set_db (put_sandbox (reset_row ls st (w_now w) t) (w_db w)) w) ->
  ctl_wp (ack_reset ls st s id) Q w.
Proof.
  intros Hf Ht Heq. unfold ack_reset, reset_row, HandleRestarted. rewrite Heq.
  destruct (_ && _ && _); intros HQ.
  - destruct (run_Reset id (w_now w) (w_db w) t Ht) as [Hrun _].
    apply bind_assoc. step_by (apply Hrun). by apply ctl_wp_ret.
  - rewrite (put_same _ _ _ Ht), set_db_same in HQ. by apply ctl_wp_ret.
Qed.

Lemma ack_command_runs id st res w c (Q : result unit -> World -> Prop) :
  w_faults w = [] -> commands (w_db w) !! id = Some c -> cmd_ID c = id ->
  Q (Ok tt) (set_db (put_command (acked c (ack_status st) (w_now w) res) (w_db w)) w) ->
  ctl_wp (ack_command id st res) Q w.
Proof.
  intros Hf Hc Hid HQ. unfold ack_command.
  step_by (apply (run_AckCommand _ _ _ _ _ c); [done..|]). 2: by apply ctl_wp_ret.
  unfold ack_status. by case_bool_decide.
Qed.

(** The columns the steps of an acknowledgment share. *)
Lemma runtime_row_keeps ev res now s :
  sb_ID (runtime_row ev res now s) = sb_ID s /\
  sb_NodeID (runtime_row ev res now s) = sb_NodeID s /\
  sb_State (runtime_row ev res now s) = sb_State s /\
  sb_StateVersion (runtime_row ev res now s) = sb_StateVersion s /\
  sb_FailureCount (runtime_row ev res now s) = sb_FailureCount s.
Proof. unfold runtime_row. by repeat case_match. Qed.

Lemma reset_row_keeps ls st now s :
  sb_ID (reset_row ls st now s) = sb_ID s /\
  sb_State (reset_row ls st now s) = sb_State s /\
  sb_StateVersion (reset_row ls st now s) = sb_StateVersion s.
Proof. unfold reset_row. by case_match. Qed.

(** What an accepted acknowledgment writes, given the row [s1] after its
    transition and the row [old] it was decided on: the final row, the event
    and the command. *)
Definition ack_final (ls : LifecycleService) (ev st : string) (res : option json) (now : Z)
    (s1 : Sandbox) : Sandbox :=
  reset_row ls st now (runtime_row ev res now s1).

Definition ack_event_params (ev st : string) (res : option json) (now : Z) (id : uuid)
    (s1 old : Sandbox) : RecordEventParams :=
  mkRecordEventParams (Some id) (sb_NodeID old) ev "agent"
    (Some (sb_State (reread ev s1 old))) (Some st) (safePayload res).

Definition ack_db (ls : LifecycleService) (ev st status : string) (res : option json) (now : Z)
    (id : uuid) (s1 old : Sandbox) (c : Command) (db : DB) : DB :=
  mkDB (<[id := ack_final ls ev st res now s1]> (sandboxes db)) (nodes db)
    (<[cmd_ID c := acked c (ack_status status) now res]> (commands db))
    (events db ++ [event_row (ack_event_params ev st res now id s1 old) now db])
    (events_seq db + 1).

Lemma ack_tail_runs ls cmdID id status ev res st s1 old c w :
  w_faults w = [] -> row_in (w_db w) id s1 ->
  commands (w_db w) !! cmdID = Some c -> cmd_ID c = cmdID ->
  sb_NodeID old = sb_NodeID s1 -> sb_FailureCount old = sb_FailureCount s1 ->
  ctl_wp (ack_tail ls cmdID id status ev res old st)
    (fun r w' => r = Ok tt /\
       w' = set_db (ack_db ls ev st status res (w_now w) id s1 old c (w_db w))
              (announce ls st (reread ev (runtime_row ev res (w_now w) s1) old) id w)) w.
Proof.
  intros Hf Hs1 Hc Hcid Hnode Hfc. unfold ack_tail.
  destruct (runtime_row_keeps ev res (w_now w) s1) as (Hid2 & Hn2 & Hst2 & _ & Hfc2).
  set (s2 := runtime_row ev res (w_now w) s1) in *.
  apply ctl_wp_bind. eapply (ack_runtime_runs _ _ _ s1); [done..|]. intros Hrow2.
  fold s2 in Hrow2 |- *. set (s := reread ev s2 old) in *.
  assert (sb_NodeID s = sb_NodeID old /\ sb_FailureCount s = sb_FailureCount s2) as [Hns Hfs].
  { unfold s, reread. case_bool_decide; split; congruence. }
  step_by (apply run_RecordEvent). simpl.
  apply ctl_wp_bind. apply ack_routes_runs; [done|].
  destruct (announce_keeps ls st s id w) as (Hdb & Hnow & Hfl & _).
  rewrite !announce_db by done. apply ctl_wp_bind.
  eapply (ack_reset_runs _ _ _ s2); [simpl; by rewrite Hfl| |done|].
  { simpl. by apply row_in_event. }
  eapply ack_command_runs; [simpl; by rewrite Hfl|done|done|]. split; [done|].
  simpl. rewrite Hnow. unfold ack_db, set_db. simpl. f_equal.
  unfold put_command, put_sandbox, put_event, set_commands, set_sandboxes. simpl. f_equal.
  - unfold ack_final. fold s2. rewrite (proj1 (reset_row_keeps ls st (w_now w) s2)).
    rewrite (ri_id _ _ _ Hrow2). apply insert_insert_eq.
  - unfold event_row, ack_event_params. simpl. rewrite Hns. do 4 f_equal.
    unfold s, reread. case_bool_decide; congruence.
Qed.

(** An accepted acknowledgment, start to end. *)
Lemma HandleAck_accepted ls cmdID id cmdType status res w s c ev st :
  w_faults w = [] -> db_wf (w_db w) -> sandboxes (w_db w) !! id = Some s -> roomy s ->
  commands (w_db w) !! cmdID = Some c ->
  ack_event cmdType status (sb_State s) = Some ev -> NextState (sb_State s) ev = (st, true) ->
  let s1 := in_state st (w_now w) s in
  exec (HandleAck ls cmdID id cmdType status res) w =
    (Ok tt, set_db (ack_db ls ev st status res (w_now w) id s1 s c (w_db w))
              (announce ls st (reread ev (runtime_row ev res (w_now w) s1) s) id w)).
Proof.
  intros Hf Hwf Hs Hroom Hc Hev Hst s1. apply exec_eq. unfold HandleAck.
  step_by (by apply run_GetSandbox). rewrite set_db_same, Hev.
  apply ctl_wp_bind. unfold ack_transition. rewrite Hst. cbv beta iota.
  destruct (edge_closed (sb_State s) st) as [_ Hck]; [by exists ev|].
  destruct (run_Transition st id (sb_State s) (w_now w) (w_db w) s) as [Hrun Hrow];
    [by apply row_in_wf|done|by apply bool_decide_eq_true_2|destruct Hroom; lia|].
  step_by (apply Hrun). apply ctl_wp_ret. cbv beta iota.
  fold s1 in Hrow |- *. eapply ctl_wp_mono; [|apply (ack_tail_runs _ _ _ _ _ _ _ s1 s c)]; try done.
  - intros r w' [-> ->]. split; [done|]. simpl. rewrite announce_db by done.
    unfold ack_db, set_db. simpl. f_equal. f_equal.
    rewrite (ri_id _ _ _ (row_in_wf _ _ _ Hwf Hs Hroom)). by rewrite insert_insert_eq.
  - by destruct (wf_commands _ Hwf _ _ Hc).
Qed.
End Ack.

(** ** Properties *)

(** A start command of the demo sandbox, dispatched. *)
Definition demo_command (ty : string) : Command :=
  mkCommand 50 1 (Some 7%N) ty json_empty CmdDispatched (Some 1) None None 60 0.
Definition demo_commanded (st ty : string) (failures : Z) : DB :=
  put_command (demo_command ty) (demo_db st failures).
Definition demo_result : json :=
  JObj [("container_id", JStr "c0ffee"); ("host_port", JInt 40007)].

Lemma demo_commanded_wf st ty failures :
  check_state st = true -> check_command_type ty = true -> db_wf (demo_commanded st ty failures).
Proof.
  intros Hst Hty. eapply db_step_wf; [apply (demo_db_wf st failures), in_states, Hst|].
  apply (insert_command_step no_move).
  - apply demo_db_wf, in_states, Hst.
  - split; simpl; try done. by intros i [= <-].
Qed.

Section Properties.
#[local] Existing Instance demo_external | 100.

(** C7: an accepted acknowledgment: when the command's outcome is an event the
    table accepts in the sandbox's state, [HandleAck] answers no error; the row
    moves to the next state with its version plus one, a start also stores the
    reported container and port and clears the failure count, exactly this
    command is completed (failed for a failure) with the result, one audit
    event is appended, and the proxy is told to add the route of a sandbox now
    running or to remove that of one now destroyed.  The audit event of a start
    names the new state as the previous one, since the row was read again. *)
Theorem HandleAck_applies `{External} ls cmdID id cmdType status res w s c ev st :
  w_faults w = [] -> db_wf (w_db w) -> sandboxes (w_db w) !! id = Some s -> roomy s ->
  commands (w_db w) !! cmdID = Some c ->
  ack_event cmdType status (sb_State s) = Some ev -> NextState (sb_State s) ev = (st, true) ->
  let s1 := in_state st (w_now w) s in
  exec (HandleAck ls cmdID id cmdType status res) w =
    (Ok tt, set_db (ack_db ls ev st status res (w_now w) id s1 s c (w_db w))
              (announce ls st (reread ev (runtime_row ev res (w_now w) s1) s) id w)).
Proof. apply HandleAck_accepted. Qed.

Lemma HandleAck_applies_witness :
  let w := demo_world (demo_commanded StateStarting CmdStartSandbox 2) in
  let w' := (exec (HandleAck (mkService true true) 50 7 CmdStartSandbox "success"
               (Some demo_result)) w).2 in
  sandboxes (w_db w') !! 7%N =
    Some (upd_sandbox (demo_sandbox StateStarting 2) (Some 1%N) (Some "c0ffee") (Some 40007)
            StateRunning 2 100 0 0 json_empty 0) /\
  b_pending (w_batcher w') !! "my-app" =
    Some (mkChange "add" (mkRoute "my-app" "7" "100.64.1.5:40007") "").
Proof.
  intros w w'.
  pose proof (@HandleAck_applies demo_external (mkService true true) 50 7 CmdStartSandbox "success"
    (Some demo_result) w (demo_sandbox StateStarting 2) (demo_command CmdStartSandbox)
    EventStarted StateRunning) as H.
  subst w'. rewrite H; [split; vm_compute; reflexivity|reflexivity|..|reflexivity|reflexivity].
  - by apply demo_commanded_wf.
  - reflexivity.
  - vm_compute. repeat split; discriminate.
  - reflexivity.
Defined.

(** Acknowledgments are idempotent for the sandbox: a repeated outcome that
    finds the sandbox already in the state it leads to is no error and changes
    neither its state nor its version; the command is acknowledged again, over
    the first result. *)
Theorem HandleAck_duplicate `{External} ls cmdID id cmdType status res w s c ev :
  w_faults w = [] -> db_wf (w_db w) -> sandboxes (w_db w) !! id = Some s -> roomy s ->
  commands (w_db w) !! cmdID = Some c ->
  ack_event cmdType status (sb_State s) = Some ev -> at_target ev (sb_State s) = true ->
  let '(r, w') := exec (HandleAck ls cmdID id cmdType status res) w in
  r = Ok tt /\
  (exists s', sandboxes (w_db w') = <[id := s']> (sandboxes (w_db w)) /\
     sb_State s' = sb_State s /\ sb_StateVersion s' = sb_StateVersion s) /\
  commands (w_db w') = <[cmdID := acked c (ack_status status) (w_now w) res]> (commands (w_db w)).
Proof.
  intros Hf Hwf Hs Hroom Hc Hev Hat.
  assert (NextState (sb_State s) ev = ("", false)) as Hno.
  { unfold at_target in Hat. apply bool_decide_eq_true_1 in Hat.
    by destruct Hat as [[-> ->]|[[-> ->]|[-> ->]]]. }
  destruct (wf_commands _ Hwf _ _ Hc) as [Hcid _ _ _ _].
  assert (exec (HandleAck ls cmdID id cmdType status res) w =
    (Ok tt, set_db (ack_db ls ev (sb_State s) status res (w_now w) id s s c (w_db w))
       (announce ls (sb_State s) (reread ev (runtime_row ev res (w_now w) s) s) id w))) as ->.
  { apply exec_eq. unfold HandleAck. step_by (by apply run_GetSandbox). rewrite set_db_same, Hev.
    unfold ack_transition. rewrite Hno, Hat. apply wp_bind_ret. cbv beta iota.
    apply ack_tail_runs; try done. by apply row_in_wf. }
  split; [done|]. simpl. rewrite Hcid. split; [|done].
  exists (ack_final ls ev (sb_State s) res (w_now w) s). unfold ack_final.
  destruct (reset_row_keeps ls (sb_State s) (w_now w) (runtime_row ev res (w_now w) s))
    as (_ & -> & ->).
  by destruct (runtime_row_keeps ev res (w_now w) s) as (_ & _ & -> & -> & _).
Qed.

Lemma HandleAck_duplicate_witness :
  (exec (HandleAck (mkService true true) 50 7 CmdStopSandbox "success" None)
    (demo_world (demo_commanded StateStarting CmdStartSandbox 0))).1 = Ok tt /\
  (exec (HandleAck (mkService true true) 50 7 CmdStartSandbox "success" None)
    (demo_world (demo_commanded StateRunning CmdStartSandbox 0))).1 = Ok tt.
Proof.
  split; [reflexivity|].
  pose proof (@HandleAck_duplicate demo_external (mkService true true) 50 7 CmdStartSandbox
    "success" None (demo_world (demo_commanded StateRunning CmdStartSandbox 0))
    (demo_sandbox StateRunning 0) (demo_command CmdStartSandbox) EventStarted) as H.
  destruct (exec _ _) as [r w']. apply H; try reflexivity.
  - by apply demo_commanded_wf.
  - vm_compute. repeat split; discriminate.
Defined.

(** An outcome the table does not accept in the sandbox's state, and whose
    target the sandbox is not in either, is refused with an error that
    unwraps to [ErrInvalidTransition]: nothing is written and the command is
    not acknowledged. *)
Theorem HandleAck_rejects `{External} ls cmdID id cmdType status res w s ev :
  w_faults w = [] -> sandboxes (w_db w) !! id = Some s ->
  ack_event cmdType status (sb_State s) = Some ev ->
  (NextState (sb_State s) ev).2 = false -> at_target ev (sb_State s) = false ->
  exists e, exec (HandleAck ls cmdID id cmdType status res) w = (Err e, w) /\
    errors_Is e ErrInvalidTransition = true.
Proof.
  intros Hf Hs Hev Hno Hat. eexists (Annotate ErrInvalidTransition _). split; [|done].
  apply exec_eq. unfold HandleAck. step_by (by apply run_GetSandbox).
  rewrite set_db_same, Hev. unfold ack_transition.
  rewrite (NextState_false _ _ Hno), Hat. by apply ctl_wp_ret.
Qed.

(** A failed start reported again after the sandbox has come up. *)
Lemma HandleAck_rejects_witness :
  let w := demo_world (demo_commanded StateRunning CmdStartSandbox 0) in
  exists e, exec (HandleAck (mkService true true) 50 7 CmdStartSandbox "failure" None) w =
    (Err e, w) /\ errors_Is e ErrInvalidTransition = true.
Proof.
  intros w. by apply (@HandleAck_rejects demo_external (mkService true true) 50 7 CmdStartSandbox
    "failure" None w (demo_sandbox StateRunning 0) EventStartFailed).
Defined.

(** An acknowledgment that is no state machine event (logs, restarts, a
    failed stop, a stop of a sandbox that is not being destroyed) only
    completes its command. *)
Theorem HandleAck_plain `{External} ls cmdID id cmdType status res w s c :
  w_faults w = [] -> db_wf (w_db w) -> sandboxes (w_db w) !! id = Some s ->
  commands (w_db w) !! cmdID = Some c -> ack_event cmdType status (sb_State s) = None ->
  exec (HandleAck ls cmdID id cmdType status res) w =
    (Ok tt, set_db (put_command (acked c (ack_status status) (w_now w) res) (w_db w)) w).
Proof.
  intros Hf Hwf Hs Hc Hev. apply exec_eq. unfold HandleAck.
  step_by (by apply run_GetSandbox). rewrite set_db_same, Hev.
  eapply ack_command_runs; [done|done|by destruct (wf_commands _ Hwf _ _ Hc)|done].
Qed.

Lemma HandleAck_plain_witness :
  let w := demo_world (demo_commanded StateStopped CmdStopSandbox 0) in
  exec (HandleAck (mkService true true) 50 7 CmdStopSandbox "success" None) w =
    (Ok tt, set_db (put_command (acked (demo_command CmdStopSandbox) CmdCompleted 100 None)
                      (w_db w)) w).
Proof.
  intros w.
  apply (@HandleAck_plain demo_external (mkService true true) 50 7 CmdStopSandbox "success" None w
    (demo_sandbox StateStopped 0) (demo_command CmdStopSandbox)); try reflexivity.
  by apply demo_commanded_wf.
Defined.

End Properties.
