(* ===== verification/EventFacts.v ===== *)
(** [HandleEvent] and [HandleCrash]: crash recovery with exponential backoff,
    what happens when the attempts are used up, and the events that are
    ignored. *)

From S2P Require Import Prelude Netip Json Models Scheduler Store StoreFacts Routing Effects.
From S2P Require Import StoreRuns Restart Lifecycle AckFacts.

(** ** Backoff *)

(** The delay doubles from five seconds: 5, 10 and 20 seconds. *)
Lemma restart_delay_pow n :
  1 <= n -> restart_delay n = Ok (baseRestartDelay * 2 ^ (n - 1)).
Proof.
  intros Hn. unfold restart_delay. destruct (Z.ltb_spec n 1); [lia|].
  by rewrite Z.shiftl_1_l.
Qed.

Lemma restart_delay_seconds n :
  1 <= n -> delay_seconds (baseRestartDelay * 2 ^ (n - 1)) = 5 * 2 ^ (n - 1).
Proof.
  intros Hn. unfold delay_seconds, baseRestartDelay, nanosecond_per_second.
  replace (5 * 1000000000 * 2 ^ (n - 1)) with (5 * 2 ^ (n - 1) * 1000000000) by lia.
  by rewrite Z.div_mul.
Qed.

Section Crash.
Context `{External}.

Definition restart_command (s : Sandbox) (cmdID : uuid) (delay : Z) : CreateCommandParams :=
  mkCreateCommandParams cmdID (sb_NodeID s) (Some (sb_ID s)) CmdStartSandbox
    (restart_payload s delay) (60 + delay_seconds delay).

Definition restart_event (s : Sandbox) (delay : Z) : RecordEventParams :=
  mkRecordEventParams (Some (sb_ID s)) (sb_NodeID s) EventRestartAttempt "control-plane"
    (Some StateRestarting) (Some StateStarting) (restart_payload s delay).

(** The row of a crashed sandbox that is being restarted. *)
Definition crashed_row (now : Z) (s : Sandbox) : Sandbox :=
  with_failures (sb_FailureCount s + 1) now (in_state StateRestarting now s).

(** [HandleCrash] on the stale row [s] of a sandbox now restarting. *)
Lemma crash_retries w s n cmdID :
  w_faults w = [] -> cmdID = uuid_New (w_rng w) -> roomy s ->
  row_in (w_db w) (sb_ID s) (in_state StateRestarting (w_now w) s) ->
  sb_NodeID s = Some n -> commands (w_db w) !! cmdID = None -> sb_FailureCount s < 3 ->
  let delay := baseRestartDelay * 2 ^ (sb_FailureCount s) in
  let now := w_now w in
  ctl_wp (HandleCrash s)
    (fun r w' => r = Ok (mkCrashResult true delay) /\
       w' = set_db (let db1 := put_sandbox (in_state StateStarting now (crashed_row now s)) (w_db w) in
                    let db2 := put_command (command_row (restart_command s cmdID delay) n now) db1 in
                    put_event (event_row (restart_event s delay) now db2) db2) (next_rng w)) w.
Proof.
  intros Hf -> [Hv Hfc] Hrow Hn Hcmd Hlt delay now. unfold HandleCrash.
  destruct (run_Increment (sb_ID s) now (w_db w) _ Hrow) as [Hinc Hrow1]; [simpl; lia|].
  step_by (apply Hinc). simpl.
  replace (maxRestartAttempts <? sb_FailureCount s + 1) with false
    by (symmetry; apply Z.ltb_ge; unfold maxRestartAttempts; lia).
  rewrite restart_delay_pow by lia. replace (sb_FailureCount s + 1 - 1) with (sb_FailureCount s) by lia.
  fold delay. unfold dispatch_restart.
  destruct (run_Transition StateStarting (sb_ID s) StateRestarting now _ _ Hrow1) as [Htr Hrow2];
    [done|done|simpl; lia|].
  step_by (apply Htr). step_uuid.
  step_by (apply (run_CreateCommand _ n); simpl; [done|done|done| |]).
  - by apply (ri_node _ _ _ Hrow).
  - intros i [= <-]. rewrite lookup_insert_eq. eauto.
  - step_by (apply run_RecordEvent). apply ctl_wp_ret. split; [done|].
    unfold set_db. simpl. f_equal. fold now.
    rewrite (put_sandbox_twice _ (with_failures _ _ _)); done.
Qed.

(** With the attempts used up the compare-and-swap to failed misses, since it
    expects the state the row had before the crash. *)
Lemma crash_gives_up w s :
  w_faults w = [] -> roomy s ->
  row_in (w_db w) (sb_ID s) (in_state StateRestarting (w_now w) s) ->
  sb_State s = StateRunning -> 3 <= sb_FailureCount s ->
  ctl_wp (HandleCrash s)
    (fun r w' => r = Err (Wrap "transition to failed" ErrNoRows) /\
       w' = set_db (put_sandbox (crashed_row (w_now w) s) (w_db w)) w) w.
Proof.
  intros Hf [Hv Hfc] Hrow Hst Hge. unfold HandleCrash.
  destruct (run_Increment (sb_ID s) (w_now w) (w_db w) _ Hrow) as [Hinc Hrow1]; [simpl; lia|].
  step_by (apply Hinc). simpl.
  replace (maxRestartAttempts <? sb_FailureCount s + 1) with true
    by (symmetry; apply Z.ltb_lt; unfold maxRestartAttempts; lia).
  unfold exhausted. rewrite Hst.
  step_by (by apply (run_Transition_miss _ _ _ _ _ _ (ri_row _ _ _ Hrow1))).
  by apply ctl_wp_ret.
Qed.

(** The route of a running sandbox that leaves the running state is removed. *)
Definition unroute (ls : LifecycleService) (s : Sandbox) (w : World) : World :=
  if ls_routeNotifier ls then (call_notify (OnSandboxStopped (sb_AppName s)) w).2 else w.

Lemma unroute_keeps ls s w :
  w_db (unroute ls s w) = w_db w /\ w_now (unroute ls s w) = w_now w /\
  w_faults (unroute ls s w) = w_faults w /\ w_rng (unroute ls s w) = w_rng w.
Proof.
  unfold unroute. destruct (ls_routeNotifier ls); [|done].
  by destruct (call_notify_keeps (OnSandboxStopped (sb_AppName s)) w) as (?&?&?&?&?).
Qed.

Lemma unroute_db ls s d w : unroute ls s (set_db d w) = set_db d (unroute ls s w).
Proof. unfold unroute. destruct (ls_routeNotifier ls); [by rewrite set_db_notify|done]. Qed.

Lemma event_routes_runs ls st s w (Q : unit -> World -> Prop) :
  sb_State s = StateRunning -> st ∈ [StateRestarting; StateStopped; StateFailed] ->
  Q tt (unroute ls s w) -> ctl_wp (event_routes ls (sb_State s) st s) Q w.
Proof.
  intros Hs Hst HQ. unfold event_routes, unroute, notifyRouteRemove in *.
  rewrite Hs, (bool_decide_eq_true_2 (st ∈ _)) by done.
  destruct (ls_routeNotifier ls); simpl; [|by apply ctl_wp_ret].
  by apply wp_bind_notify, ctl_wp_ret.
Qed.

Definition crash_event (s : Sandbox) (nodeID : uuid) (eventType : string)
    (payload : option json) : RecordEventParams :=
  mkRecordEventParams (Some (sb_ID s)) (Some nodeID) eventType "agent" (Some (sb_State s))
    (Some StateRestarting) (safePayload payload).

(** The database when [HandleCrash] is called. *)
Definition crashing_db (s : Sandbox) (nodeID : uuid) (eventType : string) (payload : option json)
    (now : Z) (db : DB) : DB :=
  put_event (event_row (crash_event s nodeID eventType payload) now db)
    (put_sandbox (in_state StateRestarting now s) db).

Definition crash_type (eventType : string) : Prop :=
  eventType = "container_exited" \/ eventType = "container_oom".

Lemma event_crash_runs ls nodeID id eventType payload w s (Q : result unit -> World -> Prop) :
  w_faults w = [] -> db_wf (w_db w) -> sandboxes (w_db w) !! id = Some s -> roomy s ->
  sb_State s = StateRunning -> crash_type eventType -> ls_restartMgr ls = true ->
  let w1 := set_db (crashing_db s nodeID eventType payload (w_now w) (w_db w)) (unroute ls s w) in
  (row_in (w_db w1) id (in_state StateRestarting (w_now w) s) ->
   ctl_wp (HandleCrash s) (fun _ w' => Q (Ok tt) w') w1) ->
  ctl_wp (HandleEvent ls nodeID id eventType payload) Q w.
Proof.
  intros Hf Hwf Hs Hroom Hst Hty Hmgr w1 HQ. unfold HandleEvent.
  assert (container_event eventType = Some EventContainerExited) as Hev
    by by destruct Hty as [->| ->].
  pose proof (row_in_wf _ _ _ Hwf Hs Hroom) as Hrow.
  step_by (by apply run_GetSandbox). rewrite set_db_same, Hev, Hst.
  change (NextState _ _) with (StateRestarting, true). cbv beta iota.
  destruct (run_Transition StateRestarting id StateRunning (w_now w) (w_db w) s)
    as [Htr Hrow1]; [done|done|done|destruct Hroom; lia|].
  step_by (apply Htr). step_by (apply run_RecordEvent). apply ctl_wp_bind.
  rewrite <- Hst. apply event_routes_runs; [done|set_solver|].
  rewrite !unroute_db, Hmgr, bool_decide_eq_true_2 by done. cbn [andb].
  apply ctl_wp_bind, ctl_wp_bind.
  unfold w1, crashing_db, crash_event in HQ. rewrite (ri_id _ _ _ Hrow) in HQ.
  eapply ctl_wp_mono; [|apply HQ].
  - intros r w' Hr. by apply ctl_wp_ret, ctl_wp_ret.
  - simpl. by apply row_in_event.
Qed.

(** The world in which a crashed sandbox is being restarted. *)
Definition restarting_world (ls : LifecycleService) (s : Sandbox) (n nodeID : uuid) (eventType : string)
    (payload : option json) (w : World) : World :=
  let delay := baseRestartDelay * 2 ^ sb_FailureCount s in
  let now := w_now w in
  let db1 := put_sandbox (in_state StateStarting now (crashed_row now s))
               (crashing_db s nodeID eventType payload now (w_db w)) in
  let db2 := put_command (command_row (restart_command s (uuid_New (w_rng w)) delay) n now) db1 in
  set_db (put_event (event_row (restart_event s delay) now db2) db2) (next_rng (unroute ls s w)).

Lemma HandleEvent_restarts ls nodeID id eventType payload w s n :
  w_faults w = [] -> db_wf (w_db w) -> sandboxes (w_db w) !! id = Some s -> roomy s ->
  sb_State s = StateRunning -> crash_type eventType -> ls_restartMgr ls = true ->
  sb_NodeID s = Some n -> commands (w_db w) !! uuid_New (w_rng w) = None -> sb_FailureCount s < 3 ->
  exec (HandleEvent ls nodeID id eventType payload) w =
    (Ok tt, restarting_world ls s n nodeID eventType payload w).
Proof.
  intros Hf Hwf Hs Hroom Hst Hty Hmgr Hn Hcmd Hlt.
  destruct (unroute_keeps ls s w) as (_ & Hnow & Hfl & Hrng).
  pose proof (ri_id _ _ _ (row_in_wf _ _ _ Hwf Hs Hroom)) as Hid.
  apply exec_wp_eq, (event_crash_runs _ _ _ _ _ _ s); [done..|]. intros Hrow.
  eapply ctl_wp_mono; [|apply (crash_retries _ s n (uuid_New (w_rng w)))]; try done.
  - intros r w' [_ ->]. f_equal. unfold restarting_world. cbn [w_now set_db w_db]. by rewrite Hnow.
  - simpl. by rewrite Hfl.
  - simpl. by rewrite Hrng.
  - simpl. rewrite Hnow, Hid. done.
Qed.
End Crash.

(** ** Properties *)

Section Properties.
#[local] Existing Instance demo_external | 100.

(** C17: a crash with attempts left restarts the sandbox in one request: the row
    goes running, restarting, starting (version plus two) and its failure count
    goes up by one, the node gets a start command that may wait [5 * 2^n]
    seconds on top of its 60 for the n-th consecutive failure (5, 10 and 20
    seconds), and the proxy is told to drop the route. *)
Theorem HandleEvent_backoff `{External} ls nodeID id eventType payload w s n :
  w_faults w = [] -> db_wf (w_db w) -> sandboxes (w_db w) !! id = Some s -> roomy s ->
  sb_State s = StateRunning -> crash_type eventType -> ls_restartMgr ls = true ->
  sb_NodeID s = Some n -> commands (w_db w) !! uuid_New (w_rng w) = None ->
  sb_FailureCount s < 3 ->
  let delay := baseRestartDelay * 2 ^ sb_FailureCount s in
  let '(r, w') := exec (HandleEvent ls nodeID id eventType payload) w in
  r = Ok tt /\ delay_seconds delay = 5 * 2 ^ sb_FailureCount s /\
  sandboxes (w_db w') =
    <[id := in_state StateStarting (w_now w) (crashed_row (w_now w) s)]> (sandboxes (w_db w)) /\
  commands (w_db w') =
    <[uuid_New (w_rng w) := command_row (restart_command s (uuid_New (w_rng w)) delay) n (w_now w)]>
      (commands (w_db w)) /\
  w_batcher w' = w_batcher (unroute ls s w) /\ w_out w' = w_out (unroute ls s w).
Proof.
  intros Hf Hwf Hs Hroom Hst Hty Hmgr Hn Hcmd Hlt delay.
  rewrite (HandleEvent_restarts ls nodeID id eventType payload w s n) by done.
  pose proof (ri_id _ _ _ (row_in_wf _ _ _ Hwf Hs Hroom)) as Hid.
  assert (delay_seconds delay = 5 * 2 ^ sb_FailureCount s) as Hd.
  { unfold delay. replace (sb_FailureCount s) with (sb_FailureCount s + 1 - 1) by lia.
    apply restart_delay_seconds. destruct Hroom. lia. }
  simpl. rewrite Hid, insert_insert_eq. by split_and!.
Qed.

Lemma HandleEvent_backoff_witness :
  let w := demo_world (demo_db StateRunning 2) in
  let '(r, w') := exec (HandleEvent (mkService true true) 1 7 "container_oom" None) w in
  r = Ok tt /\ (cmd_TimeoutSeconds <$> commands (w_db w') !! 1000%N) = Some 80 /\
  w_out w' = [] /\ b_pending (w_batcher w') !! "my-app" =
    Some (mkChange "remove" zero_route "my-app").
Proof.
  intros w.
  pose proof (@HandleEvent_backoff demo_external (mkService true true) 1 7 "container_oom" None w
    (demo_sandbox StateRunning 2) 1%N) as H.
  destruct (exec _ w) as [r w']. destruct H as (Hr & _ & _ & Hc & Hb & Ho).
  - reflexivity.
  - by apply demo_db_wf, in_states.
  - reflexivity.
  - vm_compute. repeat split; discriminate.
  - reflexivity.
  - by right.
  - reflexivity.
  - reflexivity.
  - reflexivity.
  - reflexivity.
  - rewrite Hc, Hb, Ho. split; [exact Hr|]. split; [reflexivity|]. split; reflexivity.
Defined.

(** C32: With three failures behind it a crashed sandbox is neither restarted
    nor failed: the compare-and-swap to failed expects the state the row had
    before the crash, so it misses and its error is dropped.  The request
    reports success, no command is sent, the row stays restarting, and every
    later container event finds no transition and changes nothing. *)
Theorem HandleEvent_exhausted_stuck `{External} ls nodeID id eventType payload w s :
  w_faults w = [] -> db_wf (w_db w) -> sandboxes (w_db w) !! id = Some s -> roomy s ->
  sb_State s = StateRunning -> crash_type eventType -> ls_restartMgr ls = true ->
  3 <= sb_FailureCount s ->
  let '(r, w') := exec (HandleEvent ls nodeID id eventType payload) w in
  r = Ok tt /\
  sandboxes (w_db w') = <[id := crashed_row (w_now w) s]> (sandboxes (w_db w)) /\
  sb_State (crashed_row (w_now w) s) = StateRestarting /\
  commands (w_db w') = commands (w_db w) /\
  forall nodeID' eventType' payload',
    exec (HandleEvent ls nodeID' id eventType' payload') w' = (Ok tt, w').
Proof.
  intros Hf Hwf Hs Hroom Hst Hty Hmgr Hge. apply exec_wp.
  destruct (unroute_keeps ls s w) as (_ & Hnow & Hfl & _).
  pose proof (ri_id _ _ _ (row_in_wf _ _ _ Hwf Hs Hroom)) as Hid.
  apply (event_crash_runs _ _ _ _ _ _ s); [done..|]. intros Hrow.
  eapply ctl_wp_mono; [|apply (crash_gives_up _ s)]; try done.
  - intros r w' [_ ->]. split; [done|].
    split; [simpl; by rewrite Hnow, Hid, insert_insert_eq|]. split; [done|]. split; [done|].
    intros n' ty' p'. apply exec_eq. unfold HandleEvent.
    eapply wp_bind_db; [simpl; by rewrite Hfl| |].
    { apply (run_GetSandbox _ _ _ (crashed_row (w_now w) s)).
      simpl. by rewrite Hnow, Hid, lookup_insert_eq. }
    cbv beta iota. unfold container_event. repeat case_bool_decide; by apply ctl_wp_ret.
  - simpl. by rewrite Hfl.
  - simpl. rewrite Hnow, Hid. done.
Qed.

Lemma HandleEvent_exhausted_stuck_witness :
  let w := demo_world (demo_db StateRunning 3) in
  let '(r, w') := exec (HandleEvent (mkService true true) 1 7 "container_exited" None) w in
  r = Ok tt /\ (sb_State <$> sandboxes (w_db w') !! 7%N) = Some StateRestarting /\
  commands (w_db w') = ∅.
Proof.
  intros w.
  pose proof (@HandleEvent_exhausted_stuck demo_external (mkService true true) 1 7
    "container_exited" None w (demo_sandbox StateRunning 3)) as H.
  destruct (exec _ w) as [r w']. destruct H as (Hr & Hs & _ & Hc & _).
  - reflexivity.
  - by apply demo_db_wf, in_states.
  - reflexivity.
  - vm_compute. repeat split; discriminate.
  - reflexivity.
  - by left.
  - reflexivity.
  - vm_compute. discriminate.
  - rewrite Hs, Hc. split; [exact Hr|]. split; reflexivity.
Defined.

End Properties.
