(* ===== verification/RequestFacts.v ===== *)
(** [DestroySandbox], [WakeSandbox] and [RestartSandbox]. *)

From S2P Require Import Prelude Netip Json Models Scheduler Store StoreFacts Routing Effects.
From S2P Require Import StoreRuns Restart Lifecycle AckFacts.

(** ** What a row keeps of the request that created it *)

Lemma json_of_float_red q : json_of_float (Qred q) = json_of_float q.
Proof. unfold json_of_float. by rewrite (Qred_complete _ _ (Qred_correct q)). Qed.

(** Decoding a printed float gives a number that prints the same. *)
Lemma dec_float_print q :
  (dec_float 0%Q (json_of_float q)).2 = true /\
  json_of_float (dec_float 0%Q (json_of_float q)).1 = json_of_float q.
Proof.
  destruct (decide (Qden (Qred q) = 1%positive)) as [Hd|Hd].
  - assert (json_of_float q = JInt (Qnum (Qred q))) as E
      by (unfold json_of_float; by rewrite decide_True).
    rewrite E at 1 2. split; [done|]. rewrite <- (json_of_float_red q). simpl. f_equal.
    destruct (Qred q) as [n d]. simpl in *. by subst.
  - assert (json_of_float q = JDec (Qred q)) as E
      by (unfold json_of_float; by rewrite decide_False).
    rewrite E at 1 2. split; [done|]. apply json_of_float_red.
Qed.

(** The resources document survives the column. *)
Lemma resources_roundtrip r :
  in_int32 (MemoryMB r) ->
  (resources_of_json (json_of_resources r)).2 = true /\
  json_of_resources (resources_of_json (json_of_resources r)).1 = json_of_resources r.
Proof.
  intros Hm. destruct (dec_float_print (CPUCores r)) as [Hok Hp].
  assert (dec_int32 0 (JInt (MemoryMB r)) = (MemoryMB r, true)) as Hi.
  { unfold dec_int32, dec_int. destruct Hm as [? ?].
    by replace (_ && _) with true by (symmetry; apply andb_true_intro; split; by apply Z.leb_le). }
  assert (resources_of_json (json_of_resources r) =
    (mkResources (dec_float 0%Q (json_of_float (CPUCores r))).1 (MemoryMB r), true)) as ->.
  { unfold resources_of_json, json_of_resources, members_of, dec_field.
    cbn [foldl]. change (key_matches "cpu_cores" "cpu_cores") with true.
    change (key_matches "cpu_cores" "memory_mb") with false.
    change (key_matches "memory_mb" "cpu_cores") with false.
    change (key_matches "memory_mb" "memory_mb") with true. cbv beta iota.
    rewrite Hi. destruct (dec_float _ _) as [q ok]. simpl in *. by subst. }
  split; [done|]. unfold json_of_resources. simpl. by rewrite Hp.
Qed.

Lemma reencode_env_id env : reencode_env (json_of_env env) = json_of_env env.
Proof. unfold reencode_env. by rewrite dec_env_roundtrip. Qed.

Section Requests.
Context `{External}.

Definition destroy_command (s : Sandbox) (cmdID : uuid) : CreateCommandParams :=
  mkCreateCommandParams cmdID (sb_NodeID s) (Some (sb_ID s)) CmdStopSandbox
    (container_payload s) 60.
Definition destroy_event (s : Sandbox) (st : string) : RecordEventParams :=
  mkRecordEventParams (Some (sb_ID s)) (sb_NodeID s) EventDestroyRequest "control-plane"
    (Some (sb_State s)) (Some st) (container_payload s).

(** The payload of a wake-up, from the columns of the row. *)
Definition wake_payload (s : Sandbox) : json :=
  start_payload (sb_AppName s) (sb_Image s)
    (json_of_resources (resources_of_json (sb_Resources s)).1) (reencode_env (sb_Env s)).

(** [s] is a row [CreateSandbox] made for [req], with columns that can change
    changed at will. *)
Definition made_for (req : CreateRequest) (s : Sandbox) : Prop :=
  sb_AppName s = cr_AppName req /\ sb_Image s = cr_Image req /\
  sb_Resources s = json_of_resources (cr_Resources req) /\
  sb_Env s = json_of_env (cr_Env req).

Lemma wake_payload_made req s :
  made_for req s -> in_int32 (MemoryMB (cr_Resources req)) ->
  wake_payload s = start_payload (cr_AppName req) (cr_Image req)
    (json_of_resources (cr_Resources req)) (json_of_env (cr_Env req)).
Proof.
  intros (Ha & Hi & Hr & He) Hm. unfold wake_payload. rewrite Ha, Hi, Hr, He.
  by rewrite reencode_env_id, (proj2 (resources_roundtrip _ Hm)).
Qed.

Definition wake_command (s : Sandbox) (cmdID : uuid) : CreateCommandParams :=
  mkCreateCommandParams cmdID (sb_NodeID s) (Some (sb_ID s)) CmdStartSandbox
    (wake_payload s) 60.
Definition wake_event (s : Sandbox) : RecordEventParams :=
  mkRecordEventParams (Some (sb_ID s)) (sb_NodeID s) EventScheduled "control-plane-wake"
    (Some StateStopped) (Some StateStarting) (wake_payload s).

(** A request that moves the row, dispatches a command and records an event. *)
Definition dispatched_db (s : Sandbox) (st : string) (c : CreateCommandParams)
    (e : RecordEventParams) (n : uuid) (now : Z) (db : DB) : DB :=
  mkDB (<[sb_ID s := in_state st now s]> (sandboxes db)) (nodes db)
    (<[cc_ID c := command_row c n now]> (commands db))
    (events db ++ [event_row e now db]) (events_seq db + 1).

(** The common tail of the requests: create the command, record the event. *)
Lemma dispatch_runs w db0 id n s st c e ctx (Q : result unit -> World -> Prop) :
  w_faults w = [] -> row_in db0 id s ->
  w_db w = put_sandbox (in_state st (w_now w) s) db0 ->
  sb_NodeID s = Some n -> cc_NodeID c = Some n -> cc_SandboxID c = Some id ->
  check_command_type (cc_CommandType c) = true -> commands db0 !! cc_ID c = None ->
  Q (Ok tt) (set_db (dispatched_db s st c e n (w_now w) db0) w) ->
  ctl_wp (_ <-? db (CreateCommand c) orelse ctx ;; db (RecordEvent e) ;;; Ret (Ok tt)) Q w.
Proof.
  intros Hf Hrow Hdb Hn Hcn Hcs Hty Hfresh HQ.
  step_by (apply (run_CreateCommand _ n); [done|done|by rewrite Hdb| |]).
  - rewrite Hdb. by apply (ri_node _ _ _ Hrow).
  - intros i Hi. rewrite Hcs in Hi. simplify_eq. rewrite Hdb. simpl.
    rewrite (ri_id _ _ _ Hrow), lookup_insert_eq. eauto.
  - step_by (apply run_RecordEvent). apply ctl_wp_ret.
    rewrite Hdb. apply HQ.
Qed.
End Requests.

Lemma DestroySandbox_exec `{External} id w s n :
  w_faults w = [] -> db_wf (w_db w) -> sandboxes (w_db w) !! id = Some s -> roomy s ->
  sb_NodeID s = Some n -> commands (w_db w) !! uuid_New (w_rng w) = None ->
  exec (DestroySandbox id) w =
    match NextState (sb_State s) EventDestroyRequest with
    | (st, true) =>
        (Ok tt, set_db (dispatched_db s st (destroy_command s (uuid_New (w_rng w)))
                          (destroy_event s st) n (w_now w) (w_db w)) (next_rng w))
    | (_, false) => (Err (Annotate ErrInvalidTransition
                               ("cannot destroy sandbox in state " +:+ sb_State s)), w)
    end.
Proof.
  intros Hf Hwf Hs Hroom Hn Hcmd. pose proof (row_in_wf _ _ _ Hwf Hs Hroom) as Hrow.
  destruct (NextState (sb_State s) EventDestroyRequest) as [st []] eqn:Hst;
    apply exec_eq; unfold DestroySandbox; step_by (by apply run_GetSandbox);
    rewrite set_db_same, Hst; [|by apply ctl_wp_ret].
  destruct (edge_closed (sb_State s) st) as [_ Hck]; [by exists EventDestroyRequest|].
  destruct (run_Transition st id (sb_State s) (w_now w) (w_db w) s) as [Htr _];
    [done|done|by apply bool_decide_eq_true_2|destruct Hroom; lia|].
  step_by (apply Htr). step_uuid.
  unfold destroy_command, destroy_event. rewrite (ri_id _ _ _ Hrow).
  eapply (dispatch_runs _ (w_db w) id n s st); done.
Qed.

Lemma WakeSandbox_exec `{External} id w s n :
  w_faults w = [] -> db_wf (w_db w) -> sandboxes (w_db w) !! id = Some s -> roomy s ->
  sb_NodeID s = Some n -> commands (w_db w) !! uuid_New (w_rng w) = None ->
  exec (WakeSandbox id) w =
    if decide (sb_State s = StateStopped)
    then (Ok tt, set_db (dispatched_db s StateStarting (wake_command s (uuid_New (w_rng w)))
                           (wake_event s) n (w_now w) (w_db w)) (next_rng w))
    else (Err (Annotate ErrInvalidState
                 ("sandbox must be stopped to wake, current state: " +:+ sb_State s)), w).
Proof.
  intros Hf Hwf Hs Hroom Hn Hcmd. pose proof (row_in_wf _ _ _ Hwf Hs Hroom) as Hrow.
  destruct (decide (sb_State s = StateStopped)) as [Hst|Hst];
    apply exec_eq; unfold WakeSandbox; step_by (by apply run_GetSandbox);
    rewrite set_db_same.
  - rewrite bool_decide_eq_true_2 by done. cbn [negb]. cbv zeta.
    destruct (run_Transition StateStarting id (sb_State s) (w_now w) (w_db w) s) as [Htr _];
      [done|done|done|destruct Hroom; lia|].
    step_by (apply Htr). step_uuid.
    unfold wake_command, wake_event. rewrite (ri_id _ _ _ Hrow).
    eapply (dispatch_runs _ (w_db w) id n s StateStarting); done.
  - rewrite bool_decide_eq_false_2 by done. by apply ctl_wp_ret.
Qed.

(** A requested restart leaves the row alone: a command and an event. *)
Definition reboot_command (s : Sandbox) (id cmdID : uuid) : CreateCommandParams :=
  mkCreateCommandParams cmdID (sb_NodeID s) (Some id) CmdRestartSandbox (container_payload s) 60.
Definition reboot_event (s : Sandbox) (id : uuid) : RecordEventParams :=
  mkRecordEventParams (Some id) (sb_NodeID s) "restart_requested" "control-plane" (Some (sb_State s))
    (Some (sb_State s)) (container_payload s).

Definition rebooting_world `{External} (s : Sandbox) (id n : uuid) (w : World) : World :=
  let db1 := put_command (command_row (reboot_command s id (uuid_New (w_rng w))) n (w_now w)) (w_db w) in
  set_db (put_event (event_row (reboot_event s id) (w_now w) db1) db1) (next_rng w).

Lemma RestartSandbox_exec `{External} id w s n :
  w_faults w = [] -> db_wf (w_db w) -> sandboxes (w_db w) !! id = Some s -> roomy s ->
  sb_State s = StateRunning -> sb_NodeID s = Some n -> commands (w_db w) !! uuid_New (w_rng w) = None ->
  exec (RestartSandbox id) w = (Ok tt, rebooting_world s id n w).
Proof.
  intros Hf Hwf Hs Hroom Hst Hn Hcmd. pose proof (row_in_wf _ _ _ Hwf Hs Hroom) as Hrow.
  apply exec_eq. unfold RestartSandbox. step_by (by apply run_GetSandbox). rewrite set_db_same, Hst.
  rewrite bool_decide_eq_true_2 by done. cbn [negb]. step_uuid.
  step_by (apply (run_CreateCommand _ n); [done|done|done|by apply (ri_node _ _ _ Hrow)|]).
  { intros i [= <-]. by eexists. }
  step_by (apply run_RecordEvent). apply ctl_wp_ret. unfold rebooting_world, reboot_event. by rewrite Hst.
Qed.

(** ** Properties *)

Section Properties.
#[local] Existing Instance demo_external | 100.

(** [DestroySandbox] of a placed sandbox: in every state that accepts a
    destroy request the row moves to the table's next state with its version
    plus one, the node gets a stop command for the container and the request is
    recorded; in any other state the answer unwraps to [ErrInvalidTransition]
    and nothing changes. *)
Theorem DestroySandbox_spec `{External} id w s n :
  w_faults w = [] -> db_wf (w_db w) -> sandboxes (w_db w) !! id = Some s -> roomy s ->
  sb_NodeID s = Some n -> commands (w_db w) !! uuid_New (w_rng w) = None ->
  exec (DestroySandbox id) w =
    match NextState (sb_State s) EventDestroyRequest with
    | (st, true) =>
        (Ok tt, set_db (dispatched_db s st (destroy_command s (uuid_New (w_rng w)))
                          (destroy_event s st) n (w_now w) (w_db w)) (next_rng w))
    | (_, false) => (Err (Annotate ErrInvalidTransition
                               ("cannot destroy sandbox in state " +:+ sb_State s)), w)
    end.
Proof. apply DestroySandbox_exec. Qed.

Lemma DestroySandbox_spec_witness :
  let w := demo_world (demo_db StateRunning 0) in
  let '(r, w') := exec (DestroySandbox 7) w in
  r = Ok tt /\ (sb_State <$> sandboxes (w_db w') !! 7%N) = Some StateDestroying /\
  (cmd_CommandType <$> commands (w_db w') !! 1000%N) = Some CmdStopSandbox.
Proof.
  intros w. rewrite (@DestroySandbox_spec demo_external 7 w (demo_sandbox StateRunning 0) 1);
    [cbv beta iota; split; [reflexivity|split; reflexivity]|reflexivity|..|reflexivity|reflexivity].
  - by apply demo_db_wf, in_states.
  - reflexivity.
  - vm_compute. repeat split; discriminate.
Defined.

(** [DestroySandbox] of a sandbox that was never placed moves the row (to
    destroyed, from pending) and then fails, because the stop command it
    creates has no node: the caller gets an error for a request that has taken
    effect, and no event is recorded. *)
Theorem DestroySandbox_unplaced `{External} id w s st :
  w_faults w = [] -> db_wf (w_db w) -> sandboxes (w_db w) !! id = Some s -> roomy s ->
  sb_NodeID s = None -> NextState (sb_State s) EventDestroyRequest = (st, true) ->
  exec (DestroySandbox id) w =
    (Err (Wrap "create stop command" (PgError NotNullViolation "node_id")),
     set_db (put_sandbox (in_state st (w_now w) s) (w_db w)) (next_rng w)).
Proof.
  intros Hf Hwf Hs Hroom Hn Hst. apply exec_eq. unfold DestroySandbox.
  pose proof (row_in_wf _ _ _ Hwf Hs Hroom) as Hrow.
  step_by (by apply run_GetSandbox). rewrite set_db_same, Hst.
  destruct (edge_closed (sb_State s) st) as [_ Hck]; [by exists EventDestroyRequest|].
  destruct (run_Transition st id (sb_State s) (w_now w) (w_db w) s) as [Htr _];
    [done|done|by apply bool_decide_eq_true_2|destruct Hroom; lia|].
  step_by (apply Htr). step_uuid. rewrite Hn.
  step_by (reflexivity). by apply ctl_wp_ret.
Qed.

(** The row a failed placement leaves. *)
Definition demo_unplaced : DB :=
  mkDB {[ 7%N := upd_sandbox (demo_sandbox StatePending 0) None None None StatePending 0 0 0 0
                   json_empty 0 ]} {[ 1%N := demo_node ]} ∅ [] 1.

Lemma DestroySandbox_unplaced_witness :
  let '(r, w') := exec (DestroySandbox 7) (demo_world demo_unplaced) in
  is_ok r = false /\ (sb_State <$> sandboxes (w_db w') !! 7%N) = Some StateDestroyed.
Proof.
  rewrite (@DestroySandbox_unplaced demo_external 7 (demo_world demo_unplaced)
    (upd_sandbox (demo_sandbox StatePending 0) None None None StatePending 0 0 0 0 json_empty 0)
    StateDestroyed); [cbv beta iota; split; reflexivity|reflexivity|..|reflexivity|reflexivity].
  - split; simpl.
    + intros id s [<- <-]%lookup_singleton_Some. split; [done|by apply in_states|done].
    + by intros i j s t [<- <-]%lookup_singleton_Some [<- <-]%lookup_singleton_Some.
    + intros id n [<- <-]%lookup_singleton_Some. by vm_compute.
    + intros id c Hc. by rewrite lookup_empty in Hc.
    + constructor.
  - reflexivity.
  - vm_compute. repeat split; discriminate.
Defined.

(** C39: [WakeSandbox] starts a stopped sandbox on its old node with the very
    payload [CreateSandbox] sent: for a row made from a request with an int32
    memory size, the resources and the environment read back from the columns
    print as they did; the row is starting, with its version plus one.  In any
    other state the answer unwraps to [ErrInvalidState] and nothing changes. *)
Theorem WakeSandbox_spec `{External} id w s n req :
  w_faults w = [] -> db_wf (w_db w) -> sandboxes (w_db w) !! id = Some s -> roomy s ->
  sb_NodeID s = Some n -> commands (w_db w) !! uuid_New (w_rng w) = None ->
  made_for req s -> in_int32 (MemoryMB (cr_Resources req)) ->
  cc_Payload (wake_command s (uuid_New (w_rng w))) =
    start_payload (cr_AppName req) (cr_Image req) (json_of_resources (cr_Resources req))
      (json_of_env (cr_Env req)) /\
  exec (WakeSandbox id) w =
    if decide (sb_State s = StateStopped)
    then (Ok tt, set_db (dispatched_db s StateStarting (wake_command s (uuid_New (w_rng w)))
                           (wake_event s) n (w_now w) (w_db w)) (next_rng w))
    else (Err (Annotate ErrInvalidState
                 ("sandbox must be stopped to wake, current state: " +:+ sb_State s)), w).
Proof.
  intros Hf Hwf Hs Hroom Hn Hcmd Hreq Hm. split; [by apply wake_payload_made|by apply WakeSandbox_exec].
Qed.

Lemma WakeSandbox_spec_witness :
  let w := demo_world (demo_db StateStopped 1) in
  let '(r, w') := exec (WakeSandbox 7) w in
  r = Ok tt /\ (sb_State <$> sandboxes (w_db w') !! 7%N) = Some StateStarting.
Proof.
  intros w.
  pose proof (@WakeSandbox_spec demo_external 7 w (demo_sandbox StateStopped 1) 1
    (mkCreateRequest "my-app" "user" "img" (mkResources (1 # 2) 512) (Some ∅) 0 None)) as H.
  destruct H as [_ H]; [reflexivity|..|rewrite H; cbv beta iota; split; reflexivity].
  - by apply demo_db_wf, in_states.
  - reflexivity.
  - vm_compute. repeat split; discriminate.
  - reflexivity.
  - reflexivity.
  - repeat split; reflexivity.
  - vm_compute. split; discriminate.
Defined.

End Properties.
