(* ===== verification/Reschedule.v ===== *)
(** Node failover: [Rescheduler] of control/internal/lifecycle/reschedule.go and
    the heartbeat monitor of control/cmd/forge-control/main.go that calls it. *)

From S2P Require Import Prelude Netip Json Models Scheduler Store StoreFacts Routing Effects.
From S2P Require Import StoreRuns Sweep Restart Lifecycle AckFacts CreateFacts.

(** ** Model *)

Record RescheduleResult := mkRescheduleResult {
  rr_Count : Z;
  rr_Failed : Z;
  rr_Errors : list error;
}.

(** [memory_mb] of the row's resources, 512 if missing, malformed or not
    positive. *)
Definition required_mb (sandbox : Sandbox) : Z :=
  let '(res, ok) := resources_of_json (sb_Resources sandbox) in
  if ok && (0 <? MemoryMB res) then MemoryMB res else 512.

Record MonitorConfig := mkMonitorConfig {
  HeartbeatIntervalSeconds : Z;
  HeartbeatMissThreshold : Z;
}.

Section Model.
Context `{External}.

Definition failover_event (sandbox : Sandbox) (node : option uuid) (event prev next : string)
    (payload : json) : RecordEventParams :=
  mkRecordEventParams (Some (sb_ID sandbox)) node event "rescheduler" (Some prev) (Some next)
    payload.

(** The command payload: [res] is printed as far as it was decoded, the
    environment verbatim. *)
Definition failover_payload (sandbox : Sandbox) : json :=
  start_payload (sb_AppName sandbox) (sb_Image sandbox)
    (json_of_resources (resources_of_json (sb_Resources sandbox)).1) (sb_Env sandbox).

Definition failover_command (sandbox : Sandbox) (cmdID node : uuid) : CreateCommandParams :=
  mkCreateCommandParams cmdID (Some node) (Some (sb_ID sandbox)) CmdStartSandbox
    (failover_payload sandbox) 60.

(** Step 6: no capacity. *)
Definition reschedule_failed (sandbox : Sandbox) (e : error) : ctl (result unit) :=
  db (TransitionSandboxState StateFailed (Some (sb_ID sandbox)) StatePending) ;;;
  db (RecordEvent (failover_event sandbox (sb_NodeID sandbox) "reschedule_failed"
        StatePending StateFailed json_empty)) ;;;
  Ret (Err (Wrap "schedule sandbox" e)).

(** Steps 7 to 9. *)
Definition reschedule_place (sandbox : Sandbox) (node : uuid) : ctl (result unit) :=
  _ <-? db (AssignSandboxToNode (Some node) None None (Some (sb_ID sandbox)))
    orelse "assign sandbox to node" ;;
  cmdID <- new_uuid ;;
  _ <-? db (CreateCommand (failover_command sandbox cmdID node)) orelse "create start command" ;;
  db (RecordEvent (failover_event sandbox (Some node) EventScheduled StatePending StateStarting
        (failover_payload sandbox))) ;;;
  Ret (Ok tt).

(** [notifier] says whether the rescheduler was given a route notifier. *)
Definition rescheduleSandbox (notify : bool) (sandbox : Sandbox) : ctl (result unit) :=
  _ <-? db (TransitionSandboxState StatePending (Some (sb_ID sandbox)) StateRunning)
    orelse "transition running->pending" ;;
  db (RecordEvent (failover_event sandbox (sb_NodeID sandbox) EventNodeFailed StateRunning
        StatePending json_empty)) ;;;
  (if notify then notifyRouteRemove (sb_AppName sandbox) else Ret tt) ;;;
  db (ResetSandboxFailureCount (Some (sb_ID sandbox))) ;;;
  ns <-? db ListHealthyNodes orelse "list healthy nodes" ;;
  match Schedule (to_candidate <$> ns) (required_mb sandbox) with
  | Err e => reschedule_failed sandbox e
  | Ok node => reschedule_place sandbox node
  end.

Definition sandbox_error (sandbox : Sandbox) (e : error) : error :=
  Wrap ("sandbox " +:+ uuid_String (sb_ID sandbox) +:+ " (" +:+ sb_AppName sandbox +:+ ")") e.

Definition count_result (sandbox : Sandbox) (acc : RescheduleResult) (r : result unit)
  : RescheduleResult :=
  match r with
  | Ok _ => mkRescheduleResult (rr_Count acc + 1) (rr_Failed acc) (rr_Errors acc)
  | Err e => mkRescheduleResult (rr_Count acc) (rr_Failed acc + 1)
               (rr_Errors acc ++ [sandbox_error sandbox e])
  end.

Definition reschedule_next (notify : bool) (acc : RescheduleResult) (sandbox : Sandbox)
  : ctl RescheduleResult :=
  r <- rescheduleSandbox notify sandbox ;; Ret (count_result sandbox acc r).

Definition RescheduleNode (notify : bool) (failedNodeID : uuid) : ctl (result RescheduleResult) :=
  l <-? db (ListRunningSandboxesByNode (Some failedNodeID))
    orelse "list running sandboxes for node" ;;
  res <- range (reschedule_next notify) l (mkRescheduleResult 0 0 []) ;;
  Ret (Ok res).

(** ** The heartbeat monitor *)

Definition silent (cfg : MonitorConfig) (now : Z) (n : Node) : bool :=
  String.eqb (nd_Status n) NodeHealthy &&
  (HeartbeatIntervalSeconds cfg * HeartbeatMissThreshold cfg * second <? now - nd_LastSeenAt n).

Definition monitor_node (cfg : MonitorConfig) (now : Z) (_ : unit) (n : Node) : ctl unit :=
  if silent cfg now n
  then r <- db (UpdateNodeStatus (Some (nd_ID n)) NodeUnhealthy) ;;
       match r with
       | Err _ => Ret tt
       | Ok _ => RescheduleNode true (nd_ID n) ;;; Ret tt
       end
  else Ret tt.

(** One tick of [monitorHeartbeats]. *)
Definition monitor_tick (cfg : MonitorConfig) : ctl unit :=
  ns <- db ListNodes ;;
  match ns with
  | Err _ => Ret tt
  | Ok ns => now <- time_Now ;; range (monitor_node cfg now) ns tt
  end.

(** ** State moves *)

(** The edges of the table, and failing a pending sandbox, which is not one. *)
Definition failover_move (a b : string) : Prop :=
  edge a b \/ (a = StatePending /\ b = StateFailed).

Lemma does_failover st i from :
  failover_move from st -> does failover_move (TransitionSandboxState st i from).
Proof.
  intros He. eapply does_mono; [|apply does_TransitionSandboxState]. by intros a b [-> ->].
Qed.

Lemma issues_rescheduleSandbox n s : issues (within failover_move) (rescheduleSandbox n s).
Proof.
  unfold rescheduleSandbox, reschedule_failed, reschedule_place, notifyRouteRemove. issue_tac.
  - apply issues_db, does_failover. left. by exists EventNodeFailed.
  - apply issues_db. eapply does_mono; [|apply does_AssignSandboxToNode].
    intros x y [-> ->]. left. by exists EventScheduled.
  - apply issues_db, does_failover. by right.
Qed.
#[local] Hint Resolve issues_rescheduleSandbox : forge.

Lemma issues_RescheduleNode n i : issues (within failover_move) (RescheduleNode n i).
Proof.
  unfold RescheduleNode. issue_tac. apply issues_range. intros b x _.
  unfold reschedule_next. issue_tac.
Qed.
#[local] Hint Resolve issues_RescheduleNode : forge.

Lemma issues_monitor_tick cfg : issues (within failover_move) (monitor_tick cfg).
Proof.
  unfold monitor_tick. issue_tac. apply issues_range. intros b x _.
  unfold monitor_node. issue_tac.
Qed.
End Model.

(** ** What a failover does *)

Section Facts.
Context `{External}.

(** Command ids still to be generated are not in the table. *)
Definition fresh_from (rng : nat) (m : gmap uuid Command) : Prop :=
  forall k, (rng <= k)%nat -> m !! uuid_New k = None.

Lemma fresh_from_insert rng m c :
  Inj (=) (=) uuid_New -> fresh_from rng m ->
  fresh_from (S rng) (<[uuid_New rng := c]> m).
Proof.
  intros Hinj Hf k Hk. rewrite lookup_insert_ne; [apply Hf; lia|].
  intros Heq%Hinj. lia.
Qed.

Definition reset_pending (now : Z) (s : Sandbox) : Sandbox :=
  with_failures 0 now (in_state StatePending now s).

(** The row a failed node's sandbox ends up as, given the nodes in [db]. *)
Definition moved_row (db : DB) (now : Z) (s : Sandbox) : Sandbox :=
  match chosen_node db (required_mb s) with
  | Ok node => assigned_to node now (reset_pending now s)
  | Err _ => in_state StateFailed now (reset_pending now s)
  end.

Definition move_result (db : DB) (s : Sandbox) : result unit :=
  match chosen_node db (required_mb s) with
  | Ok _ => Ok tt
  | Err e => Err (Wrap "schedule sandbox" e)
  end.

(** The commands after it, when the next id is [uuid_New rng]. *)
Definition moved_commands (db : DB) (now : Z) (rng : nat) (s : Sandbox) (m : gmap uuid Command)
  : gmap uuid Command :=
  match chosen_node db (required_mb s) with
  | Ok node => <[uuid_New rng := command_row (failover_command s (uuid_New rng) node) node now]> m
  | Err _ => m
  end.

(** What a pass relies on and keeps. *)
Record pass_ok (db : DB) (now : Z) (w : World) : Prop := mk_pass_ok {
  po_faults : w_faults w = [];
  po_now : w_now w = now;
  po_nodes : nodes (w_db w) = nodes db;
  po_fresh : fresh_from (w_rng w) (commands (w_db w));
}.

Definition unrouted (notify : bool) (app : string) (w : World) : World :=
  if notify then (call_notify (OnSandboxStopped app) w).2 else w.

Lemma unrouted_keeps b app w :
  w_db (unrouted b app w) = w_db w /\ w_now (unrouted b app w) = w_now w /\
  w_faults (unrouted b app w) = w_faults w /\ w_rng (unrouted b app w) = w_rng w.
Proof.
  unfold unrouted. destruct b; [|done].
  by destruct (call_notify_keeps (OnSandboxStopped app) w) as (?&?&?&?&?).
Qed.

Lemma unroute_runs b app w {A} (k : unit -> ctl A) Q :
  ctl_wp (k tt) Q (unrouted b app w) ->
  ctl_wp (bind (if b then notifyRouteRemove app else Ret tt) k) Q w.
Proof.
  intros HQ. apply ctl_wp_bind. unfold unrouted in HQ. destruct b; [|by apply ctl_wp_ret].
  unfold notifyRouteRemove. by apply wp_bind_notify, ctl_wp_ret.
Qed.

Lemma reschedule_failed_runs db0 now w s t e :
  pass_ok db0 now w -> row_in (w_db w) (sb_ID s) t -> sb_State t = StatePending ->
  sb_StateVersion t + 1 <= max_int32 ->
  ctl_wp (reschedule_failed s e) (fun r w' => r = Err (Wrap "schedule sandbox" e) /\
    pass_ok db0 now w' /\ nodes (w_db w') = nodes (w_db w) /\
    sandboxes (w_db w') = <[sb_ID s := in_state StateFailed now t]> (sandboxes (w_db w)) /\
    commands (w_db w') = commands (w_db w)) w.
Proof.
  intros [Hf Hnow Hn Hfr] Hrow Hst Hv. unfold reschedule_failed.
  destruct (run_Transition StateFailed (sb_ID s) StatePending (w_now w) _ _ Hrow) as [Htr _];
    [done|done|done|].
  step_by (apply Htr). step_by (apply run_RecordEvent). apply ctl_wp_ret.
  split; [done|]. split; [by split|]. split; [done|]. split; [|done].
  simpl. rewrite Hnow. by rewrite (ri_id _ _ _ Hrow).
Qed.

Lemma reschedule_place_runs db0 now w s t node :
  Inj (=) (=) uuid_New -> pass_ok db0 now w -> row_in (w_db w) (sb_ID s) t ->
  sb_State t = StatePending -> sb_StateVersion t + 1 <= max_int32 ->
  is_Some (nodes db0 !! node) ->
  ctl_wp (reschedule_place s node) (fun r w' => r = Ok tt /\
    pass_ok db0 now w' /\ nodes (w_db w') = nodes (w_db w) /\
    sandboxes (w_db w') = <[sb_ID s := assigned_to node now t]> (sandboxes (w_db w)) /\
    commands (w_db w') =
      <[uuid_New (w_rng w) := command_row (failover_command s (uuid_New (w_rng w)) node) node now]>
        (commands (w_db w))) w.
Proof.
  intros Hinj [Hf Hnow Hn Hfr] Hrow Hst Hv Hnode. unfold reschedule_place.
  destruct (run_Assign node (sb_ID s) (w_now w) _ _ Hrow) as [Has _];
    [done|by rewrite Hn|done|].
  step_by (apply Has). step_uuid.
  step_by (apply (run_CreateCommand _ node); simpl; [done|done|by apply Hfr|by rewrite Hn|]).
  { intros i [= <-]. rewrite (ri_id _ _ _ Hrow), lookup_insert_eq. eauto. }
  step_by (apply run_RecordEvent). apply ctl_wp_ret. split; [done|].
  split; [|split; [done|split]].
  - split; simpl; try done. by apply fresh_from_insert.
  - simpl. rewrite Hnow. by rewrite (ri_id _ _ _ Hrow).
  - simpl. by rewrite Hnow.
Qed.

Lemma reschedule_runs b db0 now w s :
  Inj (=) (=) uuid_New -> db_wf db0 -> memory_ok db0 = true -> pass_ok db0 now w ->
  row_in (w_db w) (sb_ID s) s -> sb_State s = StateRunning -> roomy s ->
  ctl_wp (rescheduleSandbox b s) (fun r w' => r = move_result db0 s /\
    pass_ok db0 now w' /\ nodes (w_db w') = nodes (w_db w) /\
    sandboxes (w_db w') = <[sb_ID s := moved_row db0 now s]> (sandboxes (w_db w)) /\
    commands (w_db w') = moved_commands db0 now (w_rng w) s (commands (w_db w))) w.
Proof.
  intros Hinj Hwf Hmem Hpass Hrow Hst [Hv Hfc]. destruct Hpass as [Hf Hnow Hn Hfr].
  unfold rescheduleSandbox.
  destruct (run_Transition StatePending (sb_ID s) StateRunning (w_now w) _ _ Hrow)
    as [Htr Hrow1]; [done|done|lia|].
  step_by (apply Htr). step_by (apply run_RecordEvent).
  apply unroute_runs. set (w1 := set_db _ _). set (w2 := unrouted _ _ w1).
  destruct (unrouted_keeps b (sb_AppName s) w1) as (Hdb2 & Hnow2 & Hf2 & Hrng2).
  fold w2 in Hdb2, Hnow2, Hf2, Hrng2.
  assert (row_in (w_db w2) (sb_ID s) (in_state StatePending (w_now w) s)) as Hrow2.
  { rewrite Hdb2. by apply row_in_event. }
  destruct (run_Reset (sb_ID s) (w_now w) _ _ Hrow2) as [Hre Hrow3].
  eapply wp_bind_db; [by rewrite Hf2|rewrite Hnow2; apply Hre|].
  eapply wp_bind_db; [simpl; by rewrite Hf2|apply (run_ListHealthyNodes db0); [done|]|].
  { simpl. by rewrite Hdb2. }
  cbv beta iota. set (w3 := set_db _ _).
  change (Schedule _ _) with (chosen_node db0 (required_mb s)).
  assert (pass_ok db0 now w3) as Hpass3.
  { split; simpl; [by rewrite Hf2|by rewrite Hnow2|by rewrite Hdb2|].
    by rewrite Hrng2, Hdb2. }
  assert (row_in (w_db w3) (sb_ID s) (reset_pending now s)) as Hrow4.
  { unfold reset_pending. rewrite <- Hnow. apply Hrow3. }
  assert (forall x, <[sb_ID s := x]> (sandboxes (w_db w3)) = <[sb_ID s := x]> (sandboxes (w_db w)))
    as Hsb by (intros x; simpl; rewrite Hdb2; simpl; by rewrite !insert_insert_eq).
  assert (nodes (w_db w3) = nodes (w_db w)) as Hn3 by (simpl; by rewrite Hdb2).
  assert (commands (w_db w3) = commands (w_db w)) as Hc3 by (simpl; by rewrite Hdb2).
  assert (w_rng w3 = w_rng w) as Hr3 by (simpl; by rewrite Hrng2).
  unfold moved_row, moved_commands, move_result. rewrite <- Hn3, <- Hc3, <- Hr3.
  destruct (chosen_node db0 (required_mb s)) as [node|e] eqn:Hch.
  - rewrite <- Hsb. eapply (reschedule_place_runs db0 now w3); [done..|simpl; lia|].
    destruct (chosen_node_there _ _ _ Hwf Hch) as (nd & Hnd & _). eauto.
  - rewrite <- Hsb. eapply (reschedule_failed_runs db0 now w3); [done..|simpl; lia].
Qed.
End Facts.

(** ** A whole node *)

(** The sandboxes a failed node leaves behind. *)
Definition running_on (node : uuid) (s : Sandbox) : Prop :=
  is_Some (Some node) /\ sb_NodeID s = Some node /\ sb_State s = StateRunning.
#[export] Instance running_on_dec node s : Decision (running_on node s).
Proof. unfold running_on. apply _. Defined.

Definition stranded (node : uuid) (db : DB) : list Sandbox :=
  order_by sb_CreatedAt (filter (running_on node) (sandbox_rows db)).

Section NodeFacts.
Context `{External}.

Definition tally (db : DB) (acc : RescheduleResult) (s : Sandbox) : RescheduleResult :=
  count_result s acc (move_result db s).

(** A sandbox that finds a node. *)
Definition placeable (db : DB) (s : Sandbox) : Prop := is_ok (move_result db s) = true.
#[export] Instance placeable_dec db s : Decision (placeable db s).
Proof. unfold placeable. apply _. Defined.

Lemma tally_step db acc s :
  rr_Count (tally db acc s) = rr_Count acc + (if decide (placeable db s) then 1 else 0) /\
  rr_Count (tally db acc s) + rr_Failed (tally db acc s) = rr_Count acc + rr_Failed acc + 1.
Proof.
  case_decide as Hp; unfold tally, placeable, count_result in *;
    destruct (move_result db s); simpl in *; try done; lia.
Qed.

Lemma tally_counts db l acc :
  rr_Count (foldl (tally db) acc l) = rr_Count acc + Z.of_nat (length (filter (placeable db) l)) /\
  rr_Count (foldl (tally db) acc l) + rr_Failed (foldl (tally db) acc l) =
    rr_Count acc + rr_Failed acc + Z.of_nat (length l).
Proof.
  revert acc. induction l as [|s l IH]; intros acc; [simpl; lia|].
  rewrite filter_cons. cbn [foldl]. destruct (IH (tally db acc s)) as [H1 H2].
  destruct (tally_step db acc s) as [H3 H4]. case_decide; cbn [length]; lia.
Qed.

Lemma moved_row_state db now s :
  sb_State (moved_row db now s) = StateStarting \/ sb_State (moved_row db now s) = StateFailed.
Proof. unfold moved_row. destruct (chosen_node _ _); auto. Qed.

Lemma RescheduleNode_runs b node w :
  Inj (=) (=) uuid_New -> w_faults w = [] -> db_wf (w_db w) ->
  fresh_from (w_rng w) (commands (w_db w)) ->
  memory_ok (w_db w) = true -> (forall s, s ∈ stranded node (w_db w) -> roomy s) ->
  ctl_wp (RescheduleNode b node) (fun r w' =>
    r = Ok (foldl (tally (w_db w)) (mkRescheduleResult 0 0 []) (stranded node (w_db w))) /\
    nodes (w_db w') = nodes (w_db w) /\
    sandboxes (w_db w') =
      sweep (moved_row (w_db w) (w_now w)) (stranded node (w_db w)) (sandboxes (w_db w))) w.
Proof.
  intros Hinj Hf Hwf Hfr Hmem Hroom. unfold RescheduleNode.
  step_with (eq_refl (ListRunningSandboxesByNode (Some node) (w_now w) (w_db w))).
  change (order_by _ _) with (stranded node (w_db w)). rewrite set_db_same.
  apply ctl_wp_bind. eapply ctl_wp_mono;
    [|apply (pass_runs (reschedule_next b) (moved_row (w_db w) (w_now w)) (tally (w_db w))
        (pass_ok (w_db w) (w_now w)))].
  - intros r w' (-> & _ & Hn & Hs). by apply ctl_wp_ret.
  - intros t acc s Hs Hpass Hrow. unfold reschedule_next. apply ctl_wp_bind.
    pose proof (Hroom _ Hs) as Hrs.
    apply elem_of_selection in Hs as [(_ & _ & Hst) _]; [|done].
    eapply ctl_wp_mono; [|by apply (reschedule_runs b (w_db w) (w_now w))].
    intros r w' (-> & ? & ? & ? & _). by apply ctl_wp_ret.
  - by split.
  - by apply NoDup_selection.
  - intros s Hs. pose proof (Hroom _ Hs). apply elem_of_selection in Hs as [_ Hs]; [|done].
    by apply row_in_wf.
Qed.
End NodeFacts.

(** ** Properties *)

(** Two sandboxes of 600 MB on node 1, which is failing, and a healthy node 2
    with room for one of them. *)
Definition herd_sandbox (id : uuid) (app : string) : Sandbox :=
  mkSandbox id app "user" (Some 1%N) (Some "abc") (Some 40001) "img" StateRunning 1
    (JObj [("cpu_cores", JDec (1 # 2)); ("memory_mb", JInt 600)]) json_empty 1800
    0 0 0 0 json_empty 0.
Definition herd_db : DB :=
  mkDB {[ 7%N := herd_sandbox 7 "a"; 8%N := herd_sandbox 8 "b" ]}
    {[ 1%N := mkNode 1 "n1" (Addr4 [100; 64; 1; 1]) 8090 4096 40 1200 2 NodeUnhealthy "v" 0 0 json_empty "t";
       2%N := mkNode 2 "n2" (Addr4 [100; 64; 1; 2]) 8090 1024 40 0 0 NodeHealthy "v" 0 0 json_empty "t" ]}
    ∅ [] 1.

Lemma herd_db_cases id s :
  sandboxes herd_db !! id = Some s ->
  (id = 7%N /\ s = herd_sandbox 7 "a") \/ (id = 8%N /\ s = herd_sandbox 8 "b").
Proof.
  simpl. intros [[<- <-]|[_ [<- <-]%lookup_singleton_Some]]%lookup_insert_Some; auto.
Qed.

Lemma herd_db_wf : db_wf herd_db.
Proof.
  split.
  - intros id s [[-> ->]|[-> ->]]%herd_db_cases;
      (split; [done|by apply in_states|]; intros n [= <-]; by eexists).
  - intros i j s t [[-> ->]|[-> ->]]%herd_db_cases [[-> ->]|[-> ->]]%herd_db_cases Heq; done.
  - simpl. intros id n [[<- <-]|[_ [<- <-]%lookup_singleton_Some]]%lookup_insert_Some; by vm_compute.
  - intros id c Hc. simpl in Hc. by rewrite lookup_empty in Hc.
  - constructor.
Qed.

Lemma demo_uuid_inj : Inj (=) (=) (@uuid_New demo_external).
Proof. intros a b Hab. simpl in Hab. lia. Qed.

Section Properties.
#[local] Existing Instance demo_external | 100.

(** C10: failover of a node: [RescheduleNode] treats every running sandbox of
    the node and no other row.  When the free memory of the healthy nodes fits
    an int4, each ends up starting, with a zero failure count and without its
    old container, on the node the scheduler picks for it, or failed if none
    fits; nothing is left running on the failed node, and
    the counts of the answer add up to the number of sandboxes treated. *)
Theorem RescheduleNode_spec `{External} b node w :
  Inj (=) (=) uuid_New -> w_faults w = [] -> db_wf (w_db w) ->
  fresh_from (w_rng w) (commands (w_db w)) ->
  memory_ok (w_db w) = true -> (forall s, s ∈ stranded node (w_db w) -> roomy s) ->
  let '(r, w') := exec (RescheduleNode b node) w in
  (exists res, r = Ok res /\
     rr_Count res = Z.of_nat (length (filter (placeable (w_db w)) (stranded node (w_db w)))) /\
     rr_Count res + rr_Failed res = Z.of_nat (length (stranded node (w_db w)))) /\
  nodes (w_db w') = nodes (w_db w) /\
  (forall id, sandboxes (w_db w') !! id =
     (fun s => if decide (running_on node s) then moved_row (w_db w) (w_now w) s else s)
       <$> sandboxes (w_db w) !! id) /\
  (forall id s, sandboxes (w_db w') !! id = Some s -> ~ running_on node s).
Proof.
  intros Hinj Hf Hwf Hfr Hmem Hroom. apply exec_wp.
  eapply ctl_wp_mono; [|by apply RescheduleNode_runs]. intros r w' (-> & Hn & Hs).
  assert (forall id, sandboxes (w_db w') !! id =
     (fun s => if decide (running_on node s) then moved_row (w_db w) (w_now w) s else s)
       <$> sandboxes (w_db w) !! id) as Hrows.
  { intros id. rewrite Hs. by apply sweep_selection. }
  split_and!; [|done|done|].
  - eexists. split; [done|].
    destruct (tally_counts (w_db w) (stranded node (w_db w)) (mkRescheduleResult 0 0 [])) as [? ?].
    simpl in *. lia.
  - intros id s Hid Hro. rewrite Hrows in Hid.
    destruct (sandboxes (w_db w) !! id) as [t|]; [|done]. simpl in Hid.
    case_decide as Hd; simplify_eq; [|done]. destruct Hro as (_ & _ & Hst).
    destruct (moved_row_state (w_db w) (w_now w) t) as [E|E]; rewrite E in Hst; done.
Qed.

Lemma RescheduleNode_spec_witness :
  let '(r, w') := exec (RescheduleNode true 1) (demo_world herd_db) in
  (exists res, r = Ok res /\ rr_Count res = 2) /\
  forall id s, sandboxes (w_db w') !! id = Some s -> ~ running_on 1 s.
Proof.
  pose proof (@RescheduleNode_spec demo_external true 1 (demo_world herd_db) demo_uuid_inj eq_refl
    herd_db_wf) as H.
  destruct (exec _ _) as [r w'].
  destruct H as ((res & Hr & Hc & _) & _ & _ & Hno).
  - intros k _. reflexivity.
  - reflexivity.
  - intros s Hs. apply elem_of_selection in Hs as [_ Hs]; [|apply herd_db_wf].
    apply herd_db_cases in Hs as [[_ ->]|[_ ->]]; vm_compute; repeat split; discriminate.
  - split; [|exact Hno]. exists res. split; [exact Hr|]. rewrite Hc. reflexivity.
Defined.

(** A pass does not spread the load: the nodes are read again for each
    sandbox, but nothing a failover writes counts against a node's memory, so
    all sandboxes of the same size go to one node, whatever it has left. *)
Theorem RescheduleNode_herd `{External} b node w i j s t target :
  Inj (=) (=) uuid_New -> w_faults w = [] -> db_wf (w_db w) ->
  fresh_from (w_rng w) (commands (w_db w)) ->
  memory_ok (w_db w) = true -> (forall s, s ∈ stranded node (w_db w) -> roomy s) ->
  sandboxes (w_db w) !! i = Some s -> running_on node s ->
  sandboxes (w_db w) !! j = Some t -> running_on node t ->
  required_mb s = required_mb t -> chosen_node (w_db w) (required_mb s) = Ok target ->
  let w' := (exec (RescheduleNode b node) w).2 in
  (sandboxes (w_db w') !! i ≫= sb_NodeID) = Some target /\
  (sandboxes (w_db w') !! j ≫= sb_NodeID) = Some target.
Proof.
  intros Hinj Hf Hwf Hfr Hmem Hroom Hi Hs Hj Ht Hreq Hch w'.
  pose proof (wp_exec _ _ _ (RescheduleNode_runs b node w Hinj Hf Hwf Hfr Hmem Hroom)) as (_ & _ & Hrows).
  fold w' in Hrows. rewrite Hrows. unfold stranded. rewrite !sweep_selection by done.
  rewrite Hi, Hj. simpl. rewrite !decide_True by done.
  unfold moved_row. rewrite <- Hreq, Hch. done.
Qed.

(** Both 600 MB sandboxes land on the node with 1024 MB. *)
Lemma RescheduleNode_herd_witness :
  let w' := (exec (RescheduleNode true 1) (demo_world herd_db)).2 in
  (sandboxes (w_db w') !! 7%N ≫= sb_NodeID) = Some 2%N /\
  (sandboxes (w_db w') !! 8%N ≫= sb_NodeID) = Some 2%N /\
  nd_CapacityMb <$> (nodes herd_db !! 2%N) = Some 1024 /\
  required_mb (herd_sandbox 7 "a") + required_mb (herd_sandbox 8 "b") = 1200.
Proof.
  intros w'.
  destruct (@RescheduleNode_herd demo_external true 1 (demo_world herd_db) 7 8
    (herd_sandbox 7 "a") (herd_sandbox 8 "b") 2%N demo_uuid_inj eq_refl herd_db_wf) as [H1 H2];
    try reflexivity.
  - intros k _. reflexivity.
  - intros s Hs. apply elem_of_selection in Hs as [_ Hs]; [|apply herd_db_wf].
    apply herd_db_cases in Hs as [[_ ->]|[_ ->]]; vm_compute; repeat split; discriminate.
  - split; [by eexists|split; reflexivity].
  - split; [by eexists|split; reflexivity].
  - split; [exact H1|]. split; [exact H2|]. split; reflexivity.
Defined.

End Properties.
