(* ===== verification/IdleReaper.v ===== *)
(** The idle reaper of control/internal/lifecycle/idle_reaper.go: running
    sandboxes that were silent for longer than their own timeout are stopped. *)

From S2P Require Import Prelude Netip Json Models Scheduler Store StoreFacts Routing Effects.
From S2P Require Import StoreRuns Sweep Restart Lifecycle AckFacts Reschedule.

Section Model.
Context `{External}.

Definition reap_payload (sb : Sandbox) : json :=
  JObj [("container_id", JStr (text_String (sb_ContainerID sb)));
        ("reason", JStr "idle_timeout")].

(** [notify] says whether the reaper has a route notifier.  The failures of
    the command, the event and the notification are only logged. *)
Definition reapOne (notify : bool) (sb : Sandbox) : ctl (result unit) :=
  r <- db (TransitionSandboxState StateStopped (Some (sb_ID sb)) StateRunning) ;;
  match r with
  | Err e => Ret (Err e)
  | Ok _ =>
      cmdID <- new_uuid ;;
      db (CreateCommand (mkCreateCommandParams cmdID (sb_NodeID sb) (Some (sb_ID sb))
            CmdStopSandbox (reap_payload sb) 60)) ;;;
      db (RecordEvent (mkRecordEventParams (Some (sb_ID sb)) (sb_NodeID sb) EventIdleTimeout
            "idle-reaper" (Some StateRunning) (Some StateStopped) json_empty)) ;;;
      (if notify then notifyRouteRemove (sb_AppName sb) else Ret tt) ;;;
      Ret (Ok tt)
  end.

(** The count of the reaped sandboxes is the loop's variable. *)
Definition reap_next (notify : bool) (reaped : Z) (sb : Sandbox) : ctl Z :=
  r <- reapOne notify sb ;; Ret (if is_ok r then reaped + 1 else reaped).

(** [reap], answering the count it logs. *)
Definition reap (notify : bool) : ctl (result Z) :=
  l <- db ListIdleSandboxes ;;
  match l with
  | Err e => Ret (Err e)
  | Ok l => reaped <- range (reap_next notify) l 0 ;; Ret (Ok reaped)
  end.

Lemma issues_reapOne n s : issues (within edge) (reapOne n s).
Proof.
  unfold reapOne, notifyRouteRemove. issue_tac. apply issues_db.
  eapply does_mono; [|apply does_TransitionSandboxState].
  intros a b [-> ->]. by exists EventIdleTimeout.
Qed.

Lemma issues_reap n : issues (within edge) (reap n).
Proof.
  unfold reap. issue_tac. apply issues_range. intros b x _.
  unfold reap_next. apply issues_bind; [apply issues_reapOne|done].
Qed.

(** ** One sandbox *)

Definition reap_command (s : Sandbox) (cmdID : uuid) : CreateCommandParams :=
  mkCreateCommandParams cmdID (sb_NodeID s) (Some (sb_ID s)) CmdStopSandbox (reap_payload s) 60.

(** The commands of a pass over one row: when it has a node and the id is new,
    a stop command more. *)
Definition reap_commands (s : Sandbox) (w w' : World) : Prop :=
  forall n, sb_NodeID s = Some n -> commands (w_db w) !! uuid_New (w_rng w) = None ->
    commands (w_db w') =
      <[uuid_New (w_rng w) := command_row (reap_command s (uuid_New (w_rng w))) n (w_now w)]> (commands (w_db w)).

Lemma reapOne_runs now b w s :
  w_faults w = [] -> w_now w = now -> row_in (w_db w) (sb_ID s) s ->
  sb_State s = StateRunning -> roomy s ->
  ctl_wp (reapOne b s) (fun r w' => r = Ok tt /\
    (w_faults w' = [] /\ w_now w' = now) /\ nodes (w_db w') = nodes (w_db w) /\
    sandboxes (w_db w') = <[sb_ID s := in_state StateStopped now s]> (sandboxes (w_db w)) /\
    w_rng w' = S (w_rng w) /\ reap_commands s w w') w.
Proof.
  intros Hf Hnow Hrow Hst [Hv Hfc]. unfold reapOne.
  destruct (run_Transition StateStopped (sb_ID s) StateRunning (w_now w) _ _ Hrow) as [Htr _];
    [done|done|lia|].
  step_by (apply Htr). step_uuid.
  destruct (CreateCommand (mkCreateCommandParams (uuid_New (w_rng w)) (sb_NodeID s)
    (Some (sb_ID s)) CmdStopSandbox (reap_payload s) 60) (w_now w)
    (put_sandbox (in_state StateStopped (w_now w) s) (w_db w))) as [rc dc] eqn:Hc.
  assert (forall n, sb_NodeID s = Some n -> commands (w_db w) !! uuid_New (w_rng w) = None ->
    commands dc = <[uuid_New (w_rng w) := command_row (reap_command s (uuid_New (w_rng w))) n (w_now w)]>
      (commands (w_db w))) as Hdc.
  { intros n Hn Hnew. change (mkCreateCommandParams _ _ _ _ _ _) with (reap_command s (uuid_New (w_rng w))) in Hc.
    rewrite (run_CreateCommand _ n) in Hc; [by injection Hc as _ <-|done..|by apply (ri_node _ _ _ Hrow)|].
    intros i [= <-]. simpl. rewrite lookup_insert_eq. by eexists. }
  assert (sandboxes dc = sandboxes (put_sandbox (in_state StateStopped (w_now w) s) (w_db w)) /\
          nodes dc = nodes (w_db w)) as [Hds Hdn].
  { unfold CreateCommand in Hc. repeat case_match; by simplify_eq. }
  step_by (apply Hc). step_by (apply run_RecordEvent). apply unroute_runs.
  apply ctl_wp_ret. set (w1 := set_db _ _).
  destruct (unrouted_keeps b (sb_AppName s) w1) as (Hdb & Hn & Hfl & Hrng).
  unfold reap_commands. rewrite Hdb, Hn, Hfl, Hrng. split; [done|]. split; [by split|]. simpl.
  rewrite Hdn, Hds. split; [done|]. split; [simpl; by rewrite Hnow|]. by split.
Qed.

Definition idle_list (now : Z) (db : DB) : list Sandbox :=
  order_by sb_LastActiveAt (filter (idle_row now) (sandbox_rows db)).

Lemma foldl_count {A} (l : list A) n :
  foldl (fun acc _ => acc + 1) n l = n + Z.of_nat (length l).
Proof. revert n. induction l as [|x l IH]; intros n; simpl; [lia|]. rewrite IH. lia. Qed.
End Model.

(** ** Properties *)

Section Properties.
#[local] Existing Instance demo_external | 100.

(** One pass of the reaper stops the sandboxes that are running and silent
    for longer than their own timeout, each through the table's idle edge, and
    touches no other row; the count is theirs, and no idle sandbox is left. *)
Theorem reap_spec `{External} b w :
  w_faults w = [] -> db_wf (w_db w) ->
  (forall s, s ∈ idle_list (w_now w) (w_db w) -> roomy s) ->
  let '(r, w') := exec (reap b) w in
  r = Ok (Z.of_nat (length (idle_list (w_now w) (w_db w)))) /\
  (forall id, sandboxes (w_db w') !! id =
     (fun s => if decide (idle_row (w_now w) s) then in_state StateStopped (w_now w) s else s)
       <$> sandboxes (w_db w) !! id) /\
  (forall id s, sandboxes (w_db w') !! id = Some s -> ~ idle_row (w_now w) s).
Proof.
  intros Hf Hwf Hroom. apply exec_wp. unfold reap.
  step_with (eq_refl (ListIdleSandboxes (w_now w) (w_db w))).
  change (order_by _ _) with (idle_list (w_now w) (w_db w)). rewrite set_db_same.
  apply ctl_wp_bind. eapply ctl_wp_mono;
    [|apply (pass_runs (reap_next b) (in_state StateStopped (w_now w)) (fun acc _ => acc + 1)
        (fun t => w_faults t = [] /\ w_now t = w_now w))].
  - intros r w' (-> & _ & _ & Hs). apply ctl_wp_ret. rewrite foldl_count. split; [done|].
    assert (forall id, sandboxes (w_db w') !! id =
      (fun s => if decide (idle_row (w_now w) s) then in_state StateStopped (w_now w) s else s)
        <$> sandboxes (w_db w) !! id) as Hrows.
    { intros id. rewrite Hs. by apply sweep_selection. }
    split; [done|]. intros id s Hid Hidle. rewrite Hrows in Hid.
    destruct (sandboxes (w_db w) !! id) as [t|]; [|done]. simpl in Hid.
    case_decide as Hd; simplify_eq; [|done]. by destruct Hidle as [Hst _].
  - intros t acc s Hs [Hft Hnt] Hrow. unfold reap_next. apply ctl_wp_bind.
    pose proof (Hroom _ Hs). apply elem_of_selection in Hs as [[Hst _] _]; [|done].
    eapply ctl_wp_mono; [|by apply (reapOne_runs (w_now w))].
    intros r w' (-> & ? & ? & ? & _). by apply ctl_wp_ret.
  - done.
  - by apply NoDup_selection.
  - intros s Hs. pose proof (Hroom _ Hs). apply elem_of_selection in Hs as [_ Hs]; [|done].
    by apply row_in_wf.
Qed.

Lemma reap_spec_witness :
  let '(r, w') := exec (reap true) (demo_late (demo_db StateRunning 0)) in
  r = Ok 1 /\ (sb_State <$> sandboxes (w_db w') !! 7%N) = Some StateStopped.
Proof.
  pose proof (@reap_spec demo_external true (demo_late (demo_db StateRunning 0)) eq_refl) as H.
  destruct (exec _ _) as [r w']. destruct H as (Hr & Hs & _).
  - apply demo_db_wf, in_states. reflexivity.
  - intros s Hs. apply elem_of_selection in Hs as [_ Hs]; [|by apply demo_db_wf, in_states].
    cbn in Hs. apply lookup_singleton_Some in Hs as [_ <-]. vm_compute. repeat split; discriminate.
  - rewrite Hs. split; [exact Hr|reflexivity].
Defined.

End Properties.
