(* ===== verification/Reconciler.v ===== *)
(** The scheduler package's services that take the truth from the agents:
    [HeartbeatReconciler] (scheduler/heartbeat_reconciler.go) and
    [SandboxFreshnessService] (scheduler/sandbox_freshness.go). They see the
    store and the agent through interfaces only: each interface is a class of
    operations, what the services rely on is a class of laws over it, and the
    theorems here are proved from the laws. File Adapters has the instances of
    the deployment. *)

From S2P Require Import Prelude Netip Json Models Scheduler Store StoreFacts Routing Effects.

(** ** Data *)

Module scheduler.
Record ContainerInfo := mkContainerInfo {
  AppName : string;
  State : string;
  HostPort : Z;
  ContainerID : string;
}.
End scheduler.

Record SandboxRow := mkSandboxRow {
  row_AppName : string;
  row_State : string;
  row_CreatedAt : Z;
}.

Definition reconcilerGraceWindow : Z := 60 * second.

Definition ErrSandboxNotFound : error := Sentinel "sandbox not found".

(** ** Interfaces *)

Class SandboxStore `{External} := {
  ss_ListSandboxesForNode (nodeID : uuid) : ctl (result (list SandboxRow));
  ss_MarkSandboxVerified (appName state : string) : ctl (result unit);
  ss_MarkSandboxAgentLost (appName : string) (nodeID : uuid) : ctl (result unit);
}.

(** The row comes with the time it was verified at. *)
Class FreshnessStore `{External} := {
  fs_GetSandboxByName (name : string) : ctl (result (SandboxRow * Z));
  fs_MarkSandboxVerified (appName state : string) : ctl (result unit);
  fs_MarkSandboxDestroyed (appName reason : string) : ctl (result unit);
}.

Class AgentClient `{External} := {
  ac_ContainerExists (name : string) : ctl (result (bool * string));
}.

(** ** HeartbeatReconciler *)

Section Reconciler.
Context `{SandboxStore}.

(** The reported application names. *)
Definition present (containers : list scheduler.ContainerInfo) (app : string) : bool :=
  bool_decide (app ∈ scheduler.AppName <$> containers).

Definition verify_container (_ : unit) (c : scheduler.ContainerInfo) : ctl unit :=
  ss_MarkSandboxVerified (scheduler.AppName c) (scheduler.State c) ;;; Ret tt.

(** The loop over the rows of the node; its variable counts the drift. *)
Definition reconcile_row (nodeID : uuid) (containers : list scheduler.ContainerInfo) (now : Z)
    (driftCount : Z) (row : SandboxRow) : ctl Z :=
  if present containers (row_AppName row) then Ret driftCount
  else if now - row_CreatedAt row <? reconcilerGraceWindow then Ret driftCount
  else r <- ss_MarkSandboxAgentLost (row_AppName row) nodeID ;;
       Ret (if is_ok r then driftCount + 1 else driftCount).

Definition Reconcile (nodeID : uuid) (containers : list scheduler.ContainerInfo)
  : ctl (result unit) :=
  dbRows <- ss_ListSandboxesForNode nodeID ;;
  match dbRows with
  | Err e => Ret (Err e)
  | Ok rows =>
      range verify_container containers tt ;;;
      now <- time_Now ;;
      range (reconcile_row nodeID containers now) rows 0 ;;;
      Ret (Ok tt)
  end.

(** What the reconciler issues is what its store issues. *)
Lemma issues_Reconcile R n cs :
  (forall n, issues (within R) (ss_ListSandboxesForNode n)) ->
  (forall app st, issues (within R) (ss_MarkSandboxVerified app st)) ->
  (forall app n, issues (within R) (ss_MarkSandboxAgentLost app n)) ->
  issues (within R) (Reconcile n cs).
Proof.
  intros Hl Hv Ha. unfold Reconcile. apply issues_bind; [done|]. intros [rows|e]; [|issue_tac].
  apply issues_bind; [|intros _; apply issues_bind; [apply issues_now|intros now]].
  - apply issues_range. intros b c _. apply issues_bind; [done|done].
  - apply issues_bind; [|done]. apply issues_range. intros b row _. unfold reconcile_row.
    repeat case_match; [issue_tac..|]. by apply issues_bind.
Qed.
End Reconciler.

(** ** SandboxFreshnessService *)

Section Freshness.
Context `{FreshnessStore} `{!AgentClient}.

Definition GetSandboxFresh (freshness : Z) (name : string) (forceRefresh : bool)
  : ctl (result (SandboxRow * Z)) :=
  found <- fs_GetSandboxByName name ;;
  match found with
  | Err e => Ret (Err e)
  | Ok (row, verifiedAt) =>
      now <- time_Now ;;
      let stale := freshness <? now - verifiedAt in
      if negb stale && negb forceRefresh then Ret (Ok (row, verifiedAt))
      else
        answer <- ac_ContainerExists name ;;
        match answer with
        | Err _ => Ret (Ok (row, verifiedAt))
        | Ok (false, _) =>
            fs_MarkSandboxDestroyed name "agent_lost_at_freshness_check" ;;;
            Ret (Err ErrSandboxNotFound)
        | Ok (true, state) =>
            fs_MarkSandboxVerified name state ;;;
            now <- time_Now ;;
            Ret (Ok (row, now))
        end
  end.

Lemma issues_GetSandboxFresh R f name b :
  issues (within R) (fs_GetSandboxByName name) -> issues (within R) (ac_ContainerExists name) ->
  (forall st, issues (within R) (fs_MarkSandboxVerified name st)) ->
  (forall reason, issues (within R) (fs_MarkSandboxDestroyed name reason)) ->
  issues (within R) (GetSandboxFresh f name b).
Proof.
  intros Hg Ha Hv Hd. unfold GetSandboxFresh. apply issues_bind; [done|].
  intros [[row at_]|e]; [|issue_tac]. apply issues_bind; [apply issues_now|]. intros now.
  case_match; [issue_tac|]. apply issues_bind; [done|]. intros [[[] st]|e]; [| |issue_tac].
  - apply issues_bind; [done|]. intros _. issue_tac.
  - apply issues_bind; [done|]. intros _. issue_tac.
Qed.
End Freshness.

(** ** What the services rely on *)

(** The store as the reconciler sees it: each operation is one statement,
    which runs at a time of its own.  In a good world, reading a node's rows
    changes nothing, and the two marks change the world as given, whatever they
    answer, and keep it good. *)
Class SandboxStoreLaws `{SandboxStore} := {
  sl_good : World -> Prop;
  sl_rows : uuid -> World -> list SandboxRow;
  sl_verified : string -> string -> World -> World;
  sl_lost : string -> uuid -> World -> World;
  sl_list n g w : sl_good w ->
    exec_clock (ss_ListSandboxesForNode n) g w =
      (Ok (sl_rows n w), (next g, set_now (w_now w + g 0%nat) w));
  sl_verify app st g w : sl_good w ->
    (exec_clock (ss_MarkSandboxVerified app st) g w).2 =
      (next g, sl_verified app st (set_now (w_now w + g 0%nat) w));
  sl_lose app n g w : sl_good w ->
    (exec_clock (ss_MarkSandboxAgentLost app n) g w).2 =
      (next g, sl_lost app n (set_now (w_now w + g 0%nat) w));
  sl_now_good t w : sl_good w -> sl_good (set_now t w);
  sl_verified_good app st w : sl_good w -> sl_good (sl_verified app st w);
  sl_lost_good app n w : sl_good w -> sl_good (sl_lost app n w);
  sl_verified_now app st w : w_now (sl_verified app st w) = w_now w;
  sl_lost_now app n w : w_now (sl_lost app n w) = w_now w;
}.

(** The same of the freshness service, for one name. *)
Class FreshnessLaws `{FreshnessStore} `{!AgentClient} := {
  fl_good : string -> World -> Prop;
  fl_row : string -> World -> result (SandboxRow * Z);
  fl_says : string -> World -> result (bool * string);
  fl_asked : string -> World -> World;
  fl_verified : string -> string -> World -> World;
  fl_destroyed : string -> string -> World -> World;
  fl_get name w : fl_good name w -> exec (fs_GetSandboxByName name) w = (fl_row name w, w);
  fl_exists name w : fl_good name w -> exec (ac_ContainerExists name) w = (fl_says name w, fl_asked name w);
  fl_verify name st w : fl_good name w ->
    (exec (fs_MarkSandboxVerified name st) w).2 = fl_verified name st w;
  fl_destroy name reason w : fl_good name w ->
    (exec (fs_MarkSandboxDestroyed name reason) w).2 = fl_destroyed name reason w;
  fl_asked_good name w : fl_good name w -> fl_good name (fl_asked name w);
  fl_verified_now name st w : w_now (fl_verified name st (fl_asked name w)) = w_now w;
}.

(** ** The services from the laws *)

Section Lawful.
Context `{SandboxStoreLaws}.

(** The marks of a pass, each at its time. *)
Definition verified_pass (cs : list (Z * scheduler.ContainerInfo)) (w : World) : World :=
  foldl (fun w tc => sl_verified (scheduler.AppName tc.2) (scheduler.State tc.2) (set_now tc.1 w))
    w cs.

Definition lost_pass (n : uuid) (rows : list (Z * SandboxRow)) (w : World) : World :=
  foldl (fun w tr => sl_lost (row_AppName tr.2) n (set_now tr.1 w)) w rows.

(** A row past the grace window that the report does not name. *)
Definition drifting (cs : list scheduler.ContainerInfo) (now : Z) (row : SandboxRow) : bool :=
  negb (present cs (row_AppName row)) && negb (now - row_CreatedAt row <? reconcilerGraceWindow).

Lemma verified_pass_now g cs w :
  w_now (verified_pass (stamps g (w_now w) cs) w) = w_now w + elapsed g (length cs).
Proof.
  unfold verified_pass. revert g w. induction cs as [|c cs IH]; intros g w; simpl; [lia|].
  set (w1 := sl_verified _ _ _).
  assert (w_now w1 = w_now w + g 0%nat) as <- by apply sl_verified_now.
  rewrite IH. unfold w1. rewrite sl_verified_now. simpl. lia.
Qed.

Lemma verified_pass_good cs w : sl_good w -> sl_good (verified_pass cs w).
Proof.
  unfold verified_pass. revert w. induction cs as [|[t c] cs IH]; intros w Hw; simpl; [done|].
  by apply IH, sl_verified_good, sl_now_good.
Qed.

Lemma lost_pass_now g n rows w :
  w_now (lost_pass n (stamps g (w_now w) rows) w) = w_now w + elapsed g (length rows).
Proof.
  unfold lost_pass. revert g w. induction rows as [|r rows IH]; intros g w; simpl; [lia|].
  set (w1 := sl_lost _ _ _).
  assert (w_now w1 = w_now w + g 0%nat) as <- by apply sl_lost_now.
  rewrite IH. unfold w1. rewrite sl_lost_now. simpl. lia.
Qed.

Lemma verify_pass_exec cs g w :
  sl_good w ->
  exec_clock (range verify_container cs tt) g w =
    (tt, (skip (length cs) g, verified_pass (stamps g (w_now w) cs) w)).
Proof.
  revert g w. induction cs as [|c cs IH]; intros g w Hw; cbn [range]; [done|].
  rewrite exec_clock_bind. unfold verify_container at 1. rewrite exec_clock_bind.
  pose proof (sl_verify (scheduler.AppName c) (scheduler.State c) g w Hw) as Hv.
  destruct (exec_clock (ss_MarkSandboxVerified _ _) g w) as [r [g' w']]. simpl in Hv.
  injection Hv as -> ->. cbv beta iota. change (exec_clock (Ret ?a) ?h ?v) with (a, (h, v)).
  cbv beta iota. rewrite IH by by apply sl_verified_good, sl_now_good.
  rewrite sl_verified_now. done.
Qed.

Lemma lost_pass_exec n cs now rows acc g w :
  sl_good w ->
  let drift := filter (fun row => drifting cs now row = true) rows in
  exists acc', exec_clock (range (reconcile_row n cs now) rows acc) g w =
    (acc', (skip (length drift) g, lost_pass n (stamps g (w_now w) drift) w)).
Proof.
  revert acc g w. induction rows as [|row rows IH]; intros acc g w Hw; cbn [range]; [by eexists|].
  cbv zeta. rewrite filter_cons, exec_clock_bind. unfold reconcile_row at 1.
  destruct (decide (drifting cs now row = true)) as [Hd|Hd]; unfold drifting in Hd; cycle 1.
  { destruct (present _ _); [by apply IH|]. destruct (_ <? _); [by apply IH|done]. }
  apply andb_true_iff in Hd as [->%negb_true_iff ->%negb_true_iff].
  rewrite exec_clock_bind. pose proof (sl_lose (row_AppName row) n g w Hw) as Hl.
  destruct (exec_clock (ss_MarkSandboxAgentLost _ _) g w) as [r [g' w']]. simpl in Hl.
  injection Hl as -> ->. cbv beta iota. change (exec_clock (Ret ?a) ?h ?v) with (a, (h, v)).
  cbv beta iota. set (w1 := sl_lost _ _ _).
  destruct (IH (if is_ok r then acc + 1 else acc) (next g) w1) as [acc' ->].
  { by apply sl_lost_good, sl_now_good. }
  exists acc'. unfold w1. rewrite sl_lost_now. done.
Qed.

(** A pass: every reported container is verified, in the order of the report,
    then every row that has drifted when the clock is read is lost, in the
    order of the rows; a mark that fails stops neither. *)
Lemma Reconcile_lawful n cs g w : sl_good w ->
  let t0 := w_now w + g 0%nat in
  let check := t0 + elapsed (next g) (length cs) + g (S (length cs)) in
  let verified := verified_pass (stamps (next g) t0 cs) (set_now t0 w) in
  let drift := filter (fun row => drifting cs check row = true) (sl_rows n w) in
  exists g', exec_clock (Reconcile n cs) g w =
    (Ok tt, (g', lost_pass n (stamps (next (skip (length cs) (next g))) check drift) (set_now check verified))).
Proof.
  intros Hw t0 check verified drift. unfold Reconcile. rewrite exec_clock_bind, sl_list by done.
  cbv beta iota. rewrite exec_clock_bind.
  pose proof (sl_now_good t0 w Hw) as Hw0.
  rewrite verify_pass_exec by done. cbv beta iota. rewrite exec_clock_bind.
  change (w_now (set_now _ _)) with t0. fold t0. fold verified.
  unfold exec_clock at 1, time_Now, trigger. cbn [run]. unfold handle_clock. cbn [handle].
  cbv beta iota.
  assert (w_now verified = t0 + elapsed (next g) (length cs)) as Hnow
    by apply (verified_pass_now (next g) cs (set_now t0 w)).
  rewrite Hnow.
  change (skip (length cs) (next g) 0%nat) with (g (S (length cs + 0))). rewrite Nat.add_0_r.
  fold check. change (w_now (set_now check verified)) with check.
  rewrite exec_clock_bind.
  destruct (lost_pass_exec n cs check (sl_rows n w) 0 (next (skip (length cs) (next g)))
    (set_now check verified)) as [m ->].
  { by apply sl_now_good, verified_pass_good. }
  by eexists.
Qed.
End Lawful.

Section LawfulFreshness.
Context `{FreshnessLaws}.

(** A row is served from the store while it is fresh; a stale or forced one
    after the agent was asked. *)
Lemma GetSandboxFresh_lawful freshness name force w : fl_good name w ->
  exec (GetSandboxFresh freshness name force) w =
    match fl_row name w with
    | Err e => (Err e, w)
    | Ok (row, at_) =>
        if negb (freshness <? w_now w - at_) && negb force then (Ok (row, at_), w)
        else match fl_says name w with
             | Err _ => (Ok (row, at_), fl_asked name w)
             | Ok (false, _) =>
                 (Err ErrSandboxNotFound,
                  fl_destroyed name "agent_lost_at_freshness_check" (fl_asked name w))
             | Ok (true, st) => (Ok (row, w_now w), fl_verified name st (fl_asked name w))
             end
    end.
Proof.
  intros Hw. unfold GetSandboxFresh. rewrite exec_bind, fl_get by done.
  destruct (fl_row name w) as [[row at_]|e]; [|apply exec_ret]. rewrite exec_bind.
  change (exec time_Now w) with (w_now w, w). cbv beta iota zeta.
  destruct (_ && _); [apply exec_ret|]. rewrite exec_bind, fl_exists by done.
  pose proof (fl_asked_good name w Hw) as Ha.
  destruct (fl_says name w) as [[[] st]|e]; [| |apply exec_ret]; rewrite exec_bind.
  - pose proof (fl_verify name st _ Ha) as Hv. destruct (exec _ _) as [r w']. simpl in Hv. subst w'. cbv beta iota.
    rewrite exec_bind. change (exec time_Now ?w) with (w_now w, w). cbv beta iota.
    rewrite exec_ret. by rewrite fl_verified_now.
  - pose proof (fl_destroy name "agent_lost_at_freshness_check" _ Ha) as Hd.
    destruct (exec _ _) as [r w']. simpl in Hd. subst w'. cbv beta iota. apply exec_ret.
Qed.
End LawfulFreshness.
