(* ===== verification/Adapters.v ===== *)
(** What cmd/forge-control/main.go puts between the scheduler package and the
    rest: [reconcilerStoreAdapter], [reconcilerAdapter], [freshnessStoreAdapter]
    and [agentHTTPClient], as instances of the interfaces of file Reconciler,
    the laws these instances keep, and with them what a heartbeat and a
    freshness check do to every row of the database. *)

From S2P Require Import Prelude Netip Json Models Scheduler Store StoreFacts Routing Effects.
From S2P Require Import StoreRuns Sweep AckFacts Reconciler.

(** ** Data *)

(** [api.ContainerInfo]. *)
Record ContainerInfo := mkContainerInfo {
  ci_AppName : string;
  ci_State : string;
  ci_HostPort : Z;
  ci_ContainerID : string;
}.

(** [containerExistsResponse], of which [Exists] and [State] are used. *)
Definition dec_container_response (j : json) : result (bool * string) :=
  match members_of j with
  | None => Err (OtherError "json: cannot unmarshal")
  | Some m =>
      let '(exists_, ok1) := dec_field "exists" dec_bool false m in
      let '(_, ok2) := dec_field "app_name" dec_string "" m in
      let '(state, ok3) := dec_field "state" dec_string "" m in
      let '(_, ok4) := dec_field "host_port" dec_int64 0 m in
      let '(_, ok5) := dec_field "container_id" dec_string "" m in
      if ok1 && ok2 && ok3 && ok4 && ok5 then Ok (exists_, state)
      else Err (OtherError "json: cannot unmarshal")
  end.

Section Adapters.
Context `{External}.

(** ** reconcilerStoreAdapter *)

Definition reconciler_row (r : string * string * Z) : SandboxRow :=
  let '(app, state, created) := r in mkSandboxRow app state created.

Definition reconciler_ListSandboxesForNode (nodeID : uuid) : ctl (result (list SandboxRow)) :=
  rows <- db (ListSandboxesForNode (Some nodeID)) ;;
  Ret (match rows with Err e => Err e | Ok rows => Ok (reconciler_row <$> rows) end).

Definition reconciler_MarkSandboxVerified (appName state : string) : ctl (result unit) :=
  db (MarkSandboxVerified appName state).

Definition reconciler_MarkSandboxAgentLost (appName : string) (nodeID : uuid) : ctl (result unit) :=
  db (MarkSandboxAgentLost appName (Some nodeID)).

#[export] Instance reconcilerStoreAdapter : SandboxStore := {|
  ss_ListSandboxesForNode := reconciler_ListSandboxesForNode;
  ss_MarkSandboxVerified := reconciler_MarkSandboxVerified;
  ss_MarkSandboxAgentLost := reconciler_MarkSandboxAgentLost;
|}.

(** ** reconcilerAdapter *)

Definition to_scheduler (c : ContainerInfo) : scheduler.ContainerInfo :=
  scheduler.mkContainerInfo (ci_AppName c) (ci_State c) (ci_HostPort c) (ci_ContainerID c).

Definition reconcilerAdapter (nodeID : uuid) (containers : list ContainerInfo) : ctl (result unit) :=
  Reconcile nodeID (to_scheduler <$> containers).

(** ** freshnessStoreAdapter *)

Definition freshness_row (sb : Sandbox) : SandboxRow :=
  mkSandboxRow (sb_AppName sb) (sb_State sb) (sb_CreatedAt sb).

(** [verified_at] is never NULL. *)
Definition freshness_GetSandboxByName (name : string) : ctl (result (SandboxRow * Z)) :=
  sb <- db (GetSandboxByAppName name) ;;
  Ret (match sb with Err e => Err e | Ok sb => Ok (freshness_row sb, sb_VerifiedAt sb) end).

Definition freshness_MarkSandboxVerified (appName state : string) : ctl (result unit) :=
  db (MarkSandboxVerified appName state).

Definition freshness_MarkSandboxDestroyed (appName reason : string) : ctl (result unit) :=
  db (MarkSandboxDestroyed appName reason).

#[export] Instance freshnessStoreAdapter : FreshnessStore := {|
  fs_GetSandboxByName := freshness_GetSandboxByName;
  fs_MarkSandboxVerified := freshness_MarkSandboxVerified;
  fs_MarkSandboxDestroyed := freshness_MarkSandboxDestroyed;
|}.

(** ** agentHTTPClient *)

Definition container_url (node : Node) (name : string) : string :=
  "http://" +:+ Addr_String (nd_TailscaleIp node) +:+ ":" +:+ pretty (nd_AgentListenPort node)
    +:+ "/v1/containers/" +:+ name.

Definition container_answer (resp : http_response) : result (bool * string) :=
  if rs_status resp =? 200
  then match rs_json resp with
       | None => Err (OtherError "invalid character")
       | Some j => dec_container_response j
       end
  else if rs_status resp =? 404 then Ok (false, "")
  else Err (OtherError ("agent returned status " +:+ pretty (rs_status resp))).

Definition ContainerExists (name : string) : ctl (result (bool * string)) :=
  sb <- db (GetSandboxByAppName name) ;;
  match sb with
  | Err e => Ret (Err e)
  | Ok sb =>
      match sb_NodeID sb with
      | None => Ret (Err (Sentinel "sandbox not assigned to a node"))
      | Some n =>
          node <- db (GetNode (Some n)) ;;
          match node with
          | Err e => Ret (Err e)
          | Ok node =>
              resp <- http_Do (mkRequest "GET" (container_url node name) None) ;;
              match resp with
              | Err e => Ret (Err e)
              | Ok resp => Ret (container_answer resp)
              end
          end
      end
  end.

#[export] Instance agentHTTPClient : AgentClient := {| ac_ContainerExists := ContainerExists |}.

(** ** Schema *)

(** Whatever the agents answer, the services write states the CHECK allows
    and never move a row otherwise. *)
Definition any_move (a b : string) : Prop := True.

Lemma issues_reconcilerAdapter n cs : issues (within any_move) (reconcilerAdapter n cs).
Proof.
  apply issues_Reconcile; intros; cbn [ss_ListSandboxesForNode ss_MarkSandboxVerified
    ss_MarkSandboxAgentLost reconcilerStoreAdapter].
  - unfold reconciler_ListSandboxesForNode. issue_tac.
  - apply issues_db. by eapply does_mono; [|apply does_MarkSandboxVerified].
  - apply issues_db. by eapply does_mono; [|apply does_MarkSandboxAgentLost].
Qed.

Lemma issues_ContainerExists R name : issues (within R) (ContainerExists name).
Proof. unfold ContainerExists. issue_tac. Qed.

Lemma issues_freshness f name b : issues (within any_move) (GetSandboxFresh f name b).
Proof.
  apply issues_GetSandboxFresh; intros; cbn [fs_GetSandboxByName fs_MarkSandboxVerified
    fs_MarkSandboxDestroyed ac_ContainerExists freshnessStoreAdapter agentHTTPClient].
  - unfold freshness_GetSandboxByName. issue_tac.
  - apply issues_ContainerExists.
  - apply issues_db. by eapply does_mono; [|apply does_MarkSandboxVerified].
  - apply issues_db. by eapply does_mono; [|apply does_MarkSandboxDestroyed].
Qed.
End Adapters.

(** ** Marks as functions of every row *)

(** Counters that fit their columns, for all rows. *)
Definition counters_ok (db : DB) : Prop := forall id s, sandboxes db !! id = Some s ->
  int4_ok (sb_StateVersion s) = true /\ int4_ok (sb_FailureCount s) = true.

Definition marked (st : string) (now : Z) (s : Sandbox) : Sandbox :=
  upd_sandbox s (sb_NodeID s) (sb_ContainerID s) (sb_HostPort s) st (sb_StateVersion s)
    (sb_UpdatedAt s) (sb_LastActiveAt s) (sb_FailureCount s) (sb_Metadata s) now.

(** What a verification mark for [app] does to a row. *)
Definition verify (app st : string) (now : Z) (s : Sandbox) : Sandbox :=
  if decide (sb_AppName s = app /\ sb_VerifiedAt s < now /\ check_state st = true)
  then marked st now s else s.

Definition lost_row (now : Z) (s : Sandbox) : Sandbox :=
  upd_sandbox s (sb_NodeID s) (sb_ContainerID s) (sb_HostPort s) StateDestroyed
    (sb_StateVersion s) (sb_UpdatedAt s) (sb_LastActiveAt s) (sb_FailureCount s)
    (jsonb_concat (sb_Metadata s) (reason_doc "agent_lost_at_heartbeat")) now.

(** A live row of the node past the grace window. *)
Definition losable (node : uuid) (now : Z) (s : Sandbox) : Prop :=
  sb_NodeID s = Some node /\ live_state (sb_State s) = true /\ sb_CreatedAt s < now - 60 * second.
#[export] Instance losable_dec node now s : Decision (losable node now s).
Proof. unfold losable. apply _. Defined.

Definition lose (app : string) (node : uuid) (now : Z) (s : Sandbox) : Sandbox :=
  if decide (sb_AppName s = app /\ losable node now s) then lost_row now s else s.

(** Rewriting the row of one application is mapping all rows. *)
Lemma app_update_map db app (f : Sandbox -> Sandbox) s :
  db_wf db -> find_by_app db app = Some s -> sb_ID (f s) = sb_ID s ->
  <[sb_ID (f s) := f s]> (sandboxes db) =
    (fun t => if decide (sb_AppName t = app) then f t else t) <$> sandboxes db.
Proof.
  intros Hwf Hs Hid. apply (find_by_app_Some _ _ _ Hwf) in Hs as [Hs Happ].
  apply map_eq. intros i. rewrite lookup_fmap, Hid, lookup_insert. case_decide as Hi.
  - rewrite <- Hi, Hs. simpl. by rewrite decide_True.
  - destruct (sandboxes db !! i) as [t|] eqn:Ht; [|done]. simpl.
    rewrite decide_False; [done|]. intros Hta. apply Hi. eapply (wf_unique _ Hwf); eauto. congruence.
Qed.

Lemma app_update_none db app (f : Sandbox -> Sandbox) :
  (forall s, find_by_app db app = Some s -> f s = s) -> db_wf db ->
  sandboxes db = (fun t => if decide (sb_AppName t = app) then f t else t) <$> sandboxes db.
Proof.
  intros Hf Hwf. apply map_eq. intros i. rewrite lookup_fmap.
  destruct (sandboxes db !! i) as [t|] eqn:Ht; [|done]. simpl. f_equal.
  case_decide as Ha; [|done]. symmetry. apply Hf. apply find_by_app_Some; [done|].
  by rewrite (so_key _ _ _ (wf_sandboxes _ Hwf _ _ Ht)).
Qed.

(** The rest of the database is untouched. *)
Definition rows_only (f : Sandbox -> Sandbox) (db db' : DB) : Prop :=
  db' = set_sandboxes (f <$> sandboxes db) db.

Lemma rows_only_same f db :
  sandboxes db = f <$> sandboxes db -> rows_only f db db.
Proof. intros Hf. unfold rows_only. rewrite <- Hf. by destruct db. Qed.

Lemma run_MarkSandboxVerified app st now db :
  db_wf db -> counters_ok db ->
  rows_only (verify app st now) db (MarkSandboxVerified app st now db).2.
Proof.
  intros Hwf Hc.
  assert (verify app st now <$> sandboxes db =
    (fun t => if decide (sb_AppName t = app) then verify app st now t else t) <$> sandboxes db) as Hv.
  { apply map_fmap_ext. intros i t _. unfold verify.
    repeat case_decide; by try tauto. }
  unfold rows_only. rewrite Hv. unfold MarkSandboxVerified.
  destruct (find_by_app db app) as [s|] eqn:Hs; cycle 1.
  { apply rows_only_same, app_update_none; [|done]. by rewrite Hs. }
  pose proof Hs as Hs'. apply (find_by_app_Some _ _ _ Hwf) in Hs' as [Hrow Happ].
  destruct (decide (sb_VerifiedAt s < now)) as [Hlt|Hge].
  - rewrite exec_unit_snd. destruct (check_state st) eqn:Hck.
    + rewrite (run_write_sandbox (marked st now s)); simpl.
      * rewrite <- (app_update_map db app (verify app st now) s Hwf Hs); unfold verify;
          by rewrite decide_True.
      * done.
      * apply (Hc _ _ Hrow).
      * apply (Hc _ _ Hrow).
      * exact (so_node _ _ _ (wf_sandboxes _ Hwf _ _ Hrow)).
    + unfold write_sandbox. simpl. rewrite Hck. simpl.
      apply rows_only_same, app_update_none; [|done]. intros t _. unfold verify.
      rewrite decide_False; [done|]. intros (_ & _ & ?). congruence.
  - apply rows_only_same, app_update_none; [|done]. intros t Ht. rewrite Hs in Ht.
    simplify_eq. unfold verify. rewrite decide_False; [done|]. by intros (_ & ? & _).
Qed.

Lemma run_MarkSandboxAgentLost app node now db :
  db_wf db -> counters_ok db ->
  rows_only (lose app node now) db (MarkSandboxAgentLost app (Some node) now db).2.
Proof.
  intros Hwf Hc.
  assert (lose app node now <$> sandboxes db =
    (fun t => if decide (sb_AppName t = app) then lose app node now t else t) <$> sandboxes db) as Hv.
  { apply map_fmap_ext. intros i t _. unfold lose. repeat case_decide; by try tauto. }
  unfold rows_only. rewrite Hv. unfold MarkSandboxAgentLost.
  destruct (find_by_app db app) as [s|] eqn:Hs; cycle 1.
  { apply rows_only_same, app_update_none; [|done]. by rewrite Hs. }
  pose proof Hs as Hs'. apply (find_by_app_Some _ _ _ Hwf) in Hs' as [Hrow Happ].
  case_decide as Hd.
  - rewrite exec_unit_snd, (run_write_sandbox (lost_row now s)); simpl.
    + rewrite <- (app_update_map db app (lose app node now) s Hwf Hs); unfold lose, losable;
        rewrite decide_True; [done|by destruct Hd as (_ & ? & ? & ?)..|done|by destruct Hd as (_ & ? & ? & ?)].
    + done.
    + apply (Hc _ _ Hrow).
    + apply (Hc _ _ Hrow).
    + exact (so_node _ _ _ (wf_sandboxes _ Hwf _ _ Hrow)).
  - apply rows_only_same, app_update_none; [|done]. intros t Ht. rewrite Hs in Ht.
    simplify_eq. unfold lose, losable. rewrite decide_False; [done|].
    intros (_ & ? & ? & ?). apply Hd. by split_and!.
Qed.

Lemma verify_keeps app st now s :
  sb_StateVersion (verify app st now s) = sb_StateVersion s /\
  sb_FailureCount (verify app st now s) = sb_FailureCount s /\
  sb_AppName (verify app st now s) = sb_AppName s.
Proof. unfold verify. by case_decide. Qed.

Lemma lose_keeps app node now s :
  sb_StateVersion (lose app node now s) = sb_StateVersion s /\
  sb_FailureCount (lose app node now s) = sb_FailureCount s /\
  sb_AppName (lose app node now s) = sb_AppName s.
Proof. unfold lose. by case_decide. Qed.

(** A list of marks, each with the time of its statement. *)
Definition verify_all (cs : list (Z * scheduler.ContainerInfo)) (s : Sandbox) : Sandbox :=
  foldl (fun s tc => verify (scheduler.AppName tc.2) (scheduler.State tc.2) tc.1 s) s cs.

Definition lose_all (node : uuid) (rows : list (Z * SandboxRow)) (s : Sandbox) : Sandbox :=
  foldl (fun s tr => lose (row_AppName tr.2) node tr.1 s) s rows.

(** The state a report gives an application: the last valid one, because each
    mark is a statement with a later [NOW()] than the one before. *)
Definition reported_state (cs : list scheduler.ContainerInfo) (app : string) : option string :=
  last (filter (fun st => check_state st = true) (scheduler.State <$> filter (fun c => scheduler.AppName c = app) cs)).

(** What a pass of the reconciler does to a row, with a statement at [now]. *)
Definition reconciled (node : uuid) (cs : list scheduler.ContainerInfo) (now : Z) (s : Sandbox) : Sandbox :=
  if present cs (sb_AppName s)
  then match reported_state cs (sb_AppName s) with
       | Some st => if decide (sb_VerifiedAt s < now) then marked st now s else s
       | None => s
       end
  else if decide (losable node now s) then lost_row now s else s.

Lemma verify_all_app cs s : sb_AppName (verify_all cs s) = sb_AppName s.
Proof.
  unfold verify_all. revert s. induction cs as [|tc cs IH]; intros s; simpl; [done|].
  rewrite IH. apply verify_keeps.
Qed.

Lemma verify_other app st now s : sb_AppName s <> app -> verify app st now s = s.
Proof. intros Hne. unfold verify. rewrite decide_False; naive_solver. Qed.

Lemma present_spec cs app : present cs app = true <-> exists c, c ∈ cs /\ scheduler.AppName c = app.
Proof.
  unfold present. rewrite bool_decide_eq_true, list_elem_of_fmap. naive_solver.
Qed.

Lemma verify_all_absent cs s : present cs.*2 (sb_AppName s) = false -> verify_all cs s = s.
Proof.
  intros Hp%not_true_iff_false. unfold verify_all. induction cs as [|[t c] cs IH]; simpl; [done|].
  rewrite present_spec in Hp. rewrite verify_other.
  - apply IH. rewrite present_spec. intros (d & Hd & Ha). apply Hp. exists d. split; [by right|done].
  - intros Ha. apply Hp. exists c. split; [by left|done].
Qed.

Lemma reported_state_snoc cs c app :
  reported_state (cs ++ [c]) app =
    if decide (scheduler.AppName c = app /\ check_state (scheduler.State c) = true)
    then Some (scheduler.State c) else reported_state cs app.
Proof.
  unfold reported_state. rewrite filter_app, fmap_app, filter_app.
  destruct (decide (scheduler.AppName c = app)) as [Ha|Ha].
  - rewrite (filter_cons_True _ c []) by done. simpl. rewrite filter_cons, filter_nil.
    destruct (decide (check_state _ = true)) as [Hc|Hc].
    + rewrite decide_True by done. apply last_snoc.
    + rewrite decide_False by naive_solver. by rewrite app_nil_r.
  - rewrite (filter_cons_False _ c []) by done. simpl. rewrite decide_False by naive_solver.
    by rewrite app_nil_r.
Qed.

Lemma reported_state_present cs app st : reported_state cs app = Some st -> present cs app = true.
Proof.
  intros Hr%last_Some_elem_of. apply list_elem_of_filter in Hr as [_ (c & _ & Hc)%list_elem_of_fmap].
  apply list_elem_of_filter in Hc as [Ha Hc]. apply present_spec. eauto.
Qed.

(** The marks for one application carry increasing times. *)
Definition in_order (cs : list (Z * scheduler.ContainerInfo)) : Prop :=
  StronglySorted (fun a b => scheduler.AppName a.2 = scheduler.AppName b.2 -> a.1 < b.1) cs.

Lemma verify_all_reported cs s :
  in_order cs -> present cs.*2 (sb_AppName s) = true ->
  exists t c, (t, c) ∈ cs /\ scheduler.AppName c = sb_AppName s /\
    verify_all cs s =
      match reported_state cs.*2 (sb_AppName s) with
      | Some st => if decide (sb_VerifiedAt s < t) then marked st t s else s
      | None => s
      end.
Proof.
  induction cs as [|[t c] cs IH] using rev_ind; intros Ho Hp; [done|].
  rewrite fmap_app. cbn [fmap list_fmap snd]. rewrite reported_state_snoc.
  assert (verify_all (cs ++ [(t, c)]) s =
    verify (scheduler.AppName c) (scheduler.State c) t (verify_all cs s)) as ->
    by (unfold verify_all; by rewrite foldl_app).
  assert (in_order cs) as Ho' by (eapply StronglySorted_app_1_l; exact Ho).
  assert (present cs.*2 (sb_AppName s) = true -> scheduler.AppName c = sb_AppName s ->
    exists t' st', t' < t /\ verify_all cs s = (if decide (sb_VerifiedAt s < t') then marked st' t' s else s) \/
      verify_all cs s = s) as Hbefore.
  { intros Hp' Ha. destruct (IH Ho' Hp') as (t' & c' & Hin & Ha' & ->).
    exists t', (default "" (reported_state cs.*2 (sb_AppName s))).
    destruct (reported_state _ _) as [st'|]; [left|by right]. split; [|done].
    refine (StronglySorted_app_1_elem_of _ _ _ (t', c') (t, c) Ho Hin _ _); [by left|simpl; congruence]. }
  destruct (decide (scheduler.AppName c = sb_AppName s)) as [Ha|Ha]; cycle 1.
  - rewrite decide_False by naive_solver.
    rewrite verify_other by by rewrite verify_all_app.
    destruct IH as (t' & c' & Hin & Ha' & Hv); [done| |].
    { apply present_spec in Hp as (d & Hd & Hda). rewrite fmap_app in Hd.
      apply elem_of_app in Hd as [Hd|Hd%list_elem_of_singleton]; [apply present_spec; eauto|by subst]. }
    exists t', c'. split; [by apply elem_of_app; left|done].
  - destruct (check_state (scheduler.State c)) eqn:Hc; cycle 1.
    + rewrite decide_False by naive_solver.
      assert (verify (scheduler.AppName c) (scheduler.State c) t (verify_all cs s) = verify_all cs s) as ->.
      { unfold verify. rewrite decide_False; [done|]. intros (_ & _ & ?). congruence. }
      destruct (present cs.*2 (sb_AppName s)) eqn:Hp'.
      * destruct IH as (t' & c' & Hin & Ha' & Hv); [done..|].
        exists t', c'. split; [by apply elem_of_app; left|done].
      * exists t, c. split; [apply elem_of_app; right; by left|]. split; [done|].
        rewrite verify_all_absent by done. destruct (reported_state _ _) as [st|] eqn:Hr; [|done].
        apply reported_state_present in Hr. congruence.
    + rewrite decide_True by done. exists t, c. split; [apply elem_of_app; right; by left|].
      split; [done|]. destruct (present cs.*2 (sb_AppName s)) eqn:Hp'; cycle 1.
      { rewrite verify_all_absent by done. unfold verify. apply decide_ext. naive_solver. }
      destruct (Hbefore eq_refl Ha) as (t' & st' & [[Hlt Hv]|Hv]); rewrite Hv;
        unfold verify; [|apply decide_ext; naive_solver].
      destruct (decide (sb_VerifiedAt s < t')) as [Hlt'|Hge]; [|apply decide_ext; naive_solver].
      rewrite !decide_True; [done|lia|simpl; naive_solver].
Qed.

(** A row is lost at most once, at a time at which the statement's guard
    holds, and only for an entry of its own. *)
Lemma lose_all_cases node rows s :
  (exists t row, (t, row) ∈ rows /\ row_AppName row = sb_AppName s /\ losable node t s /\
     lose_all node rows s = lost_row t s) \/
  (lose_all node rows s = s /\
   forall t row, (t, row) ∈ rows -> row_AppName row = sb_AppName s -> ~ losable node t s).
Proof.
  unfold lose_all. induction rows as [|[t row] rows IH]; simpl.
  { right. split; [done|]. intros t row Hin. by apply elem_of_nil in Hin. }
  unfold lose at 2 4. simpl.
  destruct (decide (sb_AppName s = row_AppName row /\ losable node t s)) as [[Ha Hl]|Hno].
  - left. exists t, row. split_and!; [by left|done|done|].
    clear IH. induction rows as [|r rows IH]; simpl; [done|]. unfold lose at 2.
    rewrite decide_False; [done|]. by intros (_ & _ & ? & _).
  - destruct IH as [(t' & r & Hin & Ha & Hl & ->)|[-> Hnone]].
    + left. exists t', r. by split_and!; [right| | |].
    + right. split; [done|]. intros t' r [Heq|Hin]%elem_of_cons Ha; [|by apply (Hnone t' r)].
      injection Heq as -> ->. intros Hl. by apply Hno.
Qed.

Lemma losable_later node t u s : t <= u -> losable node t s -> losable node u s.
Proof. intros Htu (Hn & Hl & Hc). split_and!; [done|done|lia]. Qed.

Section Worlds.
Context `{External}.

(** A world whose rows were rewritten by [f]. *)
Definition with_rows (f : Sandbox -> Sandbox) (w : World) : World :=
  set_db (set_sandboxes (f <$> sandboxes (w_db w)) (w_db w)) w.

Lemma with_rows_compose f g w : with_rows g (with_rows f w) = with_rows (g ∘ f) w.
Proof. unfold with_rows, set_db. simpl. f_equal. unfold set_sandboxes. simpl. by rewrite map_fmap_compose. Qed.

Lemma with_rows_id w : with_rows id w = w.
Proof.
  unfold with_rows. rewrite map_fmap_id. destruct w as [d ? ? ? ? ? ?].
  unfold set_db, set_sandboxes. simpl. by destruct d.
Qed.

Record loop_ok (w : World) : Prop := mk_loop_ok {
  lo_faults : w_faults w = [];
  lo_wf : db_wf (w_db w);
  lo_counters : counters_ok (w_db w);
}.

(** A mark: one statement that maps the rows and keeps the counters. *)
Lemma mark_exec {X} (q : stmt X) f w :
  w_faults w = [] -> rows_only f (w_db w) (q (w_now w) (w_db w)).2 ->
  (exec (db q) w).2 = with_rows f w.
Proof.
  intros Hf Hr. rewrite (exec_statement _ _ Hf). unfold exec_db.
  destruct (q _ _) as [r d]. simpl in Hr. by rewrite Hr.
Qed.

Lemma mark_exec_clock {X} (q : stmt X) f g w :
  w_faults w = [] -> rows_only f (w_db w) (q (w_now w + g 0%nat) (w_db w)).2 ->
  (exec_clock (db q) g w).2 = (next g, with_rows f (set_now (w_now w + g 0%nat) w)).
Proof.
  intros Hf Hr. rewrite (exec_clock_statement _ _ _ Hf). unfold exec_db. simpl.
  destruct (q _ _) as [r d]. simpl in Hr. by rewrite Hr.
Qed.

Lemma mark_keeps_ok {X} (q : stmt X) f R w :
  loop_ok w -> does R q -> rows_only f (w_db w) (q (w_now w) (w_db w)).2 ->
  (forall s, sb_StateVersion (f s) = sb_StateVersion s /\ sb_FailureCount (f s) = sb_FailureCount s /\
     sb_AppName (f s) = sb_AppName s) ->
  loop_ok (with_rows f w).
Proof.
  intros [Hf Hwf Hc] Hdoes Hrows Hkeep. split; simpl; [done| |].
  - pose proof (Hdoes (w_now w) (w_db w) Hwf) as Hstep. rewrite Hrows in Hstep. by eapply db_step_wf.
  - intros id s. simpl. rewrite lookup_fmap. intros (t & Ht & ->)%fmap_Some.
    destruct (Hkeep t) as (-> & -> & _). by eapply Hc.
Qed.

(** ** The laws *)

#[export, refine] Instance reconcilerStore_lawful : SandboxStoreLaws := {|
  sl_good := loop_ok;
  sl_rows n w := freshness_row <$>
    filter (fun s => is_Some (Some n) /\ sb_NodeID s = Some n /\ live_state (sb_State s) = true)
      (sandbox_rows (w_db w));
  sl_verified app st w := with_rows (verify app st (w_now w)) w;
  sl_lost app n w := with_rows (lose app n (w_now w)) w;
|}.
Proof.
  - intros n g w [Hf _ _]. cbn [ss_ListSandboxesForNode reconcilerStoreAdapter].
    unfold reconciler_ListSandboxesForNode. rewrite exec_clock_bind.
    rewrite (exec_clock_statement _ _ _ Hf). cbn. do 2 f_equal. by rewrite <- list_fmap_compose.
  - intros app st g w [Hf Hwf Hc]. apply mark_exec_clock; [done|]. by apply run_MarkSandboxVerified.
  - intros app n g w [Hf Hwf Hc]. apply mark_exec_clock; [done|]. by apply run_MarkSandboxAgentLost.
  - intros t w []. by split.
  - intros app st w Hw. eapply mark_keeps_ok; [done|apply (does_MarkSandboxVerified app st)| |apply verify_keeps].
    apply run_MarkSandboxVerified; apply Hw.
  - intros app n w Hw. eapply mark_keeps_ok; [done|apply (does_MarkSandboxAgentLost app (Some n))| |apply lose_keeps].
    apply run_MarkSandboxAgentLost; apply Hw.
  - done.
  - done.
Defined.

Lemma set_now_rows t f w : set_now t (with_rows f w) = with_rows f (set_now t w).
Proof. done. Qed.

Lemma verified_pass_rows cs w :
  verified_pass cs w = set_now (w_now (verified_pass cs w)) (with_rows (verify_all cs) w).
Proof.
  unfold verified_pass, verify_all. revert w. induction cs as [|[t c] cs IH]; intros w; simpl.
  { by rewrite with_rows_id, set_now_same. }
  rewrite IH at 1. rewrite with_rows_compose. done.
Qed.

Lemma lost_pass_rows n rows w :
  lost_pass n rows w = set_now (w_now (lost_pass n rows w)) (with_rows (lose_all n rows) w).
Proof.
  unfold lost_pass, lose_all. revert w. induction rows as [|[t r] rows IH]; intros w; simpl.
  { by rewrite with_rows_id, set_now_same. }
  rewrite IH at 1. rewrite with_rows_compose. done.
Qed.

(** The marks of a pass over the rows of [w], each with its time, and the time
    at which the pass reads the clock. *)
Definition pass_verifies (cs : list scheduler.ContainerInfo) (g : nat -> Z) (w : World)
  : list (Z * scheduler.ContainerInfo) := stamps (next g) (w_now w + g 0%nat) cs.
Definition pass_check (cs : list scheduler.ContainerInfo) (g : nat -> Z) (w : World) : Z :=
  w_now w + g 0%nat + elapsed (next g) (length cs) + g (S (length cs)).
Definition pass_loses (node : uuid) (cs : list scheduler.ContainerInfo) (g : nat -> Z) (w : World)
  : list (Z * SandboxRow) :=
  stamps (next (skip (length cs) (next g))) (pass_check cs g w)
    (filter (fun row => drifting cs (pass_check cs g w) row = true) (sl_rows node w)).

(** A pass, whatever the report. *)
Lemma Reconcile_rows node cs g w :
  loop_ok w ->
  exists g', exec_clock (Reconcile node cs) g w =
    (Ok tt, (g', set_now (pass_check cs g w + elapsed (next (skip (length cs) (next g)))
                                                (length (pass_loses node cs g w)))
                   (with_rows (lose_all node (pass_loses node cs g w) ∘ verify_all (pass_verifies cs g w)) w))).
Proof.
  intros Hw. destruct (Reconcile_lawful node cs g w) as [g' ->]; [exact Hw|]. exists g'. do 2 f_equal.
  fold (pass_verifies cs g w). fold (pass_check cs g w). fold (pass_loses node cs g w).
  set (v := set_now (pass_check cs g w) _).
  assert (w_now (lost_pass node (pass_loses node cs g w) v) =
    pass_check cs g w + elapsed (next (skip (length cs) (next g))) (length (pass_loses node cs g w))) as Hnow.
  { unfold pass_loses. set (l := filter _ _).
    pose proof (lost_pass_now (next (skip (length cs) (next g))) node l v) as Hl.
    change (w_now v) with (pass_check cs g w) in Hl. rewrite Hl. do 2 f_equal.
    rewrite <- (stamps_snd (next (skip (length cs) (next g))) (pass_check cs g w) l) at 1.
    by rewrite length_fmap. }
  rewrite lost_pass_rows, Hnow. unfold v. rewrite verified_pass_rows.
  rewrite <- with_rows_compose. done.
Qed.

Lemma pass_in_order cs g w :
  (forall k, 0 < g k) \/ NoDup (scheduler.AppName <$> cs) -> in_order (pass_verifies cs g w).
Proof.
  intros [Hg|Hnd]; unfold in_order, pass_verifies.
  - pose proof (stamps_increase (next g) (w_now w + g 0%nat) cs (fun k => Hg _)) as Hs.
    induction Hs as [|a l Hs IH Hall]; constructor; [exact IH|].
    eapply Forall_impl; [exact Hall|]. by intros.
  - generalize (next g), (w_now w + g 0%nat). revert Hnd.
    induction cs as [|c cs IH]; intros Hnd h t; simpl; [constructor|].
    rewrite fmap_cons in Hnd. apply NoDup_cons in Hnd as [Hc Hnd]. constructor; [by apply IH|]. apply Forall_forall. intros [u d] Hin Heq. exfalso. simpl in Heq.
    apply Hc. rewrite Heq. apply list_elem_of_fmap_2.
    apply (list_elem_of_fmap_2 snd) in Hin. by rewrite stamps_snd in Hin.
Qed.

(** A live row of the node that is old enough and not reported is lost. *)
Lemma pass_loses_row node cs g w id s :
  loop_ok w -> sandboxes (w_db w) !! id = Some s -> losable node (pass_check cs g w) s ->
  present cs (sb_AppName s) = false ->
  exists t, (t, freshness_row s) ∈ pass_loses node cs g w.
Proof.
  intros [_ Hwf _] Hs (Hn & Hlive & Hold) Hp.
  assert (freshness_row s ∈ (pass_loses node cs g w).*2) as Hin.
  { unfold pass_loses. rewrite stamps_snd. apply list_elem_of_filter. split.
    - unfold drifting. simpl. rewrite Hp. apply negb_true_iff, Z.ltb_ge. unfold reconcilerGraceWindow. lia.
    - apply list_elem_of_fmap. exists s. split; [done|]. apply list_elem_of_filter.
      split; [by split_and!|]. apply elem_of_sandbox_rows; [done|].
      by rewrite (so_key _ _ _ (wf_sandboxes _ Hwf _ _ Hs)). }
  apply list_elem_of_fmap in Hin as ([t row] & Heq & Hin). simpl in Heq. subst. by exists t.
Qed.

(** A row after a pass: the statement that decides about it runs at some time
    [t] of the pass. *)
Lemma pass_row node cs g w id s :
  loop_ok w -> (forall k, 0 <= g k) ->
  (forall k, 0 < g k) \/ NoDup (scheduler.AppName <$> cs) ->
  sandboxes (w_db w) !! id = Some s ->
  exists t, w_now w + g 0%nat <= t <=
      pass_check cs g w + elapsed (next (skip (length cs) (next g))) (length (pass_loses node cs g w)) /\
    lose_all node (pass_loses node cs g w) (verify_all (pass_verifies cs g w) s) = reconciled node cs t s.
Proof.
  intros Hw Hg Hord Hs. set (T := pass_check cs g w). set (h := next (skip (length cs) (next g))).
  assert (forall k, 0 <= next g k) as Hg1 by (intros k; apply Hg).
  assert (forall k, 0 <= h k) as Hh by (intros k; apply Hg).
  pose proof (elapsed_nonneg (next g) (length cs) Hg1) as He.
  pose proof (elapsed_nonneg h (length (pass_loses node cs g w)) Hh) as He'.
  pose proof (Hg (S (length cs))) as Hgc. pose proof (Hg1 0%nat) as Hg0.
  assert (w_now w + g 0%nat + elapsed (next g) (length cs) <= T) as HT by (unfold T, pass_check; lia).
  assert (forall t row, (t, row) ∈ pass_loses node cs g w ->
    T <= t <= T + elapsed h (length (pass_loses node cs g w)) /\ drifting cs T row = true) as Hdrift.
  { intros t row Hin. split.
    - unfold pass_loses in Hin |- *. apply stamps_bounds in Hin; [|done].
      rewrite <- (stamps_snd h T (filter _ _)) in Hin. rewrite length_fmap in Hin.
      pose proof (Hh 0%nat). fold T h in Hin |- *. lia.
    - apply (list_elem_of_fmap_2 snd) in Hin. unfold pass_loses in Hin. rewrite stamps_snd in Hin.
      by apply list_elem_of_filter in Hin as [? _]. }
  assert ((pass_verifies cs g w).*2 = cs) as Hsnd by apply stamps_snd.
  unfold reconciled. destruct (present cs (sb_AppName s)) eqn:Hp.
  - destruct (verify_all_reported (pass_verifies cs g w) s) as (t & c & Hin & Ha & Hv).
    { by apply pass_in_order. }
    { by rewrite Hsnd. }
    exists t. rewrite Hsnd in Hv. split.
    + apply stamps_bounds in Hin; [|done]. lia.
    + rewrite <- Hv. destruct (lose_all_cases node (pass_loses node cs g w)
        (verify_all (pass_verifies cs g w) s)) as [(u & row & Hr & Har & _)|[-> _]]; [|done].
      apply Hdrift in Hr as [_ Hr]. rewrite verify_all_app in Har. unfold drifting in Hr.
      by rewrite Har, Hp in Hr.
  - rewrite verify_all_absent by by rewrite Hsnd.
    destruct (lose_all_cases node (pass_loses node cs g w) s) as [(t & row & Hr & Ha & Hl & ->)|[-> Hnone]].
    + exists t. apply Hdrift in Hr as [Hr _]. split; [lia|].
      by rewrite decide_True.
    + exists T. split; [lia|]. rewrite decide_False; [done|]. intros Hl.
      destruct (pass_loses_row node cs g w id s Hw Hs Hl Hp) as [t Hin].
      apply (Hnone _ _ Hin); [done|]. eapply losable_later; [|exact Hl]. by apply Hdrift in Hin as [[? _] _].
Qed.

(** What a pass does, row by row, when time passes before every statement. *)
Lemma Reconcile_run node cs g w :
  loop_ok w -> (forall k, 0 <= g k) ->
  (forall k, 0 < g k) \/ NoDup (scheduler.AppName <$> cs) ->
  exists g' w', exec_clock (Reconcile node cs) g w = (Ok tt, (g', w')) /\
    (exists n, w_now w' = w_now w + elapsed g n) /\
    w' = set_now (w_now w') (set_db (set_sandboxes (sandboxes (w_db w')) (w_db w)) w) /\
    forall id, exists t, w_now w + g 0%nat <= t <= w_now w' /\
      sandboxes (w_db w') !! id = reconciled node cs t <$> sandboxes (w_db w) !! id.
Proof.
  intros Hw Hg Hord. destruct (Reconcile_rows node cs g w Hw) as [g' Hex].
  eexists g', _. split; [exact Hex|]. split; [|split; [done|]].
  - exists (S (length cs + S (length (pass_loses node cs g w)))). simpl.
    rewrite elapsed_app. unfold pass_check. simpl.
    change (skip (length cs) (next g) 0%nat) with (g (S (length cs + 0))). rewrite Nat.add_0_r. lia.
  - intros id. simpl. rewrite lookup_fmap. destruct (sandboxes (w_db w) !! id) as [s|] eqn:Hs; simpl.
    + destruct (pass_row node cs g w id s) as (t & Ht & Hr); [done..|]. exists t. split; [done|]. by rewrite Hr.
    + exists (w_now w + g 0%nat). split; [|done]. unfold pass_check.
      pose proof (elapsed_nonneg (next g) (length cs) (fun k => Hg _)).
      pose proof (elapsed_nonneg (next (skip (length cs) (next g))) (length (pass_loses node cs g w)) (fun k => Hg _)).
      pose proof (Hg (S (length cs))). lia.
Qed.

(** With the clock standing still, for a report that names no application
    twice. *)
Lemma Reconcile_exec node cs w :
  w_faults w = [] -> db_wf (w_db w) -> counters_ok (w_db w) -> NoDup (scheduler.AppName <$> cs) ->
  exec (Reconcile node cs) w = (Ok tt, with_rows (reconciled node cs (w_now w)) w).
Proof.
  intros Hf Hwf Hc Hnd.
  destruct (Reconcile_run node cs (fun _ => 0) w) as (g' & w' & Hex & (n & Hnow) & Hw' & Hrows);
    [done|done|by right|].
  rewrite exec_clock_frozen in Hex. destruct (exec (Reconcile node cs) w) as [r w1].
  injection Hex as -> _ ->. f_equal.
  assert (w_now w' = w_now w) as Hn.
  { rewrite Hnow, elapsed_zero by done. lia. }
  assert (sandboxes (w_db w') = reconciled node cs (w_now w) <$> sandboxes (w_db w)) as Hr.
  { apply map_eq. intros id. rewrite lookup_fmap.
    destruct (Hrows id) as (t & Ht & ->). assert (t = w_now w) as -> by lia. done. }
  rewrite Hw', Hn, Hr. done.
Qed.

(** Whatever the report, only rows of sandboxes change. *)
Lemma Reconcile_frame node cs w :
  w_faults w = [] -> db_wf (w_db w) -> counters_ok (w_db w) ->
  exists f, exec (Reconcile node cs) w = (Ok tt, with_rows f w).
Proof.
  intros Hf Hwf Hc. destruct (Reconcile_rows node cs (fun _ => 0) w) as [g' Hex]; [done|].
  rewrite exec_clock_frozen in Hex. destruct (exec (Reconcile node cs) w) as [r w1].
  injection Hex as -> _ ->. eexists. f_equal. rewrite set_now_rows. f_equal.
  unfold pass_check. rewrite !elapsed_zero by done. rewrite !Z.add_0_r. apply set_now_same.
Qed.
End Worlds.

(** ** Freshness marks *)

Definition gone_row (now : Z) (s : Sandbox) : Sandbox :=
  upd_sandbox s (sb_NodeID s) (sb_ContainerID s) (sb_HostPort s) StateDestroyed
    (sb_StateVersion s + 1) now (sb_LastActiveAt s) (sb_FailureCount s)
    (jsonb_concat (sb_Metadata s) (reason_doc "agent_lost_at_freshness_check")) now.

Definition gone (app : string) (now : Z) (s : Sandbox) : Sandbox :=
  if decide (sb_AppName s = app /\ live_state (sb_State s) = true) then gone_row now s else s.

Lemma run_MarkSandboxDestroyed app now db s :
  db_wf db -> find_by_app db app = Some s -> roomy s ->
  rows_only (gone app now) db
    (MarkSandboxDestroyed app "agent_lost_at_freshness_check" now db).2.
Proof.
  intros Hwf Hs [Hv Hfc].
  assert (gone app now <$> sandboxes db =
    (fun t => if decide (sb_AppName t = app) then gone app now t else t) <$> sandboxes db) as Hg.
  { apply map_fmap_ext. intros i t _. unfold gone. repeat case_decide; by try tauto. }
  unfold rows_only. rewrite Hg. unfold MarkSandboxDestroyed. rewrite Hs.
  pose proof Hs as Hs'. apply (find_by_app_Some _ _ _ Hwf) in Hs' as [Hrow Happ].
  destruct (live_state (sb_State s)) eqn:Hl.
  - rewrite exec_unit_snd. fold (gone_row now s). rewrite (run_write_sandbox (gone_row now s)).
    + simpl. rewrite <- (app_update_map db app (gone app now) s Hwf Hs); unfold gone;
        by rewrite decide_True.
    + done.
    + apply int4_small. simpl. lia.
    + apply int4_small. simpl. lia.
    + exact (so_node _ _ _ (wf_sandboxes _ Hwf _ _ Hrow)).
  - apply rows_only_same, app_update_none; [|done]. intros t Ht. rewrite Hs in Ht. simplify_eq.
    unfold gone. rewrite decide_False; [done|]. intros [_ ?]. congruence.
Qed.

Section Fresh.
Context `{External}.

(** What the agent of the sandbox's node answers, and the world after the
    call. *)
Definition agent_says (name : string) (node : Node) (w : World) : result (bool * string) :=
  match (peer_http (mkRequest "GET" (container_url node name) None) (w_peers w)).1 with
  | Err e => Err e
  | Ok resp => container_answer resp
  end.
Definition asked_agent (name : string) (node : Node) (w : World) : World :=
  set_peers (peer_http (mkRequest "GET" (container_url node name) None) (w_peers w)).2 w.

(** The node of an application, when the agent client finds one. *)
Definition node_of (name : string) (db : DB) : result Node :=
  match find_by_app db name with
  | None => Err ErrNoRows
  | Some s =>
      match sb_NodeID s with
      | None => Err (Sentinel "sandbox not assigned to a node")
      | Some n => match nodes db !! n with None => Err ErrNoRows | Some node => Ok node end
      end
  end.

Definition client_says (name : string) (w : World) : result (bool * string) :=
  match node_of name (w_db w) with Err e => Err e | Ok node => agent_says name node w end.
Definition asked_client (name : string) (w : World) : World :=
  match node_of name (w_db w) with Err _ => w | Ok node => asked_agent name node w end.

Lemma ContainerExists_exec name w :
  w_faults w = [] -> exec (ContainerExists name) w = (client_says name w, asked_client name w).
Proof.
  intros Hf. unfold ContainerExists, client_says, asked_client, node_of.
  rewrite exec_bind, (exec_statement _ _ Hf). unfold exec_db, GetSandboxByAppName.
  destruct (find_by_app (w_db w) name) as [s|] eqn:Hs; cbv beta iota; rewrite set_db_same; [|done].
  destruct (sb_NodeID s) as [n|]; [|done].
  rewrite exec_bind, (exec_statement _ _ Hf). unfold exec_db, GetNode, find_node. cbn [mbind option_bind].
  destruct (nodes (w_db w) !! n) as [node|]; cbv beta iota; rewrite set_db_same; [|done].
  rewrite exec_bind, exec_http. unfold agent_says, asked_agent.
  by destruct (peer_http _ _) as [[resp|e] p].
Qed.

(** A world in which a check for [name] runs without a failure of the
    database or an overflow. *)
Record fresh_ok (name : string) (w : World) : Prop := mk_fresh_ok {
  fo_loop : loop_ok w;
  fo_roomy s : find_by_app (w_db w) name = Some s -> roomy s;
}.

#[export, refine] Instance freshnessStore_lawful : FreshnessLaws := {|
  fl_good := fresh_ok;
  fl_row name w := match find_by_app (w_db w) name with
                   | None => Err ErrNoRows
                   | Some s => Ok (freshness_row s, sb_VerifiedAt s)
                   end;
  fl_says := client_says;
  fl_asked := asked_client;
  fl_verified name st w := with_rows (verify name st (w_now w)) w;
  fl_destroyed name reason w := (exec (db (MarkSandboxDestroyed name reason)) w).2;
|}.
Proof.
  - intros name w [[Hf _ _] _]. cbn [fs_GetSandboxByName freshnessStoreAdapter].
    unfold freshness_GetSandboxByName. rewrite exec_bind, (exec_statement _ _ Hf).
    unfold exec_db, GetSandboxByAppName.
    destruct (find_by_app (w_db w) name); simpl; by rewrite set_db_same.
  - intros name w [[Hf Hwf _] _]. by apply ContainerExists_exec.
  - intros name st w [[Hf Hwf Hc] _]. apply mark_exec; [done|]. by apply run_MarkSandboxVerified.
  - done.
  - intros name w [[Hf Hwf Hc] Hr]. unfold asked_client.
    by destruct (node_of name (w_db w)) as [node|e].
  - intros name st w. unfold asked_client. by destruct (node_of name (w_db w)) as [node|e].
Defined.

Lemma destroyed_exec name w s :
  loop_ok w -> find_by_app (w_db w) name = Some s -> roomy s ->
  (exec (db (MarkSandboxDestroyed name "agent_lost_at_freshness_check")) w).2 =
    with_rows (gone name (w_now w)) w.
Proof.
  intros [Hf Hwf _] Hs Hr. apply mark_exec; [done|]. by apply (run_MarkSandboxDestroyed _ _ _ s).
Qed.
End Fresh.

(** ** Properties *)

(** Peers that answer with a fixed response. *)
Definition answering (r : result http_response) : External := {|
  uuid_New n := (1000 + N.of_nat n)%N; uuid_String i := pretty i; uuid_Parse _ := None;
  random_bytes _ _ := Err (OtherError "no entropy"); pg_text _ c := c;
  peers := unit; peer_http _ p := (r, p) |}.
Definition answering_world (r : result http_response) (d : DB) : @World (answering r) :=
  @mkWorld (answering r) d (3600 * second) 0 [] NewBatcher [] tt.

Section Properties.
#[local] Existing Instance demo_external | 100.

(** C11: a heartbeat reconciles exactly, with every statement at a [NOW()] of its
    own: a row whose application is reported is verified with the last valid
    reported state (an invalid state, which the CHECK refuses, leaves it
    alone); a live row of the node that is not reported and older than the
    grace window is destroyed with the reason recorded; every other row, and
    every other table, is untouched.  The time [t] that a row is marked with,
    and that its guards compare with, lies within the pass. *)
Theorem Reconcile_spec `{External} g node cs w :
  (forall k, 0 < g k) -> w_faults w = [] -> db_wf (w_db w) -> counters_ok (w_db w) ->
  let '(r, (_, w')) := exec_clock (reconcilerAdapter node cs) g w in
  r = Ok tt /\
  w' = set_now (w_now w') (set_db (set_sandboxes (sandboxes (w_db w')) (w_db w)) w) /\
  forall id, exists t, w_now w < t <= w_now w' /\
    sandboxes (w_db w') !! id = reconciled node (to_scheduler <$> cs) t <$> sandboxes (w_db w) !! id.
Proof.
  intros Hg Hf Hwf Hc. unfold reconcilerAdapter.
  destruct (Reconcile_run node (to_scheduler <$> cs) g w) as (g' & w' & -> & _ & Hw' & Hrows);
    [done|intros k; specialize (Hg k); lia|by left|].
  split_and!; [done|done|]. intros id. destruct (Hrows id) as (t & Ht & Hr). exists t.
  split; [specialize (Hg 0%nat); lia|done].
Qed.

Lemma demo_counters st : counters_ok (demo_db st 0).
Proof. unfold counters_ok. simpl. intros id s [<- <-]%lookup_singleton_Some. by vm_compute. Qed.

(** An empty report loses the sandbox; of two containers with its name the
    later one decides. *)
Lemma Reconcile_spec_witness :
  let w := demo_late (demo_db StateRunning 0) in
  let after cs := (exec_clock (reconcilerAdapter 1 cs) (fun _ => 1) w).2.2 in
  (sb_State <$> sandboxes (w_db (after [])) !! 7%N) = Some StateDestroyed /\
  (sb_State <$> sandboxes (w_db (after [mkContainerInfo "my-app" "running" 0 "";
                                        mkContainerInfo "my-app" "stopped" 0 ""])) !! 7%N)
    = Some StateStopped.
Proof.
  intros w after.
  assert (db_wf (w_db w)) as Hwf by (apply demo_db_wf, in_states; reflexivity).
  assert (forall cs, exists t, w_now w < t /\ sandboxes (w_db (after cs)) !! 7%N =
    Some (reconciled 1 (to_scheduler <$> cs) t (demo_sandbox StateRunning 0))) as Hrow.
  { intros cs. unfold after.
    pose proof (@Reconcile_spec demo_external (fun _ => 1) 1 cs w
      (fun _ => eq_refl) eq_refl Hwf (demo_counters _)) as Hspec.
    destruct (exec_clock (reconcilerAdapter 1 cs) _ w) as [r [g' w']].
    destruct Hspec as (_ & _ & Hrows). destruct (Hrows 7%N) as (t & [Ht _] & Hr).
    exists t. split; [exact Ht|exact Hr]. }
  change (w_now w) with (3600 * second) in Hrow. split.
  - destruct (Hrow []) as (t & Ht & ->). cbn [fmap list_fmap option_fmap option_map].
    unfold reconciled. replace (present _ _) with false by reflexivity. cbv iota.
    rewrite decide_True; [reflexivity|]. split; [reflexivity|].
    split; [reflexivity|]. change (sb_CreatedAt _) with 0. unfold second in *. lia.
  - destruct (Hrow [mkContainerInfo "my-app" "running" 0 ""; mkContainerInfo "my-app" "stopped" 0 ""])
      as (t & Ht & ->).
    cbn [fmap option_fmap option_map]. unfold reconciled. replace (present _ _) with true by reflexivity.
    replace (reported_state _ _) with (Some StateStopped) by reflexivity. cbv iota.
    rewrite decide_True; [reflexivity|].
    change (sb_VerifiedAt _) with 0. unfold second in *. lia.
Defined.

(** A destroyed row does not stay destroyed: a report whose last valid state of
    the application is running, from any node, puts the terminal row back to
    running. *)
Theorem Reconcile_resurrects `{External} g node cs w id s :
  (forall k, 0 < g k) -> w_faults w = [] -> db_wf (w_db w) -> counters_ok (w_db w) ->
  sandboxes (w_db w) !! id = Some s -> sb_State s = StateDestroyed -> sb_VerifiedAt s <= w_now w ->
  reported_state (to_scheduler <$> cs) (sb_AppName s) = Some StateRunning ->
  let w' := (exec_clock (reconcilerAdapter node cs) g w).2.2 in
  IsTerminal (sb_State s) = true /\ (sb_State <$> sandboxes (w_db w') !! id) = Some StateRunning.
Proof.
  intros Hg Hf Hwf Hc Hs Hst Hv Hr w'. split; [by rewrite Hst|].
  destruct (Reconcile_run node (to_scheduler <$> cs) g w) as (g' & w1 & E & _ & _ & Hrows);
    [done|intros k; specialize (Hg k); lia|by left|].
  unfold w', reconcilerAdapter. rewrite E. simpl. destruct (Hrows id) as (t & Ht & ->).
  rewrite Hs. simpl. unfold reconciled.
  rewrite (reported_state_present _ _ _ Hr), Hr, decide_True; [done|]. specialize (Hg 0%nat). lia.
Qed.

Lemma Reconcile_resurrects_witness :
  let w := demo_late (demo_db StateDestroyed 0) in
  (sb_State <$> sandboxes (w_db (exec_clock (reconcilerAdapter 2 [mkContainerInfo "my-app" "running" 0 ""])
     (fun _ => 1) w).2.2) !! 7%N) = Some StateRunning.
Proof.
  intros w.
  apply (@Reconcile_resurrects demo_external (fun _ => 1) 2 [mkContainerInfo "my-app" "running" 0 ""] w 7
    (demo_sandbox StateDestroyed 0)); try reflexivity.
  - apply demo_db_wf, in_states. reflexivity.
  - apply demo_counters.
  - discriminate.
Defined.

(** The freshness check of a stale (or forced) row: when the agent of the
    sandbox's node answers 404, or 200 with [exists] false, the caller gets
    [ErrSandboxNotFound] and a live row is destroyed; when it answers 200 with
    [exists] true the row is verified with the reported state, but the caller
    gets the row read before, with the old state and the new time; when the
    agent cannot be reached or answers anything else, the caller gets the
    cached row and nothing is written. *)
Theorem GetSandboxFresh_stale `{External} freshness force w s n node :
  w_faults w = [] -> db_wf (w_db w) -> counters_ok (w_db w) -> roomy s ->
  find_by_app (w_db w) (sb_AppName s) = Some s -> sb_NodeID s = Some n ->
  nodes (w_db w) !! n = Some node ->
  force = true \/ freshness < w_now w - sb_VerifiedAt s ->
  exec (GetSandboxFresh freshness (sb_AppName s) force) w =
    match agent_says (sb_AppName s) node w with
    | Ok (true, st) =>
        (Ok (freshness_row s, w_now w), with_rows (verify (sb_AppName s) st (w_now w)) (asked_agent (sb_AppName s) node w))
    | Ok (false, _) =>
        (Err ErrSandboxNotFound, with_rows (gone (sb_AppName s) (w_now w)) (asked_agent (sb_AppName s) node w))
    | Err _ => (Ok (freshness_row s, sb_VerifiedAt s), asked_agent (sb_AppName s) node w)
    end.
Proof.
  intros Hf Hwf Hc Hroom Hs Hn Hnode Hstale.
  rewrite GetSandboxFresh_lawful; cycle 1.
  { split; [done|]. intros t Ht. rewrite Hs in Ht. by simplify_eq. }
  cbn [fl_row fl_says fl_asked fl_verified fl_destroyed freshnessStore_lawful].
  unfold client_says, asked_client, node_of. rewrite Hs, Hn, Hnode.
  replace (negb (freshness <? w_now w - sb_VerifiedAt s) && negb force) with false; cycle 1.
  { destruct Hstale as [->|?%Z.ltb_lt]; [by rewrite andb_false_r|]. by rewrite H0. }
  destruct (agent_says (sb_AppName s) node w) as [[[] st]|e]; [done| |done].
  by rewrite (destroyed_exec _ _ s).
Qed.

(** The agent reports the container stopped: the database says so, the answer
    still says running. *)
Lemma GetSandboxFresh_stale_witness :
  let r := Ok (mkResponse 200 (Some (JObj [("exists", JBool true); ("state", JStr "stopped")]))) in
  let w := answering_world r (demo_db StateRunning 0) in
  let '(a, w') := @exec (answering r) _ (@GetSandboxFresh (answering r) _ _ 10 "my-app" false) w in
  a = Ok (freshness_row (demo_sandbox StateRunning 0), 3600 * second) /\
  (sb_State <$> sandboxes (w_db w') !! 7%N) = Some StateStopped.
Proof.
  intros r w.
  pose proof (@GetSandboxFresh_stale (answering r) 10 false w (demo_sandbox StateRunning 0) 1
    demo_node) as H.
  change "my-app" with (sb_AppName (demo_sandbox StateRunning 0)).
  rewrite H; [split; reflexivity|reflexivity|..|reflexivity|reflexivity|reflexivity|by right].
  - apply demo_db_wf, in_states. reflexivity.
  - apply demo_counters.
  - vm_compute. repeat split; discriminate.
Defined.

End Properties.
