(* ===== verification/Caddy.v ===== *)
(** The proxy side of control/internal/routing: [CaddyClient] (caddy.go) over
    HTTP, and the [DriftDetector] (drift.go) that compares Caddy's routes with
    the running sandboxes. *)

From S2P Require Import Prelude Netip Json Models Scheduler Store StoreFacts Routing Effects.
From S2P Require Import StoreRuns Sweep AckFacts.

(** ** CaddyClient *)

(** [strings.TrimRight(s, "/")] *)
Fixpoint TrimRightSlash (s : string) : string :=
  match s with
  | EmptyString => EmptyString
  | String c s' =>
      let r := TrimRightSlash s' in
      if String.eqb r "" && Ascii.eqb c (Ascii.ascii_of_nat 47) then "" else String c r
  end.

Record CaddyClient := mkCaddyClient { cc_baseURL : string }.

Definition NewCaddyClient (baseURL : string) : CaddyClient := mkCaddyClient (TrimRightSlash baseURL).

Definition routes_url (c : CaddyClient) : string :=
  cc_baseURL c +:+ "/config/apps/http/servers/srv0/routes".
Definition route_url (c : CaddyClient) (app : string) : string :=
  cc_baseURL c +:+ "/id/route-" +:+ app.

(** The status is part of the message; the response's text, which follows it,
    is not modelled. *)
Definition status_error (op : string) (status : Z) : error :=
  OtherError ("caddy " +:+ op +:+ ": status " +:+ pretty status).

Section Client.
Context `{External}.

Definition AddRoute (c : CaddyClient) (r : Route) : ctl (result unit) :=
  resp <-? http_Do (mkRequest "POST" (routes_url c) (Some (buildRouteJSON r)))
    orelse "caddy POST" ;;
  Ret (if rs_status resp =? 200 then Ok tt else Err (status_error "AddRoute" (rs_status resp))).

(** A 404 is no error. *)
Definition RemoveRoute (c : CaddyClient) (app : string) : ctl (result unit) :=
  resp <-? http_Do (mkRequest "DELETE" (route_url c app) None) orelse "caddy DELETE" ;;
  Ret (if (rs_status resp =? 200) || (rs_status resp =? 404) then Ok tt
       else Err (status_error "RemoveRoute" (rs_status resp))).

Definition ListRoutes (c : CaddyClient) : ctl (result (list Route)) :=
  resp <-? http_Do (mkRequest "GET" (routes_url c) None) orelse "caddy GET" ;;
  Ret (if negb (rs_status resp =? 200) then Err (status_error "ListRoutes" (rs_status resp))
       else match rs_json resp with
            | None => Err (Wrap "decode routes" (OtherError "invalid JSON"))
            | Some j => match decode_routes j with
                        | Ok rs => Ok rs
                        | Err e => Err (Wrap "decode routes" e)
                        end
            end).

(** [Apply]: the adds, then the removes; the errors are collected
    ([errors.Join]), no operation is skipped. *)
Definition apply_add (c : CaddyClient) (errs : list error) (r : Route) : ctl (list error) :=
  x <- AddRoute c r ;;
  Ret (match x with Ok _ => errs | Err e => errs ++ [Wrap ("add " +:+ rt_AppName r) e] end).
Definition apply_remove (c : CaddyClient) (errs : list error) (app : string) : ctl (list error) :=
  x <- RemoveRoute c app ;;
  Ret (match x with Ok _ => errs | Err e => errs ++ [Wrap ("remove " +:+ app) e] end).

Definition Apply (c : CaddyClient) (adds : list Route) (removes : list string) : ctl (list error) :=
  errs <- range (apply_add c) adds [] ;; range (apply_remove c) removes errs.
End Client.

(** ** DriftDetector *)

Section Drift.
Context `{External, MapOrder}.

(** Maps by application, the last entry winning. *)
Definition by_app {V} (key : V -> string) (l : list V) : gmap string V :=
  foldl (fun m v => <[key v := v]> m) ∅ l.

Definition remove_stale (c : CaddyClient) (pgMap : gmap string Sandbox) (removed : Z)
    (entry : string * Route) : ctl Z :=
  match pgMap !! entry.1 with
  | Some _ => Ret removed
  | None => r <- RemoveRoute c entry.1 ;; Ret (if is_ok r then removed + 1 else removed)
  end.

Definition add_missing (c : CaddyClient) (caddyMap : gmap string Route) (added : Z)
    (entry : string * Sandbox) : ctl Z :=
  let '(app, sb) := entry in
  match caddyMap !! app with
  | Some _ => Ret added
  | None =>
      match sb_NodeID sb with
      | None => Ret added
      | Some n =>
          node <- db (GetNode (Some n)) ;;
          match node with
          | Err _ => Ret added
          | Ok nd =>
              match sb_HostPort sb with
              | None => Ret added
              | Some port =>
                  r <- AddRoute c (mkRoute app (uuid_String (sb_ID sb))
                         (Addr_String (nd_TailscaleIp nd) +:+ ":" +:+ pretty port)) ;;
                  Ret (if is_ok r then added + 1 else added)
              end
          end
      end
  end.

(** [detect], answering the counts it logs. *)
Definition detect (c : CaddyClient) : ctl (Z * Z) :=
  caddyRoutes <- ListRoutes c ;;
  match caddyRoutes with
  | Err _ => Ret (0, 0)
  | Ok caddyRoutes =>
      sandboxes <- db (ListSandboxesByState StateRunning) ;;
      match sandboxes with
      | Err _ => Ret (0, 0)
      | Ok sandboxes =>
          let caddyMap := by_app rt_AppName caddyRoutes in
          let pgMap := by_app sb_AppName sandboxes in
          removed <- range (remove_stale c pgMap) (visit caddyMap) 0 ;;
          added <- range (add_missing c caddyMap) (visit pgMap) 0 ;;
          Ret (added, removed)
      end
  end.

(** The detector only reads the database. *)
Lemma issues_detect c : issues (within (fun _ _ => False)) (detect c).
Proof.
  unfold detect, ListRoutes. issue_tac; apply issues_range; intros b x _.
  - unfold remove_stale, RemoveRoute. issue_tac.
  - unfold add_missing, AddRoute. issue_tac.
Qed.
End Drift.

(** ** Caddy

    The documented behaviour of Caddy's admin API that the client relies on,
    for a configuration that holds this program's routes only: the ids are
    unique, GET lists the routes, POST appends one whose id is free and refuses
    one whose id is taken (the configuration stays as it was), DELETE by id
    removes the route or answers 404. *)
Definition names (rs : list Route) : list string := rt_AppName <$> rs.

Class CaddyServer `{External} (c : CaddyClient) := {
  held : peers -> list Route;
  caddy_unique p : NoDup (names (held p));
  caddy_get p :
    peer_http (mkRequest "GET" (routes_url c) None) p =
      (Ok (mkResponse 200 (Some (JArr (buildRouteJSON <$> held p)))), p);
  caddy_post p r : (rt_AppName r ∉ names (held p)) -> exists p',
    peer_http (mkRequest "POST" (routes_url c) (Some (buildRouteJSON r))) p =
      (Ok (mkResponse 200 None), p') /\ held p' = held p ++ [r];
  caddy_post_taken p r : rt_AppName r ∈ names (held p) -> exists resp p',
    peer_http (mkRequest "POST" (routes_url c) (Some (buildRouteJSON r))) p = (Ok resp, p') /\
    rs_status resp <> 200 /\ held p' = held p;
  caddy_delete p app : exists p' st,
    peer_http (mkRequest "DELETE" (route_url c app) None) p = (Ok (mkResponse st None), p') /\
    (st = 200 \/ st = 404) /\ held p' = filter (fun r => rt_AppName r <> app) (held p);
}.

(** The routes after a POST, and after several. *)
Definition post_route (rs : list Route) (r : Route) : list Route :=
  if decide (rt_AppName r ∈ names rs) then rs else rs ++ [r].

Lemma names_app rs rs' : names (rs ++ rs') = names rs ++ names rs'.
Proof. apply fmap_app. Qed.

Lemma post_route_new rs r : rt_AppName r ∉ names rs -> post_route rs r = rs ++ [r].
Proof. intros Hr. unfold post_route. by rewrite decide_False. Qed.

Lemma post_routes_new rs l : NoDup (names (rs ++ l)) -> foldl post_route rs l = rs ++ l.
Proof.
  revert rs. induction l as [|r l IH]; intros rs Hnd; simpl; [by rewrite app_nil_r|].
  rewrite post_route_new, IH, <- app_assoc; [done|by rewrite <- app_assoc|].
  rewrite names_app in Hnd. apply NoDup_app in Hnd as (_ & Hdisj & _).
  intros Hin. apply (Hdisj _ Hin). by left.
Qed.

(** ** Maps by application *)

Section ByApp.
Context {V : Type} (key : V -> string).

Lemma by_app_snoc l v : by_app key (l ++ [v]) = <[key v := v]> (by_app key l).
Proof. unfold by_app. by rewrite foldl_app. Qed.

Lemma by_app_Some l k v : by_app key l !! k = Some v -> v ∈ l /\ key v = k.
Proof.
  induction l as [|x l IH] using rev_ind; [done|]. rewrite by_app_snoc, lookup_insert.
  case_decide; [|set_solver]. intros [= ->]. set_solver.
Qed.

Lemma by_app_is_Some l k : is_Some (by_app key l !! k) <-> k ∈ key <$> l.
Proof.
  split.
  - intros [v [Hv <-]%by_app_Some]. by apply list_elem_of_fmap_2.
  - induction l as [|x l IH] using rev_ind; [by intros ?%not_elem_of_nil|].
    rewrite by_app_snoc, lookup_insert, fmap_app. intros [Hk| ->%list_elem_of_singleton]%elem_of_app.
    + case_decide; eauto.
    + rewrite decide_True by done. eauto.
Qed.

Lemma by_app_unique l v :
  (forall x y, x ∈ l -> y ∈ l -> key x = key y -> x = y) -> v ∈ l ->
  by_app key l !! key v = Some v.
Proof.
  intros Hu Hv. destruct (proj2 (by_app_is_Some l (key v))) as [x Hx];
    [by apply list_elem_of_fmap_2|].
  rewrite Hx. f_equal. apply by_app_Some in Hx as [Hx Hk]. by apply Hu.
Qed.
End ByApp.

Section DriftFacts.
Context `{External, MapOrder} (c : CaddyClient) `{!CaddyServer c}.

Definition w_held (w : World) : list Route := held (w_peers w).

Lemma set_peers_same w : set_peers (w_peers w) w = w.
Proof. by destruct w. Qed.

Lemma AddRoute_runs r w (Q : result unit -> World -> Prop) :
  (forall x p, held p = post_route (w_held w) r ->
     (is_ok x = true <-> rt_AppName r ∉ names (w_held w)) -> Q x (set_peers p w)) ->
  ctl_wp (AddRoute c r) Q w.
Proof.
  intros HQ. unfold AddRoute. apply wp_bind_http.
  destruct (decide (rt_AppName r ∈ names (w_held w))) as [Hin|Hin].
  - destruct (caddy_post_taken (w_peers w) r Hin) as (resp & p & -> & Hst & Hp).
    apply ctl_wp_ret. rewrite (proj2 (Z.eqb_neq _ _) Hst). apply HQ; [|done].
    unfold post_route. by rewrite decide_True.
  - destruct (caddy_post (w_peers w) r Hin) as (p & -> & Hp). apply ctl_wp_ret. apply HQ; [|done].
    by rewrite post_route_new.
Qed.

Lemma RemoveRoute_runs app w (Q : result unit -> World -> Prop) :
  (forall p, held p = filter (fun r => rt_AppName r <> app) (w_held w) ->
     Q (Ok tt) (set_peers p w)) ->
  ctl_wp (RemoveRoute c app) Q w.
Proof.
  intros HQ. unfold RemoveRoute. apply wp_bind_http.
  destruct (caddy_delete (w_peers w) app) as (p & st & -> & [-> | ->] & Hp);
    apply ctl_wp_ret; by apply HQ.
Qed.

Definition shown (r : Route) : Route := mkRoute (rt_AppName r) "" (rt_Upstream r).

Lemma ListRoutes_runs w (Q : result (list Route) -> World -> Prop) :
  Forall (fun r => rt_AppName r <> "") (w_held w) ->
  Q (Ok (shown <$> w_held w)) w -> ctl_wp (ListRoutes c) Q w.
Proof.
  intros Hne HQ. unfold ListRoutes. apply wp_bind_http.
  rewrite (caddy_get (w_peers w)). cbn [rs_status rs_json].
  rewrite decode_build_routes by done. apply ctl_wp_ret. by destruct w.
Qed.

(** *** Applying a batch *)

Lemma apply_adds_runs adds errs w (Q : list error -> World -> Prop) :
  (forall errs' p, held p = foldl post_route (w_held w) adds ->
     (NoDup (names (w_held w ++ adds)) -> errs' = errs) -> Q errs' (set_peers p w)) ->
  ctl_wp (range (apply_add c) adds errs) Q w.
Proof.
  revert errs w. induction adds as [|r adds IH]; intros errs w HQ; cbn [range].
  - apply ctl_wp_ret. rewrite <- (set_peers_same w). by apply HQ.
  - apply ctl_wp_bind. unfold apply_add. apply ctl_wp_bind, AddRoute_runs. intros x p Hp Hx.
    apply ctl_wp_ret. apply (IH _ (set_peers p w)). intros errs' p' Hp' He.
    unfold w_held in *. cbn [w_peers set_peers] in *.
    apply (HQ errs' p'); [by rewrite Hp', Hp|]. intros Hnd.
    assert (rt_AppName r ∉ names (held (w_peers w))) as Hnew.
    { rewrite names_app in Hnd. apply NoDup_app in Hnd as (_ & Hdisj & _).
      intros Hin. apply (Hdisj _ Hin). by left. }
    rewrite He.
    + apply Hx in Hnew. by destruct x.
    + rewrite Hp, post_route_new, <- app_assoc by done. exact Hnd.
Qed.

Lemma apply_removes_runs removes errs w (Q : list error -> World -> Prop) :
  (forall p, held p = filter (fun r => rt_AppName r ∉ removes) (w_held w) ->
     Q errs (set_peers p w)) ->
  ctl_wp (range (apply_remove c) removes errs) Q w.
Proof.
  revert w. induction removes as [|app removes IH]; intros w HQ; cbn [range].
  - apply ctl_wp_ret. rewrite <- (set_peers_same w). apply HQ.
    symmetry. apply filter_all. intros r _. apply not_elem_of_nil.
  - apply ctl_wp_bind. unfold apply_remove. apply ctl_wp_bind, RemoveRoute_runs. intros p Hp.
    apply ctl_wp_ret. apply (IH (set_peers p w)). intros p' Hp'. unfold w_held in *. simpl in Hp'.
    apply (HQ p'). rewrite Hp', Hp, list_filter_filter. apply list_filter_iff.
    intros r. rewrite not_elem_of_cons. tauto.
Qed.

(** *** Detection *)

Definition running_sandboxes (d : DB) : list Sandbox :=
  newest_first (filter (fun s => sb_State s = StateRunning) (sandbox_rows d)).
Definition pg_map (d : DB) : gmap string Sandbox := by_app sb_AppName (running_sandboxes d).

Lemma pg_map_Some d app s :
  db_wf d -> pg_map d !! app = Some s <-> find_by_app d app = Some s /\ sb_State s = StateRunning.
Proof.
  intros Hwf. unfold pg_map, running_sandboxes, newest_first. split.
  - intros [Hs <-]%by_app_Some. apply elem_of_selection in Hs as [Hst Hs]; [|done].
    split; [|done]. by apply find_by_app_Some.
  - intros [Hs Hst]. apply (find_by_app_Some _ _ _ Hwf) in Hs as [Hs <-].
    apply by_app_unique; [|by apply elem_of_selection].
    intros x y [_ Hx]%elem_of_selection [_ Hy]%elem_of_selection Heq; [|done..].
    pose proof (wf_unique _ Hwf _ _ _ _ Hx Hy Heq) as E. rewrite E in Hx. congruence.
Qed.

(** The routes that survive the visit of the entries [l]. *)
Definition kept (pg : gmap string Sandbox) (l : list string) (r : Route) : Prop :=
  ~ (rt_AppName r ∈ l /\ pg !! rt_AppName r = None).
#[export] Instance kept_dec pg l r : Decision (kept pg l r).
Proof. unfold kept. apply _. Defined.

Lemma remove_loop pg l n w (Q : Z -> World -> Prop) :
  (forall m p, held p = filter (kept pg l.*1) (w_held w) -> Q m (set_peers p w)) ->
  ctl_wp (range (remove_stale c pg) l n) Q w.
Proof.
  revert n w. induction l as [|[app r] l IH]; intros n w HQ; cbn [range].
  - apply ctl_wp_ret. rewrite <- (set_peers_same w). apply HQ. symmetry. apply filter_all.
    intros r _ [Hin _]. by apply not_elem_of_nil in Hin.
  - apply ctl_wp_bind. unfold remove_stale at 1. cbn [fst].
    destruct (pg !! app) as [s|] eqn:Hpg.
    + apply ctl_wp_ret, IH. intros m p Hp. apply HQ. rewrite Hp. apply list_filter_iff.
      intros x. unfold kept. csimpl. rewrite elem_of_cons. naive_solver congruence.
    + apply ctl_wp_bind, RemoveRoute_runs. intros p Hp. apply ctl_wp_ret, IH.
      intros m p' Hp'. apply (HQ m p'). rewrite Hp'. unfold w_held at 1. simpl.
      rewrite Hp, list_filter_filter. apply list_filter_iff. intros x. unfold kept.
      csimpl. rewrite elem_of_cons. naive_solver congruence.
Qed.

(** The route a running sandbox should have, if it can be addressed. *)
Definition route_of (d : DB) (app : string) (sb : Sandbox) : option Route :=
  n ← sb_NodeID sb; nd ← nodes d !! n; port ← sb_HostPort sb;
  Some (mkRoute app (uuid_String (sb_ID sb)) (Addr_String (nd_TailscaleIp nd) +:+ ":" +:+ pretty port)).

Definition missing_route (d : DB) (cm : gmap string Route) (entry : string * Sandbox)
  : option Route :=
  match cm !! entry.1 with Some _ => None | None => route_of d entry.1 entry.2 end.

Lemma add_loop cm l n w (Q : Z -> World -> Prop) :
  w_faults w = [] ->
  (forall m p, held p = foldl post_route (w_held w) (omap (missing_route (w_db w) cm) l) ->
     Q m (set_peers p w)) ->
  ctl_wp (range (add_missing c cm) l n) Q w.
Proof.
  revert n w. induction l as [|[app sb] l IH]; intros n w Hf HQ; cbn [range].
  - apply ctl_wp_ret. rewrite <- (set_peers_same w). by apply HQ.
  - apply ctl_wp_bind. unfold add_missing at 1.
    assert (forall m, missing_route (w_db w) cm (app, sb) = None ->
      ctl_wp (range (add_missing c cm) l m) Q w) as Hskip.
    { intros m Hm. apply IH; [done|]. intros m' p Hp. apply (HQ m' p). cbn [omap list_omap].
      by rewrite Hm. }
    unfold missing_route, route_of in Hskip. simpl in Hskip.
    destruct (cm !! app) eqn:Hcm; [by apply ctl_wp_ret, Hskip|].
    destruct (sb_NodeID sb) as [nid|] eqn:Hn; [|by apply ctl_wp_ret, Hskip].
    simpl in Hskip. destruct (nodes (w_db w) !! nid) as [nd|] eqn:Hnd; cycle 1.
    { step_by (unfold GetNode, find_node; simpl; by rewrite Hnd). rewrite set_db_same.
      by apply ctl_wp_ret, Hskip. }
    step_by (by apply run_GetNode). rewrite set_db_same. simpl in Hskip.
    destruct (sb_HostPort sb) as [port|] eqn:Hp; [|by apply ctl_wp_ret, Hskip].
    apply ctl_wp_bind, AddRoute_runs. intros x p Hheld _. apply ctl_wp_ret, IH; [done|].
    intros m p' Hp'. apply (HQ m p'). rewrite Hp'. unfold w_held at 1. simpl. rewrite Hheld.
    cbn [omap list_omap]. unfold missing_route at 2, route_of. simpl.
    rewrite Hcm, Hn. simpl. rewrite Hnd. simpl. rewrite Hp. done.
Qed.

Lemma route_of_name d app s r : route_of d app s = Some r -> rt_AppName r = app.
Proof.
  unfold route_of. destruct (sb_NodeID s); simpl; [|done].
  destruct (nodes d !! _); simpl; [|done]. destruct (sb_HostPort s); simpl; [|done].
  by intros [= <-].
Qed.

Lemma missing_route_name d cm entry r :
  missing_route d cm entry = Some r -> rt_AppName r = entry.1 /\ cm !! entry.1 = None.
Proof.
  unfold missing_route. destruct (cm !! entry.1); [done|]. intros Hr.
  by apply route_of_name in Hr.
Qed.

(** The routes added are of distinct applications. *)
Lemma missing_distinct d cm (l : list (string * Sandbox)) :
  NoDup l.*1 -> NoDup (names (omap (missing_route d cm) l)).
Proof.
  induction l as [|e l IH]; intros Hnd; [constructor|]. apply NoDup_cons in Hnd as [He Hnd].
  cbn [omap list_omap]. destruct (missing_route d cm e) as [r|] eqn:Hr; [|by apply IH].
  apply missing_route_name in Hr as [Hr _]. constructor; [|by apply IH]. rewrite Hr.
  intros (r' & Hn & (e' & Hin & Hr')%list_elem_of_omap)%list_elem_of_fmap.
  apply missing_route_name in Hr' as [Hr' _]. apply He. rewrite Hn, Hr'. by apply list_elem_of_fmap_2.
Qed.

Lemma detect_runs w (Q : Z * Z -> World -> Prop) :
  w_faults w = [] -> Forall (fun r => rt_AppName r <> "") (w_held w) ->
  let cm := by_app rt_AppName (shown <$> w_held w) in
  (forall n m p, held p =
     filter (fun r => is_Some (pg_map (w_db w) !! rt_AppName r)) (w_held w) ++
     omap (missing_route (w_db w) cm) (visit (pg_map (w_db w))) -> Q (n, m) (set_peers p w)) ->
  ctl_wp (detect c) Q w.
Proof.
  intros Hf Hne cm HQ. unfold detect.
  apply ctl_wp_bind, ListRoutes_runs; [done|].
  step_with (eq_refl (ListSandboxesByState StateRunning (w_now w) (w_db w))). rewrite set_db_same.
  change (by_app sb_AppName _) with (pg_map (w_db w)).
  apply ctl_wp_bind, remove_loop. intros removed p Hp.
  apply ctl_wp_bind, add_loop; [done|]. intros added p' Hp'. apply ctl_wp_ret.
  apply (HQ added removed p'). rewrite Hp'. unfold w_held at 1. cbn [w_peers set_peers w_db].
  set (new := omap _ _).
  assert (NoDup (names (filter (kept (pg_map (w_db w)) (visit cm).*1) (w_held w) ++ new))) as Hnd.
  { rewrite names_app. apply NoDup_app. split_and!.
    - eapply sublist_NoDup; [apply (caddy_unique (w_peers w))|]. apply fmap_sublist, sublist_filter.
    - intros app (r & -> & [_ Hr]%list_elem_of_filter)%list_elem_of_fmap
        (r' & Heq & (e & _ & Hm)%list_elem_of_omap)%list_elem_of_fmap.
      apply missing_route_name in Hm as [Hn Hcm].
      apply eq_None_not_Some in Hcm. apply Hcm, by_app_is_Some. rewrite <- Hn, <- Heq.
      rewrite <- list_fmap_compose. exact (list_elem_of_fmap_2 rt_AppName _ _ Hr).
    - apply missing_distinct. rewrite visit_perm. apply NoDup_fst_map_to_list. }
  rewrite Hp, post_routes_new by done. f_equal.
  apply filter_iff_in. intros r Hr. unfold kept.
  assert (rt_AppName r ∈ (visit cm).*1) as Hin.
  { rewrite visit_perm. destruct (proj2 (by_app_is_Some rt_AppName (shown <$> w_held w) (rt_AppName r)))
      as [x Hx].
    - apply list_elem_of_fmap. exists (shown r). split; [done|]. by apply list_elem_of_fmap_2.
    - apply list_elem_of_fmap. exists (rt_AppName r, x). split; [done|]. by apply elem_of_map_to_list. }
  destruct (pg_map (w_db w) !! rt_AppName r) eqn:Hpg; split; intros; try done.
  - by intros [_ ?].
  - exfalso. auto.
Qed.

(** The routes added for the missing applications. *)
Lemma missing_iff d rs r :
  (exists entry, entry ∈ visit (pg_map d) /\
     missing_route d (by_app rt_AppName (shown <$> rs)) entry = Some r) <->
  (exists s, pg_map d !! rt_AppName r = Some s /\ (rt_AppName r ∉ (rt_AppName <$> rs)) /\
     route_of d (rt_AppName r) s = Some r).
Proof.
  assert (forall app, by_app rt_AppName (shown <$> rs) !! app = None <-> app ∉ (rt_AppName <$> rs)) as Hcm.
  { intros app. rewrite eq_None_not_Some, by_app_is_Some, <- list_fmap_compose. done. }
  split.
  - intros ([app s] & Hs & Hr). rewrite visit_perm in Hs. apply elem_of_map_to_list in Hs.
    unfold missing_route in Hr. simpl in Hr.
    destruct (by_app _ _ !! app) eqn:E; [done|]. apply Hcm in E.
    pose proof (route_of_name _ _ _ _ Hr) as ->. by exists s.
  - intros (s & Hs & Hno & Hr). exists (rt_AppName r, s). split.
    + rewrite visit_perm. by apply elem_of_map_to_list.
    + unfold missing_route. simpl. by rewrite (proj2 (Hcm _) Hno).
Qed.
End DriftFacts.

(** ** A concrete proxy *)

Definition demo_client : CaddyClient := NewCaddyClient "http://caddy:2019/".

(** Reads back what [buildRouteJSON] builds. *)
Definition read_route (j : json) : Route :=
  match j with
  | JObj [(_, JStr id);
          (_, JArr [JObj [_; (_, JObj [(_, JObj [(_, JObj [_; (_, JArr [JStr sid])])])]); _;
                          (_, JArr [JObj [(_, JStr up)]])]]); _] =>
      mkRoute (TrimPrefix id "route-") sid up
  | _ => zero_route
  end.

Lemma read_build r : read_route (buildRouteJSON r) = r.
Proof.
  destruct r as [a s u]. unfold read_route, buildRouteJSON. cbn [rt_AppName rt_SandboxID rt_Upstream].
  by rewrite TrimPrefix_app.
Qed.

(** The first route of every application: a list of routes as a configuration. *)
Definition distinct (p : list Route) : list Route := foldl post_route [] p.

Definition demo_caddy_http (rq : http_request) (p : list Route)
  : result http_response * list Route :=
  if String.eqb (rq_method rq) "GET"
  then (Ok (mkResponse 200 (Some (JArr (buildRouteJSON <$> distinct p)))), p)
  else if String.eqb (rq_method rq) "POST"
  then
    let r := read_route (default JNull (rq_body rq)) in
    (Ok (mkResponse (if decide (rt_AppName r ∈ names p) then 400 else 200) None), post_route p r)
  else
    let app := TrimPrefix (rq_url rq) "http://caddy:2019/id/route-" in
    (Ok (mkResponse (if bool_decide (app ∈ rt_AppName <$> p) then 200 else 404) None),
     filter (fun r => rt_AppName r <> app) p).

Definition demo_caddy_external : External := {|
  uuid_New n := (1000 + N.of_nat n)%N; uuid_String i := pretty i; uuid_Parse _ := None;
  random_bytes _ _ := Err (OtherError "no entropy"); pg_text _ c := c;
  peers := list Route; peer_http := demo_caddy_http |}.

Lemma demo_client_delete app :
  TrimPrefix (route_url demo_client app) "http://caddy:2019/id/route-" = app.
Proof. exact (TrimPrefix_app "http://caddy:2019/id/route-" app). Qed.

Lemma demo_http_post p r :
  demo_caddy_http (mkRequest "POST" (routes_url demo_client) (Some (buildRouteJSON r))) p =
    (Ok (mkResponse (if decide (rt_AppName r ∈ names p) then 400 else 200) None), post_route p r).
Proof.
  transitivity (let x := read_route (buildRouteJSON r) in
    (Ok (mkResponse (if decide (rt_AppName x ∈ names p) then 400 else 200) None) : result http_response,
     post_route p x)); [reflexivity|by rewrite read_build].
Qed.

Lemma demo_http_delete p app : exists st,
  demo_caddy_http (mkRequest "DELETE" (route_url demo_client app) None) p =
    (Ok (mkResponse st None), filter (fun r => rt_AppName r <> app) p) /\ (st = 200 \/ st = 404).
Proof.
  unfold demo_caddy_http. cbn [rq_method rq_url]. rewrite demo_client_delete. eexists. split; [done|].
  case_bool_decide; auto.
Qed.

Lemma distinct_snoc p r : distinct (p ++ [r]) = post_route (distinct p) r.
Proof. unfold distinct. by rewrite foldl_app. Qed.

Lemma distinct_unique p : NoDup (names (distinct p)).
Proof.
  induction p as [|r p IH] using rev_ind; [constructor|]. rewrite distinct_snoc. unfold post_route.
  case_decide as Hd; [done|]. rewrite names_app. apply NoDup_app. split_and!; [done| |].
  - intros x Hx ->%list_elem_of_singleton. done.
  - apply NoDup_singleton.
Qed.

Lemma distinct_names p a : a ∈ names (distinct p) <-> a ∈ names p.
Proof.
  induction p as [|r p IH] using rev_ind; [done|]. rewrite distinct_snoc, names_app, elem_of_app, <- IH.
  unfold post_route. case_decide as Hd.
  - split; [tauto|]. by intros [?| ->%list_elem_of_singleton].
  - by rewrite names_app, elem_of_app.
Qed.

Lemma distinct_post p r : distinct (post_route p r) = post_route (distinct p) r.
Proof.
  unfold post_route at 1. case_decide as Hd; [|apply distinct_snoc].
  unfold post_route. by rewrite decide_True by by apply distinct_names.
Qed.

Lemma distinct_delete p app :
  distinct (filter (fun r => rt_AppName r <> app) p) = filter (fun r => rt_AppName r <> app) (distinct p).
Proof.
  induction p as [|r p IH] using rev_ind; [done|]. rewrite filter_app, distinct_snoc.
  assert (rt_AppName r <> app -> rt_AppName r ∈ names (filter (fun r => rt_AppName r <> app) (distinct p)) <->
    rt_AppName r ∈ names (distinct p)) as Hin.
  { intros Hne. unfold names. rewrite !list_elem_of_fmap. split.
    - intros (x & Hx & [_ ?]%list_elem_of_filter). by exists x.
    - intros (x & Hx & ?). exists x. split; [done|]. apply list_elem_of_filter. by rewrite <- Hx. }
  destruct (decide (rt_AppName r = app)) as [Ha|Ha].
  - rewrite (filter_cons_False _ r []), app_nil_r, IH by tauto. unfold post_route.
    case_decide; [done|]. by rewrite filter_app, (filter_cons_False _ r []), app_nil_r by tauto.
  - rewrite (filter_cons_True _ r []) by done. cbn [filter list_filter]. rewrite distinct_snoc, IH. unfold post_route.
    destruct (decide (rt_AppName r ∈ names (distinct p))) as [Hd|Hd].
    + by rewrite decide_True by by apply Hin.
    + rewrite decide_False by by rewrite Hin. by rewrite filter_app, (filter_cons_True _ r []).
Qed.

(** A POST against the list, seen through [distinct]. *)
Lemma demo_post_new p r : rt_AppName r ∉ names (distinct p) ->
  exists p', demo_caddy_http (mkRequest "POST" (routes_url demo_client) (Some (buildRouteJSON r))) p =
    (Ok (mkResponse 200 None), p') /\ distinct p' = distinct p ++ [r].
Proof.
  intros Hr. exists (post_route p r). rewrite demo_http_post, decide_False by by rewrite <- distinct_names.
  split; [done|]. by rewrite distinct_post, post_route_new.
Qed.

Lemma demo_post_taken p r : rt_AppName r ∈ names (distinct p) ->
  exists resp p', demo_caddy_http (mkRequest "POST" (routes_url demo_client) (Some (buildRouteJSON r))) p =
    (Ok resp, p') /\ rs_status resp <> 200 /\ distinct p' = distinct p.
Proof.
  intros Hr. eexists _, (post_route p r). rewrite demo_http_post, decide_True by by rewrite <- distinct_names.
  split; [done|]. split; [done|]. rewrite distinct_post. unfold post_route. by rewrite decide_True.
Qed.

Lemma demo_deleted p app : exists p' st,
  demo_caddy_http (mkRequest "DELETE" (route_url demo_client app) None) p = (Ok (mkResponse st None), p') /\
  (st = 200 \/ st = 404) /\ distinct p' = filter (fun r => rt_AppName r <> app) (distinct p).
Proof.
  destruct (demo_http_delete p app) as (st & Hd & Hst).
  exists (filter (fun r => rt_AppName r <> app) p), st. split_and!; [done|done|apply distinct_delete].
Qed.

#[refine] Definition demo_caddy : @CaddyServer demo_caddy_external demo_client := {|
  held := fun p : @peers demo_caddy_external => distinct p |}.
Proof.
  - apply distinct_unique.
  - intros p. reflexivity.
  - apply demo_post_new.
  - apply demo_post_taken.
  - apply demo_deleted.
Defined.

Definition caddy_world (d : DB) (rs : list Route) : @World demo_caddy_external :=
  @mkWorld demo_caddy_external d 100 0 [] NewBatcher [] rs.

(** ** Properties *)

Section Properties.
#[local] Existing Instances demo_caddy_external demo_caddy demo_order | 100.

(** A batch reaches Caddy: against a proxy that answers as documented,
    [Apply] leaves the routes it held, then each added one whose application had
    none, without any of the removed applications; when every addition is new
    nothing is refused and no error reported. *)
Theorem Apply_spec `{External} c `{!CaddyServer c} adds removes w :
  let '(errs, w') := exec (Apply c adds removes) w in
  w_db w' = w_db w /\
  w_held c w' = filter (fun r => rt_AppName r ∉ removes) (foldl post_route (w_held c w) adds) /\
  (NoDup (names (w_held c w ++ adds)) ->
     errs = [] /\ w_held c w' = filter (fun r => rt_AppName r ∉ removes) (w_held c w ++ adds)).
Proof.
  apply exec_wp. unfold Apply. apply ctl_wp_bind, (apply_adds_runs c). intros errs p Hp He.
  apply (apply_removes_runs c). intros p' Hp'.
  assert (w_held c (set_peers p' (set_peers p w)) =
    filter (fun r => rt_AppName r ∉ removes) (foldl post_route (w_held c w) adds)) as ->.
  { unfold w_held at 1. cbn [w_peers set_peers]. rewrite Hp'. unfold w_held at 1.
    cbn [w_peers set_peers]. by rewrite Hp. }
  split_and!; [done|done|]. intros Hnd. split; [by apply He|]. by rewrite post_routes_new.
Qed.

(** C12: drift is repaired in one pass: against a proxy that answers as
    documented, after [detect] the proxy holds a route for an application iff
    the application is running and either had a route already or can be
    addressed (its row names an existing node and a port), whatever the order
    in which the maps are visited; every new route points at the sandbox's node
    and port and carries its id; the database is only read. *)
Theorem detect_repairs `{External, MapOrder} c `{!CaddyServer c} w :
  w_faults w = [] -> db_wf (w_db w) -> Forall (fun r => rt_AppName r <> "") (w_held c w) ->
  let '(_, w') := exec (detect c) w in
  w_db w' = w_db w /\
  (forall app, app ∈ rt_AppName <$> w_held c w' <->
     exists s, find_by_app (w_db w) app = Some s /\ sb_State s = StateRunning /\
       (app ∈ rt_AppName <$> w_held c w \/ is_Some (route_of (w_db w) app s))) /\
  (forall r, r ∈ w_held c w' -> r ∈ w_held c w \/
     exists s, find_by_app (w_db w) (rt_AppName r) = Some s /\
       route_of (w_db w) (rt_AppName r) s = Some r).
Proof.
  intros Hf Hwf Hne. apply exec_wp.
  apply (detect_runs c); [done..|]. intros n m p Hp. split; [done|].
  assert (forall r, r ∈ held p <->
    (r ∈ w_held c w /\ is_Some (pg_map (w_db w) !! rt_AppName r)) \/
    (exists s, pg_map (w_db w) !! rt_AppName r = Some s /\
       (rt_AppName r ∉ (rt_AppName <$> w_held c w)) /\ route_of (w_db w) (rt_AppName r) s = Some r)) as Hin.
  { intros r. rewrite Hp, elem_of_app, list_elem_of_filter.
    rewrite (and_comm (is_Some _)). apply or_iff_compat_l.
    rewrite list_elem_of_omap. apply missing_iff. }
  split.
  - intros app. unfold w_held at 1. simpl. rewrite list_elem_of_fmap. split.
    + intros (r & -> & [[Hr [s Hs]]|(s & Hs & _ & Hr)]%Hin).
      * exists s. apply pg_map_Some in Hs as [? ?]; [|done]. split_and!; [done..|].
        left. by apply list_elem_of_fmap_2.
      * exists s. apply pg_map_Some in Hs as [? ?]; [|done]. split_and!; [done..|].
        right. by exists r.
    + intros (s & Hs & Hst & Hor). pose proof (proj2 (pg_map_Some _ _ _ Hwf) (conj Hs Hst)) as Hpg.
      destruct (decide (app ∈ rt_AppName <$> w_held c w)) as [Hh|Hh].
      * apply list_elem_of_fmap in Hh as (r & -> & Hr). exists r. split; [done|].
        apply Hin. left. split; [done|]. by exists s.
      * destruct Hor as [?|[r Hr]]; [done|]. pose proof (route_of_name _ _ _ _ Hr) as Hname.
        exists r. split; [done|]. apply Hin. right. exists s. rewrite Hname. by split_and!.
  - intros r [[Hr _]|(s & Hs & _ & Hr)]%Hin; [by left|right]. exists s.
    apply pg_map_Some in Hs as [? ?]; [|done]. done.
Qed.

(** A stale route is removed and the missing one added. *)
Lemma detect_repairs_witness :
  let '(_, w') := exec (detect demo_client)
    (caddy_world (demo_db StateRunning 0) [mkRoute "old" "9" "100.64.1.5:40000"]) in
  ("my-app" ∈ rt_AppName <$> w_held demo_client w') /\
  ~ ("old" ∈ rt_AppName <$> w_held demo_client w').
Proof.
  pose proof (@detect_repairs demo_caddy_external demo_order demo_client demo_caddy
    (caddy_world (demo_db StateRunning 0) [mkRoute "old" "9" "100.64.1.5:40000"])) as H.
  destruct (exec _ _) as [u w']. destruct H as (_ & Hiff & _).
  - reflexivity.
  - apply demo_db_wf, in_states. reflexivity.
  - repeat constructor. discriminate.
  - split.
    + apply Hiff. exists (demo_sandbox StateRunning 0). split; [reflexivity|].
      split; [reflexivity|]. right. eexists. reflexivity.
    + intros (s & Hs & _)%Hiff. vm_compute in Hs. discriminate Hs.
Defined.

End Properties.
