(* ===== verification/Flushes.v ===== *)
(** Flushing against the proxy (control/internal/routing/batcher.go over
    caddy.go): [flushLocked] releases the mutex while [Apply] runs, so the calls
    of [Apply] are in flight beside the events that reach the batcher.  While no
    two are in flight together every flushed batch reaches the proxy in order,
    and an application is routed exactly when it was last asked for; two that
    overlap can leave it routed after its removal, and an addition that finds a
    route is refused by the proxy, so a removal that shares its window with an
    addition leaves the old route. *)

From S2P Require Import Prelude Netip Json Models Scheduler Store StoreFacts Routing Effects.
From S2P Require Import StoreRuns Caddy.

(** ** What the proxy holds for an application *)

Definition routes_for (app : string) (rs : list Route) : list Route :=
  filter (fun r => rt_AppName r = app) rs.

(** The route of an application after a batch: a removal takes it away; an
    addition sets it when there is none, and is refused when there is one. *)
Definition after_batch (app : string) (v : option Route) (bt : batch) : option Route :=
  if bool_decide (app ∈ bt.2) then None
  else match v with
       | Some r => Some r
       | None => head (filter (fun r => rt_AppName r = app) bt.1)
       end.

(** What an instruction leaves of it. *)
Definition obeyed (o : option intent) (v v' : option Route) : Prop :=
  match o with
  | None => v' = v
  | Some Absent => v' = None
  | Some (Present _) => is_Some v'
  end.

Lemma obeyed_later a b v1 v2 v3 : obeyed a v1 v2 -> obeyed b v2 v3 -> obeyed (later a b) v1 v3.
Proof. destruct b as [[]|]; simpl; [done..|]. by intros ? ->. Qed.

Lemma after_batch_obeyed app v bt : obeyed (batch_intent app bt) v (after_batch app v bt).
Proof.
  unfold batch_intent, after_batch. case_bool_decide; [done|].
  destruct (filter _ bt.1) as [|r l] eqn:Hf; simpl; [by destruct v|].
  destruct (last (r :: l)) as [x|] eqn:Hl; [|by apply last_None in Hl].
  destruct v; simpl; eauto.
Qed.

Lemma batches_obeyed app v bts :
  obeyed (last_intent (batch_intent app <$> bts)) v (foldl (after_batch app) v bts).
Proof.
  revert v. induction bts as [|bt bts IH]; intros v; [done|]. cbn [fmap list_fmap foldl].
  rewrite last_intent_cons. eapply obeyed_later; [apply after_batch_obeyed|apply IH].
Qed.

Lemma routes_removed app rs : routes_for app (filter (fun x => rt_AppName x <> app) rs) = [].
Proof. apply filter_none. by intros x [Hx _]%list_elem_of_filter. Qed.

(** The routes of an application replaced by one. *)
Lemma routes_replaced r rs :
  let rs' := filter (fun x => rt_AppName x <> rt_AppName r) rs ++ [r] in
  routes_for (rt_AppName r) rs' = [r] /\
  forall app, app <> rt_AppName r -> routes_for app rs' = routes_for app rs.
Proof.
  unfold routes_for. split.
  - rewrite filter_app. fold (routes_for (rt_AppName r) (filter (fun x => rt_AppName x <> rt_AppName r) rs)).
    by rewrite routes_removed, (filter_cons_True _ r []).
  - intros app Happ. rewrite filter_app, list_filter_filter, (filter_cons_False _ r []), app_nil_r by done.
    apply list_filter_iff. intros x. naive_solver.
Qed.

(** Posted routes, seen from one application. *)
Lemma posted_routes app adds rs :
  head (routes_for app (foldl post_route rs adds)) =
    match head (routes_for app rs) with
    | Some r => Some r
    | None => head (filter (fun r => rt_AppName r = app) adds)
    end.
Proof.
  unfold routes_for. revert rs. induction adds as [|r adds IH]; intros rs; cbn [foldl].
  { by destruct (head _). }
  rewrite IH. unfold post_route. rewrite (filter_cons _ r). case_decide as Hin.
  - destruct (decide (rt_AppName r = app)) as [Ha|Ha]; [|done].
    apply list_elem_of_fmap in Hin as (x & Hx & Hin).
    destruct (filter (fun y => rt_AppName y = app) rs) as [|y l] eqn:Hf; [|done].
    assert (x ∈ @nil Route) as Hno by (rewrite <- Hf; apply list_elem_of_filter; split; [congruence|done]).
    by apply not_elem_of_nil in Hno.
  - rewrite filter_app, (filter_cons _ r []), filter_nil.
    destruct (filter (fun y => rt_AppName y = app) rs) as [|y l]; simpl; [by case_decide|done].
Qed.

(** One batch, on the route of one application. *)
Lemma after_batch_routes app bt rs :
  head (routes_for app (filter (fun r => rt_AppName r ∉ bt.2) (foldl post_route rs bt.1))) =
  after_batch app (head (routes_for app rs)) bt.
Proof.
  unfold after_batch. rewrite <- posted_routes. unfold routes_for at 1. rewrite list_filter_filter.
  case_bool_decide as Hin.
  - rewrite filter_none; [done|]. by intros r _ [<- ?].
  - by rewrite (filter_iff_in _ (fun r => rt_AppName r = app)) by (intros r _; split; [tauto|by intros <-]).
Qed.

Section Flushes.
Context `{External} (c : CaddyClient).

(** ** The system *)

(** A call of [Apply] in flight: what is left of it. *)
Abbreviation flight := (prog ctlE (list error)) (only parsing).

Definition launch (bt : batch) : flight := Apply c bt.1 bt.2.

(** The calls in flight, and the world with the batcher and the proxy. *)
Definition flushing : Type := list flight * World.

(** One step, with the events it takes in: an event reaches the batcher and
    starts the [Apply] of the batch it flushes, a call in flight makes its next
    request, or returns. *)
Inductive flush_step : list batcher_event -> flushing -> flushing -> Prop :=
| flush_event ev fs w b out :
    batcher_step defaultMaxBuf ev (w_batcher w) = (b, out) ->
    flush_step [ev] (fs, w) (fs ++ (launch <$> out), set_batcher b (w_out w ++ out) w)
| flush_effect {X} before after (e : ctlE X) k w x w' :
    handle e w = (x, w') ->
    flush_step [] (before ++ Vis e k :: after, w) (before ++ k x :: after, w')
| flush_done before after errs w :
    flush_step [] (before ++ Ret errs :: after, w) (before ++ after, w).

(** Runs whose states all satisfy [P], with the events in order. *)
Inductive flush_run (P : flushing -> Prop) : list batcher_event -> flushing -> flushing -> Prop :=
| run_refl s : P s -> flush_run P [] s s
| run_step es s1 es' s2 s3 :
    P s1 -> flush_step es s1 s2 -> flush_run P es' s2 s3 -> flush_run P (es ++ es') s1 s3.

Lemma flush_run_trans P es1 es2 s1 s2 s3 :
  flush_run P es1 s1 s2 -> flush_run P es2 s2 s3 -> flush_run P (es1 ++ es2) s1 s3.
Proof.
  induction 1 as [s Hs|es s1 es' s2 s2' Hs1 Hstep _ IH]; intros Hrest; [done|].
  rewrite <- app_assoc. eapply run_step; [done..|]. by apply IH.
Qed.

(** No two calls of [Apply] overlap. *)
Definition alone_in_flight (s : flushing) : Prop := (length s.1 <= 1)%nat.

(** ** Calls in flight only talk to the proxy *)

Definition only_http : forall X, ctlE X -> Prop :=
  fun X e => match e with EHttp _ => True | _ => False end.

Lemma issues_launch bt : issues only_http (launch bt).
Proof.
  unfold launch, Apply. apply issues_bind; [|intros errs];
    apply issues_range; intros b x _; unfold apply_add, apply_remove, AddRoute, RemoveRoute;
    repeat issue_step; done.
Qed.

(** So a change of the batcher beside them is not seen by them. *)
Lemma http_wp {A} (p : ctl A) (Q : peers -> Prop) w w' :
  issues only_http p -> w_peers w = w_peers w' ->
  ctl_wp p (fun _ v => Q (w_peers v)) w -> ctl_wp p (fun _ v => Q (w_peers v)) w'.
Proof.
  revert w w'. induction p as [a|X e k IH]; intros w w' Hp Heq.
  { intros HQ%wp_run. apply ctl_wp_ret. simpl in HQ. by rewrite <- Heq. }
  destruct Hp as [He Hk]. destruct e; try done. intros Hw.
  apply wp_vis. unfold ctl_wp, wp in Hw. simpl in *. rewrite <- Heq.
  destruct (peer_http _ _) as [x p]. exact (IH x (set_peers p w) (set_peers p w') (Hk x) eq_refl Hw).
Qed.

(** ** Flushes one after another *)

Context `{!CaddyServer c}.

(** The route the proxy holds for an application: at most one. *)
Definition route_shown (app : string) (w : World) : option Route :=
  head (routes_for app (w_held c w)).

Lemma routes_for_unique app r (w : World) :
  r ∈ w_held c w -> rt_AppName r = app -> routes_for app (w_held c w) = [r].
Proof.
  unfold w_held. intros Hin Ha. pose proof (caddy_unique (w_peers w)) as Hu.
  induction (held (w_peers w)) as [|x l IH]; [by apply not_elem_of_nil in Hin|].
  apply NoDup_cons in Hu as [Hx Hu]. unfold routes_for. rewrite filter_cons.
  apply elem_of_cons in Hin as [->|Hin].
  - rewrite decide_True by done. f_equal. apply filter_none. intros y Hy Heq. apply Hx.
    rewrite Ha, <- Heq. by apply list_elem_of_fmap_2.
  - rewrite decide_False; [by apply IH|]. intros Heq. apply Hx. rewrite Heq, <- Ha.
    by apply list_elem_of_fmap_2.
Qed.

Lemma launch_runs bt w (Q : World -> Prop) :
  (forall p, (forall app, route_shown app (set_peers p w) = after_batch app (route_shown app w) bt) ->
     Q (set_peers p w)) ->
  ctl_wp (launch bt) (fun _ => Q) w.
Proof.
  intros HQ. unfold launch, Apply. apply ctl_wp_bind, (apply_adds_runs c). intros errs p Hp _.
  apply (apply_removes_runs c). intros p' Hp'. apply (HQ p'). intros app.
  unfold route_shown. rewrite <- after_batch_routes. unfold w_held in *. simpl in *. by rewrite Hp', Hp.
Qed.

(** What the batches flushed so far have made of the proxy of [p0]. *)
Definition followed (out : list batch) (p0 p : peers) : Prop :=
  forall app, head (routes_for app (held p)) =
    foldl (after_batch app) (head (routes_for app (held p0))) out.

(** The proxy has followed every batch, or will have when the one call in
    flight returns. *)
Definition follows (out : list batch) (p0 : peers) (s : flushing) : Prop :=
  match s.1 with
  | [] => followed out p0 (w_peers s.2)
  | [p] => issues only_http p /\ ctl_wp p (fun _ w => followed out p0 (w_peers w)) s.2
  | _ => False
  end.

Lemma launch_follows out bt p0 w b o :
  followed out p0 (w_peers w) -> follows (out ++ [bt]) p0 ([launch bt], set_batcher b o w).
Proof.
  intros Hf. split; [apply issues_launch|]. apply launch_runs. intros p Hp app.
  rewrite foldl_app, <- Hf.
  unfold route_shown, w_held in Hp. cbn [w_peers set_peers set_batcher] in *. by rewrite Hp.
Qed.

Lemma flush_one b : (length (flushLocked b).2 <= 1)%nat.
Proof. unfold flushLocked. case_bool_decide; simpl; lia. Qed.

(** An event starts at most one call. *)
Lemma step_flushes_one mb ev b : Z.of_nat (length (batcher_step mb ev b).2) <= 1.
Proof.
  destruct ev; simpl; unfold Enqueue, timer_fired, Stop; destruct (b_stopped b); simpl; try lia;
    try (destruct (mb <=? _)); try (destruct (0 <? _)); simpl; try lia;
    match goal with |- context [flushLocked ?x] => pose proof (flush_one x); lia end.
Qed.

Lemma batcher_run_app mb es es' b :
  batcher_run mb (es ++ es') b =
  let '(b1, out1) := batcher_run mb es b in
  let '(b2, out2) := batcher_run mb es' b1 in (b2, out1 ++ out2).
Proof.
  revert b. induction es as [|e es IH]; intros b; simpl.
  { by destruct (batcher_run mb es' b). }
  destruct (batcher_step mb e b) as [b1 o1]. rewrite IH.
  destruct (batcher_run mb es b1) as [b2 o2]. destruct (batcher_run mb es' b2) as [b3 o3].
  by rewrite app_assoc.
Qed.

Lemma step_follows es s s' out p0 :
  flush_step es s s' -> alone_in_flight s' -> follows out p0 s ->
  let '(b, out') := batcher_run defaultMaxBuf es (w_batcher s.2) in
  w_batcher s'.2 = b /\ follows (out ++ out') p0 s'.
Proof.
  intros Hs. destruct Hs as [ev fs w b o Hb|X be af e k w x w' Hh|be af errs w];
    unfold alone_in_flight; simpl; intros Hone Hf.
  - rewrite Hb, app_nil_r. split; [done|].
    pose proof (step_flushes_one defaultMaxBuf ev (w_batcher w)) as Hlen. rewrite Hb in Hlen. simpl in Hlen.
    rewrite length_app, length_fmap in Hone.
    destruct o as [|bt [|]]; [|destruct fs; [|simpl in *; lia]|simpl in Hlen; lia].
    + cbn [fmap list_fmap]. rewrite !app_nil_r. destruct fs as [|p [|]]; [done| |done].
      destruct Hf as [Hp Hw]. split; [done|]. by eapply http_wp; [done| |exact Hw].
    + cbn [fmap list_fmap app]. by apply launch_follows.
  - rewrite app_nil_r. unfold follows in *. simpl in *.
    destruct be as [|? [|]]; [|by destruct af|done]. destruct af; [|done].
    simpl in *. destruct Hf as [[He Hk] Hw]. destruct e; try done.
    unfold ctl_wp, wp in Hw. simpl in *. destruct (peer_http _ _) as [y p]. simplify_eq.
    split; [done|]. split; [apply Hk|exact Hw].
  - rewrite app_nil_r. unfold follows in *. simpl in *. split; [done|].
    destruct be as [|? [|]]; [|by destruct af|done]. destruct af; [|done].
    simpl in *. destruct Hf as [_ Hw%wp_run]. done.
Qed.

Lemma run_follows es s s' out p0 :
  flush_run alone_in_flight es s s' -> follows out p0 s ->
  let '(b, out') := batcher_run defaultMaxBuf es (w_batcher s.2) in
  w_batcher s'.2 = b /\ follows (out ++ out') p0 s'.
Proof.
  intros Hr. revert out. induction Hr as [s _|es s1 es' s2 s3 _ Hstep Hrest IH]; intros out Hf.
  { simpl. by rewrite app_nil_r. }
  assert (alone_in_flight s2) as H2 by by destruct Hrest.
  pose proof (step_follows _ _ _ out p0 Hstep H2 Hf) as Hs. rewrite batcher_run_app.
  destruct (batcher_run _ es _) as [b1 o1]. destruct Hs as [<- Hf1].
  specialize (IH _ Hf1). destruct (batcher_run _ es' _) as [b2 o2].
  by rewrite app_assoc.
Qed.

(** Each [Apply] runs to its end before the next event. *)
Fixpoint one_by_one (es : list batcher_event) (w : World) : World :=
  match es with
  | [] => w
  | ev :: es' =>
      let '(b, out) := batcher_step defaultMaxBuf ev (w_batcher w) in
      one_by_one es'
        (foldl (fun v bt => (exec (launch bt) v).2) (set_batcher b (w_out w ++ out) w) out)
  end.

(** A call in flight can run to its end while the others wait. *)
Lemma flight_runs (P : flushing -> Prop) before after p w :
  (forall q v, P (before ++ q :: after, v)) -> (forall v, P (before ++ after, v)) ->
  flush_run P [] (before ++ p :: after, w) (before ++ after, (exec p w).2).
Proof.
  intros Hq Hd. unfold exec. revert w. induction p as [errs|X e k IH]; intros w.
  - eapply (run_step P []); [apply Hq|apply flush_done|]. by apply run_refl.
  - simpl. destruct (handle e w) as [x w1] eqn:Hh.
    eapply (run_step P []); [apply Hq|by apply flush_effect|]. apply IH.
Qed.

Lemma one_by_one_runs es w : flush_run alone_in_flight es ([], w) ([], one_by_one es w).
Proof.
  revert w. induction es as [|ev es IH]; intros w; simpl.
  { apply run_refl. unfold alone_in_flight. simpl. lia. }
  pose proof (step_flushes_one defaultMaxBuf ev (w_batcher w)) as Hlen.
  destruct (batcher_step defaultMaxBuf ev (w_batcher w)) as [b out] eqn:Hb. simpl in Hlen.
  assert (alone_in_flight ([], w)) as H0 by (unfold alone_in_flight; simpl; lia).
  pose proof (flush_event ev [] w b out Hb) as Hs. apply (run_step _ [ev] _ es _ _ H0 Hs).
  destruct out as [|bt [|]]; [apply IH| |simpl in Hlen; lia].
  refine (flush_run_trans _ [] _ _ _ _ (flight_runs _ [] [] _ _ _ _) (IH _));
    intros; unfold alone_in_flight; simpl; lia.
Qed.

Lemma batches_asked es b out app :
  Forall good_event es -> batcher_run defaultMaxBuf es NewBatcher = (b, out) -> b_pending b = ∅ ->
  last_intent (batch_intent app <$> out) = last_intent (asked app es).
Proof.
  intros Hg Hrun He.
  pose proof (batcher_run_spec defaultMaxBuf ltac:(unfold defaultMaxBuf; lia) es NewBatcher
    app (NewBatcher_ok defaultMaxBuf ltac:(unfold defaultMaxBuf; lia)) eq_refl Hg) as Hs.
  rewrite Hrun in Hs. destruct Hs as [_ Hs].
  unfold pending_intent in Hs. rewrite He, !lookup_empty in Hs. simpl in Hs.
  by rewrite later_None in Hs.
Qed.

(** ** An addition and a removal *)

Definition add_change (r : Route) : RouteChange := mkChange "add" r "".
Definition remove_change (app : string) : RouteChange := mkChange "remove" zero_route app.

(** A batcher with nothing pending takes a change and keeps it for the timer. *)
Lemma enqueue_lone b ch :
  b_pending b = ∅ -> b_stopped b = false ->
  Enqueue defaultMaxBuf ch b = (mkBatcher {[change_key ch := ch]} true false, []).
Proof.
  intros He Hs. unfold Enqueue. rewrite Hs, He. simpl. rewrite insert_empty, map_size_singleton.
  reflexivity.
Qed.

Lemma timer_lone k ch t :
  timer_fired (mkBatcher {[k := ch]} t false) = (NewBatcher, [collect [ch]]).
Proof.
  unfold timer_fired, flushLocked. simpl. rewrite bool_decide_eq_false_2 by apply map_non_empty_singleton.
  by rewrite map_to_list_singleton.
Qed.


(** A change enqueued alone, and the timer that flushes it. *)
Lemma change_flushed ch fs w :
  b_pending (w_batcher w) = ∅ -> b_stopped (w_batcher w) = false ->
  exists w', flush_run (fun _ => True) [BEnqueue ch; BTimer] (fs, w) (fs ++ [launch (collect [ch])], w') /\
    w_peers w' = w_peers w /\ w_batcher w' = NewBatcher.
Proof.
  intros He Hs.
  pose proof (flush_event (BEnqueue ch) fs w _ _ (enqueue_lone _ ch He Hs)) as H1.
  cbn [fmap list_fmap] in H1. rewrite app_nil_r in H1.
  pose proof (flush_event BTimer fs (set_batcher (mkBatcher {[change_key ch := ch]} true false)
    (w_out w ++ []) w) _ _ (timer_lone _ ch true)) as H2.
  eexists. split; [exact (run_step _ [_] _ [_] _ _ I H1 (run_step _ [_] _ [] _ _ I H2 (run_refl _ _ I)))|done].
Qed.

Lemma launch_shows bt w app :
  route_shown app (exec (launch bt) w).2 = after_batch app (route_shown app w) bt /\
  w_batcher (exec (launch bt) w).2 = w_batcher w.
Proof.
  pose proof (exec_wp (launch bt) (fun _ w' => route_shown app w' = after_batch app (route_shown app w) bt /\
    w_batcher w' = w_batcher w) w) as Hr.
  destruct (exec (launch bt) w) as [errs w']. apply Hr. apply launch_runs. intros p Hp. by rewrite Hp.
Qed.

(** A second change of the same application takes the place of the first. *)
Lemma enqueue_over b k ch ch' :
  b_pending b = {[k := ch]} -> b_stopped b = false -> change_key ch' = k ->
  Enqueue defaultMaxBuf ch' b = (mkBatcher {[k := ch']} true false, []).
Proof.
  intros He Hs <-. unfold Enqueue. rewrite Hs, He. simpl. rewrite insert_singleton_eq, map_size_singleton.
  reflexivity.
Qed.

(** The batcher between an addition and the timer, and what the timer sends. *)
Definition adding (r : Route) : Batcher :=
  mkBatcher {[rt_AppName r := add_change r]} true false.

Lemma added_held w r :
  w_batcher w = adding r ->
  let w' := one_by_one [BTimer] w in
  w_held c w' = post_route (w_held c w) r /\ w_db w' = w_db w /\ w_faults w' = w_faults w.
Proof.
  intros Hb. cbn [one_by_one batcher_step]. unfold adding in Hb. rewrite Hb, timer_lone.
  cbn [foldl one_by_one]. apply (wp_run (@handle _) (launch (collect [add_change r]))
    (fun _ w' => w_held c w' = post_route (w_held c w) r /\ w_db w' = w_db w /\ w_faults w' = w_faults w)).
  unfold launch, Apply. apply ctl_wp_bind, (apply_adds_runs c). intros errs p Hp _. by apply ctl_wp_ret.
Qed.

(** The same of a removal. *)
Definition removing (app : string) : Batcher :=
  mkBatcher {[app := remove_change app]} true false.

Lemma removed_held w app :
  w_batcher w = removing app ->
  let w' := one_by_one [BTimer] w in
  w_held c w' = filter (fun x => rt_AppName x <> app) (w_held c w) /\
  w_db w' = w_db w /\ w_faults w' = w_faults w /\ w_batcher w' = NewBatcher.
Proof.
  intros Hb. cbn [one_by_one batcher_step]. unfold removing in Hb. rewrite Hb, timer_lone.
  cbn [foldl one_by_one]. apply (wp_run (@handle _) (launch (collect [remove_change app]))
    (fun _ w' => w_held c w' = filter (fun x => rt_AppName x <> app) (w_held c w) /\
       w_db w' = w_db w /\ w_faults w' = w_faults w /\ w_batcher w' = NewBatcher)).
  unfold launch, Apply. apply ctl_wp_bind, ctl_wp_ret, (apply_removes_runs c). intros p Hp.
  split_and!; [|done..]. unfold w_held at 1. cbn [w_peers set_peers]. rewrite Hp.
  apply list_filter_iff. intros x. change (rt_AppName x ∉ [app] <-> rt_AppName x <> app).
  by rewrite list_elem_of_singleton.
Qed.

(** A removal, then the addition: the removal is forgotten. *)
Lemma removed_added b r :
  b_pending b = ∅ -> b_stopped b = false ->
  (Enqueue defaultMaxBuf (add_change r) (Enqueue defaultMaxBuf (remove_change (rt_AppName r)) b).1) =
  (adding r, []).
Proof.
  intros He Hs. rewrite (enqueue_lone b (remove_change _)) by done. apply (enqueue_over _ (rt_AppName r) (remove_change (rt_AppName r))); reflexivity.
Qed.

(** The addition alone reaches the proxy. *)
Lemma window_held w r :
  w_batcher w = NewBatcher ->
  let w' := one_by_one [BEnqueue (remove_change (rt_AppName r)); BEnqueue (add_change r); BTimer] w in
  w_held c w' = post_route (w_held c w) r /\ w_db w' = w_db w /\ w_faults w' = w_faults w.
Proof.
  intros Hb. pose proof (removed_added (w_batcher w) r) as Ha. rewrite Hb in Ha.
  cbn [one_by_one batcher_step]. rewrite Hb. destruct (Enqueue _ (remove_change _) _) as [b1 o1] eqn:E1.
  rewrite enqueue_lone in E1 by done. injection E1 as <- <-. cbn [foldl one_by_one batcher_step w_batcher set_batcher fst] in *.
  rewrite Ha by done. cbn [foldl]. set (v := set_batcher _ _ _). exact (added_held v r eq_refl).
Qed.

(** The proxy after the drift detector, for an application that runs. *)
Lemma detect_keeps `{MapOrder} w app :
  w_faults w = [] -> Forall (fun r => rt_AppName r <> "") (w_held c w) ->
  app ∈ rt_AppName <$> w_held c w -> is_Some (pg_map (w_db w) !! app) ->
  routes_for app (w_held c (exec (detect c) w).2) = routes_for app (w_held c w).
Proof.
  intros Hf Hne Hin Hrun.
  pose proof (exec_wp (detect c) (fun _ w' => routes_for app (w_held c w') = routes_for app (w_held c w)) w) as Hr.
  destruct (exec (detect c) w) as [u w']. apply Hr. apply (detect_runs c); [done..|].
  intros n m p Hp. unfold routes_for, w_held in *. cbn [w_peers set_peers]. rewrite Hp, filter_app.
  rewrite (filter_none _ (omap _ _)), app_nil_r, list_filter_filter.
  - apply filter_iff_in. intros r _. split; [tauto|]. by intros <-.
  - intros r Hr' <-. apply list_elem_of_omap in Hr' as ([k s] & _ & Hm).
    unfold missing_route in Hm. simpl in Hm. destruct (by_app _ _ !! k) eqn:E; [done|].
    pose proof (route_of_name _ _ _ _ Hm) as Hk. rewrite Hk in Hin.
    apply eq_None_not_Some in E. apply E, by_app_is_Some. by rewrite <- list_fmap_compose.
Qed.

(** An addition that finds a route is refused, and the drift detector, which
    compares applications only, keeps the route as well. *)
Lemma refused_keeps `{MapOrder} w w' old r :
  w_held c w' = post_route (w_held c w) r -> w_faults w' = [] ->
  Forall (fun x => rt_AppName x <> "") (w_held c w) ->
  old ∈ w_held c w -> rt_AppName old = rt_AppName r ->
  is_Some (pg_map (w_db w') !! rt_AppName r) ->
  w_held c w' = w_held c w /\
  routes_for (rt_AppName r) (w_held c (exec (detect c) w').2) = [old].
Proof.
  intros Hheld Hf Hne Hold Happ Hrun.
  assert (rt_AppName r ∈ names (w_held c w)) as Hin by (rewrite <- Happ; by apply list_elem_of_fmap_2).
  unfold post_route in Hheld. rewrite decide_True in Hheld by done. split; [done|].
  rewrite detect_keeps; rewrite ?Hheld; try done. by apply routes_for_unique.
Qed.
End Flushes.

(** ** Properties *)

Section Properties.
#[local] Existing Instances demo_caddy_external demo_caddy demo_order | 100.

(** C13: The proxy follows the requests as long as calls of [Apply] do not overlap:
    in every run in which at most one is in flight at a time, once the calls
    have returned and nothing is pending, the route of an application is what
    the flushed batches make of it one after another (a removal takes it away,
    an addition sets it where there is none and is refused where there is one);
    so the application is routed if an addition was the last request, is not
    if a removal was, and keeps what it had if there was none. *)
Theorem lone_flushes_follow `{External} c `{!CaddyServer c} es w w' app :
  w_batcher w = NewBatcher -> Forall good_event es ->
  flush_run c alone_in_flight es ([], w) ([], w') -> b_pending (w_batcher w') = ∅ ->
  route_shown c app w' =
    foldl (after_batch app) (route_shown c app w) (batcher_run defaultMaxBuf es NewBatcher).2 /\
  match last_intent (asked app es) with
  | Some (Present _) => is_Some (route_shown c app w')
  | Some Absent => route_shown c app w' = None
  | None => route_shown c app w' = route_shown c app w
  end.
Proof.
  intros Hb Hg Hrun He.
  pose proof (run_follows c _ _ _ [] (w_peers w) Hrun (fun a => eq_refl)) as Hf. simpl in Hf.
  rewrite Hb in Hf. destruct (batcher_run _ es _) as [b out] eqn:Hbr. destruct Hf as [Hw Hf].
  rewrite Hw in He. pose proof (batches_obeyed app (route_shown c app w) out) as Ho.
  rewrite (batches_asked es b out app Hg Hbr He) in Ho. specialize (Hf app). cbn [fst snd] in Hf |- *.
  unfold route_shown, w_held in *. rewrite Hf. split; [done|exact Ho].
Qed.

(** An addition, and a removal flushed by the stop. *)
Lemma lone_flushes_follow_witness :
  let es := [BEnqueue (add_change (mkRoute "my-app" "7" "100.64.1.5:40000")); BTimer;
             BEnqueue (remove_change "my-app"); BStop] in
  let w := caddy_world (demo_db StateRunning 0) [] in
  route_shown demo_client "my-app" (one_by_one demo_client es w) = None.
Proof.
  intros es w.
  refine (proj2 (lone_flushes_follow demo_client es w (one_by_one demo_client es w) "my-app" _ _ _ _)).
  - reflexivity.
  - repeat (apply Forall_cons_2 || apply Forall_nil_2); simpl; unfold good_change; auto.
  - apply one_by_one_runs.
  - vm_compute. reflexivity.
Defined.

(** C36: Calls that overlap can leave the proxy behind for good: whatever the world
    with a fresh batcher, there is a run in which a route is added, its removal
    is asked for and flushed afterwards, every call returns, nothing is
    pending, and the proxy holds the route. *)
Theorem overlapping_flushes_resurrect `{External} c `{!CaddyServer c} w r :
  w_batcher w = NewBatcher ->
  exists w', flush_run c (fun _ => True)
      [BEnqueue (add_change r); BTimer; BEnqueue (remove_change (rt_AppName r)); BTimer] ([], w) ([], w') /\
    w_batcher w' = NewBatcher /\
    last_intent (asked (rt_AppName r) [BEnqueue (add_change r); BTimer;
      BEnqueue (remove_change (rt_AppName r)); BTimer]) = Some Absent /\
    route_shown c (rt_AppName r) w' = Some r.
Proof.
  intros Hb.
  destruct (change_flushed c (add_change r) [] w) as (w1 & H1 & _ & Hb1); [by rewrite Hb..|].
  destruct (change_flushed c (remove_change (rt_AppName r)) [launch c (collect [add_change r])] w1)
    as (w2 & H2 & _ & Hb2); [by rewrite Hb1..|].
  pose proof (flight_runs c (fun _ => True) [launch c (collect [add_change r])] []
    (launch c (collect [remove_change (rt_AppName r)])) w2 (fun _ _ => I) (fun _ => I)) as H3.
  pose proof (launch_shows c (collect [remove_change (rt_AppName r)]) w2 (rt_AppName r)) as [Hs2 Hb3].
  destruct (exec _ w2) as [u2 w3]. cbn [snd] in H3, Hs2, Hb3.
  pose proof (flight_runs c (fun _ => True) [] [] (launch c (collect [add_change r])) w3
    (fun _ _ => I) (fun _ => I)) as H4.
  pose proof (launch_shows c (collect [add_change r]) w3 (rt_AppName r)) as [Hs Hb4].
  destruct (exec _ w3) as [u3 w4]. cbn [snd] in H4, Hs, Hb4.
  exists w4. split_and!.
  - refine (flush_run_trans c _ [_; _] [_; _] _ _ _ H1
      (flush_run_trans c _ [_; _] [] _ _ _ H2 (flush_run_trans c _ [] [] _ _ _ H3 H4))).
  - congruence.
  - unfold asked, remove_change, add_change, change_key, change_intent, last_intent. simpl.
    by rewrite String.eqb_refl.
  - rewrite Hs, Hs2. change (collect [add_change r]) with ([r], @nil string).
    change (collect [remove_change (rt_AppName r)]) with (@nil Route, [rt_AppName r]).
    unfold after_batch. cbn [fst snd]. rewrite (bool_decide_eq_false_2 (_ ∈ [])) by apply not_elem_of_nil.
    rewrite bool_decide_eq_true_2 by by left. by rewrite filter_cons_True.
Qed.

Lemma overlapping_flushes_resurrect_witness :
  let r := mkRoute "my-app" "7" "100.64.1.5:40000" in
  exists w', flush_run demo_client (fun _ => True)
      [BEnqueue (add_change r); BTimer; BEnqueue (remove_change "my-app"); BTimer]
      ([], caddy_world (demo_db StateRunning 0) []) ([], w') /\
    route_shown demo_client "my-app" w' = Some r.
Proof.
  intros r.
  destruct (overlapping_flushes_resurrect demo_client (caddy_world (demo_db StateRunning 0) []) r
    eq_refl) as (w' & Hr & _ & _ & Hs).
  exists w'. split; [exact Hr|exact Hs].
Defined.

(** [Stop] does not wait for a call in flight: it can return while the route
    that was flushed before it has not been sent to the proxy. *)
Theorem stop_leaves_flight `{External} c w r :
  w_batcher w = NewBatcher ->
  exists p w', flush_run c (fun _ => True) [BEnqueue (add_change r); BTimer; BStop] ([], w) ([p], w') /\
    p = launch c ([r], []) /\ b_stopped (w_batcher w') = true /\ w_peers w' = w_peers w.
Proof.
  intros Hb. destruct (change_flushed c (add_change r) [] w) as (w1 & H1 & Hp & Hb1); [by rewrite Hb..|].
  pose proof (flush_event c BStop [launch c (collect [add_change r])] w1 (mkBatcher ∅ false true) []) as H2.
  rewrite Hb1 in H2. specialize (H2 eq_refl). cbn [fmap list_fmap] in H2. rewrite app_nil_r in H2.
  exists (launch c ([r], [])), (set_batcher (mkBatcher ∅ false true) (w_out w1 ++ []) w1).
  split; [|by split_and!].
  exact (flush_run_trans c _ [_; _] [_] _ _ _ H1 (run_step c _ [_] _ [] _ _ I H2 (run_refl c _ _ I))).
Qed.

Lemma stop_leaves_flight_witness :
  exists p w', flush_run demo_client (fun _ => True)
    [BEnqueue (add_change (mkRoute "my-app" "7" "100.64.1.5:40000")); BTimer; BStop]
    ([], caddy_world (demo_db StateRunning 0) []) ([p], w') /\ w_held demo_client w' = [].
Proof.
  destruct (stop_leaves_flight demo_client (caddy_world (demo_db StateRunning 0) [])
    (mkRoute "my-app" "7" "100.64.1.5:40000") eq_refl) as (p & w' & Hr & _ & _ & Hp).
  exists p, w'. split; [exact Hr|]. unfold w_held. rewrite Hp. reflexivity.
Defined.

(** A removal and an addition in one debounce window: only the addition is
    sent, the proxy refuses it because it still holds the old route, and the
    drift detector leaves that one. *)
Theorem window_keeps_old_route `{External, MapOrder} c `{!CaddyServer c} w old r :
  w_batcher w = NewBatcher -> w_faults w = [] ->
  Forall (fun x => rt_AppName x <> "") (w_held c w) ->
  old ∈ w_held c w -> rt_AppName old = rt_AppName r ->
  is_Some (pg_map (w_db w) !! rt_AppName r) ->
  let w' := one_by_one c [BEnqueue (remove_change (rt_AppName r)); BEnqueue (add_change r); BTimer] w in
  w_held c w' = w_held c w /\ routes_for (rt_AppName r) (w_held c (exec (detect c) w').2) = [old].
Proof.
  intros Hb Hf Hne Hold Happ Hrun w'. destruct (window_held c w r Hb) as (Hheld & Hdb & Hfl). fold w' in Hheld, Hdb, Hfl.
  rewrite <- Hdb in Hrun. rewrite <- Hfl in Hf. by apply refused_keeps.
Qed.

Lemma window_keeps_old_route_witness :
  let old := mkRoute "my-app" "7" "100.64.1.5:40000" in
  let new := mkRoute "my-app" "7" "100.64.1.5:40001" in
  let w := caddy_world (demo_db StateRunning 0) [old] in
  routes_for "my-app" (w_held demo_client (exec (detect demo_client) (one_by_one demo_client
    [BEnqueue (remove_change "my-app"); BEnqueue (add_change new); BTimer] w)).2) = [old].
Proof.
  intros old new w. refine (proj2 (window_keeps_old_route demo_client w old new _ _ _ _ _ _)).
  - reflexivity.
  - reflexivity.
  - repeat constructor. discriminate.
  - left.
  - reflexivity.
  - eexists. vm_compute. reflexivity.
Defined.

End Properties.
