(* ===== verification/Interleave.v ===== *)
(** Concurrency: the handlers of the HTTP server and the background services
    run interleaved, one effect at a time, while time passes, the debounce
    timer fires, requests arrive, database calls fail and the peers change.
    Every row of the sandboxes table still moves along the allowed edges only
    for as long as it is there, and the constraints of the schema hold at
    every moment. *)

From S2P Require Import Prelude Netip Json Models Scheduler Store StoreFacts Routing Effects.
From S2P Require Import StoreRuns Sweep Restart Lifecycle LifecycleMoves Reschedule.
From S2P Require Import IdleReaper Reconciler Adapters Caddy Flushes.

Section Interleave.
Context `{External}.

(** ** The system *)

Definition fire_timer (w : World) : World :=
  let '(b, out) := timer_fired (w_batcher w) in set_batcher b (w_out w ++ out) w.

(** A configuration: the programs in flight, and the world. *)
Definition config : Type := list (ctl unit) * World.

(** One step.  [may_start] says which programs can be started. *)
Inductive step (may_start : ctl unit -> Prop) : config -> config -> Prop :=
| step_effect {X} (before after : list (ctl unit)) (e : ctlE X) k w x w' :
    handle e w = (x, w') ->
    step may_start (before ++ Vis e k :: after, w) (before ++ k x :: after, w')
| step_start p pool w : may_start p -> step may_start (pool, w) (p :: pool, w)
| step_finish before after u w :
    step may_start (before ++ Ret u :: after, w) (before ++ after, w)
| step_clock pool w t : w_now w <= t -> step may_start (pool, w) (pool, set_now t w)
| step_timer pool w : step may_start (pool, w) (pool, fire_timer w)
| step_faults pool w f : step may_start (pool, w) (pool, set_faults f w)
| step_peers pool w p : step may_start (pool, w) (pool, set_peers p w).

(** A run: the configurations it passes through, from first to last. *)
Definition run_of (may_start : ctl unit -> Prop) (cs : list config) : Prop :=
  forall i c c', cs !! i = Some c -> cs !! S i = Some c' -> step may_start c c'.

Lemma run_of_singleton may_start c : run_of may_start [c].
Proof. intros [|i] c1 c2 H1 H2; simplify_eq/=. Qed.

Lemma run_of_cons may_start c c' cs :
  step may_start c c' -> run_of may_start (c' :: cs) -> run_of may_start (c :: c' :: cs).
Proof. intros Hs Hr [|i] c1 c2 H1 H2; simplify_eq/=; [done|by eapply Hr]. Qed.

(** Running a program alone is one of the runs. *)
Lemma solo_run may_start p w :
  exists cs, run_of may_start (([p], w) :: cs) /\
    last (([p], w) :: cs) = Some ([Ret (exec p w).1], (exec p w).2).
Proof.
  unfold exec. revert w. induction p as [u|X e k IH]; intros w.
  { exists []. split; [apply run_of_singleton|done]. }
  simpl. destruct (handle e w) as [x w1] eqn:Hh.
  destruct (IH x w1) as (cs & Hrun & Hlast). exists (([k x], w1) :: cs). split; [|done].
  apply run_of_cons; [|done]. by apply (step_effect may_start [] [] e k w x w1).
Qed.

(** ** One row over time *)

(** What one step can do to the row under a key of the database [db]: a row
    that is there before and after keeps its identity, its version does not
    go back, and its state stays or moves along [R]; a row that appears is
    pending and on no node; a row that disappears has no command. *)
Definition row_step (R : string -> string -> Prop) (db : DB) (id : uuid)
    (o o' : option Sandbox) : Prop :=
  match o, o' with
  | Some s, Some s' => same_row s s' /\ (sb_State s' = sb_State s \/ R (sb_State s) (sb_State s'))
  | None, Some s' => sb_State s' = StatePending /\ sb_NodeID s' = None
  | Some _, None => referenced db id = false
  | None, None => True
  end.

Lemma row_kept R db id o : row_step R db id o o.
Proof. destruct o as [s|]; [|done]. split; [apply same_row_refl|by left]. Qed.

Lemma db_step_row R db db' id :
  db_wf db -> db_step R db db' ->
  row_step R db id (sandboxes db !! id) (sandboxes db' !! id).
Proof.
  intros Hwf [ |s s' Hs Hrow _ _ HR|s Hf _ Hst Hn|i Hi|n Hn|m Hm _|row Hr]; simpl;
    try apply row_kept.
  - rewrite lookup_insert. case_decide as Hd; [|apply row_kept]. subst id.
    by rewrite (sr_ID _ _ Hrow), Hs.
  - rewrite lookup_insert. case_decide as Hd; [|apply row_kept]. subst id. by rewrite Hf.
  - rewrite lookup_delete. case_decide as Hd; [|apply row_kept]. subst id.
    by destruct (sandboxes db !! i).
Qed.

(** ** Safety *)

Definition programs_within (R : string -> string -> Prop) (pool : list (ctl unit)) : Prop :=
  Forall (issues (within R)) pool.

Lemma fire_timer_db w : w_db (fire_timer w) = w_db w.
Proof. unfold fire_timer. by destruct (timer_fired _). Qed.

(** The invariant of a step: the programs stay within [R], the schema holds,
    and the database makes at most one [db_step]. *)
Lemma step_safe R (may_start : ctl unit -> Prop) pool w pool' w' :
  (forall p, may_start p -> issues (within R) p) ->
  programs_within R pool -> db_wf (w_db w) ->
  step may_start (pool, w) (pool', w') ->
  programs_within R pool' /\ db_wf (w_db w') /\
  forall id, row_step R (w_db w) id (sandboxes (w_db w) !! id) (sandboxes (w_db w') !! id).
Proof.
  intros Hstart Hpool Hwf Hs. unfold programs_within in *.
  inversion Hs as [X be af e k w0 x w1 Hh Heq1 Heq2|p pl w0 Hp|be af u w0|pl w0 t Ht|pl w0|pl w0 f|pl w0 p];
    subst; simpl; rewrite ?fire_timer_db.
  2: by split_and!; [constructor; auto|done|intros; apply row_kept].
  2: { apply Forall_app in Hpool as [? [_ ?]%Forall_cons].
       split_and!; [by apply Forall_app|done|intros; apply row_kept]. }
  2-5: by split_and!; [done|done|intros; apply row_kept].
  apply Forall_app in Hpool as [Hbe [[He Hk] Haf]%Forall_cons].
  pose proof (handle_within R X e w He Hwf) as Hd. rewrite Hh in Hd. simpl in Hd.
  split_and!.
  - apply Forall_app. split; [done|]. constructor; [apply Hk|done].
  - by eapply db_step_wf.
  - intros id. by apply db_step_row.
Qed.

(** The row under a key in a configuration. *)
Definition row_at (id : uuid) (c : config) : option Sandbox := sandboxes (w_db c.2) !! id.

Section Runs.
Context (R : string -> string -> Prop) (may_start : ctl unit -> Prop).
Hypothesis starts_within : forall p, may_start p -> issues (within R) p.

(** The invariant at every moment of a run. *)
Lemma run_safe c0 cs i c :
  programs_within R c0.1 -> db_wf (w_db c0.2) ->
  run_of may_start (c0 :: cs) -> (c0 :: cs) !! i = Some c ->
  programs_within R c.1 /\ db_wf (w_db c.2).
Proof.
  intros Hp0 Hwf0 Hrun. revert c. induction i as [|i IH]; intros c Hc.
  { by injection Hc as <-. }
  assert (is_Some ((c0 :: cs) !! i)) as [c1 Hc1].
  { apply lookup_lt_is_Some_2. apply Nat.lt_succ_l. by eapply lookup_lt_Some. }
  destruct (IH c1 Hc1) as [Hp1 Hwf1]. pose proof (Hrun _ _ _ Hc1 Hc) as Hs.
  destruct c1 as [p1 w1], c as [p w].
  destruct (step_safe R may_start p1 w1 p w) as (Hp & Hwf & _); [done..|]. by split.
Qed.

(** One step of a run, seen from one row. *)
Lemma run_row c0 cs i c c' id :
  programs_within R c0.1 -> db_wf (w_db c0.2) -> run_of may_start (c0 :: cs) ->
  (c0 :: cs) !! i = Some c -> (c0 :: cs) !! S i = Some c' ->
  row_step R (w_db c.2) id (row_at id c) (row_at id c').
Proof.
  intros Hp0 Hwf0 Hrun Hc Hc'.
  destruct (run_safe c0 cs i c) as [Hp Hwf]; [done..|].
  pose proof (Hrun _ _ _ Hc Hc') as Hs. destruct c as [p w], c' as [p' w'].
  destruct (step_safe R may_start p w p' w') as (_ & _ & Hr); [done..|]. apply Hr.
Qed.

(** A row that is there at two moments of a run and at every moment between
    them, over that time. *)
Lemma run_row_stays c0 cs id n i s s' c c' :
  programs_within R c0.1 -> db_wf (w_db c0.2) -> run_of may_start (c0 :: cs) ->
  (c0 :: cs) !! i = Some c -> (c0 :: cs) !! (i + n)%nat = Some c' ->
  row_at id c = Some s -> row_at id c' = Some s' ->
  (forall k d, (i <= k <= i + n)%nat -> (c0 :: cs) !! k = Some d -> is_Some (row_at id d)) ->
  same_row s s' /\ rtc R (sb_State s) (sb_State s').
Proof.
  intros Hp0 Hwf0 Hrun Hc. revert c' s'. induction n as [|n IH]; intros c' s' Hc' Hs Hs' Hstay.
  { replace (i + 0)%nat with i in Hc' by lia. rewrite Hc in Hc'. injection Hc' as <-.
    rewrite Hs in Hs'. injection Hs' as <-. split; [apply same_row_refl|apply rtc_refl]. }
  replace (i + S n)%nat with (S (i + n)) in Hc' by lia.
  assert (is_Some ((c0 :: cs) !! (i + n)%nat)) as [d Hd].
  { apply lookup_lt_is_Some_2. apply Nat.lt_succ_l. by eapply lookup_lt_Some. }
  destruct (Hstay (i + n)%nat d) as [t Ht]; [lia|done|].
  destruct (IH d t) as [Hrow HR]; [done..| |].
  { intros k e Hk. apply Hstay. lia. }
  pose proof (run_row _ _ _ _ _ id Hp0 Hwf0 Hrun Hd Hc') as Hst.
  rewrite Ht, Hs' in Hst. destruct Hst as [Hrow' [Heq|HR']].
  - split; [by eapply same_row_trans|by rewrite Heq].
  - split; [by eapply same_row_trans|by eapply rtc_r].
Qed.
End Runs.

(** ** The programs of the control plane *)

(** The moves of the state column the control plane makes of itself. *)
Definition control_move (a b : string) : Prop :=
  edge a b \/ (a = StateRunning /\ b = StateFailed) \/ (a = StatePending /\ b = StateFailed).

Definition ignore {A} (p : ctl A) : ctl unit := p ;;; Ret tt.

(** What can be in flight: the operations of the lifecycle service, the
    rescheduler and the heartbeat monitor, the idle reaper, the drift detector
    with any order of its maps, and the batcher's calls of the proxy. *)
Inductive control_program : ctl unit -> Prop :=
| cp_operation ls op : control_program (ignore (run_operation ls op))
| cp_reschedule b n : control_program (ignore (RescheduleNode b n))
| cp_monitor cfg : control_program (monitor_tick cfg)
| cp_reap b : control_program (ignore (reap b))
| cp_drift (order : MapOrder) c : control_program (ignore (detect c))
| cp_flush c adds removes : control_program (ignore (Apply c adds removes)).

(** The same with the services that believe the agents. *)
Inductive any_program : ctl unit -> Prop :=
| ap_control p : control_program p -> any_program p
| ap_reconcile n cs : any_program (ignore (reconcilerAdapter n cs))
| ap_fresh f name b : any_program (ignore (GetSandboxFresh f name b)).

Lemma issues_ignore {A} R (p : ctl A) : issues (within R) p -> issues (within R) (ignore p).
Proof. intros Hp. by apply issues_bind. Qed.

Lemma issues_weaken {A} (R R' : string -> string -> Prop) (p : ctl A) :
  (forall a b, R a b -> R' a b) -> issues (within R) p -> issues (within R') p.
Proof. intros HR. apply issues_mono. intros X e. by apply within_mono. Qed.

Lemma control_program_within p : control_program p -> issues (within control_move) p.
Proof.
  intros [ls op|b n|cfg|b|order c|c adds removes]; try apply issues_ignore.
  - eapply issues_weaken; [|apply issues_operation]. unfold service_move, control_move. tauto.
  - eapply issues_weaken; [|apply issues_RescheduleNode]. unfold failover_move, control_move. tauto.
  - eapply issues_weaken; [|apply issues_monitor_tick]. unfold failover_move, control_move. tauto.
  - eapply issues_weaken; [|apply issues_reap]. unfold control_move. tauto.
  - eapply issues_weaken; [|apply issues_detect]. done.
  - eapply issues_mono; [|apply (issues_launch c (adds, removes))]. by intros X [].
Qed.

Lemma any_program_within p : any_program p -> issues (within any_move) p.
Proof.
  intros [q Hq|n cs|f name b].
  - eapply issues_weaken; [|by apply control_program_within]. done.
  - apply issues_ignore, issues_reconcilerAdapter.
  - apply issues_ignore, issues_freshness.
Qed.

(** No move of the control plane leaves [destroyed]. *)
Lemma control_move_terminal a b : control_move a b -> a <> StateDestroyed.
Proof. intros [[ev He]|[[-> _]|[-> _]]]; [by intros ->|done|done]. Qed.

Lemma control_moves_destroyed st : rtc control_move StateDestroyed st -> st = StateDestroyed.
Proof. intros Hr. inversion Hr as [|x y z Hxy _]; [done|]. by apply control_move_terminal in Hxy. Qed.
End Interleave.
