(* ===== verification/StoreAdapter.v ===== *)
(** The node store of the HTTP handlers: the interface [NodeStore] of
    control/internal/api/nodes.go, and the adapter over the queries that
    implements it (control/cmd/forge-control/main.go). *)

From S2P Require Import Prelude Float64 Netip Json Models Scheduler Store StoreFacts Routing Effects.
From S2P Require Import StoreRuns.

(** ** The interface *)

(** What a handler sees of a node. *)
Record NodeRecord := mkNodeRecord { nr_ID : uuid; nr_Hostname : string }.

Record CreateNodeArgs := mkCreateNodeArgs {
  ca_ID : uuid;
  ca_Hostname : string;
  ca_TailscaleIP : Addr;
  ca_AgentListenPort : Z;
  ca_CapacityMb : Z;
  ca_CapacityCPU : Q;
  ca_AgentVersion : string;
  ca_Metadata : json;
  ca_AgentToken : string;
}.

Class NodeStore `{External} := {
  ns_GetNodeByHostnameAndIP : string -> Addr -> ctl (result NodeRecord);
  ns_CreateNode : CreateNodeArgs -> ctl (result NodeRecord);
  ns_UpdateNodeToken : string -> string -> option uuid -> ctl (result unit);
  ns_GetNode : option uuid -> ctl (result NodeRecord);
  ns_UpdateNodeHeartbeat : option uuid -> Z -> Z -> ctl (result unit);
  ns_ListNodes : ctl (result (list Node));
  ns_UpdateNodeStatus : option uuid -> string -> ctl (result unit);
  ns_CountActiveSandboxesByNode : option uuid -> ctl (result Z);
}.

(** ** The adapter *)

Definition float64ToNumeric (f : Q) : Numeric :=
  mkNumeric (int64_of_float (round64 (f * 1000))) (-3).

Definition record_of (n : Node) : NodeRecord := mkNodeRecord (nd_ID n) (nd_Hostname n).

Definition record_result (r : result Node) : result NodeRecord :=
  match r with Err e => Err e | Ok n => Ok (record_of n) end.

Definition node_statement (arg : CreateNodeArgs) : CreateNodeParams :=
  mkCreateNodeParams (ca_ID arg) (ca_Hostname arg) (ca_TailscaleIP arg) (ca_AgentListenPort arg)
    (ca_CapacityMb arg) (float64ToNumeric (ca_CapacityCPU arg)) (ca_AgentVersion arg) (ca_Metadata arg).

Section Adapter.
Context `{External}.

Definition adapter_GetNodeByHostnameAndIP (hostname : string) (ip : Addr) : ctl (result NodeRecord) :=
  n <- db (GetNodeByHostnameAndIP hostname ip) ;; Ret (record_result n).

Definition adapter_GetNode (id : option uuid) : ctl (result NodeRecord) :=
  n <- db (GetNode id) ;; Ret (record_result n).

(** The node is inserted and its token set with a second statement. *)
Definition adapter_CreateNode (arg : CreateNodeArgs) : ctl (result NodeRecord) :=
  n <- db (CreateNode (node_statement arg)) ;;
  match n with
  | Err e => Ret (Err e)
  | Ok n =>
      if String.eqb (ca_AgentToken arg) "" then Ret (Ok (record_of n))
      else
        u <- db (UpdateNodeToken (ca_AgentToken arg) (ca_AgentVersion arg) (Some (ca_ID arg))) ;;
        Ret (match u with Err e => Err e | Ok _ => Ok (record_of n) end)
  end.

#[export] Instance storeAdapter : NodeStore := {
  ns_GetNodeByHostnameAndIP := adapter_GetNodeByHostnameAndIP;
  ns_CreateNode := adapter_CreateNode;
  ns_UpdateNodeToken := fun token agentVersion id => db (UpdateNodeToken token agentVersion id);
  ns_GetNode := adapter_GetNode;
  ns_UpdateNodeHeartbeat := fun id usedMb runningContainers => db (UpdateNodeHeartbeat id usedMb runningContainers);
  ns_ListNodes := db ListNodes;
  ns_UpdateNodeStatus := fun id status => db (UpdateNodeStatus id status);
  ns_CountActiveSandboxesByNode := fun nodeID => db (CountActiveSandboxesByNode nodeID);
}.

(** ** What its clients rely on

    No operation of the store moves a sandbox. *)
Class KeepsSandboxes (ns : NodeStore) := {
  ks_lookup R host ip : issues (within R) (ns_GetNodeByHostnameAndIP (NodeStore := ns) host ip);
  ks_create R arg : issues (within R) (ns_CreateNode (NodeStore := ns) arg);
  ks_token R token ver id : issues (within R) (ns_UpdateNodeToken (NodeStore := ns) token ver id);
  ks_get R id : issues (within R) (ns_GetNode (NodeStore := ns) id);
  ks_heartbeat R id used running : issues (within R) (ns_UpdateNodeHeartbeat (NodeStore := ns) id used running);
  ks_list R : issues (within R) (ns_ListNodes (NodeStore := ns));
  ks_status R id st : issues (within R) (ns_UpdateNodeStatus (NodeStore := ns) id st);
  ks_count R id : issues (within R) (ns_CountActiveSandboxesByNode (NodeStore := ns) id);
}.

#[export] Instance storeAdapter_keeps : KeepsSandboxes storeAdapter.
Proof.
  split; intros; unfold ns_GetNodeByHostnameAndIP, ns_CreateNode, ns_UpdateNodeToken, ns_GetNode,
    ns_UpdateNodeHeartbeat, ns_ListNodes, ns_UpdateNodeStatus, ns_CountActiveSandboxesByNode, storeAdapter,
    adapter_GetNodeByHostnameAndIP, adapter_CreateNode, adapter_GetNode; issue_tac.
Qed.

(** A lookup that answers hands its record on. *)
Lemma wp_bind_record {A} (q : stmt Node) (f : result NodeRecord -> ctl A) Q w r d :
  w_faults w = [] -> q (w_now w) (w_db w) = (r, d) ->
  ctl_wp (f (record_result r)) Q (set_db d w) ->
  ctl_wp (bind (bind (db q) (fun n => Ret (record_result n))) f) Q w.
Proof. intros Hf Hq HQ. eapply (wp_bind_db q (fun n => f (record_result n))); [done|exact Hq|exact HQ]. Qed.

Lemma wp_bind_record_any {A} (q : stmt Node) (f : result NodeRecord -> ctl A) Q w :
  (forall e fs, w_faults w = Some e :: fs -> ctl_wp (f (Err e)) Q (set_faults fs w)) ->
  (forall r d, q (w_now w) (w_db w) = (r, d) ->
     ctl_wp (f (record_result r)) Q (set_db d (set_faults (tail (w_faults w)) w))) ->
  ctl_wp (bind (bind (db q) (fun n => Ret (record_result n))) f) Q w.
Proof. intros He Hr. by apply (wp_bind_db_any q (fun n => f (record_result n))). Qed.
End Adapter.

#[export] Hint Resolve storeAdapter_keeps ks_lookup ks_create ks_token ks_get ks_heartbeat ks_list ks_status ks_count : forge.

(** [step_record t]: run the next lookup of a node with the equation [t] proves. *)
Tactic Notation "step_record" tactic3(t) :=
  eapply wp_bind_record; [simpl; done|t|cbn [record_result]; cbv beta iota].
