(* ===== verification/Api.v ===== *)
(** The HTTP surface of control/internal/api: bearer authentication, request
    decoding and validation, and the handlers for nodes, agents, sandboxes,
    events and routes, with the status each outcome is answered with. *)

From S2P Require Import Prelude Netip Json Models Scheduler Store StoreFacts Routing Effects.
From S2P Require Import StoreRuns Sweep Restart Lifecycle AckFacts Reconciler Adapters Caddy StoreAdapter.

(** ** Replies

    A reply is a status and what is encoded into the body; the rendering of
    rows as JSON (time formats, field names) is left to the encoder. *)
Inductive reply_body :=
| BEmpty
| BProblem (ty title detail : string)
| BRegistered (node_id agent_token : string) (heartbeat_interval : Z)
| BNodes (l : list Node)
| BCommands (l : list Command)
| BSandbox (s : Sandbox) (verified_at : Z)
| BSandboxes (l : list Sandbox) (fleet_verified_at : option Z)
| BCreated (r : SandboxResult)
| BEvents (l : list Event)
| BRoutes (l : list Route)
| BLocation (url : string)
| BForwarded (body : option json)
| BHealth (status postgres : string) (uptime_seconds : Z)
| BText (text : string)
| BMetrics (counts : list (string * Z)) (ns : list Node).

Record reply := mkReply {
  rp_status : Z;
  rp_body : reply_body;
}.

Definition WriteProblem (status : Z) (ty title detail : string) : reply :=
  mkReply status (BProblem ty title detail).
Definition NotFound (detail : string) : reply :=
  WriteProblem 404 "urn:forge:error:not-found" "Not Found" detail.
Definition Unauthorized : reply :=
  WriteProblem 401 "urn:forge:error:unauthorized" "Unauthorized" "missing or invalid bearer token".
Definition Conflict (detail : string) : reply :=
  WriteProblem 409 "urn:forge:error:conflict" "Conflict" detail.
Definition BadRequest (detail : string) : reply :=
  WriteProblem 400 "urn:forge:error:bad-request" "Bad Request" detail.
Definition ServiceUnavailable (detail : string) : reply :=
  WriteProblem 503 "urn:forge:error:service-unavailable" "Service Unavailable" detail.
Definition internal_error (detail : string) : reply :=
  WriteProblem 500 "urn:forge:error:internal" "Internal Server Error" detail.

(** ** strconv.Atoi

    An optional sign and decimal digits, within int64. *)
Fixpoint digits_of (acc : Z) (s : string) : option Z :=
  match s with
  | EmptyString => Some acc
  | String c s' => d ← digit_of c; digits_of (10 * acc + d) s'
  end.

Definition unsigned_of (s : string) : option Z :=
  match s with EmptyString => None | _ => digits_of 0 s end.

Definition Atoi (s : string) : option Z :=
  z ← match s with
      | String c s' =>
          if Ascii.eqb c (Ascii.ascii_of_nat 45) then Z.opp <$> unsigned_of s'
          else if Ascii.eqb c (Ascii.ascii_of_nat 43) then unsigned_of s'
          else unsigned_of s
      | EmptyString => None
      end;
  if (-(2 ^ 63) <=? z) && (z <? 2 ^ 63) then Some z else None.

(** ** Authentication *)

(** What the router needs of a route: its name and whether it is registered
    outside the authenticated group. *)
Inductive endpoint :=
| GetHealthz | GetMetrics | PostNodesRegister
| GetNodes | PostNodeHeartbeat | PostNodeDrain | DeleteNode
| PostSandboxes | GetSandboxes | GetSandboxById | DeleteSandboxById | PostSandboxRestart
| PostSandboxWake | PostSandboxFiles | GetSandboxLogs
| GetRoutes | GetEvents
| GetAgentCommands | PostCommandAck | PostAgentEvents.

Definition public (e : endpoint) : bool :=
  match e with GetHealthz | GetMetrics | PostNodesRegister => true | _ => false end.

Section Auth.
Context {E : Type -> Type}.

(** [auth] is the Authorization header, empty if absent; the comparison is
    [subtle.ConstantTimeCompare], equality of the bytes. *)
Definition BearerAuth (token auth : string) (next : prog E reply) : prog E reply :=
  if String.eqb auth "" then Ret Unauthorized
  else if negb (HasPrefix auth "Bearer ") then Ret Unauthorized
  else if negb (String.eqb (TrimPrefix auth "Bearer ") token) then Ret Unauthorized
  else next.

(** [RegisterRoutes]: without a configured token the authenticated group is
    not registered at all, and the router answers 404. *)
Definition serve (apiToken auth : string) (e : endpoint) (handler : prog E reply) : prog E reply :=
  if public e then handler
  else if String.eqb apiToken "" then Ret (mkReply 404 BEmpty)
  else BearerAuth apiToken auth handler.
End Auth.

(** ** Decoding *)

(** A pointer field: nil for [null]. *)
Definition dec_ptr {A} (d : decoder A) (zero : A) : decoder (option A) := fun old j =>
  match j with
  | JNull => (None, true)
  | _ => let '(x, ok) := d (default zero old) j in (Some x, ok)
  end.

(** [map[string]interface{}]: entries added to the map. *)
Definition dec_object : decoder (option json) := fun old j =>
  match j with
  | JNull => (None, true)
  | JObj m =>
      let base := match old with Some (JObj m0) => m0 | _ => [] end in
      (Some (JObj (foldl (fun acc '(k, v) => obj_set k v acc) base m)), true)
  | _ => (old, false)
  end.

(** [json.RawMessage]: any document. *)
Definition dec_raw : decoder (option json) := fun _ j => (Some j, true).

Definition dec_resources : decoder (Q * Z) := fun old j =>
  match j with
  | JNull => (old, true)
  | JObj m =>
      let '(cpu, ok1) := dec_field "cpu_cores" dec_float old.1 m in
      let '(mem, ok2) := dec_field "memory_mb" dec_int32 old.2 m in
      ((cpu, mem), ok1 && ok2)
  | _ => (old, false)
  end.

Record createSandboxRequest := mkCreateSandboxRequest {
  csr_AppName : string; csr_UserID : string; csr_Image : string;
  csr_Resources : option (Q * Z); csr_Env : option (gmap string string);
  csr_Idle : option Z; csr_Metadata : option json }.

Definition decode_create (body : option json) : option createSandboxRequest :=
  j ← body; m ← members_of j;
  let '(app, ok1) := dec_field "app_name" dec_string "" m in
  let '(user, ok2) := dec_field "user_id" dec_string "" m in
  let '(image, ok3) := dec_field "image" dec_string "" m in
  let '(res, ok4) := dec_field "resources" (dec_ptr dec_resources (0%Q, 0)) None m in
  let '(env, ok5) := dec_field "env" dec_env None m in
  let '(idle, ok6) := dec_field "idle_timeout_seconds" (dec_ptr dec_int32 0) None m in
  let '(meta, ok7) := dec_field "metadata" dec_object None m in
  if ok1 && ok2 && ok3 && ok4 && ok5 && ok6 && ok7
  then Some (mkCreateSandboxRequest app user image res env idle meta) else None.

(** [^[a-z0-9][a-z0-9-]{1,62}$] *)
Definition lower_alnum (c : Ascii.ascii) : bool :=
  let n := Ascii.nat_of_ascii c in
  ((97 <=? n)%nat && (n <=? 122)%nat) || ((48 <=? n)%nat && (n <=? 57)%nat).

Fixpoint all_chars (p : Ascii.ascii -> bool) (s : string) : bool :=
  match s with EmptyString => true | String c s' => p c && all_chars p s' end.

Definition appNameRegex (s : string) : bool :=
  match s with
  | EmptyString => false
  | String c s' =>
      lower_alnum c && all_chars (fun d => lower_alnum d || Ascii.eqb d (Ascii.ascii_of_nat 45)) s' &&
      (1 <=? String.length s')%nat && (String.length s' <=? 62)%nat
  end.

(** The lifecycle request of a decoded body, or the validation message. *)
Definition create_request (req : createSandboxRequest) : string + CreateRequest :=
  if String.eqb (csr_AppName req) "" then inl "app_name is required"
  else if negb (appNameRegex (csr_AppName req))
  then inl "app_name must match pattern ^[a-z0-9][a-z0-9-]{1,62}$"
  else if String.eqb (csr_UserID req) "" then inl "user_id is required"
  else if String.eqb (csr_Image req) "" then inl "image is required"
  else
    let cpu := match csr_Resources req with
               | Some (c, _) => if Qle_bool c 0 then (1 # 2)%Q else c
               | None => (1 # 2)%Q end in
    let mem := match csr_Resources req with
               | Some (_, m) => if 0 <? m then m else 512
               | None => 512 end in
    inr (mkCreateRequest (csr_AppName req) (csr_UserID req) (csr_Image req)
           (mkResources cpu mem) (csr_Env req) (default 1800 (csr_Idle req)) (csr_Metadata req)).

Definition dec_container : decoder ContainerInfo := fun old j =>
  match j with
  | JNull => (old, true)
  | JObj m =>
      let '(app, ok1) := dec_field "app_name" dec_string (ci_AppName old) m in
      let '(st, ok2) := dec_field "state" dec_string (ci_State old) m in
      let '(port, ok3) := dec_field "host_port" dec_int64 (ci_HostPort old) m in
      let '(cid, ok4) := dec_field "container_id" dec_string (ci_ContainerID old) m in
      (mkContainerInfo app st port cid, ok1 && ok2 && ok3 && ok4)
  | _ => (old, false)
  end.

(** [containers] is nil ([None]) when absent or null. *)
Definition dec_containers : decoder (option (list ContainerInfo)) := fun old j =>
  match j with
  | JNull => (None, true)
  | _ => let '(l, ok) := dec_list dec_container (mkContainerInfo "" "" 0 "") [] j in
         ((if ok then Some l else old), ok)
  end.

Definition decode_heartbeat (body : option json) : option (Z * Z * option (list ContainerInfo)) :=
  j ← body; m ← members_of j;
  let '(used, ok1) := dec_field "used_mb" dec_int32 0 m in
  let '(running, ok2) := dec_field "running_containers" dec_int32 0 m in
  let '(cs, ok3) := dec_field "containers" dec_containers None m in
  if ok1 && ok2 && ok3 then Some (used, running, cs) else None.

Definition decode_ack (body : option json) : option (string * string * option json) :=
  j ← body; m ← members_of j;
  let '(st, ok1) := dec_field "status" dec_string "" m in
  let '(err, ok2) := dec_field "error" dec_string "" m in
  let '(res, ok3) := dec_field "result" dec_raw None m in
  if ok1 && ok2 && ok3 then Some (st, err, res) else None.

Definition decode_event (body : option json) : option (string * string * option json) :=
  j ← body; m ← members_of j;
  let '(sid, ok1) := dec_field "sandbox_id" dec_string "" m in
  let '(ty, ok2) := dec_field "event_type" dec_string "" m in
  let '(_, ok3) := dec_field "container_id" dec_string "" m in
  let '(_, ok4) := dec_field "exit_code" (dec_ptr dec_int64 0) None m in
  let '(p, ok5) := dec_field "payload" dec_raw None m in
  if ok1 && ok2 && ok3 && ok4 && ok5 then Some (sid, ty, p) else None.

(** ** Server *)

(** The collaborators a handler may find not configured. *)
Record Server := mkServer {
  sv_lifecycle : option LifecycleService;
  sv_sandboxReader : bool;
  sv_reconciler : bool;
  sv_freshness : option Z;              (* the freshness window *)
  sv_eventStore : bool;
  sv_routeFetcher : option CaddyClient;
  sv_heartbeatInterval : Z;             (* in seconds *)
}.

Section Handlers.
Context `{External} (sv : Server).

(** *** Nodes *)

(** The lookup before an update: 404 only for [pgx.ErrNoRows] itself. *)
Definition with_node (idStr : string) (k : uuid -> ctl reply) : ctl reply :=
  match uuid_Parse idStr with
  | None => Ret (BadRequest "invalid node ID: must be a valid UUID")
  | Some nodeID =>
      n <- ns_GetNode (Some nodeID) ;;
      match n with
      | Err e => Ret (if decide (e = ErrNoRows) then NotFound "node not found"
                      else internal_error "failed to get node")
      | Ok _ => k nodeID
      end
  end.

Definition handleHeartbeat (idStr : string) (body : option json) : ctl reply :=
  match uuid_Parse idStr with
  | None => Ret (BadRequest "invalid node ID: must be a valid UUID")
  | Some _ =>
      match decode_heartbeat body with
      | None => Ret (BadRequest "invalid JSON body")
      | Some (used, running, containers) =>
          with_node idStr (fun nodeID =>
            u <- ns_UpdateNodeHeartbeat (Some nodeID) used running ;;
            match u with
            | Err _ => Ret (internal_error "failed to update heartbeat")
            | Ok _ =>
                match containers with
                | Some cs => if sv_reconciler sv then reconcilerAdapter nodeID cs ;;; Ret (mkReply 200 BEmpty)
                             else Ret (mkReply 200 BEmpty)
                | None => Ret (mkReply 200 BEmpty)
                end
            end)
      end
  end.

Definition handleListNodes : ctl reply :=
  ns <- ns_ListNodes ;;
  Ret (match ns with
       | Err _ => internal_error "failed to list nodes"
       | Ok ns => mkReply 200 (BNodes ns)
       end).

Definition handleDrainNode (idStr : string) : ctl reply :=
  with_node idStr (fun nodeID =>
    u <- ns_UpdateNodeStatus (Some nodeID) NodeDraining ;;
    Ret (match u with
         | Err _ => internal_error "failed to drain node"
         | Ok _ => mkReply 200 BEmpty
         end)).

Definition handleRemoveNode (idStr : string) : ctl reply :=
  with_node idStr (fun nodeID =>
    count <- ns_CountActiveSandboxesByNode (Some nodeID) ;;
    match count with
    | Err _ => Ret (internal_error "failed to count sandboxes")
    | Ok count =>
        if 0 <? count then Ret (Conflict "node has active sandboxes; drain first")
        else u <- ns_UpdateNodeStatus (Some nodeID) NodeRemoved ;;
             Ret (match u with
                  | Err _ => internal_error "failed to remove node"
                  | Ok _ => mkReply 200 BEmpty
                  end)
    end).

(** *** Agents *)

(** The [wait] parameter in seconds. *)
Definition poll_wait (waitStr : string) : Z :=
  let w := if String.eqb waitStr "" then 30 else default 30 (Atoi waitStr) in
  let w := if w <? 1 then 1 else w in
  if 60 <? w then 60 else w.

(** The poll loop: [ticks] are the ticks that fire before the deadline, each
    with whether the deadline has passed by the time its query answers. *)
Fixpoint poll_loop (nodeID : uuid) (ticks : list bool) : ctl reply :=
  match ticks with
  | [] => Ret (mkReply 200 (BCommands []))
  | expired :: ticks' =>
      cmds <- db (PollPendingCommands (Some nodeID)) ;;
      match cmds with
      | Err _ => Ret (if expired then mkReply 200 (BCommands [])
                      else internal_error "failed to poll commands")
      | Ok [] => poll_loop nodeID ticks'
      | Ok cmds => Ret (mkReply 200 (BCommands cmds))
      end
  end.

Definition handlePollCommands (idStr : string) (ticks : list bool) : ctl reply :=
  match uuid_Parse idStr with
  | None => Ret (BadRequest "invalid node ID: must be a valid UUID")
  | Some nodeID =>
      cmds <- db (PollPendingCommands (Some nodeID)) ;;
      match cmds with
      | Err _ => Ret (internal_error "failed to poll commands")
      | Ok [] => poll_loop nodeID ticks
      | Ok cmds => Ret (mkReply 200 (BCommands cmds))
      end
  end.

(** The result handed to the lifecycle: the reported one, else the error. *)
Definition ack_result (err : string) (res : option json) : option json :=
  match res with
  | Some r => Some r
  | None => if String.eqb err "" then None else Some (JObj [("error", JStr err)])
  end.

(** A command without a sandbox has the zero UUID. *)
Definition handleAckCommand (ls : LifecycleService) (idStr cmdIDStr : string)
    (body : option json) : ctl reply :=
  match uuid_Parse idStr, uuid_Parse cmdIDStr with
  | None, _ => Ret (BadRequest "invalid node ID: must be a valid UUID")
  | Some _, None => Ret (BadRequest "invalid command ID: must be a valid UUID")
  | Some _, Some cmdID =>
      match decode_ack body with
      | None => Ret (BadRequest "invalid JSON body")
      | Some (status, err, res) =>
          cmd <- db (GetCommand (Some cmdID)) ;;
          match cmd with
          | Err _ => Ret (NotFound "command not found")
          | Ok cmd =>
              r <- HandleAck ls cmdID (default uuid_Nil (cmd_SandboxID cmd))
                     (cmd_CommandType cmd) status (ack_result err res) ;;
              Ret (match r with
                   | Err _ => internal_error "failed to process acknowledgment"
                   | Ok _ => mkReply 200 BEmpty
                   end)
          end
      end
  end.

Definition handleReportEvent (ls : LifecycleService) (idStr : string) (body : option json)
  : ctl reply :=
  match uuid_Parse idStr with
  | None => Ret (BadRequest "invalid node ID: must be a valid UUID")
  | Some nodeID =>
      match decode_event body with
      | None => Ret (BadRequest "invalid JSON body")
      | Some (sid, ty, payload) =>
          if String.eqb sid "" then Ret (BadRequest "sandbox_id is required")
          else if String.eqb ty "" then Ret (BadRequest "event_type is required")
          else match uuid_Parse sid with
               | None => Ret (BadRequest "sandbox_id must be a valid UUID")
               | Some sandboxID =>
                   r <- HandleEvent ls nodeID sandboxID ty payload ;;
                   Ret (match r with
                        | Err _ => internal_error "failed to process event"
                        | Ok _ => mkReply 200 BEmpty
                        end)
               end
      end
  end.

(** *** Sandboxes *)

Definition create_reply (r : result SandboxResult) : reply :=
  match r with
  | Ok res => mkReply 201 (BCreated res)
  | Err e =>
      if errors_Is e ErrConflict then Conflict "app_name already exists"
      else if errors_Is e Lifecycle.ErrNoCapacity
      then ServiceUnavailable "no nodes available with sufficient capacity"
      else internal_error "failed to create sandbox"
  end.

Definition handleCreateSandbox (body : option json) : ctl reply :=
  match sv_lifecycle sv with
  | None => Ret (ServiceUnavailable "sandbox service not configured")
  | Some _ =>
      match decode_create body with
      | None => Ret (BadRequest "invalid JSON body")
      | Some req =>
          match create_request req with
          | inl msg => Ret (BadRequest msg)
          | inr req => r <- CreateSandbox req ;; Ret (create_reply r)
          end
      end
  end.

(** The row by id or by "app:" name. *)
Definition lookup_sandbox (idStr : string) : ctl (option (result Sandbox)) :=
  if HasPrefix idStr "app:"
  then r <- db (GetSandboxByAppName (TrimPrefix idStr "app:")) ;; Ret (Some r)
  else match uuid_Parse idStr with
       | None => Ret None
       | Some id => r <- db (GetSandbox (Some id)) ;; Ret (Some r)
       end.

Definition handleGetSandbox (idStr : string) (force_refresh : bool) : ctl reply :=
  if negb (sv_sandboxReader sv) then Ret (ServiceUnavailable "sandbox service not configured")
  else
    found <- lookup_sandbox idStr ;;
    match found with
    | None => Ret (BadRequest "invalid sandbox ID: must be a valid UUID or app:{name}")
    | Some (Err _) => Ret (NotFound "sandbox not found")
    | Some (Ok sb) =>
        match sv_freshness sv with
        | Some window =>
            if String.eqb (sb_AppName sb) "" then Ret (mkReply 200 (BSandbox sb (sb_VerifiedAt sb)))
            else
              f <- GetSandboxFresh window (sb_AppName sb) force_refresh ;;
              Ret (match f with
                   | Err e => if errors_Is e ErrSandboxNotFound then NotFound "sandbox not found"
                              else mkReply 200 (BSandbox sb (sb_VerifiedAt sb))
                   | Ok (_, refreshedAt) => mkReply 200 (BSandbox sb refreshedAt)
                   end)
        | None => Ret (mkReply 200 (BSandbox sb (sb_VerifiedAt sb)))
        end
    end.

(** A positive limit, capped; [None] is a bad request. *)
Definition parse_limit (dflt cap : Z) (limitStr : string) : option Z :=
  if String.eqb limitStr "" then Some dflt
  else match Atoi limitStr with
       | None => None
       | Some l => if l <? 1 then None else Some (if cap <? l then cap else l)
       end.

Definition fleet_verified (l : list Sandbox) : option Z :=
  foldl (fun o s => match o with
                    | None => Some (sb_VerifiedAt s)
                    | Some t => Some (if sb_VerifiedAt s <? t then sb_VerifiedAt s else t)
                    end) None l.

Definition list_reply (r : result (list Sandbox)) : reply :=
  match r with
  | Err _ => internal_error "failed to list sandboxes"
  | Ok l => mkReply 200 (BSandboxes l (fleet_verified l))
  end.

Record list_query := mkListQuery {
  lq_app_name : string; lq_user_id : string; lq_state : string; lq_node_id : string;
  lq_limit : string }.

Definition handleListSandboxes (q : list_query) : ctl reply :=
  if negb (sv_sandboxReader sv) then Ret (ServiceUnavailable "sandbox service not configured")
  else if negb (String.eqb (lq_app_name q) "")
  then r <- db (GetSandboxByAppName (lq_app_name q)) ;;
       Ret (match r with
            | Err _ => mkReply 200 (BSandboxes [] None)
            | Ok sb => list_reply (Ok [sb])
            end)
  else if negb (String.eqb (lq_user_id q) "")
  then r <- db (ListSandboxesByUser (lq_user_id q)) ;; Ret (list_reply r)
  else if negb (String.eqb (lq_state q) "")
  then r <- db (ListSandboxesByState (lq_state q)) ;; Ret (list_reply r)
  else if negb (String.eqb (lq_node_id q) "")
  then match uuid_Parse (lq_node_id q) with
       | None => Ret (BadRequest "invalid node_id: must be a valid UUID")
       | Some n => r <- db (ListSandboxesByNode (Some n)) ;; Ret (list_reply r)
       end
  else match parse_limit 50 500 (lq_limit q) with
       | None => Ret (BadRequest "limit must be a positive integer")
       | Some limit => r <- db (ListSandboxes limit) ;; Ret (list_reply r)
       end.

(** The three requests on one sandbox: parse, call, map the error. *)
Definition on_sandbox (idStr : string) (op : uuid -> ctl (result unit)) (reply_error : error -> reply)
  : ctl reply :=
  match sv_lifecycle sv with
  | None => Ret (ServiceUnavailable "sandbox service not configured")
  | Some _ =>
      match uuid_Parse idStr with
      | None => Ret (BadRequest "invalid sandbox ID: must be a valid UUID")
      | Some id =>
          r <- op id ;;
          Ret (match r with
               | Ok _ => mkReply 202 BEmpty
               | Err e => reply_error e
               end)
      end
  end.

Definition not_found_or (e : error) (detail : string) : reply :=
  if errors_Is e Lifecycle.ErrNotFound then NotFound "sandbox not found" else internal_error detail.

Definition handleDestroySandbox (idStr : string) : ctl reply :=
  on_sandbox idStr DestroySandbox (fun e => not_found_or e "failed to destroy sandbox").
Definition handleRestartSandbox (idStr : string) : ctl reply :=
  on_sandbox idStr RestartSandbox (fun e => not_found_or e "failed to restart sandbox").
Definition handleWakeSandbox (idStr : string) : ctl reply :=
  on_sandbox idStr WakeSandbox (fun e =>
    if errors_Is e Lifecycle.ErrNotFound then NotFound "sandbox not found"
    else if errors_Is e ErrInvalidState then Conflict (error_text e)
    else internal_error "failed to wake sandbox").

(** *** Health and metrics *)

(** [pgxpool.Pool.Ping]: a round trip without a statement. *)
Definition Ping : stmt unit := fun _ db => (Ok tt, db).

Definition handleHealthz (startTime : Z) : ctl reply :=
  p <- db Ping ;;
  now <- time_Now ;;
  let uptime := Z.quot (now - startTime) second in
  Ret (if is_ok p then mkReply 200 (BHealth "ok" "ok" uptime)
       else mkReply 503 (BHealth "error" "unreachable" uptime)).

(** The text of the samples is left to the printer. *)
Definition handleMetrics (configured : bool) : ctl reply :=
  if negb configured then Ret (mkReply 503 (BText "metrics not configured"))
  else
    counts <- db CountSandboxesByState ;;
    match counts with
    | Err _ => Ret (mkReply 500 (BText "internal error"))
    | Ok counts =>
        ns <- db ListNodes ;;
        Ret (match ns with
             | Err _ => mkReply 500 (BText "internal error")
             | Ok ns => mkReply 200 (BMetrics counts ns)
             end)
    end.

(** *** Events and routes *)

Definition events_reply (r : result (list Event)) : reply :=
  match r with
  | Err _ => internal_error "failed to list events"
  | Ok l => mkReply 200 (BEvents l)
  end.

Definition handleListEvents (sandbox_id event_type limitStr : string) : ctl reply :=
  if negb (sv_eventStore sv) then Ret (ServiceUnavailable "event service not configured")
  else match parse_limit 100 1000 limitStr with
       | None => Ret (BadRequest "limit must be a positive integer")
       | Some limit =>
           if negb (String.eqb sandbox_id "")
           then match uuid_Parse sandbox_id with
                | None => Ret (BadRequest "invalid sandbox_id: must be a valid UUID")
                | Some id => r <- db (ListEventsBySandbox (Some id) limit) ;; Ret (events_reply r)
                end
           else if negb (String.eqb event_type "")
           then r <- db (ListEventsByType event_type limit) ;; Ret (events_reply r)
           else r <- db (ListRecentEvents limit) ;; Ret (events_reply r)
       end.

Definition handleListRoutes : ctl reply :=
  match sv_routeFetcher sv with
  | None => Ret (ServiceUnavailable "route service not configured")
  | Some c =>
      rs <- ListRoutes c ;;
      Ret (match rs with
           | Err _ => internal_error "failed to list routes"
           | Ok rs => mkReply 200 (BRoutes rs)
           end)
  end.
End Handlers.

(** ** Facts *)

Lemma HasPrefix_split s p : HasPrefix s p = true -> s = p +:+ TrimPrefix s p.
Proof.
  unfold TrimPrefix. intros Hp. rewrite Hp. revert s Hp. unfold HasPrefix.
  induction p as [|a p IH]; intros s Hp; simpl.
  - rewrite Nat.sub_0_r, substring_all. done.
  - destruct s as [|b s]; simpl in Hp; [done|]. destruct (Ascii.ascii_dec a b) as [->|]; [|done].
    simpl. by rewrite (IH s Hp) at 1.
Qed.

Lemma bearer_iff auth token :
  (negb (HasPrefix auth "Bearer ") || negb (String.eqb (TrimPrefix auth "Bearer ") token)) = false <->
  auth = "Bearer " +:+ token.
Proof.
  rewrite orb_false_iff, !negb_false_iff, String.eqb_eq. split.
  - intros [Hp <-]. by apply HasPrefix_split.
  - intros ->. split; [apply prefix_app|apply TrimPrefix_app].
Qed.

Section ApiFacts.
Context `{External}.

(** A node by its id in a request. *)
Lemma with_node_runs idStr id n k w Q :
  w_faults w = [] -> uuid_Parse idStr = Some id -> nodes (w_db w) !! id = Some n ->
  ctl_wp (k id) Q w -> ctl_wp (with_node idStr k) Q w.
Proof.
  intros Hf Hp Hn HQ. unfold with_node. rewrite Hp. step_record (by apply run_GetNode).
  by rewrite set_db_same.
Qed.

Definition with_status (st : string) (n : Node) : Node :=
  mkNode (nd_ID n) (nd_Hostname n) (nd_TailscaleIp n) (nd_AgentListenPort n) (nd_CapacityMb n)
    (nd_CapacityCpu n) (nd_UsedMb n) (nd_RunningContainers n) st (nd_AgentVersion n)
    (nd_LastSeenAt n) (nd_RegisteredAt n) (nd_Metadata n) (nd_AgentToken n).

Definition with_heartbeat (used running now : Z) (n : Node) : Node :=
  mkNode (nd_ID n) (nd_Hostname n) (nd_TailscaleIp n) (nd_AgentListenPort n) (nd_CapacityMb n)
    (nd_CapacityCpu n) used running NodeHealthy (nd_AgentVersion n) now (nd_RegisteredAt n)
    (nd_Metadata n) (nd_AgentToken n).

Definition put_node (n : Node) (db : DB) : DB := set_nodes (<[nd_ID n := n]> (nodes db)) db.

Lemma run_UpdateNodeStatus id st now db n :
  nodes db !! id = Some n -> check_node_status st = true ->
  UpdateNodeStatus (Some id) st now db = (Ok tt, put_node (with_status st n) db).
Proof.
  intros Hn Hst. unfold UpdateNodeStatus, update_node, find_node. simpl. rewrite Hn.
  unfold write_node. simpl. by rewrite Hst.
Qed.

Lemma run_UpdateNodeHeartbeat id used running now db n :
  nodes db !! id = Some n ->
  UpdateNodeHeartbeat (Some id) used running now db =
    (Ok tt, put_node (with_heartbeat used running now n) db).
Proof.
  intros Hn. unfold UpdateNodeHeartbeat, update_node, find_node. simpl. by rewrite Hn.
Qed.

(** Sandboxes that keep a node from being removed. *)
Definition active_sandboxes (node : uuid) (db : DB) : list Sandbox :=
  filter (active_on (Some node)) (sandbox_rows db).

Lemma remove_node_runs idStr id n w :
  w_faults w = [] -> uuid_Parse idStr = Some id -> nodes (w_db w) !! id = Some n ->
  exec (handleRemoveNode idStr) w =
    match active_sandboxes id (w_db w) with
    | [] => (mkReply 200 BEmpty, set_db (put_node (with_status NodeRemoved n) (w_db w)) w)
    | _ => (Conflict "node has active sandboxes; drain first", w)
    end.
Proof.
  intros Hf Hp Hn. destruct (active_sandboxes id (w_db w)) as [|s l] eqn:Ha;
    apply exec_eq; apply (with_node_runs _ id n); try done;
    (eapply wp_bind_db; [done|reflexivity|]); cbv beta iota; rewrite set_db_same;
    fold (active_sandboxes id (w_db w)); rewrite Ha; [|by apply ctl_wp_ret].
  simpl. step_by (by apply run_UpdateNodeStatus). by apply ctl_wp_ret.
Qed.
End ApiFacts.

(** Claimed commands are no longer pending. *)
Lemma foldr_insert_mem (l : list Command) (m : gmap uuid Command) c :
  NoDup (cmd_ID <$> l) -> c ∈ l -> foldr (fun c m => <[cmd_ID c := c]> m) m l !! cmd_ID c = Some c.
Proof.
  induction l as [|d l IH]; intros Hnd Hc; [by apply not_elem_of_nil in Hc|]. simpl.
  apply NoDup_cons in Hnd as [Hd Hnd]. apply elem_of_cons in Hc as [->|Hc]; [apply lookup_insert_eq|].
  rewrite lookup_insert_ne; [by apply IH|]. intros Heq. apply Hd. rewrite Heq.
  by apply list_elem_of_fmap_2.
Qed.

Lemma NoDup_command_rows db : db_wf db -> NoDup (cmd_ID <$> command_rows db).
Proof.
  intros Hwf. apply NoDup_rows. intros id c Hc. by destruct (wf_commands _ Hwf _ _ Hc).
Qed.

Lemma NoDup_pending db node : db_wf db -> NoDup (cmd_ID <$> pending_commands db node).
Proof.
  intros Hwf. unfold pending_commands.
  eapply sublist_NoDup; [|apply fmap_sublist, sublist_take]. rewrite order_by_perm.
  eapply sublist_NoDup; [|apply fmap_sublist, sublist_filter]. by apply NoDup_command_rows.
Qed.

Lemma polled_dispatched db node now c :
  db_wf db -> c ∈ dispatched now <$> pending_commands db node ->
  commands (PollPendingCommands node now db).2 !! cmd_ID c = Some c /\ cmd_Status c = CmdDispatched.
Proof.
  intros Hwf Hc. split.
  - simpl. apply foldr_insert_mem; [|done].
    rewrite <- list_fmap_compose. change (cmd_ID ∘ dispatched now) with cmd_ID. by apply NoDup_pending.
  - by apply list_elem_of_fmap in Hc as (d & -> & _).
Qed.

(** One pending command. *)
Definition demo_referenced_pending : DB :=
  put_command (mkCommand 50 1 (Some 7%N) CmdStartSandbox json_empty CmdPending None None None 60 0)
    (demo_db StateStarting 0).

Lemma demo_referenced_pending_wf : db_wf demo_referenced_pending.
Proof.
  eapply db_step_wf; [apply (demo_db_wf StateStarting 0), in_states; reflexivity|].
  apply (insert_command_step no_move).
  - apply demo_db_wf, in_states. reflexivity.
  - by split; simpl; [..|intros i [= <-]].
Qed.

(** ** Properties *)

Section Properties.
#[local] Existing Instance demo_external | 100.

(** C38: authentication is complete: with a token configured, a request outside
    the three public routes reaches its handler exactly when its Authorization
    header is the word Bearer, a space and the token; otherwise the answer is
    401 and the handler performs no effect.  Without a configured token those
    routes do not exist. *)
Theorem serve_authenticates {E} apiToken auth e (handler : prog E reply) :
  serve apiToken auth e handler =
    if public e then handler
    else if decide (apiToken = "") then Ret (mkReply 404 BEmpty)
    else if decide (auth = "Bearer " +:+ apiToken) then handler else Ret Unauthorized.
Proof.
  unfold serve. destruct (public e); [done|].
  destruct (String.eqb_spec apiToken "") as [->|Hne]; [done|]. rewrite decide_False by done.
  unfold BearerAuth. pose proof (bearer_iff auth apiToken) as Hb.
  destruct (String.eqb_spec auth "") as [->|_]; [by rewrite decide_False|].
  destruct (negb (HasPrefix auth "Bearer ")); cbn [orb] in Hb;
    [rewrite decide_False; [done|]; intros Heq; by apply Hb in Heq|].
  destruct (negb (String.eqb (TrimPrefix auth "Bearer ") apiToken));
    [rewrite decide_False; [done|]; intros Heq; by apply Hb in Heq|].
  rewrite decide_True; [done|]. by apply Hb.
Qed.

(** Numeric query parameters are clamped: the long poll waits between 1
    and 60 seconds whatever the client sends, and an accepted list limit lies
    between 1 and the cap, so it fits the int4 parameter of the query. *)
Theorem parameters_clamped waitStr limitStr dflt cap l :
  1 <= dflt <= cap ->
  1 <= poll_wait waitStr <= 60 /\
  (parse_limit dflt cap limitStr = Some l -> 1 <= l <= cap).
Proof.
  intros Hd. unfold poll_wait, parse_limit. split.
  - generalize (if String.eqb waitStr "" then 30 else default 30 (Atoi waitStr)). intros x.
    destruct (Z.ltb_spec x 1); [simpl; lia|]. destruct (Z.ltb_spec 60 x); lia.
  - destruct (String.eqb limitStr ""); [by intros [= <-]|].
    destruct (Atoi limitStr) as [z|]; [|done].
    destruct (Z.ltb_spec z 1); [done|]. destruct (Z.ltb_spec cap z); intros [= <-]; lia.
Qed.

Lemma parameters_clamped_witness :
  1 <= poll_wait "3600" <= 60 /\ (parse_limit 50 500 "9999" = Some 500 -> 1 <= 500 <= 500).
Proof. apply (parameters_clamped "3600" "9999" 50 500 500). lia. Defined.

(** A command is handed to an agent at most once: the commands one poll
    returns are at most ten, were pending for that node, are dispatched from
    then on, and no later poll of any node returns them while they are. *)
Theorem poll_at_most_once node node' now now' db :
  db_wf db ->
  let '(r, db') := PollPendingCommands node now db in
  exists l, r = Ok l /\ (length l <= 10)%nat /\
    Forall (fun c => Some (cmd_NodeID c) = node /\ cmd_Status c = CmdDispatched /\
                     commands db' !! cmd_ID c = Some c) l /\
    exists l', (PollPendingCommands node' now' db').1 = Ok l' /\
      forall c c', c ∈ l -> c' ∈ l' -> cmd_ID c <> cmd_ID c'.
Proof.
  intros Hwf. destruct (PollPendingCommands node now db) as [r db'] eqn:Hpoll.
  assert (db_wf db') as Hwf'.
  { pose proof (does_PollPendingCommands node now db Hwf) as Hd. rewrite Hpoll in Hd.
    by eapply db_step_wf. }
  pose proof (polled_dispatched db node now) as Hdis. rewrite Hpoll in Hdis. simpl in Hdis.
  unfold PollPendingCommands in Hpoll. simplify_eq. eexists. split; [done|]. split_and!.
  - rewrite length_fmap. unfold pending_commands. rewrite length_take. lia.
  - apply Forall_forall. intros c Hc. destruct (Hdis c Hwf Hc) as [Hl Hs]. split_and!; [|done|done].
    apply list_elem_of_fmap in Hc as (d & -> & Hd). by apply elem_of_pending in Hd as (_ & ? & _).
  - eexists. split; [done|]. intros c c' Hc Hc' Heq. destruct (Hdis c Hwf Hc) as [Hl Hs].
    apply list_elem_of_fmap in Hc' as (d & -> & Hd). simpl in Heq.
    apply elem_of_pending in Hd as ([i Hi] & _ & Hp).
    destruct (wf_commands _ Hwf' _ _ Hi) as [Hid _ _ _ _]. rewrite Heq, Hid, Hi in Hl.
    simplify_eq. by rewrite Hp in Hs.
Qed.

Lemma poll_at_most_once_witness :
  let '(r, db') := PollPendingCommands (Some 1%N) 5 demo_referenced_pending in
  exists l, r = Ok l /\ length l = 1%nat /\ exists l',
    (PollPendingCommands (Some 1%N) 6 db').1 = Ok l' /\
    forall c c', c ∈ l -> c' ∈ l' -> cmd_ID c <> cmd_ID c'.
Proof.
  pose proof (poll_at_most_once (Some 1%N) (Some 1%N) 5 6 demo_referenced_pending
    demo_referenced_pending_wf) as H.
  destruct (PollPendingCommands (Some 1%N) 5 demo_referenced_pending) as [r db'] eqn:E.
  destruct H as (l & Hr & _ & _ & l' & Hl' & Hne). exists l. split; [exact Hr|]. split.
  - assert (Ok l = (PollPendingCommands (Some 1%N) 5 demo_referenced_pending).1) as Hlen
      by (rewrite E; symmetry; exact Hr).
    vm_compute in Hlen. injection Hlen as ->. reflexivity.
  - exists l'. split; [exact Hl'|exact Hne].
Defined.

(** A node is removed only when it is empty: with a sandbox on it that is
    neither stopped nor destroyed the request is a conflict and nothing
    changes, otherwise the node is marked removed. *)
Theorem handleRemoveNode_guard `{External} idStr id n w :
  w_faults w = [] -> db_wf (w_db w) -> uuid_Parse idStr = Some id ->
  nodes (w_db w) !! id = Some n ->
  let '(r, w') := exec (handleRemoveNode idStr) w in
  ((exists i s, sandboxes (w_db w) !! i = Some s /\ active_on (Some id) s) /\
   r = Conflict "node has active sandboxes; drain first" /\ w' = w) \/
  ((forall i s, sandboxes (w_db w) !! i = Some s -> ~ active_on (Some id) s) /\
   r = mkReply 200 BEmpty /\
   nodes (w_db w') = <[nd_ID n := with_status NodeRemoved n]> (nodes (w_db w))).
Proof.
  intros Hf Hwf Hp Hn. rewrite (remove_node_runs _ _ _ _ Hf Hp Hn).
  destruct (active_sandboxes id (w_db w)) as [|s l] eqn:Ha.
  - right. split_and!; [|done|done]. intros i s Hs Hact.
    assert (s ∈ active_sandboxes id (w_db w)) as Hin; [|by rewrite Ha in Hin; apply not_elem_of_nil in Hin].
    apply list_elem_of_filter. split; [done|]. apply elem_of_sandbox_rows; [done|].
    by rewrite (so_key _ _ _ (wf_sandboxes _ Hwf _ _ Hs)).
  - left. split_and!; [|done|done]. exists (sb_ID s), s.
    assert (s ∈ active_sandboxes id (w_db w)) as Hin by (rewrite Ha; left).
    apply list_elem_of_filter in Hin as [? Hin]. by apply elem_of_sandbox_rows in Hin.
Qed.

Lemma handleRemoveNode_guard_witness :
  (exec (handleRemoveNode "1") (demo_world (demo_db StateFailed 0))).1 =
    Conflict "node has active sandboxes; drain first".
Proof.
  pose proof (@handleRemoveNode_guard demo_external "1" 1 demo_node (demo_world (demo_db StateFailed 0))
    eq_refl) as H.
  destruct (exec _ _) as [r w']. destruct H as [(_ & Hr & _)|(Hno & _)].
  - apply demo_db_wf, in_states. reflexivity.
  - reflexivity.
  - reflexivity.
  - exact Hr.
  - exfalso. apply (Hno 7%N (demo_sandbox StateFailed 0)); [reflexivity|].
    split_and!; [by eexists|reflexivity|discriminate|discriminate].
Defined.

(** Draining does not last: the next heartbeat of the node sets its status
    back to healthy, whatever it was, and the scheduler sees it again; the
    same holds of a removed node. *)
Theorem heartbeat_undoes_drain `{External} sv idStr id n used running w :
  w_faults w = [] -> uuid_Parse idStr = Some id -> nodes (w_db w) !! id = Some n -> nd_ID n = id ->
  in_int32 used -> in_int32 running ->
  let '(r1, w1) := exec (handleDrainNode idStr) w in
  let '(r2, w2) := exec (handleHeartbeat sv idStr
     (Some (JObj [("used_mb", JInt used); ("running_containers", JInt running)]))) w1 in
  rp_status r1 = 200 /\ (nd_Status <$> nodes (w_db w1) !! id) = Some NodeDraining /\
  rp_status r2 = 200 /\ (nd_Status <$> nodes (w_db w2) !! id) = Some NodeHealthy.
Proof.
  intros Hf Hp Hn Hid Hu Hr.
  assert (exec (handleDrainNode idStr) w =
    (mkReply 200 BEmpty, set_db (put_node (with_status NodeDraining n) (w_db w)) w)) as ->.
  { apply exec_eq, (with_node_runs _ id n); [done..|].
    step_by (by apply run_UpdateNodeStatus). by apply ctl_wp_ret. }
  set (w1 := set_db _ w).
  assert (nodes (w_db w1) !! id = Some (with_status NodeDraining n)) as Hn1
    by (simpl; rewrite Hid; apply lookup_insert_eq).
  assert (decode_heartbeat (Some (JObj [("used_mb", JInt used); ("running_containers", JInt running)]))
    = Some (used, running, None)) as Hdec.
  { unfold in_int32 in *. unfold decode_heartbeat, dec_field. simpl. unfold dec_int32, dec_int.
    by rewrite !(proj2 (andb_true_iff _ _)) by (rewrite !Z.leb_le; lia). }
  assert (exec (handleHeartbeat sv idStr
     (Some (JObj [("used_mb", JInt used); ("running_containers", JInt running)]))) w1 =
    (mkReply 200 BEmpty,
     set_db (put_node (with_heartbeat used running (w_now w1) (with_status NodeDraining n)) (w_db w1)) w1)) as ->.
  { apply exec_eq. unfold handleHeartbeat. rewrite Hp, Hdec.
    apply (with_node_runs _ id (with_status NodeDraining n)); [done..|].
    step_by (by apply run_UpdateNodeHeartbeat). by apply ctl_wp_ret. }
  split; [done|]. rewrite Hn1. split; [done|]. split; [done|].
  simpl. rewrite Hid, lookup_insert_eq. done.
Qed.

Lemma heartbeat_undoes_drain_witness :
  let w := demo_world (demo_db StateStopped 0) in
  let '(r1, w1) := exec (handleDrainNode "1") w in
  let '(r2, w2) := exec (handleHeartbeat (mkServer None true true None true None 15) "1"
     (Some (JObj [("used_mb", JInt 0); ("running_containers", JInt 0)]))) w1 in
  rp_status r1 = 200 /\ (nd_Status <$> nodes (w_db w1) !! 1%N) = Some NodeDraining /\
  rp_status r2 = 200 /\ (nd_Status <$> nodes (w_db w2) !! 1%N) = Some NodeHealthy.
Proof.
  intros w.
  apply (@heartbeat_undoes_drain demo_external (mkServer None true true None true None 15) "1" 1
    demo_node 0 0 w); try reflexivity; vm_compute; split; discriminate.
Defined.

(** An unknown sandbox is a server error: the lifecycle wraps the store's
    [pgx.ErrNoRows] and never answers [ErrNotFound], the only error the
    handlers map to 404, so destroy, restart and wake of an id that does not
    exist answer 500. *)
Theorem missing_sandbox_is_500 `{External} sv ls idStr id w :
  w_faults w = [] -> sv_lifecycle sv = Some ls -> uuid_Parse idStr = Some id ->
  sandboxes (w_db w) !! id = None ->
  exec (handleDestroySandbox sv idStr) w = (internal_error "failed to destroy sandbox", w) /\
  exec (handleRestartSandbox sv idStr) w = (internal_error "failed to restart sandbox", w) /\
  exec (handleWakeSandbox sv idStr) w = (internal_error "failed to wake sandbox", w).
Proof.
  intros Hf Hls Hp Hno.
  assert (forall now, GetSandbox (Some id) now (w_db w) = (Err ErrNoRows, w_db w)) as Hget
    by (intros now; unfold GetSandbox, find_sandbox; simpl; by rewrite Hno).
  split_and!; apply exec_eq;
    unfold handleDestroySandbox, handleRestartSandbox, handleWakeSandbox, on_sandbox;
    rewrite Hls, Hp; apply ctl_wp_bind;
    unfold DestroySandbox, RestartSandbox, WakeSandbox;
    (eapply wp_bind_db; [done|apply Hget|]); by rewrite set_db_same.
Qed.

Lemma missing_sandbox_is_500_witness :
  let w := demo_world empty_db in
  rp_status (exec (handleDestroySandbox (mkServer (Some (mkService true true)) true true None true None 15)
    "7") w).1 = 500.
Proof.
  intros w.
  rewrite (proj1 (@missing_sandbox_is_500 demo_external
    (mkServer (Some (mkService true true)) true true None true None 15) (mkService true true) "7" 7 w
    eq_refl eq_refl eq_refl eq_refl)). reflexivity.
Defined.

End Properties.
