(* ===== verification/Responses.v ===== *)
(** What the control plane writes: the response types of control/internal/api
    and the JSON of every reply (nodes.go, sandboxes.go, agents.go, events.go,
    routes_handlers.go, health.go, errors.go). *)

From S2P Require Import Prelude Time Netip Json Models Scheduler Store StoreFacts Routing Effects.
From S2P Require Import Lifecycle Reconciler Adapters Caddy Api.

(** ** Members left out when empty *)

Definition str_field (k s : string) : list (string * json) := [(k, JStr s)].
Definition int_field (k : string) (z : Z) : list (string * json) := [(k, JInt z)].
Definition omit_empty (k s : string) : list (string * json) :=
  if String.eqb s "" then [] else [(k, JStr s)].
Definition omit_none {A} (k : string) (f : A -> json) (o : option A) : list (string * json) :=
  match o with Some a => [(k, f a)] | None => [] end.

(** ** Response types *)

Record nodeResponse := mkNodeResponse {
  nres_ID : string;
  nres_Hostname : string;
  nres_TailscaleIP : string;
  nres_CapacityMb : Z;
  nres_UsedMb : Z;
  nres_Status : string;
  nres_RunningSandboxes : Z;
  nres_AgentVersion : string;
  nres_LastSeenAt : string;
  nres_RegisteredAt : string;
}.

Definition nodeResponse_json (r : nodeResponse) : json :=
  JObj (str_field "id" (nres_ID r) ++ str_field "hostname" (nres_Hostname r) ++
        str_field "tailscale_ip" (nres_TailscaleIP r) ++ int_field "capacity_mb" (nres_CapacityMb r) ++
        int_field "used_mb" (nres_UsedMb r) ++ str_field "status" (nres_Status r) ++
        int_field "running_sandboxes" (nres_RunningSandboxes r) ++
        str_field "agent_version" (nres_AgentVersion r) ++
        omit_empty "last_seen_at" (nres_LastSeenAt r) ++
        omit_empty "registered_at" (nres_RegisteredAt r)).

(** Pointers and raw messages that may be nil are options. *)
Record SandboxResponse := mkSandboxResponse {
  sres_ID : string;
  sres_AppName : string;
  sres_UserID : string;
  sres_NodeID : option string;
  sres_ContainerID : option string;
  sres_Image : string;
  sres_State : string;
  sres_URL : string;
  sres_Resources : option json;
  sres_HostPort : option Z;
  sres_CreatedAt : string;
  sres_UpdatedAt : string;
  sres_LastActiveAt : string;
  sres_FailureCount : Z;
  sres_Metadata : option json;
  sres_VerifiedAt : string;
}.

Definition SandboxResponse_json (r : SandboxResponse) : json :=
  JObj (str_field "id" (sres_ID r) ++ str_field "app_name" (sres_AppName r) ++
        str_field "user_id" (sres_UserID r) ++ omit_none "node_id" JStr (sres_NodeID r) ++
        omit_none "container_id" JStr (sres_ContainerID r) ++ str_field "image" (sres_Image r) ++
        str_field "state" (sres_State r) ++ str_field "url" (sres_URL r) ++
        omit_none "resources" id (sres_Resources r) ++ omit_none "host_port" JInt (sres_HostPort r) ++
        omit_empty "created_at" (sres_CreatedAt r) ++ omit_empty "updated_at" (sres_UpdatedAt r) ++
        omit_empty "last_active_at" (sres_LastActiveAt r) ++
        int_field "failure_count" (sres_FailureCount r) ++ omit_none "metadata" id (sres_Metadata r) ++
        omit_empty "verified_at" (sres_VerifiedAt r)).

Record commandResponse := mkCommandResponse {
  cres_ID : string;
  cres_Type : string;
  cres_SandboxID : option string;
  cres_Payload : json;
  cres_IssuedAt : string;
  cres_TimeoutSeconds : Z;
}.

Definition commandResponse_json (r : commandResponse) : json :=
  JObj [("id", JStr (cres_ID r)); ("type", JStr (cres_Type r));
        ("sandbox_id", match cres_SandboxID r with Some s => JStr s | None => JNull end);
        ("payload", cres_Payload r); ("issued_at", JStr (cres_IssuedAt r));
        ("timeout_seconds", JInt (cres_TimeoutSeconds r))].

Record eventResponse := mkEventResponse {
  eres_ID : Z;
  eres_SandboxID : string;
  eres_NodeID : string;
  eres_EventType : string;
  eres_Actor : string;
  eres_PrevState : string;
  eres_NextState : string;
  eres_Payload : option json;
  eres_CreatedAt : string;
}.

Definition eventResponse_json (r : eventResponse) : json :=
  JObj (int_field "id" (eres_ID r) ++ omit_empty "sandbox_id" (eres_SandboxID r) ++
        omit_empty "node_id" (eres_NodeID r) ++ str_field "event_type" (eres_EventType r) ++
        str_field "actor" (eres_Actor r) ++ omit_empty "prev_state" (eres_PrevState r) ++
        omit_empty "next_state" (eres_NextState r) ++ omit_none "payload" id (eres_Payload r) ++
        omit_empty "created_at" (eres_CreatedAt r)).

Record routeResponse := mkRouteResponse {
  rres_AppName : string;
  rres_SandboxID : string;
  rres_Upstream : string;
}.

Definition routeResponse_json (r : routeResponse) : json :=
  JObj [("app_name", JStr (rres_AppName r)); ("sandbox_id", JStr (rres_SandboxID r));
        ("upstream", JStr (rres_Upstream r))].

Section Responses.
Context `{External} (zone : Z).

(** Timestamps are in the zone of the process; the columns are never NULL. *)
Definition rfc3339 (t : Z) : string := Format_RFC3339 zone (t / second).
Definition literal_z (t : Z) : string := Format_Z zone (t / second).

Definition formatUUID (u : option uuid) : string := default "" (uuid_String <$> u).

(** ** Mappers *)

Definition storeNodeToResponse (n : Node) : nodeResponse := {|
  nres_ID := formatUUID (Some (nd_ID n)); nres_Hostname := nd_Hostname n;
  nres_TailscaleIP := Addr_String (nd_TailscaleIp n); nres_CapacityMb := nd_CapacityMb n;
  nres_UsedMb := nd_UsedMb n; nres_Status := nd_Status n;
  nres_RunningSandboxes := nd_RunningContainers n; nres_AgentVersion := nd_AgentVersion n;
  nres_LastSeenAt := literal_z (nd_LastSeenAt n); nres_RegisteredAt := literal_z (nd_RegisteredAt n) |}.

Definition app_url (app : string) : string := "https://" +:+ app +:+ ".myappx.live".

(** [handleGetSandbox] may replace the time of verification. *)
Definition sandboxToResponse (s : Sandbox) (verified : Z) : SandboxResponse := {|
  sres_ID := formatUUID (Some (sb_ID s)); sres_AppName := sb_AppName s; sres_UserID := sb_UserID s;
  sres_NodeID := uuid_String <$> sb_NodeID s; sres_ContainerID := sb_ContainerID s;
  sres_Image := sb_Image s; sres_State := sb_State s; sres_URL := app_url (sb_AppName s);
  sres_Resources := Some (sb_Resources s); sres_HostPort := sb_HostPort s;
  sres_CreatedAt := literal_z (sb_CreatedAt s); sres_UpdatedAt := literal_z (sb_UpdatedAt s);
  sres_LastActiveAt := literal_z (sb_LastActiveAt s); sres_FailureCount := sb_FailureCount s;
  sres_Metadata := Some (sb_Metadata s); sres_VerifiedAt := rfc3339 verified |}.

Definition sandboxResultToResponse (r : SandboxResult) : SandboxResponse := {|
  sres_ID := uuid_String (res_ID r); sres_AppName := res_AppName r; sres_UserID := res_UserID r;
  sres_NodeID := uuid_String <$> res_NodeID r; sres_ContainerID := None;
  sres_Image := res_Image r; sres_State := res_State r; sres_URL := res_URL r;
  sres_Resources := None; sres_HostPort := None; sres_CreatedAt := ""; sres_UpdatedAt := "";
  sres_LastActiveAt := ""; sres_FailureCount := 0; sres_Metadata := None; sres_VerifiedAt := "" |}.

Definition mapCommand (c : Command) : commandResponse :=
  mkCommandResponse (uuid_String (cmd_ID c)) (cmd_CommandType c) (uuid_String <$> cmd_SandboxID c)
    (cmd_Payload c) (rfc3339 (cmd_CreatedAt c)) (cmd_TimeoutSeconds c).

Definition mapCommands (l : list Command) : list commandResponse := mapCommand <$> l.

Definition storeEventToResponse (e : Event) : eventResponse := {|
  eres_ID := ev_ID e; eres_SandboxID := formatUUID (ev_SandboxID e); eres_NodeID := formatUUID (ev_NodeID e);
  eres_EventType := ev_EventType e; eres_Actor := ev_Actor e; eres_PrevState := default "" (ev_PrevState e);
  eres_NextState := default "" (ev_NextState e); eres_Payload := Some (ev_Payload e);
  eres_CreatedAt := literal_z (ev_CreatedAt e) |}.

Definition route_response (r : Route) : routeResponse :=
  mkRouteResponse (rt_AppName r) (rt_SandboxID r) (rt_Upstream r).

Definition problem_json (status : Z) (ty title detail : string) : json :=
  JObj (str_field "type" ty ++ str_field "title" title ++ int_field "status" status ++
        omit_empty "detail" detail).

(** ** Replies

    [None] is a body that is not a JSON document (plain text or nothing). *)
Definition body_json (status : Z) (b : reply_body) : option json :=
  match b with
  | BEmpty | BText _ | BLocation _ | BMetrics _ _ => None
  | BProblem ty title detail => Some (problem_json status ty title detail)
  | BRegistered id token interval =>
      Some (JObj [("node_id", JStr id); ("agent_token", JStr token);
                  ("heartbeat_interval_seconds", JInt interval)])
  | BNodes l => Some (JObj [("nodes", JArr (nodeResponse_json ∘ storeNodeToResponse <$> l))])
  | BCommands l => Some (JObj [("commands", JArr (commandResponse_json <$> mapCommands l))])
  | BSandbox s v => Some (SandboxResponse_json (sandboxToResponse s v))
  | BSandboxes l v =>
      Some (JObj (("sandboxes", JArr ((fun s => SandboxResponse_json (sandboxToResponse s (sb_VerifiedAt s))) <$> l)) ::
                  omit_empty "fleet_verified_at" (default "" (rfc3339 <$> v))))
  | BCreated r => Some (SandboxResponse_json (sandboxResultToResponse r))
  | BEvents l => Some (JObj [("events", JArr (eventResponse_json ∘ storeEventToResponse <$> l))])
  | BRoutes l => Some (JObj [("routes", JArr (routeResponse_json ∘ route_response <$> l))])
  | BForwarded b => b
  | BHealth st pg up =>
      Some (JObj [("status", JStr st); ("postgres", JStr pg); ("uptime_seconds", JInt up)])
  end.

Definition respond (r : reply) : http_response :=
  mkResponse (rp_status r) (body_json (rp_status r) (rp_body r)).

(** ** What a reader finds *)

(** A formatted time is never empty, so never left out. *)
Lemma literal_z_shown k t : omit_empty k (literal_z t) = str_field k (literal_z t).
Proof. unfold omit_empty, literal_z, Format_Z. by rewrite clock_text_nonempty. Qed.

Lemma rfc3339_shown k t : omit_empty k (rfc3339 t) = str_field k (rfc3339 t).
Proof. unfold omit_empty, rfc3339, Format_RFC3339. by rewrite clock_text_nonempty. Qed.
End Responses.
