(* ===== verification/Register.v ===== *)
(** Node registration: [POST /v1/nodes/register] (control/internal/api/nodes.go)
    over the node store of file StoreAdapter. *)

From S2P Require Import Prelude Float64 Netip Hmac Json Models Scheduler Store StoreFacts Routing Effects.
From S2P Require Import StoreRuns Lifecycle Interleave StoreAdapter Api.

(** ** The request *)

Record registerRequest := mkRegisterRequest {
  rr_Hostname : string;
  rr_TailscaleIP : string;
  rr_AgentListenPort : Z;
  rr_CapacityMb : Z;
  rr_CapacityCPU : Q;
  rr_AgentVersion : string;
  rr_Metadata : option json;
}.

Definition decode_register (body : option json) : option registerRequest :=
  j ← body; m ← members_of j;
  let '(host, ok1) := dec_field "hostname" dec_string "" m in
  let '(ip, ok2) := dec_field "tailscale_ip" dec_string "" m in
  let '(port, ok3) := dec_field "agent_listen_port" dec_int32 0 m in
  let '(mb, ok4) := dec_field "capacity_mb" dec_int32 0 m in
  let '(cpu, ok5) := dec_field "capacity_cpu" dec_float64 0%Q m in
  let '(ver, ok6) := dec_field "agent_version" dec_string "" m in
  let '(meta, ok7) := dec_field "metadata" (dec_ptr (fun _ j => (j, true)) JNull) None m in
  if ok1 && ok2 && ok3 && ok4 && ok5 && ok6 && ok7
  then Some (mkRegisterRequest host ip port mb cpu ver meta) else None.

(** The request and its address, or what is wrong with it. *)
Definition register_request (body : option json) : string + registerRequest * Addr :=
  match decode_register body with
  | None => inl "invalid JSON body"
  | Some req =>
      if String.eqb (rr_Hostname req) "" then inl "hostname is required"
      else if String.eqb (rr_TailscaleIP req) "" then inl "tailscale_ip is required"
      else if rr_CapacityMb req =? 0 then inl "capacity_mb is required"
      else if String.eqb (rr_AgentVersion req) "" then inl "agent_version is required"
      else match ParseAddr (rr_TailscaleIP req) with
           | None => inl "tailscale_ip must be a valid IP address"
           | Some ip => inr (req, ip)
           end
  end.

Definition listen_port (req : registerRequest) : Z :=
  if rr_AgentListenPort req =? 0 then 8090 else rr_AgentListenPort req.

Definition node_args (id : uuid) (req : registerRequest) (ip : Addr) (token : string) : CreateNodeArgs :=
  mkCreateNodeArgs id (rr_Hostname req) ip (listen_port req) (rr_CapacityMb req) (rr_CapacityCPU req)
    (rr_AgentVersion req) (default json_empty (rr_Metadata req)) token.

(** The statement's parameters the adapter makes of them. *)
Definition node_params (id : uuid) (req : registerRequest) (ip : Addr) : CreateNodeParams :=
  mkCreateNodeParams id (rr_Hostname req) ip (listen_port req) (rr_CapacityMb req)
    (float64ToNumeric (rr_CapacityCPU req)) (rr_AgentVersion req) (default json_empty (rr_Metadata req)).

Lemma create_node_args id req ip token : node_statement (node_args id req ip token) = node_params id req ip.
Proof. reflexivity. Qed.

(** ** The handler *)

Section Register.
Context `{External} (sv : Server).

Definition generateAgentToken : ctl (result string) :=
  b <- rand_Read 32 ;;
  Ret (match b with Err e => Err e | Ok b => Ok (hex_EncodeToString b) end).

Definition registered (id : uuid) (token : string) : reply :=
  mkReply 201 (BRegistered (uuid_String id) token (sv_heartbeatInterval sv)).

Definition register_again (req : registerRequest) (token : string) (n : NodeRecord) : ctl reply :=
  u <- ns_UpdateNodeToken token (rr_AgentVersion req) (Some (nr_ID n)) ;;
  Ret (match u with
       | Err _ => internal_error "failed to update node token"
       | Ok _ => registered (nr_ID n) token
       end).

Definition register_new (req : registerRequest) (ip : Addr) (token : string) : ctl reply :=
  id <- new_uuid ;;
  n <- ns_CreateNode (node_args id req ip token) ;;
  Ret (match n with
       | Err _ => internal_error "failed to create node"
       | Ok _ => registered id token
       end).

Definition handleRegisterNode (body : option json) : ctl reply :=
  match register_request body with
  | inl msg => Ret (BadRequest msg)
  | inr (req, ip) =>
      t <- generateAgentToken ;;
      match t with
      | Err _ => Ret (internal_error "failed to generate agent token")
      | Ok token =>
          existing <- ns_GetNodeByHostnameAndIP (rr_Hostname req) ip ;;
          match existing with
          | Ok n => register_again req token n
          | Err e =>
              if decide (e = ErrNoRows) then register_new req ip token
              else Ret (internal_error "failed to check existing node")
          end
      end
  end.
End Register.

(** ** Facts *)

(** The node answers to this host name and address. *)
Definition named (host : string) (ip : Addr) (n : Node) : Prop :=
  nd_Hostname n = host /\ nd_TailscaleIp n = inet ip.

(** No two nodes share host name and address.  No constraint of the schema
    says so: it holds because registration looks before it inserts. *)
Definition unique_nodes (db : DB) : Prop := forall i j n m,
  nodes db !! i = Some n -> nodes db !! j = Some m ->
  nd_Hostname n = nd_Hostname m -> nd_TailscaleIp n = nd_TailscaleIp m -> i = j.

(** What a re-registration writes. *)
Definition refreshed (token version : string) (now : Z) (n : Node) : Node :=
  mkNode (nd_ID n) (nd_Hostname n) (nd_TailscaleIp n) (nd_AgentListenPort n) (nd_CapacityMb n)
    (nd_CapacityCpu n) (nd_UsedMb n) (nd_RunningContainers n) (nd_Status n) version now
    (nd_RegisteredAt n) (nd_Metadata n) token.

(** A node as it is first registered. *)
Definition new_node (id : uuid) (req : registerRequest) (ip : Addr) (cpu now : Z) (token : string)
  : Node :=
  mkNode id (rr_Hostname req) (inet ip) (listen_port req) (rr_CapacityMb req) cpu 0 0 NodeHealthy
    (rr_AgentVersion req) now now (default json_empty (rr_Metadata req)) token.

Lemma find_named host ip now db : db_wf db ->
  let '(r, db') := GetNodeByHostnameAndIP host ip now db in
  db' = db /\
  ((exists n, r = Ok n /\ nodes db !! nd_ID n = Some n /\ named host ip n) \/
   (r = Err ErrNoRows /\ forall i n, nodes db !! i = Some n -> ~ named host ip n)).
Proof.
  intros Hwf. unfold GetNodeByHostnameAndIP.
  destruct (filter _ _) as [|n l] eqn:Hl; (split; [done|]).
  - right. split; [done|]. intros i n Hn Hnm.
    pose proof Hn as Hn'. destruct (wf_nodes _ Hwf _ _ Hn') as [<- _].
    apply (proj2 (elem_of_node_rows db n Hwf)) in Hn.
    assert (n ∈ []) as Hin by (rewrite <- Hl; by apply list_elem_of_filter).
    by apply not_elem_of_nil in Hin.
  - left. exists n. assert (n ∈ n :: l) as Hin by left. rewrite <- Hl in Hin.
    apply list_elem_of_filter in Hin as [Hnm Hin]. by apply elem_of_node_rows in Hin.
Qed.

(** Under uniqueness the lookup answers the one node with the name. *)
Lemma run_named host ip now db n :
  db_wf db -> unique_nodes db -> nodes db !! nd_ID n = Some n -> named host ip n ->
  GetNodeByHostnameAndIP host ip now db = (Ok n, db).
Proof.
  intros Hwf Hu Hn [Hh Hi]. pose proof (find_named host ip now db Hwf) as Hf.
  destruct (GetNodeByHostnameAndIP _ _ _ _) as [r db'].
  destruct Hf as [-> [(m & -> & Hm & Hhm & Him)|[_ Hno]]]; [|by destruct (Hno _ _ Hn)].
  assert (nd_ID m = nd_ID n) as Heq by (eapply Hu; [done..| |]; congruence).
  rewrite Heq, Hn in Hm. congruence.
Qed.

Lemma run_unnamed host ip now db :
  db_wf db -> (forall i n, nodes db !! i = Some n -> ~ named host ip n) ->
  GetNodeByHostnameAndIP host ip now db = (Err ErrNoRows, db).
Proof.
  intros Hwf Hno. pose proof (find_named host ip now db Hwf) as Hf.
  destruct (GetNodeByHostnameAndIP _ _ _ _) as [r db'].
  destruct Hf as [-> [(m & -> & Hm & Hnm)|[-> _]]]; [by destruct (Hno _ _ Hm)|done].
Qed.

Lemma run_UpdateNodeToken token ver id now db n :
  nodes db !! id = Some n -> check_node_status (nd_Status n) = true ->
  UpdateNodeToken token ver (Some id) now db = (Ok tt, put_node (refreshed token ver now n) db).
Proof.
  intros Hn Hst. unfold UpdateNodeToken, update_node, find_node. simpl. rewrite Hn.
  unfold write_node. simpl. by rewrite Hst.
Qed.

Lemma run_CreateNode arg now db :
  CreateNode arg now db =
    match to_tenths (cn_CapacityCpu arg), nodes db !! cn_ID arg with
    | None, _ => (Err (PgError NumericOutOfRange "capacity_cpu"), db)
    | Some _, Some _ => (Err (PgError UniqueViolation "nodes_pkey"), db)
    | Some cpu, None =>
        let row := mkNode (cn_ID arg) (cn_Hostname arg) (inet (cn_TailscaleIp arg))
                     (cn_AgentListenPort arg) (cn_CapacityMb arg) cpu 0 0 NodeHealthy
                     (cn_AgentVersion arg) now now (cn_Metadata arg) "" in
        (Ok row, put_node row db)
    end.
Proof. unfold CreateNode. destruct (to_tenths _); [|done]. by destruct (nodes db !! _). Qed.

(** Uniqueness is kept by rewriting a node under its name, and by adding a node
    with a name of its own. *)
Lemma unique_refresh n m db :
  unique_nodes db -> nodes db !! nd_ID n = Some m ->
  nd_Hostname n = nd_Hostname m -> nd_TailscaleIp n = nd_TailscaleIp m ->
  unique_nodes (put_node n db).
Proof.
  intros Hu Hm Hh Hi i j a b. simpl.
  intros [[<- <-]|[Hi' Ha]]%lookup_insert_Some [[<- <-]|[Hj Hb]]%lookup_insert_Some Hhh Hii; [done| | |].
  - apply (Hu _ _ m b Hm Hb); congruence.
  - apply (Hu _ _ a m Ha Hm); congruence.
  - by apply (Hu i j a b).
Qed.

Lemma unique_add n db :
  unique_nodes db -> (forall i m, nodes db !! i = Some m ->
     ~ (nd_Hostname m = nd_Hostname n /\ nd_TailscaleIp m = nd_TailscaleIp n)) ->
  unique_nodes (put_node n db).
Proof.
  intros Hu Hno i j a b. simpl.
  intros [[<- <-]|[Hi Ha]]%lookup_insert_Some [[<- <-]|[Hj Hb]]%lookup_insert_Some Hhh Hii; [done| | |].
  - exfalso. apply (Hno _ _ Hb). done.
  - exfalso. apply (Hno _ _ Ha). done.
  - by apply (Hu i j a b).
Qed.

Section RegisterFacts.
Context `{External} (sv : Server).

(** A fault-free registration of a name that is already there. *)
Lemma register_found body req ip b w n :
  w_faults w = [] -> db_wf (w_db w) -> unique_nodes (w_db w) ->
  register_request body = inr (req, ip) -> random_bytes (w_rng w) 32 = Ok b ->
  nodes (w_db w) !! nd_ID n = Some n -> named (rr_Hostname req) ip n ->
  exec (handleRegisterNode sv body) w =
    (registered sv (nd_ID n) (hex_EncodeToString b),
     set_db (put_node (refreshed (hex_EncodeToString b) (rr_AgentVersion req) (w_now w) n) (w_db w))
       (next_rng w)).
Proof.
  intros Hf Hwf Hu Hreq Hb Hn Hnm. apply exec_eq. unfold handleRegisterNode, generateAgentToken.
  rewrite Hreq. apply bind_assoc, wp_bind_random, wp_bind_ret. rewrite Hb.
  step_record (by apply run_named). unfold register_again.
  rewrite set_db_same. step_by (apply run_UpdateNodeToken; [done|by apply (wf_nodes _ Hwf _ _ Hn)]).
  by apply ctl_wp_ret.
Qed.

(** A fault-free registration of a new name. *)
Lemma register_fresh body req ip b w :
  w_faults w = [] -> db_wf (w_db w) ->
  register_request body = inr (req, ip) -> random_bytes (w_rng w) 32 = Ok b ->
  (forall i n, nodes (w_db w) !! i = Some n -> ~ named (rr_Hostname req) ip n) ->
  let id := uuid_New (S (w_rng w)) in
  let w' := next_rng (next_rng w) in
  exec (handleRegisterNode sv body) w =
    match to_tenths (float64ToNumeric (rr_CapacityCPU req)), nodes (w_db w) !! id with
    | Some cpu, None =>
        (registered sv id (hex_EncodeToString b),
         set_db (put_node (new_node id req ip cpu (w_now w) (hex_EncodeToString b)) (w_db w)) w')
    | _, _ => (internal_error "failed to create node", w')
    end.
Proof.
  intros Hf Hwf Hreq Hb Hno id w'.
  match goal with |- _ = ?r => rewrite (surjective_pairing r) end. apply exec_eq. unfold handleRegisterNode, generateAgentToken.
  rewrite Hreq. apply bind_assoc, wp_bind_random, wp_bind_ret. rewrite Hb.
  step_record (by apply run_unnamed). rewrite decide_True by done. rewrite set_db_same.
  unfold register_new. step_uuid. change ns_CreateNode with adapter_CreateNode.
  unfold adapter_CreateNode. apply bind_assoc.
  step_by (apply surjective_pairing). rewrite create_node_args, run_CreateNode.
  unfold node_params. cbn [cn_CapacityCpu cn_ID].
  change (w_db (next_rng (next_rng w))) with (w_db w).
  change (uuid_New (w_rng (next_rng w))) with id.
  destruct (to_tenths _) as [cpu|]; [|by apply wp_bind_ret, ctl_wp_ret].
  destruct (nodes (w_db w) !! id) as [old|] eqn:Hid; [by apply wp_bind_ret, ctl_wp_ret|].
  cbn [fst snd ca_AgentToken node_args].
  destruct (String.eqb_spec (hex_EncodeToString b) "") as [->|_]; [by apply wp_bind_ret, ctl_wp_ret|].
  apply bind_assoc. eapply wp_bind_db;
    [done|simpl; eapply (run_UpdateNodeToken _ _ id); [apply lookup_insert_eq|reflexivity]|].
  apply ctl_wp_ret. split; [done|]. unfold put_node, set_nodes, set_db. simpl.
  by rewrite insert_insert_eq.
Qed.
(** Both outcomes at once: a fault-free registration answered with 201 leaves a
    node of that name with the token of the answer. *)
Lemma register_ok body req ip w :
  w_faults w = [] -> db_wf (w_db w) -> unique_nodes (w_db w) ->
  register_request body = inr (req, ip) ->
  let '(r, w') := exec (handleRegisterNode sv body) w in
  rp_status r = 201 ->
  exists (id : uuid) (n : Node) token, r = registered sv id token /\ nd_ID n = id /\ nodes (w_db w') !! id = Some n /\
    named (rr_Hostname req) ip n /\ nd_AgentToken n = token.
Proof.
  intros Hf Hwf Hu Hreq. destruct (random_bytes (w_rng w) 32) as [b|e] eqn:Hb.
  2: { assert (exec (handleRegisterNode sv body) w =
         (internal_error "failed to generate agent token", next_rng w)) as ->; [|done].
       apply exec_eq. unfold handleRegisterNode, generateAgentToken. rewrite Hreq.
       apply bind_assoc, wp_bind_random, wp_bind_ret. rewrite Hb. by apply ctl_wp_ret. }
  pose proof (find_named (rr_Hostname req) ip (w_now w) (w_db w) Hwf) as Hn.
  destruct (GetNodeByHostnameAndIP _ _ _ _) as [r0 db'].
  destruct Hn as [_ [(n & _ & Hn & Hnm)|[_ Hno]]].
  - rewrite (register_found _ _ _ b _ n) by done. intros _.
    eexists _, (refreshed _ _ _ n), _. split_and!; [done| |apply lookup_insert_eq|by destruct Hnm|done].
    done.
  - rewrite (register_fresh _ _ _ b) by done.
    destruct (to_tenths _) as [cpu|]; [|done]. destruct (nodes _ !! _); [done|]. intros _.
    eexists _, (new_node _ req ip cpu (w_now w) _), _.
    by split_and!; [done| |apply lookup_insert_eq| |].
Qed.

Lemma issues_register body R : issues (within R) (handleRegisterNode sv body).
Proof.
  unfold handleRegisterNode, generateAgentToken, register_again, register_new.
  issue_tac.
Qed.

(** A world whose database answers goes on doing so, and its clock stands. *)
Lemma exec_calm {A} (p : ctl A) w :
  w_faults w = [] -> w_faults (exec p w).2 = [] /\ w_now (exec p w).2 = w_now w.
Proof.
  intros Hf.
  refine (run_preserves (@handle _) (fun _ _ => True)
    (fun w w' => w_faults w = [] -> w_faults w' = [] /\ w_now w' = w_now w) p _ _ _ _ w Hf).
  - done.
  - intros a b c Hab Hbc Ha. destruct (Hab Ha) as [Hb Hn]. destruct (Hbc Hb). by rewrite <- Hn.
  - intros X e w0 _ Hf0. destruct e as [Y q| |l| |n|r]; simpl; try done.
    + unfold call_db, exec_db. rewrite Hf0. by destruct (q _ _).
    + destruct (call_notify_keeps n w0) as (_ & -> & -> & _). done.
    + by destruct (peer_http _ _).
  - clear. induction p; simpl; auto.
Qed.

(** Registration keeps names unique whichever of its calls fail, as long as a
    failure is not taken for an answer. *)
Lemma register_unique body w :
  db_wf (w_db w) -> unique_nodes (w_db w) -> Some ErrNoRows ∉ w_faults w ->
  unique_nodes (w_db (exec (handleRegisterNode sv body) w).2).
Proof.
  intros Hwf Hu Hnf. apply (wp_exec _ (fun _ w' => unique_nodes (w_db w')) w).
  unfold handleRegisterNode. destruct (register_request body) as [msg|[req ip]]; [by apply ctl_wp_ret|].
  unfold generateAgentToken. apply bind_assoc, wp_bind_random, wp_bind_ret.
  destruct (random_bytes _ _) as [b|e]; [|by apply ctl_wp_ret]. apply wp_bind_record_any.
  - intros e fs Hfs. rewrite decide_False; [by apply ctl_wp_ret|].
    intros ->. apply Hnf. simpl in Hfs. rewrite Hfs. left.
  - intros r d Hq. pose proof (find_named (rr_Hostname req) ip (w_now w) (w_db w) Hwf) as Hn.
    simpl in Hq. rewrite Hq in Hn. destruct Hn as [-> [(n & -> & Hn & Hnm)|[-> Hno]]].
    + unfold register_again. apply wp_bind_db_any; [intros; by apply ctl_wp_ret|].
      intros r d Hr. simpl in Hr. rewrite (run_UpdateNodeToken _ _ _ _ _ n) in Hr;
        [|done|by apply (wf_nodes _ Hwf _ _ Hn)].
      simplify_eq. apply ctl_wp_ret. simpl. by apply (unique_refresh _ n).
    + cbn [record_result]. rewrite decide_True by done. unfold register_new. step_uuid.
      change ns_CreateNode with adapter_CreateNode. unfold adapter_CreateNode.
      apply bind_assoc, wp_bind_db_any; [intros; by apply wp_bind_ret, ctl_wp_ret|].
      intros r d. rewrite create_node_args, run_CreateNode. unfold node_params. cbn [cn_ID cn_CapacityCpu].
      destruct (to_tenths _) as [cpu|]; [|intros [= <- <-]; by apply wp_bind_ret, ctl_wp_ret].
      destruct (nodes _ !! _) as [old|]; [intros [= <- <-]; by apply wp_bind_ret, ctl_wp_ret|].
      intros [= <- <-]. cbv iota beta.
      match goal with |- context [put_node ?n (w_db w)] => set (row := n) end.
      assert (unique_nodes (put_node row (w_db w))) as Hu'
        by (apply unique_add; [done|]; intros i m Hm [? ?]; by apply (Hno i m Hm)).
      destruct (String.eqb _ _); [by apply wp_bind_ret, ctl_wp_ret|].
      apply bind_assoc, wp_bind_db_any; [intros; by apply wp_bind_ret, ctl_wp_ret|].
      intros r d Hr. simpl in Hr.
      rewrite (run_UpdateNodeToken _ _ _ _ _ row) in Hr; [|apply lookup_insert_eq|done].
      simplify_eq. apply ctl_wp_ret. simpl.
      apply (unique_refresh _ row); [done|apply lookup_insert_eq|done|done].
Qed.
End RegisterFacts.

(** ** Two programs under a schedule

    [true] lets the first perform its next effect, [false] the second; a
    program that is done stays as it is. *)
Section Scheduled.
Context `{External}.

Fixpoint scheduled (l : list bool) (p q : ctl unit) (w : World) : ctl unit * ctl unit * World :=
  match l with
  | [] => (p, q, w)
  | true :: l' =>
      match p with
      | Ret _ => scheduled l' p q w
      | Vis e k => let '(x, w') := handle e w in scheduled l' (k x) q w'
      end
  | false :: l' =>
      match q with
      | Ret _ => scheduled l' p q w
      | Vis e k => let '(x, w') := handle e w in scheduled l' p (k x) w'
      end
  end.

(** A schedule is an interleaving. *)
Lemma scheduled_steps may_start l p q w :
  let '(p', q', w') := scheduled l p q w in rtc (step may_start) ([p; q], w) ([p'; q'], w').
Proof.
  revert p q w. induction l as [|[] l IH]; intros p q w; simpl; [apply rtc_refl| |].
  - destruct p as [u|X e k]; [apply IH|]. destruct (handle e w) as [x w1] eqn:Hh.
    specialize (IH (k x) q w1). destruct (scheduled l (k x) q w1) as [[p' q'] w'].
    eapply rtc_l; [|exact IH]. by apply (step_effect may_start [] [q] e k w x w1).
  - destruct q as [u|X e k]; [apply IH|]. destruct (handle e w) as [x w1] eqn:Hh.
    specialize (IH p (k x) w1). destruct (scheduled l p (k x) w1) as [[p' q'] w'].
    eapply rtc_l; [|exact IH]. by apply (step_effect may_start [p] [] e k w x w1).
Qed.
End Scheduled.

(** ** Properties *)

Definition demo_registration (mb : Z) : option json :=
  Some (JObj [("hostname", JStr "host-1"); ("tailscale_ip", JStr "100.64.1.9");
              ("capacity_mb", JInt mb); ("capacity_cpu", JDec (15 # 10)); ("agent_version", JStr "1.0")]).

Definition demo_register_request (mb : Z) : registerRequest :=
  mkRegisterRequest "host-1" "100.64.1.9" 0 mb (3 # 2) "1.0" None.

Definition demo_server : Server := mkServer (Some (mkService true true)) true true None true None 15.

Section Properties.
#[local] Existing Instance demo_external | 100.

(** C22: Registration is idempotent: after a registration answered with 201,
    any valid registration with the same host name and address, whatever else
    it says, is answered with the same node id and a fresh token; it changes
    the token, the version and the time of that node and nothing else, so a
    changed port, capacity or metadata is ignored. *)
Theorem registration_idempotent `{External} sv body1 body2 req1 req2 ip1 ip2 b w :
  w_faults w = [] -> db_wf (w_db w) -> unique_nodes (w_db w) ->
  register_request body1 = inr (req1, ip1) -> register_request body2 = inr (req2, ip2) ->
  rr_Hostname req1 = rr_Hostname req2 -> inet ip1 = inet ip2 ->
  let '(r1, w1) := exec (handleRegisterNode sv body1) w in
  rp_status r1 = 201 -> random_bytes (w_rng w1) 32 = Ok b ->
  let '(r2, w2) := exec (handleRegisterNode sv body2) w1 in
  let token2 := hex_EncodeToString b in
  exists (id : uuid) (n : Node) token1,
    r1 = registered sv id token1 /\ nd_AgentToken n = token1 /\ nodes (w_db w1) !! id = Some n /\
    r2 = registered sv id token2 /\
    w_db w2 = set_nodes (<[id := refreshed token2 (rr_AgentVersion req2) (w_now w1) n]>
                (nodes (w_db w1))) (w_db w1).
Proof.
  intros Hf Hwf Hu H1 H2 Hh Hi. pose proof (register_ok sv _ _ _ _ Hf Hwf Hu H1) as Hok.
  pose proof (register_unique sv body1 w Hwf Hu) as Hu1.
  pose proof (exec_within no_move _ w (issues_register sv body1 no_move) Hwf) as Hsteps.
  destruct (exec (handleRegisterNode sv body1) w) as [r1 w1] eqn:He1. intros Hst Hb.
  destruct (Hok Hst) as (id & n & token & -> & Hid & Hn & [Hnh Hni] & Htok).
  assert (db_wf (w_db w1)) as Hwf1 by (by eapply db_steps_wf).
  pose proof (exec_calm (handleRegisterNode sv body1) w Hf) as [Hf1 Hn1].
  rewrite He1 in Hf1, Hn1. simpl in Hf1, Hn1, Hsteps, Hu1, Hn.
  assert (unique_nodes (w_db w1)) as Hu1' by (apply Hu1; rewrite Hf; apply not_elem_of_nil).
  rewrite (register_found sv body2 req2 ip2 b w1 n) by first [done|by rewrite Hid|split; congruence].
  exists id, n, token. subst id. by split_and!.
Qed.

(** A failed registration can be repeated: whichever database calls of
    the first attempt failed, between which statements it stopped, a second
    one whose calls answer is answered with 201, and afterwards exactly one
    node has the host name and address, with the token of that answer. *)
Theorem registration_retried `{External} sv body req ip b cpu w :
  db_wf (w_db w) -> unique_nodes (w_db w) -> Some ErrNoRows ∉ w_faults w ->
  register_request body = inr (req, ip) ->
  to_tenths (float64ToNumeric (rr_CapacityCPU req)) = Some cpu ->
  let w1 := set_faults [] (exec (handleRegisterNode sv body) w).2 in
  random_bytes (w_rng w1) 32 = Ok b -> nodes (w_db w1) !! uuid_New (S (w_rng w1)) = None ->
  let '(r2, w2) := exec (handleRegisterNode sv body) w1 in
  exists (id : uuid) (n : Node),
    r2 = registered sv id (hex_EncodeToString b) /\
    nodes (w_db w2) !! id = Some n /\ named (rr_Hostname req) ip n /\
    nd_AgentToken n = hex_EncodeToString b /\
    forall j m, nodes (w_db w2) !! j = Some m -> named (rr_Hostname req) ip m -> j = id.
Proof.
  intros Hwf Hu Hnf Hreq Hcpu w1 Hb Hid.
  assert (db_wf (w_db w1)) as Hwf1.
  { eapply db_steps_wf; [exact Hwf|].
    apply (exec_within no_move _ w (issues_register sv body no_move) Hwf). }
  assert (unique_nodes (w_db w1)) as Hu1 by (by apply register_unique).
  assert (w_faults w1 = []) as Hf1 by done. clearbody w1.
  pose proof (find_named (rr_Hostname req) ip (w_now w1) (w_db w1) Hwf1) as Hn.
  destruct (GetNodeByHostnameAndIP _ _ _ _) as [r0 db'].
  destruct Hn as [_ [(n & _ & Hn & Hnm)|[_ Hno]]].
  - rewrite (register_found _ _ _ _ b _ n) by done.
    exists (nd_ID n), (refreshed (hex_EncodeToString b) (rr_AgentVersion req) (w_now w1) n).
    split_and!; [done|apply lookup_insert_eq|by destruct Hnm|done|].
    simpl. intros j m [[<- <-]|[Hj Hm]]%lookup_insert_Some [Hh Hi]; [done|].
    destruct Hnm as [Hnh Hni]. by apply (Hu1 j (nd_ID n) m n); [| |congruence|congruence].
  - rewrite (register_fresh _ _ _ _ b) by done. rewrite Hcpu, Hid.
    exists (uuid_New (S (w_rng w1))), (new_node (uuid_New (S (w_rng w1))) req ip cpu (w_now w1)
      (hex_EncodeToString b)).
    split_and!; [done|apply lookup_insert_eq|done|done|].
    simpl. intros j m [[<- <-]|[Hj Hm]]%lookup_insert_Some Hmn; [done|]. by destruct (Hno _ _ Hm).
Qed.
Lemma unique_nodes_empty : unique_nodes empty_db.
Proof. intros i j n m Hn. done. Qed.

(** Registering again with twice the memory: the node keeps its 4096 MB. *)
Lemma registration_idempotent_witness :
  let '(r1, w1) := exec (handleRegisterNode demo_server (demo_registration 4096)) (demo_world empty_db) in
  let '(r2, w2) := exec (handleRegisterNode demo_server (demo_registration 8192)) w1 in
  rp_status r1 = 201 /\
  w_db w2 = set_nodes (nodes (w_db w2)) (w_db w1) /\
  (nd_CapacityMb <$> (nodes (w_db w2) !! 1001%N)) = Some 4096.
Proof.
  pose proof (@registration_idempotent demo_external demo_server (demo_registration 4096)
    (demo_registration 8192) (demo_register_request 4096) (demo_register_request 8192)
    (Addr4 [100; 64; 1; 9]) (Addr4 [100; 64; 1; 9])
    (String.concat "" (replicate 32 (String (Ascii.ascii_of_nat 2) "")))
    (demo_world empty_db) eq_refl empty_db_wf unique_nodes_empty eq_refl eq_refl eq_refl eq_refl) as H.
  assert ((nd_CapacityMb <$> (nodes (w_db (exec (handleRegisterNode demo_server (demo_registration 8192))
    (exec (handleRegisterNode demo_server (demo_registration 4096)) (demo_world empty_db)).2).2)
    !! 1001%N)) = Some 4096) as Hmb by (vm_compute; reflexivity).
  assert (rp_status (exec (handleRegisterNode demo_server (demo_registration 4096))
    (demo_world empty_db)).1 = 201) as Hst by (vm_compute; reflexivity).
  assert (w_rng (exec (handleRegisterNode demo_server (demo_registration 4096))
    (demo_world empty_db)).2 = 2%nat) as Hrng by (vm_compute; reflexivity).
  destruct (exec (handleRegisterNode demo_server (demo_registration 4096)) (demo_world empty_db))
    as [r1 w1]. cbn [fst snd] in Hmb, Hst, Hrng. specialize (H Hst). rewrite Hrng in H. specialize (H eq_refl).
  destruct (exec (handleRegisterNode demo_server (demo_registration 8192)) w1) as [r2 w2]. cbn [fst snd] in Hmb.
  destruct H as (id & n & t & _ & _ & _ & _ & Hdb). split_and!; [done|by rewrite Hdb|exact Hmb].
Defined.

(** The token update of the first attempt fails; the second one finds the node. *)
Lemma registration_retried_witness :
  let body := demo_registration 4096 in
  let w := set_faults [None; None; Some (OtherError "conn reset")] (demo_world empty_db) in
  let '(r1, w1) := exec (handleRegisterNode demo_server body) w in
  let '(r2, w2) := exec (handleRegisterNode demo_server body) (set_faults [] w1) in
  rp_status r1 = 500 /\ (exists id t, r2 = registered demo_server id t) /\
  size (nodes (w_db w2)) = 1%nat.
Proof.
  intros body w.
  pose proof (@registration_retried demo_external demo_server body (demo_register_request 4096)
    (Addr4 [100; 64; 1; 9])
    (String.concat "" (replicate 32 (String (Ascii.ascii_of_nat 2) ""))) 15 w
    empty_db_wf unique_nodes_empty) as H.
  assert (rp_status (exec (handleRegisterNode demo_server body) w).1 = 500) as Hst
    by (vm_compute; reflexivity).
  assert (size (nodes (w_db (exec (handleRegisterNode demo_server body)
    (set_faults [] (exec (handleRegisterNode demo_server body) w).2)).2)) = 1%nat) as Hsize
    by (vm_compute; reflexivity).
  assert (w_rng (exec (handleRegisterNode demo_server body) w).2 = 2%nat) as Hrng
    by (vm_compute; reflexivity).
  assert (nodes (w_db (exec (handleRegisterNode demo_server body) w).2) !! 1003%N = None) as Hnew
    by (vm_compute; reflexivity).
  destruct (exec (handleRegisterNode demo_server body) w) as [r1 w1]. cbn [fst snd] in Hst, Hsize, Hrng, Hnew, H.
  destruct (exec (handleRegisterNode demo_server body) (set_faults [] w1)) as [r2 w2].
  cbn [fst snd] in Hsize. split_and!; [done| |exact Hsize].
  destruct H as (id & n & -> & _); [|reflexivity|vm_compute; reflexivity| | |by eexists _, _].
  - set_unfold. intuition congruence.
  - simpl. by rewrite Hrng.
  - simpl. by rewrite Hrng.
Defined.

(** Registration is not idempotent under concurrency: two requests of the
    same agent that both look before either inserts both create a node, as
    nothing in the schema forbids it. *)
Theorem concurrent_registrations_duplicate :
  exists pool w',
    rtc (step (fun p => p = ignore (handleRegisterNode demo_server (demo_registration 4096))))
      ([], demo_world empty_db) (pool, w') /\
    Forall (fun p => p = Ret tt) pool /\ ~ unique_nodes (w_db w').
Proof.
  set (p := ignore (handleRegisterNode demo_server (demo_registration 4096))).
  pose proof (scheduled_steps (fun q => q = p) [true; false; true; false; true; true; true; false; false; false]
    p p (demo_world empty_db)) as Hs.
  destruct (scheduled _ p p _) as [[p' q'] w'] eqn:E. vm_compute in E. injection E as <- <- <-.
  eexists _, _. split; [|split].
  - eapply rtc_l; [by apply step_start|]. eapply rtc_l; [by apply step_start|]. exact Hs.
  - by repeat constructor.
  - intros Hu. assert (1002%N = 1003%N); [|done].
    eapply Hu; simpl; reflexivity.
Qed.

End Properties.
