(* ===== verification/Ports.v ===== *)
(** The pool of host ports of an agent: agent/internal/ports/allocator.go.
    Every method holds the allocator's mutex for its whole body, so a method
    is one step on the state. *)

From S2P Require Import Prelude.

(** The two Go maps hold the value [true] only: they are sets. *)
Record Allocator := mkAllocator {
  available : gset Z;
  allocated : gset Z;
  al_min : Z;
  al_max : Z;
}.

(** The loop [for p := min; p <= max; p++]. *)
Definition port_range (lo hi : Z) : gset Z := list_to_set (seqZ lo (hi - lo + 1)).

Definition NewAllocator (lo hi : Z) : Allocator := mkAllocator (port_range lo hi) ∅ lo hi.

(** The first key Go's map iteration visits is any key: the [n]th in the model's
    enumeration, for an arbitrary [n]. *)
Definition first_key (n : nat) (m : gset Z) : option Z := elements m !! (n `mod` size m)%nat.

Definition Allocate (n : nat) (a : Allocator) : result Z * Allocator :=
  match first_key n (available a) with
  | Some port =>
      (Ok port, mkAllocator (available a ∖ {[port]}) ({[port]} ∪ allocated a) (al_min a) (al_max a))
  | None =>
      (Err (OtherError ("port allocator: no ports available in range [" +:+ pretty (al_min a) +:+
              ", " +:+ pretty (al_max a) +:+ "]")), a)
  end.

Definition port_error (port : Z) (what : string) : error :=
  OtherError ("port allocator: port " +:+ pretty port +:+ what).

Definition AllocateSpecific (port : Z) (a : Allocator) : result unit * Allocator :=
  if (port <? al_min a) || (al_max a <? port)
  then (Err (port_error port (" is outside range [" +:+ pretty (al_min a) +:+ ", " +:+
               pretty (al_max a) +:+ "]")), a)
  else if bool_decide (port ∈ allocated a)
  then (Err (port_error port " is already allocated"), a)
  else if negb (bool_decide (port ∈ available a))
  then (Err (port_error port " is not available"), a)
  else (Ok tt, mkAllocator (available a ∖ {[port]}) ({[port]} ∪ allocated a) (al_min a) (al_max a)).

Definition Release (port : Z) (a : Allocator) : result unit * Allocator :=
  if negb (bool_decide (port ∈ allocated a))
  then (Err (port_error port " is not currently allocated"), a)
  else (Ok tt, mkAllocator ({[port]} ∪ available a) (allocated a ∖ {[port]}) (al_min a) (al_max a)).

Definition InUse (a : Allocator) : Z := Z.of_nat (size (allocated a)).
Definition Available (a : Allocator) : Z := Z.of_nat (size (available a)).

(** A caller's sequence of operations. *)
Inductive port_op := OpAllocate (n : nat) | OpAllocateSpecific (p : Z) | OpRelease (p : Z).

Definition port_step (a : Allocator) (op : port_op) : Allocator :=
  match op with
  | OpAllocate n => (Allocate n a).2
  | OpAllocateSpecific p => (AllocateSpecific p a).2
  | OpRelease p => (Release p a).2
  end.

Definition port_run (ops : list port_op) (a : Allocator) : Allocator := foldl port_step a ops.

(** ** Invariant: the two sets partition the range *)

Record alloc_ok (a : Allocator) : Prop := mk_alloc_ok {
  ao_disjoint : available a ## allocated a;
  ao_cover : available a ∪ allocated a = port_range (al_min a) (al_max a);
}.

Lemma elem_of_port_range p lo hi : p ∈ port_range lo hi <-> lo <= p <= hi.
Proof. unfold port_range. rewrite elem_of_list_to_set, elem_of_seqZ. lia. Qed.

Lemma size_port_range lo hi : Z.of_nat (size (port_range lo hi)) = Z.max 0 (hi - lo + 1).
Proof.
  unfold port_range. rewrite size_list_to_set by apply NoDup_seqZ. rewrite length_seqZ. lia.
Qed.

Lemma first_key_in n m p : first_key n m = Some p -> p ∈ m.
Proof. unfold first_key. intros H. by apply list_elem_of_lookup_2, elem_of_elements in H. Qed.

Lemma first_key_None n m : first_key n m = None -> m = ∅.
Proof.
  unfold first_key. rewrite lookup_ge_None. intros H.
  destruct (decide (size m = 0%nat)) as [Hz|Hz]; [by apply leibniz_equiv, size_empty_iff|].
  unfold size, set_size in *. simpl in *.
  pose proof (Nat.mod_upper_bound n (length (elements m)) Hz). lia.
Qed.

Lemma NewAllocator_ok lo hi : alloc_ok (NewAllocator lo hi).
Proof. split; simpl; set_solver. Qed.

Lemma take_port_ok a p :
  alloc_ok a -> p ∈ available a ->
  alloc_ok (mkAllocator (available a ∖ {[p]}) ({[p]} ∪ allocated a) (al_min a) (al_max a)).
Proof.
  intros [Hd Hc] Hp. split; simpl; [set_solver|]. rewrite <- Hc. apply set_eq. intros q.
  destruct (decide (q = p)); set_solver.
Qed.

Lemma Allocate_ok n a : alloc_ok a -> alloc_ok (Allocate n a).2.
Proof.
  intros Ha. unfold Allocate. destruct (first_key n (available a)) as [p|] eqn:Hk; [|done].
  apply take_port_ok; [done|]. by eapply first_key_in.
Qed.

Lemma Release_ok p a : alloc_ok a -> alloc_ok (Release p a).2.
Proof.
  intros [Hd Hc]. unfold Release. case_bool_decide as Hp; [|done]. simpl.
  split; simpl; [set_solver|]. rewrite <- Hc. apply set_eq. intros q.
  destruct (decide (q = p)); set_solver.
Qed.

Lemma port_step_ok a op : alloc_ok a -> alloc_ok (port_step a op).
Proof.
  intros Ha. destruct op as [n|p|p]; simpl; [by apply Allocate_ok| |by apply Release_ok].
  unfold AllocateSpecific. destruct (_ || _); [done|].
  case_bool_decide; [done|]. case_bool_decide; [by apply take_port_ok|done].
Qed.

Lemma port_step_range a op :
  al_min (port_step a op) = al_min a /\ al_max (port_step a op) = al_max a.
Proof.
  destruct op; simpl; unfold Allocate, AllocateSpecific, Release; repeat case_match; done.
Qed.

Lemma port_run_ok ops a :
  alloc_ok a -> alloc_ok (port_run ops a) /\
  al_min (port_run ops a) = al_min a /\ al_max (port_run ops a) = al_max a.
Proof.
  revert a. induction ops as [|op ops IH]; intros a Ha; simpl; [done|].
  destruct (IH (port_step a op)) as (? & Hl & Hh); [by apply port_step_ok|].
  destruct (port_step_range a op) as [Hl' Hh']. split; [done|]. by rewrite Hl, Hh.
Qed.

Lemma alloc_ok_count a :
  alloc_ok a -> InUse a + Available a = Z.max 0 (al_max a - al_min a + 1).
Proof.
  intros [Hd Hc]. unfold InUse, Available. rewrite <- size_port_range, <- Hc.
  rewrite size_union by done. lia.
Qed.

(** Allocating and releasing the port at once gives the pool back. *)
Lemma Release_Allocate n a p a' :
  alloc_ok a -> Allocate n a = (Ok p, a') -> Release p a' = (Ok tt, a).
Proof.
  intros [Hd Hc]. unfold Allocate.
  destruct (first_key n (available a)) as [q|] eqn:Hk; [|done].
  intros [= <- <-]. apply first_key_in in Hk. unfold Release. simpl.
  rewrite bool_decide_eq_true_2 by set_solver. simpl. f_equal.
  destruct a as [av al lo hi]. simpl in *. f_equal; apply set_eq; intros r;
    destruct (decide (r = q)); set_solver.
Qed.

(** ** Properties *)

Section Properties.

(** C34: after any sequence of operations on a new pool the free and the taken
    ports partition the range, so their counts add up to its size, and the next
    [Allocate], whichever free port Go's map iteration picks, hands out a port
    of the range that nobody holds and takes exactly that one (releasing it
    gives the pool back), or fails, changing nothing, exactly when every port
    is taken. *)
Theorem Allocator_partitions lo hi ops n :
  let a := port_run ops (NewAllocator lo hi) in
  let capacity := Z.max 0 (hi - lo + 1) in
  available a ## allocated a /\ (available a ∪ allocated a) = port_range lo hi /\
  InUse a + Available a = capacity /\
  match Allocate n a with
  | (Ok p, a') =>
      lo <= p <= hi /\ (p ∉ allocated a) /\ allocated a' = ({[p]} ∪ allocated a) /\
      InUse a < capacity /\ Release p a' = (Ok tt, a)
  | (Err _, a') => a' = a /\ InUse a = capacity
  end.
Proof.
  intros a capacity. destruct (port_run_ok ops _ (NewAllocator_ok lo hi)) as (Ha & Hlo & Hhi).
  fold a in Ha, Hlo, Hhi. simpl in Hlo, Hhi. pose proof (alloc_ok_count a Ha) as Hn.
  pose proof Ha as [Hd Hc]. rewrite Hlo, Hhi in Hn, Hc. fold capacity in Hn.
  split; [done|]. split; [done|]. split; [done|].
  destruct (Allocate n a) as [[p|e] a'] eqn:Hal.
  - pose proof (Release_Allocate n a p a' Ha Hal) as Hrel. unfold Allocate in Hal.
    destruct (first_key n (available a)) as [q|] eqn:Hk; [|done]. injection Hal as <- <-.
    apply first_key_in in Hk. split; [apply elem_of_port_range; set_solver|]. split; [set_solver|].
    split; [done|]. split; [|done].
    assert (size (available a) <> 0%nat) by (apply size_non_empty_iff; set_solver).
    unfold Available in Hn. lia.
  - unfold Allocate in Hal.
    destruct (first_key n (available a)) as [q|] eqn:Hk; [done|]. injection Hal as <- <-.
    split; [done|]. apply first_key_None in Hk. unfold Available in Hn. rewrite Hk in Hn.
    rewrite size_empty in Hn. lia.
Qed.

End Properties.
