(* ===== verification/Executor.v ===== *)
(** The agent's command executor, agent/internal/agent/executor.go: start, stop,
    restart, logs and prune commands against Docker and the port pool. *)

From S2P Require Import Prelude Json Ports.

Definition nanoseconds : Z := 1000000000.

(** int64 arithmetic of [time.Duration]. *)
Definition wrap64 (z : Z) : Z := (z + 2 ^ 63) mod 2 ^ 64 - 2 ^ 63.

(** ** Data *)

(** Instants are nanoseconds; a payload is [None] when it is empty. *)
Record Command := mkCommand {
  ac_ID : string;
  ac_Type : string;
  ac_SandboxID : string;
  ac_Payload : option json;
  ac_IssuedAt : Z;
  ac_TimeoutSeconds : Z;
}.

Record AckRequest := mkAck {
  ak_Status : string;
  ak_Error : string;
  ak_Result : option json;
}.

(** The fields of docker.SandboxSpec the executor fills in ([SeccompPath] it
    leaves empty). *)
Record SandboxSpec := mkSpec {
  sp_SandboxID : string;
  sp_AppName : string;
  sp_Image : string;
  sp_HostPort : Z;
  sp_CPUCores : Q;
  sp_MemoryMB : Z;
  sp_Env : option (gmap string string);
  sp_SandboxDir : string;
}.

Record sandboxInfo := mkInfo {
  si_ContainerID : string;
  si_HostPort : Z;
  si_AppName : string;
}.

Record CommandExecutor := mkExecutor {
  ex_ports : Allocator;
  ex_sandboxDir : string;
  ex_sandboxes : gmap string sandboxInfo;
}.

Definition NewCommandExecutor (ports : Allocator) (dir : string) : CommandExecutor :=
  mkExecutor ports dir ∅.

(** ** Payloads *)

Record startSandboxPayload := mkStartPayload {
  st_AppName : string;
  st_Image : string;
  st_Resources : Q * Z;
  st_Env : option (gmap string string);
}.

Definition dec_resourceSpec : decoder (Q * Z) := fun old j =>
  match j with
  | JNull => (old, true)
  | JObj m =>
      let '(cpu, ok1) := dec_field "cpu_cores" dec_float old.1 m in
      let '(mem, ok2) := dec_field "memory_mb" dec_int64 old.2 m in
      ((cpu, mem), ok1 && ok2)
  | _ => (old, false)
  end.

Definition decode_start (payload : option json) : option startSandboxPayload :=
  j ← payload; m ← members_of j;
  let '(app, ok1) := dec_field "app_name" dec_string "" m in
  let '(image, ok2) := dec_field "image" dec_string "" m in
  let '(res, ok3) := dec_field "resources" dec_resourceSpec (0%Q, 0) m in
  let '(env, ok4) := dec_field "env" dec_env None m in
  if ok1 && ok2 && ok3 && ok4 then Some (mkStartPayload app image res env) else None.

(** stopSandboxPayload and restartSandboxPayload: the container id. *)
Definition decode_container (payload : option json) : option string :=
  j ← payload; m ← members_of j;
  let '(cid, ok) := dec_field "container_id" dec_string "" m in
  if ok then Some cid else None.

Definition decode_logs (payload : option json) : option (string * Z * bool) :=
  j ← payload; m ← members_of j;
  let '(cid, ok1) := dec_field "container_id" dec_string "" m in
  let '(tail, ok2) := dec_field "tail" dec_int64 0 m in
  let '(follow, ok3) := dec_field "follow" dec_bool false m in
  if ok1 && ok2 && ok3 then Some (cid, tail, follow) else None.

(** ** Effects *)

(** The clock, the position Go's map iteration starts at, the Docker client
    (stop and restart with their timeout in seconds; opening a log and reading
    it can each fail) and the report to the control plane. *)
Inductive agentE : Type -> Type :=
| ANow : agentE Z
| AMapStart : agentE nat
| ACreateContainer (spec : SandboxSpec) : agentE (result string)
| AStopContainer (cid : string) (timeout : Z) : agentE (result unit)
| ARemoveContainer (cid : string) : agentE (result unit)
| ARestartContainer (cid : string) (timeout : Z) : agentE (result unit)
| AGetLogs (cid : string) (tail : Z) (follow : bool) : agentE (result (result string))
| AAckCommand (id : string) (ack : AckRequest) : agentE (result unit).

Definition agent (A : Type) : Type := prog agentE A.

(** What an observer of the agent sees. *)
Inductive obs :=
| OSilent
| OCreate (spec : SandboxSpec) (r : result string)
| ODocker (cid : string) (r : bool)
| OAck (id : string) (ack : AckRequest) (r : result unit).

Definition observe {X} (e : agentE X) : X -> obs :=
  match e in agentE X return X -> obs with
  | ANow => fun _ => OSilent
  | AMapStart => fun _ => OSilent
  | ACreateContainer spec => fun r => OCreate spec r
  | AStopContainer cid _ => fun r => ODocker cid (is_ok r)
  | ARemoveContainer cid => fun r => ODocker cid (is_ok r)
  | ARestartContainer cid _ => fun r => ODocker cid (is_ok r)
  | AGetLogs cid _ _ => fun r => ODocker cid (is_ok r)
  | AAckCommand id ack => fun r => OAck id ack r
  end.

(** Texts the executor only passes on: of an error, and of a decoding error for
    a payload type. *)
Class AgentTexts := {
  err_text : error -> string;
  unmarshal_text : string -> option json -> string;
}.

Section Executor.
Context `{AgentTexts}.

Definition ackSuccess (cmdID : string) (res : json) : agent (result unit) :=
  trigger (AAckCommand cmdID (mkAck "success" "" (Some res))).
Definition ackFailure (cmdID : string) (msg : string) : agent (result unit) :=
  trigger (AAckCommand cmdID (mkAck "failure" msg None)).

(** A handler returns the acknowledgment's answer and the executor it leaves. *)
Definition outcome : Type := result unit * CommandExecutor.

Definition succeed (e : CommandExecutor) (cmd : Command) (res : json) : agent outcome :=
  r <- ackSuccess (ac_ID cmd) res ;; Ret (r, e).
Definition fail (e : CommandExecutor) (cmd : Command) (msg : string) : agent outcome :=
  r <- ackFailure (ac_ID cmd) msg ;; Ret (r, e).

Definition build_spec (e : CommandExecutor) (cmd : Command) (p : startSandboxPayload)
    (hostPort : Z) : SandboxSpec :=
  mkSpec (ac_SandboxID cmd) (st_AppName p) (st_Image p) hostPort (st_Resources p).1
    (st_Resources p).2 (st_Env p) (ex_sandboxDir e).

Definition with_ports (a : Allocator) (e : CommandExecutor) : CommandExecutor :=
  mkExecutor a (ex_sandboxDir e) (ex_sandboxes e).

Definition track (id : string) (info : sandboxInfo) (e : CommandExecutor) : CommandExecutor :=
  mkExecutor (ex_ports e) (ex_sandboxDir e) (<[id := info]> (ex_sandboxes e)).

Definition executeStartSandbox (e : CommandExecutor) (cmd : Command) : agent outcome :=
  match decode_start (ac_Payload cmd) with
  | None => fail e cmd ("invalid start_sandbox payload: " +:+
                        unmarshal_text "startSandboxPayload" (ac_Payload cmd))
  | Some payload =>
      n <- trigger AMapStart ;;
      match Allocate n (ex_ports e) with
      | (Err err, ports) => fail (with_ports ports e) cmd ("port allocation failed: " +:+ err_text err)
      | (Ok hostPort, ports) =>
          created <- trigger (ACreateContainer (build_spec e cmd payload hostPort)) ;;
          match created with
          | Err err => fail (with_ports (Release hostPort ports).2 e) cmd
                         ("container creation failed: " +:+ err_text err)
          | Ok containerID =>
              succeed (track (ac_SandboxID cmd) (mkInfo containerID hostPort (st_AppName payload))
                         (with_ports ports e)) cmd
                (JObj [("container_id", JStr containerID); ("host_port", JInt hostPort)])
          end
      end
  end.

(** Release the port of a tracked sandbox (a failure is only logged) and forget it. *)
Definition untrack (id : string) (e : CommandExecutor) : CommandExecutor :=
  match ex_sandboxes e !! id with
  | Some info => mkExecutor (Release (si_HostPort info) (ex_ports e)).2 (ex_sandboxDir e)
                   (delete id (ex_sandboxes e))
  | None => e
  end.

Definition executeStopSandbox (e : CommandExecutor) (cmd : Command) : agent outcome :=
  match decode_container (ac_Payload cmd) with
  | None => fail e cmd ("invalid stop_sandbox payload: " +:+
                        unmarshal_text "stopSandboxPayload" (ac_Payload cmd))
  | Some cid =>
      stopped <- trigger (AStopContainer cid 10) ;;
      match stopped with
      | Err err => fail e cmd ("stop container failed: " +:+ err_text err)
      | Ok _ =>
          removed <- trigger (ARemoveContainer cid) ;;
          match removed with
          | Err err => fail e cmd ("remove container failed: " +:+ err_text err)
          | Ok _ => succeed (untrack (ac_SandboxID cmd) e) cmd json_empty
          end
      end
  end.

Definition executeRestartSandbox (e : CommandExecutor) (cmd : Command) : agent outcome :=
  match decode_container (ac_Payload cmd) with
  | None => fail e cmd ("invalid restart_sandbox payload: " +:+
                        unmarshal_text "restartSandboxPayload" (ac_Payload cmd))
  | Some cid =>
      restarted <- trigger (ARestartContainer cid 10) ;;
      match restarted with
      | Err err => fail e cmd ("restart container failed: " +:+ err_text err)
      | Ok _ => succeed e cmd json_empty
      end
  end.

Definition executeGetLogs (e : CommandExecutor) (cmd : Command) : agent outcome :=
  match decode_logs (ac_Payload cmd) with
  | None => fail e cmd ("invalid get_logs payload: " +:+
                        unmarshal_text "getLogsPayload" (ac_Payload cmd))
  | Some (cid, tail, follow) =>
      reader <- trigger (AGetLogs cid tail follow) ;;
      match reader with
      | Err err => fail e cmd ("get logs failed: " +:+ err_text err)
      | Ok (Err err) => fail e cmd ("read logs failed: " +:+ err_text err)
      | Ok (Ok logs) => succeed e cmd (JObj [("logs", JStr logs)])
      end
  end.

Definition executePrune (e : CommandExecutor) (cmd : Command) : agent outcome :=
  succeed e cmd json_empty.

(** [time.Now().After(deadline)]; the clock is read only with a timeout. *)
Definition expired (cmd : Command) : agent bool :=
  if 0 <? ac_TimeoutSeconds cmd
  then now <- trigger ANow ;;
       Ret (ac_IssuedAt cmd + wrap64 (ac_TimeoutSeconds cmd * nanoseconds) <? now)
  else Ret false.

Definition dispatch (e : CommandExecutor) (cmd : Command) : agent outcome :=
  if String.eqb (ac_Type cmd) "start_sandbox" then executeStartSandbox e cmd
  else if String.eqb (ac_Type cmd) "stop_sandbox" then executeStopSandbox e cmd
  else if String.eqb (ac_Type cmd) "restart_sandbox" then executeRestartSandbox e cmd
  else if String.eqb (ac_Type cmd) "get_logs" then executeGetLogs e cmd
  else if String.eqb (ac_Type cmd) "prune" then executePrune e cmd
  else fail e cmd ("unknown command type: " +:+ ac_Type cmd).

Definition Execute (e : CommandExecutor) (cmd : Command) : agent outcome :=
  late <- expired cmd ;;
  if late then fail e cmd "command timed out before execution" else dispatch e cmd.

(** One batch of the poll loop: commands one at a time, errors only logged. *)
Definition execute_batch (cmds : list Command) (e : CommandExecutor) : agent CommandExecutor :=
  range (fun e cmd => o <- Execute e cmd ;; Ret o.2) cmds e.

(** [CodeDir] *)
Definition CodeDir (e : CommandExecutor) (sandboxID : string) : result string :=
  match ex_sandboxes e !! sandboxID with
  | None => Err (OtherError ("sandbox " +:+ sandboxID +:+ " not found on this node"))
  | Some info => Ok (ex_sandboxDir e +:+ "/" +:+ si_AppName info +:+ "/code")
  end.

End Executor.
