(* ===== verification/ExecutorFacts.v ===== *)
(** What the agent's executor guarantees about its port pool and its reports,
    and the port it loses when a tracked sandbox is started again. *)

From S2P Require Import Prelude Json Ports Executor.

(** ** Invariant *)

(** The pool is well formed, every tracked sandbox holds an allocated port, and
    no two hold the same. *)
Record executor_ok (e : CommandExecutor) : Prop := mk_executor_ok {
  eo_ports : alloc_ok (ex_ports e);
  eo_held : forall id info, ex_sandboxes e !! id = Some info ->
    si_HostPort info ∈ allocated (ex_ports e);
  eo_distinct : forall i j x y, ex_sandboxes e !! i = Some x -> ex_sandboxes e !! j = Some y ->
    si_HostPort x = si_HostPort y -> i = j;
}.

(** A port that is taken but that no tracked sandbox holds: no command releases it. *)
Definition orphan (p : Z) (e : CommandExecutor) : Prop :=
  p ∈ allocated (ex_ports e) /\
  forall id info, ex_sandboxes e !! id = Some info -> si_HostPort info <> p.

Lemma NewCommandExecutor_ok lo hi dir : executor_ok (NewCommandExecutor (NewAllocator lo hi) dir).
Proof. split; simpl; [apply NewAllocator_ok|..]; intros *; by rewrite lookup_empty. Qed.

(** ** Observations *)

Definition reported (o : obs) : option string :=
  match o with OAck id _ _ => Some id | _ => None end.

Definition creation (o : obs) : option (SandboxSpec * string) :=
  match o with OCreate spec (Ok cid) => Some (spec, cid) | _ => None end.

(** ** What a command does to the executor *)

Definition take_port (port : Z) (a : Allocator) : Allocator :=
  mkAllocator (available a ∖ {[port]}) ({[port]} ∪ allocated a) (al_min a) (al_max a).

Section Facts.
Context `{AgentTexts}.

Definition started (e : CommandExecutor) (cmd : Command) (p : startSandboxPayload) (port : Z)
    (cid : string) : CommandExecutor :=
  track (ac_SandboxID cmd) (mkInfo cid port (st_AppName p)) (with_ports (take_port port (ex_ports e)) e).

(** Nothing; a created container, tracked on a port that was free; or a stopped
    one, forgotten. *)
Inductive command_effect (e : CommandExecutor) (cmd : Command) (t : list obs)
  : CommandExecutor -> Prop :=
| effect_none : omap creation t = [] -> command_effect e cmd t e
| effect_start p port cid :
    decode_start (ac_Payload cmd) = Some p -> port ∈ available (ex_ports e) ->
    omap creation t = [(build_spec e cmd p port, cid)] ->
    command_effect e cmd t (started e cmd p port cid)
| effect_stop cid :
    decode_container (ac_Payload cmd) = Some cid -> omap creation t = [] ->
    command_effect e cmd t (untrack (ac_SandboxID cmd) e).

(** A command is acknowledged once, by its last step, and the handler returns
    what that report returned. *)
Definition acks_last (cmd : Command) (t : list obs) (r : result unit) : Prop :=
  exists before ack, t = before ++ [OAck (ac_ID cmd) ack r] /\ omap reported before = [] /\
    (ak_Status ack = "success" \/ ak_Status ack = "failure").

Definition handled (e : CommandExecutor) (cmd : Command) (t : list obs) (o : outcome) : Prop :=
  acks_last cmd t o.1 /\ command_effect e cmd t o.2.

(** Handling with observations already made, none of them a report. *)
Definition ends_handled (e : CommandExecutor) (cmd : Command) (before : list obs)
    (p : agent outcome) : Prop :=
  behaves (@observe) p (fun t o => handled e cmd (before ++ t) o).

Lemma reports_handled e e' cmd before ack :
  omap reported before = [] -> (ak_Status ack = "success" \/ ak_Status ack = "failure") ->
  command_effect e cmd before e' ->
  ends_handled e cmd before (r <- trigger (AAckCommand (ac_ID cmd) ack) ;; Ret (r, e')).
Proof.
  intros Hb Hst He x. simpl. split; [by exists before, ack|].
  assert (omap creation (before ++ [OAck (ac_ID cmd) ack x]) = omap creation before) as Hc
    by (rewrite omap_app; simpl; by rewrite app_nil_r).
  destruct He; econstructor; by rewrite ?Hc.
Qed.

Lemma succeed_handled e e' cmd before res :
  omap reported before = [] -> command_effect e cmd before e' ->
  ends_handled e cmd before (succeed e' cmd res).
Proof. intros. apply reports_handled; auto. Qed.

Lemma fail_handled e e' cmd before msg :
  omap reported before = [] -> command_effect e cmd before e' ->
  ends_handled e cmd before (fail e' cmd msg).
Proof. intros. apply reports_handled; auto. Qed.

(** One more observation that is no report. *)
Lemma vis_handled e cmd before X (ev : agentE X) (k : X -> agent outcome) :
  (forall x, ends_handled e cmd (before ++ [observe ev x]) (k x)) ->
  ends_handled e cmd before (x <- trigger ev ;; k x).
Proof.
  intros Hk x. specialize (Hk x). unfold ends_handled in Hk. eapply behaves_mono, Hk.
  intros t o Ht. cbv beta in Ht. by rewrite <- app_assoc in Ht.
Qed.

Lemma Release_take n e p a :
  alloc_ok (ex_ports e) -> Allocate n (ex_ports e) = (Ok p, a) ->
  a = take_port p (ex_ports e) /\ p ∈ available (ex_ports e) /\
  with_ports (Release p a).2 e = e.
Proof.
  intros Hok Hal. rewrite (Release_Allocate _ _ _ _ Hok Hal). unfold Allocate in Hal.
  destruct (first_key n (available (ex_ports e))) as [q|] eqn:Hk; [|done].
  injection Hal as <- <-. apply first_key_in in Hk. by destruct e.
Qed.

Lemma start_handled e cmd before :
  omap reported before = [] -> omap creation before = [] -> alloc_ok (ex_ports e) ->
  ends_handled e cmd before (executeStartSandbox e cmd).
Proof.
  intros Hb Hc Hok. unfold executeStartSandbox.
  destruct (decode_start (ac_Payload cmd)) as [p|] eqn:Hp;
    [|apply fail_handled; [done|by apply effect_none]].
  apply vis_handled. intros n. simpl observe.
  destruct (Allocate n (ex_ports e)) as [[port|err] a] eqn:Hal.
  - destruct (Release_take n e port a Hok Hal) as (-> & Hin & Hrel).
    apply vis_handled. intros [cid|err]; simpl observe.
    + apply succeed_handled; [by rewrite !omap_app, Hb|].
      apply (effect_start e cmd _ p port cid); [done|done|]. by rewrite !omap_app, Hc.
    + rewrite Hrel. apply fail_handled; [by rewrite !omap_app, Hb|].
      apply effect_none. by rewrite !omap_app, Hc.
  - assert (with_ports a e = e) as ->.
    { unfold Allocate in Hal. case_match; [done|]. injection Hal as <- <-. by destruct e. }
    apply fail_handled; [by rewrite !omap_app, Hb|].
    apply effect_none. by rewrite !omap_app, Hc.
Qed.

Lemma dispatch_handled e cmd before :
  omap reported before = [] -> omap creation before = [] -> alloc_ok (ex_ports e) ->
  ends_handled e cmd before (dispatch e cmd).
Proof.
  intros Hb Hc Hok. unfold dispatch.
  assert (forall l, omap reported l = [] -> omap creation l = [] ->
    (forall msg, ends_handled e cmd l (fail e cmd msg)) /\
    (forall res, ends_handled e cmd l (succeed e cmd res))) as Hends.
  { intros l Ha Hl. split; intros; [apply fail_handled|apply succeed_handled];
      try done; by apply effect_none. }
  assert (forall l cid (r : bool), omap reported l = [] -> omap creation l = [] ->
    omap reported (l ++ [ODocker cid r]) = [] /\ omap creation (l ++ [ODocker cid r]) = []) as Hdocker.
  { intros l cid r Ha Hl. by rewrite !omap_app, Ha, Hl. }
  repeat case_match; [by apply start_handled|..|by apply Hends].
  - unfold executeStopSandbox. destruct (decode_container _) as [cid|] eqn:Hp; [|by apply Hends].
    apply vis_handled. intros [[]|err]; simpl observe; [|by apply Hends; apply Hdocker].
    apply vis_handled. intros [[]|err]; simpl observe; [|by apply Hends; repeat apply Hdocker].
    apply succeed_handled; [by repeat apply Hdocker|].
    apply (effect_stop e cmd _ cid); [done|]. by repeat apply Hdocker.
  - unfold executeRestartSandbox. destruct (decode_container _) as [cid|]; [|by apply Hends].
    apply vis_handled. intros [[]|err]; simpl observe; by apply Hends; apply Hdocker.
  - unfold executeGetLogs. destruct (decode_logs _) as [[[cid tail] follow]|]; [|by apply Hends].
    apply vis_handled. intros [[logs|err]|err]; simpl observe; by apply Hends; apply Hdocker.
  - by apply Hends.
Qed.

(** Every command, whatever the clock and Docker answer. *)
Lemma Execute_handled e cmd :
  alloc_ok (ex_ports e) ->
  behaves (@observe) (Execute e cmd) (fun t o => handled e cmd t o).
Proof.
  intros Hok. change (ends_handled e cmd [] (Execute e cmd)). unfold Execute, expired.
  destruct (0 <? ac_TimeoutSeconds cmd).
  - apply (vis_handled e cmd [] Z ANow). intros now. simpl observe. cbn [bind].
    destruct (_ <? now).
    + apply fail_handled; [done|by apply effect_none].
    + by apply dispatch_handled.
  - by apply dispatch_handled.
Qed.

(** ** Preservation *)

Lemma started_ok e cmd p port cid :
  executor_ok e -> port ∈ available (ex_ports e) -> executor_ok (started e cmd p port cid).
Proof.
  intros [Hok Hheld Hdist] Hp. pose proof (ao_disjoint _ Hok) as Hdisj.
  assert (forall id info, ex_sandboxes e !! id = Some info -> si_HostPort info <> port) as Hnew.
  { intros id info Hi <-. specialize (Hheld _ _ Hi). set_solver. }
  split; unfold started, track, with_ports; simpl.
  - by apply take_port_ok.
  - intros id info [[<- <-]|[_ Hi]]%lookup_insert_Some; simpl; [set_solver|].
    specialize (Hheld _ _ Hi). set_solver.
  - intros i j x y [[<- <-]|[Hi Hx]]%lookup_insert_Some [[<- <-]|[Hj Hy]]%lookup_insert_Some;
      simpl; intros Heq; [done| | |by eapply Hdist].
    + by destruct (Hnew _ _ Hy).
    + by destruct (Hnew _ _ Hx).
Qed.

Lemma untrack_ok e id : executor_ok e -> executor_ok (untrack id e).
Proof.
  intros Hx. pose proof Hx as [Hok Hheld Hdist]. unfold untrack.
  destruct (ex_sandboxes e !! id) as [info|] eqn:Hid; [|done]. split; simpl.
  - by apply Release_ok.
  - intros i x [Hne Hi]%lookup_delete_Some. unfold Release.
    rewrite bool_decide_eq_true_2 by eauto. simpl.
    assert (si_HostPort x <> si_HostPort info) by (intros Heq; apply Hne; by eapply Hdist).
    specialize (Hheld _ _ Hi). set_solver.
  - intros i j x y [_ Hi]%lookup_delete_Some [_ Hj]%lookup_delete_Some. by eapply Hdist.
Qed.

Lemma effect_ok e cmd t e' : executor_ok e -> command_effect e cmd t e' -> executor_ok e'.
Proof. intros Hok []; [done|by apply started_ok|by apply untrack_ok]. Qed.

Lemma effect_orphan q e cmd t e' :
  executor_ok e -> orphan q e -> command_effect e cmd t e' -> orphan q e'.
Proof.
  intros [Hok Hheld _] [Hq Hno] []; [done|..].
  - pose proof (ao_disjoint _ Hok). split; unfold started; simpl; [set_solver|].
    intros id info [[_ <-]|[_ Hi]]%lookup_insert_Some; simpl; [set_solver|by eapply Hno].
  - unfold untrack. destruct (ex_sandboxes e !! _) as [info|] eqn:Hid; [|done].
    pose proof (Hno _ _ Hid). unfold Release. rewrite bool_decide_eq_true_2 by eauto.
    split; simpl; [set_solver|]. intros i x [_ Hi]%lookup_delete_Some. by eapply Hno.
Qed.

(** A batch keeps what every command's effect keeps, and reports on each
    command once, in order. *)
Lemma execute_batch_rule (I : CommandExecutor -> Prop) cmds e :
  (forall e, I e -> alloc_ok (ex_ports e)) ->
  (forall e cmd t e', I e -> command_effect e cmd t e' -> I e') -> I e ->
  behaves (@observe) (execute_batch cmds e) (fun t e' => I e' /\ omap reported t = ac_ID <$> cmds).
Proof.
  intros Hal Hkeep. revert e. induction cmds as [|cmd cmds IH]; intros e He; simpl; [done|].
  apply behaves_bind, behaves_bind. eapply behaves_mono, Execute_handled; [|by apply Hal].
  intros t [r e'] [(before & ack & -> & Hb & _) Heff]. simpl. rewrite app_nil_r.
  eapply behaves_mono, (IH e'); [|by eapply Hkeep]. intros t' e'' [HI Hacks].
  split; [done|]. by rewrite !omap_app, Hb, Hacks.
Qed.
End Facts.

(** ** Properties *)

(** The texts of errors for concrete runs. *)
Definition demo_texts : AgentTexts := {|
  err_text := fun _ => "error"; unmarshal_text := fun _ _ => "bad payload" |}.

Definition demo_start : Command :=
  mkCommand "cmd" "start_sandbox" "sb" (Some (JObj [("app_name", JStr "my-app")])) 0 60.

(** An agent with three ports that tracks one sandbox on the first. *)
Definition demo_executor : CommandExecutor :=
  started (NewCommandExecutor (NewAllocator 3000 3002) "/srv") demo_start
    (mkStartPayload "my-app" "" (0%Q, 0) None) 3000 "c1".

Section Properties.

(** C21: a new agent that executes any commands, whatever the clock, Docker and
    the control plane answer, keeps a well-formed pool in which the tracked
    sandboxes hold distinct taken ports, and reports on every command it
    received exactly once, in the order received: when the call that reports
    ends with an error the error is logged and the next command is taken up
    (the agent protocol has the agent retry it once, after a second). *)
Theorem agent_reports_once `{AgentTexts} lo hi dir cmds :
  behaves (@observe) (execute_batch cmds (NewCommandExecutor (NewAllocator lo hi) dir))
    (fun t e => executor_ok e /\ omap reported t = ac_ID <$> cmds).
Proof.
  apply execute_batch_rule; [by intros ? []| |apply NewCommandExecutor_ok].
  intros e cmd t e' Hok Heff. by eapply effect_ok.
Qed.

(** One command does one of three things, as its observations show: it
    creates no container and leaves the executor as it was (expired, malformed,
    refused by Docker or out of ports, where a port taken for it is back in the
    pool); it creates exactly the container of its payload on a port that was
    free, now held by its sandbox; or it stops the container and frees the
    sandbox's port.  Its only report is its last step and the handler returns
    that report's answer. *)
Theorem Execute_spec `{AgentTexts} e cmd :
  alloc_ok (ex_ports e) ->
  behaves (@observe) (Execute e cmd) (fun t o => acks_last cmd t o.1 /\ command_effect e cmd t o.2).
Proof. apply Execute_handled. Qed.

Lemma Execute_spec_witness :
  let e := NewCommandExecutor (NewAllocator 3000 3002) "/srv" in
  behaves (@observe) (@Execute demo_texts e demo_start)
    (fun t o => acks_last demo_start t o.1 /\ command_effect e demo_start t o.2).
Proof. apply (@Execute_spec demo_texts). apply NewAllocator_ok. Defined.

(** Starting a sandbox the agent already tracks, as the control plane asks
    after every crash, loses its port: when the container is created the old
    port stays taken with no sandbox holding it, and no sequence of later
    commands ever frees it. *)
Theorem restart_leaks_port `{AgentTexts} e cmd info :
  executor_ok e -> ex_sandboxes e !! ac_SandboxID cmd = Some info ->
  behaves (@observe) (Execute e cmd) (fun t o =>
    omap creation t <> [] ->
    orphan (si_HostPort info) o.2 /\
    forall cmds, behaves (@observe) (execute_batch cmds o.2)
      (fun _ e' => orphan (si_HostPort info) e')).
Proof.
  intros Hok Hid. eapply behaves_mono, Execute_handled; [|by destruct Hok].
  intros t [r e'] [_ Heff] Hcr. simpl in Heff |- *.
  assert (orphan (si_HostPort info) e') as Horph.
  { pose proof Hok as [Hal Hheld Hdist]. specialize (Hheld _ _ Hid).
    destruct Heff as [Hno|p port cid _ Hp _|cid _ Hno]; [done| |done].
    split; unfold started; simpl; [set_solver|].
    pose proof (ao_disjoint _ Hal).
    intros i x [[_ <-]|[Hne Hi]]%lookup_insert_Some; simpl; [set_solver|].
    intros Heq. apply Hne. by eapply Hdist. }
  split; [done|]. intros cmds.
  eapply behaves_mono, (execute_batch_rule (fun e => executor_ok e /\ orphan (si_HostPort info) e)).
  - by intros t' e'' [[_ ?] _].
  - by intros ? [[] _].
  - intros e1 cmd1 t1 e2 [Hok1 Ho1] He. split; [by eapply effect_ok|by eapply effect_orphan].
  - split; [by eapply effect_ok|done].
Qed.

(** The sandbox is started again, its container created and the report taken:
    port 3000 is lost. *)
Lemma restart_leaks_port_witness :
  exists e', orphan 3000 e' /\ ex_sandboxes e' !! "sb" = Some (mkInfo "c2" 3001 "my-app") /\
    InUse (ex_ports e') = 2.
Proof.
  assert (executor_ok demo_executor) as Hok.
  { apply started_ok; [apply NewCommandExecutor_ok|by apply elem_of_port_range]. }
  pose proof (@restart_leaks_port demo_texts demo_executor demo_start
    (mkInfo "c1" 3000 "my-app") Hok eq_refl 0 0%nat (Ok "c2") (Ok tt)) as Hb.
  destruct Hb as [Ho _]; [done|].
  eexists. split; [exact Ho|]. split; vm_compute; reflexivity.
Defined.

End Properties.
