(* ===== verification/Wire.v ===== *)
(** The protocol between the agents and the control plane: the agent's types
    (agent/internal/controlclient/types.go) as JSON, against the request and
    response types of the control plane. *)

From S2P Require Import Prelude Float64 Time Netip Json Models Scheduler Store StoreFacts Routing Effects.
From S2P Require Import Reconciler Adapters Api Responses Register Executor.

(** ** What the agent sends *)

Record RegisterRequest := mkRegisterReq {
  rq_Hostname : string;
  rq_TailscaleIP : string;
  rq_AgentListenPort : Z;
  rq_CapacityMB : Z;
  rq_CapacityCPU : Q;
  rq_AgentVersion : string;
}.

Definition register_json (r : RegisterRequest) : json :=
  JObj [("hostname", JStr (rq_Hostname r)); ("tailscale_ip", JStr (rq_TailscaleIP r));
        ("agent_listen_port", JInt (rq_AgentListenPort r));
        ("capacity_mb", JInt (rq_CapacityMB r)); ("capacity_cpu", json_of_float (rq_CapacityCPU r));
        ("agent_version", JStr (rq_AgentVersion r))].

Record HeartbeatRequest := mkHeartbeat {
  hb_UsedMB : Z;
  hb_RunningContainers : Z;
  hb_Containers : list ContainerInfo;
}.

(** The agent's [ContainerInfo] has the fields of the control plane's. *)
Definition container_json (c : ContainerInfo) : json :=
  JObj [("app_name", JStr (ci_AppName c)); ("state", JStr (ci_State c));
        ("host_port", JInt (ci_HostPort c)); ("container_id", JStr (ci_ContainerID c))].

(** The list is made with [make] and never nil. *)
Definition heartbeat_json (h : HeartbeatRequest) : json :=
  JObj [("used_mb", JInt (hb_UsedMB h)); ("running_containers", JInt (hb_RunningContainers h));
        ("containers", JArr (container_json <$> hb_Containers h))].

Definition ack_json (a : AckRequest) : json :=
  JObj (str_field "status" (ak_Status a) ++ omit_empty "error" (ak_Error a) ++
        omit_none "result" id (ak_Result a)).

Record EventReport := mkReport {
  er_SandboxID : string;
  er_EventType : string;
  er_ContainerID : string;
  er_ExitCode : Z;
  er_Payload : option json;
}.

Definition event_json (e : EventReport) : json :=
  JObj (str_field "sandbox_id" (er_SandboxID e) ++ str_field "event_type" (er_EventType e) ++
        omit_empty "container_id" (er_ContainerID e) ++
        (if er_ExitCode e =? 0 then [] else int_field "exit_code" (er_ExitCode e)) ++
        omit_none "payload" id (er_Payload e)).

(** ** What the agent reads *)

Record RegisterResponse := mkRegisterResp {
  rs_NodeID : string;
  rs_AgentToken : string;
  rs_HeartbeatIntervalSeconds : Z;
}.

Definition decode_registered (body : option json) : option RegisterResponse :=
  j ← body; m ← members_of j;
  let '(id, ok1) := dec_field "node_id" dec_string "" m in
  let '(token, ok2) := dec_field "agent_token" dec_string "" m in
  let '(interval, ok3) := dec_field "heartbeat_interval_seconds" dec_int64 0 m in
  if ok1 && ok2 && ok3 then Some (mkRegisterResp id token interval) else None.

(** [time.Time.UnmarshalJSON], in nanoseconds since 1970. *)
Definition dec_time : decoder Z := fun old j =>
  match j with
  | JNull => (old, true)
  | JStr s => match Parse_RFC3339 s with Some t => (t, true) | None => (old, false) end
  | _ => (old, false)
  end.

(** The zero [time.Time] is January 1 of year 1. *)
Definition zero_time : Z := -62135596800 * nanoseconds.

Definition zero_command : Executor.Command := Executor.mkCommand "" "" "" None zero_time 0.

Definition dec_command : decoder Executor.Command := fun old j =>
  match j with
  | JNull => (old, true)
  | JObj m =>
      let '(id, ok1) := dec_field "id" dec_string (ac_ID old) m in
      let '(ty, ok2) := dec_field "type" dec_string (ac_Type old) m in
      let '(sb, ok3) := dec_field "sandbox_id" dec_string (ac_SandboxID old) m in
      let '(p, ok4) := dec_field "payload" dec_raw (ac_Payload old) m in
      let '(t, ok5) := dec_field "issued_at" dec_time (ac_IssuedAt old) m in
      let '(s, ok6) := dec_field "timeout_seconds" dec_int64 (ac_TimeoutSeconds old) m in
      (Executor.mkCommand id ty sb p t s, ok1 && ok2 && ok3 && ok4 && ok5 && ok6)
  | _ => (old, false)
  end.

(** [CommandsResponse] *)
Definition decode_commands (body : option json) : option (list Executor.Command) :=
  j ← body; m ← members_of j;
  let '(l, ok) := dec_field "commands" (dec_list dec_command zero_command) [] m in
  if ok then Some l else None.

(** ** Facts *)

#[local] Arguments dec_int : simpl never.
#[local] Arguments dec_int32 : simpl never.
#[local] Arguments dec_int64 : simpl never.
#[local] Arguments dec_float64 : simpl never.
#[local] Arguments round64 : simpl never.
#[local] Arguments json_of_float : simpl never.

Lemma dec_int32_in old z : in_int32 z -> dec_int32 old (JInt z) = (z, true).
Proof.
  intros [? ?]. unfold dec_int32, dec_int. by rewrite (proj2 (andb_true_iff _ _)) by (rewrite !Z.leb_le; lia).
Qed.

Definition in_int64 (z : Z) : Prop := - 2 ^ 63 <= z <= 2 ^ 63 - 1.

Lemma dec_int64_in old z : in_int64 z -> dec_int64 old (JInt z) = (z, true).
Proof.
  intros [? ?]. unfold dec_int64, dec_int. by rewrite (proj2 (andb_true_iff _ _)) by (rewrite !Z.leb_le; lia).
Qed.

(** A list is read elementwise. *)
Lemma dec_list_fmap {A B} (d : decoder A) zero (f : B -> json) (g : B -> A) l old :
  (forall x, x ∈ l -> d zero (f x) = (g x, true)) ->
  dec_list d zero old (JArr (f <$> l)) = (g <$> l, true).
Proof.
  intros Hd. unfold dec_list. cbv zeta.
  assert (d zero <$> (f <$> l) = (fun x => (g x, true)) <$> l) as ->.
  { induction l as [|x l IH]; [done|]. rewrite !fmap_cons, Hd by left. f_equal.
    apply IH. intros y Hy. apply Hd. by right. }
  clear Hd. f_equal; induction l as [|x l IH]; [done| |done|done]. simpl. by f_equal.
Qed.

(** *** Agent to control plane *)

(** The control plane keeps the request as sent; its float64 is exact when it
    was one before. *)
Lemma read_register r : in_int32 (rq_AgentListenPort r) -> in_int32 (rq_CapacityMB r) ->
  decode_register (Some (register_json r)) =
    (f ← round64 (match json_of_float (rq_CapacityCPU r) with
                  | JInt z => inject_Z z | JDec q => q | _ => 0%Q end);
     Some (mkRegisterRequest (rq_Hostname r) (rq_TailscaleIP r) (rq_AgentListenPort r)
            (rq_CapacityMB r) f (rq_AgentVersion r) None)).
Proof.
  intros Hp Hm. unfold register_json, decode_register, dec_field. simpl.
  rewrite !dec_int32_in by done. unfold dec_float64, json_of_float.
  destruct (decide _); simpl; by destruct (round64 _).
Qed.

Lemma read_container c : in_int64 (ci_HostPort c) ->
  dec_container (mkContainerInfo "" "" 0 "") (container_json c) = (c, true).
Proof.
  intros Hp. destruct c as [a s p i]. unfold container_json, dec_container, dec_field. simpl in *.
  by rewrite dec_int64_in.
Qed.

Lemma read_containers l old : Forall (fun c => in_int64 (ci_HostPort c)) l ->
  dec_containers old (JArr (container_json <$> l)) = (Some l, true).
Proof.
  intros Hl. unfold dec_containers. rewrite (dec_list_fmap _ _ container_json id), list_fmap_id; [done|].
  intros c Hin. apply read_container. by eapply Forall_forall in Hl.
Qed.

Lemma read_heartbeat h :
  in_int32 (hb_UsedMB h) -> in_int32 (hb_RunningContainers h) ->
  Forall (fun c => in_int64 (ci_HostPort c)) (hb_Containers h) ->
  decode_heartbeat (Some (heartbeat_json h)) =
    Some (hb_UsedMB h, hb_RunningContainers h, Some (hb_Containers h)).
Proof.
  intros Hu Hr Hc. unfold decode_heartbeat, heartbeat_json, dec_field.
  pose proof (read_containers _ None Hc) as Hl. revert Hl.
  generalize (JArr (container_json <$> hb_Containers h)). intros l Hl. simpl.
  rewrite !dec_int32_in by done. simpl. by rewrite Hl.
Qed.

Lemma read_ack a :
  decode_ack (Some (ack_json a)) = Some (ak_Status a, ak_Error a, ak_Result a).
Proof.
  destruct a as [s e r]. unfold decode_ack, ack_json, dec_field, omit_empty.
  cbn [ak_Error]. destruct (String.eqb_spec e "") as [->|]; by destruct r.
Qed.

Lemma read_event e : in_int64 (er_ExitCode e) ->
  decode_event (Some (event_json e)) = Some (er_SandboxID e, er_EventType e, er_Payload e).
Proof.
  intros Hx. destruct e as [s t c x p]. unfold decode_event, event_json, dec_field, omit_empty.
  cbn [er_ContainerID er_ExitCode]. destruct (String.eqb_spec c "") as [->|]; destruct (x =? 0); destruct p; simpl in *;
    rewrite ?dec_int64_in by done; done.
Qed.

(** *** Control plane to agent *)

Section Responses.
Context `{External} (zone : Z).

Lemma read_registered id token interval : in_int64 interval ->
  decode_registered (body_json zone 201 (BRegistered id token interval)) =
    Some (mkRegisterResp id token interval).
Proof. intros Hi. unfold decode_registered, dec_field. simpl. by rewrite dec_int64_in. Qed.

(** A command as the agent gets it: the instant it was made loses its fraction
    of a second. *)
Definition received (c : Store.Command) : Executor.Command :=
  Executor.mkCommand (uuid_String (cmd_ID c)) (cmd_CommandType c) (formatUUID (cmd_SandboxID c))
    (Some (cmd_Payload c)) (cmd_CreatedAt c / second * nanoseconds) (cmd_TimeoutSeconds c).

Definition zone_ok : Prop := zone mod 60 = 0 /\ Z.abs zone < 86400.

Definition sendable (c : Store.Command) : Prop :=
  in_int64 (cmd_TimeoutSeconds c) /\ plain_year zone (cmd_CreatedAt c / second).

Lemma read_command c : zone_ok -> sendable c ->
  dec_command zero_command (commandResponse_json (mapCommand zone c)) = (received c, true).
Proof.
  intros [Hm Hz] [Ht Hy]. unfold commandResponse_json, dec_command, dec_field. simpl.
  rewrite dec_int64_in by done. unfold dec_time, rfc3339. rewrite rfc3339_roundtrip by done.
  unfold received, formatUUID. by destruct (cmd_SandboxID c).
Qed.

Lemma read_commands l : zone_ok -> Forall sendable l ->
  decode_commands (body_json zone 200 (BCommands l)) = Some (received <$> l).
Proof.
  intros Hz Hl. unfold decode_commands, dec_field. cbn [body_json mbind option_bind members_of].
  cbn [foldl key_matches]. change (key_matches "commands" "commands") with true. cbv iota.
  unfold mapCommands. rewrite <- list_fmap_compose, (dec_list_fmap _ _ _ received); [done|].
  intros c Hc. apply read_command; [done|]. by eapply Forall_forall in Hl.
Qed.
End Responses.
