(* ===== verification/AgentClient.v ===== *)
(** The agent's client of the control plane,
    agent/internal/controlclient/client.go: registration with retries, and the
    four authenticated calls with their re-registrations. *)

From S2P Require Import Prelude Netip Url Json Models Scheduler Store StoreFacts Routing Effects.
From S2P Require Import Reconciler Adapters Api Executor Wire.

(** ** Effects

    The fields the mutex guards, one read or write at a time; a request with
    its timeout; and the wait of a [select] on the context and [time.After]:
    [false] if the context is done first. *)

Record agent_request := mkAgentRequest {
  aq_Method : string;
  aq_URL : string;
  aq_Authorization : string;         (* empty if absent *)
  aq_Body : option json;
}.

Inductive clientE : Type -> Type :=
| CNodeID : clientE string
| CToken : clientE string
| CCredentials : clientE (string * string)      (* both in one critical section *)
| CStore (nodeID token : string) : clientE unit
| CDo (timeout : Z) (rq : agent_request) : clientE (result http_response)
| CWait (d : Z) : clientE bool.

Definition client (A : Type) : Type := prog clientE A.

(** The text of a response's body, as [io.ReadAll] gets it. *)
Class ClientTexts := { body_text : http_response -> string }.

Definition context_canceled : error := Sentinel "context canceled".

Definition seconds (n : Z) : Z := n * nanoseconds.

(** What [NewClient] is given. *)
Record ClientConfig := mkClientConfig {
  cc_baseURL : string;
  cc_regReq : RegisterRequest;
  cc_apiToken : string;
}.

Definition request_timeout : Z := seconds 30.
Definition register_path : string := "/v1/nodes/register".
Definition heartbeat_path (nodeID : string) : string := "/v1/nodes/" +:+ nodeID +:+ "/heartbeat".
Definition poll_path (nodeID : string) (wait : Z) : string :=
  "/v1/agents/" +:+ nodeID +:+ "/commands?wait=" +:+ pretty wait.
Definition ack_path (nodeID cmdID : string) : string :=
  "/v1/agents/" +:+ nodeID +:+ "/commands/" +:+ cmdID +:+ "/ack".
Definition events_path (nodeID : string) : string := "/v1/agents/" +:+ nodeID +:+ "/events".

Section Client.
Context `{ClientTexts} (c : ClientConfig).

(** The token sent: the shared one if there is one. *)
Definition authToken (token : string) : string :=
  if String.eqb (cc_apiToken c) "" then token else cc_apiToken c.

(** [http.NewRequest]: fails on a URL that does not parse. *)
Definition NewRequest (method path : string) (body : option json) : result agent_request :=
  match Parse (cc_baseURL c +:+ path) with
  | None => Err (OtherError "invalid URL")
  | Some _ => Ok (mkAgentRequest method (cc_baseURL c +:+ path) "" body)
  end.

(** ** Registration *)

Definition maxAttempts : Z := 5.

(** Answers that are tried again. *)
Definition retriable (r : result http_response) : bool :=
  match r with Err _ => true | Ok r => 500 <=? rs_status r end.

(** The error after the last attempt. *)
Definition exhausted_attempts (r : result http_response) : result http_response :=
  match r with
  | Err e => Err (Wrap ("register request failed after " +:+ pretty maxAttempts +:+ " attempts") e)
  | Ok r => Err (OtherError ("register returned " +:+ pretty (rs_status r) +:+ " after " +:+
                             pretty maxAttempts +:+ " attempts"))
  end.

Definition next_backoff (b : Z) : Z := if seconds 8 <? b * 2 then seconds 8 else b * 2.

(** The attempts, [left] of them after the next. *)
Fixpoint register_loop (left : nat) (backoff : Z) : client (result http_response) :=
  match NewRequest "POST" register_path (Some (register_json (cc_regReq c))) with
  | Err e => Ret (Err (Wrap "create register request" e))
  | Ok rq =>
      resp <- trigger (CDo request_timeout rq) ;;
      if retriable resp
      then match left with
           | O => Ret (exhausted_attempts resp)
           | S left' =>
               waited <- trigger (CWait backoff) ;;
               if waited : bool then register_loop left' (next_backoff backoff)
               else Ret (Err context_canceled)
           end
      else Ret resp
  end.

(** What is made of the decisive response. *)
Definition registration_of (r : http_response) : result RegisterResponse :=
  if negb (rs_status r =? 201) && negb (rs_status r =? 200)
  then Err (OtherError ("register returned " +:+ pretty (rs_status r) +:+ ": " +:+ body_text r))
  else match decode_registered (rs_json r) with
       | None => Err (Wrap "decode register response" (OtherError "invalid JSON"))
       | Some reg => Ok reg
       end.

Definition Register : client (result RegisterResponse) :=
  resp <- register_loop (Z.to_nat (maxAttempts - 1)) (seconds 1) ;;
  match resp with
  | Err e => Ret (Err e)
  | Ok r =>
      match registration_of r with
      | Err e => Ret (Err e)
      | Ok reg => trigger (CStore (rs_NodeID reg) (rs_AgentToken reg)) ;;; Ret (Ok reg)
      end
  end.

(** Registering again because of status [code], then going on. *)
Definition reregister {A} (code : string) (k : client (result A)) : client (result A) :=
  r <- Register ;;
  match r with
  | Err e => Ret (Err (Wrap ("re-register after " +:+ code) e))
  | Ok _ => k
  end.

(** ** Authenticated calls *)

(** [req.Header.Set("Authorization", "Bearer "+c.authToken())] *)
Definition authorized (token : string) (rq : agent_request) : agent_request :=
  mkAgentRequest (aq_Method rq) (aq_URL rq) ("Bearer " +:+ authToken token) (aq_Body rq).

Definition doAuthRequest (method path : string) (body : option json) : client (result http_response) :=
  match NewRequest method path body with
  | Err e => Ret (Err (Wrap "create request" e))
  | Ok rq => token <- trigger CToken ;; trigger (CDo request_timeout (authorized token rq))
  end.

(** The status of an answer whose body is not used. *)
Definition accepted (what : string) (r : http_response) : result unit :=
  if 400 <=? rs_status r
  then Err (OtherError (what +:+ " returned " +:+ pretty (rs_status r) +:+ ": " +:+ body_text r))
  else Ok tt.

Definition accept (what : string) (r : result http_response) : result unit :=
  match r with Err e => Err e | Ok r => accepted what r end.

Definition Heartbeat (req : HeartbeatRequest) : client (result unit) :=
  nodeID <- trigger CNodeID ;;
  let send id := doAuthRequest "POST" (heartbeat_path id) (Some (heartbeat_json req)) in
  resp <- send nodeID ;;
  match resp with
  | Err e => Ret (Err e)
  | Ok r =>
      if rs_status r =? 404
      then reregister "404" (id <- trigger CNodeID ;;
                             resp2 <- send id ;; Ret (accept "heartbeat retry" resp2))
      else Ret (accepted "heartbeat" r)
  end.

Definition parseCommands (r : http_response) : result (list Command) :=
  if 400 <=? rs_status r
  then Err (OtherError ("poll commands returned " +:+ pretty (rs_status r) +:+ ": " +:+ body_text r))
  else match decode_commands (rs_json r) with
       | None => Err (Wrap "decode commands response" (OtherError "invalid JSON"))
       | Some l => Ok l
       end.

Definition poll_timeout (wait : Z) : Z := seconds (wait + 5).

Definition PollCommands (wait : Z) : client (result (list Command)) :=
  nodeID <- trigger CNodeID ;;
  match NewRequest "GET" (poll_path nodeID wait) None with
  | Err e => Ret (Err (Wrap "create poll request" e))
  | Ok rq =>
      token <- trigger CToken ;;
      resp <- trigger (CDo (poll_timeout wait) (authorized token rq)) ;;
      match resp with
      | Err e => Ret (Err (Wrap "poll commands" e))
      | Ok r =>
          if rs_status r =? 401
          then reregister "401" (
                 creds <- trigger CCredentials ;;
                 match NewRequest "GET" (poll_path creds.1 wait) None with
                 | Err e => Ret (Err (Wrap "create poll retry request" e))
                 | Ok rq =>
                     resp2 <- trigger (CDo (poll_timeout wait) (authorized creds.2 rq)) ;;
                     Ret (match resp2 with
                          | Err e => Err (Wrap "poll commands retry" e)
                          | Ok r => parseCommands r
                          end)
                 end)
          else Ret (parseCommands r)
      end
  end.

Definition AckCommand (cmdID : string) (ack : AckRequest) : client (result unit) :=
  nodeID <- trigger CNodeID ;;
  let send id := doAuthRequest "POST" (ack_path id cmdID) (Some (ack_json ack)) in
  resp <- send nodeID ;;
  match resp with
  | Err e => Ret (Err e)
  | Ok r =>
      if rs_status r =? 401
      then reregister "401" (id <- trigger CNodeID ;;
                             resp2 <- send id ;; Ret (accept "ack retry" resp2))
      else Ret (accepted "ack" r)
  end.

(** The status of the answer is not looked at, 401 apart. *)
Definition ReportEvent (event : EventReport) : client (result unit) :=
  nodeID <- trigger CNodeID ;;
  let send id := doAuthRequest "POST" (events_path id) (Some (event_json event)) in
  resp <- send nodeID ;;
  resp <- match resp with
          | Ok r => Ret (Ok r)
          | Err _ =>
              again <- send nodeID ;;
              Ret (match again with
                   | Err e => Err (Wrap "event report failed after retry" e)
                   | Ok r => Ok r
                   end)
          end ;;
  match resp with
  | Err e => Ret (Err e)
  | Ok r =>
      if rs_status r =? 401
      then reregister "401" (
             id <- trigger CNodeID ;; resp2 <- send id ;;
             Ret (match resp2 with
                  | Err e => Err (Wrap "event report retry after re-register" e)
                  | Ok _ => Ok tt
                  end))
      else Ret (Ok tt)
  end.
End Client.
