(* ===== verification/ClientFacts.v ===== *)
(** What the agent's control plane client does whatever it is answered: the
    attempts of a registration, the token of every request, and how many
    requests a call can make. *)

From S2P Require Import Prelude Netip Url Json Models Scheduler Store StoreFacts Routing Effects.
From S2P Require Import Reconciler Adapters Api Executor Wire AgentClient.

(** ** Observations *)

Inductive client_obs :=
| ObsQuiet
| ObsRequest (rq : agent_request) (r : result http_response)
| ObsWait (d : Z) (over : bool)
| ObsStore (nodeID token : string).

Definition observe_client {X} (e : clientE X) : X -> client_obs :=
  match e in clientE X return X -> client_obs with
  | CNodeID => fun _ => ObsQuiet
  | CToken => fun _ => ObsQuiet
  | CCredentials => fun _ => ObsQuiet
  | CStore id token => fun _ => ObsStore id token
  | CDo _ rq => fun r => ObsRequest rq r
  | CWait d => fun over => ObsWait d over
  end.

Definition request_of (o : client_obs) : option agent_request :=
  match o with ObsRequest rq _ => Some rq | _ => None end.
Definition answer_of (o : client_obs) : option (result http_response) :=
  match o with ObsRequest _ r => Some r | _ => None end.
Definition wait_of (o : client_obs) : option Z :=
  match o with ObsWait d _ => Some d | _ => None end.
Definition stored_of (o : client_obs) : option (string * string) :=
  match o with ObsStore id token => Some (id, token) | _ => None end.

(** ** Registration *)

(** The runs of the attempts that have the waits [bs] left between them. *)
Inductive attempts (rq : agent_request) : list Z -> list client_obs -> result http_response -> Prop :=
| at_decided bs r : retriable r = false -> attempts rq bs [ObsRequest rq r] r
| at_last r : retriable r = true -> attempts rq [] [ObsRequest rq r] (exhausted_attempts r)
| at_retry r b bs t res :
    retriable r = true -> attempts rq bs t res ->
    attempts rq (b :: bs) (ObsRequest rq r :: ObsWait b true :: t) res
| at_canceled r b bs :
    retriable r = true ->
    attempts rq (b :: bs) [ObsRequest rq r; ObsWait b false] (Err context_canceled).

Fixpoint backoffs (left : nat) (b : Z) : list Z :=
  match left with O => [] | S n => b :: backoffs n (next_backoff b) end.

Section Facts.
Context `{ClientTexts} (c : ClientConfig).

Lemma register_loop_attempts rq left b :
  NewRequest c "POST" register_path (Some (register_json (cc_regReq c))) = Ok rq ->
  behaves (@observe_client) (register_loop c left b) (attempts rq (backoffs left b)).
Proof.
  intros Hrq. revert b. induction left as [|left IH]; intros b; cbn [register_loop]; rewrite Hrq;
    intros r; cbn [bind trigger]; destruct (retriable r) eqn:Hr; try by constructor.
  intros [|]; [|by constructor]. cbn [backoffs]. eapply behaves_mono; [|apply IH].
  intros t res Ht. by constructor.
Qed.

(** What the runs have in common. *)
Lemma attempts_shape rq bs t res : attempts rq bs t res ->
  omap stored_of t = [] /\ (exists k, omap wait_of t = take k bs) /\
  (exists n, omap request_of t = replicate (S n) rq /\ (n <= length bs)%nat) /\
  exists before a, omap answer_of t = before ++ [a] /\ Forall (fun r => retriable r = true) before /\
    (res = a /\ retriable a = false \/
     retriable a = true /\ (res = Err context_canceled \/ res = exhausted_attempts a /\ length before = length bs)).
Proof.
  induction 1 as [bs r Hr|r Hr|r b bs t res Hr _ (Hs & [k Hw] & [n [Hq Hn]] & before & a & Ha & Hb & Hres)|r b bs Hr].
  - split_and!; [done|by exists 0%nat|by exists 0%nat; split; [|simpl; lia]|]. exists [], r. auto.
  - split_and!; [done|by exists 0%nat|by exists 0%nat|]. exists [], r. auto 10.
  - split_and!; [done| | |].
    + exists (S k). exact (f_equal (cons b) Hw).
    + exists (S n). split; [exact (f_equal (cons rq) Hq)|simpl; lia].
    + exists (r :: before), a. split_and!; [exact (f_equal (cons r) Ha)|by constructor|].
      destruct Hres as [?|[? [?|[? ?]]]]; [by left|by right; auto|]. right. split; [done|]. right.
      split; [done|]. simpl; congruence.
  - split_and!; [done|by exists 1%nat|by exists 0%nat; split; [|simpl; lia]|]. exists [], r. auto 10.
Qed.

Lemma backoffs_spec : backoffs (Z.to_nat (maxAttempts - 1)) (seconds 1) = seconds <$> [1; 2; 4; 8].
Proof. reflexivity. Qed.

Definition outcome_of (a : result http_response) : result RegisterResponse :=
  match a with Err e => Err e | Ok r => registration_of r end.

(** A registration, as a run of attempts and the credentials kept at the end. *)
Lemma Register_runs rq :
  NewRequest c "POST" register_path (Some (register_json (cc_regReq c))) = Ok rq ->
  behaves (@observe_client) (Register c) (fun t r =>
    exists t0 a, attempts rq (seconds <$> [1; 2; 4; 8]) t0 a /\ r = outcome_of a /\
      t = t0 ++ match r with Ok reg => [ObsStore (rs_NodeID reg) (rs_AgentToken reg)] | Err _ => [] end).
Proof.
  intros Hrq. unfold Register. apply behaves_bind.
  eapply behaves_mono; [|by apply (register_loop_attempts rq)]. rewrite backoffs_spec.
  intros t a Ht. destruct a as [r|e]; [|by exists t, (Err e)].
  destruct (registration_of r) as [reg|e] eqn:Hreg.
  - intros []. exists t, (Ok r). unfold outcome_of. rewrite Hreg. by split_and!.
  - exists t, (Ok r). unfold outcome_of. rewrite Hreg. by split_and!.
Qed.

(** ** Requests *)

(** Authorized by the shared token, or a registration without a token. *)
Definition sends_as {X} (e : clientE X) : Prop :=
  match e with
  | CDo _ rq =>
      aq_Authorization rq = "Bearer " +:+ cc_apiToken c \/
      (aq_URL rq = cc_baseURL c +:+ register_path /\ aq_Authorization rq = "")
  | _ => True
  end.

Abbreviation authorised := (issues (@sends_as)).

Lemma NewRequest_sent method path body rq :
  NewRequest c method path body = Ok rq ->
  aq_URL rq = cc_baseURL c +:+ path /\ aq_Authorization rq = "".
Proof. unfold NewRequest. by destruct (Parse _) as [u|]; intros [= <-]. Qed.

Lemma register_loop_authorised left b : authorised (register_loop c left b).
Proof.
  revert b. induction left as [|left IH]; intros b; cbn [register_loop];
    destruct (NewRequest _ _ _ _) as [rq|e] eqn:Hrq; try done;
    (split; [right; by apply (NewRequest_sent _ _ _ _ Hrq)|]); intros r; cbn [bind trigger];
    destruct (retriable r); try done.
  split; [done|]. intros [|]; [apply IH|done].
Qed.

Lemma Register_authorised : authorised (Register c).
Proof.
  unfold Register. apply issues_bind; [apply register_loop_authorised|]. intros [r|e]; [|done].
  destruct (registration_of r); [|done]. by split.
Qed.

Lemma reregister_authorised {A} code (k : client (result A)) :
  authorised k -> authorised (reregister c code k).
Proof.
  intros Hk. unfold reregister. apply issues_bind; [apply Register_authorised|]. by intros [r|e].
Qed.

Hypothesis shared : cc_apiToken c <> "".

Lemma authorized_bearer token rq :
  aq_Authorization (authorized c token rq) = "Bearer " +:+ cc_apiToken c.
Proof. unfold authorized, authToken. simpl. by destruct (String.eqb_spec (cc_apiToken c) ""). Qed.

Lemma doAuthRequest_authorised method path body : authorised (doAuthRequest c method path body).
Proof.
  unfold doAuthRequest. destruct (NewRequest _ _ _ _) as [rq|e]; [|done].
  split; [done|]. intros token. split; [|done]. left. apply authorized_bearer.
Qed.

#[local] Hint Resolve doAuthRequest_authorised reregister_authorised : forge.

Ltac authorise :=
  repeat first
    [ exact I
    | match goal with |- issues _ (trigger _) => by split end
    | match goal with |- issues _ (bind _ _) => apply issues_bind; [|intros] end
    | match goal with |- issues _ (match ?x with _ => _ end) => destruct x eqn:? end
    | match goal with |- issues _ (reregister _ _ _) => apply reregister_authorised end
    | solve [eauto with forge] ].

Lemma Heartbeat_authorised h : authorised (Heartbeat c h).
Proof. unfold Heartbeat. cbv zeta. authorise. Qed.

Lemma AckCommand_authorised id a : authorised (AckCommand c id a).
Proof. unfold AckCommand. cbv zeta. authorise. Qed.

Lemma ReportEvent_authorised e : authorised (ReportEvent c e).
Proof. unfold ReportEvent. cbv zeta. authorise. Qed.

Lemma PollCommands_authorised w : authorised (PollCommands c w).
Proof.
  unfold PollCommands. authorise; (split; [left; apply authorized_bearer|done]).
Qed.
End Facts.

(** ** Counting requests *)

Definition at_most {A} (n : nat) (p : client A) : Prop :=
  behaves (@observe_client) p (fun t _ => (length (omap request_of t) <= n)%nat).

Lemma at_most_mono {A} m n (p : client A) : (m <= n)%nat -> at_most m p -> at_most n p.
Proof. intros Hmn. apply behaves_mono. lia. Qed.

Lemma at_most_ret {A} n (a : A) : at_most n (Ret a).
Proof. unfold at_most. simpl. lia. Qed.

Lemma at_most_bind {A B} m n (p : client A) (f : A -> client B) :
  at_most m p -> (forall a, at_most n (f a)) -> at_most (m + n) (bind p f).
Proof.
  intros Hp Hf. apply behaves_bind. eapply behaves_mono; [|exact Hp]. intros t a Ht.
  eapply behaves_mono; [|apply (Hf a)]. intros t' b Ht'. rewrite omap_app, length_app. cbv beta in *. lia.
Qed.

Section Counts.
Context `{ClientTexts} (c : ClientConfig).

Lemma register_loop_count left b : at_most (S left) (register_loop c left b).
Proof.
  destruct (NewRequest c "POST" register_path (Some (register_json (cc_regReq c)))) as [rq|e] eqn:Hrq.
  - eapply behaves_mono; [|by apply register_loop_attempts]. intros t r Ht.
    apply attempts_shape in Ht as (_ & _ & (n & -> & Hn) & _). rewrite length_replicate.
    enough (length (backoffs left b) = left) by lia. clear.
    revert b. induction left as [|left IH]; intros b; simpl; [done|]. by rewrite IH.
  - unfold at_most. destruct left; cbn [register_loop]; rewrite Hrq; simpl; lia.
Qed.

Lemma Register_count : at_most 5 (Register c).
Proof.
  unfold Register. change 5%nat with (5 + 0)%nat. apply at_most_bind; [apply register_loop_count|].
  intros [r|e]; [|apply at_most_ret]. destruct (registration_of r); [|apply at_most_ret].
  intros []. simpl. lia.
Qed.

Lemma doAuthRequest_count method path body : at_most 1 (doAuthRequest c method path body).
Proof.
  unfold doAuthRequest, at_most. destruct (NewRequest _ _ _ _); [|simpl; lia]. intros token r. simpl. lia.
Qed.

Lemma reregister_count {A} n code (k : client (result A)) :
  at_most n k -> at_most (5 + n) (reregister c code k).
Proof.
  intros Hk. apply at_most_bind; [apply Register_count|]. intros [r|e]; [done|].
  apply at_most_ret.
Qed.
End Counts.

(** [count_requests] follows the binds; the bound of each piece comes from the
    lemmas above. *)
Ltac count_step :=
  match goal with
  | |- at_most _ (bind (trigger (CDo _ _)) _) =>
      refine (at_most_bind 1 _ _ _ _ _); [intros ?; simpl; lia|intros ?]
  | |- at_most _ (bind (trigger _) _) => refine (at_most_bind 0 _ _ _ _ _); [intros ?; simpl; lia|intros ?]
  | |- at_most _ (bind (doAuthRequest _ _ _ _) _) =>
      refine (at_most_bind 1 _ _ _ (doAuthRequest_count _ _ _ _) _); intros ?
  | |- at_most _ (bind (match _ with _ => _ end) _) =>
      refine (at_most_bind 1 _ _ _ _ _); [|intros ?]
  | |- at_most _ (reregister _ _ _) => apply reregister_count
  | |- at_most _ (Ret _) => apply at_most_ret
  | |- at_most _ (match ?x with _ => _ end) => destruct x
  end.

Definition demo_client_texts : ClientTexts := {| body_text r := pretty (rs_status r) |}.

Definition demo_client_config : ClientConfig :=
  mkClientConfig "http://10.0.0.1:8080"
    (mkRegisterReq "node-9" "100.64.0.9" 8090 16384 4 "0.1.0") "secret".

(** ** Properties *)

Section Properties.
Context `{ClientTexts} (c : ClientConfig).

(** C30: A registration always ends, after at most five identical requests
    with waits of 1, 2, 4 and 8 seconds between them; the first answer that is
    neither a transport error nor a 5xx decides it; and the credentials are
    replaced exactly when it succeeds, by those of that answer. *)
Theorem Register_bounded rq :
  NewRequest c "POST" register_path (Some (register_json (cc_regReq c))) = Ok rq ->
  behaves (@observe_client) (Register c) (fun t r =>
    (exists n, omap request_of t = replicate n rq /\ (1 <= n <= 5)%nat) /\
    (exists k, omap wait_of t = take k (seconds <$> [1; 2; 4; 8])) /\
    omap stored_of t = match r with Ok reg => [(rs_NodeID reg, rs_AgentToken reg)] | Err _ => [] end /\
    exists before a, omap answer_of t = before ++ [a] /\ Forall (fun r => retriable r = true) before /\
      (retriable a = false /\ r = outcome_of a \/
       retriable a = true /\
         (r = Err context_canceled \/ length before = 4%nat /\ r = outcome_of (exhausted_attempts a)))).
Proof.
  intros Hrq. eapply behaves_mono; [|by apply (Register_runs c rq)].
  intros t r (t0 & a & Ht & -> & ->).
  apply attempts_shape in Ht as (Hs & [k Hw] & [n [Hq Hn]] & before & a' & Ha & Hb & Hres).
  rewrite !omap_app, Hs, Hw, Hq, Ha. simpl in Hn.
  assert (forall A (f : client_obs -> option A), (forall i t, f (ObsStore i t) = None) ->
    omap f match outcome_of a with
           | Ok reg => [ObsStore (rs_NodeID reg) (rs_AgentToken reg)]
           | Err _ => [] end = []) as Hno
    by (intros A f Hf; destruct (outcome_of a); simpl; rewrite ?Hf; done).
  rewrite (Hno _ request_of), (Hno _ wait_of), (Hno _ answer_of), !app_nil_r by done. split_and!.
  - exists (S n). split; [done|lia].
  - by exists k.
  - by destruct (outcome_of a).
  - exists before, a'. split_and!; [done..|]. destruct Hres as [[-> ?]|[? [->|[-> ?]]]]; auto 10.
Qed.

(** With a shared token every request of the agent carries it, apart from
    the registrations, which carry none: the token a registration returns is
    never sent, whatever the control plane answers. *)
Theorem agent_requests_authorised h id ack e wait :
  cc_apiToken c <> "" ->
  issues (@sends_as c) (Register c) /\ issues (@sends_as c) (Heartbeat c h) /\
  issues (@sends_as c) (PollCommands c wait) /\ issues (@sends_as c) (AckCommand c id ack) /\
  issues (@sends_as c) (ReportEvent c e).
Proof.
  intros Hs. split_and!; [by apply Register_authorised|by apply Heartbeat_authorised|
    by apply PollCommands_authorised|by apply AckCommand_authorised|by apply ReportEvent_authorised].
Qed.

(** No call loops: a heartbeat, a poll and an acknowledgment make at most
    seven requests and an event report at most eight, however they are
    answered (each registers again at most once). *)
Theorem agent_calls_bounded h id ack e wait :
  at_most 7 (Heartbeat c h) /\ at_most 7 (PollCommands c wait) /\
  at_most 7 (AckCommand c id ack) /\ at_most 8 (ReportEvent c e).
Proof.
  split_and!; unfold Heartbeat, PollCommands, AckCommand, ReportEvent; cbv zeta; repeat count_step.
Qed.
End Properties.

Lemma Register_bounded_witness :
  exists rq, NewRequest demo_client_config "POST" register_path
    (Some (register_json (cc_regReq demo_client_config))) = Ok rq /\
  behaves (@observe_client) (@Register demo_client_texts demo_client_config) (fun t r =>
    omap stored_of t = match r with Ok reg => [(rs_NodeID reg, rs_AgentToken reg)] | Err _ => [] end).
Proof.
  eexists. split; [vm_compute; reflexivity|]. eapply behaves_mono.
  2: { apply (@Register_bounded demo_client_texts demo_client_config). vm_compute. reflexivity. }
  intros t r (_ & _ & Hs & _). exact Hs.
Defined.

Lemma agent_requests_authorised_witness :
  cc_apiToken demo_client_config <> "" /\
  issues (@sends_as demo_client_config) (@PollCommands demo_client_texts demo_client_config 30).
Proof.
  assert (cc_apiToken demo_client_config <> "") as Hs by discriminate. split; [exact Hs|].
  pose proof (@agent_requests_authorised demo_client_texts demo_client_config (mkHeartbeat 0 0 [])
    "" (mkAck "" "" None) (mkReport "" "" "" 0 None) 30 Hs) as (_ & _ & Hp & _). exact Hp.
Defined.
