(* ===== verification/Watcher.v ===== *)
(** Docker's container events on their way to the control plane: the stream of
    the Docker client (agent/internal/docker/client.go) and the watcher that
    filters, maps and resumes it (agent/internal/events/watcher.go). *)

From S2P Require Import Prelude Json Executor.

(** ** docker/client.go: EventsStream

    The instants are nanoseconds since 1970. *)

(** The fields of the SDK's message that are read. *)
Record Message := mkMessage {
  msg_ActorID : string;
  msg_Attributes : gmap string string;
  msg_Action : string;
  msg_Time : Z;
  msg_TimeNano : Z;
}.

Record ContainerEvent := mkContainerEvent {
  ce_ContainerID : string;
  ce_ContainerName : string;
  ce_Action : string;
  ce_ExitCode : string;
  ce_Time : Z;
}.

(** A missing attribute reads as the empty string; [%] keeps the sign. *)
Definition container_event_of (m : Message) : ContainerEvent :=
  mkContainerEvent (msg_ActorID m) (default "" (msg_Attributes m !! "name")) (msg_Action m)
    (default "" (msg_Attributes m !! "exitCode"))
    (msg_Time m * nanoseconds + Z.rem (msg_TimeNano m) nanoseconds).

(** One connection of a source that closes its channels: the events until the
    first is closed, then the errors until the second is.  (The source behind the
    agent, Docker's client, does not do so: file Pipeline.) *)
Record session (A : Type) := mkSession { ss_messages : list A; ss_errors : list error }.
Arguments mkSession {A} _ _.
Arguments ss_messages {A} _.
Arguments ss_errors {A} _.

Definition EventsStream (s : session Message) : session ContainerEvent :=
  mkSession (container_event_of <$> ss_messages s) (ss_errors s).

(** ** events/watcher.go *)

Record SandboxEvent := mkSandboxEvent {
  se_AppName : string;
  se_ContainerID : string;
  se_EventType : string;
  se_ExitCode : string;
  se_Time : Z;
  se_OOMKilled : bool;
}.

Definition containerPrefix : string := "forge-".

Definition event_type (action : string) : option (string * bool) :=
  if String.eqb action "die" then Some ("container_exited", false)
  else if String.eqb action "oom" then Some ("container_oom", true)
  else if String.eqb action "start" then Some ("container_started", false)
  else None.

Definition mapEvent (ev : ContainerEvent) : option SandboxEvent :=
  if negb (HasPrefix (ce_ContainerName ev) containerPrefix) then None
  else
    '(ty, oom) ← event_type (ce_Action ev);
    Some (mkSandboxEvent (TrimPrefix (ce_ContainerName ev) containerPrefix) (ce_ContainerID ev) ty
            (ce_ExitCode ev) (ce_Time ev) oom).

(** Opening a stream from an instant ([None] is the zero time), asking whether
    the context is done, handing an event on and waiting: the last two are
    [select]s with the context and answer [false] when it is done first. *)
Inductive watchE : Type -> Type :=
| WStream (since : option Z) : watchE (session ContainerEvent)
| WDone : watchE bool
| WSend (ev : SandboxEvent) : watchE bool
| WWait (d : Z) : watchE bool.

Definition watch (A : Type) : Type := prog watchE A.

Definition baseBackoff : Z := 1 * nanoseconds.
Definition maxBackoff : Z := 30 * nanoseconds.

(** The events of a session: [inl] when the context ended it, else the time of
    the last event that was mapped. *)
Fixpoint read_events (evs : list ContainerEvent) (last : option Z) : watch (option Z + option Z) :=
  match evs with
  | [] => Ret (inr last)
  | ev :: evs' =>
      stop <- trigger WDone ;;
      if stop : bool then Ret (inl last)
      else match mapEvent ev with
           | None => read_events evs' last
           | Some sb =>
               sent <- trigger (WSend sb) ;;
               if sent : bool then read_events evs' (Some (ce_Time ev))
               else Ret (inl (Some (ce_Time ev)))
           end
  end.

Fixpoint drain_errors (errs : list error) (had : bool) : watch bool :=
  match errs with
  | [] => Ret had
  | _ :: errs' =>
      stop <- trigger WDone ;; if stop : bool then Ret false else drain_errors errs' true
  end.

(** Whether to reconnect, and the time to resume from. *)
Definition processStream (s : session ContainerEvent) (last : option Z) : watch (bool * option Z) :=
  r <- read_events (ss_messages s) last ;;
  match r with
  | inl last => Ret (false, last)
  | inr last => had <- drain_errors (ss_errors s) false ;; Ret (had, last)
  end.

Definition doubled (backoff : Z) : Z := if maxBackoff <? backoff * 2 then maxBackoff else backoff * 2.

(** One turn of the loop: the time and the backoff of the next one, or [None]
    when the loop returns. *)
Definition watch_turn (st : option Z * Z) : watch (option (option Z * Z)) :=
  let '(last, backoff) := st in
  stop <- trigger WDone ;;
  if stop : bool then Ret None
  else
    s <- trigger (WStream last) ;;
    r <- processStream s last ;;
    let '(reconnect, last) := r in
    stop <- trigger WDone ;;
    if stop : bool then Ret None
    else if negb reconnect then Ret None
    else
      waited <- trigger (WWait backoff) ;;
      Ret (if waited : bool then Some (last, doubled backoff) else None).

(** [n] turns of [watchLoop]; [None] once it has returned. *)
Fixpoint watch_turns (n : nat) (st : option Z * Z) : watch (option (option Z * Z)) :=
  match n with
  | O => Ret (Some st)
  | S n' =>
      r <- watch_turn st ;;
      match r with None => Ret None | Some st' => watch_turns n' st' end
  end.

Definition watchLoop (turns : nat) : watch (option (option Z * Z)) :=
  watch_turns turns (None, baseBackoff).

(** ** Facts *)

Inductive watch_obs :=
| ObsStream (since : option Z)
| ObsSent (ev : SandboxEvent)
| ObsPause (d : Z).

(** A daemon that serves the given sessions in turn, an agent that is not shut
    down, and what happened so far. *)
Definition daemon : Type := list (session ContainerEvent) * list watch_obs.

Definition note (o : watch_obs) (st : daemon) : daemon := (st.1, st.2 ++ [o]).

Definition serve_session {X} (e : watchE X) (st : daemon) : X * daemon :=
  match e in watchE X return X * daemon with
  | WStream since => (default (mkSession [] []) (head st.1), (tail st.1, st.2 ++ [ObsStream since]))
  | WDone => (false, st)
  | WSend ev => (true, note (ObsSent ev) st)
  | WWait d => (true, note (ObsPause d) st)
  end.

Definition sent_of (o : watch_obs) : option SandboxEvent :=
  match o with ObsSent ev => Some ev | _ => None end.
Definition since_of (o : watch_obs) : option (option Z) :=
  match o with ObsStream since => Some since | _ => None end.
Definition pause_of (o : watch_obs) : option Z := match o with ObsPause d => Some d | _ => None end.

(** The time to resume from after a session: its last mapped event's. *)
Definition last_time (since : option Z) (evs : list ContainerEvent) : option Z :=
  foldl (fun o ev => match mapEvent ev with Some _ => Some (ce_Time ev) | None => o end) since evs.

Fixpoint resume_points (since : option Z) (ss : list (session ContainerEvent)) : list (option Z) :=
  match ss with
  | [] => []
  | s :: ss' => since :: resume_points (last_time since (ss_messages s)) ss'
  end.

(** The pauses from a backoff on. *)
Fixpoint pauses (n : nat) (b : Z) : list Z :=
  match n with O => [] | S n' => b :: pauses n' (doubled b) end.

Definition mapped (s : session ContainerEvent) : list SandboxEvent := omap mapEvent (ss_messages s).

Lemma run_read_events evs last st :
  run (@serve_session) (read_events evs last) st =
    (inr (last_time last evs), (st.1, st.2 ++ (ObsSent <$> omap mapEvent evs))).
Proof.
  revert last st. induction evs as [|ev evs IH]; intros last [ss log].
  - simpl. by rewrite app_nil_r.
  - cbn [read_events run trigger bind serve_session]. unfold last_time. cbn [foldl omap list_omap].
    destruct (mapEvent ev) as [sb|] eqn:Hm.
    + cbn [run trigger bind serve_session note fst snd]. rewrite IH. cbn [fst snd].
      unfold note. cbn [fst snd]. by rewrite <- app_assoc.
    + rewrite IH. done.
Qed.

Lemma run_drain errs had st :
  run (@serve_session) (drain_errors errs had) st =
    (match errs with [] => had | _ => true end, st).
Proof.
  revert had. induction errs as [|e errs IH]; intros had; [done|].
  cbn [drain_errors run trigger bind serve_session]. rewrite IH. by destruct errs.
Qed.

(** A turn over the next session. *)
Lemma run_turn last b s ss log :
  run (@serve_session) (watch_turn (last, b)) (s :: ss, log) =
    match ss_errors s with
    | [] => (None, (ss, log ++ ObsStream last :: (ObsSent <$> mapped s)))
    | _ => (Some (last_time last (ss_messages s), doubled b),
            (ss, log ++ ObsStream last :: (ObsSent <$> mapped s) ++ [ObsPause b]))
    end.
Proof.
  unfold watch_turn, processStream. cbn [run trigger bind serve_session head tail default fst snd id].
  rewrite run_bind, run_bind, run_read_events. cbn [fst snd]. rewrite run_bind, run_drain.
  unfold mapped. destruct (ss_errors s) as [|e errs]; cbn [run trigger bind serve_session negb note fst snd].
  - by rewrite <- app_assoc.
  - unfold note. cbn [fst snd]. by rewrite <- !app_assoc.
Qed.

Definition failing (s : session ContainerEvent) : Prop := ss_errors s <> [].

Lemma omap_sent (l : list SandboxEvent) : omap sent_of (ObsSent <$> l) = l.
Proof. induction l as [|x l IH]; [done|]. exact (f_equal (cons x) IH). Qed.

Lemma omap_other {A} (f : watch_obs -> option A) (l : list SandboxEvent) :
  (forall ev, f (ObsSent ev) = None) -> omap f (ObsSent <$> l) = [].
Proof. intros Hf. induction l as [|x l IH]; [done|]. simpl. rewrite Hf. exact IH. Qed.

(** Turns over sessions that fail. *)
Lemma run_turns last b ss rest log : Forall failing ss ->
  let '(r, st) := run (@serve_session) (watch_turns (length ss) (last, b)) (ss ++ rest, log) in
  exists more, r = Some (foldl last_time last (ss_messages <$> ss), Nat.iter (length ss) doubled b) /\
    st = (rest, log ++ more) /\ omap sent_of more = (ss ≫= mapped) /\
    omap since_of more = resume_points last ss /\ omap pause_of more = pauses (length ss) b.
Proof.
  intros Hss. revert last b log. induction Hss as [|s ss Hs Hss IH]; intros last b log.
  { exists []. simpl. by rewrite app_nil_r. }
  cbn [length watch_turns app]. rewrite run_bind, run_turn.
  destruct (ss_errors s) as [|e errs] eqn:He; [done|].
  specialize (IH (last_time last (ss_messages s)) (doubled b)
    (log ++ ObsStream last :: (ObsSent <$> mapped s) ++ [ObsPause b])).
  destruct (run _ _ _) as [r st]. destruct IH as (more & -> & -> & Hsent & Hsince & Hpause).
  exists ((ObsStream last :: (ObsSent <$> mapped s) ++ [ObsPause b]) ++ more). split_and!.
  - cbn [fmap list_fmap foldl length]. by rewrite Nat.iter_succ_r.
  - by rewrite app_assoc.
  - rewrite !omap_app. cbn [omap list_omap sent_of]. rewrite omap_app, omap_sent, Hsent. simpl. by rewrite app_nil_r.
  - rewrite !omap_app. cbn [omap list_omap since_of]. rewrite omap_app, omap_other, Hsince by done. done.
  - rewrite !omap_app. cbn [omap list_omap pause_of]. rewrite omap_app, omap_other, Hpause by done. done.
Qed.

Lemma pauses_bounded n b : baseBackoff <= b <= maxBackoff ->
  Forall (fun d => baseBackoff <= d <= maxBackoff) (pauses n b).
Proof.
  revert b. induction n as [|n IH]; intros b Hb; [done|]. constructor; [done|]. apply IH.
  unfold doubled. destruct (Z.ltb_spec maxBackoff (b * 2)); [done|]. split; [|done].
  assert (0 < baseBackoff) by done. lia.
Qed.

Lemma run_turns_app m n st env :
  run (@serve_session) (watch_turns (m + n) st) env =
    let '(r, env') := run (@serve_session) (watch_turns m st) env in
    match r with None => (None, env') | Some st' => run (@serve_session) (watch_turns n st') env' end.
Proof.
  revert st env. induction m as [|m IH]; intros st env; [done|].
  cbn [Nat.add watch_turns]. rewrite !run_bind. destruct (run _ (watch_turn st) env) as [[st'|] env']; [|done].
  apply IH.
Qed.

(** ** Properties *)

(** Over a source whose streams are closed after an error: the sandbox events
    handed on are the die, oom and start events of forge containers of every
    stream in order (a health_status event is dropped), the first stream is
    asked from the zero time (so for all the daemon remembers) and every later
    one from the time of the last event handed on, and the pauses double from
    one second to at most thirty, whatever was received in between. *)
Theorem watch_resumes ss : Forall failing ss ->
  let '(r, st) := run (@serve_session) (watchLoop (length ss)) (ss, []) in
  is_Some r /\ omap sent_of st.2 = (ss ≫= mapped) /\ omap since_of st.2 = resume_points None ss /\
  omap pause_of st.2 = pauses (length ss) baseBackoff /\
  Forall (fun d => baseBackoff <= d <= maxBackoff) (omap pause_of st.2).
Proof.
  intros Hss. unfold watchLoop. pose proof (run_turns None baseBackoff ss [] [] Hss) as Hr.
  rewrite app_nil_r in Hr. destruct (run _ _ _) as [r st].
  destruct Hr as (more & -> & -> & Hs & Ht & Hp). cbn [snd app]. split_and!; [done..|].
  rewrite Hp. by apply pauses_bounded.
Qed.

Definition demo_die (name action : string) (t : Z) : ContainerEvent :=
  container_event_of (mkMessage "abc" {["name" := name; "exitCode" := "137"]} action t 0).

Lemma watch_resumes_witness :
  let ss := [mkSession [demo_die "forge-app" "die" 5; demo_die "postgres" "die" 6] [OtherError "EOF"];
             mkSession [] [OtherError "refused"];
             mkSession [demo_die "forge-app" "start" 9] [OtherError "EOF"]] in
  let '(r, st) := run (@serve_session) (watchLoop (length ss)) (ss, []) in
  omap sent_of st.2 = [mkSandboxEvent "app" "abc" "container_exited" "137" (5 * nanoseconds) false;
                       mkSandboxEvent "app" "abc" "container_started" "137" (9 * nanoseconds) false] /\
  omap since_of st.2 = [None; Some (5 * nanoseconds); Some (5 * nanoseconds)] /\
  omap pause_of st.2 = [1 * nanoseconds; 2 * nanoseconds; 4 * nanoseconds].
Proof.
  intros ss. pose proof (watch_resumes ss ltac:(by repeat constructor)) as H.
  destruct (run _ _ _) as [r st]. destruct H as (_ & Hs & Ht & Hp & _).
  rewrite Hs, Ht, Hp. vm_compute. split_and!; reflexivity.
Defined.

(** A stream that is closed without an error ends the watcher for good: no
    other stream is opened, however many turns it is given, although the agent
    goes on, and later crashes are not reported. *)
Theorem watch_ends_on_clean_close ss s rest n :
  Forall failing ss -> ss_errors s = [] ->
  let '(r, st) := run (@serve_session) (watchLoop (length ss + S n)) (ss ++ s :: rest, []) in
  r = None /\ st.1 = rest /\ omap sent_of st.2 = ((ss ++ [s]) ≫= mapped).
Proof.
  intros Hss Hs. unfold watchLoop. rewrite run_turns_app.
  pose proof (run_turns None baseBackoff ss (s :: rest) [] Hss) as Hr.
  destruct (run _ _ _) as [r st]. destruct Hr as (more & -> & -> & Hsent & _). cbn [app].
  cbn [watch_turns]. rewrite run_bind, run_turn, Hs. cbn [run fst snd]. split_and!; [done..|].
  rewrite omap_app, Hsent. cbn [omap list_omap sent_of]. rewrite omap_sent.
  rewrite bind_app. simpl. by rewrite app_nil_r.
Qed.

Lemma watch_ends_on_clean_close_witness :
  let '(r, st) := run (@serve_session) (watchLoop 6)
    ([mkSession [] []; mkSession [demo_die "forge-app" "die" 5] []], []) in
  r = None /\ omap sent_of st.2 = [].
Proof.
  pose proof (watch_ends_on_clean_close [] (mkSession [] []) [mkSession [demo_die "forge-app" "die" 5] []] 5
    ltac:(constructor) eq_refl) as H. cbn [length Nat.add app] in H.
  destruct (run _ _ _) as [r st]. destruct H as (Hr & _ & Hs). by split.
Defined.
