(* ===== verification/Pipeline.v ===== *)
(** The goroutines behind the watcher: the one that [EventsStream] starts
    (agent/internal/docker/client.go), [watchLoop] in [processStream]
    (agent/internal/events/watcher.go) and [forwardEvents]
    (agent/internal/agent/agent.go), with the channels between them.  Docker's
    client documents that the end of a stream is an error on its channel of
    errors; nothing closes its channel of messages.  Whatever the interleaving
    of the goroutines, the events get through, and then they stay where they
    are. *)

From S2P Require Import Prelude Json Executor Watcher.

(** ** The goroutines *)

(** The goroutine of [EventsStream]: at the range over the messages, with an
    event to send, at the range over the errors, with an error to send, or
    returned (both its channels closed). *)
Inductive stream_pc :=
| SMessages
| SSend (ev : ContainerEvent)
| SErrors
| SSendError (e : error)
| SReturned.

(** [processStream]: at the range over the events, with a sandbox event to
    send, at the range over the errors, or returned. *)
Inductive process_pc :=
| PEvents
| PSend (sb : SandboxEvent)
| PErrors (hadError : bool)
| PReturned (hadError : bool).

Definition eventChCap : nat := 16.
Definition errChCap : nat := 1.

(** [p_closed]: the channel [Messages] is closed behind the ones it has.
    [p_since] is [*lastEventTime]; the events are sent without a buffer,
    [p_errCh] and [p_out] are the buffers of the other channels, and
    [p_forwarded] is what [forwardEvents] has taken, in order. *)
Record pipe := mkPipe {
  p_messages : list Message;
  p_closed : bool;
  p_errors : list error;
  p_stream : stream_pc;
  p_errCh : list error;
  p_process : process_pc;
  p_since : option Z;
  p_out : list SandboxEvent;
  p_forwarded : list SandboxEvent;
}.

(** A stream just opened: the messages to come and the errors Docker's client
    will put on its channel of errors; [Messages] is not closed. *)
Definition opened (s : session Message) (since : option Z) (out : list SandboxEvent) : pipe :=
  mkPipe (ss_messages s) false (ss_errors s) SMessages [] PEvents since out [].

(** [processStream] with an event: one that is no sandbox event is skipped. *)
Definition process_event (ev : ContainerEvent) (since : option Z) : process_pc * option Z :=
  match mapEvent ev with
  | None => (PEvents, since)
  | Some sb => (PSend sb, Some (ce_Time ev))
  end.

(** One step of one goroutine, or of two that meet at the channel without a
    buffer, while the context is not done. *)
Inductive pipe_step : pipe -> pipe -> Prop :=
| stream_message m ms cl es ec pr t out fw :
    pipe_step (mkPipe (m :: ms) cl es SMessages ec pr t out fw)
              (mkPipe ms cl es (SSend (container_event_of m)) ec pr t out fw)
| event_handed ms cl es ev ec t out fw :
    pipe_step (mkPipe ms cl es (SSend ev) ec PEvents t out fw)
              (mkPipe ms cl es SMessages ec (process_event ev t).1 (process_event ev t).2 out fw)
| event_sent ms cl es st ec sb t out fw :
    (length out < eventChCap)%nat ->
    pipe_step (mkPipe ms cl es st ec (PSend sb) t out fw)
              (mkPipe ms cl es st ec PEvents t (out ++ [sb]) fw)
| event_forwarded ms cl es st ec pr t sb out fw :
    pipe_step (mkPipe ms cl es st ec pr t (sb :: out) fw)
              (mkPipe ms cl es st ec pr t out (fw ++ [sb]))
| stream_messages_end es ec pr t out fw :
    pipe_step (mkPipe [] true es SMessages ec pr t out fw)
              (mkPipe [] true es SErrors ec pr t out fw)
| stream_error ms cl e es ec pr t out fw :
    pipe_step (mkPipe ms cl (e :: es) SErrors ec pr t out fw)
              (mkPipe ms cl es (SSendError e) ec pr t out fw)
| error_sent ms cl es e ec pr t out fw :
    (length ec < errChCap)%nat ->
    pipe_step (mkPipe ms cl es (SSendError e) ec pr t out fw)
              (mkPipe ms cl es SErrors (ec ++ [e]) pr t out fw)
| stream_returns ms cl ec pr t out fw :
    pipe_step (mkPipe ms cl [] SErrors ec pr t out fw)
              (mkPipe ms cl [] SReturned ec pr t out fw)
| process_events_end ms cl es ec t out fw :
    pipe_step (mkPipe ms cl es SReturned ec PEvents t out fw)
              (mkPipe ms cl es SReturned ec (PErrors false) t out fw)
| process_error ms cl es st e ec had t out fw :
    pipe_step (mkPipe ms cl es st (e :: ec) (PErrors had) t out fw)
              (mkPipe ms cl es st ec (PErrors true) t out fw)
| process_returns ms cl es had t out fw :
    pipe_step (mkPipe ms cl es SReturned [] (PErrors had) t out fw)
              (mkPipe ms cl es SReturned [] (PReturned had) t out fw).

(** ** Every step is work done *)

Definition stream_work (st : stream_pc) : nat :=
  match st with SMessages => 2 | SSend _ => 5 | SErrors => 1 | SSendError _ => 3 | SReturned => 0 end.
Definition process_work (pr : process_pc) : nat :=
  match pr with PEvents => 2 | PSend _ => 4 | PErrors _ => 1 | PReturned _ => 0 end.

(** The steps a pipe has left, at most. *)
Definition work (p : pipe) : nat :=
  (4 * length (p_messages p) + 3 * length (p_errors p) + stream_work (p_stream p) + length (p_errCh p) +
   process_work (p_process p) + length (p_out p))%nat.

Lemma step_works p p' : pipe_step p p' -> (work p' < work p)%nat.
Proof.
  destruct 1 as [| | | | | | | | | |]; unfold work; cbn; rewrite ?length_app; cbn; try lia.
  unfold process_event. destruct (mapEvent ev); cbn; lia.
Qed.

Lemma steps_work n p p' : nsteps pipe_step n p p' -> (n + work p' <= work p)%nat.
Proof. induction 1 as [|n p p1 p' Hs _ IH]; [lia|]. apply step_works in Hs. lia. Qed.

(** ** What is on the way *)

(** The events the stream still has, the one in its hands first. *)
Definition coming (p : pipe) : list ContainerEvent :=
  match p_stream p with SSend ev => [ev] | _ => [] end ++ (container_event_of <$> p_messages p).
Definition in_hand (pr : process_pc) : list SandboxEvent :=
  match pr with PSend sb => [sb] | _ => [] end.
Definition errors_left (p : pipe) : list error :=
  match p_stream p with SSendError e => [e] | _ => [] end ++ p_errors p.

(** The goroutines are where the channels let them be. *)
Definition stages (p : pipe) : Prop :=
  match p_stream p with
  | SMessages | SSend _ => p_errCh p = [] /\ (p_process p = PEvents \/ exists sb, p_process p = PSend sb)
  | SErrors | SSendError _ =>
      p_messages p = [] /\ p_closed p = true /\ (p_process p = PEvents \/ exists sb, p_process p = PSend sb)
  | SReturned => p_messages p = [] /\ p_closed p = true /\ p_errors p = [] /\
      match p_process p with PReturned _ => p_errCh p = [] | _ => True end
  end.

(** The pipe of the session [s], opened at [since] with [waiting] in the
    buffer. *)
Record flows (s : session Message) (since : option Z) (waiting : list SandboxEvent) (p : pipe) : Prop := {
  fw_events : p_forwarded p ++ p_out p ++ in_hand (p_process p) ++ omap mapEvent (coming p) =
    waiting ++ mapped (EventsStream s);
  fw_since : last_time (p_since p) (coming p) = last_time since (ss_messages (EventsStream s));
  fw_errors : exists seen, ss_errors s = seen ++ p_errCh p ++ errors_left p /\
    match p_process p with
    | PErrors had | PReturned had => had = match seen with [] => false | _ => true end
    | _ => seen = []
    end;
  fw_stages : stages p;
  fw_bound : (length (p_out p) <= eventChCap)%nat /\ (length (p_errCh p) <= errChCap)%nat;
}.

Lemma opened_flows s since waiting :
  (length waiting <= eventChCap)%nat -> flows s since waiting (opened s since waiting).
Proof.
  intros Hw. split; try done.
  - by exists [].
  - split; [done|by left].
  - split; [done|]. simpl. unfold errChCap. lia.
Qed.

Lemma stages_events p : stages p -> p_stream p <> SReturned ->
  p_process p = PEvents \/ exists sb, p_process p = PSend sb.
Proof. unfold stages. destruct (p_stream p); intuition congruence. Qed.

Lemma mapped_one ev t evs :
  in_hand (process_event ev t).1 ++ omap mapEvent evs = omap mapEvent (ev :: evs) /\
  last_time (process_event ev t).2 evs = last_time t (ev :: evs).
Proof. unfold process_event, last_time. simpl. by destruct (mapEvent ev). Qed.

Lemma step_events p p' all : pipe_step p p' ->
  p_forwarded p ++ p_out p ++ in_hand (p_process p) ++ omap mapEvent (coming p) = all ->
  p_forwarded p' ++ p_out p' ++ in_hand (p_process p') ++ omap mapEvent (coming p') = all.
Proof.
  intros Hs <-. destruct Hs; unfold coming; cbn; rewrite <- ?app_assoc; try done.
  by rewrite (proj1 (mapped_one ev t _)).
Qed.

Lemma step_since p p' : pipe_step p p' -> last_time (p_since p') (coming p') = last_time (p_since p) (coming p).
Proof.
  destruct 1; unfold coming; cbn; try done. apply (proj2 (mapped_one ev t _)).
Qed.

Lemma step_errors p p' errs : pipe_step p p' -> stages p ->
  let seen_by p := exists seen, errs = seen ++ p_errCh p ++ errors_left p /\
    match p_process p with
    | PErrors had | PReturned had => had = match seen with [] => false | _ => true end
    | _ => seen = []
    end in seen_by p -> seen_by p'.
Proof.
  intros Hs Hst. cbv zeta. destruct Hs; unfold errors_left; cbn; intros (seen & He & Hseen); try by exists seen.
  - exists seen. split; [done|]. unfold process_event. by destruct (mapEvent ev).
  - exists seen. by rewrite <- (app_assoc ec).
  - exists seen. subst seen. done.
  - exists (seen ++ [e]). rewrite <- app_assoc. split; [done|]. by destruct seen.
Qed.

Lemma step_stages p p' : pipe_step p p' -> stages p -> stages p'.
Proof.
  destruct 1 as [| |ms cl es st| ms cl es st| | | | | |ms cl es st|]; unfold stages, process_event; cbn;
    try destruct st; try destruct (mapEvent ev); cbn; naive_solver.
Qed.

Lemma step_flows s since waiting p p' : pipe_step p p' -> flows s since waiting p -> flows s since waiting p'.
Proof.
  intros Hs [He Ht Her Hst [Ho Hc]]. split.
  - by eapply step_events.
  - rewrite <- Ht. by apply step_since.
  - by eapply step_errors.
  - by eapply step_stages.
  - destruct Hs; cbn in *; rewrite ?length_app in *; cbn in *; lia.
Qed.

Lemma steps_flow s since waiting p p' :
  rtc pipe_step p p' -> flows s since waiting p -> flows s since waiting p'.
Proof. induction 1 as [|p p1 p' Hs _ IH]; [done|]. intros Hf. eapply IH, step_flows; [exact Hs|exact Hf]. Qed.

Lemma steps_closed p p' : rtc pipe_step p p' -> p_closed p' = p_closed p.
Proof. induction 1 as [|p p1 p' Hs _ IH]; [done|]. rewrite IH. by destruct Hs. Qed.

(** ** Rest *)

(** Everything that came was forwarded; the goroutines are at their loops. *)
Definition at_rest (p : pipe) : Prop :=
  p_messages p = [] /\ p_stream p = SMessages /\ p_process p = PEvents /\ p_out p = [].

(** As long as there is an event on the way somebody can go on. *)
Lemma flows_progress s since waiting p :
  flows s since waiting p -> p_closed p = false -> (exists p', pipe_step p p') \/ at_rest p.
Proof.
  intros [_ _ _ Hst _] Hcl. unfold at_rest, stages in *.
  destruct p as [ms cl es st ec pr t out fw]; cbn in *. subst cl.
  destruct out as [|sb out]; [|left; eexists; apply event_forwarded].
  destruct pr as [|sb|had|had].
  - destruct st as [|ev| |e|]; [|left; eexists; apply event_handed|naive_solver..].
    destruct ms; [by right|left; eexists; apply stream_message].
  - left; eexists; apply event_sent; unfold eventChCap; simpl; lia.
  - destruct st; naive_solver.
  - destruct st; naive_solver.
Qed.

(** At rest nothing can happen any more. *)
Lemma at_rest_stuck p p' : at_rest p -> p_closed p = false -> ~ pipe_step p p'.
Proof.
  intros (Hm & Hst & Hp & Ho) Hcl Hs. destruct Hs; simpl in *; congruence.
Qed.

(** What is left then. *)
Lemma at_rest_flows s since waiting p :
  flows s since waiting p -> at_rest p ->
  p_forwarded p = waiting ++ mapped (EventsStream s) /\
  p_since p = last_time since (ss_messages (EventsStream s)).
Proof.
  intros [He Ht _ _ _] (Hm & Hst & Hp & Ho). unfold coming in *.
  rewrite Hm, Hst, Hp, Ho in *. simpl in *. by rewrite app_nil_r in He.
Qed.

(** A channel that stays open keeps the goroutines where they read from it. *)
Lemma open_waits s since waiting p :
  flows s since waiting p -> p_closed p = false ->
  (p_process p = PEvents \/ exists sb, p_process p = PSend sb) /\ p_errCh p = [] /\ p_errors p = ss_errors s.
Proof.
  intros [_ _ (seen & He & Hseen) Hst _] Hcl. unfold stages, errors_left in *.
  destruct (p_stream p); try (destruct Hst as (_ & Ht & _); congruence); destruct Hst as [Hec Hp]; rewrite Hec in He;
    (split; [done|split; [done|]]); destruct Hp as [Hp|[sb Hp]]; rewrite Hp in Hseen; by subst seen.
Qed.

(** ** Properties *)

(** C37: The goroutines deliver every event and then wait for ever: however they
    interleave, the number of steps is bounded by the messages; at any time what
    was forwarded is a prefix of what the messages map to, at most sixteen
    events wait, the watcher is in its loop over the events, and the error that
    Docker's client reports at the end of the stream has not been read.  They
    come to rest only when every event was forwarded, once and in order, and
    they always do; then nothing can happen any more, so a watcher whose stream
    ended with an error does not reconnect. *)
Theorem pipeline_delivers s since waiting :
  (length waiting <= eventChCap)%nat ->
  let start := opened s since waiting in
  (forall n p, nsteps pipe_step n start p ->
     (n <= 4 * length (ss_messages s) + 3 * length (ss_errors s) + length waiting + 4)%nat) /\
  (forall p, rtc pipe_step start p ->
     p_forwarded p `prefix_of` waiting ++ mapped (EventsStream s) /\
     (length (p_out p) <= eventChCap)%nat /\
     (p_process p = PEvents \/ exists sb, p_process p = PSend sb) /\
     p_errCh p = [] /\ p_errors p = ss_errors s /\
     ((exists p', pipe_step p p') \/
      at_rest p /\ (forall p', ~ pipe_step p p') /\
      p_forwarded p = waiting ++ mapped (EventsStream s) /\
      p_since p = last_time since (ss_messages (EventsStream s)))).
Proof.
  intros Hw start. split.
  - intros n p Hn%steps_work. unfold work, start in Hn. simpl in Hn. lia.
  - intros p Hp. pose proof (steps_flow s since waiting _ _ Hp (opened_flows s since waiting Hw)) as Hf.
    assert (p_closed p = false) as Hcl by by rewrite (steps_closed _ _ Hp).
    destruct (open_waits s since waiting p Hf Hcl) as (Hpr & Hec & Hes).
    split_and!; [by eexists; symmetry; apply Hf|apply Hf|done..|].
    destruct (flows_progress s since waiting p Hf Hcl) as [Hs|Hrest]; [by left|right].
    destruct (at_rest_flows s since waiting p Hf Hrest) as [H1 H2].
    split_and!; [done| |done|done]. intros p'. by apply at_rest_stuck.
Qed.

(** A crash and an event of another container, then the end of the stream. *)
Definition demo_session : session Message :=
  mkSession [mkMessage "abc" {["name" := "forge-app"; "exitCode" := "137"]} "die" 5 0;
             mkMessage "def" {["name" := "postgres"; "exitCode" := "1"]} "die" 6 0] [OtherError "EOF"].

Definition demo_end : pipe :=
  mkPipe [] false [OtherError "EOF"] SMessages [] PEvents (Some (5 * nanoseconds)) []
    [mkSandboxEvent "app" "abc" "container_exited" "137" (5 * nanoseconds) false].

Lemma demo_ends : rtc pipe_step (opened demo_session None []) demo_end.
Proof.
  eapply rtc_l; [apply stream_message|]. eapply rtc_l; [apply event_handed|].
  eapply rtc_l; [apply stream_message|]. eapply rtc_l; [apply event_sent; vm_compute; lia|].
  eapply rtc_l; [apply event_handed|]. eapply rtc_l; [apply event_forwarded|]. apply rtc_refl.
Qed.

(** The crash gets through; the error stays unread. *)
Lemma pipeline_delivers_witness :
  p_forwarded demo_end = mapped (EventsStream demo_session) /\
  p_errors demo_end = [OtherError "EOF"] /\ (forall p', ~ pipe_step demo_end p').
Proof.
  destruct (pipeline_delivers demo_session None [] (Nat.le_0_l _)) as [_ Hd].
  destruct (Hd demo_end demo_ends) as (_ & _ & _ & _ & He & [[p' Hs]|(_ & Hno & Hf & _)]); [inversion Hs|].
  split; [exact Hf|]. split; [exact He|exact Hno].
Defined.
