(* ===== verification/Paths.v ===== *)
(** Slash-separated paths as Go's [strings.Split] and [path/filepath] (on Unix)
    treat them: [Clean], [Join], [Dir]. *)

From S2P Require Import Prelude.

Definition slash : Ascii.ascii := Ascii.ascii_of_nat 47.

(** [strings.Split(s, "/")] *)
Fixpoint split_slash (s : string) : list string :=
  match s with
  | EmptyString => [""]
  | String a s' =>
      let parts := split_slash s' in
      if Ascii.eqb a slash then "" :: parts
      else match parts with
           | p :: ps => String a p :: ps
           | [] => [String a ""]
           end
  end.

(** [strings.Join(parts, "/")] *)
Definition join_slash (parts : list string) : string := String.concat "/" parts.

Definition IsAbs (p : string) : bool := HasPrefix p "/".

(** One element of the path: nothing for an empty element or a dot, ".." takes
    the element before it away, stays if there is none, and is dropped at the
    root.  The elements kept are stacked. *)
Definition clean_step (rooted : bool) (out : list string) (part : string) : list string :=
  if decide (part = "" \/ part = ".") then out
  else if decide (part = "..")
  then match out with
       | top :: rest => if decide (top = "..") then ".." :: out else rest
       | [] => if rooted then [] else [".."]
       end
  else part :: out.

Definition clean_parts (rooted : bool) (out parts : list string) : list string :=
  foldl (clean_step rooted) out parts.

(** [filepath.Clean] *)
Definition Clean (p : string) : string :=
  let parts := rev (clean_parts (IsAbs p) [] (split_slash p)) in
  if IsAbs p then "/" +:+ join_slash parts
  else match parts with [] => "." | _ => join_slash parts end.

(** [filepath.Join] of two elements: empty ones are skipped. *)
Definition Join (a b : string) : string :=
  if negb (String.eqb a "") then Clean (a +:+ "/" +:+ b)
  else if negb (String.eqb b "") then Clean b
  else "".

(** [filepath.Dir]: everything up to the last slash, cleaned. *)
Definition Dir (p : string) : string :=
  match removelast (split_slash p) with
  | [] => Clean ""
  | parts => Clean (join_slash parts +:+ "/")
  end.

(** ** Elements *)

Fixpoint no_slash (s : string) : bool :=
  match s with
  | EmptyString => true
  | String a s' => negb (Ascii.eqb a slash) && no_slash s'
  end.

(** A proper element of a path. *)
Record element (s : string) : Prop := mk_element {
  el_slash : no_slash s = true;
  el_empty : s <> "";
  el_dot : s <> ".";
  el_dotdot : s <> "..";
}.

Lemma split_slash_nonempty s : split_slash s <> [].
Proof. destruct s; simpl; [done|]. destruct (Ascii.eqb _ _); [done|]. by destruct (split_slash s). Qed.

Lemma split_no_slash s : Forall (fun p => no_slash p = true) (split_slash s).
Proof.
  induction s as [|a s IH]; simpl; [by repeat constructor|].
  destruct (Ascii.eqb a slash) eqn:Ha; [by constructor|].
  destruct (split_slash s) as [|p ps]; [repeat constructor; simpl; by rewrite Ha|].
  inversion IH; subst. constructor; [|done]. simpl. by rewrite Ha.
Qed.

Lemma split_element s : no_slash s = true -> split_slash s = [s].
Proof.
  induction s as [|a s IH]; simpl; [done|]. destruct (Ascii.eqb a slash); [done|].
  simpl. intros Hs. by rewrite IH.
Qed.

Lemma split_app s t : no_slash s = true -> split_slash (s +:+ "/" +:+ t) = s :: split_slash t.
Proof.
  induction s as [|a s IH]; simpl; [done|]. destruct (Ascii.eqb a slash); [done|].
  simpl. intros Hs. rewrite IH; [done|done].
Qed.

(** Splitting a path made of elements without slashes, followed by more. *)
Lemma split_join_app l t :
  Forall (fun p => no_slash p = true) l -> l <> [] ->
  split_slash (join_slash l +:+ "/" +:+ t) = l ++ split_slash t.
Proof.
  unfold join_slash. induction l as [|p l IH]; intros Hl Hne; [done|].
  inversion Hl; subst. destruct l as [|q l]; [by apply split_app|].
  cbn [String.concat]. rewrite <- !string_app_assoc. rewrite split_app by done.
  simpl. f_equal. by apply IH.
Qed.

Lemma split_join l :
  Forall (fun p => no_slash p = true) l -> l <> [] -> split_slash (join_slash l) = l.
Proof.
  unfold join_slash. induction l as [|p l IH]; intros Hl Hne; [done|].
  inversion Hl; subst. destruct l as [|q l]; [by apply split_element|].
  change (String.concat "/" (p :: q :: l)) with (p +:+ "/" +:+ String.concat "/" (q :: l)).
  rewrite split_app by done. by rewrite IH.
Qed.

(** ** Cleaning *)

Lemma clean_step_element rooted out p : element p -> clean_step rooted out p = p :: out.
Proof.
  intros []. unfold clean_step. rewrite decide_False by naive_solver. by rewrite decide_False.
Qed.

Lemma clean_elements rooted out l : Forall element l -> clean_parts rooted out l = rev l ++ out.
Proof.
  unfold clean_parts. revert out. induction l as [|p l IH]; intros out Hl; simpl; [done|].
  inversion Hl; subst. rewrite clean_step_element by done. rewrite IH by done.
  by rewrite <- app_assoc.
Qed.

(** A ".." that could not be resolved stays. *)
Lemma clean_keeps_dotdot out l : ".." ∈ out -> ".." ∈ clean_parts false out l.
Proof.
  unfold clean_parts. revert out. induction l as [|p l IH]; intros out Hin; simpl; [done|].
  apply IH. unfold clean_step. repeat case_decide; [done| |by right].
  destruct out as [|top out]; [by apply not_elem_of_nil in Hin|].
  case_decide; [by left|]. by apply elem_of_cons in Hin as [?|?].
Qed.

(** Below a stack of proper elements, a relative path that cleans without a
    ".." leaves the stack alone: it never climbs into it. *)
Lemma clean_above base out l :
  ".." ∉ clean_parts false out l ->
  clean_parts true (out ++ base) l = clean_parts false out l ++ base.
Proof.
  unfold clean_parts. revert out. induction l as [|p l IH]; intros out Hno; simpl in *; [done|].
  assert (".." ∉ out) as Hout.
  { intros Hin. apply Hno. change (".." ∈ clean_parts false (clean_step false out p) l).
    apply clean_keeps_dotdot. unfold clean_step. repeat case_decide; [done| |by right].
    destruct out as [|top out]; [by apply not_elem_of_nil in Hin|].
    case_decide; [by left|]. by apply elem_of_cons in Hin as [?|?]. }
  rewrite <- IH by done. f_equal. unfold clean_step. repeat case_decide; try done.
  destruct out as [|top out]; simpl.
  - exfalso. apply Hno. change (".." ∈ clean_parts false (clean_step false [] p) l).
    apply clean_keeps_dotdot. unfold clean_step.
    rewrite decide_False by done. rewrite decide_True by done. by left.
  - case_decide; [|done]. subst. exfalso. apply Hout. by left.
Qed.

(** What is left of a relative path without ".." is made of proper elements. *)
Lemma clean_parts_elements rooted out l :
  Forall (fun p => no_slash p = true) l -> ".." ∉ clean_parts rooted out l ->
  Forall (fun p => element p \/ p = "..") out -> Forall element (clean_parts rooted out l).
Proof.
  unfold clean_parts. revert out. induction l as [|p l IH]; intros out Hl Hno Hout; simpl in *.
  - rewrite Forall_forall in Hout |- *. intros q Hq. destruct (Hout q Hq) as [He | ->]; done.
  - inversion Hl; subst. apply IH; [done|done|]. unfold clean_step.
    repeat case_decide; [done|..].
    + destruct out as [|top out]; [destruct rooted; repeat constructor; by right|].
      inversion Hout; subst. case_decide; [|done]. constructor; [by right|done].
    + constructor; [|done]. left. split; naive_solver.
Qed.

Lemma clean_parts_no_slash rooted out l :
  Forall (fun p => no_slash p = true) out -> Forall (fun p => no_slash p = true) l ->
  Forall (fun p => no_slash p = true) (clean_parts rooted out l).
Proof.
  unfold clean_parts. revert out. induction l as [|p l IH]; intros out Hout Hl; simpl; [done|].
  inversion Hl; subst. apply IH; [|done]. unfold clean_step. repeat case_decide; [done| |by constructor].
  destruct out as [|top out]; [destruct rooted; by repeat constructor|].
  inversion Hout; subst. case_decide; [by constructor|done].
Qed.

(** ** Paths below a directory *)

(** The elements a relative path cleans to. *)
Definition relative (p : string) : list string := rev (clean_parts false [] (split_slash p)).

(** [dir] is the clean absolute path of the elements [ds]. *)
Record clean_dir (ds : list string) (dir : string) : Prop := mk_clean_dir {
  cd_elements : Forall element ds;
  cd_nonempty : ds <> [];
  cd_path : dir = "/" +:+ join_slash ds;
}.

Definition below (dir : string) (l : list string) : string :=
  match l with [] => dir | _ => dir +:+ "/" +:+ join_slash l end.

Lemma elements_no_slash l : Forall element l -> Forall (fun p => no_slash p = true) l.
Proof. intros Hl. eapply Forall_impl; [exact Hl|]. by intros p []. Qed.

Lemma join_slash_app l l' :
  l <> [] -> l' <> [] -> join_slash (l ++ l') = join_slash l +:+ "/" +:+ join_slash l'.
Proof.
  unfold join_slash. induction l as [|p l IH]; intros Hl Hl'; [done|].
  destruct l as [|q l]; [by destruct l'|].
  change (String.concat "/" ((p :: q :: l) ++ l')) with
    (p +:+ "/" +:+ String.concat "/" ((q :: l) ++ l')).
  change (String.concat "/" (p :: q :: l)) with (p +:+ "/" +:+ String.concat "/" (q :: l)).
  rewrite IH by done. by rewrite <- !string_app_assoc.
Qed.

Lemma below_path ds dir l :
  clean_dir ds dir -> below dir l = "/" +:+ join_slash (ds ++ l).
Proof.
  intros [_ Hne ->]. destruct l as [|p l]; [by rewrite app_nil_r|].
  unfold below. rewrite (join_slash_app ds) by done. by rewrite <- !string_app_assoc.
Qed.

(** Cleaning an absolute path: its proper elements, then whatever follows. *)
Lemma Clean_below ds t :
  Forall element ds -> ds <> [] -> ".." ∉ clean_parts false [] (split_slash t) ->
  Clean ("/" +:+ join_slash ds +:+ "/" +:+ t) = "/" +:+ join_slash (ds ++ relative t).
Proof.
  intros Hds Hne Ht. unfold Clean.
  assert (IsAbs ("/" +:+ join_slash ds +:+ "/" +:+ t) = true) as ->.
  { unfold IsAbs, HasPrefix. cbn. by destruct (join_slash ds +:+ "/" +:+ t). }
  change (split_slash ("/" +:+ join_slash ds +:+ "/" +:+ t)) with
    ("" :: split_slash (join_slash ds +:+ "/" +:+ t)).
  rewrite split_join_app by (done || by apply elements_no_slash).
  change (clean_parts true [] ("" :: ds ++ split_slash t)) with
    (clean_parts true [] (ds ++ split_slash t)).
  unfold clean_parts. rewrite foldl_app. fold (clean_parts true [] ds).
  rewrite clean_elements by done. rewrite app_nil_r.
  pose proof (clean_above (rev ds) [] (split_slash t) Ht) as Hab. unfold clean_parts in Hab.
  simpl in Hab. rewrite Hab, rev_app_distr, rev_involutive. done.
Qed.

(** [Dir] of a path strictly below a directory is at or below it. *)
Lemma Dir_below ds dir l p :
  clean_dir ds dir -> Forall element (l ++ [p]) -> Dir (below dir (l ++ [p])) = below dir l.
Proof.
  intros Hdir Hl. rewrite !(below_path ds dir) by done.
  destruct Hdir as [Hds Hne _]. unfold Dir.
  assert (Forall element (ds ++ l ++ [p])) as Hall by by apply Forall_app.
  change (split_slash ("/" +:+ join_slash (ds ++ l ++ [p]))) with
    ("" :: split_slash (join_slash (ds ++ l ++ [p]))).
  rewrite split_join; [|by apply elements_no_slash|by destruct ds].
  rewrite app_assoc. change ("" :: (ds ++ l) ++ [p]) with (("" :: ds ++ l) ++ [p]).
  rewrite removelast_last.
  assert (join_slash ("" :: ds ++ l) +:+ "/" = "/" +:+ join_slash (ds ++ l) +:+ "/" +:+ "") as ->.
  { destruct ds as [|d ds]; [done|]. unfold join_slash.
    change (String.concat "/" ("" :: (d :: ds) ++ l)) with
      ("" +:+ "/" +:+ String.concat "/" ((d :: ds) ++ l)).
    by rewrite <- !string_app_assoc. }
  rewrite (Clean_below (ds ++ l) ""); [by rewrite app_nil_r| |by destruct ds|].
  - rewrite Forall_app in Hall |- *. rewrite Forall_app in Hall. naive_solver.
  - vm_compute. intros H. inversion H.
Qed.
