(* ===== verification/FilePush.v ===== *)
(** The agent's file push, agent/internal/filepush: which paths are accepted,
    and what [WriteFiles] and [WriteTar] do to the file system.  The tar reader
    is the sequence of headers and bodies it yields. *)

From S2P Require Import Prelude Paths.

(** ** writer.go: data *)

Record FileEntry := mkEntry {
  fe_Path : string;
  fe_Content : string;   (* base64 *)
  fe_Delete : bool;
}.

Record WriteResult := mkWriteResult {
  wr_Written : list string;
  wr_Failed : list string;
}.

Definition no_result : WriteResult := mkWriteResult [] [].
Definition written (r : WriteResult) (p : string) : WriteResult :=
  mkWriteResult (wr_Written r ++ [p]) (wr_Failed r).
Definition failed (r : WriteResult) (p : string) : WriteResult :=
  mkWriteResult (wr_Written r) (wr_Failed r ++ [p]).

Definition protectedFiles : list string :=
  ["metro.config.js"; "metro.config.ts"; "metro.config.cjs"; "metro.config.mjs"].

Definition isValidPath (p : string) : bool :=
  if String.eqb p "" then false
  else if IsAbs p then false
  else if bool_decide (".." ∈ split_slash (Clean p)) then false
  else if bool_decide (Clean p ∈ protectedFiles) then false
  else true.

(** ** base64.StdEncoding *)

(** The value of a digit of the standard alphabet. *)
Definition base64_digit (a : Ascii.ascii) : option Z :=
  let n := Z.of_nat (Ascii.nat_of_ascii a) in
  if (65 <=? n) && (n <=? 90) then Some (n - 65)
  else if (97 <=? n) && (n <=? 122) then Some (n - 71)
  else if (48 <=? n) && (n <=? 57) then Some (n + 4)
  else if n =? 43 then Some 62
  else if n =? 47 then Some 63
  else None.

Definition byte (z : Z) : Ascii.ascii := Ascii.ascii_of_nat (Z.to_nat (z mod 256)).

(** Line breaks are skipped wherever they are. *)
Definition no_newlines (s : string) : list Ascii.ascii :=
  filter (fun a => a <> Ascii.ascii_of_nat 10 /\ a <> Ascii.ascii_of_nat 13)
    (String.list_ascii_of_string s).

Definition is_pad (a : Ascii.ascii) : bool := Ascii.eqb a (Ascii.ascii_of_nat 61).

(** Groups of four digits; the last one may end in one or two paddings. *)
Fixpoint base64_groups (l : list Ascii.ascii) : option string :=
  match l with
  | [] => Some ""
  | a :: b :: c :: d :: rest =>
      x ← base64_digit a; y ← base64_digit b;
      let first := byte (Z.lor (Z.shiftl x 2) (Z.shiftr y 4)) in
      if is_pad c && is_pad d
      then if decide (rest = []) then Some (String first "") else None
      else
        z ← base64_digit c;
        let second := byte (Z.lor (Z.shiftl y 4) (Z.shiftr z 2)) in
        if is_pad d
        then if decide (rest = []) then Some (String first (String second "")) else None
        else
          t ← base64_digit d;
          let third := byte (Z.lor (Z.shiftl z 6) t) in
          more ← base64_groups rest;
          Some (String first (String second (String third more)))
  | _ => None
  end.

(** [base64.StdEncoding.DecodeString], [None] for an error. *)
Definition base64_decode (s : string) : option string := base64_groups (no_newlines s).

(** ** Effects *)

Inductive fileE : Type -> Type :=
| FRemove (path : string) : fileE (result unit)
| FMkdirAll (dir : string) : fileE (result unit)
| FWriteFile (path data : string) : fileE (result unit)
| FCreate (path : string) : fileE (result unit)
| FCopy (path data : string) : fileE (result unit).

(** ** WriteFiles *)

Definition write_file (codeDir : string) (r : WriteResult) (f : FileEntry)
  : prog fileE WriteResult :=
  if negb (isValidPath (fe_Path f)) then Ret (failed r (fe_Path f))
  else
    let fullPath := Join codeDir (fe_Path f) in
    if fe_Delete f
    then e <- trigger (FRemove fullPath) ;;
         Ret (if is_ok e then written r (fe_Path f) else failed r (fe_Path f))
    else
      match base64_decode (fe_Content f) with
      | None => Ret (failed r (fe_Path f))
      | Some data =>
          d <- trigger (FMkdirAll (Dir fullPath)) ;;
          if negb (is_ok d) then Ret (failed r (fe_Path f))
          else
            e <- trigger (FWriteFile fullPath data) ;;
            Ret (if is_ok e then written r (fe_Path f) else failed r (fe_Path f))
      end.

Definition WriteFiles (codeDir : string) (files : list FileEntry) : prog fileE WriteResult :=
  range (write_file codeDir) files no_result.

(** ** WriteTar *)

Record tar_entry := mkTarEntry {
  te_Name : string;
  te_Regular : bool;     (* Typeflag == TypeReg *)
  te_Body : string;
}.

(** What the gzip and tar readers yield: an error at once, or entries up to the
    end of the archive or an error. *)
Record tar_stream := mkTarStream {
  ts_gzip : option error;
  ts_entries : list tar_entry;
  ts_end : option error;
}.

Definition extract_entry (codeDir : string) (r : WriteResult) (hdr : tar_entry)
  : prog fileE WriteResult :=
  if negb (te_Regular hdr) then Ret r
  else
    let name := Clean (te_Name hdr) in
    if negb (isValidPath name) then Ret (failed r name)
    else
      let fullPath := Join codeDir name in
      d <- trigger (FMkdirAll (Dir fullPath)) ;;
      if negb (is_ok d) then Ret (failed r name)
      else
        f <- trigger (FCreate fullPath) ;;
        if negb (is_ok f) then Ret (failed r name)
        else
          c <- trigger (FCopy fullPath (te_Body hdr)) ;;
          Ret (if is_ok c then written r name else failed r name).

Definition WriteTar (codeDir : string) (s : tar_stream)
  : prog fileE (WriteResult * option error) :=
  match ts_gzip s with
  | Some e => Ret (no_result, Some (Wrap "opening gzip reader" e))
  | None =>
      r <- range (extract_entry codeDir) (ts_entries s) no_result ;;
      Ret (r, Wrap "reading tar entry" <$> ts_end s)
  end.

(** ** handler.go *)

(** [extractSandboxID] *)
Definition extractSandboxID (path : string) : string :=
  match split_slash (TrimPrefix path "/") with
  | p0 :: p1 :: p2 :: p3 :: _ =>
      if String.eqb p0 "v1" && String.eqb p1 "sandboxes" && String.eqb p3 "files" then p2 else ""
  | _ => ""
  end.

(** ** Where the writes go *)

(** A file or directory at or below [dir] that is not a protected file. *)
Definition target (dir p : string) : Prop :=
  exists l, Forall element l /\ p = below dir l /\ join_slash l ∉ protectedFiles.

(** The only directory outside that is made is the parent of [dir]. *)
Definition confined (dir : string) : forall X, fileE X -> Prop := fun X e =>
  match e with
  | FMkdirAll d => (exists l, Forall element l /\ d = below dir l) \/ d = Dir dir
  | FRemove p | FWriteFile p _ | FCreate p | FCopy p _ => target dir p
  end.

Lemma Clean_relative p :
  IsAbs p = false -> Clean p = match relative p with [] => "." | l => join_slash l end.
Proof. intros Hp. unfold Clean, relative. rewrite Hp. by destruct (rev _). Qed.

Lemma isValidPath_facts p :
  isValidPath p = true ->
  IsAbs p = false /\ (".." ∉ clean_parts false [] (split_slash p)) /\ Clean p ∉ protectedFiles.
Proof.
  unfold isValidPath. destruct (String.eqb p ""); [done|]. destruct (IsAbs p) eqn:Habs; [done|].
  case_bool_decide as Hdots; [done|]. case_bool_decide as Hprot; [done|]. intros _.
  split; [done|]. split; [|done]. intros Hin. apply Hdots. rewrite Clean_relative by done.
  assert (".." ∈ relative p) as Hrel by (unfold relative; by rewrite list_elem_of_In, <- in_rev, <- list_elem_of_In).
  destruct (relative p) as [|q l] eqn:Hq; [by apply not_elem_of_nil in Hrel|]. rewrite <- Hq in *.
  rewrite split_join; [done| |by rewrite Hq]. unfold relative. apply Forall_rev.
  apply clean_parts_no_slash; [done|apply split_no_slash].
Qed.

Lemma valid_target ds dir p :
  clean_dir ds dir -> isValidPath p = true ->
  Join dir p = below dir (relative p) /\ Forall element (relative p) /\ target dir (Join dir p).
Proof.
  intros Hdir (Habs & Hdots & Hprot)%isValidPath_facts.
  assert (Forall element (relative p)) as Hel.
  { apply Forall_rev, clean_parts_elements; [apply split_no_slash|done|done]. }
  assert (Join dir p = below dir (relative p)) as Hjoin.
  { rewrite (below_path ds) by done. destruct Hdir as [Hds Hne ->]. unfold Join.
    rewrite <- string_app_assoc. by apply Clean_below. }
  split; [done|]. split; [done|]. exists (relative p). split; [done|]. split; [done|].
  rewrite Clean_relative in Hprot by done. destruct (relative p); [|done].
  unfold protectedFiles. set_solver.
Qed.

Lemma Dir_target ds dir p :
  clean_dir ds dir -> isValidPath p = true ->
  (exists l, Forall element l /\ Dir (Join dir p) = below dir l) \/ Dir (Join dir p) = Dir dir.
Proof.
  intros Hdir Hp. destruct (valid_target ds dir p Hdir Hp) as (-> & Hel & _).
  destruct (relative p) as [|q l _] using rev_ind; [by right|]. left.
  exists l. split; [by apply Forall_app in Hel as [? _]|]. by apply (Dir_below ds).
Qed.

(** ** What the result lists *)

(** The path an effect removed or wrote in full. *)
Definition done_path {X} (e : fileE X) : X -> option string :=
  match e in fileE X return X -> option string with
  | FRemove p => fun r => if is_ok r then Some p else None
  | FMkdirAll _ => fun _ => None
  | FWriteFile p _ => fun r => if is_ok r then Some p else None
  | FCreate _ => fun _ => None
  | FCopy p _ => fun r => if is_ok r then Some p else None
  end.

(** The result grows by the paths [ok], done in this order, and [bad]. *)
Definition reported (dir : string) (paths : list string) (r : WriteResult)
    (t : list (option string)) (r' : WriteResult) : Prop :=
  exists ok bad, wr_Written r' = wr_Written r ++ ok /\ wr_Failed r' = wr_Failed r ++ bad /\
    ok ++ bad ≡ₚ paths /\ omap id t = Join dir <$> ok /\
    Forall (fun p => isValidPath p = true) ok.

Lemma reported_bad dir r p t :
  omap id t = [] -> reported dir [p] r t (failed r p).
Proof. intros Ht. exists [], [p]. rewrite app_nil_r. by repeat split. Qed.

Lemma reported_ok dir r p t :
  isValidPath p = true -> omap id t = [Join dir p] -> reported dir [p] r t (written r p).
Proof. intros Hp Ht. exists [p], [].
  split_and!; simpl; rewrite ?app_nil_r, ?Ht; auto.
Qed.

Lemma reported_app dir ps ps' r t r1 t' r2 :
  reported dir ps r t r1 -> reported dir ps' r1 t' r2 -> reported dir (ps ++ ps') r (t ++ t') r2.
Proof.
  intros (ok & bad & Hw & Hf & Hp & Ht & Hv) (ok' & bad' & Hw' & Hf' & Hp' & Ht' & Hv').
  exists (ok ++ ok'), (bad ++ bad'). rewrite Hw', Hw, Hf', Hf, !app_assoc.
  split; [done|]. split; [done|]. split.
  - rewrite <- Hp, <- Hp', <- !app_assoc. f_equiv. rewrite !app_assoc. f_equiv. apply Permutation_app_comm.
  - rewrite omap_app, fmap_app, Ht, Ht'. split; [done|]. by apply Forall_app.
Qed.

Lemma write_file_reported dir r f :
  behaves (@done_path) (write_file dir r f) (fun t r' => reported dir [fe_Path f] r t r').
Proof.
  unfold write_file. destruct (isValidPath (fe_Path f)) eqn:Hp; [|by apply reported_bad].
  cbn [negb]. destruct (fe_Delete f).
  - intros [[]|e]; [by apply reported_ok|by apply reported_bad].
  - destruct (base64_decode _) as [data|]; [|by apply reported_bad].
    intros [[]|e]; [|by apply reported_bad].
    intros [[]|e]; [by apply reported_ok|by apply reported_bad].
Qed.

Lemma extract_reported dir r hdr :
  behaves (@done_path) (extract_entry dir r hdr)
    (fun t r' => reported dir (if te_Regular hdr then [Clean (te_Name hdr)] else []) r t r').
Proof.
  unfold extract_entry. destruct (te_Regular hdr); cbn [negb].
  - destruct (isValidPath (Clean (te_Name hdr))) eqn:Hp; [|by apply reported_bad].
    intros [[]|e]; [|by apply reported_bad]. intros [[]|e]; [|by apply reported_bad].
    intros [[]|e]; [by apply reported_ok|by apply reported_bad].
  - exists [], []. by rewrite !app_nil_r.
Qed.

(** A loop whose body reports one item reports the items. *)
Lemma range_reported {A} dir (body : WriteResult -> A -> prog fileE WriteResult)
    (paths : A -> list string) l r :
  (forall r x, behaves (@done_path) (body r x) (fun t r' => reported dir (paths x) r t r')) ->
  behaves (@done_path) (range body l r) (fun t r' => reported dir (concat (paths <$> l)) r t r').
Proof.
  intros Hbody. revert r. induction l as [|x l IH]; intros r; simpl.
  - exists [], []. by rewrite !app_nil_r.
  - apply behaves_bind. eapply behaves_mono, Hbody. intros t r1 H1.
    eapply behaves_mono, IH. intros t' r2 H2. by eapply reported_app.
Qed.

Lemma concat_singletons {A} (f : A -> string) (l : list A) : concat ((fun x => [f x]) <$> l) = f <$> l.
Proof. induction l as [|x l IH]; simpl; [done|]. by f_equal. Qed.

(** ** Properties *)

Section Properties.

(** C20: a push writes inside the sandbox's code directory only: whatever the
    entries (JSON or tar) and whatever fails before, every file removed,
    created or written is lexically at or below the code directory, by proper
    path elements, and is not one of the protected configuration files, and
    every directory made is at or below it (or its own parent, for an entry
    that names the code directory itself). *)
Theorem push_confined ds dir files archive :
  clean_dir ds dir ->
  issues (confined dir) (WriteFiles dir files) /\ issues (confined dir) (WriteTar dir archive).
Proof.
  intros Hdir.
  assert (forall p, isValidPath p = true -> confined dir _ (FMkdirAll (Dir (Join dir p)))) as Hmk
    by (intros p Hp; by apply (Dir_target ds)).
  assert (forall p, isValidPath p = true -> target dir (Join dir p)) as Ht
    by (intros p Hp; by apply (valid_target ds)).
  split.
  - apply issues_range. intros r f _. unfold write_file.
    destruct (isValidPath (fe_Path f)) eqn:Hp; [|done]. cbn [negb].
    destruct (fe_Delete f); [by split; [apply Ht|]|].
    destruct (base64_decode _); [|done]. split; [by apply Hmk|].
    intros [[]|e]; [|done]. by split; [apply Ht|].
  - unfold WriteTar. destruct (ts_gzip archive); [done|]. apply issues_bind; [|done].
    apply issues_range. intros r hdr _. unfold extract_entry.
    destruct (te_Regular hdr); [|done]. cbn [negb].
    destruct (isValidPath (Clean (te_Name hdr))) eqn:Hp; [|done]. split; [by apply Hmk|].
    intros [[]|e]; [|done]. split; [by apply Ht|]. intros [[]|e]; [|done]. by split; [apply Ht|].
Qed.

(** The code directory of a sandbox, and a push that tries to climb out of it. *)
Lemma push_confined_witness :
  issues (confined "/srv/my-app/code")
    (WriteFiles "/srv/my-app/code" [mkEntry "a/../../../etc/passwd" "" false; mkEntry "src/a.js" "YQ==" false]) /\
  issues (confined "/srv/my-app/code") (WriteTar "/srv/my-app/code" (mkTarStream None [] None)).
Proof.
  apply (push_confined ["srv"; "my-app"; "code"]).
  split; [repeat constructor; done|done|reflexivity].
Defined.

(** The answer to a JSON push is exact: however the file system answers,
    every entry is listed once, as written or as failed, and the entries listed
    as written are, in order, the ones whose file was removed or written. *)
Theorem WriteFiles_reports dir files :
  behaves (@done_path) (WriteFiles dir files) (fun t r =>
    wr_Written r ++ wr_Failed r ≡ₚ fe_Path <$> files /\
    omap id t = Join dir <$> wr_Written r /\
    Forall (fun p => isValidPath p = true) (wr_Written r)).
Proof.
  eapply behaves_mono, (range_reported dir _ (fun f => [fe_Path f])), write_file_reported.
  intros t r (ok & bad & -> & -> & Hp & Ht & Hv). rewrite concat_singletons in Hp. done.
Qed.

(** A delete entry for "." is accepted and removes the code directory
    itself. *)
Theorem delete_dot_removes_code_dir ds dir :
  clean_dir ds dir ->
  exists k, WriteFiles dir [mkEntry "." "" true] = Vis (FRemove dir) k.
Proof.
  intros Hdir. destruct (valid_target ds dir "." Hdir eq_refl) as (Hj & _).
  change (below dir (relative ".")) with dir in Hj.
  unfold WriteFiles. simpl. unfold write_file. simpl. rewrite Hj. by eexists.
Qed.

Lemma delete_dot_removes_code_dir_witness :
  exists k, WriteFiles "/srv/my-app/code" [mkEntry "." "" true] = Vis (FRemove "/srv/my-app/code") k.
Proof.
  apply (delete_dot_removes_code_dir ["srv"; "my-app"; "code"]).
  split; [repeat constructor; done|done|reflexivity].
Defined.

End Properties.
