(* ===== verification/Push.v ===== *)
(** Signed URLs (shared-go/auth/hmac.go) and the two ends that use them: the
    control plane's file push redirect (control/internal/api/agents.go) and the
    agent's push handler (agent/internal/filepush/handler.go). *)

From S2P Require Import Prelude Netip Hmac Url UrlFacts Json Models Scheduler Store StoreFacts.
From S2P Require Import Routing Effects StoreRuns Api Executor Paths FilePush.

(** ** shared-go/auth *)

(** The text the signature is computed over: path and query, without scheme,
    host and fragment. *)
Definition signed_text (u : URL) : string := u_Path u +:+ "?" +:+ u_RawQuery u.

(** [time.Time.Unix] *)
Definition Unix (t : Z) : Z := t / second.

(** The URL with its expiry, before the signature is added. *)
Definition expiring (u : URL) (expiresAt : Z) : URL :=
  with_query u (Encode (Set' "expires" (pretty expiresAt) (Query (u_RawQuery u)))).

(** [SignURL]; [now] is the clock.  The texts of parser errors are not
    modelled, here and in [VerifyURL]. *)
Definition SignURL (rawURL key : string) (expiry now : Z) : result string :=
  match Parse rawURL with
  | None => Err (Wrap "parsing URL" (OtherError "invalid URL"))
  | Some u =>
      let expiresAt := Unix (now + expiry) in
      let q := Set' "expires" (pretty expiresAt) (Query (u_RawQuery u)) in
      let u := expiring u expiresAt in
      let sig := hex_EncodeToString (hmac_sha256 key (signed_text u)) in
      let q := Set' "sig" sig q in
      Ok (URL_String (with_query u (Encode q)))
  end.

Definition VerifyURL (signedURL key : string) (now : Z) : result string :=
  match Parse signedURL with
  | None => Err (Wrap "parsing signed URL" (OtherError "invalid URL"))
  | Some u =>
      let q := Query (u_RawQuery u) in
      let sigHex := Get q "sig" in
      if String.eqb sigHex "" then Err (OtherError "missing sig parameter")
      else
        let expiresStr := Get q "expires" in
        if String.eqb expiresStr "" then Err (OtherError "missing expires parameter")
        else
          match Atoi expiresStr with
          | None => Err (Wrap "parsing expiry" (OtherError "invalid syntax"))
          | Some expires =>
              if expires <? Unix now then Err (OtherError "URL expired")
              else
                let q := Del "sig" q in
                let u := with_query u (Encode q) in
                let expected := hmac_sha256 key (signed_text u) in
                match hex_DecodeString sigHex with
                | None => Err (Wrap "decoding signature" (OtherError "invalid byte"))
                | Some actual =>
                    if negb (String.eqb expected actual) then Err (OtherError "invalid signature")
                    else
                      let q := Del "expires" q in
                      let u := with_query u (Encode q) in
                      let u := if String.eqb (u_RawQuery u) "" then no_force_query u else u in
                      Ok (URL_String u)
                end
          end
  end.

(** ** The control plane: POST /v1/sandboxes/{id}/files *)

Section Control.
Context `{External}.

Definition push_path (id : uuid) : string := "v1/sandboxes/" +:+ uuid_String id +:+ "/files".

(** [http://ip:port/v1/sandboxes/id/files] *)
Definition push_url (node : Node) (id : uuid) : string :=
  "http://" +:+ Addr_String (nd_TailscaleIp node) +:+ ":" +:+ pretty (nd_AgentListenPort node)
    +:+ "/" +:+ push_path id.

Definition push_expiry : Z := 60 * second.

(** A failed update of [last_active_at] is only logged. *)
Definition handleFilePush (hmacSecret idStr : string) : ctl reply :=
  match uuid_Parse idStr with
  | None => Ret (BadRequest "invalid sandbox ID: must be a valid UUID")
  | Some id =>
      sb <- db (GetSandbox (Some id)) ;;
      match sb with
      | Err _ => Ret (NotFound "sandbox not found")
      | Ok sb =>
          match sb_NodeID sb with
          | None => Ret (ServiceUnavailable "sandbox not yet scheduled to a node")
          | Some n =>
              node <- db (GetNode (Some n)) ;;
              match node with
              | Err _ => Ret (internal_error "failed to resolve sandbox node")
              | Ok node =>
                  now <- time_Now ;;
                  match SignURL (push_url node id) hmacSecret push_expiry now with
                  | Err _ => Ret (internal_error "failed to generate signed URL")
                  | Ok signedURL =>
                      db (UpdateSandboxLastActive (Some id)) ;;;
                      Ret (mkReply 307 (BLocation signedURL))
                  end
              end
          end
      end
  end.

(** ** The control plane: GET /v1/sandboxes/{id}/logs *)

Definition logs_params (tail follow : string) : list string :=
  (if String.eqb tail "" then [] else ["tail=" +:+ tail]) ++
  (if String.eqb follow "" then [] else ["follow=" +:+ follow]).

Definition logs_query (tail follow : string) : string :=
  match logs_params tail follow with
  | [] => ""
  | params => "?" +:+ String.concat "&" params
  end.

Definition logs_url (node : Node) (id : uuid) (tail follow : string) : string :=
  "http://" +:+ Addr_String (nd_TailscaleIp node) +:+ ":" +:+ pretty (nd_AgentListenPort node)
    +:+ "/sandboxes/" +:+ uuid_String id +:+ "/logs" +:+ logs_query tail follow.

(** The reply of the agent is passed on with its status.  (A URL the client
    cannot parse is an error of the call here, of [NewRequest] in the source.) *)
Definition handleGetLogs (configured : bool) (idStr tail follow : string) : ctl reply :=
  if negb configured then Ret (ServiceUnavailable "log proxy not configured")
  else if HasPrefix idStr "app:"
  then Ret (BadRequest "log endpoint requires sandbox UUID, not app:{name}")
  else
    match uuid_Parse idStr with
    | None => Ret (BadRequest "invalid sandbox ID: must be a valid UUID")
    | Some id =>
        sb <- db (GetSandbox (Some id)) ;;
        match sb with
        | Err _ => Ret (NotFound "sandbox not found")
        | Ok sb =>
            match sb_NodeID sb with
            | None => Ret (ServiceUnavailable "sandbox not assigned to a node")
            | Some n =>
                node <- db (GetNode (Some n)) ;;
                match node with
                | Err _ => Ret (internal_error "failed to resolve sandbox node")
                | Ok node =>
                    resp <- http_Do (mkRequest "GET" (logs_url node id tail follow) None) ;;
                    Ret (match resp with
                         | Err _ => WriteProblem 502 "urn:forge:error:bad-gateway" "Bad Gateway"
                                      "failed to reach agent"
                         | Ok r => mkReply (rs_status r) (BForwarded (rs_json r))
                         end)
                end
            end
        end
    end.
End Control.

(** ** The agent: the push handler *)

(** A request as the server hands it over: [hp_Path] is the path of the parsed
    target. *)
Record push_request := mkPushRequest {
  hp_TLS : bool;
  hp_Host : string;
  hp_RequestURI : string;
  hp_Path : string;
  hp_ContentType : string;
  hp_ContentLength : Z;
  hp_json : option json;         (* the body as a JSON document *)
  hp_tar : tar_stream;           (* the body as an archive *)
}.

Inductive push_body :=
| PushError (msg : string)
| PushResult (r : WriteResult).

Record push_reply := mkPushReply { pr_status : Z; pr_body : push_body }.

Definition errorResponse (status : Z) (msg : string) : push_reply := mkPushReply status (PushError msg).

Definition dec_entry : decoder FileEntry := fun old j =>
  match j with
  | JNull => (old, true)
  | JObj m =>
      let '(p, ok1) := dec_field "path" dec_string (fe_Path old) m in
      let '(c, ok2) := dec_field "content" dec_string (fe_Content old) m in
      let '(d, ok3) := dec_field "delete" dec_bool (fe_Delete old) m in
      (mkEntry p c d, ok1 && ok2 && ok3)
  | _ => (old, false)
  end.

(** [filePushRequest] *)
Definition decode_push (body : option json) : option (list FileEntry) :=
  j ← body; m ← members_of j;
  let '(l, ok) := dec_field "files" (dec_list dec_entry (mkEntry "" "" false)) [] m in
  if ok then Some l else None.

Definition handleJSON (rq : push_request) (codeDir : string) : prog fileE push_reply :=
  if hp_ContentLength rq =? 0 then Ret (errorResponse 400 "empty request body")
  else
    match decode_push (hp_json rq) with
    | None => Ret (errorResponse 400 "invalid JSON body")
    | Some files => r <- WriteFiles codeDir files ;; Ret (mkPushReply 200 (PushResult r))
    end.

Definition handleTar (rq : push_request) (codeDir : string) : prog fileE push_reply :=
  if hp_ContentLength rq =? 0 then Ret (errorResponse 400 "empty request body")
  else
    r <- WriteTar codeDir (hp_tar rq) ;;
    Ret (match r with
         | (_, Some _) => errorResponse 500 "tar extraction failed"
         | (r, None) => mkPushReply 200 (PushResult r)
         end).

Definition full_url (rq : push_request) : string :=
  (if hp_TLS rq then "https" else "http") +:+ "://" +:+ hp_Host rq +:+ hp_RequestURI rq.

(** What is done with an authorised request for a sandbox. *)
Definition push_files (resolver : string -> result string) (sandboxID : string) (rq : push_request)
  : prog fileE push_reply :=
  match resolver sandboxID with
  | Err _ => Ret (errorResponse 404 "sandbox not found on this node")
  | Ok codeDir =>
      if HasPrefix (hp_ContentType rq) "application/json" then handleJSON rq codeDir
      else if HasPrefix (hp_ContentType rq) "application/x-tar" then handleTar rq codeDir
      else Ret (errorResponse 400 ("unsupported content type: " +:+ hp_ContentType rq))
  end.

(** [ServeHTTP]; [error_string] is [err.Error()]. *)
Definition ServeHTTP (error_string : error -> string) (hmacSecret : string)
    (resolver : string -> result string) (rq : push_request) (now : Z) : prog fileE push_reply :=
  match VerifyURL (full_url rq) hmacSecret now with
  | Err e => Ret (errorResponse 403 (error_string e))
  | Ok _ =>
      let sandboxID := extractSandboxID (hp_Path rq) in
      if String.eqb sandboxID ""
      then Ret (errorResponse 400 "invalid URL path: cannot extract sandbox ID")
      else push_files resolver sandboxID rq
  end.

(** ** Facts *)

(** *** Numbers in decimal *)

Lemma pretty_char_digit x : (x < 10)%N ->
  digit_of (pretty_N_char x) = Some (Z.of_N x) /\ digit (pretty_N_char x) = true.
Proof.
  intros Hx.
  destruct (decide (x = 0 \/ x = 1 \/ x = 2 \/ x = 3 \/ x = 4)%N);
    [|assert (x = 5 \/ x = 6 \/ x = 7 \/ x = 8 \/ x = 9)%N by lia]; naive_solver.
Qed.

Lemma digits_of_pretty x s : digits_of 0 (pretty_N_go x s) = digits_of (Z.of_N x) s.
Proof.
  revert s. induction (N.lt_wf_0 x) as [x _ IH]; intros s.
  destruct (decide (0 < x)%N) as [Hx|Hx].
  - rewrite pretty_N_go_step by done. rewrite IH by (by apply N.div_lt).
    cbn [digits_of]. rewrite (proj1 (pretty_char_digit _ (N.mod_lt x 10 ltac:(done)))).
    cbn [mbind option_bind]. f_equal. rewrite (N.div_mod x 10) at 3 by done. lia.
  - assert (x = 0%N) as -> by lia. by rewrite pretty_N_go_0.
Qed.

Lemma pretty_digits x s : string_all digit s = true -> string_all digit (pretty_N_go x s) = true.
Proof.
  revert s. induction (N.lt_wf_0 x) as [x _ IH]; intros s Hs.
  destruct (decide (0 < x)%N) as [Hx|Hx].
  - rewrite pretty_N_go_step by done. apply IH; [by apply N.div_lt|]. cbn [string_all].
    by rewrite (proj2 (pretty_char_digit _ (N.mod_lt x 10 ltac:(done)))), Hs.
  - assert (x = 0%N) as -> by lia. by rewrite pretty_N_go_0.
Qed.

(** The decimal text of a natural number. *)
Lemma pretty_nonneg z : 0 <= z ->
  string_all digit (pretty z) = true /\ digits_of 0 (pretty z) = Some z /\ pretty z <> "".
Proof.
  intros Hz. destruct z as [|p|p]; [done| |lia].
  change (pretty (Z.pos p)) with (pretty (N.pos p)). unfold pretty, pretty_N.
  rewrite decide_False by done. split; [by apply pretty_digits|]. rewrite digits_of_pretty.
  split; [done|]. intros Heq. pose proof (digits_of_pretty (N.pos p) "") as Hd. by rewrite Heq in Hd.
Qed.

Lemma Atoi_pretty z : 0 <= z < 2 ^ 63 -> Atoi (pretty z) = Some z.
Proof.
  intros Hz. destruct (pretty_nonneg z) as (Hall & Hdig & Hne); [lia|]. unfold Atoi, unsigned_of.
  destruct (pretty z) as [|c s]; [done|]. cbn [string_all] in Hall. apply andb_true_iff in Hall as [Hc _].
  assert (forall n, digit (ch n) = false -> Ascii.eqb c (Ascii.ascii_of_nat n) = false) as Hno.
  { intros n Hn. destruct (Ascii.eqb_spec c (Ascii.ascii_of_nat n)) as [->|]; [|done]. unfold ch in Hn. congruence. }
  rewrite (Hno 45%nat), (Hno 43%nat) by done. rewrite Hdig. cbn [mbind option_bind].
  rewrite (proj2 (andb_true_iff _ _)); [done|]. split; [apply Z.leb_le|apply Z.ltb_lt]; lia.
Qed.

(** *** Signing and verifying *)

Definition expiring_query (u : URL) (expiresAt : Z) : Values :=
  Set' "expires" (pretty expiresAt) (Query (u_RawQuery u)).

Definition signature (key : string) (u : URL) (expiresAt : Z) : string :=
  hex_EncodeToString (hmac_sha256 key (signed_text (expiring u expiresAt))).

Lemma Set_proper k v q : proper q -> proper (Set' k v q).
Proof. intros Hq. by apply map_Forall_insert_2. Qed.

Lemma Del_proper k q : proper q -> proper (Del k q).
Proof. intros Hq. by apply map_Forall_delete. Qed.

Lemma Get_Set k v q : Get (Set' k v q) k = v.
Proof. unfold Get, Set'. by rewrite lookup_insert_eq. Qed.

Lemma Get_Set_ne k k' v q : k <> k' -> Get (Set' k v q) k' = Get q k'.
Proof. intros Hne. unfold Get, Set'. by rewrite lookup_insert_ne. Qed.

Lemma Encode_inj q q' : proper q -> proper q' -> Encode q = Encode q' -> q = q'.
Proof. intros Hq Hq' Heq. by rewrite <- (Query_Encode q Hq), Heq, Query_Encode. Qed.

Lemma with_query_twice u q q' : with_query (with_query u q) q' = with_query u q'.
Proof. done. Qed.

(** [VerifyURL] on a parsed URL whose signature and expiry are well formed. *)
Lemma verify_parsed s key now u expires sig :
  Parse s = Some u -> Get (Query (u_RawQuery u)) "sig" = hex_EncodeToString sig ->
  hex_EncodeToString sig <> "" ->
  Get (Query (u_RawQuery u)) "expires" = pretty expires -> 0 <= expires < 2 ^ 63 ->
  VerifyURL s key now =
    if expires <? Unix now then Err (OtherError "URL expired")
    else
      let q := Del "sig" (Query (u_RawQuery u)) in
      if negb (String.eqb (hmac_sha256 key (signed_text (with_query u (Encode q)))) sig)
      then Err (OtherError "invalid signature")
      else
        let u := with_query u (Encode (Del "expires" q)) in
        Ok (URL_String (if String.eqb (u_RawQuery u) "" then no_force_query u else u)).
Proof.
  intros Hs Hsig Hne Hexp Hrange. unfold VerifyURL. rewrite Hs, Hsig, Hexp.
  destruct (String.eqb_spec (hex_EncodeToString sig) ""); [done|].
  destruct (pretty_nonneg expires) as (_ & _ & Hp); [lia|].
  destruct (String.eqb_spec (pretty expires) ""); [done|].
  rewrite Atoi_pretty by done. destruct (expires <? Unix now); [done|].
  rewrite hex_roundtrip. done.
Qed.

Section Plain.
Context (h p path key : string).
Hypothesis Hh : string_all host_byte h = true.
Hypothesis Hp : string_all digit p = true.
Hypothesis Hpath : string_all path_byte path = true.

Definition signed_query (sig : string) (expires : Z) : Values :=
  <["sig" := [sig]]> {["expires" := [pretty expires]]}.

(** What [SignURL] makes of a plain URL without a query. *)
Lemma SignURL_plain expiry now :
  let expires := Unix (now + expiry) in
  SignURL (plain_text h p path "") key expiry now =
    Ok (plain_text h p path (Encode (signed_query
      (signature key (plain_url h p path "") expires) expires))).
Proof.
  intros expires. unfold SignURL. rewrite Parse_plain by done. cbv zeta. fold expires.
  unfold signature, signed_query, Set'. f_equal.
  change (Query (u_RawQuery (plain_url h p path ""))) with (∅ : Values).
  unfold expiring. rewrite with_query_twice.
  change (with_query (plain_url h p path "") ?q) with (plain_url h p path q).
  rewrite String_plain by (done || apply Encode_query_bytes). done.
Qed.

Lemma signed_proper sig expires : proper (signed_query sig expires).
Proof. apply map_Forall_insert_2; [done|]. by apply map_Forall_singleton. Qed.

(** Until it expires it verifies, to the URL that was signed. *)
Lemma VerifyURL_plain expires now :
  0 <= expires < 2 ^ 63 ->
  VerifyURL (plain_text h p path (Encode (signed_query
      (signature key (plain_url h p path "") expires) expires))) key now =
    if expires <? Unix now then Err (OtherError "URL expired") else Ok (plain_text h p path "").
Proof.
  intros Hexp. set (sig := signature _ _ _). set (q := signed_query sig expires).
  assert (Query (u_RawQuery (plain_url h p path (Encode q))) = q) as Hq
    by apply Query_Encode, signed_proper.
  rewrite (verify_parsed _ key now (plain_url h p path (Encode q)) expires
    (hmac_sha256 key (signed_text (expiring (plain_url h p path "") expires)))).
  - rewrite Hq. destruct (expires <? Unix now); [done|]. cbv zeta.
    assert (Del "sig" q = {["expires" := [pretty expires]]}) as Hdel.
    { unfold Del, q, signed_query. rewrite delete_insert_eq.
      apply delete_id, lookup_singleton_ne. done. }
    rewrite Hdel. unfold Del. rewrite delete_singleton_eq.
    change (Encode ∅) with "".
    assert (with_query (plain_url h p path (Encode q)) (Encode {["expires" := [pretty expires]]}) =
      expiring (plain_url h p path "") expires) as -> by done.
    rewrite String.eqb_refl. simpl negb. cbv iota.
    change (String.eqb (u_RawQuery (with_query ?u "")) "") with true. cbv iota.
    change (no_force_query (with_query (plain_url h p path (Encode q)) "")) with (plain_url h p path "").
    by rewrite String_plain.
  - apply Parse_plain; [done..|]. apply Encode_query_bytes.
  - rewrite Hq. unfold Get, q, signed_query. by rewrite lookup_insert_eq.
  - apply hmac_nonempty.
  - rewrite Hq. unfold Get, q, signed_query.
    by rewrite lookup_insert_ne, lookup_singleton_eq.
  - done.
Qed.
End Plain.
