(* ===== verification/PushFacts.v ===== *)
(** The file push, end to end: the redirect of the control plane is accepted by
    the agent and by nobody for another sandbox. *)

From S2P Require Import Prelude Netip Hmac Url UrlFacts Json Models Scheduler Store StoreFacts.
From S2P Require Import Routing Effects StoreRuns Api Executor Paths FilePush Push.

(** ** The parts of the URL *)

Lemma join_dec_host os : Forall (fun o => 0 <= o) os -> string_all host_byte (join_dec os) = true.
Proof.
  intros Hos. unfold join_dec. apply concat_all; [done|]. apply Forall_fmap.
  eapply Forall_impl; [exact Hos|]. intros o Ho. simpl.
  eapply string_all_impl; [|by apply pretty_nonneg]. intros c Hc. unfold host_byte. by rewrite Hc.
Qed.

(** The bytes of the canonical text of a UUID. *)
Definition uuid_byte (c : Ascii.ascii) : bool := letter c || digit c || one_of "-" c.

Lemma uuid_no_slash s : string_all uuid_byte s = true -> no_slash s = true.
Proof.
  induction s as [|c s IH]; [done|]. cbn [string_all no_slash]. intros [Hc Hs]%andb_true_iff.
  rewrite IH by done. rewrite andb_true_r. revert Hc. clear. revert c. bytes.
Qed.

Lemma extract_push_path s :
  no_slash s = true -> extractSandboxID ("/" +:+ "v1/sandboxes/" +:+ s +:+ "/files") = s.
Proof.
  intros Hs. unfold extractSandboxID. rewrite TrimPrefix_app.
  change ("v1/sandboxes/" +:+ s +:+ "/files") with (join_slash ["v1"; "sandboxes"; s; "files"]).
  rewrite split_join; [done| |done]. by repeat constructor.
Qed.

Section PushFacts.
Context `{External}.

Definition touched (now : Z) (s : Sandbox) : Sandbox :=
  upd_sandbox s (sb_NodeID s) (sb_ContainerID s) (sb_HostPort s) (sb_State s)
    (sb_StateVersion s) (sb_UpdatedAt s) now (sb_FailureCount s) (sb_Metadata s) (sb_VerifiedAt s).

Lemma run_LastActive id now db s :
  row_in db id s ->
  UpdateSandboxLastActive (Some id) now db = (Ok tt, put_sandbox (touched now s) db).
Proof.
  intros [Hs Hid Hst Hv Hf Hn]. unfold UpdateSandboxLastActive, update_row, find_sandbox. simpl.
  rewrite Hs. by rewrite (run_write_sandbox (touched now s)); simpl; [|done|apply int4_small; lia..|done].
Qed.

(** The redirect for a placed sandbox. *)
Lemma file_push_runs key idStr id s n node os w :
  w_faults w = [] -> uuid_Parse idStr = Some id -> row_in (w_db w) id s ->
  sb_NodeID s = Some n -> nodes (w_db w) !! n = Some node ->
  nd_TailscaleIp node = Addr4 os -> Forall (fun o => 0 <= o) os -> 0 <= nd_AgentListenPort node ->
  string_all uuid_byte (uuid_String id) = true ->
  let h := join_dec os in
  let p := pretty (nd_AgentListenPort node) in
  let expires := Unix (w_now w + push_expiry) in
  exec (handleFilePush key idStr) w =
    (mkReply 307 (BLocation (plain_text h p (push_path id) (Encode (signed_query
       (signature key (plain_url h p (push_path id) "") expires) expires)))),
     set_db (put_sandbox (touched (w_now w) s) (w_db w)) w).
Proof.
  intros Hf Hp Hrow Hn Hnode Hip Hos Hport Hid h p expires. apply exec_eq. unfold handleFilePush.
  rewrite Hp. step_by (by apply run_GetSandbox, (ri_row _ _ _ Hrow)). rewrite set_db_same, Hn.
  step_by (by apply run_GetNode). rewrite set_db_same. apply wp_bind_now.
  assert (push_url node id = plain_text h p (push_path id) "") as ->.
  { unfold push_url, plain_text, query_text. rewrite Hip. simpl String.eqb. cbv iota.
    by rewrite string_app_nil. }
  rewrite SignURL_plain.
  - step_by (by apply run_LastActive). by apply ctl_wp_ret.
  - by apply join_dec_host.
  - by apply pretty_nonneg.
  - unfold push_path. rewrite !string_all_app. simpl. rewrite andb_true_r.
    eapply string_all_impl; [|exact Hid]. bytes.
Qed.
End PushFacts.

(** What the server knows of a request it hands to a handler: the host has no
    delimiters, the target starts with a slash and its path is the parsed one. *)
Record from_server (rq : push_request) : Prop := mk_from_server {
  fs_host : string_all plain_host (hp_Host rq) = true;
  fs_target : exists s, hp_RequestURI rq = String (ch 47) s;
  fs_path : exists v, ParseRequestURI (hp_RequestURI rq) = Some v /\ hp_Path rq = u_Path v;
}.

(** What a URL that verifies has. *)
Lemma verify_ok s key now r u :
  VerifyURL s key now = Ok r -> Parse s = Some u ->
  let q := Query (u_RawQuery u) in
  exists expires, Atoi (Get q "expires") = Some expires /\ Unix now <= expires /\
    hex_DecodeString (Get q "sig") = Some (hmac_sha256 key (signed_text (with_query u (Encode (Del "sig" q))))).
Proof.
  intros Hv Hs q. unfold VerifyURL in Hv. rewrite Hs in Hv. cbv zeta in Hv. fold q in Hv.
  destruct (String.eqb (Get q "sig") ""); [done|]. destruct (String.eqb (Get q "expires") ""); [done|].
  destruct (Atoi _) as [expires|]; [|done]. destruct (Z.ltb_spec expires (Unix now)); [done|].
  destruct (hex_DecodeString _) as [actual|]; [|done].
  destruct (String.eqb_spec (hmac_sha256 key (signed_text (with_query u (Encode (Del "sig" q))))) actual)
    as [Heq|]; [|done]. exists expires. by rewrite Heq.
Qed.

(** Equal signed texts are equal paths and equal queries. *)
Lemma signed_text_inj u u' q q' :
  proper q -> proper q' ->
  signed_text (with_query u (Encode q)) = signed_text (with_query u' (Encode q')) ->
  u_Path u = u_Path u' /\ q = q'.
Proof.
  intros Hq Hq' Heq. unfold signed_text in Heq. simpl in Heq.
  apply (last_split_inj (ch 63)) in Heq as [Hpath Henc]; [|by apply Encode_not..].
  split; [done|]. by apply Encode_inj.
Qed.

Lemma Get_Del_ne k k' q : k <> k' -> Get (Del k q) k' = Get q k'.
Proof. intros Hne. unfold Get, Del. by rewrite lookup_delete_ne. Qed.

(** A body of two files, one of them outside the code directory. *)
Definition demo_push_body : option json :=
  Some (JObj [("files", JArr [JObj [("path", JStr "src/a.txt"); ("content", JStr "aGk=")];
                              JObj [("path", JStr "../b"); ("content", JStr "aGk=")]])]).

Definition demo_push (host target path : string) : push_request :=
  mkPushRequest false host target path "application/json" 10 demo_push_body
    (mkTarStream None [] None).

(** ** Properties *)

Section Properties.
#[local] Existing Instance demo_external | 100.

(** C14: A push reaches its sandbox: the redirect for a sandbox placed on a
    node with an IPv4 address names a host and a target; whoever asks that
    target of that host (with any body) until the expiry, sixty seconds later,
    is served for that sandbox and no other, and afterwards is refused. *)
Theorem push_redirect_accepted `{External} key idStr id s n node os w :
  w_faults w = [] -> uuid_Parse idStr = Some id -> row_in (w_db w) id s ->
  sb_NodeID s = Some n -> nodes (w_db w) !! n = Some node ->
  nd_TailscaleIp node = Addr4 os -> Forall (fun o => 0 <= o) os -> 0 <= nd_AgentListenPort node ->
  string_all uuid_byte (uuid_String id) = true -> uuid_String id <> "" ->
  0 <= Unix (w_now w + push_expiry) < 2 ^ 63 ->
  let '(r, w') := exec (handleFilePush key idStr) w in
  sandboxes (w_db w') !! id = Some (touched (w_now w) s) /\
  exists host target,
    r = mkReply 307 (BLocation ("http://" +:+ host +:+ target)) /\
    forall err resolver rq now,
      hp_TLS rq = false -> hp_Host rq = host -> hp_RequestURI rq = target ->
      (exists v, ParseRequestURI target = Some v /\ hp_Path rq = u_Path v) ->
      ServeHTTP err key resolver rq now =
        if Unix (w_now w + push_expiry) <? Unix now
        then Ret (errorResponse 403 (err (OtherError "URL expired")))
        else push_files resolver (uuid_String id) rq.
Proof.
  intros Hf Hp Hrow Hn Hnode Hip Hos Hport Hid Hidne Hexp.
  rewrite (file_push_runs key idStr id s n node os w) by done. split.
  { simpl. rewrite <- (ri_id _ _ _ Hrow). apply lookup_insert_eq. }
  set (expires := Unix _) in *. set (q := Encode _).
  assert (string_all path_byte (push_path id) = true) as Hpath.
  { unfold push_path. rewrite !string_all_app. simpl. rewrite andb_true_r.
    eapply string_all_impl; [|exact Hid]. bytes. }
  exists (join_dec os +:+ ":" +:+ pretty (nd_AgentListenPort node)), ("/" +:+ push_path id +:+ query_text q).
  split; [by unfold plain_text; rewrite <- !string_app_assoc|].
  intros err resolver rq now Htls Hhost Htarget (v & Hv & Hvp).
  unfold ServeHTTP, full_url. rewrite Htls, Hhost, Htarget.
  replace ("http" +:+ "://" +:+ _) with (plain_text (join_dec os) (pretty (nd_AgentListenPort node)) (push_path id) q)
    by (by unfold plain_text; rewrite <- !string_app_assoc).
  unfold q. rewrite VerifyURL_plain;
    [|by apply join_dec_host|by apply pretty_nonneg|done|done].
  destruct (expires <? Unix now); [done|].
  destruct (target_plain (push_path id) q) as (v' & Hv' & Hvp'); [done|apply Encode_query_bytes|].
  rewrite Hv' in Hv. injection Hv as <-. rewrite Hvp, Hvp'. unfold push_path.
  rewrite extract_push_path by (by apply uuid_no_slash).
  by destruct (String.eqb_spec (uuid_String id) "").
Qed.

(** C16: A signature is good for one path and one time: whatever request
    carries the signature issued for a URL, the agent refuses it, or serves the
    sandbox of the signed path (whatever host, query and body come with it) and
    the signed expiry has not passed; unless two texts with the same HMAC are
    at hand. *)
Theorem signature_binds key u0 expires u err resolver rq now :
  0 <= expires < 2 ^ 63 -> from_server rq -> hp_TLS rq = false ->
  Parse (full_url rq) = Some u ->
  Get (Query (u_RawQuery u)) "sig" = signature key u0 expires ->
  let m0 := signed_text (expiring u0 expires) in
  (exists msg, ServeHTTP err key resolver rq now = Ret (errorResponse 403 msg)) \/
  (Unix now <= expires /\
   ServeHTTP err key resolver rq now =
     let sandboxID := extractSandboxID (u_Path u0) in
     if String.eqb sandboxID "" then Ret (errorResponse 400 "invalid URL path: cannot extract sandbox ID")
     else push_files resolver sandboxID rq) \/
  (exists m, m <> m0 /\ hmac_sha256 key m = hmac_sha256 key m0).
Proof.
  intros Hexp [Hhost [t Ht] (v & Hv & Hvp)] Htls Hu Hsig m0. unfold ServeHTTP.
  destruct (VerifyURL (full_url rq) key now) as [r|e] eqn:Hver; [right|left; by eexists].
  destruct (verify_ok _ _ _ _ _ Hver Hu) as (expires' & Hatoi & Hnow & Hmac).
  rewrite Hsig in Hmac. unfold signature in Hmac. rewrite hex_roundtrip in Hmac. fold m0 in Hmac.
  set (q := Query (u_RawQuery u)) in *. set (m := signed_text (with_query u _)) in *.
  injection Hmac as Hmac. destruct (decide (m = m0)) as [Heq|Hne]; [left|right; by exists m].
  unfold m, m0, expiring in Heq.
  apply signed_text_inj in Heq as [Hpath Hq]; [|apply Del_proper, Query_proper|apply Set_proper, Query_proper].
  assert (Get q "expires" = pretty expires) as Hget.
  { by rewrite <- (Get_Del_ne "sig") by done; rewrite Hq, Get_Set. }
  rewrite Hget, Atoi_pretty in Hatoi by done. injection Hatoi as <-. split; [done|].
  assert (hp_Path rq = u_Path u0) as ->; [|done]. rewrite <- Hpath, Hvp. symmetry.
  apply (path_agree (hp_Host rq) t); [done| | |by rewrite <- Ht].
  - rewrite <- Hu. unfold full_url. rewrite Htls, Ht. done.
  - intros Hempty. unfold q in Hsig. rewrite Hempty in Hsig. symmetry in Hsig.
    by apply hmac_nonempty in Hsig.
Qed.

(** Sandbox 7 on its node: the redirect is followed within the minute. *)
Lemma push_redirect_accepted_witness :
  exists host target,
    (exec (handleFilePush "k" "7") (demo_world (demo_db StateRunning 0))).1 =
      mkReply 307 (BLocation ("http://" +:+ host +:+ target)) /\
    forall resolver rq, hp_TLS rq = false -> hp_Host rq = host -> hp_RequestURI rq = target ->
      (exists v, ParseRequestURI target = Some v /\ hp_Path rq = u_Path v) ->
      ServeHTTP (fun _ => "") "k" resolver rq (59 * second) = push_files resolver "7" rq.
Proof.
  pose proof (@push_redirect_accepted demo_external "k" "7" 7 (demo_sandbox StateRunning 0) 1 demo_node
    [100; 64; 1; 5] (demo_world (demo_db StateRunning 0)) eq_refl eq_refl) as H.
  destruct (exec (handleFilePush "k" "7") (demo_world (demo_db StateRunning 0))) as [r w'].
  destruct H as (_ & host & target & Hr & Hserve); try reflexivity.
  - apply row_in_wf; [apply demo_db_wf, in_states; reflexivity|reflexivity|vm_compute; intuition discriminate].
  - by repeat constructor.
  - vm_compute. discriminate.
  - discriminate.
  - vm_compute. split; [discriminate|reflexivity].
  - exists host, target. split; [exact Hr|]. intros resolver rq Htls Hhost Htarget Hv.
    exact (Hserve (fun _ => "") resolver rq (59 * second) Htls Hhost Htarget Hv).
Defined.

(** The target signed for sandbox 7, asked again with the path of sandbox 8. *)
Definition demo_signed : URL := plain_url "100.64.1.5" "8090" "v1/sandboxes/7/files" "".
Definition demo_query : string := Encode (signed_query (signature "k" demo_signed 60) 60).
Definition demo_forged : push_request :=
  demo_push "100.64.1.5:8090" ("/v1/sandboxes/8/files?" +:+ demo_query) "/v1/sandboxes/8/files".

Lemma signature_binds_witness :
  let m0 := signed_text (expiring demo_signed 60) in
  (exists msg, ServeHTTP (fun _ => "") "k" (fun _ => Ok "/code") demo_forged 0 = Ret (errorResponse 403 msg)) \/
  (Unix 0 <= 60 /\ ServeHTTP (fun _ => "") "k" (fun _ => Ok "/code") demo_forged 0 =
     push_files (fun _ => Ok "/code") "7" demo_forged) \/
  (exists m, m <> m0 /\ hmac_sha256 "k" m = hmac_sha256 "k" m0).
Proof.
  apply (signature_binds "k" demo_signed 60
    (plain_url "100.64.1.5" "8090" "v1/sandboxes/8/files" demo_query)
    (fun _ => "") (fun _ => Ok "/code") demo_forged 0).
  - vm_compute. split; [discriminate|reflexivity].
  - split; [vm_compute; reflexivity|by eexists|].
    eexists. split; [vm_compute; reflexivity|reflexivity].
  - reflexivity.
  - vm_compute. reflexivity.
  - vm_compute. reflexivity.
Defined.
End Properties.
