(* ===== verification/AgentHttp.v ===== *)
(** The HTTP server of the agent (agent/internal/agent/agent.go and
    containers_handler.go): its routes, and the requests the control plane makes
    to it. *)

From S2P Require Import Prelude Netip Hmac Url UrlFacts Json Models Scheduler Store StoreFacts.
From S2P Require Import Routing Effects StoreRuns Reconciler Adapters Api Executor Paths FilePush Push PushFacts.

(** ** docker/snapshot.go *)

Record ContainerSnapshot := mkSnapshot {
  cs_AppName : string; cs_State : string; cs_HostPort : Z; cs_ContainerID : string }.

(** [Snapshot]: never a nil list. *)
Definition Snapshot (lister : result (option (list ContainerSnapshot)))
  : result (list ContainerSnapshot) :=
  match lister with
  | Err e => Err e
  | Ok None => Ok []
  | Ok (Some l) => Ok l
  end.

(** ** containers_handler.go *)

(** [omitempty] leaves out empty strings and zeros. *)
Definition found_json (c : ContainerSnapshot) : json :=
  JObj ([("exists", JBool true); ("app_name", JStr (cs_AppName c))] ++
        (if String.eqb (cs_State c) "" then [] else [("state", JStr (cs_State c))]) ++
        (if cs_HostPort c =? 0 then [] else [("host_port", JInt (cs_HostPort c))]) ++
        (if String.eqb (cs_ContainerID c) "" then [] else [("container_id", JStr (cs_ContainerID c))])).

Definition absent_json (name : string) : json :=
  JObj [("exists", JBool false); ("app_name", JStr name)].

Definition containerExists (snap : result (list ContainerSnapshot)) (name : string) : http_response :=
  if String.eqb name "" then mkResponse 400 None
  else
    match snap with
    | Err _ => mkResponse 500 None
    | Ok containers =>
        match find (fun c => String.eqb (cs_AppName c) name) containers with
        | Some c => mkResponse 200 (Some (found_json c))
        | None => mkResponse 404 (Some (absent_json name))
        end
    end.

(** ** agent.go: the routes

    A wildcard of the mux matches one segment that is not empty; HEAD is
    answered where GET is. *)
Inductive agent_route := ToHealthz | ToFilePush (id : string) | ToContainer (name : string).

Definition get_method (m : string) : bool := String.eqb m "GET" || String.eqb m "HEAD".

Definition agent_mux (method path : string) : option agent_route :=
  match split_slash (TrimPrefix path "/") with
  | [s] => if get_method method && String.eqb s "healthz" then Some ToHealthz else None
  | [v; s; x] =>
      if get_method method && String.eqb v "v1" && String.eqb s "containers" && negb (String.eqb x "")
      then Some (ToContainer x) else None
  | [v; s; x; f] =>
      if String.eqb method "POST" && String.eqb v "v1" && String.eqb s "sandboxes" &&
         String.eqb f "files" && negb (String.eqb x "")
      then Some (ToFilePush x) else None
  | _ => None
  end.

(** ** Facts *)

Lemma find_name name l :
  match find (fun c => String.eqb (cs_AppName c) name) l with
  | Some c => c ∈ l /\ cs_AppName c = name
  | None => name ∉ cs_AppName <$> l
  end.
Proof.
  destruct (find _ l) as [c|] eqn:Hf.
  - apply find_some in Hf as [Hin Heq%String.eqb_eq]. by rewrite list_elem_of_In.
  - intros (c & -> & Hin)%list_elem_of_fmap. rewrite list_elem_of_In in Hin.
    pose proof (find_none _ _ Hf _ Hin) as Hne. cbv beta in Hne. by rewrite String.eqb_refl in Hne.
Qed.

#[local] Arguments dec_int64 : simpl never.

(** The control plane reads what the agent writes. *)
Lemma read_found c :
  -(2 ^ 63) <= cs_HostPort c <= 2 ^ 63 - 1 ->
  dec_container_response (found_json c) = Ok (true, cs_State c).
Proof.
  intros Hport. unfold found_json, dec_container_response.
  assert (dec_int64 0 (JInt (cs_HostPort c)) = (cs_HostPort c, true)) as Hint.
  { unfold dec_int64, dec_int. by rewrite (proj2 (andb_true_iff _ _)) by (rewrite !Z.leb_le; lia). }
  destruct (String.eqb_spec (cs_State c) "") as [->|_], (cs_HostPort c =? 0),
    (String.eqb (cs_ContainerID c) ""); unfold dec_field; simpl; rewrite ?Hint; done.
Qed.

(** What a request for a container means against a list of containers. *)
Definition container_truth (l : list ContainerSnapshot) (name : string) (r : result (bool * string)) : Prop :=
  match r with
  | Ok (true, st) => exists c, c ∈ l /\ cs_AppName c = name /\ cs_State c = st
  | Ok (false, _) => name ∉ cs_AppName <$> l
  | Err _ => False
  end.

Lemma container_answer_truth l name :
  name <> "" -> Forall (fun c => -(2 ^ 63) <= cs_HostPort c <= 2 ^ 63 - 1) l ->
  container_truth l name (container_answer (containerExists (Ok l) name)).
Proof.
  intros Hne Hl. unfold containerExists. destruct (String.eqb_spec name ""); [done|].
  pose proof (find_name name l) as Hf. destruct (find _ l) as [c|]; [|exact Hf].
  destruct Hf as [Hin Hname]. unfold container_answer. simpl.
  rewrite read_found by (by eapply Forall_forall in Hl). by exists c.
Qed.

Lemma logs_path_unrouted id method : no_slash id = true ->
  agent_mux method ("/" +:+ "sandboxes/" +:+ id +:+ "/logs") = None.
Proof.
  intros Hid. unfold agent_mux. rewrite TrimPrefix_app.
  change ("sandboxes/" +:+ id +:+ "/logs") with (join_slash ["sandboxes"; id; "logs"]).
  rewrite split_join; [|by repeat constructor|done].
  by rewrite andb_false_r.
Qed.

(** ** Properties *)

(** A peer that serves only the agent's routes, every container being up. *)
Definition demo_agent : External := {|
  uuid_New n := (1000 + N.of_nat n)%N; uuid_String i := pretty i;
  uuid_Parse s := if String.eqb s "7" then Some 7%N else None;
  random_bytes _ _ := Err (OtherError "no entropy"); pg_text _ c := c;
  peers := list ContainerSnapshot;
  peer_http rq p :=
    match Parse (rq_url rq) with
    | None => (Err (OtherError "invalid URL"), p)
    | Some u =>
        (Ok match agent_mux (rq_method rq) (u_Path u) with
            | Some (ToContainer name) => containerExists (Ok p) name
            | Some _ => mkResponse 200 None
            | None => mkResponse 404 None
            end, p)
    end;
|}.

Definition demo_agent_world (l : list ContainerSnapshot) : @World demo_agent :=
  @mkWorld demo_agent (demo_db StateRunning 0) 100 0 [] NewBatcher [] l.

Section Properties.
#[local] Existing Instance demo_agent | 100.

(** Asking the agent is faithful: when the peer behind a sandbox's node is the
    agent's container endpoint, the answer the freshness service gets is Docker's
    list: present with a listed container's state exactly when the application
    is listed, absent otherwise, never an error. *)
Theorem ContainerExists_truth `{External} w s n node l p' :
  w_faults w = [] -> find_by_app (w_db w) (sb_AppName s) = Some s ->
  sb_NodeID s = Some n -> nodes (w_db w) !! n = Some node -> sb_AppName s <> "" ->
  Forall (fun c => -(2 ^ 63) <= cs_HostPort c <= 2 ^ 63 - 1) l ->
  peer_http (mkRequest "GET" (container_url node (sb_AppName s)) None) (w_peers w) =
    (Ok (containerExists (Snapshot (Ok (Some l))) (sb_AppName s)), p') ->
  let '(r, w') := exec (ContainerExists (sb_AppName s)) w in
  container_truth l (sb_AppName s) r /\ w' = set_peers p' w.
Proof.
  intros Hf Hs Hn Hnode Hne Hl Hpeer.
  assert (exec (ContainerExists (sb_AppName s)) w =
    (container_answer (containerExists (Ok l) (sb_AppName s)), set_peers p' w)) as ->.
  { rewrite ContainerExists_exec by done. unfold client_says, asked_client, node_of.
    rewrite Hs, Hn, Hnode. unfold agent_says, asked_agent. by rewrite Hpeer. }
  split; [by apply container_answer_truth|done].
Qed.

Lemma ContainerExists_truth_witness :
  let l := [mkSnapshot "other" "running" 1 "x"; mkSnapshot "my-app" "exited" 40001 "abc"] in
  let '(r, w') := exec (ContainerExists "my-app") (demo_agent_world l) in
  r = Ok (true, "exited") /\ container_truth l "my-app" r.
Proof.
  intros l.
  pose proof (@ContainerExists_truth demo_agent (demo_agent_world l) (demo_sandbox StateRunning 0) 1
    demo_node l l eq_refl eq_refl eq_refl eq_refl) as H.
  assert ((exec (ContainerExists "my-app") (demo_agent_world l)).1 = Ok (true, "exited")) as Hr
    by (vm_compute; reflexivity).
  cbn [sb_AppName demo_sandbox] in H.
  destruct (exec (ContainerExists "my-app") (demo_agent_world l)) as [r w']. split; [exact Hr|].
  apply H; [discriminate| |vm_compute; reflexivity].
  repeat constructor; vm_compute; discriminate.
Defined.

(** The logs of a sandbox are never served: the control plane asks the
    agent for a path the agent has no route for, so a server that answers 404
    where it has no route makes every request for logs of a placed sandbox a
    404. *)
Theorem logs_never_served `{External} idStr id s n node tail follow w :
  (forall method path q p, agent_mux method ("/" +:+ path) = None -> string_all path_byte path = true ->
     (q = "" \/ exists q', q = "?" +:+ q') ->
     exists p', peer_http (mkRequest method ("http://" +:+ Addr_String (nd_TailscaleIp node) +:+ ":" +:+
       pretty (nd_AgentListenPort node) +:+ "/" +:+ path +:+ q) None) p = (Ok (mkResponse 404 None), p')) ->
  w_faults w = [] -> HasPrefix idStr "app:" = false -> uuid_Parse idStr = Some id ->
  string_all uuid_byte (uuid_String id) = true ->
  sandboxes (w_db w) !! id = Some s -> sb_NodeID s = Some n -> nodes (w_db w) !! n = Some node ->
  (exec (handleGetLogs true idStr tail follow) w).1 = mkReply 404 (BForwarded None).
Proof.
  intros Hmux Hf Happ Hp Hid Hs Hn Hnode.
  apply (wp_exec _ (fun r _ => r = mkReply 404 (BForwarded None)) w). unfold handleGetLogs.
  rewrite Happ, Hp. step_by (by apply run_GetSandbox). rewrite set_db_same, Hn.
  step_by (by apply run_GetNode). rewrite set_db_same. apply wp_bind_http.
  destruct (Hmux "GET" ("sandboxes/" +:+ uuid_String id +:+ "/logs") (logs_query tail follow) (w_peers w))
    as [p' Hpeer].
  - by apply logs_path_unrouted, uuid_no_slash.
  - rewrite !string_all_app. simpl. rewrite andb_true_r. eapply string_all_impl; [|exact Hid]. bytes.
  - unfold logs_query. destruct (logs_params _ _); [by left|]. right. by eexists.
  - replace (logs_url node id tail follow) with ("http://" +:+ Addr_String (nd_TailscaleIp node) +:+ ":" +:+
       pretty (nd_AgentListenPort node) +:+ "/" +:+ ("sandboxes/" +:+ uuid_String id +:+ "/logs") +:+
       logs_query tail follow) by (unfold logs_url; by rewrite <- !string_app_assoc).
    rewrite Hpeer. by apply ctl_wp_ret.
Qed.

(** A server at every address that has the agent's routes and nothing else. *)
Definition demo_mux : External := {|
  uuid_New n := (1000 + N.of_nat n)%N; uuid_String i := pretty i;
  uuid_Parse s := if String.eqb s "7" then Some 7%N else None;
  random_bytes _ _ := Err (OtherError "no entropy"); pg_text _ c := c;
  peers := unit;
  peer_http rq p :=
    let path := (cut (ch 63) (default "" (cut (ch 47) (TrimPrefix (rq_url rq) "http://")).2)).1 in
    (Ok (mkResponse (match agent_mux (rq_method rq) ("/" +:+ path) with Some _ => 200 | None => 404 end) None), p);
|}.

Lemma logs_never_served_witness :
  (@exec demo_mux _ (@handleGetLogs demo_mux true "7" "100" "")
     (@mkWorld demo_mux (demo_db StateRunning 0) 100 0 [] NewBatcher [] tt)).1 =
    mkReply 404 (BForwarded None).
Proof.
  apply (@logs_never_served demo_mux "7" 7 (demo_sandbox StateRunning 0) 1 demo_node); try reflexivity.
  intros method path q [] Hnone Hpath Hq. exists tt. cbn [peer_http demo_mux rq_url rq_method].
  rewrite TrimPrefix_app.
  change (Addr_String (nd_TailscaleIp demo_node) +:+ ":" +:+ pretty (nd_AgentListenPort demo_node) +:+
    "/" +:+ path +:+ q) with ("100.64.1.5:8090" +:+ String (ch 47) (path +:+ q)).
  rewrite cut_here by reflexivity. cbn [snd default id].
  assert (string_all (not_byte (ch 63)) path = true) as Hno
    by (eapply string_all_impl; [|exact Hpath]; bytes).
  replace (cut (ch 63) (path +:+ q)).1 with path; [by rewrite Hnone|].
  destruct Hq as [->|[q' ->]].
  - by rewrite string_app_nil, cut_none.
  - change ("?" +:+ q') with (String (ch 63) q'). by rewrite cut_here.
Defined.
End Properties.
