(* ===== verification/DockerClient.v ===== *)
(** The agent's Docker client (agent/internal/docker): containers and their
    hardening (sandbox.go), the other calls (client.go) and image pulls
    (images.go). *)

From S2P Require Import Prelude Time Json Float64 Paths Ports Executor Wire Watcher AgentHttp.

(** ** What the client asks of the SDK and the system *)

Record ContainerConfig := mkContainerConfig {
  cf_Image : string;
  cf_Env : list string;
  cf_ExposedPorts : list string;
  cf_Labels : gmap string string;
}.

(** Port bindings as (container port, host address, host port). *)
Record HostConfig := mkHostConfig {
  hc_PortBindings : list (string * string * string);
  hc_Binds : list string;
  hc_Memory : Z;
  hc_NanoCPUs : Z;
  hc_PidsLimit : Z;
  hc_SecurityOpt : list string;
  hc_CapDrop : list string;
  hc_CapAdd : list string;
  hc_ReadonlyRootfs : bool;
}.

(** The fields of a listed container that are read. *)
Record ContainerSummary := mkSummary {
  cu_ID : string;
  cu_Labels : gmap string string;
  cu_PublicPorts : list Z;
  cu_State : string;
}.

(** The fields of an inspected container that are read; it may have no state. *)
Record InspectedState := mkInspectedState {
  is_Status : string;
  is_Running : bool;
  is_ExitCode : Z;
  is_StartedAt : string;
}.

Record Inspected := mkInspected {
  in_ID : string;
  in_Name : string;
  in_State : option InspectedState;
}.

(** The SDK's calls, the file system, and the waits of a [select]: [DDone] is
    [ctx.Err() != nil], and [DWait] is [false] if the context is done first.
    An opened stream of logs, and the answer to a pull, can each fail again
    while they are read. *)
Inductive dockerE : Type -> Type :=
| DMkdirAll (path : string) (perm : Z) : dockerE (result unit)
| DChown (path : string) (uid gid : Z) : dockerE (result unit)
| DCreate (cfg : ContainerConfig) (host : HostConfig) (name : string) : dockerE (result string)
| DStart (id : string) : dockerE (result unit)
| DStop (id : string) (timeout : Z) : dockerE (result unit)
| DRemove (id : string) (force : bool) : dockerE (result unit)
| DRestart (id : string) (timeout : Z) : dockerE (result unit)
| DLogs (id tail : string) (follow : bool) : dockerE (result (result string))
| DInspect (id : string) : dockerE (result Inspected)
| DList (all : bool) : dockerE (result (list ContainerSummary))
| DPull (ref : string) : dockerE (result (result unit))
| DDone : dockerE bool
| DWait (d : Z) : dockerE bool.

Definition dock (A : Type) : Type := prog dockerE A.

Section Client.
Context `{Quoting, MapOrder}.

(** ** sandbox.go *)

(** [filepath.Join]: leading empty elements are skipped. *)
Fixpoint JoinAll (l : list string) : string :=
  match l with
  | [] => ""
  | s :: l' => if String.eqb s "" then JoinAll l' else Clean (join_slash l)
  end.

Definition sandboxUserUID : Z := 1000.
Definition sandboxUserGID : Z := 1000.

Definition invalid_name (appName what : string) : error :=
  OtherError ("docker: invalid app name " +:+ quoted appName +:+ ": " +:+ what).

Definition check_name (appName : string) : result unit :=
  if Contains appName ".." then Err (invalid_name appName "contains path traversal")
  else if Contains appName "/" then Err (invalid_name appName "contains path separator")
  else if IsAbs appName then Err (invalid_name appName "absolute path not allowed")
  else Ok tt.

Definition PrepareBindMount (sandboxDir appName : string) : dock (result string) :=
  match check_name appName with
  | Err e => Ret (Err e)
  | Ok _ =>
      let codePath := JoinAll [sandboxDir; appName; "code"] in
      made <- trigger (DMkdirAll codePath 493) ;;
      match made with
      | Err e => Ret (Err (Wrap ("docker: create bind mount dir " +:+ codePath) e))
      | Ok _ =>
          owned <- trigger (DChown codePath sandboxUserUID sandboxUserGID) ;;
          Ret (match owned with
               | Err e => Err (Wrap ("docker: chown bind mount dir " +:+ codePath) e)
               | Ok _ => Ok codePath
               end)
      end
  end.

Definition ContainerPort : string := "8081/tcp".

(** [int64(spec.CPUCores * 1e9)] *)
Definition nano_cpus (cores : Q) : Z :=
  int64_of_float (f ← round64 cores; round64 (f * 1000000000)).

Definition env_list (env : option (gmap string string)) : list string :=
  (fun '(k, v) => k +:+ "=" +:+ v) <$> visit (default ∅ env).

(** The labels are not set. *)
Definition container_config (spec : SandboxSpec) : ContainerConfig :=
  mkContainerConfig (sp_Image spec) (env_list (sp_Env spec)) [ContainerPort] ∅.

(** [SeccompPath] is a field nobody sets. *)
Definition host_config (spec : SandboxSpec) (codePath : string) : HostConfig :=
  mkHostConfig [(ContainerPort, "0.0.0.0", pretty (sp_HostPort spec))]
    [codePath +:+ ":/app/code"; "/mnt/metro-cache:/mnt/metro-cache"]
    (wrap64 (sp_MemoryMB spec * 1024 * 1024)) (nano_cpus (sp_CPUCores spec)) 256
    ["seccomp=" +:+ ""; "no-new-privileges:true"] ["ALL"] ["CHOWN"; "SETUID"; "SETGID"] false.

(** A container of the same name is removed first, whatever that answers. *)
Definition CreateContainer (spec : SandboxSpec) : dock (result string) :=
  prepared <- PrepareBindMount (sp_SandboxDir spec) (sp_AppName spec) ;;
  match prepared with
  | Err e => Ret (Err (Wrap "docker: prepare bind mount" e))
  | Ok codePath =>
      let name := "forge-" +:+ sp_AppName spec in
      trigger (DRemove name true) ;;;
      created <- trigger (DCreate (container_config spec) (host_config spec codePath) name) ;;
      match created with
      | Err e => Ret (Err (Wrap ("docker: create container " +:+ name) e))
      | Ok id =>
          started <- trigger (DStart id) ;;
          Ret (match started with
               | Err e => Err (Wrap ("docker: start container " +:+ name) e)
               | Ok _ => Ok id
               end)
      end
  end.

(** ** client.go *)

Definition wrapped {A} (what : string) (r : result A) : result A :=
  match r with Err e => Err (Wrap ("docker: " +:+ what) e) | Ok a => Ok a end.

Definition StartContainer (id : string) : dock (result unit) :=
  r <- trigger (DStart id) ;; Ret (wrapped ("start container " +:+ id) r).

(** Timeouts in nanoseconds; the SDK takes whole seconds. *)
Definition StopContainer (id : string) (timeout : Z) : dock (result unit) :=
  r <- trigger (DStop id (Z.quot timeout nanoseconds)) ;; Ret (wrapped ("stop container " +:+ id) r).

Definition RemoveContainer (id : string) : dock (result unit) :=
  r <- trigger (DRemove id true) ;; Ret (wrapped ("remove container " +:+ id) r).

Definition RestartContainer (id : string) (timeout : Z) : dock (result unit) :=
  r <- trigger (DRestart id (Z.quot timeout nanoseconds)) ;;
  Ret (wrapped ("restart container " +:+ id) r).

(** What [InspectContainer] returns; the time is the zero time when it cannot be
    parsed. *)
Record InspectInfo := mkInspectInfo {
  ii_ID : string;
  ii_Name : string;
  ii_State : string;
  ii_Running : bool;
  ii_ExitCode : Z;
  ii_StartedAt : Z;
}.

Definition inspect_info (c : Inspected) : InspectInfo :=
  match in_State c with
  | None => mkInspectInfo (in_ID c) (in_Name c) "" false 0 zero_time
  | Some st => mkInspectInfo (in_ID c) (in_Name c) (is_Status st) (is_Running st) (is_ExitCode st)
                 (default zero_time (Parse_RFC3339 (is_StartedAt st)))
  end.

Definition InspectContainer (id : string) : dock (result InspectInfo) :=
  r <- trigger (DInspect id) ;;
  Ret (match r with
       | Err e => Err (Wrap ("docker: inspect container " +:+ id) e)
       | Ok c => Ok (inspect_info c)
       end).

Definition tail_text (tail : Z) : string := if 0 <? tail then pretty tail else "all".

Definition GetLogs (id : string) (tail : Z) (follow : bool) : dock (result (result string)) :=
  r <- trigger (DLogs id (tail_text tail) follow) ;;
  Ret (wrapped ("get logs for container " +:+ id) r).

Definition PullImage (ref : string) : dock (result unit) :=
  r <- trigger (DPull ref) ;;
  Ret (match r with
       | Err e => Err (Wrap ("docker: pull image " +:+ ref) e)
       | Ok (Err e) => Err (Wrap ("docker: pull image " +:+ ref +:+ ": read response") e)
       | Ok (Ok _) => Ok tt
       end).

(** The first public port that is set. *)
Definition host_port (ports : list Z) : Z := default 0 (find (fun p => negb (p =? 0)) ports).

Definition snapshot_of (item : ContainerSummary) : option ContainerSnapshot :=
  let appName := default "" (cu_Labels item !! "forge.app_name") in
  if String.eqb appName "" then None
  else Some (mkSnapshot appName (cu_State item) (host_port (cu_PublicPorts item)) (cu_ID item)).

Definition listed (r : result (list ContainerSummary)) : result (option (list ContainerSnapshot)) :=
  match r with
  | Err e => Err (Wrap "docker: list containers" e)
  | Ok items => Ok (Some (omap snapshot_of items))
  end.

Definition ListContainers : dock (result (option (list ContainerSnapshot))) :=
  r <- trigger (DList true) ;; Ret (listed r).

(** ** images.go: the retries of a pull *)

Definition maxRetries : nat := 3.

Definition pull_backoff (attempt : nat) : Z := Z.shiftl 1 (Z.of_nat attempt) * nanoseconds.

(** The attempts from number [attempt] on, [left] of them after the next. *)
Fixpoint pull_attempts (image : string) (left attempt : nat) : dock (result unit) :=
  stop <- trigger DDone ;;
  if stop : bool then Ret (Err (Sentinel "context canceled"))
  else
    pulled <- PullImage image ;;
    match pulled with
    | Ok _ => Ret (Ok tt)
    | Err lastErr =>
        match left with
        | O => Ret (Err (Wrap ("image pull failed after " +:+ pretty (Z.of_nat maxRetries + 1) +:+
                               " attempts") lastErr))
        | S left' =>
            waited <- trigger (DWait (pull_backoff attempt)) ;;
            if waited : bool then pull_attempts image left' (S attempt)
            else Ret (Err (Sentinel "context canceled"))
        end
    end.

Definition PullOnce (image : string) : dock (result unit) := pull_attempts image maxRetries 0.

(** ** logs.go *)

Definition ReadLogs (id : string) (tail : Z) (follow : bool) : dock (result (result string)) :=
  r <- GetLogs id tail follow ;;
  Ret (match r with
       | Err e => Err (Wrap ("read logs for container " +:+ id) e)
       | Ok rc => Ok rc
       end).
End Client.

(** ** The executor on this client

    The effects of a node: Docker's, and the executor's others. *)
Inductive nodeE : Type -> Type :=
| NDocker {X} (e : dockerE X) : nodeE X
| NAgent {X} (e : agentE X) : nodeE X.

Definition lift {A} (p : dock A) : prog nodeE A := interp (fun X e => trigger (@NDocker X e)) p.

(** Each call of the executor's Docker interface is the client's. *)
Definition on_docker `{Quoting, MapOrder} {X} (e : agentE X) : prog nodeE X :=
  match e in agentE X return prog nodeE X with
  | ANow => trigger (NAgent ANow)
  | AMapStart => trigger (NAgent AMapStart)
  | ACreateContainer spec => lift (CreateContainer spec)
  | AStopContainer cid timeout => lift (StopContainer cid (timeout * nanoseconds))
  | ARemoveContainer cid => lift (RemoveContainer cid)
  | ARestartContainer cid timeout => lift (RestartContainer cid (timeout * nanoseconds))
  | AGetLogs cid tail follow => lift (GetLogs cid tail follow)
  | AAckCommand id ack => trigger (NAgent (AAckCommand id ack))
  end.
