(* ===== verification/DockerFacts.v ===== *)
(** What the agent asks of Docker: every container it creates is hardened and
    confined to its directory and port range, and a pull is tried a bounded
    number of times. *)

From S2P Require Import Prelude Json Paths Ports Executor ExecutorFacts Watcher AgentHttp DockerClient.

(** ** The directory of a sandbox *)

Lemma free_of_slash s : Contains s "/" = false -> no_slash s = true.
Proof.
  unfold Contains. destruct (String.index 0 "/" s) as [n|] eqn:Hi; [done|]. intros _.
  assert (forall n, String.substring n 1 s <> "/") as Hn.
  { intros n. apply (String.index_correct3 0 n "/" s Hi); [done|lia]. }
  clear Hi. induction s as [|a s IH]; [done|]. simpl. apply andb_true_iff. split.
  - destruct (Ascii.eqb_spec a slash) as [->|]; [|done]. exfalso. apply (Hn 0%nat). by destruct s.
  - apply IH. intros n. exact (Hn (S n)).
Qed.

(** The directory a name gets: its own, or the shared one of the two names that
    clean to nothing. *)
Definition code_path (dir app path : string) : Prop :=
  element app /\ path = below dir [app; "code"] \/
  (app = "" \/ app = ".") /\ path = below dir ["code"].

Lemma relative_code app :
  no_slash app = true -> app <> ".." ->
  relative (app +:+ "/" +:+ "code") = if decide (app = "" \/ app = ".") then ["code"] else [app; "code"].
Proof.
  intros Hs Hd. unfold relative. rewrite split_app by done.
  change (split_slash "code") with ["code"]. unfold clean_parts, clean_step. cbn [foldl].
  destruct (decide (app = "" \/ app = ".")); [done|].
  by rewrite (decide_False (P := app = "..")) by done.
Qed.

Lemma prepared_path `{Quoting} ds dir app :
  clean_dir ds dir -> check_name app = Ok tt -> code_path dir app (JoinAll [dir; app; "code"]).
Proof.
  intros Hdir. unfold check_name.
  destruct (Contains app "..") eqn:Hdots; [done|]. destruct (Contains app "/") eqn:Hsl; [done|].
  apply free_of_slash in Hsl. intros _. assert (app <> "..") as Hd by by intros ->.
  assert (dir <> "") as Hne by (destruct Hdir as [_ _ ->]; done).
  cbn [JoinAll]. rewrite (proj2 (String.eqb_neq dir "")) by done.
  change (join_slash [dir; app; "code"]) with (dir +:+ "/" +:+ (app +:+ "/" +:+ "code")).
  pose proof (relative_code app Hsl Hd) as Hrel. pose proof Hdir as [Hds Hdn ->].
  change (("/" +:+ join_slash ds) +:+ "/" +:+ (app +:+ "/" +:+ "code"))
    with ("/" +:+ (join_slash ds +:+ "/" +:+ (app +:+ "/" +:+ "code"))).
  rewrite Clean_below; [|done..|].
  - rewrite Hrel. unfold code_path. rewrite !(below_path ds _) by done.
    destruct (decide _) as [Ha|Ha]; [by right|left]. split; [|done]. split; naive_solver.
  - unfold relative in Hrel. intros Hin%list_elem_of_In%in_rev%list_elem_of_In.
    rewrite Hrel in Hin. destruct (decide _); set_solver.
Qed.

(** ** What a created container looks like *)

Record confined_container (lo hi : Z) (dir : string) (host : HostConfig) (name : string) : Prop := {
  ct_place : exists app path port,
    name = "forge-" +:+ app /\ code_path dir app path /\ lo <= port <= hi /\
    hc_Binds host = [path +:+ ":/app/code"; "/mnt/metro-cache:/mnt/metro-cache"] /\
    hc_PortBindings host = [("8081/tcp", "0.0.0.0", pretty port)];
  ct_drop : hc_CapDrop host = ["ALL"];
  ct_add : hc_CapAdd host = ["CHOWN"; "SETUID"; "SETGID"];
  ct_privileges : "no-new-privileges:true" ∈ hc_SecurityOpt host;
  ct_pids : hc_PidsLimit host = 256;
}.

(** What a node may ask: containers like that, and directories of theirs. *)
Definition confined_call (lo hi : Z) (dir : string) {X} (e : dockerE X) : Prop :=
  match e with
  | DCreate cfg host name => confined_container lo hi dir host name
  | DMkdirAll path _ => exists app, code_path dir app path
  | DChown path uid gid => (exists app, code_path dir app path) /\ uid = 1000 /\ gid = 1000
  | _ => True
  end.

Definition confined_node (lo hi : Z) (dir : string) {X} (e : nodeE X) : Prop :=
  match e with NDocker e => confined_call lo hi dir e | NAgent _ => True end.

Definition spec_within (lo hi : Z) (dir : string) {X} (e : agentE X) : Prop :=
  match e with
  | ACreateContainer spec => sp_SandboxDir spec = dir /\ lo <= sp_HostPort spec <= hi
  | _ => True
  end.

Section Facts.
Context `{Quoting, MapOrder}.

Lemma CreateContainer_confined ds lo hi dir spec :
  clean_dir ds dir -> sp_SandboxDir spec = dir -> lo <= sp_HostPort spec <= hi ->
  issues (@confined_call lo hi dir) (CreateContainer spec).
Proof.
  intros Hdir <- Hport. unfold CreateContainer, PrepareBindMount.
  destruct (check_name (sp_AppName spec)) as [[]|e] eqn:Hc; [|done].
  pose proof (prepared_path ds _ _ Hdir Hc) as Hpath.
  simpl. split; [by exists (sp_AppName spec)|]. intros [[]|e]; simpl; [|done].
  split; [by split; [exists (sp_AppName spec)|]|]. intros [[]|e]; simpl; [|done].
  split; [done|]. intros _. split.
  - split; simpl; [|done|done|set_solver|done].
    exists (sp_AppName spec), (JoinAll [sp_SandboxDir spec; sp_AppName spec; "code"]), (sp_HostPort spec).
    split_and!; done || lia.
  - intros [id|e]; simpl; [|done]. split; [done|]. by intros [[]|e].
Qed.

Lemma on_docker_confined ds lo hi dir X (e : agentE X) :
  clean_dir ds dir -> spec_within lo hi dir e -> issues (@confined_node lo hi dir) (on_docker e).
Proof.
  intros Hdir He.
  assert (forall A (p : dock A), issues (@confined_call lo hi dir) p ->
    issues (@confined_node lo hi dir) (lift p)) as Hlift.
  { intros A p Hp. by eapply issues_interp, Hp. }
  destruct e; [done|done| |by apply Hlift..|done].
  destruct He as [Hd Hp]. by eapply Hlift, CreateContainer_confined.
Qed.
End Facts.

(** ** The executor's specs *)

Record pool_within (lo hi : Z) (dir : string) (e : CommandExecutor) : Prop := {
  pw_ok : alloc_ok (ex_ports e);
  pw_min : al_min (ex_ports e) = lo;
  pw_max : al_max (ex_ports e) = hi;
  pw_dir : ex_sandboxDir e = dir;
}.

Lemma pool_range lo hi dir e p : pool_within lo hi dir e -> p ∈ available (ex_ports e) -> lo <= p <= hi.
Proof.
  intros [[_ Hc] <- <- _] Hp. apply elem_of_port_range. rewrite <- Hc. set_solver.
Qed.

Lemma Release_range p a : al_min (Release p a).2 = al_min a /\ al_max (Release p a).2 = al_max a.
Proof. unfold Release. by case_bool_decide. Qed.

Section Specs.
Context `{AgentTexts}.

Lemma effect_within lo hi dir e cmd t e' :
  pool_within lo hi dir e -> command_effect e cmd t e' -> pool_within lo hi dir e'.
Proof.
  intros Hw []; [done|..]; destruct Hw as [Hok Hmin Hmax Hdir].
  - split; [by apply take_port_ok|done..].
  - unfold untrack. destruct (ex_sandboxes e !! _) as [info|]; [|done].
    destruct (Release_range (si_HostPort info) (ex_ports e)).
    split; simpl; [by apply Release_ok|congruence..].
Qed.

Lemma Execute_issues lo hi dir e cmd :
  pool_within lo hi dir e -> issues (@spec_within lo hi dir) (Execute e cmd).
Proof.
  intros Hw. assert (issues (@spec_within lo hi dir) (dispatch e cmd)) as Hd.
  { unfold dispatch. repeat case_match; try done.
    - unfold executeStartSandbox. destruct (decode_start _) as [p|]; [|done]. simpl.
      split; [done|]. intros n. destruct (Allocate n (ex_ports e)) as [[port|err] a] eqn:Hal; [|done].
      destruct (Release_take n e port a (pw_ok _ _ _ _ Hw) Hal) as (_ & Hin & _). simpl.
      split; [split; [apply Hw|by eapply pool_range]|]. by intros [|].
    - unfold executeStopSandbox. destruct (decode_container _); [|done]. simpl. split; [done|].
      intros [|]; simpl; [|done]. split; [done|]. by intros [|].
    - unfold executeRestartSandbox. destruct (decode_container _); [|done]. simpl. split; [done|].
      by intros [|].
    - unfold executeGetLogs. destruct (decode_logs _) as [[[? ?] ?]|]; [|done]. simpl. split; [done|].
      by intros [[|]|]. }
  unfold Execute, expired. destruct (0 <? _); [|done]. simpl. split; [done|]. intros now.
  by destruct (_ <? now).
Qed.

Lemma execute_batch_issues lo hi dir cmds e :
  pool_within lo hi dir e -> issues (@spec_within lo hi dir) (execute_batch cmds e).
Proof.
  revert e. induction cmds as [|cmd cmds IH]; intros e Hw; simpl; [done|].
  apply (issues_bind_post (@observe) _ (pool_within lo hi dir)); [..|apply IH].
  - apply issues_bind; [by apply Execute_issues|done].
  - apply behaves_bind. eapply behaves_mono, Execute_handled; [|apply Hw].
    intros t [r e'] [_ Heff]. by eapply effect_within.
Qed.
End Specs.

(** ** Pulls *)

(** The pulls, with whether they went through, and the waits. *)
Inductive pull_obs := ObPull (ref : string) (ok : bool) | ObPause (d : Z) (over : bool) | ObOther.

Definition observe_pull {X} (e : dockerE X) : X -> pull_obs :=
  match e in dockerE X return X -> pull_obs with
  | DPull ref => fun r => ObPull ref (match r with Ok (Ok _) => true | _ => false end)
  | DWait d => fun over => ObPause d over
  | _ => fun _ => ObOther
  end.

Definition pull_of (o : pull_obs) : option (string * bool) :=
  match o with ObPull ref ok => Some (ref, ok) | _ => None end.
Definition pause_of_pull (o : pull_obs) : option Z :=
  match o with ObPause d _ => Some d | _ => None end.

(** Runs of [left] attempts and one: failed pulls of the image, then a good one
    exactly if the answer is good; the waits double. *)
Definition pulled (image : string) (left attempt : nat) (t : list pull_obs) (r : result unit) : Prop :=
  exists n, (n <= S left)%nat /\
    omap pull_of t = replicate n (image, false) ++ (if is_ok r then [(image, true)] else []) /\
    (is_ok r = true -> (n <= left)%nat) /\
    exists k, omap pause_of_pull t = pull_backoff <$> seq attempt k /\ (k <= left)%nat.

Lemma pulled_again image left attempt t r :
  pulled image left (S attempt) t r ->
  pulled image (S left) attempt
    (ObOther :: ObPull image false :: ObPause (pull_backoff attempt) true :: t) r.
Proof.
  intros (n & Hn & Hp & Hok & k & Hk & Hkl). exists (S n). split; [lia|]. split; [|split].
  - exact (f_equal (cons (image, false)) Hp).
  - intros Hr. specialize (Hok Hr). lia.
  - exists (S k). split; [exact (f_equal (cons (pull_backoff attempt)) Hk)|lia].
Qed.

(** Runs that end at once: by the context, a good pull or a last bad one. *)
Lemma pulled_ends image left attempt o e :
  pulled image left attempt [ObOther] (Err e) /\
  pulled image left attempt [ObOther; ObPull image true] (Ok tt) /\
  (omap pull_of o = [] -> (exists k, (k <= left)%nat /\
     omap pause_of_pull o = pull_backoff <$> seq attempt k) ->
   pulled image left attempt (ObOther :: ObPull image false :: o) (Err e)).
Proof.
  split_and!.
  - exists 0%nat. split_and!; [lia|done|lia|]. exists 0%nat. split; [done|lia].
  - exists 0%nat. split_and!; [lia|done|lia|]. exists 0%nat. split; [done|lia].
  - intros Ho (k & Hk & Hp). exists 1%nat. split_and!; [lia|exact (f_equal (cons (image, false)) Ho)|done|].
    exists k. by split.
Qed.

Lemma pull_attempts_run `{Quoting, MapOrder} image left attempt :
  behaves (@observe_pull) (pull_attempts image left attempt) (pulled image left attempt).
Proof.
  revert attempt. induction left as [|left IH]; intros attempt; cbn [pull_attempts];
    (intros [|]; [apply (pulled_ends image _ _ []); exact (OtherError "")|]);
    intros [[[]|e]|e]; simpl observe_pull; cbn [bind trigger];
    try apply (pulled_ends image _ _ [] (OtherError "")); try (exists 0%nat; split; [lia|done]).
  all: try done.
  all: intros [|]; [eapply behaves_mono; [|apply IH]; intros t r; apply pulled_again|].
  all: apply (pulled_ends image _ _ [_] (OtherError "")); [done|exists 1%nat; split; [lia|done]].
Qed.

(** ** Properties *)

(** C19: Whatever commands arrive and however Docker, the file system, the clock and
    the control plane answer, a fresh agent only ever asks Docker for
    containers that drop all capabilities but three, may not gain privileges,
    have at most 256 processes, publish one port of the agent's range and
    mount, besides the shared cache, only the code directory of an application
    below the sandbox directory; and it only makes and hands over such
    directories.  The names "" and "." share one directory. *)
Theorem containers_confined `{AgentTexts, Quoting, MapOrder} ds dir lo hi cmds :
  clean_dir ds dir ->
  issues (@confined_node lo hi dir)
    (interp (@on_docker _ _) (execute_batch cmds (NewCommandExecutor (NewAllocator lo hi) dir))).
Proof.
  intros Hdir. eapply issues_interp; [|apply (execute_batch_issues lo hi dir)].
  - intros X e He. by eapply on_docker_confined.
  - split; [apply NewAllocator_ok|done..].
Qed.

(** The container of the demo command. *)
Lemma containers_confined_witness :
  let p := interp (@on_docker demo_quoting demo_order)
    (@execute_batch demo_texts [demo_start] (NewCommandExecutor (NewAllocator 3000 3002) "/srv")) in
  issues (@confined_node 3000 3002 "/srv") p.
Proof.
  apply (@containers_confined demo_texts demo_quoting demo_order ["srv"]).
  split; [|done|reflexivity]. repeat constructor; done.
Defined.

(** A pull of the image ends after at most four attempts, waits one second after
    the first and twice as long after each other, and succeeds exactly when its
    last attempt did. *)
Theorem PullOnce_bounded `{Quoting, MapOrder} image :
  behaves (@observe_pull) (PullOnce image) (fun t r =>
    (length (omap pull_of t) <= 4)%nat /\
    (exists n, omap pull_of t = replicate n (image, false) ++ (if is_ok r then [(image, true)] else [])) /\
    exists k, omap pause_of_pull t = take k [1 * nanoseconds; 2 * nanoseconds; 4 * nanoseconds]).
Proof.
  eapply behaves_mono; [|apply pull_attempts_run]. unfold maxRetries.
  intros t r (n & Hn & Hp & Hok & k & Hk & Hkl). rewrite Hp, Hk. split_and!.
  - rewrite length_app, length_replicate. destruct (is_ok r); simpl; [specialize (Hok eq_refl)|]; lia.
  - by exists n.
  - exists k. destruct k as [|[|[|[|]]]]; [done..|lia].
Qed.
