(* ===== verification/AgentLoops.v ===== *)
(** The agent's loops (agent/internal/health/heartbeat.go and
    agent/internal/agent/agent.go): heartbeats, container events on their way
    to the control plane, and the polls that feed the executor. *)

From S2P Require Import Prelude Json Models Scheduler Store StoreFacts Routing Effects.
From S2P Require Import Reconciler Adapters Api Ports Executor Wire AgentClient Watcher AgentHttp.

(** ** health/heartbeat.go *)

(** [dockerResourceCollector]: a placeholder. *)
Definition Collect : Z * Z := (0, 0).

Definition container_info (s : ContainerSnapshot) : ContainerInfo :=
  mkContainerInfo (AgentHttp.cs_AppName s) (cs_State s) (cs_HostPort s) (cs_ContainerID s).

Definition heartbeat_request (snapshots : list ContainerSnapshot) : HeartbeatRequest :=
  mkHeartbeat Collect.1 Collect.2 (container_info <$> snapshots).

Section Loops.
Context `{ClientTexts} (c : ClientConfig).

(** One tick; [snap] is what the snapshotter answers.  Without a snapshot the
    tick is skipped ([None]); an error of the heartbeat is only logged. *)
Definition sendHeartbeat (snap : result (list ContainerSnapshot)) : client (option (result unit)) :=
  match snap with
  | Err _ => Ret None
  | Ok snapshots => r <- Heartbeat c (heartbeat_request snapshots) ;; Ret (Some r)
  end.

(** ** agent.go: events *)

(** [fmt.Sscanf(s, "%d", &n)] into a zero [int]: leading blanks, a sign and
    the digits that follow; anything else, or a number out of range, leaves 0. *)
Fixpoint scan_digits (acc : Z) (s : string) : Z :=
  match s with
  | String ch s' => match digit_of ch with Some d => scan_digits (10 * acc + d) s' | None => acc end
  | EmptyString => acc
  end.

Fixpoint skip_blanks (s : string) : string :=
  match s with
  | String ch s' => if Ascii.eqb ch (Ascii.ascii_of_nat 32) || Ascii.eqb ch (Ascii.ascii_of_nat 9)
                    then skip_blanks s' else s
  | EmptyString => s
  end.

Definition Sscanf_d (s : string) : Z :=
  let s := skip_blanks s in
  let n := if HasPrefix s "-" then - scan_digits 0 (TrimPrefix s "-")
           else if HasPrefix s "+" then scan_digits 0 (TrimPrefix s "+") else scan_digits 0 s in
  if (-(2 ^ 63) <=? n) && (n <? 2 ^ 63) then n else 0.

(** The sandbox tracked for an application, the map being ranged over from
    position [n]; without one the name itself. *)
Definition resolveSandboxID (n : nat) (e : CommandExecutor) (appName : string) : string :=
  let ids := (filter (fun x => si_AppName x.2 = appName) (map_to_list (ex_sandboxes e))).*1 in
  nth (n mod length ids) ids appName.

Definition event_report (sandboxID : string) (ev : SandboxEvent) : EventReport :=
  mkReport sandboxID (se_EventType ev) (se_ContainerID ev) (Sscanf_d (se_ExitCode ev))
    (if se_OOMKilled ev then Some (JObj [("oom_killed", JBool true)]) else None).

(** One event of the loop; an error is only logged. *)
Definition forwardEvent (n : nat) (e : CommandExecutor) (ev : SandboxEvent) : client (result unit) :=
  ReportEvent c (event_report (resolveSandboxID n e (se_AppName ev)) ev).

(** ** agent.go: polling *)

Definition wait_seconds : Z := 30.

(** The poll of a turn: its commands, or a pause of two seconds ([None]). *)
Definition next_commands : client (option (list Executor.Command)) :=
  r <- PollCommands c wait_seconds ;;
  match r with
  | Err _ => trigger (CWait (seconds 2)) ;;; Ret None
  | Ok cmds => Ret (Some cmds)
  end.

(** The effects of the loop: the client's and the executor's. *)
Inductive loopE : Type -> Type :=
| LClient {X} (e : clientE X) : loopE X
| LAgent {X} (e : agentE X) : loopE X.

Definition by_client {A} (p : client A) : prog loopE A := interp (fun X e => trigger (@LClient X e)) p.

(** The executor acknowledges through the client. *)
Definition on_client {X} (e : agentE X) : prog loopE X :=
  match e in agentE X return prog loopE X with
  | ANow => trigger (LAgent ANow)
  | AMapStart => trigger (LAgent AMapStart)
  | ACreateContainer spec => trigger (LAgent (ACreateContainer spec))
  | AStopContainer cid t => trigger (LAgent (AStopContainer cid t))
  | ARemoveContainer cid => trigger (LAgent (ARemoveContainer cid))
  | ARestartContainer cid t => trigger (LAgent (ARestartContainer cid t))
  | AGetLogs cid tail follow => trigger (LAgent (AGetLogs cid tail follow))
  | AAckCommand id ack => by_client (AckCommand c id ack)
  end.

(** One turn of [pollLoop] of an agent that is not shutting down. *)
Definition poll_turn `{AgentTexts} (e : CommandExecutor) : prog loopE CommandExecutor :=
  cmds <- by_client next_commands ;;
  match cmds with
  | None => Ret e
  | Some cmds => interp (@on_client) (execute_batch cmds e)
  end.
End Loops.
