(* ===== verification/System.v ===== *)
(** The whole control plane: the requests its router dispatches, run
    interleaved with the background services. *)

From S2P Require Import Prelude Netip Json Models Scheduler Store StoreFacts Routing Effects.
From S2P Require Import StoreRuns Sweep Restart Lifecycle LifecycleMoves Reschedule.
From S2P Require Import IdleReaper Reconciler Adapters Caddy Interleave StoreAdapter Api Register Push.

(** ** Requests *)

(** A request to one of the modelled routes: the parameters of its path and
    query, and its body.  A poll carries the ticks of its loop. *)
Inductive request :=
| RqHealthz
| RqMetrics
| RqRegister (body : option json)
| RqListNodes
| RqHeartbeat (id : string) (body : option json)
| RqDrain (id : string)
| RqRemoveNode (id : string)
| RqCreate (body : option json)
| RqList (q : list_query)
| RqGet (id : string) (force_refresh : bool)
| RqDestroy (id : string)
| RqRestart (id : string)
| RqWake (id : string)
| RqFiles (id : string)
| RqLogs (id tail follow : string)
| RqRoutes
| RqEvents (sandbox_id event_type limit : string)
| RqPoll (id : string) (ticks : list bool)
| RqAck (id cmd_id : string) (body : option json)
| RqReport (id : string) (body : option json).

Definition endpoint_of (rq : request) : endpoint :=
  match rq with
  | RqHealthz => GetHealthz
  | RqMetrics => GetMetrics
  | RqRegister _ => PostNodesRegister
  | RqListNodes => GetNodes
  | RqHeartbeat _ _ => PostNodeHeartbeat
  | RqDrain _ => PostNodeDrain
  | RqRemoveNode _ => DeleteNode
  | RqCreate _ => PostSandboxes
  | RqList _ => GetSandboxes
  | RqGet _ _ => GetSandboxById
  | RqDestroy _ => DeleteSandboxById
  | RqRestart _ => PostSandboxRestart
  | RqWake _ => PostSandboxWake
  | RqFiles _ => PostSandboxFiles
  | RqLogs _ _ _ => GetSandboxLogs
  | RqRoutes => GetRoutes
  | RqEvents _ _ _ => GetEvents
  | RqPoll _ _ => GetAgentCommands
  | RqAck _ _ _ => PostCommandAck
  | RqReport _ _ => PostAgentEvents
  end.

(** What [main] hands the server: its collaborators and its configuration. *)
Record Deployment := mkDeployment {
  dp_server : Server;
  dp_lifecycle : LifecycleService;
  dp_apiToken : string;
  dp_hmacSecret : string;
  dp_startTime : Z;
  dp_metricsStore : bool;
  dp_logProxyStore : bool;
}.

Section System.
Context `{External}.

(** The handler the router registers for a route. *)
Definition handler (d : Deployment) (rq : request) : ctl reply :=
  let sv := dp_server d in
  let ls := dp_lifecycle d in
  match rq with
  | RqHealthz => handleHealthz (dp_startTime d)
  | RqMetrics => handleMetrics (dp_metricsStore d)
  | RqRegister body => handleRegisterNode sv body
  | RqListNodes => handleListNodes
  | RqHeartbeat id body => handleHeartbeat sv id body
  | RqDrain id => handleDrainNode id
  | RqRemoveNode id => handleRemoveNode id
  | RqCreate body => handleCreateSandbox sv body
  | RqList q => handleListSandboxes sv q
  | RqGet id force => handleGetSandbox sv id force
  | RqDestroy id => handleDestroySandbox sv id
  | RqRestart id => handleRestartSandbox sv id
  | RqWake id => handleWakeSandbox sv id
  | RqFiles id => handleFilePush (dp_hmacSecret d) id
  | RqLogs id tail follow => handleGetLogs (dp_logProxyStore d) id tail follow
  | RqRoutes => handleListRoutes sv
  | RqEvents sid ty limit => handleListEvents sv sid ty limit
  | RqPoll id ticks => handlePollCommands id ticks
  | RqAck id cmd body => handleAckCommand ls id cmd body
  | RqReport id body => handleReportEvent ls id body
  end.

(** [RegisterRoutes]: the handler behind the authentication of its group. *)
Definition dispatch (d : Deployment) (auth : string) (rq : request) : ctl reply :=
  serve (dp_apiToken d) auth (endpoint_of rq) (handler d rq).

(** Requests whose handler writes states an agent reported. *)
Definition believes_agents (rq : request) : bool :=
  match rq with RqHeartbeat _ _ | RqGet _ _ => true | _ => false end.

(** ** What handlers may do to the tables *)

#[local] Hint Resolve issues_register : forge.

Lemma issues_serve R apiToken auth e p :
  issues (within R) p -> issues (within R) (serve apiToken auth e p).
Proof. intros Hp. unfold serve, BearerAuth. issue_tac. Qed.

Lemma issues_with_node R id (k : uuid -> ctl reply) :
  (forall n, issues (within R) (k n)) -> issues (within R) (with_node id k).
Proof. intros Hk. unfold with_node. issue_tac. Qed.

Lemma issues_poll_loop R n ticks : issues (within R) (poll_loop n ticks).
Proof. induction ticks as [|t ticks IH]; cbn [poll_loop]; issue_tac; apply IH. Qed.

Lemma issues_poll R id ticks : issues (within R) (handlePollCommands id ticks).
Proof. unfold handlePollCommands. issue_tac; apply issues_poll_loop. Qed.

Lemma issues_on_sandbox R sv id (op : uuid -> ctl (result unit)) f :
  (forall i, issues (within R) (op i)) -> issues (within R) (on_sandbox sv id op f).
Proof. intros Hop. unfold on_sandbox. issue_tac. Qed.

#[local] Hint Resolve issues_create issues_ack issues_event issues_destroy issues_wake
  issues_restart issues_poll : forge.

(** The trusted handlers move states as the lifecycle does. *)
Lemma issues_handler d rq :
  believes_agents rq = false -> issues (within service_move) (handler d rq).
Proof.
  destruct rq; intros Hb; cbn [handler]; cbv zeta; try done;
    try (apply issues_on_sandbox; intros; solve [eauto with forge]);
    try (apply issues_with_node; intros; solve [issue_tac]);
    try solve [eauto with forge].
  - unfold handleHealthz, Ping. issue_tac.
  - unfold handleMetrics. issue_tac.
  - unfold handleListNodes. issue_tac.
  - unfold handleCreateSandbox. issue_tac.
  - unfold handleListSandboxes. issue_tac.
  - unfold handleFilePush. issue_tac.
  - unfold handleGetLogs. issue_tac.
  - unfold handleListRoutes, ListRoutes. issue_tac.
  - unfold handleListEvents. issue_tac.
  - unfold handleAckCommand. issue_tac.
  - unfold handleReportEvent. issue_tac.
Qed.

(** Every handler keeps to the moves the CHECK of the column allows. *)
Lemma issues_any_handler d rq : issues (within any_move) (handler d rq).
Proof.
  destruct (believes_agents rq) eqn:Hb.
  - destruct rq; try done; cbn [handler]; cbv zeta.
    + unfold handleHeartbeat. issue_tac. apply issues_with_node. intros m. issue_tac.
      apply issues_reconcilerAdapter.
    + unfold handleGetSandbox, lookup_sandbox. issue_tac. apply issues_freshness.
  - eapply issues_weaken; [|by apply issues_handler]. done.
Qed.

(** ** The programs in flight *)

(** Services and requests that decide by the program's own rules. *)
Inductive control_serves : ctl unit -> Prop :=
| cs_service p : control_program p -> control_serves p
| cs_request d auth rq :
    believes_agents rq = false -> control_serves (ignore (dispatch d auth rq)).

(** All of them. *)
Inductive system_program : ctl unit -> Prop :=
| sy_service p : any_program p -> system_program p
| sy_request d auth rq : system_program (ignore (dispatch d auth rq)).

Lemma control_serves_within p : control_serves p -> issues (within control_move) p.
Proof.
  intros [q Hq|d auth rq Hb]; [by apply control_program_within|].
  apply issues_ignore, issues_serve. eapply issues_weaken; [|by apply issues_handler].
  unfold service_move, control_move. tauto.
Qed.

Lemma system_program_within p : system_program p -> issues (within any_move) p.
Proof.
  intros [q Hq|d auth rq]; [by apply any_program_within|].
  apply issues_ignore, issues_serve, issues_any_handler.
Qed.
End System.

Definition demo_deployment : Deployment :=
  mkDeployment demo_server (mkService true true) "secret" "k" 0 true true.

(** ** Properties *)

Section Properties.
#[local] Existing Instance demo_external | 100.

(** C6: in every run of the control plane, with any interleaving of HTTP
    requests, failovers, heartbeat checks, idle reaping and drift repair, with
    failing database calls, passing time, timer flushes and changing peers:
    the constraints of the schema hold at every moment; each step leaves a
    row that is there before and after with its immutable columns, a version
    that does not go back, and a state that is the same or moved along an edge
    of the transition table or by one of the two direct moves to failed; a row
    that appears is pending and on no node, and one that disappears had no
    command; so that between any two moments between which a row is never
    missing its state is reached along those edges, and a destroyed row is
    still destroyed.  (The requests are all but the two whose handlers write
    what agents report.) *)
Theorem control_plane_safe `{External} w cs :
  db_wf (w_db w) -> run_of control_serves (([], w) :: cs) ->
  (forall i c, (([], w) :: cs) !! i = Some c -> db_wf (w_db c.2)) /\
  (forall i c c' id,
     (([], w) :: cs) !! i = Some c -> (([], w) :: cs) !! S i = Some c' ->
     row_step control_move (w_db c.2) id (row_at id c) (row_at id c')) /\
  (forall i n c c' id s s',
     (([], w) :: cs) !! i = Some c -> (([], w) :: cs) !! (i + n)%nat = Some c' ->
     row_at id c = Some s -> row_at id c' = Some s' ->
     (forall k d, (i <= k <= i + n)%nat -> (([], w) :: cs) !! k = Some d ->
        is_Some (row_at id d)) ->
     same_row s s' /\ rtc control_move (sb_State s) (sb_State s') /\
     (sb_State s = StateDestroyed -> sb_State s' = StateDestroyed)).
Proof.
  intros Hwf Hrun.
  assert (programs_within control_move (@nil (ctl unit))) as Hp by constructor.
  pose proof control_serves_within as Hin. split_and!.
  - intros i c Hc. exact (proj2 (run_safe _ _ Hin ([], w) cs i c Hp Hwf Hrun Hc)).
  - intros i c c' id Hc Hc'. exact (run_row _ _ Hin ([], w) cs i c c' id Hp Hwf Hrun Hc Hc').
  - intros i n c c' id s s' Hc Hc' Hs Hs' Hstay.
    destruct (run_row_stays _ _ Hin ([], w) cs id n i s s' c c' Hp Hwf Hrun Hc Hc' Hs Hs' Hstay)
      as [Hsame Hr].
    split_and!; [done|done|]. intros Hd. rewrite Hd in Hr. by apply control_moves_destroyed.
Qed.

(** An authenticated destroy request, alone: the row is there throughout and
    ends as destroying. *)
Lemma control_plane_safe_witness :
  let w := demo_world (demo_db StateRunning 0) in
  let p := ignore (dispatch demo_deployment "Bearer secret" (RqDestroy "7")) in
  exists cs, run_of control_serves (([], w) :: cs) /\
    last (([], w) :: cs) = Some ([Ret tt], (exec p w).2) /\
    db_wf (w_db (exec p w).2) /\
    (sb_State <$> sandboxes (w_db (exec p w).2) !! 7%N) = Some StateDestroying.
Proof.
  intros w p. destruct (solo_run control_serves p w) as (cs & Hrun & Hlast).
  assert (run_of control_serves (([], w) :: ([p], w) :: cs)) as Hall.
  { apply run_of_cons; [|done]. apply step_start.
    apply (cs_request demo_deployment "Bearer secret" (RqDestroy "7")). reflexivity. }
  exists (([p], w) :: cs). split; [done|]. split; [done|]. split; [|reflexivity].
  rewrite last_lookup in Hlast.
  refine (proj1 (@control_plane_safe demo_external w (([p], w) :: cs) _ Hall) (S _) _ Hlast).
  apply demo_db_wf, in_states. reflexivity.
Defined.

(** With heartbeats, fresh reads and the services that write what the
    agents report running as well, the schema still holds at every moment of
    every run, and the identity, the owner, the image, the resources and the
    environment of a row never change while it is there; the state itself
    can then go anywhere the CHECK allows. *)
Theorem agent_reports_keep_schema `{External} w cs :
  db_wf (w_db w) -> run_of system_program (([], w) :: cs) ->
  (forall i c, (([], w) :: cs) !! i = Some c -> db_wf (w_db c.2)) /\
  (forall i n c c' id s s',
     (([], w) :: cs) !! i = Some c -> (([], w) :: cs) !! (i + n)%nat = Some c' ->
     row_at id c = Some s -> row_at id c' = Some s' ->
     (forall k d, (i <= k <= i + n)%nat -> (([], w) :: cs) !! k = Some d ->
        is_Some (row_at id d)) ->
     same_row s s').
Proof.
  intros Hwf Hrun.
  assert (programs_within any_move (@nil (ctl unit))) as Hp by constructor.
  pose proof system_program_within as Hin. split.
  - intros i c Hc. exact (proj2 (run_safe _ _ Hin ([], w) cs i c Hp Hwf Hrun Hc)).
  - intros i n c c' id s s' Hc Hc' Hs Hs' Hstay.
    exact (proj1 (run_row_stays _ _ Hin ([], w) cs id n i s s' c c' Hp Hwf Hrun Hc Hc' Hs Hs' Hstay)).
Qed.

(** A heartbeat without the sandbox, alone. *)
Lemma agent_reports_keep_schema_witness :
  let w := demo_late (demo_db StateRunning 0) in
  let p := ignore (dispatch demo_deployment "Bearer secret"
    (RqHeartbeat "1" (Some (JObj [("containers", JArr [])])))) in
  db_wf (w_db (exec p w).2) /\
  (sb_State <$> sandboxes (w_db (exec p w).2) !! 7%N) = Some StateDestroyed.
Proof.
  intros w p. split; [|reflexivity].
  destruct (solo_run system_program p w) as (cs & Hrun & Hlast).
  assert (run_of system_program (([], w) :: ([p], w) :: cs)) as Hall.
  { apply run_of_cons; [|done]. apply step_start.
    apply (sy_request demo_deployment "Bearer secret"
      (RqHeartbeat "1" (Some (JObj [("containers", JArr [])])))). }
  rewrite last_lookup in Hlast.
  refine (proj1 (@agent_reports_keep_schema demo_external w (([p], w) :: cs) _ Hall) (S _) _ Hlast).
  apply demo_db_wf, in_states. reflexivity.
Defined.

End Properties.
