(* ===== verification/Control.v ===== *)
(** The control plane's process (control/cmd/forge-control/main.go,
    control/internal/config, control/internal/api/server.go): the deployment its
    configuration makes, its background loops, and start-up and shutdown. *)

From S2P Require Import Prelude Json Models Scheduler Store StoreFacts Routing Effects Lifecycle.
From S2P Require Import Reschedule IdleReaper Reconciler Adapters Caddy Interleave StoreAdapter Api Register Push Executor System.

(** ** Configuration (config/config.go)

    The environment variables are read by envconfig; the values are given. *)
Record Config := mkConfig {
  kc_ListenAddr : string;
  kc_DatabaseURL : string;
  kc_APIToken : string;
  kc_HMACSecret : string;
  kc_LogLevel : string;
  kc_HeartbeatIntervalSeconds : Z;
  kc_HeartbeatMissThreshold : Z;
  kc_CaddyAdminURL : string;
  kc_IdleReaperIntervalSeconds : Z;
  kc_DriftDetectorIntervalSeconds : Z;
  kc_FreshnessWindowSeconds : Z;
  kc_AgentRequestTimeoutSeconds : Z;
}.

(** The defaults of the tags, for the variables that are not required. *)
Definition with_defaults (databaseURL token secret : string) : Config :=
  mkConfig ":8080" databaseURL token secret "info" 15 3 "http://localhost:2019" 60 60 10 3.

(** ** The deployment *)

(** [lifecycle.New] and its setters (control/internal/lifecycle/lifecycle.go). *)
Definition New : LifecycleService := mkService false false.
Definition SetRouteNotifier (ls : LifecycleService) : LifecycleService := mkService true (ls_restartMgr ls).
Definition SetRestartManager (ls : LifecycleService) : LifecycleService := mkService (ls_routeNotifier ls) true.

(** The [Server] of server.go while main.go puts it together.  Of a collaborator
    that is the store or a service without parameters only its presence counts;
    main gives the pool, the logger and the node store to [NewServer]. *)
Record ServerParts := mkParts {
  pt_config : string * string;          (* the API token, the HMAC secret *)
  pt_startTime : Z;
  pt_lifecycle : option LifecycleService;
  pt_sandboxReader : bool;
  pt_heartbeatIntervalSeconds : Z;
  pt_agentLifecycle : option LifecycleService;
  pt_filePushStore : bool;
  pt_metricsStore : bool;
  pt_routeFetcher : option CaddyClient;
  pt_eventStore : bool;
  pt_logProxyStore : bool;
  pt_reconciler : bool;
  pt_freshness : option Z;              (* the window of the service *)
}.

Definition NewServerConfig (apiToken hmacSecret : string) : string * string := (apiToken, hmacSecret).

(** An interval of 0 is 15. *)
Definition NewServer (cfg : string * string) (lc : option LifecycleService) (sr : bool) (heartbeatIntervalSec now : Z)
  : ServerParts :=
  mkParts cfg now lc sr (if heartbeatIntervalSec =? 0 then 15 else heartbeatIntervalSec)
    None false false None false false false None.

Definition SetAgentDeps (al : LifecycleService) (s : ServerParts) : ServerParts :=
  mkParts (pt_config s) (pt_startTime s) (pt_lifecycle s) (pt_sandboxReader s) (pt_heartbeatIntervalSeconds s)
    (Some al) (pt_filePushStore s) (pt_metricsStore s) (pt_routeFetcher s) (pt_eventStore s) (pt_logProxyStore s)
    (pt_reconciler s) (pt_freshness s).

Definition SetFilePushStore (s : ServerParts) : ServerParts :=
  mkParts (pt_config s) (pt_startTime s) (pt_lifecycle s) (pt_sandboxReader s) (pt_heartbeatIntervalSeconds s)
    (pt_agentLifecycle s) true (pt_metricsStore s) (pt_routeFetcher s) (pt_eventStore s) (pt_logProxyStore s)
    (pt_reconciler s) (pt_freshness s).

Definition SetMetricsStore (s : ServerParts) : ServerParts :=
  mkParts (pt_config s) (pt_startTime s) (pt_lifecycle s) (pt_sandboxReader s) (pt_heartbeatIntervalSeconds s)
    (pt_agentLifecycle s) (pt_filePushStore s) true (pt_routeFetcher s) (pt_eventStore s) (pt_logProxyStore s)
    (pt_reconciler s) (pt_freshness s).

Definition SetRouteFetcher (rf : CaddyClient) (s : ServerParts) : ServerParts :=
  mkParts (pt_config s) (pt_startTime s) (pt_lifecycle s) (pt_sandboxReader s) (pt_heartbeatIntervalSeconds s)
    (pt_agentLifecycle s) (pt_filePushStore s) (pt_metricsStore s) (Some rf) (pt_eventStore s) (pt_logProxyStore s)
    (pt_reconciler s) (pt_freshness s).

Definition SetEventStore (s : ServerParts) : ServerParts :=
  mkParts (pt_config s) (pt_startTime s) (pt_lifecycle s) (pt_sandboxReader s) (pt_heartbeatIntervalSeconds s)
    (pt_agentLifecycle s) (pt_filePushStore s) (pt_metricsStore s) (pt_routeFetcher s) true (pt_logProxyStore s)
    (pt_reconciler s) (pt_freshness s).

(** main gives no client for the agents, so the default one is used. *)
Definition SetLogProxyStore (s : ServerParts) : ServerParts :=
  mkParts (pt_config s) (pt_startTime s) (pt_lifecycle s) (pt_sandboxReader s) (pt_heartbeatIntervalSeconds s)
    (pt_agentLifecycle s) (pt_filePushStore s) (pt_metricsStore s) (pt_routeFetcher s) (pt_eventStore s) true
    (pt_reconciler s) (pt_freshness s).

Definition SetReconciler (s : ServerParts) : ServerParts :=
  mkParts (pt_config s) (pt_startTime s) (pt_lifecycle s) (pt_sandboxReader s) (pt_heartbeatIntervalSeconds s)
    (pt_agentLifecycle s) (pt_filePushStore s) (pt_metricsStore s) (pt_routeFetcher s) (pt_eventStore s)
    (pt_logProxyStore s) true (pt_freshness s).

Definition SetFreshness (window : Z) (s : ServerParts) : ServerParts :=
  mkParts (pt_config s) (pt_startTime s) (pt_lifecycle s) (pt_sandboxReader s) (pt_heartbeatIntervalSeconds s)
    (pt_agentLifecycle s) (pt_filePushStore s) (pt_metricsStore s) (pt_routeFetcher s) (pt_eventStore s)
    (pt_logProxyStore s) (pt_reconciler s) (Some window).

(** What the handlers see of it; none when one that does not look would find
    no collaborator (the agents' handlers and the push). *)
Definition deployed (s : ServerParts) : option Deployment :=
  match pt_agentLifecycle s with
  | Some al =>
      if pt_filePushStore s
      then Some (mkDeployment
             (mkServer (pt_lifecycle s) (pt_sandboxReader s) (pt_reconciler s) (pt_freshness s) (pt_eventStore s)
                (pt_routeFetcher s) (pt_heartbeatIntervalSeconds s))
             al (pt_config s).1 (pt_config s).2 (pt_startTime s) (pt_metricsStore s) (pt_logProxyStore s))
      else None
  | None => None
  end.

(** main.go's calls, in its order. *)
Definition wired_service : LifecycleService := SetRestartManager (SetRouteNotifier New).

Definition wired (cfg : Config) (startTime : Z) : ServerParts :=
  let caddyClient := NewCaddyClient (kc_CaddyAdminURL cfg) in
  let srv := NewServer (NewServerConfig (kc_APIToken cfg) (kc_HMACSecret cfg)) (Some wired_service) true
               (kc_HeartbeatIntervalSeconds cfg) startTime in
  let srv := SetAgentDeps wired_service srv in
  let srv := SetFilePushStore srv in
  let srv := SetMetricsStore srv in
  let srv := SetRouteFetcher caddyClient srv in
  let srv := SetEventStore srv in
  let srv := SetLogProxyStore srv in
  let srv := SetReconciler srv in
  SetFreshness (kc_FreshnessWindowSeconds cfg * second) srv.

Definition monitor_config (cfg : Config) : MonitorConfig :=
  mkMonitorConfig (kc_HeartbeatIntervalSeconds cfg) (kc_HeartbeatMissThreshold cfg).

(** ** Background loops *)

Inductive background := HeartbeatMonitor | IdleReaper | DriftDetector | HttpServing (addr : string).

(** [time.Duration(n) * time.Second] *)
Definition in_seconds (n : Z) : Z := wrap64 (n * nanoseconds).

(** The interval a service is made with, in nanoseconds: the one given, or a
    minute (lifecycle/idle_reaper.go, routing/drift.go). *)
Definition NewIdleReaper (interval : Z) : Z := if interval <=? 0 then 60 * nanoseconds else interval.
Definition NewDriftDetector (interval : Z) : Z := if interval <=? 0 then 60 * nanoseconds else interval.

Section Loops.
Context `{External, MapOrder}.

Fixpoint ticking (ticks : nat) (body : ctl unit) : ctl unit :=
  match ticks with O => Ret tt | S ticks' => body ;;; ticking ticks' body end.

(** A loop over [time.NewTicker], for [ticks] ticks; the ticker panics
    ([None]) unless its interval is positive. *)
Definition on_ticker (interval : Z) (ticks : nat) (body : ctl unit) : option (ctl unit) :=
  if interval <=? 0 then None else Some (ticking ticks body).

Definition monitorHeartbeats (cfg : Config) (ticks : nat) : option (ctl unit) :=
  on_ticker (in_seconds (kc_HeartbeatIntervalSeconds cfg)) ticks (monitor_tick (monitor_config cfg)).

Definition IdleReaper_Run (interval : Z) (ticks : nat) : option (ctl unit) :=
  on_ticker interval ticks (ignore (reap true)).

Definition DriftDetector_Run (proxy : CaddyClient) (interval : Z) (ticks : nat) : option (ctl unit) :=
  on_ticker interval ticks (ignore (detect proxy)).

(** The loops of the process; what the server runs is file System's. *)
Definition loop_of (cfg : Config) (b : background) (ticks : nat) : option (ctl unit) :=
  match b with
  | HeartbeatMonitor => monitorHeartbeats cfg ticks
  | IdleReaper => IdleReaper_Run (NewIdleReaper (in_seconds (kc_IdleReaperIntervalSeconds cfg))) ticks
  | DriftDetector =>
      DriftDetector_Run (NewCaddyClient (kc_CaddyAdminURL cfg))
        (NewDriftDetector (in_seconds (kc_DriftDetectorIntervalSeconds cfg))) ticks
  | HttpServing _ => Some (Ret tt)
  end.
End Loops.

(** ** [main] *)

(** [MWait] returns on a signal ([None]) or when the server ends, with its
    error if it has one. *)
(** *** Migrations *)

(** What [runMigrations] asks of database/sql, goose and the file system;
    [IsMissing]: [os.Stat] answers that there is no such directory. *)
Inductive migrateE : Type -> Type :=
| SqlOpen (driver url : string) : migrateE (result unit)
| SetDialect (d : string) : migrateE (result unit)
| IsMissing (dir : string) : migrateE bool
| GooseUp (dir : string) : migrateE (result unit)
| SqlClose : migrateE unit.

Definition closing (r : result unit) : prog migrateE (result unit) := trigger SqlClose ;;; Ret r.

Definition runMigrations (databaseURL : string) : prog migrateE (result unit) :=
  db <- trigger (SqlOpen "pgx" databaseURL) ;;
  match db with
  | Err e => Ret (Err e)
  | Ok _ =>
      d <- trigger (SetDialect "postgres") ;;
      match d with
      | Err e => closing (Err e)
      | Ok _ =>
          missing <- trigger (IsMissing "migrations") ;;
          up <- trigger (GooseUp (if missing : bool then "control/migrations" else "migrations")) ;;
          closing up
      end
  end.

(** *** The process *)

(** [MMigrate] is a run of [runMigrations]. *)
Inductive mainE : Type -> Type :=
| MLoad : mainE (result Config)
| MNewPool (url : string) : mainE (result unit)
| MPing : mainE (result unit)
| MMigrate (url : string) : mainE (result unit)
| MGo (b : background) : mainE unit
| MWait : mainE (option error)
| MShutdown : mainE (result unit)
| MCancel : mainE unit
| MStopBatcher : mainE unit
| MClosePool : mainE unit.

Definition go (b : background) : prog mainE unit := trigger (MGo b).

(** The exit code.  [os.Exit] runs no deferred call. *)
Definition main : prog mainE Z :=
  cfg <- trigger MLoad ;;
  match cfg with
  | Err _ => Ret 1
  | Ok cfg =>
      pool <- trigger (MNewPool (kc_DatabaseURL cfg)) ;;
      match pool with
      | Err _ => Ret 1
      | Ok _ =>
          ping <- trigger MPing ;;
          match ping with
          | Err _ => Ret 1
          | Ok _ =>
              migrated <- trigger (MMigrate (kc_DatabaseURL cfg)) ;;
              match migrated with
              | Err _ => Ret 1
              | Ok _ =>
                  go HeartbeatMonitor ;;; go IdleReaper ;;; go DriftDetector ;;;
                  go (HttpServing (kc_ListenAddr cfg)) ;;;
                  trigger MWait ;;;
                  trigger MShutdown ;;; trigger MCancel ;;;
                  trigger MStopBatcher ;;; trigger MClosePool ;;; Ret 0
              end
          end
      end
  end.

(** ** Facts *)

Inductive main_obs :=
| ObsLoad (r : result Config) | ObsPool (r : result unit) | ObsPing (r : result unit)
| ObsMigrate (r : result unit) | ObsGo (b : background) | ObsEnd (r : option error)
| ObsShutdown (r : result unit) | ObsCancel | ObsStop | ObsClose.

Definition observe_main {X} (e : mainE X) : X -> main_obs :=
  match e in mainE X return X -> main_obs with
  | MLoad => ObsLoad
  | MNewPool _ => ObsPool
  | MPing => ObsPing
  | MMigrate _ => ObsMigrate
  | MGo b => fun _ => ObsGo b
  | MWait => ObsEnd
  | MShutdown => ObsShutdown
  | MCancel => fun _ => ObsCancel
  | MStopBatcher => fun _ => ObsStop
  | MClosePool => fun _ => ObsClose
  end.

Inductive migrate_obs :=
| OpenedDb (driver url : string) (r : result unit) | DialectSet (r : result unit)
| Looked (dir : string) (missing : bool) | WentUp (dir : string) (r : result unit) | ClosedDb.

Definition observe_migrate {X} (e : migrateE X) : X -> migrate_obs :=
  match e in migrateE X return X -> migrate_obs with
  | SqlOpen driver url => OpenedDb driver url
  | SetDialect _ => DialectSet
  | IsMissing dir => Looked dir
  | GooseUp dir => WentUp dir
  | SqlClose => fun _ => ClosedDb
  end.

Definition gone_of (o : main_obs) : option background := match o with ObsGo b => Some b | _ => None end.

(** What a program may answer, whatever its calls are answered. *)
Fixpoint yields {E : Type -> Type} {A} (P : A -> Prop) (p : prog E A) : Prop :=
  match p with Ret a => P a | Vis _ k => forall x, yields P (k x) end.

Lemma yields_bind {E : Type -> Type} {A B} (P : B -> Prop) (p : prog E A) (f : A -> prog E B) :
  (forall a, yields P (f a)) -> yields P (bind p f).
Proof. intros Hf. induction p as [a|X e k IH]; simpl; [apply Hf|]. intros x. apply IH. Qed.

Lemma yields_run {E : Type -> Type} {S A} (h : forall X, E X -> S -> X * S) (P : A -> Prop) (p : prog E A) s :
  yields P p -> P (run h p s).1.
Proof.
  induction p as [a|X e k IH] in s |- *; simpl; [done|]. intros Hp.
  destruct (h X e s) as [x s']. apply IH, Hp.
Qed.

(** The answers of a handler whose collaborator is missing. *)
Definition unwired (r : reply) : bool :=
  (rp_status r =? 503) &&
  match rp_body r with
  | BProblem _ _ detail =>
      bool_decide (detail ∈ ["sandbox service not configured"; "event service not configured";
                             "route service not configured"; "log proxy not configured"])
  | BText s => String.eqb s "metrics not configured"
  | _ => false
  end.

Ltac yield_step :=
  first
    [ match goal with |- yields _ (bind _ _) => apply yields_bind; intros end
    | match goal with |- yields _ (match ?x with _ => _ end) => destruct x eqn:? end
    | match goal with |- yields _ (let '(_, _) := ?x in _) => destruct x eqn:? end
    | match goal with |- yields _ (Ret _) => cbn [yields] end
    | match goal with |- unwired (match ?x with _ => _ end) = _ => destruct x eqn:? end
    | match goal with |- unwired (mkReply _ (BForwarded _)) = _ => apply andb_false_r end
    | reflexivity ].

Section Wired.
Context `{External} (cfg : Config) (start : Z).

Lemma poll_loop_wired n ticks : yields (fun r => unwired r = false) (poll_loop n ticks).
Proof. induction ticks as [|b ticks IH]; cbn [poll_loop]; repeat first [exact IH|yield_step]. Qed.

Lemma wired_handler d rq :
  deployed (wired cfg start) = Some d -> yields (fun r => unwired r = false) (handler d rq).
Proof.
  intros [= <-]. destruct rq; cbn [handler dp_server dp_lifecycle dp_hmacSecret dp_startTime dp_metricsStore
    dp_logProxyStore].
  all: unfold handleHealthz, handleMetrics, handleRegisterNode, register_again, register_new, handleListNodes,
    handleHeartbeat, handleDrainNode, handleRemoveNode, with_node, handleCreateSandbox, handleListSandboxes,
    handleGetSandbox, handleDestroySandbox, handleRestartSandbox, handleWakeSandbox, on_sandbox, handleFilePush,
    handleGetLogs, handleListRoutes, handleListEvents, handlePollCommands, handleAckCommand, handleReportEvent;
    cbn [sv_lifecycle sv_sandboxReader sv_reconciler sv_freshness sv_eventStore sv_routeFetcher negb];
    repeat yield_step; try apply poll_loop_wired.
  all: unfold list_reply, not_found_or, create_reply, ack_result, events_reply in *; repeat yield_step.
Qed.
End Wired.

Section LoopFacts.
Context `{External, MapOrder}.

Lemma ticking_within R ticks (body : ctl unit) :
  issues (within R) body -> issues (within R) (ticking ticks body).
Proof. intros Hb. induction ticks as [|ticks IH]; [done|]. by apply issues_bind. Qed.

Lemma on_ticker_within interval ticks body p :
  control_program body -> on_ticker interval ticks body = Some p -> issues (within control_move) p.
Proof.
  intros Hb. unfold on_ticker. destruct (_ <=? 0); [done|]. intros [= <-].
  by apply ticking_within, control_program_within.
Qed.

Lemma loop_within cfg b ticks p : loop_of cfg b ticks = Some p -> issues (within control_move) p.
Proof.
  destruct b; cbn [loop_of]; [apply on_ticker_within; constructor..|]. by intros [= <-].
Qed.
End LoopFacts.

(** ** Properties *)

(** The process starts in order and always ends well: it exits with 1, having
    started nothing, if it cannot load its configuration, reach the database or
    migrate it; otherwise it starts the monitor, the reaper, the detector and
    the server, and whatever ends it, a failure of the server to listen
    included, it shuts down, flushes the batcher, closes the pool and exits
    with 0. *)
Theorem main_in_order :
  behaves (@observe_main) main (fun t code =>
    (code = 1 /\ omap gone_of t = [] /\ exists t0 e, t = t0 ++ [e] /\
       match e with ObsLoad (Err _) | ObsPool (Err _) | ObsPing (Err _) | ObsMigrate (Err _) => True | _ => False end) \/
    (code = 0 /\ exists cfg e r,
       t = [ObsLoad (Ok cfg); ObsPool (Ok tt); ObsPing (Ok tt); ObsMigrate (Ok tt); ObsGo HeartbeatMonitor;
            ObsGo IdleReaper; ObsGo DriftDetector; ObsGo (HttpServing (kc_ListenAddr cfg)); ObsEnd e;
            ObsShutdown r; ObsCancel; ObsStop; ObsClose])).
Proof.
  unfold main. intros [cfg|e]; [|left; split_and!; [done..|by exists [], (ObsLoad (Err e))]].
  intros [[]|e]; [|left; split_and!; [done..|by exists [ObsLoad (Ok cfg)], (ObsPool (Err e))]].
  intros [[]|e]; [|left; split_and!; [done..|by exists [ObsLoad (Ok cfg); ObsPool (Ok tt)], (ObsPing (Err e))]].
  intros [[]|e]; [|left; split_and!; [done..|by exists [ObsLoad (Ok cfg); ObsPool (Ok tt); ObsPing (Ok tt)], (ObsMigrate (Err e))]].
  intros [] [] [] [] e r [] [] []. right. split; [done|]. by exists cfg, e, r.
Qed.

(** Migrations: the database that was opened is closed on every path, the
    migrations that run are those of the working directory, or of control/
    when it has none, and a success is goose's. *)
Theorem migrations_in_order url :
  behaves (@observe_migrate) (runMigrations url) (fun t r =>
    (exists e, t = [OpenedDb "pgx" url (Err e)] /\ r = Err e) \/
    (exists mid, t = OpenedDb "pgx" url (Ok tt) :: mid ++ [ClosedDb] /\
       ((exists e, mid = [DialectSet (Err e)] /\ r = Err e) \/
        (exists missing, mid = [DialectSet (Ok tt); Looked "migrations" missing;
           WentUp (if missing : bool then "control/migrations" else "migrations") r])))).
Proof.
  unfold runMigrations, closing. intros [[]|e]; [|left; by exists e].
  intros [[]|e].
  - intros missing up []. right. exists [DialectSet (Ok tt); Looked "migrations" missing;
      WentUp (if missing then "control/migrations" else "migrations") up].
    split; [done|]. right. by exists missing.
  - intros []. right. exists [DialectSet (Err e)]. split; [done|]. left. by exists e.
Qed.

(** Every collaborator is wired: the server main puts together is complete, and
    no request to it is ever answered that a service is not configured, whatever
    the database, the clock and the peers answer. *)
Theorem every_service_wired `{External} cfg start rq w :
  exists d, deployed (wired cfg start) = Some d /\ unwired (exec (handler d rq) w).1 = false.
Proof.
  destruct (deployed (wired cfg start)) as [d|] eqn:Hd; [|discriminate]. exists d. split; [done|].
  apply (yields_run (fun X => handle (X := X)) (fun r => unwired r = false)), (wired_handler cfg start), Hd.
Qed.

(** The background loops keep the schema and the state machine, for any number
    of ticks: a well-formed database stays so, through moves of the table and
    the two direct moves to failed. *)
Theorem loops_keep_schema `{External, MapOrder} cfg b ticks p w :
  loop_of cfg b ticks = Some p -> db_wf (w_db w) ->
  db_wf (w_db (exec p w).2) /\ db_steps control_move (w_db w) (w_db (exec p w).2).
Proof.
  intros Hp Hwf. pose proof (exec_within control_move p w (loop_within _ _ _ _ Hp) Hwf) as Hs.
  split; [by eapply db_steps_wf|done].
Qed.

Lemma loops_keep_schema_witness :
  exists p, @loop_of demo_external demo_order (with_defaults "postgres://" "t" "k") IdleReaper 3 = Some p /\
    db_wf (w_db (exec p (demo_late (demo_db StateRunning 0))).2).
Proof.
  eexists. split; [reflexivity|].
  apply (@loops_keep_schema demo_external demo_order (with_defaults "postgres://" "t" "k") IdleReaper 3 _
    (demo_late (demo_db StateRunning 0)) eq_refl), demo_db_wf, in_states. reflexivity.
Defined.

(** Only the heartbeat monitor can fail to run: its ticker panics, and with it
    the process, exactly when the configured interval is not positive; the
    reaper and the detector take a minute then. *)
Theorem only_the_monitor_panics `{External, MapOrder} cfg b ticks :
  loop_of cfg b ticks = None <-> b = HeartbeatMonitor /\ in_seconds (kc_HeartbeatIntervalSeconds cfg) <= 0.
Proof.
  destruct b; cbn [loop_of]; unfold monitorHeartbeats, IdleReaper_Run, DriftDetector_Run, on_ticker,
    NewIdleReaper, NewDriftDetector; repeat case_match; rewrite ?Z.leb_le, ?Z.leb_gt in *;
    unfold nanoseconds in *; naive_solver lia.
Qed.
