(* ===== verification/Router.v ===== *)
(** The routes of the control plane (control/internal/api/routes.go) as a table
    of methods and patterns, and the requests it makes of the requests that
    arrive. *)

From S2P Require Import Prelude Time Netip Url Json Models Scheduler Store StoreFacts Routing.
From S2P Require Import Effects Lifecycle Interleave Api Responses Register Paths Push System.

(** ** Patterns

    A name in braces matches one segment that is not empty; anything else
    matches itself. *)
Inductive pattern_segment := Fixed (s : string) | Wildcard.

Definition segment_of (s : string) : pattern_segment :=
  if HasPrefix s "{" then Wildcard else Fixed s.

Definition segments (path : string) : list string := split_slash (TrimPrefix path "/").

Definition pattern_of (p : string) : list pattern_segment := segment_of <$> segments p.

(** The segments the wildcards matched. *)
Fixpoint match_pattern (p : list pattern_segment) (l : list string) : option (list string) :=
  match p, l with
  | [], [] => Some []
  | Fixed s :: p', x :: l' => if String.eqb s x then match_pattern p' l' else None
  | Wildcard :: p', x :: l' => if String.eqb x "" then None else cons x <$> match_pattern p' l'
  | _, _ => None
  end.

(** ** The table *)

(** What a handler takes from the request: the wildcards, the query and the
    body.  [ticks] are the ticks of the poll loop. *)
Definition request_builder : Type := list string -> Values -> option json -> list bool -> request.

Definition param (n : nat) (l : list string) : string := nth n l "".

Definition list_query_of (q : Values) : list_query :=
  mkListQuery (Get q "app_name") (Get q "user_id") (Get q "state") (Get q "node_id") (Get q "limit").

Definition routes : list (string * string * request_builder) :=
  [("GET", "/v1/healthz", fun _ _ _ _ => RqHealthz);
   ("GET", "/v1/metrics", fun _ _ _ _ => RqMetrics);
   ("POST", "/v1/nodes/register", fun _ _ b _ => RqRegister b);
   ("GET", "/v1/nodes", fun _ _ _ _ => RqListNodes);
   ("POST", "/v1/nodes/{id}/heartbeat", fun p _ b _ => RqHeartbeat (param 0 p) b);
   ("POST", "/v1/nodes/{id}/drain", fun p _ _ _ => RqDrain (param 0 p));
   ("DELETE", "/v1/nodes/{id}", fun p _ _ _ => RqRemoveNode (param 0 p));
   ("POST", "/v1/sandboxes", fun _ _ b _ => RqCreate b);
   ("GET", "/v1/sandboxes", fun _ q _ _ => RqList (list_query_of q));
   ("GET", "/v1/sandboxes/{id}", fun p q _ _ =>
      RqGet (param 0 p) (String.eqb (Get q "force_refresh") "true"));
   ("DELETE", "/v1/sandboxes/{id}", fun p _ _ _ => RqDestroy (param 0 p));
   ("POST", "/v1/sandboxes/{id}/restart", fun p _ _ _ => RqRestart (param 0 p));
   ("POST", "/v1/sandboxes/{id}/wake", fun p _ _ _ => RqWake (param 0 p));
   ("POST", "/v1/sandboxes/{id}/files", fun p _ _ _ => RqFiles (param 0 p));
   ("GET", "/v1/sandboxes/{id}/logs", fun p q _ _ =>
      RqLogs (param 0 p) (Get q "tail") (Get q "follow"));
   ("GET", "/v1/routes", fun _ _ _ _ => RqRoutes);
   ("GET", "/v1/events", fun _ q _ _ =>
      RqEvents (Get q "sandbox_id") (Get q "event_type") (Get q "limit"));
   ("GET", "/v1/agents/{id}/commands", fun p _ _ t => RqPoll (param 0 p) t);
   ("POST", "/v1/agents/{id}/commands/{cmd_id}/ack", fun p _ b _ =>
      RqAck (param 0 p) (param 1 p) b);
   ("POST", "/v1/agents/{id}/events", fun p _ b _ => RqReport (param 0 p) b)].

(** The first route of the method that matches; without one, whether the path
    has a route of another method. *)
Fixpoint find_route (rs : list (string * string * request_builder)) (method : string)
    (l : list string) (other : bool) : bool + (request_builder * list string) :=
  match rs with
  | [] => inl other
  | (m, p, build) :: rs' =>
      match match_pattern (pattern_of p) l with
      | Some params => if String.eqb m method then inr (build, params)
                       else find_route rs' method l true
      | None => find_route rs' method l other
      end
  end.

(** chi routes the escaped path when it is not the default encoding. *)
Definition route_path (u : URL) : string :=
  if String.eqb (u_RawPath u) "" then u_Path u else u_RawPath u.

(** The request, or the status answered without a handler. *)
Definition route (method : string) (u : URL) (body : option json) (ticks : list bool) : Z + request :=
  match find_route routes method (segments (route_path u)) false with
  | inl other => inl (if other then 405 else 404)
  | inr (build, params) => inr (build params (Query (u_RawQuery u)) body ticks)
  end.

Section Router.
Context `{External} (d : Deployment) (zone : Z).

(** What the server makes of a request, up to the bytes of the body. *)
Definition serve_http (method : string) (u : URL) (auth : string) (body : option json)
    (ticks : list bool) : ctl http_response :=
  match route method u body ticks with
  | inl status => Ret (mkResponse status None)
  | inr rq => r <- dispatch d auth rq ;; Ret (respond zone r)
  end.
End Router.

(** ** Facts *)

(** A matched path is the pattern with the wildcards filled in. *)
Fixpoint fill (p : list pattern_segment) (params : list string) : list string :=
  match p with
  | [] => []
  | Fixed s :: p' => s :: fill p' params
  | Wildcard :: p' => match params with x :: params' => x :: fill p' params' | [] => [] end
  end.

Lemma match_fill p l params : match_pattern p l = Some params -> l = fill p params.
Proof.
  revert l params. induction p as [|[s|] p IH]; intros [|x l] params; simpl; try done.
  - destruct (String.eqb_spec s x) as [->|]; [|done]. intros Hm. by rewrite <- (IH _ _ Hm).
  - destruct (String.eqb x ""); [done|]. intros (ps & Hm & ->)%fmap_Some. by rewrite <- (IH _ _ Hm).
Qed.

(** Two routes of one method never match the same path, so their order in the
    table does not matter. *)
Definition clash (p q : list pattern_segment) : bool :=
  (length p =? length q)%nat &&
  forallb (fun '(a, b) => match a, b with Fixed s, Fixed t => String.eqb s t | _, _ => true end)
    (zip p q).

Lemma match_clash p q l a b :
  match_pattern p l = Some a -> match_pattern q l = Some b -> clash p q = true.
Proof.
  unfold clash. revert q l a b. induction p as [|x p IH]; intros [|y q] [|s l] a b; simpl; try done; try (by destruct x); try (by destruct y).
  - intros Hp Hq.
    assert (exists a' b', match_pattern p l = Some a' /\ match_pattern q l = Some b' /\
      match x, y with Fixed s, Fixed t => String.eqb s t | _, _ => true end = true)
      as (a' & b' & Ha & Hb & Hxy).
    { destruct x as [x|], y as [y|]; repeat case_match; simplify_option_eq; eauto.
      destruct (String.eqb_spec x s), (String.eqb_spec y s); simplify_eq. eexists _, _.
      split_and!; [done|done|apply String.eqb_refl]. }
    specialize (IH q l a' b' Ha Hb). apply andb_true_iff in IH as [Hl Hz].
    by rewrite Hxy, Hl, Hz.
Qed.

Lemma routes_disjoint i j m p q b c l x y :
  routes !! i = Some (m, p, b) -> routes !! j = Some (m, q, c) ->
  match_pattern (pattern_of p) l = Some x -> match_pattern (pattern_of q) l = Some y -> i = j.
Proof.
  intros Hi Hj Hx Hy. pose proof (match_clash _ _ _ _ _ Hx Hy) as Hc.
  assert (forallb (fun i => forallb (fun j =>
      match routes !! i, routes !! j with
      | Some (m, p, _), Some (n, q, _) =>
          (i =? j)%nat || negb (String.eqb m n) || negb (clash (pattern_of p) (pattern_of q))
      | _, _ => true end) (seq 0 20)) (seq 0 20) = true) as Hall by (vm_compute; reflexivity).
  assert (forall k r, routes !! k = Some r -> In k (seq 0 20)) as Hin.
  { intros k r Hk. apply in_seq. apply lookup_lt_Some in Hk. simpl in Hk. lia. }
  rewrite forallb_forall in Hall. specialize (Hall i (Hin _ _ Hi)).
  rewrite forallb_forall in Hall. specialize (Hall j (Hin _ _ Hj)).
  rewrite Hi, Hj, String.eqb_refl, Hc, !orb_false_r in Hall. by apply Nat.eqb_eq.
Qed.

Lemma find_route_at rs i m p b l x other :
  rs !! i = Some (m, p, b) -> match_pattern (pattern_of p) l = Some x ->
  (forall j q c, (j < i)%nat -> rs !! j = Some (m, q, c) -> match_pattern (pattern_of q) l = None) ->
  find_route rs m l other = inr (b, x).
Proof.
  revert i other. induction rs as [|[[m' p'] b'] rs IH]; intros i other Hi Hx Hno; [done|].
  cbn [find_route]. destruct i as [|i].
  - injection Hi as -> -> ->. by rewrite Hx, String.eqb_refl.
  - assert (forall o, find_route rs m l o = inr (b, x)) as Hrest.
    { intros o. apply (IH i); [done..|]. intros j q c Hj Hq. apply (Hno (S j) q c); [lia|done]. }
    destruct (match_pattern (pattern_of p') l) as [y|] eqn:Hy; [|apply Hrest].
    destruct (String.eqb_spec m' m) as [->|]; [|apply Hrest].
    rewrite (Hno 0%nat p' b') in Hy; [done|lia|done].
Qed.

(** A request whose path matches a route of its method gets there. *)
Lemma route_at i m p b u l x body ticks :
  routes !! i = Some (m, p, b) -> segments (route_path u) = l ->
  match_pattern (pattern_of p) l = Some x ->
  route m u body ticks = inr (b x (Query (u_RawQuery u)) body ticks).
Proof.
  intros Hi Hl Hx. unfold route. rewrite Hl, (find_route_at _ i _ p b _ x); [done..|].
  intros j q c Hj Hq. destruct (match_pattern (pattern_of q) l) as [y|] eqn:Hy; [|done].
  assert (j = i); [|lia]. by eapply routes_disjoint.
Qed.

(** The segments of a path joined from segments. *)
Lemma segments_join l : l <> [] -> Forall (fun s => no_slash s = true) l ->
  segments ("/" +:+ join_slash l) = l.
Proof. intros Hl Hs. unfold segments. rewrite TrimPrefix_app. by apply split_join. Qed.
