(* ===== verification/Cli.v ===== *)
(** The command line client (cli/cmd/forge): its HTTP client, and every command
    as the requests it makes, what it prints and the error it ends with. *)

From S2P Require Import Prelude Json Float64 Time Durations Url Models Scheduler Store StoreFacts.
From S2P Require Import Routing Effects Reconciler Adapters Api Responses Executor Wire AgentClient.

(** ** Effects

    A request with its timeout of thirty seconds, reading the body of a
    response, and the clock (in nanoseconds). *)
Inductive cliE : Type -> Type :=
| KDo (rq : agent_request) : cliE (result http_response)
| KRead (r : http_response) : cliE (result unit)
| KNow : cliE Z.

Definition cli (A : Type) : Type := prog cliE A.

(** What is printed: text as it is, a line, an indented JSON document, a table
    (output.go). *)
Inductive output :=
| OText (s : string)
| OLine (s : string)
| OIndented (j : json)
| OTable (headers : list string) (rows : list (list string)).

Definition outcome : Type := list output * result unit.

(** ** client.go *)

Record apiClient := mkApiClient { ap_baseURL : string; ap_token : string }.

(** [apiError]: title and detail are printed. *)
Definition decode_problem (body : option json) : option (string * string) :=
  j ← body; m ← members_of j;
  let '(_, ok1) := dec_field "type" dec_string "" m in
  let '(title, ok2) := dec_field "title" dec_string "" m in
  let '(_, ok3) := dec_field "status" dec_int64 0 m in
  let '(detail, ok4) := dec_field "detail" dec_string "" m in
  if ok1 && ok2 && ok3 && ok4 then Some (title, detail) else None.

Section Client.
Context `{ClientTexts, Quoting} (c : apiClient).

Definition parseError (r : http_response) : error :=
  let plain := OtherError ("HTTP " +:+ pretty (rs_status r) +:+ ": " +:+ body_text r) in
  match decode_problem (rs_json r) with
  | Some (title, detail) =>
      if String.eqb title "" then plain
      else if String.eqb detail "" then OtherError title
      else OtherError (title +:+ ": " +:+ detail)
  | None => plain
  end.

Definition cli_request (method url : string) (body : option json) : result agent_request :=
  match Parse url with
  | None => Err (Wrap "creating request" (OtherError "invalid URL"))
  | Some _ => Ok (mkAgentRequest method url "" body)
  end.

Definition setAuth (rq : agent_request) : agent_request :=
  if String.eqb (ap_token c) "" then rq
  else mkAgentRequest (aq_Method rq) (aq_URL rq) ("Bearer " +:+ ap_token c) (aq_Body rq).

(** Sending a request and reading its response. *)
Definition exchange (rq : agent_request) : cli (result http_response) :=
  sent <- trigger (KDo rq) ;;
  match sent with
  | Err e => Ret (Err (Wrap "sending request" e))
  | Ok r =>
      read <- trigger (KRead r) ;;
      match read with
      | Err e => Ret (Err (Wrap "reading response" e))
      | Ok _ => Ret (if 400 <=? rs_status r then Err (parseError r) else Ok r)
      end
  end.

Definition send (auth : bool) (method url : string) (body : option json) : cli (result http_response) :=
  match cli_request method url body with
  | Err e => Ret (Err e)
  | Ok rq => exchange (if auth then setAuth rq else rq)
  end.

Definition query_suffix (q : Values) : string :=
  if bool_decide (q = ∅) then "" else "?" +:+ Encode q.

Definition cli_get (path : string) (q : Values) : cli (result http_response) :=
  send true "GET" (ap_baseURL c +:+ path +:+ query_suffix q) None.

Definition getNoAuth (path : string) : cli (result http_response) :=
  send false "GET" (ap_baseURL c +:+ path) None.

Definition cli_post (path : string) (payload : option json) : cli (result http_response) :=
  send true "POST" (ap_baseURL c +:+ path) payload.

(** The body of a good response is not read, and an error reading the body of
    a bad one is ignored. *)
Definition cli_del (path : string) : cli (result unit) :=
  match cli_request "DELETE" (ap_baseURL c +:+ path) None with
  | Err e => Ret (Err e)
  | Ok rq =>
      sent <- trigger (KDo (setAuth rq)) ;;
      match sent with
      | Err e => Ret (Err (Wrap "sending request" e))
      | Ok r =>
          if 400 <=? rs_status r then trigger (KRead r) ;;; Ret (Err (parseError r)) else Ret (Ok tt)
      end
  end.

Definition failing (what : string) (e : error) : outcome := ([], Err (Wrap what e)).

(** A command that fetches a list, decodes it and prints it. *)
Definition show {A} (what : string) (fetch : cli (result http_response))
    (decode : option json -> option A) (print : A -> list output) : cli outcome :=
  r <- fetch ;;
  Ret (match r with
       | Err e => failing what e
       | Ok r =>
           match decode (rs_json r) with
           | None => failing "parsing response" (OtherError "invalid JSON")
           | Some a => (print a, Ok tt)
           end
       end).

(** A command that only reports that it went through. *)
Definition confirm {A} (what done : string) (p : cli (result A)) : cli outcome :=
  r <- p ;;
  Ret (match r with Err e => failing what e | Ok _ => ([OLine done], Ok tt) end).

(** ** output.go *)

Definition truncateID (id : string) : string := String.substring 0 8 id.

(** ** sandbox.go *)

Record listedSandbox := mkListed {
  ls_ID : string; ls_AppName : string; ls_State : string; ls_NodeID : string; ls_URL : string }.

Definition no_sandbox : listedSandbox := mkListed "" "" "" "" "".

Definition dec_listed : decoder listedSandbox := fun old j =>
  match j with
  | JNull => (old, true)
  | JObj m =>
      let '(id, ok1) := dec_field "id" dec_string (ls_ID old) m in
      let '(app, ok2) := dec_field "app_name" dec_string (ls_AppName old) m in
      let '(st, ok3) := dec_field "state" dec_string (ls_State old) m in
      let '(node, ok4) := dec_field "node_id" dec_string (ls_NodeID old) m in
      let '(url, ok5) := dec_field "url" dec_string (ls_URL old) m in
      (mkListed id app st node url, ok1 && ok2 && ok3 && ok4 && ok5)
  | _ => (old, false)
  end.

Definition decode_list {A} (field : string) (d : decoder A) (zero : A) (body : option json)
  : option (list A) :=
  j ← body; m ← members_of j;
  let '(l, ok) := dec_field field (dec_list d zero) [] m in if ok then Some l else None.

Definition decode_sandboxes : option json -> option (list listedSandbox) :=
  decode_list "sandboxes" dec_listed no_sandbox.

(** [q.Set] of the flags that are not empty. *)
Definition flag (key v : string) (q : Values) : Values := if String.eqb v "" then q else Set' key v q.

Definition sandbox_row (s : listedSandbox) : list string :=
  [truncateID (ls_ID s); ls_AppName s; ls_State s; truncateID (ls_NodeID s); ls_URL s].

Definition sandboxList (appName nodeID state : string) : cli outcome :=
  show "listing sandboxes"
    (cli_get "/v1/sandboxes" (flag "state" state (flag "node_id" nodeID (flag "app_name" appName ∅))))
    decode_sandboxes
    (fun l => [OTable ["ID"; "APP_NAME"; "STATE"; "NODE"; "URL"] (sandbox_row <$> l)]).

Definition sandboxInspect (id : string) : cli outcome :=
  r <- cli_get ("/v1/sandboxes/" +:+ id) ∅ ;;
  Ret (match r with
       | Err e => failing "inspecting sandbox" e
       | Ok r => ([match rs_json r with Some j => OIndented j | None => OText (body_text r) end], Ok tt)
       end).

Definition sandboxLogs (id : string) (follow : bool) (tail : Z) : cli outcome :=
  let q := Set' "tail" (pretty tail) ∅ in
  r <- cli_get ("/v1/sandboxes/" +:+ id +:+ "/logs") (if follow then Set' "follow" "true" q else q) ;;
  Ret (match r with
       | Err e => failing "fetching logs" e
       | Ok r => ([OText (body_text r)], Ok tt)
       end).

Definition sandboxRestart (id : string) : cli outcome :=
  confirm "restarting sandbox" ("Sandbox " +:+ id +:+ " restart queued")
    (cli_post ("/v1/sandboxes/" +:+ id +:+ "/restart") None).

Definition sandboxDestroy (id : string) : cli outcome :=
  confirm "destroying sandbox" ("Sandbox " +:+ id +:+ " destruction queued")
    (cli_del ("/v1/sandboxes/" +:+ id)).

(** ** node.go *)

Record listedNode := mkListedNode {
  ln_ID : string; ln_Hostname : string; ln_Status : string; ln_CapacityMb : Z; ln_UsedMb : Z;
  ln_RunningSandboxes : Z; ln_AgentVersion : string }.

Definition dec_node : decoder listedNode := fun old j =>
  match j with
  | JNull => (old, true)
  | JObj m =>
      let '(id, ok1) := dec_field "id" dec_string (ln_ID old) m in
      let '(host, ok2) := dec_field "hostname" dec_string (ln_Hostname old) m in
      let '(st, ok3) := dec_field "status" dec_string (ln_Status old) m in
      let '(cap, ok4) := dec_field "capacity_mb" dec_int64 (ln_CapacityMb old) m in
      let '(used, ok5) := dec_field "used_mb" dec_int64 (ln_UsedMb old) m in
      let '(run, ok6) := dec_field "running_sandboxes" dec_int64 (ln_RunningSandboxes old) m in
      let '(ver, ok7) := dec_field "agent_version" dec_string (ln_AgentVersion old) m in
      (mkListedNode id host st cap used run ver, ok1 && ok2 && ok3 && ok4 && ok5 && ok6 && ok7)
  | _ => (old, false)
  end.

Definition node_row (n : listedNode) : list string :=
  [truncateID (ln_ID n); ln_Hostname n; ln_Status n; pretty (ln_CapacityMb n); pretty (ln_UsedMb n);
   pretty (ln_RunningSandboxes n); ln_AgentVersion n].

Definition nodeList : cli outcome :=
  show "listing nodes" (cli_get "/v1/nodes" ∅)
    (decode_list "nodes" dec_node (mkListedNode "" "" "" 0 0 0 ""))
    (fun l => [OTable ["ID"; "HOSTNAME"; "STATUS"; "CAPACITY"; "USED"; "SANDBOXES"; "VERSION"]
                 (node_row <$> l)]).

Definition node_body (hostname tailscaleIP : string) (capacityMb : Z) (agentVer : string) : json :=
  JObj [("agent_version", JStr agentVer); ("capacity_mb", JInt capacityMb);
        ("hostname", JStr hostname); ("tailscale_ip", JStr tailscaleIP)].

Definition nodeAdd (hostname tailscaleIP : string) (capacityMb : Z) (agentVer : string) : cli outcome :=
  show "registering node"
    (cli_post "/v1/nodes/register" (Some (node_body hostname tailscaleIP capacityMb agentVer)))
    decode_registered
    (fun r => [OLine "Node registered successfully"; OLine ("  Node ID:    " +:+ rs_NodeID r);
               OLine ("  Heartbeat:  " +:+ pretty (rs_HeartbeatIntervalSeconds r) +:+ "s")]).

Definition nodeDrain (nodeID : string) : cli outcome :=
  confirm "draining node" ("Node " +:+ nodeID +:+ " set to draining")
    (cli_post ("/v1/nodes/" +:+ nodeID +:+ "/drain") None).

Definition nodeRemove (nodeID : string) : cli outcome :=
  confirm "removing node" ("Node " +:+ nodeID +:+ " removed") (cli_del ("/v1/nodes/" +:+ nodeID)).

(** ** routes.go *)

Record listedRoute := mkListedRoute { lr_AppName : string; lr_SandboxID : string; lr_Upstream : string }.

Definition dec_route : decoder listedRoute := fun old j =>
  match j with
  | JNull => (old, true)
  | JObj m =>
      let '(app, ok1) := dec_field "app_name" dec_string (lr_AppName old) m in
      let '(id, ok2) := dec_field "sandbox_id" dec_string (lr_SandboxID old) m in
      let '(up, ok3) := dec_field "upstream" dec_string (lr_Upstream old) m in
      (mkListedRoute app id up, ok1 && ok2 && ok3)
  | _ => (old, false)
  end.

Definition decode_routes : option json -> option (list listedRoute) :=
  decode_list "routes" dec_route (mkListedRoute "" "" "").

Definition routesList : cli outcome :=
  show "listing routes" (cli_get "/v1/routes" ∅) decode_routes
    (fun l => [OTable ["APP_NAME"; "SANDBOX_ID"; "UPSTREAM"]
                 ((fun r => [lr_AppName r; truncateID (lr_SandboxID r); lr_Upstream r]) <$> l)]).

(** The running sandboxes as [verify] reads them: id, application and state. *)
Definition dec_running : decoder (string * string * string) := fun old j =>
  match j with
  | JNull => (old, true)
  | JObj m =>
      let '(id, ok1) := dec_field "id" dec_string old.1.1 m in
      let '(app, ok2) := dec_field "app_name" dec_string old.1.2 m in
      let '(st, ok3) := dec_field "state" dec_string old.2 m in
      ((id, app, st), ok1 && ok2 && ok3)
  | _ => (old, false)
  end.

Definition decode_running : option json -> option (list (string * string * string)) :=
  decode_list "sandboxes" dec_running ("", "", "").

(** Routes without a running sandbox, then running sandboxes without a route. *)
Definition drifts (routes : list listedRoute) (running : list (string * string * string))
  : list (list string) :=
  let routedApps := (list_to_set (lr_AppName <$> routes) : gset string) in
  let runningApps := (list_to_set ((fun s => s.1.2) <$> running) : gset string) in
  ((fun r => [lr_AppName r; "orphan route"]) <$> filter (fun r => lr_AppName r ∉ runningApps) routes) ++
  ((fun s => [s.1.2; "missing route"]) <$> filter (fun s => s.1.2 ∉ routedApps) running).

Definition report_drifts (l : list (list string)) : outcome :=
  match l with
  | [] => ([OLine "No drift detected -- routes are clean"], Ok tt)
  | _ => ([OTable ["APP_NAME"; "ISSUE"] l],
          Err (OtherError ("found " +:+ pretty (Z.of_nat (length l)) +:+ " route drift(s)")))
  end.

Definition routesVerify : cli outcome :=
  r <- cli_get "/v1/routes" ∅ ;;
  match r with
  | Err e => Ret (failing "fetching routes" e)
  | Ok r =>
      match decode_routes (rs_json r) with
      | None => Ret (failing "parsing routes" (OtherError "invalid JSON"))
      | Some routes =>
          s <- cli_get "/v1/sandboxes" (Set' "state" "running" ∅) ;;
          Ret (match s with
               | Err e => failing "fetching sandboxes" e
               | Ok s =>
                   match decode_running (rs_json s) with
                   | None => failing "parsing sandboxes" (OtherError "invalid JSON")
                   | Some running => report_drifts (drifts routes running)
                   end
               end)
      end
  end.

(** ** events.go *)

Record listedEvent := mkListedEvent {
  le_ID : Z; le_SandboxID : string; le_EventType : string; le_PrevState : string;
  le_NextState : string; le_CreatedAt : string }.

Definition dec_event : decoder listedEvent := fun old j =>
  match j with
  | JNull => (old, true)
  | JObj m =>
      let '(id, ok1) := dec_field "id" dec_int64 (le_ID old) m in
      let '(sb, ok2) := dec_field "sandbox_id" dec_string (le_SandboxID old) m in
      let '(ty, ok3) := dec_field "event_type" dec_string (le_EventType old) m in
      let '(prev, ok4) := dec_field "prev_state" dec_string (le_PrevState old) m in
      let '(next, ok5) := dec_field "next_state" dec_string (le_NextState old) m in
      let '(at_, ok6) := dec_field "created_at" dec_string (le_CreatedAt old) m in
      (mkListedEvent id sb ty prev next at_, ok1 && ok2 && ok3 && ok4 && ok5 && ok6)
  | _ => (old, false)
  end.

Definition decode_events : option json -> option (list listedEvent) :=
  decode_list "events" dec_event (mkListedEvent 0 "" "" "" "" "").

(** The age of an instant, of which the sign is dropped ([-d] wraps). *)
Definition formatRelativeTime (now t : Z) : string :=
  let d := Sub now t in
  let d := if d <? 0 then wrap64 (- d) else d in
  if d <? Minute then pretty (Round (in_units Second d)) +:+ "s ago"
  else if d <? Hour then pretty (Round (in_units Minute d)) +:+ "m ago"
  else if d <? 24 * Hour
  then let h := truncated (in_units Hour d) in
       let m := Z.rem (truncated (in_units Minute d)) 60 in
       if 0 <? m then pretty h +:+ "h" +:+ pretty m +:+ "m ago" else pretty h +:+ "h ago"
  else pretty (truncated (fl (in_units Hour d / 24))) +:+ "d ago".

Definition transition (e : listedEvent) : string :=
  if bool_decide (le_PrevState e <> "" \/ le_NextState e <> "")
  then le_PrevState e +:+ " -> " +:+ le_NextState e else "".

(** The instant of an event; the zero time is treated as none. *)
Definition event_time (e : listedEvent) : option Z :=
  t ← Parse_Z (le_CreatedAt e); if t =? zero_time then None else Some t.

(** The row of an event, unless it is older than [since].  The clock is read
    for each row with a time. *)
Definition event_row (since : option Z) (e : listedEvent) : cli (option (list string)) :=
  let row time := Some [time; le_EventType e; truncateID (le_SandboxID e); transition e] in
  match event_time e with
  | None => Ret (row (le_CreatedAt e))
  | Some t =>
      if (match since with Some since => t <? since | None => false end) then Ret None
      else now <- trigger KNow ;; Ret (row (formatRelativeTime now t))
  end.

Definition event_rows (since : option Z) (l : list listedEvent) : cli (list (list string)) :=
  range (fun rows e => r <- event_row since e ;; Ret (rows ++ from_option (fun r => [r]) [] r)) l [].

Definition events_query (sandboxID eventType : string) (limit : Z) : Values :=
  flag "event_type" eventType (flag "sandbox_id" sandboxID (Set' "limit" (pretty limit) ∅)).

(** The instant of the filter [--since]: a duration before now; a result at
    the zero time is no filter. *)
Definition since_time (since : string) : cli (result (option Z)) :=
  if String.eqb since "" then Ret (Ok None)
  else match ParseDuration since with
       | None => Ret (Err (Wrap ("invalid --since duration " +:+ quoted since) (OtherError "time: invalid duration")))
       | Some dur =>
           now <- trigger KNow ;;
           let t := now - dur in
           Ret (Ok (if t =? zero_time then None else Some t))
       end.

Definition events (sandboxID eventType since : string) (limit : Z) : cli outcome :=
  r <- cli_get "/v1/events" (events_query sandboxID eventType limit) ;;
  match r with
  | Err e => Ret (failing "fetching events" e)
  | Ok r =>
      match decode_events (rs_json r) with
      | None => Ret (failing "parsing response" (OtherError "invalid JSON"))
      | Some l =>
          s <- since_time since ;;
          match s with
          | Err e => Ret ([], Err e)
          | Ok since =>
              rows <- event_rows since l ;;
              Ret ([OTable ["TIME"; "TYPE"; "SANDBOX_ID"; "TRANSITION"] rows], Ok tt)
          end
      end
  end.

(** ** health.go *)

Definition formatUptime (seconds : Z) : string :=
  let h := Z.quot seconds 3600 in
  let m := Z.quot (Z.rem seconds 3600) 60 in
  let s := Z.rem seconds 60 in
  let part z u := pretty z +:+ u in
  if (0 <? h) && (0 <? m) then part h "h " +:+ part m "m " +:+ part s "s"
  else if 0 <? h then part h "h " +:+ part s "s"
  else if 0 <? m then part m "m " +:+ part s "s"
  else part s "s".

Definition decode_health (body : option json) : option (string * string * Z) :=
  j ← body; m ← members_of j;
  let '(st, ok1) := dec_field "status" dec_string "" m in
  let '(pg, ok2) := dec_field "postgres" dec_string "" m in
  let '(up, ok3) := dec_field "uptime_seconds" dec_int64 0 m in
  if ok1 && ok2 && ok3 then Some (st, pg, up) else None.

Definition ok_or_fail (s : string) : string := if String.eqb s "ok" then "OK" else "FAIL".

Definition healthcheck : cli outcome :=
  r <- getNoAuth "/v1/healthz" ;;
  Ret (match r with
       | Err e => failing "checking health" e
       | Ok r =>
           match decode_health (rs_json r) with
           | None => failing "parsing response" (OtherError "invalid JSON")
           | Some (st, pg, up) =>
               ([OLine ("Control Plane: " +:+ ok_or_fail st); OLine ("Postgres:      " +:+ ok_or_fail pg);
                 OLine ("Uptime:        " +:+ formatUptime up)],
                if String.eqb st "ok" then Ok tt
                else Err (OtherError ("control plane unhealthy: status=" +:+ st)))
           end
       end).

(** ** root.go: the tree of commands, with the flags and arguments of each *)

Inductive command :=
| NodeList
| NodeAdd (hostname tailscaleIP : string) (capacityMb : Z) (agentVer : string)
| NodeDrain (id : string)
| NodeRemove (id : string)
| SandboxList (appName nodeID state : string)
| SandboxInspect (id : string)
| SandboxLogs (id : string) (follow : bool) (tail : Z)
| SandboxRestart (id : string)
| SandboxDestroy (id : string)
| RoutesList
| RoutesVerify
| Events (sandboxID eventType since : string) (limit : Z)
| Healthcheck.

Definition run_command (cmd : command) : cli outcome :=
  match cmd with
  | NodeList => nodeList
  | NodeAdd hostname ip mb ver => nodeAdd hostname ip mb ver
  | NodeDrain id => nodeDrain id
  | NodeRemove id => nodeRemove id
  | SandboxList app node state => sandboxList app node state
  | SandboxInspect id => sandboxInspect id
  | SandboxLogs id follow tail => sandboxLogs id follow tail
  | SandboxRestart id => sandboxRestart id
  | SandboxDestroy id => sandboxDestroy id
  | RoutesList => routesList
  | RoutesVerify => routesVerify
  | Events sb ty since limit => events sb ty since limit
  | Healthcheck => healthcheck
  end.

(** main.go: the exit code. *)
Definition exit_code (o : outcome) : Z := match o.2 with Ok _ => 0 | Err _ => 1 end.
End Client.

Example relative_times :
  formatRelativeTime (90 * Second) 0 = "2m ago" /\ formatRelativeTime 0 (45 * Second) = "45s ago" /\
  formatRelativeTime (3 * Hour + 5 * Minute) 0 = "3h5m ago" /\ formatRelativeTime (50 * Hour) 0 = "2d ago".
Proof. vm_compute. split_and!; reflexivity. Qed.
