(* ===== verification/Commands.v ===== *)
(** The command tree of the client (cli/cmd/forge): every cobra command with its
    flags, the arguments it accepts and what it runs, and [main]. Finding the
    command of a command line and parsing its flags is cobra's. *)

From S2P Require Import Prelude Json Float64 Time Durations Url Models Scheduler Store StoreFacts.
From S2P Require Import Routing Effects Executor Wire AgentClient ClientFacts Cli.

(** ** cobra *)

Inductive flag_value := VString (s : string) | VInt (z : Z) | VBool (b : bool).

Record FlagDef := mkFlag {
  fd_Name : string;
  fd_Default : flag_value;
  fd_Usage : string;
  fd_Required : bool;
}.

(** Without [Args], any positional arguments are args_accepted. *)
Inductive PositionalArgs := ArbitraryArgs | ExactArgs (n : nat).

(** A parsed command line: the values of the flags and the positional
    arguments. *)
Record Parsed := mkParsed {
  pa_Flags : string -> flag_value;
  pa_Args : list string;
}.

(** What a command runs; [None] is a panic. *)
Definition RunE : Type := Parsed -> option (cli outcome).

Inductive Cobra := mkCobra (use short : string) (accepts : PositionalArgs)
  (persistent flags : list FlagDef) (run : option RunE) (sub : list Cobra).

Definition cb_Use '(mkCobra use _ _ _ _ _ _) : string := use.
Definition cb_Args '(mkCobra _ _ a _ _ _ _) : PositionalArgs := a.
Definition cb_Persistent '(mkCobra _ _ _ p _ _ _) : list FlagDef := p.
Definition cb_Flags '(mkCobra _ _ _ _ fl _ _) : list FlagDef := fl.
Definition cb_RunE '(mkCobra _ _ _ _ _ r _) : option RunE := r.
Definition cb_Sub '(mkCobra _ _ _ _ _ _ sub) : list Cobra := sub.

(** A command without flags that runs [run]. *)
Definition leaf (use short : string) (accepts : PositionalArgs) (run : RunE) : Cobra :=
  mkCobra use short accepts [] [] (Some run) [].

(** A command with subcommands only. *)
Definition group (use short : string) (sub : list Cobra) : Cobra :=
  mkCobra use short ArbitraryArgs [] [] None sub.

Definition StringVar (name dflt usage : string) : FlagDef := mkFlag name (VString dflt) usage false.
Definition IntVar (name : string) (dflt : Z) (usage : string) : FlagDef := mkFlag name (VInt dflt) usage false.
Definition BoolVar (name : string) (dflt : bool) (usage : string) : FlagDef := mkFlag name (VBool dflt) usage false.
Definition MarkFlagRequired (f : FlagDef) : FlagDef := mkFlag (fd_Name f) (fd_Default f) (fd_Usage f) true.

(** Reading a flag as a type it does not have gives the zero value. *)
Definition GetString (p : Parsed) (name : string) : string :=
  match pa_Flags p name with VString s => s | _ => "" end.
Definition GetInt (p : Parsed) (name : string) : Z :=
  match pa_Flags p name with VInt z => z | _ => 0 end.
Definition GetBool (p : Parsed) (name : string) : bool :=
  match pa_Flags p name with VBool b => b | _ => false end.

(** ** Commands *)

(** root.go: the address and the token are persistent flags. *)
Definition resolveClient (p : Parsed) : apiClient :=
  mkApiClient (GetString p "api-url") (GetString p "api-token").

Section Tree.
Context `{ClientTexts, Quoting}.

(** A command of one argument, [args[0]]. *)
Definition on_first (f : apiClient -> string -> cli outcome) : RunE := fun p =>
  id ← pa_Args p !! 0%nat; Some (f (resolveClient p) id).

Definition newSandboxListCmd : Cobra :=
  mkCobra "list" "List sandboxes with optional filters" ArbitraryArgs []
    [StringVar "app" "" "Filter by app name"; StringVar "node" "" "Filter by node ID";
     StringVar "state" "" "Filter by state (pending, running, failed, etc.)"]
    (Some (fun p => Some (sandboxList (resolveClient p) (GetString p "app") (GetString p "node")
                            (GetString p "state")))) [].

Definition newSandboxInspectCmd : Cobra :=
  leaf "inspect <id-or-app-name>" "Show full sandbox details as JSON" (ExactArgs 1)
    (on_first sandboxInspect).

Definition newSandboxLogsCmd : Cobra :=
  mkCobra "logs <id-or-app-name>" "Stream sandbox logs" (ExactArgs 1) []
    [BoolVar "follow" false "Follow log output";
     IntVar "tail" 100 "Number of lines to show from the end"]
    (Some (fun p => on_first (fun c id => sandboxLogs c id (GetBool p "follow") (GetInt p "tail")) p)) [].

Definition newSandboxRestartCmd : Cobra :=
  leaf "restart <id>" "Force restart a sandbox" (ExactArgs 1) (on_first sandboxRestart).

Definition newSandboxDestroyCmd : Cobra :=
  leaf "destroy <id>" "Destroy a sandbox" (ExactArgs 1) (on_first sandboxDestroy).

Definition newSandboxCmd : Cobra :=
  group "sandbox" "Manage sandboxes"
    [newSandboxListCmd; newSandboxInspectCmd; newSandboxLogsCmd; newSandboxRestartCmd;
     newSandboxDestroyCmd].

Definition newNodeListCmd : Cobra :=
  leaf "list" "List all registered nodes" ArbitraryArgs (fun p => Some (nodeList (resolveClient p))).

Definition newNodeAddCmd : Cobra :=
  mkCobra "add" "Register a new node" ArbitraryArgs []
    (MarkFlagRequired <$>
     [StringVar "hostname" "" "Node hostname (required)";
      StringVar "tailscale-ip" "" "Tailscale IP address (required)";
      IntVar "capacity-mb" 0 "Memory capacity in MB (required)";
      StringVar "agent-version" "" "Agent version (required)"])
    (Some (fun p => Some (nodeAdd (resolveClient p) (GetString p "hostname") (GetString p "tailscale-ip")
                            (GetInt p "capacity-mb") (GetString p "agent-version")))) [].

Definition newNodeDrainCmd : Cobra :=
  leaf "drain <node-id>" "Set a node to draining status" (ExactArgs 1) (on_first nodeDrain).

Definition newNodeRemoveCmd : Cobra :=
  leaf "remove <node-id>" "Remove a node (must have 0 sandboxes)" (ExactArgs 1) (on_first nodeRemove).

Definition newNodeCmd : Cobra :=
  group "node" "Manage fleet nodes" [newNodeListCmd; newNodeAddCmd; newNodeDrainCmd; newNodeRemoveCmd].

Definition newRoutesListCmd : Cobra :=
  leaf "list" "List active routes" ArbitraryArgs (fun p => Some (routesList (resolveClient p))).

Definition newRoutesVerifyCmd : Cobra :=
  leaf "verify" "Diff routes vs running sandboxes to detect drift" ArbitraryArgs
    (fun p => Some (routesVerify (resolveClient p))).

Definition newRoutesCmd : Cobra :=
  group "routes" "Manage routing table" [newRoutesListCmd; newRoutesVerifyCmd].

Definition newEventsCmd : Cobra :=
  mkCobra "events" "Show event history" ArbitraryArgs []
    [StringVar "sandbox" "" "Filter by sandbox UUID"; StringVar "type" "" "Filter by event type";
     StringVar "since" "" "Show events newer than duration (e.g., 5m, 1h, 24h)";
     IntVar "limit" 100 "Maximum number of events to fetch"]
    (Some (fun p => Some (events (resolveClient p) (GetString p "sandbox") (GetString p "type")
                            (GetString p "since") (GetInt p "limit")))) [].

Definition newHealthCmd : Cobra :=
  leaf "healthcheck" "Show control plane health status" ArbitraryArgs
    (fun p => Some (healthcheck (resolveClient p))).

(** [os.Getenv] is the argument [env]. *)
Definition envOrDefault (env : string -> string) (key fallback : string) : string :=
  if String.eqb (env key) "" then fallback else env key.

Definition newRootCmd (env : string -> string) : Cobra :=
  mkCobra "forge" "Forge fleet management CLI" ArbitraryArgs
    [StringVar "api-url" (envOrDefault env "FORGE_API_URL" "http://localhost:8080")
       "Control plane API URL (env: FORGE_API_URL)";
     StringVar "api-token" (envOrDefault env "FORGE_API_TOKEN" "")
       "API bearer token (env: FORGE_API_TOKEN)";
     StringVar "output" "table" "Output format: table or json"]
    [] None [newNodeCmd; newSandboxCmd; newRoutesCmd; newEventsCmd; newHealthCmd].
End Tree.

(** ** What cobra promises *)

(** The commands of a tree, each with the flags it has: its own and the
    persistent ones above it. *)
Fixpoint commands (inherited : list FlagDef) (c : Cobra) : list (Cobra * list FlagDef) :=
  match c with
  | mkCobra _ _ _ persistent flags _ sub =>
      (c, inherited ++ persistent ++ flags) :: (sub ≫= commands (inherited ++ persistent))
  end.

Definition args_accepted (a : PositionalArgs) (args : list string) : Prop :=
  match a with ArbitraryArgs => True | ExactArgs n => length args = n end.

Definition same_type (a b : flag_value) : Prop :=
  match a, b with
  | VString _, VString _ | VInt _, VInt _ | VBool _, VBool _ => True
  | _, _ => False
  end.

(** Values of the right type for the flags of a command, and arguments it
    accepts. *)
Definition parsed_for (cmd : Cobra) (flags : list FlagDef) (p : Parsed) : Prop :=
  args_accepted (cb_Args cmd) (pa_Args p) /\
  Forall (fun f => same_type (fd_Default f) (pa_Flags p (fd_Name f))) flags.

(** What the library makes of a command line that is no error: it runs a command
    of the tree with what it parsed, or it answers itself.  To every tree it
    adds the commands help and completion and the flag --help, for which it
    prints a text, checks no argument and runs nothing of the tree. *)
Inductive Found :=
| Runs (cmd : Cobra) (p : Parsed)
| Answered.

(** An unknown command, a flag that does not parse, a required one that is
    missing and a wrong number of arguments are errors. *)
Class CobraLib := { Find : Cobra -> list string -> result Found }.

(** A command of the tree is run with values of the flags' types and with
    arguments it accepts. *)
Class CobraLaws `{CobraLib} := {
  Find_sound root argv cmd p : Find root argv = Ok (Runs cmd p) ->
    exists flags, (cmd, flags) ∈ commands [] root /\ parsed_for cmd flags p;
}.

(** [main]: a command that runs nothing prints its help.  What the library
    prints is not modelled. *)
Definition main `{CobraLib, ClientTexts, Quoting} (env : string -> string) (argv : list string)
  : option (cli outcome) :=
  match Find (newRootCmd env) argv with
  | Err e => Some (Ret ([], Err e))
  | Ok Answered => Some (Ret ([], Ok tt))
  | Ok (Runs cmd p) => match cb_RunE cmd with None => Some (Ret ([], Ok tt)) | Some run => run p end
  end.

(** ** Command lines and commands *)

Section Lines.
Context `{ClientTexts, Quoting}.

Lemma on_first_one f p : length (pa_Args p) = 1%nat -> exists id, on_first f p = Some (f (resolveClient p) id).
Proof. intros Hl. unfold on_first. destruct (pa_Args p) as [|id [|]]; [done| |done]. by exists id. Qed.

(** What a command of the tree runs is one of the [command]s. *)
Lemma tree_runs env cmd flags p run :
  (cmd, flags) ∈ commands [] (newRootCmd env) -> parsed_for cmd flags p -> cb_RunE cmd = Some run ->
  exists c, run p = Some (run_command (resolveClient p) c).
Proof.
  intros Hin [Ha _] Hrun. simpl in Hin.
  repeat (apply elem_of_cons in Hin as [Hin|Hin]; [simplify_eq; simpl in Ha, Hrun; simplify_eq|]);
    try (apply not_elem_of_nil in Hin; done).
  - by exists NodeList.
  - by eexists (NodeAdd _ _ _ _).
  - destruct (on_first_one nodeDrain p Ha) as [id ->]. by exists (NodeDrain id).
  - destruct (on_first_one nodeRemove p Ha) as [id ->]. by exists (NodeRemove id).
  - by eexists (SandboxList _ _ _).
  - destruct (on_first_one sandboxInspect p Ha) as [id ->]. by exists (SandboxInspect id).
  - destruct (on_first_one (fun c id => sandboxLogs c id (GetBool p "follow") (GetInt p "tail")) p Ha) as [id ->].
    by exists (SandboxLogs id (GetBool p "follow") (GetInt p "tail")).
  - destruct (on_first_one sandboxRestart p Ha) as [id ->]. by exists (SandboxRestart id).
  - destruct (on_first_one sandboxDestroy p Ha) as [id ->]. by exists (SandboxDestroy id).
  - by exists RoutesList.
  - by exists RoutesVerify.
  - by eexists (Events _ _ _ _).
  - by exists Healthcheck.
Qed.

(** A command line for every [command]. *)
Definition typed (c : command) : list (string * flag_value) * list string :=
  match c with
  | NodeAdd host ip mb ver =>
      ([("hostname", VString host); ("tailscale-ip", VString ip); ("capacity-mb", VInt mb);
        ("agent-version", VString ver)], [])
  | SandboxList app node state => ([("app", VString app); ("node", VString node); ("state", VString state)], [])
  | SandboxLogs id follow tail => ([("follow", VBool follow); ("tail", VInt tail)], [id])
  | Events sb ty since limit =>
      ([("sandbox", VString sb); ("type", VString ty); ("since", VString since); ("limit", VInt limit)], [])
  | NodeDrain id | NodeRemove id | SandboxInspect id | SandboxRestart id | SandboxDestroy id => ([], [id])
  | NodeList | RoutesList | RoutesVerify | Healthcheck => ([], [])
  end.

Definition value_in (l : list (string * flag_value)) (name : string) : flag_value :=
  default (VString "table") (snd <$> find (fun kv => String.eqb (fst kv) name) l).

Definition line_for (c : apiClient) (cmd : command) : Parsed :=
  mkParsed (value_in (("api-url", VString (ap_baseURL c)) :: ("api-token", VString (ap_token c)) :: (typed cmd).1))
    (typed cmd).2.

Definition leaf_of (cmd : command) : Cobra :=
  match cmd with
  | NodeList => newNodeListCmd | NodeAdd _ _ _ _ => newNodeAddCmd | NodeDrain _ => newNodeDrainCmd
  | NodeRemove _ => newNodeRemoveCmd | SandboxList _ _ _ => newSandboxListCmd
  | SandboxInspect _ => newSandboxInspectCmd | SandboxLogs _ _ _ => newSandboxLogsCmd
  | SandboxRestart _ => newSandboxRestartCmd | SandboxDestroy _ => newSandboxDestroyCmd
  | RoutesList => newRoutesListCmd | RoutesVerify => newRoutesVerifyCmd
  | Events _ _ _ _ => newEventsCmd | Healthcheck => newHealthCmd
  end.

Lemma line_for_runs env c cmd : exists (flags : list FlagDef) (run : RunE),
  (leaf_of cmd, flags) ∈ commands [] (newRootCmd env) /\ parsed_for (leaf_of cmd) flags (line_for c cmd) /\
  cb_RunE (leaf_of cmd) = Some run /\ run (line_for c cmd) = Some (run_command c cmd).
Proof.
  destruct c as [url token], cmd; do 2 eexists;
    (split; [simpl; repeat first [by left | right]|split; [|split; reflexivity]]);
    (split; [done|repeat constructor]).
Qed.
End Lines.

(** ** A library that reads lines without flags but --help *)

#[export] Instance accepted_dec a args : Decision (args_accepted a args).
Proof. destruct a; simpl; apply _. Defined.
#[export] Instance same_type_dec a b : Decision (same_type a b).
Proof. destruct a, b; simpl; apply _. Defined.
#[export] Instance parsed_for_dec cmd flags p : Decision (parsed_for cmd flags p).
Proof. unfold parsed_for. apply _. Defined.

Fixpoint first_word (s : string) : string :=
  match s with
  | String c s' => if Ascii.eqb c (Ascii.ascii_of_nat 32) then "" else String c (first_word s')
  | EmptyString => ""
  end.

Definition defaults (flags : list FlagDef) (name : string) : flag_value :=
  default (VString "") (fd_Default <$> find (fun f => String.eqb (fd_Name f) name) flags).

Definition plain_parse (cmd : Cobra) (flags : list FlagDef) (args : list string)
  : result (Cobra * list FlagDef * Parsed) :=
  let p := mkParsed (defaults flags) args in
  if decide (parsed_for cmd flags p) then Ok (cmd, flags, p) else Err (OtherError "invalid arguments").

Fixpoint plain_find (argv : list string) (inherited : list FlagDef) (c : Cobra)
  : result (Cobra * list FlagDef * Parsed) :=
  let here := plain_parse c (inherited ++ cb_Persistent c ++ cb_Flags c) argv in
  match argv with
  | [] => here
  | a :: rest =>
      match find (fun d => String.eqb (first_word (cb_Use d)) a) (cb_Sub c) with
      | Some d => plain_find rest (inherited ++ cb_Persistent c) d
      | None => here
      end
  end.

Lemma plain_parse_sound c fl args r :
  plain_parse c fl args = Ok r -> exists p, r = (c, fl, p) /\ parsed_for c fl p.
Proof. unfold plain_parse. case_decide; [|done]. intros [= <-]. by eexists. Qed.

Lemma here_in_commands c inh : (c, inh ++ cb_Persistent c ++ cb_Flags c) ∈ commands inh c.
Proof. destruct c. by left. Qed.

Lemma sub_in_commands c inh d x :
  d ∈ cb_Sub c -> x ∈ commands (inh ++ cb_Persistent c) d -> x ∈ commands inh c.
Proof.
  destruct c as [use short a pe fl run sub]. simpl. intros Hd Hx. right.
  apply list_elem_of_bind. by exists d.
Qed.

Lemma plain_find_sound argv inh c cmd fl p :
  plain_find argv inh c = Ok (cmd, fl, p) -> (cmd, fl) ∈ commands inh c /\ parsed_for cmd fl p.
Proof.
  assert (forall args c inh, plain_parse c (inh ++ cb_Persistent c ++ cb_Flags c) args = Ok (cmd, fl, p) ->
    (cmd, fl) ∈ commands inh c /\ parsed_for cmd fl p) as Hhere.
  { intros args c' inh' (p' & ? & ?)%plain_parse_sound. simplify_eq. split; [apply here_in_commands|done]. }
  revert inh c. induction argv as [|a argv IH]; intros inh c; simpl; [apply Hhere|].
  destruct (find _ (cb_Sub c)) as [d|] eqn:Hd; [|apply Hhere].
  intros [Hin Hp]%IH. split; [|done]. apply find_some in Hd as [Hd _].
  apply (sub_in_commands _ _ d); [by apply list_elem_of_In|done].
Qed.

(** The library's own commands and flag. *)
Definition own (argv : list string) : bool :=
  bool_decide ("--help" ∈ argv) || bool_decide (head argv ∈ [Some "help"; Some "completion"]).

Definition plain_cobra : CobraLib := {|
  Find root argv :=
    if own argv then Ok Answered
    else match plain_find argv [] root with Err e => Err e | Ok (cmd, _, p) => Ok (Runs cmd p) end;
|}.

#[local] Instance plain_laws : @CobraLaws plain_cobra.
Proof.
  constructor.
  intros root argv cmd p. simpl. destruct (own argv); [done|].
  destruct (plain_find _ _ _) as [[[c fl] p']|e] eqn:Hf; [|done].
  intros [= <- <-]. exists fl. by apply (plain_find_sound argv).
Defined.

Section Properties.

(** C28: What the client does for a command line is exactly one of its commands, and
    every command has a command line: no line makes it read an argument that is
    not there; a line cobra refuses ends with cobra's error; one that cobra
    answers itself (help, completion, --help) and a group without a subcommand
    make no request and succeed. *)
Theorem command_lines_exact `{CobraLaws, ClientTexts, Quoting} env argv :
  match Find (newRootCmd env) argv with
  | Err e => main env argv = Some (Ret ([], Err e))
  | Ok Answered => main env argv = Some (Ret ([], Ok tt))
  | Ok (Runs cmd p) =>
      match cb_RunE cmd with
      | Some _ => exists c, main env argv = Some (run_command (resolveClient p) c)
      | None => main env argv = Some (Ret ([], Ok tt))
      end
  end /\
  (forall client c, exists flags, (leaf_of c, flags) ∈ commands [] (newRootCmd env) /\
     parsed_for (leaf_of c) flags (line_for client c) /\
     (Find (newRootCmd env) argv = Ok (Runs (leaf_of c) (line_for client c)) ->
        main env argv = Some (run_command client c))).
Proof.
  unfold main. split.
  - destruct (Find _ argv) as [[cmd p|]|e] eqn:Hf; [|done|done].
    destruct (Find_sound _ _ _ _ Hf) as (flags & Hin & Hp).
    destruct (cb_RunE cmd) as [run|] eqn:Hrun; [|done].
    destruct (tree_runs env cmd flags p run Hin Hp Hrun) as [c ->]. by exists c.
  - intros client c. destruct (line_for_runs env client c) as (flags & run & Hin & Hp & Hrun & Hdoes).
    exists flags. split_and!; [done|done|]. intros ->. by rewrite Hrun, Hdoes.
Qed.

(** A restart, and a request for its help. *)
Lemma command_lines_exact_witness :
  (exists c, @main plain_cobra demo_client_texts demo_quoting (fun _ => "") ["sandbox"; "restart"; "7"] =
    Some (@run_command demo_client_texts demo_quoting (mkApiClient "http://localhost:8080" "") c)) /\
  @main plain_cobra demo_client_texts demo_quoting (fun _ => "") ["sandbox"; "restart"; "--help"] =
    Some (Ret ([], Ok tt)).
Proof.
  split.
  - exact (proj1 (@command_lines_exact plain_cobra plain_laws demo_client_texts demo_quoting (fun _ => "")
      ["sandbox"; "restart"; "7"])).
  - exact (proj1 (@command_lines_exact plain_cobra plain_laws demo_client_texts demo_quoting (fun _ => "")
      ["sandbox"; "restart"; "--help"])).
Defined.
End Properties.
