(* ===== verification/Cluster.v ===== *)
(** An agent and the control plane together: the agent's client runs against
    the router, the handlers and the database, and what it keeps between calls
    are its node id and token. *)

From S2P Require Import Prelude Time Netip Hmac Url UrlFacts Json Models Scheduler Store.
From S2P Require Import StoreFacts Routing Effects StoreRuns Lifecycle Interleave Reconciler Adapters StoreAdapter Api.
From S2P Require Import Responses Register Paths Push PushFacts Executor Wire AgentClient.
From S2P Require Import ClientFacts System Router.

(** ** The two sides *)

Section Cluster.
Context `{External, ClientTexts} (d : Deployment) (zone : Z) (ticks : list bool).

(** The agent's credentials and the control plane's world. *)
Record site := mkSite { ct_node : string; ct_token : string; ct_world : World }.

Definition in_world (w : World) (s : site) : site := mkSite (ct_node s) (ct_token s) w.

(** A network that delivers; waits pass on the control plane's clock. *)
Definition answer {X} (e : clientE X) (s : site) : X * site :=
  match e in clientE X return X * site with
  | CNodeID => (ct_node s, s)
  | CToken => (ct_token s, s)
  | CCredentials => ((ct_node s, ct_token s), s)
  | CStore id token => (tt, mkSite id token (ct_world s))
  | CDo _ rq =>
      match Parse (aq_URL rq) with
      | None => (Err (OtherError "invalid URL"), s)
      | Some u =>
          let '(r, w) := exec (serve_http d zone (aq_Method rq) u (aq_Authorization rq) (aq_Body rq) ticks)
                           (ct_world s) in
          (Ok r, in_world w s)
      end
  | CWait t => (true, in_world (set_now (w_now (ct_world s) + t / 1000) (ct_world s)) s)
  end.

Definition performs {A} (p : client A) (s : site) : A * site := run (@answer) p s.

(** ** The agent's requests arrive *)

(** The base URL is a plain host and port, and both sides have the token. *)
Record linked (c : ClientConfig) (h p : string) : Prop := mk_linked {
  lk_base : cc_baseURL c = "http://" +:+ h +:+ ":" +:+ p;
  lk_host : string_all host_byte h = true;
  lk_port : string_all digit p = true;
}.

Definition uuid_text (s : string) : Prop := string_all uuid_byte s = true /\ s <> "".

Lemma uuid_path_bytes s : uuid_text s -> string_all path_byte s = true.
Proof. intros [Hs _]. eapply string_all_impl; [|exact Hs]. bytes. Qed.

Lemma uuid_segment s : uuid_text s -> no_slash s = true.
Proof. intros [Hs _]. by apply uuid_no_slash. Qed.

Lemma plain_agent_url c h p path q :
  linked c h p -> cc_baseURL c +:+ ("/" +:+ path +:+ query_text q) = plain_text h p path q.
Proof. intros [-> _ _]. unfold plain_text. by rewrite <- !string_app_assoc. Qed.

Lemma NewRequest_plain c h p method path q body :
  linked c h p -> string_all path_byte path = true -> string_all query_byte q = true ->
  NewRequest c method ("/" +:+ path +:+ query_text q) body =
    Ok (mkAgentRequest method (plain_text h p path q) "" body).
Proof.
  intros Hl Hp Hq. unfold NewRequest. rewrite (plain_agent_url _ h p) by done.
  by rewrite Parse_plain by (done || apply Hl).
Qed.

Lemma serve_token token e (k : ctl reply) :
  token <> "" -> serve token ("Bearer " +:+ token) e k = k.
Proof.
  intros Ht. unfold serve, BearerAuth. destruct (public e); [done|].
  destruct (String.eqb_spec token ""); [done|].
  rewrite (proj2 (String.eqb_neq ("Bearer " +:+ token) "")) by done.
  unfold HasPrefix. by rewrite prefix_app, TrimPrefix_app, String.eqb_refl.
Qed.

(** A request that is routed reaches its handler through the authentication. *)
Lemma answer_dispatch timeout c h p method path q auth body rq s :
  linked c h p -> string_all path_byte path = true -> string_all query_byte q = true ->
  route method (plain_url h p path q) body ticks = inr rq ->
  answer (CDo timeout (mkAgentRequest method (plain_text h p path q) auth body)) s =
    (let '(r, w) := exec (dispatch d auth rq) (ct_world s) in (Ok (respond zone r), in_world w s)).
Proof.
  intros Hl Hp Hq Hr. cbn [answer aq_URL aq_Method aq_Authorization aq_Body].
  rewrite Parse_plain by (done || apply Hl). unfold serve_http. rewrite Hr.
  unfold exec. rewrite run_bind. by destruct (run _ _ _).
Qed.

Lemma answer_do timeout c h p method path q auth body rq s :
  linked c h p -> string_all path_byte path = true -> string_all query_byte q = true ->
  route method (plain_url h p path q) body ticks = inr rq ->
  (public (endpoint_of rq) = true \/
   dp_apiToken d <> "" /\ auth = "Bearer " +:+ dp_apiToken d) ->
  answer (CDo timeout (mkAgentRequest method (plain_text h p path q) auth body)) s =
    (let '(r, w) := exec (handler d rq) (ct_world s) in (Ok (respond zone r), in_world w s)).
Proof.
  intros Hl Hp Hq Hr Ha. rewrite (answer_dispatch _ c h p _ _ _ _ _ rq) by done.
  enough (dispatch d auth rq = handler d rq) as -> by done.
  unfold dispatch. destruct Ha as [Hpub|[Ht ->]]; [|by apply serve_token].
  unfold serve. by rewrite Hpub.
Qed.

(** Authenticated requests of the client. *)
Lemma performs_auth c h p method path body rq s :
  linked c h p -> cc_apiToken c = dp_apiToken d -> dp_apiToken d <> "" ->
  string_all path_byte path = true ->
  route method (plain_url h p path "") body ticks = inr rq ->
  performs (doAuthRequest c method ("/" +:+ path) body) s =
    (let '(r, w) := exec (handler d rq) (ct_world s) in (Ok (respond zone r), in_world w s)).
Proof.
  intros Hl Ht Hne Hp Hr. unfold doAuthRequest.
  pose proof (NewRequest_plain c h p method path "" body Hl Hp eq_refl) as Hnew.
  change (query_text "") with "" in Hnew. rewrite string_app_nil in Hnew. rewrite Hnew.
  unfold performs. cbn [run trigger bind].
  change (answer CToken s) with (ct_token s, s). cbn [run trigger bind].
  unfold authorized. cbn [aq_Method aq_URL aq_Body].
  rewrite (answer_do _ c h p _ _ _ _ _ rq) by
    (done || (right; split; [done|]; unfold authToken; rewrite Ht; by destruct (String.eqb_spec (dp_apiToken d) ""))).
  by destruct (exec _ _).
Qed.

(** *** Routes of the agent's paths *)

Lemma plain_segments h p l q : l <> [] -> Forall (fun s => no_slash s = true) l ->
  segments (route_path (plain_url h p (join_slash l) q)) = l.
Proof.
  intros Hl Hs. change (route_path (plain_url h p (join_slash l) q)) with ("/" +:+ join_slash l).
  by apply segments_join.
Qed.

(** A route below one id. *)
Lemma route_id i m pat b s tail h p id q body :
  routes !! i = Some (m, pat, b) ->
  pattern_of pat = Fixed "v1" :: Fixed s :: Wildcard :: (Fixed <$> tail) ->
  forallb no_slash (s :: tail) = true -> uuid_text id ->
  route m (plain_url h p (join_slash ("v1" :: s :: id :: tail)) q) body ticks =
    inr (b [id] (Query q) body ticks).
Proof.
  intros Hi Hpat Hs Hid.
  rewrite (route_at i m pat b _ ("v1" :: s :: id :: tail) [id] _ _ Hi); [done| |].
  - apply plain_segments; [done|]. rewrite forallb_forall in Hs.
    apply Forall_forall. intros t Ht. apply list_elem_of_In in Ht as [<-|[<-|[<-|Ht]]].
    + done.
    + apply Hs. by left.
    + by apply uuid_segment.
    + apply Hs. by right.
  - rewrite Hpat. cbn [match_pattern]. rewrite !String.eqb_refl.
    rewrite (proj2 (String.eqb_neq id "")) by apply Hid.
    assert (match_pattern (Fixed <$> tail) tail = Some []) as ->; [|done].
    clear. induction tail as [|t l IH]; [done|]. simpl. by rewrite String.eqb_refl.
Qed.

Lemma route_heartbeat h p id body : uuid_text id ->
  route "POST" (plain_url h p ("v1/nodes/" +:+ id +:+ "/heartbeat") "") body ticks =
    inr (RqHeartbeat id body).
Proof. exact (route_id 4 "POST" "/v1/nodes/{id}/heartbeat" _ "nodes" ["heartbeat"] h p id "" body eq_refl eq_refl eq_refl). Qed.

Lemma route_poll h p id q body : uuid_text id ->
  route "GET" (plain_url h p ("v1/agents/" +:+ id +:+ "/commands") q) body ticks =
    inr (RqPoll id ticks).
Proof. exact (route_id 17 "GET" "/v1/agents/{id}/commands" _ "agents" ["commands"] h p id q body eq_refl eq_refl eq_refl). Qed.

Lemma route_ack h p id cmd body : uuid_text id -> uuid_text cmd ->
  route "POST" (plain_url h p ("v1/agents/" +:+ id +:+ "/commands/" +:+ cmd +:+ "/ack") "") body ticks =
    inr (RqAck id cmd body).
Proof.
  intros Hid Hcmd.
  change ("v1/agents/" +:+ id +:+ "/commands/" +:+ cmd +:+ "/ack")
    with (join_slash (["v1"; "agents"; id; "commands"; cmd; "ack"])).
  rewrite (route_at 18 _ "/v1/agents/{id}/commands/{cmd_id}/ack" _ _
    ["v1"; "agents"; id; "commands"; cmd; "ack"] [id; cmd] _ _ eq_refl).
  - done.
  - apply plain_segments; [done|].
    apply uuid_segment in Hid, Hcmd. by repeat constructor.
  - destruct Hid as [_ Hne], Hcmd as [_ Hnc]. simpl. rewrite (proj2 (String.eqb_neq id "")) by done.
    by rewrite (proj2 (String.eqb_neq cmd "")).
Qed.

Lemma route_event h p id body : uuid_text id ->
  route "POST" (plain_url h p ("v1/agents/" +:+ id +:+ "/events") "") body ticks =
    inr (RqReport id body).
Proof. exact (route_id 19 "POST" "/v1/agents/{id}/events" _ "agents" ["events"] h p id "" body eq_refl eq_refl eq_refl). Qed.

Lemma route_register h p body :
  route "POST" (plain_url h p "v1/nodes/register" "") body ticks = inr (RqRegister body).
Proof. reflexivity. Qed.

(** ** Registration and heartbeats end to end *)

(** A registration answered with 201 is taken over by the agent. *)
Lemma performs_Register c h p s id token w :
  linked c h p -> in_int64 (sv_heartbeatInterval (dp_server d)) ->
  exec (handleRegisterNode (dp_server d) (Some (register_json (cc_regReq c)))) (ct_world s) =
    (registered (dp_server d) id token, w) ->
  performs (Register c) s =
    (Ok (mkRegisterResp (uuid_String id) token (sv_heartbeatInterval (dp_server d))),
     mkSite (uuid_String id) token w).
Proof.
  intros Hl Hi Hex. unfold performs, Register. rewrite run_bind.
  assert (run (@answer) (register_loop c (Z.to_nat (maxAttempts - 1)) (seconds 1)) s =
    (Ok (respond zone (registered (dp_server d) id token)), in_world w s)) as ->.
  { change (Z.to_nat (maxAttempts - 1)) with 4%nat. cbn [register_loop].
    pose proof (NewRequest_plain c h p "POST" "v1/nodes/register" ""
      (Some (register_json (cc_regReq c))) Hl eq_refl eq_refl) as Hnew.
    change ("/" +:+ "v1/nodes/register" +:+ query_text "") with register_path in Hnew.
    rewrite Hnew. cbn [run trigger bind].
    rewrite (answer_do _ c h p _ _ _ _ _ (RqRegister (Some (register_json (cc_regReq c))))) by
      (done || by left).
    cbn [handler]. rewrite Hex. done. }
  unfold registration_of. cbn [respond rs_status rs_json registered rp_status rp_body].
  rewrite read_registered by done. done.
Qed.

Definition heartbeat_ok (hb : HeartbeatRequest) : Prop :=
  in_int32 (hb_UsedMB hb) /\ in_int32 (hb_RunningContainers hb) /\
  Forall (fun x => in_int64 (ci_HostPort x)) (hb_Containers hb).

(** The world after a heartbeat of a known node. *)
Definition beaten (sv : Server) (id : uuid) (hb : HeartbeatRequest) (n : Node) (w : World) : World :=
  let w1 := set_db (put_node (with_heartbeat (hb_UsedMB hb) (hb_RunningContainers hb) (w_now w) n)
              (w_db w)) w in
  if sv_reconciler sv then (exec (reconcilerAdapter id (hb_Containers hb)) w1).2 else w1.

(** The control plane takes the agent's heartbeat for a node it knows. *)
Lemma heartbeat_exec sv hb idStr id n w :
  heartbeat_ok hb -> w_faults w = [] -> db_wf (w_db w) -> counters_ok (w_db w) ->
  uuid_Parse idStr = Some id -> nodes (w_db w) !! id = Some n ->
  exec (handleHeartbeat sv idStr (Some (heartbeat_json hb))) w = (mkReply 200 BEmpty, beaten sv id hb n w).
Proof.
  intros (Hu & Hr & Hc) Hf Hwf Hct Hp Hn.
  assert (nd_ID n = id) as Hid by by apply (wf_nodes _ Hwf) in Hn as [? _].
  unfold beaten. set (w1 := set_db _ w).
  assert (exec (handleHeartbeat sv idStr (Some (heartbeat_json hb))) w =
    exec (if sv_reconciler sv then reconcilerAdapter id (hb_Containers hb) ;;; Ret (mkReply 200 BEmpty)
          else Ret (mkReply 200 BEmpty)) w1) as ->.
  { apply exec_wp_eq. unfold handleHeartbeat. rewrite Hp, read_heartbeat by done.
    apply (with_node_runs _ id n); [done..|].
    step_by (by apply run_UpdateNodeHeartbeat). apply wp_run. symmetry. apply surjective_pairing. }
  destruct (sv_reconciler sv); [|done].
  assert (db_wf (w_db w1)) as Hwf1.
  { eapply db_step_wf; [exact Hwf|]. apply (step_node no_move).
    apply (wf_nodes _ Hwf) in Hn as [_ Hst]. done. }
  unfold exec. rewrite run_bind.
  destruct (Reconcile_frame id (to_scheduler <$> hb_Containers hb) w1 Hf Hwf1 Hct) as [f HR].
  unfold exec in HR |- *. unfold reconcilerAdapter. by rewrite HR.
Qed.

(** A heartbeat that names no application twice. *)
Lemma beaten_reconciled sv id hb n w :
  sv_reconciler sv = true -> w_faults w = [] -> db_wf (w_db w) -> counters_ok (w_db w) ->
  nodes (w_db w) !! id = Some n -> NoDup (ci_AppName <$> hb_Containers hb) ->
  beaten sv id hb n w = with_rows (reconciled id (to_scheduler <$> hb_Containers hb) (w_now w))
    (set_db (put_node (with_heartbeat (hb_UsedMB hb) (hb_RunningContainers hb) (w_now w) n)
       (w_db w)) w).
Proof.
  intros Hsv Hf Hwf Hct Hn Hnd. unfold beaten. rewrite Hsv. unfold reconcilerAdapter.
  rewrite Reconcile_exec; [done|done| |exact Hct|by rewrite <- list_fmap_compose].
  eapply db_step_wf; [exact Hwf|]. apply (step_node no_move).
  by apply (wf_nodes _ Hwf) in Hn as [_ ?].
Qed.

Lemma heartbeat_known sv hb idStr id n w :
  heartbeat_ok hb -> w_faults w = [] -> db_wf (w_db w) -> counters_ok (w_db w) ->
  uuid_Parse idStr = Some id -> nodes (w_db w) !! id = Some n ->
  exists w', exec (handleHeartbeat sv idStr (Some (heartbeat_json hb))) w = (mkReply 200 BEmpty, w') /\
    nodes (w_db w') !! id =
      Some (with_heartbeat (hb_UsedMB hb) (hb_RunningContainers hb) (w_now w) n).
Proof.
  intros Hhb Hf Hwf Hct Hp Hn. exists (beaten sv id hb n w). split; [by apply heartbeat_exec|].
  assert (nd_ID n = id) as <- by by apply (wf_nodes _ Hwf) in Hn as [? _].
  unfold beaten. destruct (sv_reconciler sv); [|apply lookup_insert_eq].
  set (w1 := set_db _ w). assert (db_wf (w_db w1)) as Hwf1.
  { eapply db_step_wf; [exact Hwf|]. apply (step_node no_move). by apply (wf_nodes _ Hwf) in Hn as [_ ?]. }
  destruct (Reconcile_frame (nd_ID n) (to_scheduler <$> hb_Containers hb) w1 Hf Hwf1 Hct) as [f HR].
  unfold reconcilerAdapter. rewrite HR. apply lookup_insert_eq.
Qed.

Lemma run_GetNode_none id now db : nodes db !! id = None -> GetNode (Some id) now db = (Err ErrNoRows, db).
Proof. intros Hn. unfold GetNode, find_node. simpl. by rewrite Hn. Qed.

Lemma heartbeat_unknown sv hb idStr id w :
  heartbeat_ok hb -> w_faults w = [] -> uuid_Parse idStr = Some id -> nodes (w_db w) !! id = None ->
  exec (handleHeartbeat sv idStr (Some (heartbeat_json hb))) w = (NotFound "node not found", w).
Proof.
  intros (Hu & Hr & Hc) Hf Hp Hn. apply exec_eq. unfold handleHeartbeat.
  rewrite Hp, read_heartbeat by done. unfold with_node. rewrite Hp.
  step_by (by apply run_GetNode_none). rewrite set_db_same. by apply ctl_wp_ret.
Qed.

(** A registration whose calls answer leaves a node of its name, new or not. *)
Lemma register_succeeds sv body req ip b cpu w :
  w_faults w = [] -> db_wf (w_db w) -> counters_ok (w_db w) -> unique_nodes (w_db w) ->
  register_request body = inr (req, ip) -> random_bytes (w_rng w) 32 = Ok b ->
  to_tenths (float64ToNumeric (rr_CapacityCPU req)) = Some cpu ->
  nodes (w_db w) !! uuid_New (S (w_rng w)) = None ->
  exists id n w1, exec (handleRegisterNode sv body) w = (registered sv id (hex_EncodeToString b), w1) /\
    nodes (w_db w1) !! id = Some n /\ named (rr_Hostname req) ip n /\
    w_faults w1 = [] /\ w_now w1 = w_now w /\ db_wf (w_db w1) /\ counters_ok (w_db w1) /\
    w_db w1 = put_node n (w_db w).
Proof.
  intros Hf Hwf Hct Hu Hreq Hb Hcpu Hnew.
  pose proof (find_named (rr_Hostname req) ip (w_now w) (w_db w) Hwf) as Hn.
  destruct (GetNodeByHostnameAndIP _ _ _ _) as [r0 db'].
  destruct Hn as [_ [(n & _ & Hn & Hnm)|[_ Hno]]].
  - rewrite (register_found _ _ req ip b _ n) by done. eexists _, _, _. split; [reflexivity|].
    split_and!; [apply lookup_insert_eq|by destruct Hnm|done|done| |exact Hct|done].
    eapply db_step_wf; [exact Hwf|]. apply (step_node no_move).
    by apply (wf_nodes _ Hwf) in Hn as [_ ?].
  - rewrite (register_fresh _ _ req ip b) by done. rewrite Hcpu, Hnew.
    eexists _, _, _. split; [reflexivity|].
    split_and!; [apply lookup_insert_eq|done|done|done| |exact Hct|done].
    eapply db_step_wf; [exact Hwf|]. by apply (step_node no_move).
Qed.

(** *** The client's calls, one request at a time *)

Lemma performs_bind {A B} (p : client A) (k : A -> client B) s :
  performs (bind p k) s = let '(a, s') := performs p s in performs (k a) s'.
Proof. apply run_bind. Qed.

Lemma performs_reregister {A} c code (k : client (result A)) s :
  performs (reregister c code k) s =
    let '(r, s') := performs (Register c) s in
    match r with Err e => (Err (Wrap ("re-register after " +:+ code) e), s') | Ok _ => performs k s' end.
Proof. unfold reregister. rewrite performs_bind. destruct (performs (Register c) s) as [[r|e] s']; done. Qed.

Section Authenticated.
Context (c : ClientConfig) (h p : string).
Hypothesis Hl : linked c h p.
Hypothesis Ht : cc_apiToken c = dp_apiToken d.
Hypothesis Hne : dp_apiToken d <> "".

Lemma performs_heartbeat_request hb id s : uuid_text id ->
  performs (doAuthRequest c "POST" (heartbeat_path id) (Some (heartbeat_json hb))) s =
    let '(r, w) := exec (handleHeartbeat (dp_server d) id (Some (heartbeat_json hb))) (ct_world s) in
    (Ok (respond zone r), in_world w s).
Proof.
  intros Hid. change (heartbeat_path id) with ("/" +:+ ("v1/nodes/" +:+ id +:+ "/heartbeat")).
  apply (performs_auth c h p _ _ _ (RqHeartbeat id (Some (heartbeat_json hb)))); try done.
  - rewrite !string_all_app, (uuid_path_bytes _ Hid). reflexivity.
  - by apply route_heartbeat.
Qed.

Lemma performs_event_request e id s : uuid_text id ->
  performs (doAuthRequest c "POST" (events_path id) (Some (event_json e))) s =
    let '(r, w) := exec (handleReportEvent (dp_lifecycle d) id (Some (event_json e))) (ct_world s) in
    (Ok (respond zone r), in_world w s).
Proof.
  intros Hid. change (events_path id) with ("/" +:+ ("v1/agents/" +:+ id +:+ "/events")).
  apply (performs_auth c h p _ _ _ (RqReport id (Some (event_json e)))); try done.
  - rewrite !string_all_app, (uuid_path_bytes _ Hid). reflexivity.
  - by apply route_event.
Qed.

Lemma performs_ack_request a id cmd s : uuid_text id -> uuid_text cmd ->
  performs (doAuthRequest c "POST" (ack_path id cmd) (Some (ack_json a))) s =
    let '(r, w) := exec (handleAckCommand (dp_lifecycle d) id cmd (Some (ack_json a))) (ct_world s) in
    (Ok (respond zone r), in_world w s).
Proof.
  intros Hid Hcmd.
  change (ack_path id cmd) with ("/" +:+ ("v1/agents/" +:+ id +:+ "/commands/" +:+ cmd +:+ "/ack")).
  apply (performs_auth c h p _ _ _ (RqAck id cmd (Some (ack_json a)))); try done.
  - rewrite !string_all_app, (uuid_path_bytes _ Hid), (uuid_path_bytes _ Hcmd). reflexivity.
  - by apply route_ack.
Qed.

(** A heartbeat: one request, and after a 404 a registration and another. *)
Lemma performs_Heartbeat hb s : uuid_text (ct_node s) ->
  performs (Heartbeat c hb) s =
    let '(r, w) := exec (handleHeartbeat (dp_server d) (ct_node s) (Some (heartbeat_json hb))) (ct_world s) in
    if rp_status r =? 404
    then performs (reregister c "404" (id <- trigger CNodeID ;;
           resp2 <- doAuthRequest c "POST" (heartbeat_path id) (Some (heartbeat_json hb)) ;;
           Ret (accept "heartbeat retry" resp2))) (in_world w s)
    else (accepted "heartbeat" (respond zone r), in_world w s).
Proof.
  intros Hid. unfold Heartbeat. cbv zeta. rewrite performs_bind.
  change (performs (trigger CNodeID) s) with (ct_node s, s). cbv beta iota.
  rewrite performs_bind, performs_heartbeat_request by done.
  destruct (exec _ _) as [r w]. cbn [rs_status respond]. by destruct (rp_status r =? 404).
Qed.
End Authenticated.

Lemma poll_query_bytes wait : 0 <= wait -> string_all query_byte ("wait=" +:+ pretty wait) = true.
Proof.
  intros Hw. rewrite string_all_app. destruct (pretty_nonneg wait Hw) as [Hd _].
  apply andb_true_iff. split; [done|]. eapply string_all_impl; [|exact Hd]. bytes.
Qed.

(** One poll of the client: a request and, after a 401, a registration and
    another. *)
Definition polled (c : ClientConfig) (wait : Z) (s : site) : reply * site :=
  let '(r, w) := exec (dispatch d ("Bearer " +:+ authToken c (ct_token s)) (RqPoll (ct_node s) ticks))
                   (ct_world s) in (r, in_world w s).

Lemma performs_poll c h p wait s :
  linked c h p -> 0 <= wait -> uuid_text (ct_node s) ->
  exists rq, NewRequest c "GET" (poll_path (ct_node s) wait) None = Ok rq /\
    answer (CDo (poll_timeout wait) (authorized c (ct_token s) rq)) s =
      (Ok (respond zone (polled c wait s).1), (polled c wait s).2).
Proof.
  intros Hl Hw Hid. pose proof (poll_query_bytes wait Hw) as Hq.
  assert (string_all path_byte ("v1/agents/" +:+ ct_node s +:+ "/commands") = true) as Hp
    by (rewrite !string_all_app, (uuid_path_bytes _ Hid); reflexivity).
  eexists. split.
  - replace (poll_path (ct_node s) wait)
      with ("/" +:+ ("v1/agents/" +:+ ct_node s +:+ "/commands") +:+ query_text ("wait=" +:+ pretty wait)).
    + by apply (NewRequest_plain c h p).
    + unfold poll_path. change (query_text ("wait=" +:+ pretty wait)) with ("?wait=" +:+ pretty wait).
      rewrite <- !string_app_assoc. done.
  - unfold authorized. cbn [aq_Method aq_URL aq_Body].
    rewrite (answer_dispatch _ c h p _ _ _ _ _ (RqPoll (ct_node s) ticks)) by
      (done || by apply route_poll).
    unfold polled. by destruct (exec _ _).
Qed.

Lemma performs_PollCommands c h p wait s :
  linked c h p -> 0 <= wait -> uuid_text (ct_node s) ->
  performs (PollCommands c wait) s =
    let '(r, s1) := polled c wait s in
    if rp_status r =? 401
    then let '(reg, s2) := performs (Register c) s1 in
         match reg with
         | Err e => (Err (Wrap "re-register after 401" e), s2)
         | Ok _ => performs (
             creds <- trigger CCredentials ;;
             match NewRequest c "GET" (poll_path creds.1 wait) None with
             | Err e => Ret (Err (Wrap "create poll retry request" e))
             | Ok rq =>
                 resp2 <- trigger (CDo (poll_timeout wait) (authorized c creds.2 rq)) ;;
                 Ret (match resp2 with
                      | Err e => Err (Wrap "poll commands retry" e)
                      | Ok r => parseCommands r
                      end)
             end) s2
         end
    else (parseCommands (respond zone r), s1).
Proof.
  intros Hl Hw Hid. destruct (performs_poll c h p wait s Hl Hw Hid) as (rq & Hrq & Hans).
  unfold PollCommands. rewrite performs_bind. change (performs (trigger CNodeID) s) with (ct_node s, s).
  cbv beta iota. rewrite Hrq, performs_bind. change (performs (trigger CToken) s) with (ct_token s, s).
  cbv beta iota. rewrite performs_bind.
  change (performs (trigger ?e) s) with (let '(x, s') := answer e s in (x, s')). rewrite Hans.
  destruct (polled c wait s) as [r s1]. cbn [fst snd rs_status respond]. cbv beta iota.
  destruct (rp_status r =? 401); [|done]. apply performs_reregister.
Qed.
End Cluster.

(** What google/uuid documents: the text form is plain and parses back. *)
Definition uuid_laws `{External} : Prop :=
  forall u, uuid_text (uuid_String u) /\ uuid_Parse (uuid_String u) = Some u.

(** ** Properties *)

(** C23: A heartbeat heals itself: whatever node id an agent holds, a heartbeat to
    a control plane whose calls answer ends well, and afterwards the node of
    the id the agent then holds is there, healthy, seen now and with the
    memory reported; when the id was unknown, because the row is gone, the
    agent has registered again on the way. *)
Theorem heartbeat_heals `{External, ClientTexts} d zone ticks c h p hb req ip b cpu s u0 :
  uuid_laws -> linked c h p -> cc_apiToken c = dp_apiToken d -> dp_apiToken d <> "" ->
  in_int64 (sv_heartbeatInterval (dp_server d)) -> heartbeat_ok hb ->
  register_request (Some (register_json (cc_regReq c))) = inr (req, ip) ->
  to_tenths (float64ToNumeric (rr_CapacityCPU req)) = Some cpu ->
  w_faults (ct_world s) = [] -> db_wf (w_db (ct_world s)) -> counters_ok (w_db (ct_world s)) ->
  unique_nodes (w_db (ct_world s)) -> random_bytes (w_rng (ct_world s)) 32 = Ok b ->
  nodes (w_db (ct_world s)) !! uuid_New (S (w_rng (ct_world s))) = None ->
  uuid_text (ct_node s) -> uuid_Parse (ct_node s) = Some u0 ->
  let '(r, s') := performs d zone ticks (Heartbeat c hb) s in
  r = Ok tt /\
  exists u n, uuid_Parse (ct_node s') = Some u /\ nodes (w_db (ct_world s')) !! u = Some n /\
    nd_Status n = NodeHealthy /\ nd_UsedMb n = hb_UsedMB hb /\ nd_LastSeenAt n = w_now (ct_world s) /\
    (nodes (w_db (ct_world s)) !! u0 = None -> named (rr_Hostname req) ip n).
Proof.
  intros Hlaws Hl Ht Hne Hiv Hhb Hreq Hcpu Hf Hwf Hct Hu Hb Hnew Hid Hp.
  rewrite (performs_Heartbeat d zone ticks c h p) by done.
  destruct (nodes (w_db (ct_world s)) !! u0) as [n0|] eqn:Hn0.
  { destruct (heartbeat_known (dp_server d) hb (ct_node s) u0 n0 (ct_world s)) as (w' & -> & Hn'); [done..|].
    cbn. split; [done|]. by exists u0, (with_heartbeat (hb_UsedMB hb) (hb_RunningContainers hb) (w_now (ct_world s)) n0). }
  rewrite (heartbeat_unknown _ _ _ u0) by done. cbn [rp_status NotFound WriteProblem].
  change (404 =? 404) with true. cbv iota.
  destruct (register_succeeds (dp_server d) _ req ip b cpu (ct_world s) Hf Hwf Hct Hu Hreq Hb Hcpu Hnew)
    as (id & n & w1 & Hex & Hn & Hnm & Hf1 & Hnow & Hwf1 & Hct1 & _).
  rewrite performs_reregister, (performs_Register _ _ _ _ h p _ id (hex_EncodeToString b) w1) by done.
  rewrite performs_bind. change (performs _ _ _ (trigger CNodeID) ?s) with (ct_node s, s). cbv beta iota.
  destruct (Hlaws id) as [Htext Hparse].
  rewrite performs_bind, (performs_heartbeat_request _ _ _ c h p) by done. cbn [ct_world ct_node].
  destruct (heartbeat_known (dp_server d) hb (uuid_String id) id n w1) as (w2 & -> & Hn2); [done..|].
  rewrite Hnow in Hn2. split; [done|]. eexists id, _. by split_and!.
Qed.

(** A wrong shared token is never cured: a poll answered 401 registers again
    and polls again with the same token, so the agent gets no command and an
    error each time, and each time the control plane replaces the token it
    keeps of the node, which no route ever accepts. *)
Theorem wrong_token_never_cured `{External, ClientTexts} d zone ticks c h p wait req ip b cpu s :
  uuid_laws -> linked c h p -> cc_apiToken c <> "" -> cc_apiToken c <> dp_apiToken d ->
  dp_apiToken d <> "" -> 0 <= wait -> in_int64 (sv_heartbeatInterval (dp_server d)) ->
  register_request (Some (register_json (cc_regReq c))) = inr (req, ip) ->
  to_tenths (float64ToNumeric (rr_CapacityCPU req)) = Some cpu ->
  w_faults (ct_world s) = [] -> db_wf (w_db (ct_world s)) -> counters_ok (w_db (ct_world s)) ->
  unique_nodes (w_db (ct_world s)) -> random_bytes (w_rng (ct_world s)) 32 = Ok b ->
  nodes (w_db (ct_world s)) !! uuid_New (S (w_rng (ct_world s))) = None -> uuid_text (ct_node s) ->
  let '(r, s') := performs d zone ticks (PollCommands c wait) s in
  r = Err (OtherError ("poll commands returned 401: " +:+ body_text (respond zone Unauthorized))) /\
  commands (w_db (ct_world s')) = commands (w_db (ct_world s)) /\
  ct_token s' = hex_EncodeToString b /\
  exists u n, ct_node s' = uuid_String u /\ nodes (w_db (ct_world s')) !! u = Some n /\
    named (rr_Hostname req) ip n.
Proof.
  intros Hlaws Hl Hs Hwrong Hd Hw Hiv Hreq Hcpu Hf Hwf Hct Hu Hb Hnew Hid.
  assert (forall t, uuid_text (ct_node t) ->
    polled d ticks c wait t = (Unauthorized, in_world (ct_world t) t)) as Hpoll.
  { intros t Ht. unfold polled, dispatch, serve, BearerAuth, authToken. simpl public. cbv iota.
    rewrite (proj2 (String.eqb_neq (dp_apiToken d) "")), (proj2 (String.eqb_neq (cc_apiToken c) "")) by done.
    rewrite (proj2 (String.eqb_neq ("Bearer " +:+ cc_apiToken c) "")) by done.
    unfold HasPrefix. rewrite prefix_app, TrimPrefix_app.
    by rewrite (proj2 (String.eqb_neq (cc_apiToken c) (dp_apiToken d))). }
  rewrite (performs_PollCommands d zone ticks c h p), Hpoll by done.
  change (rp_status Unauthorized =? 401) with true. cbv beta iota.
  destruct (register_succeeds (dp_server d) _ req ip b cpu (ct_world s) Hf Hwf Hct Hu Hreq Hb Hcpu Hnew)
    as (id & n & w1 & Hex & Hn & Hnm & _ & _ & _ & _ & Hdb).
  rewrite (performs_Register _ _ _ _ h p _ id (hex_EncodeToString b) w1) by done.
  set (s1 := mkSite (uuid_String id) (hex_EncodeToString b) w1).
  destruct (Hlaws id) as [Htext _].
  destruct (performs_poll d zone ticks c h p wait s1 Hl Hw Htext) as (rq & Hrq & Hans).
  rewrite performs_bind. change (performs d zone ticks (trigger CCredentials) s1) with ((ct_node s1, ct_token s1), s1).
  cbv beta iota. cbn [fst snd]. rewrite Hrq, performs_bind.
  change (performs d zone ticks (trigger ?e) s1) with (let '(x, s') := answer d zone ticks e s1 in (x, s')).
  rewrite Hans, Hpoll by done. split; [done|]. simpl.
  split; [by rewrite Hdb|]. split; [done|by exists id, n].
Qed.

(** *** A concrete cluster: numbered ids in decimal. *)

Definition demo_cluster : External := {|
  uuid_New n := (1000 + N.of_nat n)%N;
  uuid_String i := pretty i;
  uuid_Parse s := Z.to_N <$> unsigned_of s;
  random_bytes n len :=
    Ok (String.concat "" (replicate len (String (Ascii.ascii_of_nat (n mod 256)) "")));
  pg_text _ c := c;
  peers := unit;
  peer_http _ p := (Ok (mkResponse 200 None), p);
|}.

Lemma demo_cluster_laws : @uuid_laws demo_cluster.
Proof.
  intros u. cbn [uuid_String uuid_Parse demo_cluster].
  replace (pretty u) with (pretty (Z.of_N u)) by by destruct u.
  destruct (pretty_nonneg (Z.of_N u)) as (Hd & Hv & Hne); [lia|]. split; [split; [|done]|].
  - eapply string_all_impl; [|exact Hd]. bytes.
  - unfold unsigned_of. destruct (pretty (Z.of_N u)); [done|]. rewrite Hv. simpl. by rewrite N2Z.id.
Qed.

Definition demo_cluster_world (db : DB) : @World demo_cluster :=
  @mkWorld demo_cluster db 100 0 [] NewBatcher [] tt.

Lemma demo_linked : linked demo_client_config "10.0.0.1" "8080".
Proof. by split. Qed.

(** The row of the agent is gone: it comes back under a new id. *)
Lemma heartbeat_heals_witness :
  let s := @mkSite demo_cluster "5" "" (demo_cluster_world empty_db) in
  let '(r, s') := @performs demo_cluster demo_deployment 0 [] _
    (@Heartbeat demo_client_texts demo_client_config (mkHeartbeat 300 0 [])) s in
  r = Ok tt /\
  exists u n, @uuid_Parse demo_cluster (ct_node s') = Some u /\
    nodes (w_db (ct_world s')) !! u = Some n /\ nd_UsedMb n = 300.
Proof.
  intros s.
  pose proof (@heartbeat_heals demo_cluster demo_client_texts demo_deployment 0 [] demo_client_config
    "10.0.0.1" "8080" (mkHeartbeat 300 0 [])
    (mkRegisterRequest "node-9" "100.64.0.9" 8090 16384 4 "0.1.0" None) (Addr4 [100; 64; 0; 9])
    (String.concat "" (replicate 32 (String (Ascii.ascii_of_nat 0) ""))) 40 s 5
    demo_cluster_laws demo_linked eq_refl) as H.
  destruct (performs _ _ _ _ s) as [r s']. destruct H as (Hr & u & n & Hu & Hn & _ & Hused & _).
  - discriminate.
  - vm_compute. split; discriminate.
  - split_and!; [vm_compute; split; discriminate..|]. constructor.
  - vm_compute. reflexivity.
  - vm_compute. reflexivity.
  - reflexivity.
  - exact empty_db_wf.
  - intros i x. discriminate.
  - exact unique_nodes_empty.
  - reflexivity.
  - reflexivity.
  - split; [reflexivity|discriminate].
  - reflexivity.
  - split; [exact Hr|]. by exists u, n.
Defined.

(** The agent has "secret", the control plane another token. *)
Lemma wrong_token_never_cured_witness :
  let d := mkDeployment demo_server (mkService true true) "other" "k" 0 true true in
  let s := @mkSite demo_cluster "5" "" (demo_cluster_world empty_db) in
  let '(r, s') := @performs demo_cluster d 0 [] _
    (@PollCommands demo_client_texts demo_client_config 30) s in
  r = Err (OtherError "poll commands returned 401: 401") /\ ct_node s' = "1001".
Proof.
  intros d s.
  pose proof (@wrong_token_never_cured demo_cluster demo_client_texts d 0 [] demo_client_config
    "10.0.0.1" "8080" 30
    (mkRegisterRequest "node-9" "100.64.0.9" 8090 16384 4 "0.1.0" None) (Addr4 [100; 64; 0; 9])
    (String.concat "" (replicate 32 (String (Ascii.ascii_of_nat 0) ""))) 40 s
    demo_cluster_laws demo_linked) as H.
  assert (ct_node (@performs demo_cluster d 0 [] _
    (@PollCommands demo_client_texts demo_client_config 30) s).2 = "1001") as Hnode
    by (vm_compute; reflexivity).
  destruct (performs _ _ _ _ s) as [r s']. split; [|exact Hnode].
  apply H; first [discriminate|reflexivity|exact empty_db_wf|exact unique_nodes_empty|idtac].
  - vm_compute. split; discriminate.
  - split; [reflexivity|discriminate].
Defined.
