(* ===== verification/CliFacts.v ===== *)
(** The command line client against the control plane: its commands run over
    the router, the handlers and the database. *)

From S2P Require Import Prelude Time Durations Netip Url UrlFacts Json Models Scheduler Store StoreFacts.
From S2P Require Import Routing Effects StoreRuns Lifecycle Interleave Reconciler Adapters Caddy Api Responses.
From S2P Require Import Register Paths Push PushFacts Executor Wire AgentClient ClientFacts System Router Cli Cluster.

(** ** The control plane as the answers to the client's requests *)

Section CliFacts.
Context `{External, ClientTexts, Quoting} (d : Deployment) (zone : Z).

(** A network that delivers, and one clock for both sides. *)
Definition cli_answer {X} (e : cliE X) (w : World) : X * World :=
  match e in cliE X return X * World with
  | KDo rq =>
      match Parse (aq_URL rq) with
      | None => (Err (OtherError "invalid URL"), w)
      | Some u =>
          let '(r, w') := exec (serve_http d zone (aq_Method rq) u (aq_Authorization rq) (aq_Body rq) []) w in
          (Ok r, w')
      end
  | KRead _ => (Ok tt, w)
  | KNow => (w_now w * 1000, w)
  end.

Definition at_prompt {A} (p : cli A) (w : World) : A * World := run (@cli_answer) p w.

Lemma prompt_bind {A B} (p : cli A) (k : A -> cli B) w :
  at_prompt (bind p k) w = let '(a, w') := at_prompt p w in at_prompt (k a) w'.
Proof. apply run_bind. Qed.

(** What the client makes of a reply. *)
Definition result_of (r : reply) : result http_response :=
  if 400 <=? rp_status r then Err (parseError (respond zone r)) else Ok (respond zone r).

Definition asked (rq : request) (w : World) : result http_response * World :=
  let '(r, w') := exec (handler d rq) w in (result_of r, w').

(** Programs that do not send leave the world alone. *)
Definition no_request {X} (e : cliE X) : Prop := match e with KDo _ => False | _ => True end.

Lemma offline {A} (p : cli A) w : issues (@no_request) p -> (at_prompt p w).2 = w.
Proof.
  intros Hp. unfold at_prompt.
  apply (run_preserves (fun X => @cli_answer X) (@no_request) (fun s s' => s' = s) p); [done|congruence| |done].
  by intros X [] s He.
Qed.

(** ** Queries *)

Lemma Query_nil : Query "" = ∅.
Proof. reflexivity. Qed.

Lemma query_suffix_text q : proper q -> query_suffix q = query_text (Encode q).
Proof.
  intros Hq. unfold query_suffix, query_text. case_bool_decide as Hz; [by subst|].
  destruct (String.eqb_spec (Encode q) "") as [He|]; [|done].
  destruct Hz. by rewrite <- (Query_Encode q Hq), He.
Qed.

Lemma proper_nil : proper ∅.
Proof. apply map_Forall_empty. Qed.

Lemma proper_Set k v q : proper q -> proper (Set' k v q).
Proof. intros Hq. by apply map_Forall_insert_2. Qed.

Lemma proper_flag k v q : proper q -> proper (flag k v q).
Proof. intros Hq. unfold flag. destruct (String.eqb v ""); [done|by apply proper_Set]. Qed.

Lemma Get_Set_any k v q k' : Get (Set' k v q) k' = if String.eqb k k' then v else Get q k'.
Proof.
  unfold Get, Set'. destruct (String.eqb_spec k k') as [->|].
  - by rewrite lookup_insert_eq.
  - by rewrite lookup_insert_ne.
Qed.

Lemma Get_flag k v q k' :
  Get (flag k v q) k' = if String.eqb k k' && negb (String.eqb v "") then v else Get q k'.
Proof.
  unfold flag. destruct (String.eqb v ""); simpl; [by rewrite andb_false_r|].
  rewrite andb_true_r. apply Get_Set_any.
Qed.

Lemma Get_nil k : Get ∅ k = "".
Proof. reflexivity. Qed.

(** ** Requests *)

(** The client's base URL is a plain host and port, and it has the token. *)
Record reaches (c : apiClient) (h p : string) : Prop := mk_reaches {
  rc_base : ap_baseURL c = "http://" +:+ h +:+ ":" +:+ p;
  rc_host : string_all host_byte h = true;
  rc_port : string_all digit p = true;
  rc_token : ap_token c = dp_apiToken d;
  rc_set : dp_apiToken d <> "";
}.

Section Requests.
Context (c : apiClient) (h p : string).
Hypothesis Hc : reaches c h p.

Lemma plain_cli_url path q :
  ap_baseURL c +:+ ("/" +:+ path +:+ query_text q) = plain_text h p path q.
Proof. rewrite (rc_base _ _ _ Hc). unfold plain_text. by rewrite <- !string_app_assoc. Qed.

Definition bearer (auth : bool) : string := if auth then "Bearer " +:+ ap_token c else "".

Lemma bearer_dispatch auth rq :
  auth = true \/ public (endpoint_of rq) = true -> dispatch d (bearer auth) rq = handler d rq.
Proof.
  intros Ha. unfold dispatch. destruct (public (endpoint_of rq)) eqn:Hp.
  - unfold serve. by rewrite Hp.
  - destruct Ha as [->|]; [|done]. unfold bearer. rewrite (rc_token _ _ _ Hc).
    by apply serve_token, Hc.
Qed.

Lemma cli_answer_do auth method path q body rq w :
  string_all path_byte path = true -> string_all query_byte q = true ->
  route method (plain_url h p path q) body [] = inr rq ->
  auth = true \/ public (endpoint_of rq) = true ->
  cli_answer (KDo (mkAgentRequest method (plain_text h p path q) (bearer auth) body)) w =
    (let '(r, w') := exec (handler d rq) w in (Ok (respond zone r), w')).
Proof.
  intros Hp Hq Hr Ha. cbn [cli_answer aq_URL aq_Method aq_Authorization aq_Body].
  rewrite Parse_plain by (done || apply Hc). unfold serve_http. rewrite Hr.
  unfold exec. rewrite run_bind, bearer_dispatch by done. by destruct (run _ _ _).
Qed.

Lemma cli_request_plain method path q body :
  string_all path_byte path = true -> string_all query_byte q = true ->
  cli_request method (plain_text h p path q) body =
    Ok (mkAgentRequest method (plain_text h p path q) "" body).
Proof. intros Hp Hq. unfold cli_request. by rewrite Parse_plain by (done || apply Hc). Qed.

Lemma setAuth_bearer method url body :
  setAuth c (mkAgentRequest method url "" body) = mkAgentRequest method url (bearer true) body.
Proof.
  unfold setAuth. rewrite (rc_token _ _ _ Hc), (proj2 (String.eqb_neq _ "") (rc_set _ _ _ Hc)).
  unfold bearer. by rewrite (rc_token _ _ _ Hc).
Qed.

Lemma send_runs (auth : bool) method path q body rq w :
  string_all path_byte path = true -> string_all query_byte q = true ->
  route method (plain_url h p path q) body [] = inr rq ->
  auth = true \/ public (endpoint_of rq) = true ->
  at_prompt (send c auth method (plain_text h p path q) body) w = asked rq w.
Proof.
  intros Hp Hq Hr Ha. unfold send. rewrite cli_request_plain by done.
  assert ((if auth then setAuth c (mkAgentRequest method (plain_text h p path q) "" body)
           else mkAgentRequest method (plain_text h p path q) "" body) =
    mkAgentRequest method (plain_text h p path q) (bearer auth) body) as ->
    by (destruct auth; [apply setAuth_bearer|done]).
  unfold exchange. rewrite prompt_bind.
  change (at_prompt (trigger ?e) w) with (let '(x, s) := cli_answer e w in (x, s)).
  rewrite (cli_answer_do _ _ _ _ _ rq) by done. unfold asked, result_of.
  by destruct (exec _ _) as [r w'].
Qed.

Lemma get_runs path q rq w :
  string_all path_byte path = true -> proper q ->
  route "GET" (plain_url h p path (Encode q)) None [] = inr rq ->
  at_prompt (cli_get c ("/" +:+ path) q) w = asked rq w.
Proof.
  intros Hp Hq Hr. unfold cli_get. rewrite query_suffix_text by done.
  replace (ap_baseURL c +:+ ("/" +:+ path) +:+ query_text (Encode q))
    with (plain_text h p path (Encode q)) by (rewrite <- plain_cli_url; by rewrite <- !string_app_assoc).
  apply send_runs; [done|apply Encode_query_bytes|done|by left].
Qed.

Lemma post_runs path body rq w :
  string_all path_byte path = true ->
  route "POST" (plain_url h p path "") body [] = inr rq ->
  at_prompt (cli_post c ("/" +:+ path) body) w = asked rq w.
Proof.
  intros Hp Hr. unfold cli_post.
  replace (ap_baseURL c +:+ ("/" +:+ path)) with (plain_text h p path "")
    by (rewrite <- plain_cli_url; change (query_text "") with ""; by rewrite string_app_nil).
  apply send_runs; [done..|by left].
Qed.

Lemma del_runs path rq w :
  string_all path_byte path = true ->
  route "DELETE" (plain_url h p path "") None [] = inr rq ->
  at_prompt (cli_del c ("/" +:+ path)) w =
    let '(r, w') := asked rq w in (match r with Err e => Err e | Ok _ => Ok tt end, w').
Proof.
  intros Hp Hr. unfold cli_del.
  replace (ap_baseURL c +:+ ("/" +:+ path)) with (plain_text h p path "")
    by (rewrite <- plain_cli_url; change (query_text "") with ""; by rewrite string_app_nil).
  rewrite cli_request_plain, setAuth_bearer by done. rewrite prompt_bind.
  change (at_prompt (trigger ?e) w) with (let '(x, s) := cli_answer e w in (x, s)).
  rewrite (cli_answer_do _ _ _ _ _ rq) by (done || by left). unfold asked, result_of.
  destruct (exec _ _) as [r w']. cbn [respond rs_status]. by destruct (400 <=? rp_status r).
Qed.

(** ** Commands *)

(** The request a command stands for; [routes verify] makes two. *)
Definition request_of (cmd : command) : option request :=
  match cmd with
  | NodeList => Some RqListNodes
  | NodeAdd host ip mb ver => Some (RqRegister (Some (node_body host ip mb ver)))
  | NodeDrain id => Some (RqDrain id)
  | NodeRemove id => Some (RqRemoveNode id)
  | SandboxList app node state => Some (RqList (mkListQuery app "" state node ""))
  | SandboxInspect id => Some (RqGet id false)
  | SandboxLogs id follow tail => Some (RqLogs id (pretty tail) (if follow then "true" else ""))
  | SandboxRestart id => Some (RqRestart id)
  | SandboxDestroy id => Some (RqDestroy id)
  | RoutesList => Some RqRoutes
  | RoutesVerify => None
  | Events sb ty _ limit => Some (RqEvents sb ty (pretty limit))
  | Healthcheck => Some RqHealthz
  end.

(** Ids that are one plain segment of a path. *)
Definition addressable (cmd : command) : Prop :=
  match cmd with
  | NodeDrain id | NodeRemove id | SandboxInspect id | SandboxLogs id _ _ | SandboxRestart id
  | SandboxDestroy id => uuid_text id
  | _ => True
  end.

(** The four commands that only change something. *)
Definition changes (cmd : command) : bool :=
  match cmd with
  | NodeDrain _ | NodeRemove _ | SandboxRestart _ | SandboxDestroy _ => true
  | _ => false
  end.

(** A command ends in the world its request leaves, and fails with the
    reply's error. *)
Definition tells (silent : bool) (told : outcome * World) (ran : reply * World) : Prop :=
  told.2 = ran.2 /\
  (400 <= rp_status ran.1 -> exists what, told.1 = failing what (parseError (respond zone ran.1))) /\
  (silent = true -> rp_status ran.1 < 400 -> exists line, told.1 = ([OLine line], Ok tt)).

Lemma tells_fetch (fetch : cli (result http_response)) (k : result http_response -> cli outcome) rq w :
  at_prompt fetch w = asked rq w ->
  (forall r, issues (@no_request) (k r)) ->
  (forall e w', exists what, at_prompt (k (Err e)) w' = (failing what e, w')) ->
  tells false (at_prompt (bind fetch k) w) (exec (handler d rq) w).
Proof.
  intros Hf Hq He. rewrite prompt_bind, Hf. unfold asked, result_of.
  destruct (exec (handler d rq) w) as [r w']. split_and!; [by apply offline| |done].
  cbn [fst]. intros Hs. rewrite (proj2 (Z.leb_le 400 _) Hs).
  destruct (He (parseError (respond zone r)) w') as [what ->]. by exists what.
Qed.

Lemma tells_show {A} what fetch (decode : option json -> option A) print rq w :
  at_prompt fetch w = asked rq w ->
  tells false (at_prompt (show what fetch decode print) w) (exec (handler d rq) w).
Proof. intros Hf. apply tells_fetch; [done..|]. intros e w'. by exists what. Qed.

Lemma tells_confirm {A} what line (p' : cli (result A)) (f : http_response -> A) rq w :
  at_prompt p' w = (let '(r, w') := asked rq w in
    (match r with Err e => Err e | Ok x => Ok (f x) end, w')) ->
  tells true (at_prompt (confirm what line p') w) (exec (handler d rq) w).
Proof.
  intros Hp. unfold confirm. rewrite prompt_bind, Hp. unfold asked, result_of.
  destruct (exec (handler d rq) w) as [r w']. unfold tells. cbn [fst snd].
  destruct (Z.leb_spec 400 (rp_status r)); (split_and!; [done| |]); try lia; intros; by eexists.
Qed.

Lemma event_rows_offline since l : issues (@no_request) (event_rows since l).
Proof.
  apply issues_range. intros rows e _. apply issues_bind; [|done].
  unfold event_row. destruct (event_time e); [|done]. destruct (match since with Some _ => _ | None => _ end);
    [done|]. by split.
Qed.

Lemma since_time_offline since : issues (@no_request) (since_time since).
Proof. unfold since_time. destruct (String.eqb since ""); [done|]. by destruct (ParseDuration since). Qed.

Lemma events_offline since (r : result http_response) :
  issues (@no_request) (match r with
  | Err e => Ret (failing "fetching events" e)
  | Ok r =>
      match decode_events (rs_json r) with
      | None => Ret (failing "parsing response" (OtherError "invalid JSON"))
      | Some l =>
          s <- since_time since ;;
          match s with
          | Err e => Ret ([], Err e)
          | Ok since =>
              rows <- event_rows since l ;;
              Ret ([OTable ["TIME"; "TYPE"; "SANDBOX_ID"; "TRANSITION"] rows], Ok tt)
          end
      end
  end).
Proof.
  destruct r as [r|e]; [|done]. destruct (decode_events _) as [l|]; [|done].
  apply issues_bind; [apply since_time_offline|]. intros [s|e]; [|done].
  apply issues_bind; [apply event_rows_offline|done].
Qed.

Lemma id_path s id tail : uuid_text id -> string_all path_byte s = true ->
  string_all path_byte tail = true ->
  string_all path_byte ("v1/" +:+ s +:+ "/" +:+ id +:+ tail) = true.
Proof. intros Hid Hs Ht. by rewrite !string_all_app, (uuid_path_bytes _ Hid), Hs, Ht. Qed.

Definition list_flags (app node state : string) : Values :=
  flag "state" state (flag "node_id" node (flag "app_name" app ∅)).

Definition tail_flags (follow : bool) (tail : Z) : Values :=
  if follow then Set' "follow" "true" (Set' "tail" (pretty tail) ∅) else Set' "tail" (pretty tail) ∅.

Lemma proper_list_flags app node state : proper (list_flags app node state).
Proof. do 3 apply proper_flag. apply proper_nil. Qed.

Lemma proper_tail_flags follow tail : proper (tail_flags follow tail).
Proof. unfold tail_flags. destruct follow; repeat apply proper_Set; apply proper_nil. Qed.

Lemma proper_events_query sb ty limit : proper (events_query sb ty limit).
Proof. do 2 apply proper_flag. apply proper_Set, proper_nil. Qed.

Lemma list_flags_query app node state :
  list_query_of (list_flags app node state) = mkListQuery app "" state node "".
Proof.
  unfold list_query_of, list_flags. rewrite !Get_flag, !Get_nil. simpl.
  by destruct (String.eqb_spec app ""), (String.eqb_spec state ""), (String.eqb_spec node ""); subst.
Qed.

Lemma events_query_request sb ty limit :
  RqEvents (Get (events_query sb ty limit) "sandbox_id") (Get (events_query sb ty limit) "event_type")
    (Get (events_query sb ty limit) "limit") = RqEvents sb ty (pretty limit).
Proof.
  unfold events_query. rewrite !Get_flag, !Get_Set_any, !Get_nil. simpl.
  by destruct (String.eqb_spec sb ""), (String.eqb_spec ty ""); subst.
Qed.

Lemma route_list q : proper q ->
  route "GET" (plain_url h p "v1/sandboxes" (Encode q)) None [] = inr (RqList (list_query_of q)).
Proof.
  intros Hq. change (inr (RqList (list_query_of (Query (Encode q)))) = inr (A := Z) (RqList (list_query_of q))).
  by rewrite Query_Encode.
Qed.

Lemma route_events q : proper q ->
  route "GET" (plain_url h p "v1/events" (Encode q)) None [] =
    inr (RqEvents (Get q "sandbox_id") (Get q "event_type") (Get q "limit")).
Proof. intros Hq. rewrite <- (Query_Encode q Hq) at 2 3 4. done. Qed.

Lemma get_id_runs i pat b s tail id q w :
  routes !! i = Some ("GET", pat, b) ->
  pattern_of pat = Fixed "v1" :: Fixed s :: Wildcard :: (Fixed <$> tail) ->
  forallb no_slash (s :: tail) = true -> uuid_text id -> proper q ->
  string_all path_byte (join_slash ("v1" :: s :: id :: tail)) = true ->
  at_prompt (cli_get c ("/" +:+ join_slash ("v1" :: s :: id :: tail)) q) w = asked (b [id] q None []) w.
Proof.
  intros Hi Hpat Hs Hid Hq Hb. apply get_runs; [done..|].
  rewrite (route_id [] i "GET" pat b s tail) by done. by rewrite Query_Encode.
Qed.

Lemma bare_id_path s id : uuid_text id -> string_all path_byte s = true ->
  string_all path_byte (join_slash ["v1"; s; id]) = true.
Proof.
  intros Hid Hs. pose proof (id_path s id "" Hid Hs eq_refl) as Hp. by rewrite string_app_nil in Hp.
Qed.

Lemma tells_post what line i pat b s tail id w :
  routes !! i = Some ("POST", pat, b) ->
  pattern_of pat = Fixed "v1" :: Fixed s :: Wildcard :: (Fixed <$> tail) ->
  forallb no_slash (s :: tail) = true -> uuid_text id ->
  string_all path_byte (join_slash ("v1" :: s :: id :: tail)) = true ->
  tells true (at_prompt (confirm what line (cli_post c ("/" +:+ join_slash ("v1" :: s :: id :: tail)) None)) w)
    (exec (handler d (b [id] ∅ None [])) w).
Proof.
  intros Hi Hpat Hs Hid Hb. apply (tells_confirm _ _ _ (fun r => r)).
  rewrite (post_runs _ None (b [id] ∅ None [])).
  - by destruct (asked _ w) as [[?|?] ?].
  - done.
  - by rewrite (route_id [] i "POST" pat b s tail).
Qed.

Lemma tells_del what line i pat b s id w :
  routes !! i = Some ("DELETE", pat, b) ->
  pattern_of pat = [Fixed "v1"; Fixed s; Wildcard] -> no_slash s = true -> uuid_text id ->
  string_all path_byte (join_slash ["v1"; s; id]) = true ->
  tells true (at_prompt (confirm what line (cli_del c ("/" +:+ join_slash ["v1"; s; id]))) w)
    (exec (handler d (b [id] ∅ None [])) w).
Proof.
  intros Hi Hpat Hs Hid Hb. apply (tells_confirm _ _ _ (fun _ => tt)), del_runs; [done|].
  by rewrite (route_id [] i "DELETE" pat b s []) by (done || simpl; by rewrite Hs).
Qed.

Lemma inspect_runs id w : uuid_text id ->
  at_prompt (cli_get c ("/v1/sandboxes/" +:+ id) ∅) w = asked (RqGet id false) w.
Proof.
  intros Ha. exact (get_id_runs 9 "/v1/sandboxes/{id}" _ "sandboxes" [] id ∅ w eq_refl eq_refl eq_refl Ha
    proper_nil (bare_id_path "sandboxes" id Ha eq_refl)).
Qed.

Lemma logs_runs id follow tail w : uuid_text id ->
  at_prompt (cli_get c ("/v1/sandboxes/" +:+ id +:+ "/logs") (tail_flags follow tail)) w =
    asked (RqLogs id (pretty tail) (if follow then "true" else "")) w.
Proof.
  intros Ha.
  replace (RqLogs id (pretty tail) (if follow then "true" else ""))
    with (RqLogs id (Get (tail_flags follow tail) "tail") (Get (tail_flags follow tail) "follow"))
    by (unfold tail_flags; destruct follow; rewrite !Get_Set_any; done).
  exact (get_id_runs 14 "/v1/sandboxes/{id}/logs" _ "sandboxes" ["logs"] id _ w eq_refl eq_refl eq_refl Ha
    (proper_tail_flags follow tail) (id_path "sandboxes" id "/logs" Ha eq_refl eq_refl)).
Qed.

Lemma command_tells cmd rq w : addressable cmd -> request_of cmd = Some rq ->
  tells (changes cmd) (at_prompt (run_command c cmd) w) (exec (handler d rq) w).
Proof.
  intros Ha Hrq. destruct cmd as [|host ip mb ver|id|id|app node state|id|id follow tail|id|id| | |sb ty since limit|];
    simpl in Ha, Hrq; (discriminate Hrq || apply Some_inj in Hrq; subst rq); cbn [run_command changes].
  - by apply tells_show, get_runs.
  - by apply tells_show, post_runs.
  - exact (tells_post _ _ 5 "/v1/nodes/{id}/drain" _ "nodes" ["drain"] id w eq_refl eq_refl eq_refl Ha
      (id_path "nodes" id "/drain" Ha eq_refl eq_refl)).
  - exact (tells_del _ _ 6 "/v1/nodes/{id}" _ "nodes" id w eq_refl eq_refl eq_refl Ha
      (bare_id_path "nodes" id Ha eq_refl)).
  - apply tells_show. apply (get_runs "v1/sandboxes" (list_flags app node state)); [done|apply proper_list_flags|].
    rewrite <- list_flags_query. by apply route_list, proper_list_flags.
  - eapply tells_fetch; [by apply inspect_runs|done|by eexists].
  - eapply tells_fetch; [|done|by eexists].
    change (if follow then Set' "follow" "true" _ else _) with (tail_flags follow tail). by apply logs_runs.
  - exact (tells_post _ _ 11 "/v1/sandboxes/{id}/restart" _ "sandboxes" ["restart"] id w eq_refl eq_refl
      eq_refl Ha (id_path "sandboxes" id "/restart" Ha eq_refl eq_refl)).
  - exact (tells_del _ _ 10 "/v1/sandboxes/{id}" _ "sandboxes" id w eq_refl eq_refl eq_refl Ha
      (bare_id_path "sandboxes" id Ha eq_refl)).
  - by apply tells_show, get_runs.
  - eapply tells_fetch; [|apply events_offline|by eexists].
    apply (get_runs "v1/events" (events_query sb ty limit)); [done|apply proper_events_query|].
    rewrite <- events_query_request. by apply route_events, proper_events_query.
  - eapply tells_fetch; [|done|by eexists]. unfold getNoAuth.
    replace (ap_baseURL c +:+ "/v1/healthz") with (plain_text h p "v1/healthz" "")
      by (rewrite <- plain_cli_url; done).
    by apply send_runs; try right.
Qed.
End Requests.
End CliFacts.

(** ** Reading what the handlers write *)

Section Reading.
Context `{External} (zone : Z).

Definition as_listed (r : Route) : listedRoute :=
  mkListedRoute (rt_AppName r) (rt_SandboxID r) (rt_Upstream r).

Definition as_running (s : Sandbox) : string * string * string :=
  (uuid_String (sb_ID s), sb_AppName s, sb_State s).

Lemma read_routes l : Cli.decode_routes (body_json zone 200 (BRoutes l)) = Some (as_listed <$> l).
Proof.
  unfold Cli.decode_routes, decode_list, dec_field. cbn -[dec_list].
  by rewrite (dec_list_fmap _ _ (routeResponse_json ∘ route_response) as_listed).
Qed.

Lemma read_sandbox s : dec_running ("", "", "") (SandboxResponse_json (sandboxToResponse zone s (sb_VerifiedAt s))) = (as_running s, true).
Proof.
  unfold SandboxResponse_json. cbn [sandboxToResponse sres_CreatedAt sres_UpdatedAt sres_LastActiveAt sres_VerifiedAt].
  rewrite !literal_z_shown, rfc3339_shown. by destruct s as [? ? ? [?|] [?|] [?|]].
Qed.

Lemma read_running l v :
  decode_running (body_json zone 200 (BSandboxes l v)) = Some (as_running <$> l).
Proof.
  unfold decode_running, decode_list, dec_field. cbn -[dec_list omit_empty SandboxResponse_json].
  rewrite (dec_list_fmap _ _ _ as_running) by (intros s _; apply read_sandbox).
  unfold omit_empty. by destruct (String.eqb _ _).
Qed.
End Reading.

Lemma filter_fmap_nil {A B} (P : A -> Prop) `{forall x, Decision (P x)} (f : A -> B) l :
  f <$> filter P l = [] <-> forall x, x ∈ l -> ~ P x.
Proof.
  split.
  - intros Hn%fmap_nil_inv x Hx HP. by apply (filter_nil_not_elem_of P l x).
  - intros Hno. induction l as [|x l IH]; [done|]. rewrite filter_cons_False by (apply Hno; left).
    apply IH. intros y Hy. apply Hno. by right.
Qed.

(** There is no drift when the two have the same applications. *)
Lemma drifts_nil routes running :
  drifts routes running = [] <->
  forall app, app ∈ lr_AppName <$> routes <-> app ∈ (fun s => s.1.2) <$> running.
Proof.
  unfold drifts. cbv zeta. rewrite app_nil, !filter_fmap_nil. setoid_rewrite elem_of_list_to_set. split.
  - intros [Hr Hs] app. split; intros (x & -> & Hx)%list_elem_of_fmap.
    + apply dec_stable. by apply Hr.
    + apply dec_stable. by apply Hs.
  - intros Hiff. split; intros x Hx Hno; apply Hno, Hiff.
    + by apply list_elem_of_fmap_2.
    + exact (list_elem_of_fmap_2 (fun s => s.1.2) _ _ Hx).
Qed.

Lemma exit_report_drifts l : exit_code (report_drifts l) = 0 <-> l = [].
Proof. by destruct l. Qed.

(** ** The two lists [routes verify] compares *)

Definition running_rows (db : DB) : list Sandbox :=
  newest_first (filter (fun s => sb_State s = StateRunning) (sandbox_rows db)).

Lemma list_running_exec `{External} sv w :
  sv_sandboxReader sv = true -> w_faults w = [] ->
  exec (handleListSandboxes sv (list_query_of (Set' "state" "running" ∅))) w =
    (mkReply 200 (BSandboxes (running_rows (w_db w)) (fleet_verified (running_rows (w_db w)))), w).
Proof.
  intros Hsr Hf. apply exec_eq. unfold handleListSandboxes. rewrite Hsr.
  step_by reflexivity. rewrite set_db_same. by apply ctl_wp_ret.
Qed.

Lemma list_routes_exec `{External} cc `{!CaddyServer cc} sv w :
  sv_routeFetcher sv = Some cc -> Forall (fun r => rt_AppName r <> "") (w_held cc w) ->
  exec (handleListRoutes sv) w = (mkReply 200 (BRoutes (shown <$> w_held cc w)), w).
Proof.
  intros Hrf Hne. apply exec_eq. unfold handleListRoutes. rewrite Hrf.
  apply ctl_wp_bind, (ListRoutes_runs cc); [done|]. by apply ctl_wp_ret.
Qed.

Lemma elem_of_running db app : db_wf db ->
  app ∈ sb_AppName <$> running_rows db <->
  exists i s, sandboxes db !! i = Some s /\ sb_State s = StateRunning /\ sb_AppName s = app.
Proof.
  intros Hwf. rewrite list_elem_of_fmap. unfold running_rows, newest_first.
  setoid_rewrite elem_of_order_by. setoid_rewrite list_elem_of_filter.
  setoid_rewrite (elem_of_sandbox_rows db); [|done]. split.
  - intros (s & -> & Hst & Hs). by exists (sb_ID s), s.
  - intros (i & s & Hs & Hst & Happ). exists s. split_and!; [done|done|].
    by rewrite (so_key _ _ _ (wf_sandboxes _ Hwf _ _ Hs)).
Qed.

(** The control plane is healthy exactly when the database answers. *)
Lemma healthz_exec `{External} start w :
  let up := Z.quot (w_now w - start) second in
  (exists e fs, w_faults w = Some e :: fs /\
     exec (handleHealthz start) w = (mkReply 503 (BHealth "error" "unreachable" up), set_faults fs w)) \/
  ((forall e fs, w_faults w <> Some e :: fs) /\
   exists w', exec (handleHealthz start) w = (mkReply 200 (BHealth "ok" "ok" up), w')).
Proof.
  unfold handleHealthz, exec. cbn [run bind db trigger handle time_Now]. unfold call_db.
  destruct (w_faults w) as [|[e|] fs] eqn:Hf; cbn.
  - right. split; [done|]. by eexists.
  - left. by exists e, fs.
  - right. split; [done|]. by eexists.
Qed.

Lemma read_health `{External} zone status st pg up :
  decode_health (body_json zone status (BHealth st pg up)) =
    if (- 2 ^ 63 <=? up) && (up <=? 2 ^ 63 - 1) then Some (st, pg, up) else None.
Proof.
  unfold decode_health. cbn [body_json mbind option_bind members_of].
  assert (forall d : decoder Z, dec_field "uptime_seconds" d 0
      [("status", JStr st); ("postgres", JStr pg); ("uptime_seconds", JInt up)] =
    let '(x, ok) := d 0 (JInt up) in (x, true && ok)) as -> by reflexivity.
  change (dec_field "status" _ _ _) with (st, true). change (dec_field "postgres" _ _ _) with (pg, true).
  unfold dec_int64, dec_int. by destruct (_ && _).
Qed.

(** *** Events *)

Section EventRows.
Context `{External, ClientTexts, Quoting} (d : Deployment) (zone : Z).

Definition as_event (e : Event) : listedEvent :=
  mkListedEvent (ev_ID e) (formatUUID (ev_SandboxID e)) (ev_EventType e) (default "" (ev_PrevState e))
    (default "" (ev_NextState e)) (literal_z zone (ev_CreatedAt e)).

Lemma read_event_row e : in_int64 (ev_ID e) ->
  dec_event (mkListedEvent 0 "" "" "" "" "") (eventResponse_json (storeEventToResponse zone e)) = (as_event e, true).
Proof.
  intros Hid. destruct e as [id sb node ty actor prev next payload at_]. unfold eventResponse_json, as_event.
  cbn [storeEventToResponse eres_CreatedAt]. rewrite literal_z_shown. unfold omit_empty.
  cbn [storeEventToResponse eres_ID eres_SandboxID eres_NodeID eres_EventType eres_Actor eres_PrevState eres_NextState
    eres_Payload ev_ID ev_SandboxID ev_NodeID ev_EventType ev_Actor ev_PrevState ev_NextState ev_Payload ev_CreatedAt] in *.
  generalize (formatUUID sb) (formatUUID node) (default "" prev) (default "" next). intros a b c n.
  assert (forall old, dec_int64 old (JInt id) = (id, true)) as Hd by (intros; by apply dec_int64_in).
  unfold dec_event, dec_field.
  destruct (String.eqb_spec a ""), (String.eqb_spec b ""), (String.eqb_spec c ""), (String.eqb_spec n ""); subst;
    cbn -[dec_int64 literal_z]; by rewrite Hd.
Qed.

Lemma read_events_list l : Forall (fun e => in_int64 (ev_ID e)) l ->
  decode_events (body_json zone 200 (BEvents l)) = Some (as_event <$> l).
Proof.
  intros Hl. unfold decode_events, decode_list, dec_field. cbn -[dec_list eventResponse_json storeEventToResponse].
  rewrite (dec_list_fmap _ _ _ as_event); [done|]. intros e He.
  apply read_event_row. by apply (proj1 (Forall_forall _ _) Hl).
Qed.

(** The instant the client reads: the clock of the zone taken for UTC. *)
Definition stamp (e : Event) : Z := (ev_CreatedAt e / second + zone) * 1000000000.

Definition dated (e : Event) : Prop :=
  in_int64 (ev_ID e) /\ plain_year zone (ev_CreatedAt e / second) /\ stamp e <> zero_time.

Definition printed_row (now : Z) (e : Event) : list string :=
  [formatRelativeTime now (stamp e); ev_EventType e; truncateID (formatUUID (ev_SandboxID e));
   Cli.transition (as_event e)].

Lemma event_row_runs s e w : dated e ->
  at_prompt d zone (event_row (Some s) (as_event e)) w =
    (if stamp e <? s then None else Some (printed_row (w_now w * 1000) e), w).
Proof.
  intros (_ & Hy & Hz). unfold event_row, event_time. cbn [le_CreatedAt as_event]. unfold literal_z.
  rewrite Parse_Z_shifts by done. cbn [mbind option_bind]. fold (stamp e).
  rewrite (proj2 (Z.eqb_neq _ _) Hz). by destruct (stamp e <? s).
Qed.

Lemma event_rows_runs s l w : Forall dated l ->
  at_prompt d zone (event_rows (Some s) (as_event <$> l)) w =
    (printed_row (w_now w * 1000) <$> filter (fun e => s <= stamp e) l, w).
Proof.
  intros Hl. enough (forall acc, at_prompt d zone
      (range (fun rows e => r <- event_row (Some s) e ;; Ret (rows ++ from_option (fun r => [r]) [] r))
         (as_event <$> l) acc) w =
    (acc ++ (printed_row (w_now w * 1000) <$> filter (fun e => s <= stamp e) l), w)) as Hrun by apply Hrun.
  induction Hl as [|e l He _ IH]; intros acc; [by rewrite app_nil_r|].
  cbn [fmap list_fmap range]. rewrite prompt_bind, prompt_bind, event_row_runs by done.
  change (at_prompt d zone (Ret ?x) w) with (x, w). cbv beta iota. rewrite IH.
  destruct (Z.ltb_spec (stamp e) s).
  - rewrite filter_cons_False by lia. simpl. by rewrite app_nil_r.
  - rewrite filter_cons_True by done. simpl. by rewrite <- app_assoc.
Qed.
End EventRows.

Lemma uuid_not_app s : uuid_text s -> HasPrefix s "app:" = false.
Proof.
  intros [Hs _]. destruct (HasPrefix s "app:") eqn:Hp; [|done].
  apply HasPrefix_split in Hp. rewrite Hp, string_all_app in Hs. discriminate Hs.
Qed.

(** ** Properties *)

(** C27: Every command but [routes verify] is one request: against a control plane
    that answers, it leaves the world the handler of that request leaves, fails
    with the handler's error whenever the status is 400 or more, and the four
    commands that only change something succeed otherwise. *)
Theorem command_is_its_request `{External, ClientTexts, Quoting} d zone c h p cmd rq w :
  reaches d c h p -> addressable cmd -> request_of cmd = Some rq ->
  let '(o, w') := at_prompt d zone (run_command c cmd) w in
  let '(r, w1) := exec (handler d rq) w in
  w' = w1 /\
  (400 <= rp_status r -> exists what, o = failing what (parseError (respond zone r))) /\
  (changes cmd = true -> rp_status r < 400 -> exists line, o = ([OLine line], Ok tt)).
Proof.
  intros Hc Ha Hr. pose proof (command_tells d zone c h p Hc cmd rq w Ha Hr) as Ht.
  destruct (at_prompt _ _ _ _) as [o w'], (exec _ _) as [r w1]. exact Ht.
Qed.

(** C29: [routes verify] is exact: with Caddy and the database answering, it exits
    with 0 if and only if the applications Caddy routes are the applications
    of the running sandboxes. *)
Theorem routes_verify_exact `{External, ClientTexts, Quoting} cc `{!CaddyServer cc} d zone c h p w :
  reaches d c h p -> sv_routeFetcher (dp_server d) = Some cc -> sv_sandboxReader (dp_server d) = true ->
  w_faults w = [] -> db_wf (w_db w) -> Forall (fun r => rt_AppName r <> "") (w_held cc w) ->
  let '(o, w') := at_prompt d zone (routesVerify c) w in
  w' = w /\
  (exit_code o = 0 <-> forall app, app ∈ rt_AppName <$> w_held cc w <->
     exists i s, sandboxes (w_db w) !! i = Some s /\ sb_State s = StateRunning /\ sb_AppName s = app).
Proof.
  intros Hc Hrf Hsr Hf Hwf Hne. unfold routesVerify. rewrite prompt_bind.
  rewrite (get_runs d zone c h p Hc "v1/routes" ∅ RqRoutes) by done. unfold asked. cbn [handler].
  rewrite (list_routes_exec cc) by done.
  change (result_of zone (mkReply 200 ?b)) with (Ok (respond zone (mkReply 200 b))). cbv beta iota.
  cbn [rs_json respond rp_status rp_body]. rewrite read_routes, prompt_bind.
  rewrite (get_runs d zone c h p Hc "v1/sandboxes" (Set' "state" "running" ∅)
    (RqList (list_query_of (Set' "state" "running" ∅)))) by (done || by apply route_list || apply proper_Set, proper_nil).
  unfold asked. cbn [handler]. rewrite list_running_exec by done.
  change (result_of zone (mkReply 200 ?b)) with (Ok (respond zone (mkReply 200 b))). cbv beta iota.
  cbn [rs_json respond rp_status rp_body]. rewrite read_running. split; [done|].
  rewrite exit_report_drifts, drifts_nil. apply forall_proper. intros app.
  rewrite <- !list_fmap_compose, <- elem_of_running by done. done.
Qed.

(** Filters do not combine: given an application, [sandbox list] ignores the
    node and the state; given a state, it ignores the node. *)
Theorem list_filters_exclusive `{External, ClientTexts, Quoting} d zone c h p app node state w :
  reaches d c h p ->
  (app <> "" ->
   at_prompt d zone (sandboxList c app node state) w = at_prompt d zone (sandboxList c app "" "") w) /\
  (state <> "" ->
   at_prompt d zone (sandboxList c app node state) w = at_prompt d zone (sandboxList c app "" state) w).
Proof.
  intros Hc.
  assert (forall a n s, at_prompt d zone (sandboxList c a n s) w =
    let '(r, w') := asked d zone (RqList (mkListQuery a "" s n "")) w in
    at_prompt d zone (Ret (match r with
       | Err e => failing "listing sandboxes" e
       | Ok r =>
           match decode_sandboxes (rs_json r) with
           | None => failing "parsing response" (OtherError "invalid JSON")
           | Some l => ([OTable ["ID"; "APP_NAME"; "STATE"; "NODE"; "URL"] (sandbox_row <$> l)], Ok tt)
           end
       end)) w') as Hrun.
  { intros a n s. unfold sandboxList, show. rewrite prompt_bind.
    rewrite (get_runs d zone c h p Hc "v1/sandboxes" _ (RqList (mkListQuery a "" s n ""))); [done|done| |].
    - apply (proper_list_flags a n s).
    - rewrite <- list_flags_query. by apply route_list, proper_list_flags. }
  rewrite !Hrun. unfold asked. cbn [handler]. unfold handleListSandboxes. cbn [lq_app_name lq_user_id lq_state lq_node_id].
  split; intros Hne; rewrite (proj2 (String.eqb_neq _ "") Hne); [done|].
  by destruct (String.eqb app "").
Qed.

(** [healthcheck] never prints FAIL: an unhealthy control plane answers 503,
    which is an error before the body is read, so the lines of a status that
    is not "ok" are out of reach. *)
Theorem healthcheck_never_fails `{External, ClientTexts, Quoting} d zone c h p w :
  reaches d c h p ->
  let '(o, _) := at_prompt d zone (healthcheck c) w in
  (forall e fs, w_faults w = Some e :: fs ->
     o = failing "checking health" (parseError (respond zone (mkReply 503 (BHealth "error" "unreachable"
           (Z.quot (w_now w - dp_startTime d) second)))))) /\
  (OLine "Control Plane: FAIL" ∉ o.1) /\ (OLine "Postgres:      FAIL" ∉ o.1).
Proof.
  intros Hc. unfold healthcheck. rewrite prompt_bind. unfold getNoAuth.
  replace (ap_baseURL c +:+ "/v1/healthz") with (plain_text h p "v1/healthz" "")
    by (rewrite <- (plain_cli_url d c h p Hc); done).
  rewrite (send_runs d zone c h p Hc false _ _ _ _ RqHealthz) by (done || by right).
  unfold asked. cbn [handler].
  destruct (healthz_exec (dp_startTime d) w) as [(e & fs & Hf & ->)|[Hf [w' ->]]].
  - change (result_of zone (mkReply 503 ?b)) with (Err (A := http_response) (parseError (respond zone (mkReply 503 b)))).
    split; [done|]. split; apply not_elem_of_nil.
  - change (result_of zone (mkReply 200 ?b)) with (Ok (respond zone (mkReply 200 b))). cbv iota beta.
    split; [by intros e fs He; destruct (Hf e fs)|].
    cbn [rs_json respond rp_status rp_body]. rewrite read_health.
    destruct (_ && _); simpl; rewrite ?not_elem_of_cons; split_and!; done || apply not_elem_of_nil.
Qed.

(** [events --since] works in the zone of the control plane's process: the
    times it prints and filters by are the events' own shifted by the zone's
    offset, so with an offset the filter keeps too much or too little and ages
    are wrong by as much. *)
Theorem events_since_shifted `{External, ClientTexts, Quoting} d zone c h p sb ty since dur limit l w w' :
  reaches d c h p ->
  exec (handler d (RqEvents sb ty (pretty limit))) w = (mkReply 200 (BEvents l), w') ->
  Forall (dated zone) l -> since <> "" -> ParseDuration since = Some dur ->
  w_now w' * 1000 - dur <> zero_time ->
  at_prompt d zone (events c sb ty since limit) w =
    (([OTable ["TIME"; "TYPE"; "SANDBOX_ID"; "TRANSITION"]
         (printed_row zone (w_now w' * 1000) <$> filter (fun e => w_now w' * 1000 - dur <= stamp zone e) l)],
      Ok tt), w').
Proof.
  intros Hc Hex Hl Hs Hd Hz. unfold events. rewrite prompt_bind.
  rewrite (get_runs d zone c h p Hc "v1/events" _ (RqEvents sb ty (pretty limit))); [|done|apply proper_events_query|].
  2: { rewrite <- events_query_request. apply route_events, proper_events_query. }
  unfold asked. rewrite Hex.
  change (result_of zone (mkReply 200 ?b)) with (Ok (respond zone (mkReply 200 b))). cbv beta iota.
  cbn [rs_json respond rp_status rp_body]. rewrite read_events_list by (eapply Forall_impl; [exact Hl|by intros e []]).
  rewrite prompt_bind. unfold since_time. rewrite (proj2 (String.eqb_neq since "") Hs), Hd.
  rewrite prompt_bind. change (at_prompt d zone (trigger KNow) w') with (w_now w' * 1000, w'). cbv beta iota zeta.
  rewrite (proj2 (Z.eqb_neq _ _) Hz). change (at_prompt d zone (Ret ?x) w') with (x, w'). cbv beta iota.
  by rewrite prompt_bind, event_rows_runs.
Qed.

(** [sandbox inspect] and [sandbox logs] take no application's name, whatever
    their usage says: a name that is not a UUID is answered with 400, sandbox or
    no sandbox; the eight characters of an id the lists print are refused the
    same way. *)
Theorem by_name_refused `{External, ClientTexts, Quoting} d zone c h p name follow tail w :
  reaches d c h p -> uuid_text name -> uuid_Parse name = None ->
  sv_sandboxReader (dp_server d) = true -> dp_logProxyStore d = true ->
  at_prompt d zone (sandboxInspect c name) w =
    (failing "inspecting sandbox" (OtherError
       "Bad Request: invalid sandbox ID: must be a valid UUID or app:{name}"), w) /\
  at_prompt d zone (sandboxLogs c name follow tail) w =
    (failing "fetching logs" (OtherError "Bad Request: invalid sandbox ID: must be a valid UUID"), w).
Proof.
  intros Hc Hname Hp Hsr Hlog. pose proof (uuid_not_app _ Hname) as Happ. split.
  - unfold sandboxInspect. rewrite prompt_bind.
    rewrite (inspect_runs d zone c h p Hc) by done. unfold asked. cbn [handler].
    unfold handleGetSandbox. rewrite Hsr. unfold lookup_sandbox. rewrite Happ, Hp. reflexivity.
  - unfold sandboxLogs. cbv zeta. rewrite prompt_bind.
    fold (tail_flags follow tail). rewrite (logs_runs d zone c h p Hc) by done. unfold asked. cbn [handler].
    unfold handleGetLogs. rewrite Hlog, Happ, Hp. reflexivity.
Qed.

(** *** A concrete client *)

Definition demo_prompt : apiClient := mkApiClient "http://10.0.0.1:8080" "secret".

Definition demo_routed : Deployment :=
  mkDeployment (mkServer None true false None true (Some demo_client) 15) (mkService true true) "secret" "k" 0 true true.

Lemma demo_reaches d : dp_apiToken d = "secret" -> reaches d demo_prompt "10.0.0.1" "8080".
Proof. intros Hd. by split; rewrite ?Hd. Qed.

Lemma command_is_its_request_witness :
  let w := demo_cluster_world (demo_db StateRunning 0) in
  exists line, (@at_prompt demo_cluster demo_deployment 0 _
     (@run_command demo_client_texts demo_quoting demo_prompt (NodeDrain "1")) w).1 = ([OLine line], Ok tt).
Proof.
  intros w.
  pose proof (@command_is_its_request demo_cluster demo_client_texts demo_quoting demo_deployment 0
    demo_prompt "10.0.0.1" "8080" (NodeDrain "1") (RqDrain "1") w (demo_reaches demo_deployment eq_refl)) as Hc.
  destruct (at_prompt _ _ _ w) as [o w'].
  assert (rp_status (@exec demo_cluster _ (@handler demo_cluster demo_deployment (RqDrain "1")) w).1 = 200)
    as Hst by (vm_compute; reflexivity).
  destruct (exec _ w) as [r w1]. cbn [fst] in *. destruct Hc as (_ & _ & Hok).
  - split; [reflexivity|discriminate].
  - reflexivity.
  - apply Hok; [reflexivity|rewrite Hst; reflexivity].
Defined.

Lemma routes_verify_exact_witness :
  let w := caddy_world (demo_db StateRunning 0) [mkRoute "my-app" "7" "100.64.1.5:40000"] in
  exit_code (@at_prompt demo_caddy_external demo_routed 0 _
    (@routesVerify demo_client_texts demo_prompt) w).1 = 0.
Proof.
  intros w.
  pose proof (@routes_verify_exact demo_caddy_external demo_client_texts demo_quoting demo_client demo_caddy
    demo_routed 0 demo_prompt "10.0.0.1" "8080" w (demo_reaches demo_routed eq_refl) eq_refl eq_refl eq_refl) as Hv.
  destruct (at_prompt _ _ _ w) as [o w']. cbn [fst]. apply Hv.
  - apply demo_db_wf, in_states. reflexivity.
  - repeat constructor. discriminate.
  - intros app. split.
    + intros [->|[]%not_elem_of_nil]%elem_of_cons. by exists 7%N, (demo_sandbox StateRunning 0).
    + intros (i & s & Hs & _ & <-). change (({[ 7%N := demo_sandbox StateRunning 0 ]} : gmap uuid Sandbox) !! i = Some s) in Hs.
      apply lookup_singleton_Some in Hs as [_ <-]. left.
Defined.

Lemma list_filters_exclusive_witness :
  let w := demo_cluster_world (demo_db StateRunning 0) in
  @at_prompt demo_cluster demo_deployment 0 _ (@sandboxList demo_client_texts demo_prompt "" "9" "running") w =
  @at_prompt demo_cluster demo_deployment 0 _ (@sandboxList demo_client_texts demo_prompt "" "" "running") w.
Proof.
  intros w.
  apply (@list_filters_exclusive demo_cluster demo_client_texts demo_quoting demo_deployment 0 demo_prompt
    "10.0.0.1" "8080" "" "9" "running" w (demo_reaches demo_deployment eq_refl)). discriminate.
Defined.

Lemma healthcheck_never_fails_witness :
  let w := set_faults [Some (OtherError "connection refused")] (demo_cluster_world empty_db) in
  exit_code (@at_prompt demo_cluster demo_deployment 0 _ (@healthcheck demo_client_texts demo_prompt) w).1 = 1.
Proof.
  intros w.
  pose proof (@healthcheck_never_fails demo_cluster demo_client_texts demo_quoting demo_deployment 0 demo_prompt
    "10.0.0.1" "8080" w (demo_reaches demo_deployment eq_refl)) as Hh.
  destruct (at_prompt _ _ _ w) as [o w']. cbn [fst].
  rewrite (proj1 Hh _ _ eq_refl). reflexivity.
Defined.

(** Two hours after the event, in a zone two hours ahead. *)
Definition demo_event : Event :=
  mkEvent 1 (Some 7%N) None "create" "system" None (Some StatePending) json_empty (1700000000 * second).

Definition demo_eventful : @World demo_cluster :=
  @mkWorld demo_cluster (mkDB ∅ ∅ ∅ [demo_event] 2) (1700007200 * second) 0 [] NewBatcher [] tt.

Lemma events_since_shifted_witness :
  at_prompt (H := demo_cluster) demo_deployment 7200 (@events demo_client_texts demo_quoting demo_prompt "" "" "1h" 50)
    demo_eventful =
  (([OTable ["TIME"; "TYPE"; "SANDBOX_ID"; "TRANSITION"] [["0s ago"; "create"; "7"; " -> pending"]]], Ok tt),
   demo_eventful).
Proof.
  rewrite (@events_since_shifted demo_cluster demo_client_texts demo_quoting demo_deployment 7200 demo_prompt
    "10.0.0.1" "8080" "" "" "1h" (1 * Hour) 50 [demo_event] demo_eventful demo_eventful (demo_reaches demo_deployment eq_refl)).
  - vm_compute. reflexivity.
  - vm_compute. reflexivity.
  - repeat constructor; vm_compute; discriminate.
  - discriminate.
  - vm_compute. reflexivity.
  - vm_compute. discriminate.
Defined.

(** "my-app" runs, under its id only. *)
Lemma by_name_refused_witness :
  let w := demo_cluster_world (demo_db StateRunning 0) in
  exit_code (@at_prompt demo_cluster demo_deployment 0 _ (@sandboxInspect demo_client_texts demo_prompt "my-app") w).1 = 1 /\
  exit_code (@at_prompt demo_cluster demo_deployment 0 _ (@sandboxInspect demo_client_texts demo_prompt "7") w).1 = 0.
Proof.
  intros w. split; [|vm_compute; reflexivity].
  rewrite (proj1 (@by_name_refused demo_cluster demo_client_texts demo_quoting demo_deployment 0 demo_prompt
    "10.0.0.1" "8080" "my-app" false 100 w (demo_reaches demo_deployment eq_refl)
    ltac:(split; [reflexivity|discriminate]) eq_refl eq_refl eq_refl)). reflexivity.
Defined.
