(* ===== verification/EndToEnd.v ===== *)
(** The agent's loops against the control plane, through JSON, HTTP, routing
    and the database: what a heartbeat does to the fleet, what becomes of
    crashes after an agent restarts, and how a new sandbox comes to run. *)

From S2P Require Import Prelude Time Netip Hmac Url UrlFacts Json Models Scheduler Store StoreFacts.
From S2P Require Import Routing Effects StoreRuns Lifecycle CreateFacts AckFacts Interleave Reconciler Adapters.
From S2P Require Import Api Responses Register Push PushFacts Ports Executor ExecutorFacts Wire.
From S2P Require Import AgentClient ClientFacts Watcher AgentHttp DockerClient AgentLoops System.
From S2P Require Import Router Cluster.

(** ** Heartbeats *)

(** A list of containers whose published ports are ports. *)
Definition real_ports (items : list ContainerSummary) : Prop :=
  Forall (fun i => Forall (fun p => 0 <= p < 65536) (cu_PublicPorts i)) items.

Lemma host_port_real l : Forall (fun p => 0 <= p < 65536) l -> in_int64 (host_port l).
Proof.
  intros Hl. unfold host_port. destruct (find _ l) as [p|] eqn:Hf; simpl; [|by split; lia].
  apply find_some in Hf as [Hin _]. apply list_elem_of_In in Hin. eapply Forall_forall in Hl; [|done].
  simpl in Hl. unfold in_int64. lia.
Qed.

(** What the agent reports when Docker lists these containers. *)
Definition reported_list (items : list ContainerSummary) : list ContainerInfo :=
  container_info <$> omap snapshot_of items.

Lemma heartbeat_request_ok items :
  real_ports items -> heartbeat_ok (heartbeat_request (omap snapshot_of items)).
Proof.
  intros Hp. split_and!; [by split|by split|]. simpl. apply Forall_fmap, Forall_forall.
  intros snap (i & Hi & Hs)%list_elem_of_omap. unfold snapshot_of in Hs.
  destruct (String.eqb _ _); [done|]. injection Hs as <-. simpl.
  apply host_port_real. by eapply Forall_forall in Hp.
Qed.

(** An agent of node [n] that reaches the control plane and has its token. *)
Record connected `{External} (d : Deployment) (c : ClientConfig) (h p : string) (s : site)
    (n : uuid) : Prop := {
  co_linked : linked c h p;
  co_token : cc_apiToken c = dp_apiToken d;
  co_secret : dp_apiToken d <> "";
  co_text : uuid_text (ct_node s);
  co_id : uuid_Parse (ct_node s) = Some n;
}.

(** And the control plane's calls answer and it knows the node. *)
Record serving `{External} (d : Deployment) (c : ClientConfig) (h p : string) (s : site)
    (n : uuid) (nd : Node) : Prop := {
  sg_connected : connected d c h p s n;
  sg_faults : w_faults (ct_world s) = [];
  sg_wf : db_wf (w_db (ct_world s));
  sg_counters : counters_ok (w_db (ct_world s));
  sg_node : nodes (w_db (ct_world s)) !! n = Some nd;
}.

(** A tick of the heartbeat loop with what Docker lists. *)
Lemma heartbeat_tick `{External, ClientTexts} d zone ticks c h p items s n nd :
  serving d c h p s n nd -> real_ports items ->
  performs d zone ticks (sendHeartbeat c (Snapshot (listed (Ok items)))) s =
    (Some (Ok tt), in_world (beaten (dp_server d) n (heartbeat_request (omap snapshot_of items)) nd
                               (ct_world s)) s).
Proof.
  intros [[] ? ? ? ?] Hports. unfold sendHeartbeat. simpl Snapshot. cbv iota.
  rewrite performs_bind, (performs_Heartbeat d zone ticks c h p) by done.
  rewrite (heartbeat_exec _ _ _ n nd) by (done || by apply heartbeat_request_ok). done.
Qed.

(** The containers of this agent, as Docker documents them: a container carries
    the labels it was created with (the sandbox image adds none of the agent's). *)
Definition made_here `{MapOrder} (items : list ContainerSummary) : Prop :=
  Forall (fun i => exists spec, cu_Labels i !! "forge.app_name" =
    cf_Labels (container_config spec) !! "forge.app_name") items.

Lemma made_here_invisible `{MapOrder} items : made_here items -> omap snapshot_of items = [].
Proof.
  intros Hm. apply elem_of_nil_inv. intros snap (i & Hi & Hs)%list_elem_of_omap.
  eapply Forall_forall in Hm as [spec Hl]; [|done]. simpl in Hl. rewrite lookup_empty in Hl.
  unfold snapshot_of in Hs. by rewrite Hl in Hs.
Qed.

(** ** Properties of heartbeats *)

Definition demo_site (db : DB) (now : Z) : @site demo_cluster :=
  @mkSite demo_cluster "1" "" (@mkWorld demo_cluster db now 0 [] NewBatcher [] tt).

Lemma demo_serving db now nd :
  db_wf db -> counters_ok db -> nodes db !! 1%N = Some nd ->
  @serving demo_cluster demo_deployment demo_client_config "10.0.0.1" "8080" (demo_site db now) 1 nd.
Proof. intros ???. split; [split; done || apply demo_linked|done..]. Qed.

(** C15: A tick of the agent's heartbeat loop, through Docker's list, the snapshot,
    JSON, HTTP and the router, ends well and changes exactly this of the
    control plane: the node is healthy, seen now, with the used memory set to
    zero whatever runs on it, and its rows are reconciled with the
    containers that carry a name, when no two carry the same one.  (The marks
    of two that do are ordered by their times: [Adapters.Reconcile_spec].) *)
Theorem heartbeat_tick_reconciles `{External, ClientTexts} d zone ticks c h p items s n nd :
  serving d c h p s n nd -> sv_reconciler (dp_server d) = true -> real_ports items ->
  NoDup (ci_AppName <$> reported_list items) ->
  let w := ct_world s in
  performs d zone ticks (sendHeartbeat c (Snapshot (listed (Ok items)))) s =
    (Some (Ok tt),
     in_world (with_rows (reconciled n (to_scheduler <$> reported_list items) (w_now w))
                 (set_db (put_node (with_heartbeat 0 0 (w_now w) nd) (w_db w)) w)) s).
Proof.
  intros Hs Hrec Hports Hnd w. rewrite (heartbeat_tick d zone ticks c h p items s n nd) by done.
  destruct Hs. by rewrite beaten_reconciled.
Qed.

(** A container that had the label: its row, lost before, is running again. *)
Lemma heartbeat_tick_reconciles_witness :
  let s := demo_site (demo_db StateDestroyed 0) (3600 * second) in
  let items := [mkSummary "c0ffee" {["forge.app_name" := "my-app"]} [0; 40007] "running"] in
  let '(r, s') := @performs demo_cluster demo_deployment 0 [] _
    (@sendHeartbeat demo_client_texts demo_client_config (Snapshot (listed (Ok items)))) s in
  r = Some (Ok tt) /\ (sb_State <$> sandboxes (w_db (ct_world s')) !! 7%N) = Some StateRunning.
Proof.
  intros s items.
  rewrite (@heartbeat_tick_reconciles demo_cluster demo_client_texts demo_deployment 0 []
    demo_client_config "10.0.0.1" "8080" items s 1 demo_node).
  - split; [reflexivity|vm_compute; reflexivity].
  - apply demo_serving; [by apply demo_db_wf, in_states|apply demo_counters|reflexivity].
  - reflexivity.
  - repeat constructor; simpl; lia.
  - change (NoDup ["my-app"]). apply NoDup_singleton.
Defined.

(** C26: A working agent destroys its own sandboxes: the containers it creates carry
    no label, its snapshot looks for one, so every heartbeat reports an empty
    node and the control plane marks every live sandbox of the node that is
    older than a minute as destroyed, while its container runs. *)
Theorem own_containers_lost `{External, ClientTexts, MapOrder} d zone ticks c h p items s n nd :
  serving d c h p s n nd -> sv_reconciler (dp_server d) = true -> made_here items ->
  let '(r, s') := performs d zone ticks (sendHeartbeat c (Snapshot (listed (Ok items)))) s in
  r = Some (Ok tt) /\
  forall id sb, sandboxes (w_db (ct_world s)) !! id = Some sb -> losable n (w_now (ct_world s)) sb ->
    sandboxes (w_db (ct_world s')) !! id = Some (lost_row (w_now (ct_world s)) sb).
Proof.
  intros Hs Hrec Hm.
  change (listed (Ok items)) with (@Ok (option (list ContainerSnapshot)) (Some (omap snapshot_of items))).
  rewrite (made_here_invisible _ Hm).
  rewrite (heartbeat_tick d zone ticks c h p [] s n nd) by (done || constructor).
  split; [done|]. intros id sb Hsb Hlose.
  destruct Hs. rewrite beaten_reconciled by (done || constructor). simpl.
  rewrite lookup_fmap, Hsb. simpl. unfold reconciled. simpl. by rewrite decide_True.
Qed.

(** The container of the demo sandbox, running for an hour. *)
Lemma own_containers_lost_witness :
  let s := demo_site (demo_db StateRunning 0) (3600 * second) in
  let '(r, s') := @performs demo_cluster demo_deployment 0 [] _
    (@sendHeartbeat demo_client_texts demo_client_config
       (Snapshot (listed (Ok [mkSummary "c0ffee" ∅ [40007] "running"])))) s in
  r = Some (Ok tt) /\ (sb_State <$> sandboxes (w_db (ct_world s')) !! 7%N) = Some StateDestroyed.
Proof.
  intros s.
  pose proof (@own_containers_lost demo_cluster demo_client_texts demo_order demo_deployment 0 []
    demo_client_config "10.0.0.1" "8080" [mkSummary "c0ffee" ∅ [40007] "running"] s 1 demo_node) as H.
  destruct (performs _ _ _ _ s) as [r s']. destruct H as [Hr Hlost].
  - apply demo_serving; [by apply demo_db_wf, in_states|apply demo_counters|reflexivity].
  - reflexivity.
  - repeat constructor. exists (mkSpec "" "" "" 0 0%Q 0 None ""). reflexivity.
  - split; [exact Hr|]. rewrite (Hlost 7%N (demo_sandbox StateRunning 0)); [reflexivity..|].
    by split_and!.
Defined.

(** ** Crashes *)

(** A report: one request, and after a 401 a registration and another. *)
Lemma performs_ReportEvent `{External, ClientTexts} d zone ticks c h p s n ev :
  connected d c h p s n ->
  let '(r, w) := exec (handleReportEvent (dp_lifecycle d) (ct_node s) (Some (event_json ev))) (ct_world s) in
  rp_status r <> 401 -> performs d zone ticks (ReportEvent c ev) s = (Ok tt, in_world w s).
Proof.
  intros [Hl Ht Hne Hid _]. destruct (exec _ _) as [r w] eqn:Hex. intros Hr.
  unfold ReportEvent. cbv zeta. rewrite performs_bind.
  change (performs d zone ticks (trigger CNodeID) s) with (ct_node s, s). cbv beta iota.
  rewrite performs_bind, (performs_event_request d zone ticks c h p), Hex by done. cbn [rs_status respond].
  cbv beta iota. rewrite performs_bind. change (performs d zone ticks (Ret ?a) ?s) with (a, s).
  cbv beta iota. cbn [rs_status respond]. by rewrite (proj2 (Z.eqb_neq _ _)).
Qed.

Lemma Sscanf_d_int s : in_int64 (Sscanf_d s).
Proof.
  unfold Sscanf_d, in_int64. cbv zeta. destruct (_ && _) eqn:Hb; [|lia].
  apply andb_true_iff in Hb as [Hlo%Z.leb_le Hhi%Z.ltb_lt]. lia.
Qed.

Lemma resolve_untracked k e app :
  (forall id info, ex_sandboxes e !! id = Some info -> si_AppName info <> app) ->
  resolveSandboxID k e app = app.
Proof.
  intros Hno. unfold resolveSandboxID.
  assert (filter (fun x => si_AppName x.2 = app) (map_to_list (ex_sandboxes e)) = []) as ->.
  { apply elem_of_nil_inv. intros [id info] [Ha Hin]%list_elem_of_filter.
    apply elem_of_map_to_list in Hin. by apply (Hno _ _ Hin). }
  simpl length. by destruct (k mod 0)%nat.
Qed.

(** An agent that was restarted no longer reports crashes: it tracks no sandbox
    until it is told to start one, an event of a container it does not track
    is reported under the name of the application instead of the sandbox's
    id, and the control plane refuses that with a status the agent does not look
    at.  Nothing is recorded and nothing is restarted; the sandbox stays as
    it was. *)
Theorem restarted_agent_loses_crashes `{External, ClientTexts} d zone ticks c h p s n k e ev :
  connected d c h p s n ->
  (forall id info, ex_sandboxes e !! id = Some info -> si_AppName info <> se_AppName ev) ->
  uuid_Parse (se_AppName ev) = None ->
  performs d zone ticks (forwardEvent c k e ev) s = (Ok tt, s).
Proof.
  intros Hs Hno Hp. unfold forwardEvent. rewrite resolve_untracked by done.
  pose proof (performs_ReportEvent d zone ticks c h p s n (event_report (se_AppName ev) ev) Hs) as Hr.
  assert (exists r, exec (handleReportEvent (dp_lifecycle d) (ct_node s)
      (Some (event_json (event_report (se_AppName ev) ev)))) (ct_world s) = (r, ct_world s) /\
      rp_status r <> 401) as (r & Hex & Hst).
  { unfold handleReportEvent. rewrite (co_id _ _ _ _ _ _ Hs), read_event by apply Sscanf_d_int.
    cbn [er_SandboxID er_EventType event_report]. rewrite Hp.
    destruct (String.eqb _ ""); [by eexists|]. destruct (String.eqb _ ""); by eexists. }
  rewrite Hex in Hr. rewrite Hr by done. by destruct s.
Qed.

(** The agent has just started; the sandbox that runs crashes. *)
Lemma restarted_agent_loses_crashes_witness :
  let s := demo_site (demo_db StateRunning 0) 100 in
  let ev := mkSandboxEvent "my-app" "c0ffee" "container_exited" "137" 0 false in
  @performs demo_cluster demo_deployment 0 [] _
    (@forwardEvent demo_client_texts demo_client_config 0
       (NewCommandExecutor (NewAllocator 40000 50000) "/srv") ev) s = (Ok tt, s).
Proof.
  intros s ev.
  apply (@restarted_agent_loses_crashes demo_cluster demo_client_texts demo_deployment 0 []
    demo_client_config "10.0.0.1" "8080" s 1).
  - split; [apply demo_linked|done..].
  - intros id info. simpl. by rewrite lookup_empty.
  - reflexivity.
Defined.
