(* ===== verification/Turns.v ===== *)
(** A turn of an agent's poll loop against the control plane: the poll that
    fetches a command, the executor's run of it and the acknowledgment, as one
    step of the two processes' states. *)

From S2P Require Import Prelude Time Netip Hmac Url UrlFacts Json Models Scheduler Store StoreFacts.
From S2P Require Import Routing Effects StoreRuns Lifecycle LifecycleMoves CreateFacts AckFacts.
From S2P Require Import Interleave Reconciler Adapters.
From S2P Require Import Api Responses Register Push PushFacts Ports Executor ExecutorFacts Wire.
From S2P Require Import AgentClient ClientFacts Watcher AgentHttp DockerClient AgentLoops System.
From S2P Require Import Router Cluster EndToEnd.

(** ** Pending commands *)

Definition pending_on (n : uuid) (c : Store.Command) : Prop :=
  cmd_NodeID c = n /\ cmd_Status c = CmdPending.

(** No command waits for node [n]. *)
Definition quiet (db : DB) (n : uuid) : Prop :=
  forall id c, commands db !! id = Some c -> ~ pending_on n c.

(** [cmd] is the only command that waits for node [n]. *)
Definition alone (db : DB) (n : uuid) (cmd : Store.Command) : Prop :=
  commands db !! cmd_ID cmd = Some cmd /\ pending_on n cmd /\
  forall id c, commands db !! id = Some c -> pending_on n c -> c = cmd.

#[export] Instance pending_on_dec n c : Decision (pending_on n c).
Proof. unfold pending_on. apply _. Defined.

Lemma elem_of_command_rows db c : c ∈ command_rows db <-> exists id, commands db !! id = Some c.
Proof.
  unfold command_rows. rewrite list_elem_of_fmap. split.
  - intros ([id c'] & -> & Hin). exists id. by apply elem_of_map_to_list.
  - intros [id Hid]. exists (id, c). split; [done|]. by apply elem_of_map_to_list.
Qed.

Lemma filter_pending db n :
  filter (fun c => Some (cmd_NodeID c) = Some n /\ cmd_Status c = CmdPending) (command_rows db) =
  filter (pending_on n) (command_rows db).
Proof. apply list_filter_iff. intros c. unfold pending_on. naive_solver congruence. Qed.

Lemma quiet_pending db n : quiet db n <-> pending_commands db (Some n) = [].
Proof.
  unfold pending_commands. rewrite filter_pending. split.
  - intros Hq. destruct (filter (pending_on n) (command_rows db)) as [|c l] eqn:Hl; [done|].
    assert (c ∈ filter (pending_on n) (command_rows db)) as Hc by (rewrite Hl; by left).
    apply list_elem_of_filter in Hc as [Hp [id Hid]%elem_of_command_rows]. by destruct (Hq id c Hid).
  - intros Hnone id c Hc Hp.
    assert (c ∈ order_by cmd_CreatedAt (filter (pending_on n) (command_rows db))) as Hin.
    { rewrite order_by_perm. apply list_elem_of_filter. split; [done|]. apply elem_of_command_rows. by exists id. }
    destruct (order_by _ _); [by apply not_elem_of_nil in Hin|done].
Qed.

Lemma alone_pending db n cmd :
  db_wf db -> alone db n cmd -> pending_commands db (Some n) = [cmd].
Proof.
  intros Hwf (Hc & Hp & Hone). unfold pending_commands. rewrite filter_pending.
  rewrite (singleton_of (filter (pending_on n) (command_rows db)) cmd); [by rewrite order_by_single| |].
  - apply NoDup_filter. apply (NoDup_fmap_1 cmd_ID), NoDup_command_rows, Hwf.
  - intros c. rewrite list_elem_of_filter, elem_of_command_rows. split.
    + intros [Hpc [id Hid]]. by eapply Hone.
    + intros ->. split; [done|]. by exists (cmd_ID cmd).
Qed.

Lemma alone_insert db db' n c :
  commands db' = <[cmd_ID c := c]> (commands db) -> quiet db n -> pending_on n c -> alone db' n c.
Proof.
  intros Hdb Hq Hp. unfold alone. rewrite Hdb. split_and!; [apply lookup_insert_eq|done|].
  intros id d Hd Hpd. apply lookup_insert_Some in Hd as [[_ ->]|[_ Hd]]; [done|]. by destruct (Hq id d Hd).
Qed.

Lemma alone_put db n c :
  quiet db n -> pending_on n c -> alone (put_command c db) n c.
Proof. by apply alone_insert. Qed.

(** Once the lone command has another status, none waits. *)
Lemma quiet_done db db' n c x :
  db_wf db -> alone db n c -> commands db' = <[cmd_ID c := x]> (commands db) -> cmd_Status x <> CmdPending ->
  quiet db' n.
Proof.
  intros Hwf (_ & _ & Hone) Hdb Hst i y Hy Hp. rewrite Hdb in Hy.
  apply lookup_insert_Some in Hy as [[_ <-]|[Hi Hy]]; [by apply Hst, Hp|].
  apply Hi. rewrite <- (Hone i y Hy Hp). by destruct (wf_commands _ Hwf _ _ Hy).
Qed.

Lemma ack_status_done st : ack_status st <> CmdPending.
Proof. unfold ack_status. by case_bool_decide. Qed.

(** ** A turn of the poll loop *)

Section Turn.
Context `{External, ClientTexts, AgentTexts} (d : Deployment) (zone : Z) (ticks : list bool).
Context (c : ClientConfig) (h p : string).
(** What the clock and Docker of the agent's host answer. *)
Context (host : forall X, agentE X -> X).

Definition answer_loop {X} (e : loopE X) (s : site) : X * site :=
  match e with
  | LClient e => answer d zone ticks e s
  | LAgent e => (host _ e, s)
  end.

Definition turns {A} (p : prog loopE A) (s : site) : A * site := run (@answer_loop) p s.

Lemma turns_bind {A B} (q : prog loopE A) (k : A -> prog loopE B) s :
  turns (bind q k) s = let '(a, s') := turns q s in turns (k a) s'.
Proof. apply run_bind. Qed.

Lemma turns_by_client {A} (q : client A) s : turns (by_client q) s = performs d zone ticks q s.
Proof.
  unfold turns, by_client. rewrite run_interp. unfold performs.
  revert s. induction q as [a|X e k IH]; intros s; simpl; [done|].
  destruct (answer d zone ticks e s) as [x s']. apply IH.
Qed.

Lemma turns_interp_bind {E A B} (f : forall X, E X -> prog loopE X) (q : prog E A) (k : A -> prog E B) s :
  turns (interp f (bind q k)) s = let '(a, s') := turns (interp f q) s in turns (interp f (k a)) s'.
Proof. unfold turns. rewrite !run_interp, run_bind. destruct (run _ q s). by rewrite run_interp. Qed.

(** *** The executor's effects *)

Abbreviation runs p s := (turns (interp (@on_client _ c) p) s).

(** Docker and the clock answer, the site stays. *)
Lemma runs_asks {X A} (ev : agentE X) (k : X -> agent A) s :
  on_client c ev = trigger (LAgent ev) -> runs (x <- trigger ev ;; k x) s = runs (k (host _ ev)) s.
Proof. intros He. unfold turns. simpl. by rewrite He. Qed.

(** An acknowledgment goes through the client. *)
Lemma runs_acks {A} id ack (k : result unit -> agent A) s :
  runs (r <- trigger (AAckCommand id ack) ;; k r) s =
    let '(r, s') := performs d zone ticks (AckCommand c id ack) s in runs (k r) s'.
Proof.
  rewrite turns_interp_bind. change (interp (@on_client _ c) (trigger (AAckCommand id ack)))
    with (x <- by_client (AckCommand c id ack) ;; Ret x).
  rewrite turns_bind, turns_by_client. by destruct (performs _ _ _ _ _).
Qed.

Lemma runs_succeed e cmd res s s' :
  performs d zone ticks (AckCommand c (ac_ID cmd) (mkAck "success" "" (Some res))) s = (Ok tt, s') ->
  runs (succeed e cmd res) s = ((Ok tt, e), s').
Proof. intros Hack. unfold succeed, ackSuccess. by rewrite runs_acks, Hack. Qed.

(** A command that is not late is dispatched. *)
Lemma runs_in_time e cmd s :
  host _ ANow <= ac_IssuedAt cmd + wrap64 (ac_TimeoutSeconds cmd * nanoseconds) ->
  runs (Execute e cmd) s = runs (Executor.dispatch e cmd) s.
Proof.
  intros Hck. unfold Execute. rewrite turns_interp_bind. unfold expired.
  destruct (0 <? _); [|done]. rewrite runs_asks by done. cbv beta.
  by rewrite (proj2 (Z.ltb_ge _ _)).
Qed.

(** A poll that finds commands. *)
Lemma poll_exec n idStr w cmd cmds :
  w_faults w = [] -> uuid_Parse idStr = Some n ->
  pending_commands (w_db w) (Some n) = cmd :: cmds ->
  exec (handlePollCommands idStr ticks) w =
    (mkReply 200 (BCommands (dispatched (w_now w) <$> cmd :: cmds)),
     set_db (PollPendingCommands (Some n) (w_now w) (w_db w)).2 w).
Proof.
  intros Hf Hp Hc. apply exec_eq. unfold handlePollCommands. rewrite Hp.
  step_by (by unfold PollPendingCommands; rewrite Hc). cbn [fmap list_fmap]. apply ctl_wp_ret.
  unfold PollPendingCommands. by rewrite Hc.
Qed.

Lemma poll_performs s n cmd cmds :
  connected d c h p s n -> w_faults (ct_world s) = [] -> zone_ok zone -> pending_commands (w_db (ct_world s)) (Some n) = cmd :: cmds ->
  Forall (sendable zone) (cmd :: cmds) ->
  performs d zone ticks (next_commands c) s =
    (Some (received <$> cmd :: cmds),
     in_world (set_db (PollPendingCommands (Some n) (w_now (ct_world s)) (w_db (ct_world s))).2
                 (ct_world s)) s).
Proof.
  intros [Hl Ht Hne Hid Hp] Hf Hz Hc Hs. unfold next_commands, wait_seconds.
  rewrite performs_bind, (performs_PollCommands d zone ticks c h p) by done.
  assert (polled d ticks c 30 s =
    (mkReply 200 (BCommands (dispatched (w_now (ct_world s)) <$> cmd :: cmds)),
     in_world (set_db (PollPendingCommands (Some n) (w_now (ct_world s)) (w_db (ct_world s))).2
                 (ct_world s)) s)) as ->.
  { unfold polled, dispatch. assert (authToken c (ct_token s) = dp_apiToken d) as ->
      by (unfold authToken; rewrite Ht; by destruct (String.eqb_spec (dp_apiToken d) "")).
    rewrite serve_token by done. cbn [handler]. by rewrite (poll_exec n _ _ cmd cmds). }
  cbn [rp_status rp_body]. change (200 =? 401) with false. cbv iota.
  unfold parseCommands. cbn [respond rs_status rs_json rp_status rp_body]. change (400 <=? 200) with false.
  cbv iota. rewrite read_commands; [by rewrite <- list_fmap_compose|done|].
  apply Forall_fmap. by eapply Forall_impl.
Qed.

(** An acknowledgment: one request, and after a 401 a registration and another. *)
Lemma performs_AckCommand s n id ack r w :
  connected d c h p s n -> uuid_text id ->
  exec (handleAckCommand (dp_lifecycle d) (ct_node s) id (Some (ack_json ack))) (ct_world s) = (r, w) ->
  rp_status r = 200 -> performs d zone ticks (AckCommand c id ack) s = (Ok tt, in_world w s).
Proof.
  intros [Hl Ht Hne Hid _] Hcmd Hex Hr. unfold AckCommand. cbv zeta. rewrite performs_bind.
  change (performs d zone ticks (trigger CNodeID) s) with (ct_node s, s). cbv beta iota.
  rewrite performs_bind, (performs_ack_request d zone ticks c h p), Hex by done.
  cbn [rs_status respond]. rewrite Hr. change (200 =? 401) with false. cbv iota.
  unfold accepted. cbn [rs_status respond]. by rewrite Hr.
Qed.


(** *** One command, fetched, run and acknowledged *)

(** The world after the acknowledgment of [cmd] for the row [sb]. *)
Definition acked_world (ev st : string) (ack : AckRequest) (id : uuid) (sb : Sandbox)
    (cmd : Store.Command) (w : World) : World :=
  let res := ack_result (ak_Error ack) (ak_Result ack) in
  let s1 := in_state st (w_now w) sb in
  set_db (ack_db (dp_lifecycle d) ev st (ak_Status ack) res (w_now w) id s1 sb cmd (w_db w))
    (announce (dp_lifecycle d) st (reread ev (runtime_row ev res (w_now w) s1) sb) id w).

(** The control plane takes an acknowledgment the table accepts. *)
Lemma ack_exec w n idStr cmd id sb ack ev st :
  uuid_laws -> w_faults w = [] -> db_wf (w_db w) -> uuid_Parse idStr = Some n ->
  commands (w_db w) !! cmd_ID cmd = Some cmd -> cmd_SandboxID cmd = Some id ->
  sandboxes (w_db w) !! id = Some sb -> roomy sb ->
  ack_event (cmd_CommandType cmd) (ak_Status ack) (sb_State sb) = Some ev ->
  NextState (sb_State sb) ev = (st, true) ->
  exec (handleAckCommand (dp_lifecycle d) idStr (uuid_String (cmd_ID cmd)) (Some (ack_json ack))) w =
    (mkReply 200 BEmpty, acked_world ev st ack id sb cmd w).
Proof.
  intros Hu Hf Hwf Hp Hc Hid Hsb Hroom Hev Hst. apply exec_wp_eq.
  unfold handleAckCommand. rewrite Hp, (proj2 (Hu _)), read_ack.
  step_by (unfold GetCommand; simpl; by rewrite Hc). rewrite set_db_same, Hid.
  change (default uuid_Nil (Some id)) with id. apply ctl_wp_bind.
  pose proof (HandleAck_accepted (dp_lifecycle d) (cmd_ID cmd) id (cmd_CommandType cmd) (ak_Status ack)
    (ack_result (ak_Error ack) (ak_Result ack)) w sb cmd ev st Hf Hwf Hsb Hroom Hc Hev Hst) as Hack.
  cbv zeta in Hack. apply wp_run. unfold exec in Hack. rewrite Hack. by apply ctl_wp_ret.
Qed.

(** The database after the poll of a lone command. *)
Definition fetched (n : uuid) (w : World) : World :=
  set_db (PollPendingCommands (Some n) (w_now w) (w_db w)).2 w.

(** A turn that finds one command: when the executor, given an acknowledgment
    that goes through, ends in [e'], the turn ends in [e'] and in the world the
    acknowledgment leaves. *)
Lemma turn_fetches s n e e' cmd ack w' :
  let w := ct_world s in
  uuid_laws -> zone_ok zone -> connected d c h p s n -> w_faults w = [] -> db_wf (w_db w) ->
  alone (w_db w) n cmd -> sendable zone cmd ->
  exec (handleAckCommand (dp_lifecycle d) (ct_node s) (uuid_String (cmd_ID cmd)) (Some (ack_json ack)))
    (fetched n w) = (mkReply 200 BEmpty, w') ->
  (forall s1 s2, performs d zone ticks (AckCommand c (uuid_String (cmd_ID cmd)) ack) s1 = (Ok tt, s2) ->
     turns (interp (@on_client _ c) (Execute e (received cmd))) s1 = ((Ok tt, e'), s2)) ->
  turns (poll_turn c e) s = (e', in_world w' s).
Proof.
  intros w Hu Hz Hco Hf Hwf Hal Hsend Hack Hexec.
  pose proof (alone_pending _ _ _ Hwf Hal) as Hpend.
  unfold poll_turn. rewrite turns_bind, turns_by_client.
  rewrite (poll_performs s n cmd []) by (done || by apply Forall_singleton).
  cbn [fmap list_fmap]. fold w (fetched n w).
  assert (performs d zone ticks (AckCommand c (uuid_String (cmd_ID cmd)) ack) (in_world (fetched n w) s) =
    (Ok tt, in_world w' s)) as Hper.
  { rewrite (performs_AckCommand (in_world (fetched n w) s) n _ ack (mkReply 200 BEmpty) w');
      [done|by destruct Hco; split|apply Hu|exact Hack|done]. }
  unfold execute_batch. cbn [range]. by rewrite !turns_interp_bind, (Hexec _ _ Hper).
Qed.

(** The commands after a poll fetched the lone one. *)
Lemma fetched_commands n w cmd : db_wf (w_db w) -> alone (w_db w) n cmd ->
  commands (w_db (fetched n w)) = <[cmd_ID cmd := dispatched (w_now w) cmd]> (commands (w_db w)).
Proof.
  intros Hwf Hal. unfold fetched, PollPendingCommands. simpl. by rewrite (alone_pending _ _ _ Hwf Hal).
Qed.

Lemma fetched_command n w cmd : db_wf (w_db w) -> alone (w_db w) n cmd ->
  commands (w_db (fetched n w)) !! cmd_ID cmd = Some (dispatched (w_now w) cmd).
Proof. intros Hwf Hal. rewrite (fetched_commands n w cmd) by done. apply lookup_insert_eq. Qed.

Lemma fetched_wf n w : db_wf (w_db w) -> db_wf (w_db (fetched n w)).
Proof. intros Hwf. eapply db_step_wf; [exact Hwf|apply does_PollPendingCommands, Hwf]. Qed.

(** When the table accepts the acknowledgment. *)
Lemma turn_single s n e e' cmd id sb ack ev st :
  let w := ct_world s in
  uuid_laws -> zone_ok zone -> connected d c h p s n -> w_faults w = [] -> db_wf (w_db w) ->
  alone (w_db w) n cmd -> sendable zone cmd -> cmd_SandboxID cmd = Some id ->
  sandboxes (w_db w) !! id = Some sb -> roomy sb ->
  ack_event (cmd_CommandType cmd) (ak_Status ack) (sb_State sb) = Some ev ->
  NextState (sb_State sb) ev = (st, true) ->
  (forall s1 s2, performs d zone ticks (AckCommand c (uuid_String (cmd_ID cmd)) ack) s1 = (Ok tt, s2) ->
     turns (interp (@on_client _ c) (Execute e (received cmd))) s1 = ((Ok tt, e'), s2)) ->
  turns (poll_turn c e) s =
    (e', in_world (acked_world ev st ack id sb (dispatched (w_now w) cmd) (fetched n w)) s).
Proof.
  intros w Hu Hz Hco Hf Hwf Hal Hsend Hid Hsb Hroom Hev Hst Hexec.
  apply (turn_fetches s n e e' cmd ack); try done.
  apply (ack_exec (fetched n w) n (ct_node s) (dispatched (w_now w) cmd) id sb ack ev st); try done.
  - by apply fetched_wf.
  - apply Hco.
  - exact (fetched_command n w cmd Hwf Hal).
Qed.

(** An acknowledgment that is no event of the sandbox's only ends the command. *)
Lemma ack_exec_command w n idStr cmd id sb ack :
  uuid_laws -> w_faults w = [] -> uuid_Parse idStr = Some n ->
  commands (w_db w) !! cmd_ID cmd = Some cmd -> cmd_SandboxID cmd = Some id ->
  sandboxes (w_db w) !! id = Some sb ->
  ack_event (cmd_CommandType cmd) (ak_Status ack) (sb_State sb) = None ->
  exec (handleAckCommand (dp_lifecycle d) idStr (uuid_String (cmd_ID cmd)) (Some (ack_json ack))) w =
    (mkReply 200 BEmpty,
     set_db (put_command (acked cmd (ack_status (ak_Status ack)) (w_now w)
               (ack_result (ak_Error ack) (ak_Result ack))) (w_db w)) w).
Proof.
  intros Hu Hf Hp Hc Hid Hsb Hev. apply exec_wp_eq.
  unfold handleAckCommand. rewrite Hp, (proj2 (Hu _)), read_ack.
  step_by (unfold GetCommand; simpl; by rewrite Hc). rewrite set_db_same, Hid.
  change (default uuid_Nil (Some id)) with id. apply ctl_wp_bind. unfold HandleAck.
  step_by (by apply run_GetSandbox). rewrite set_db_same, Hev.
  apply (ack_command_runs _ _ _ _ cmd); [done..|]. by apply ctl_wp_ret.
Qed.

(** The world after a command that ends with [ack] and is no event. *)
Definition completed_world (n : uuid) (cmd : Store.Command) (ack : AckRequest) (w : World) : World :=
  set_db (put_command (acked (dispatched (w_now w) cmd) (ack_status (ak_Status ack)) (w_now w)
            (ack_result (ak_Error ack) (ak_Result ack))) (w_db (fetched n w))) (fetched n w).

Lemma turn_completes s n e e' cmd id sb ack :
  let w := ct_world s in
  uuid_laws -> zone_ok zone -> connected d c h p s n -> w_faults w = [] -> db_wf (w_db w) ->
  alone (w_db w) n cmd -> sendable zone cmd -> cmd_SandboxID cmd = Some id ->
  sandboxes (w_db w) !! id = Some sb ->
  ack_event (cmd_CommandType cmd) (ak_Status ack) (sb_State sb) = None ->
  (forall s1 s2, performs d zone ticks (AckCommand c (uuid_String (cmd_ID cmd)) ack) s1 = (Ok tt, s2) ->
     turns (interp (@on_client _ c) (Execute e (received cmd))) s1 = ((Ok tt, e'), s2)) ->
  turns (poll_turn c e) s = (e', in_world (completed_world n cmd ack w) s).
Proof.
  intros w Hu Hz Hco Hf Hwf Hal Hsend Hid Hsb Hev Hexec.
  apply (turn_fetches s n e e' cmd ack); try done.
  apply (ack_exec_command (fetched n w) n (ct_node s) (dispatched (w_now w) cmd) id sb ack); try done.
  - apply Hco.
  - exact (fetched_command n w cmd Hwf Hal).
Qed.
End Turn.

(** ** The world a turn leaves *)

Section Completed.
Context `{External} (n : uuid) (w : World) (cmd : Store.Command) (ack : AckRequest).
#[local] Abbreviation after := (completed_world n cmd ack w).

Lemma completed_commands : db_wf (w_db w) -> alone (w_db w) n cmd ->
  commands (w_db after) =
    <[cmd_ID cmd := acked (dispatched (w_now w) cmd) (ack_status (ak_Status ack)) (w_now w)
                      (ack_result (ak_Error ack) (ak_Result ack))]> (commands (w_db w)).
Proof.
  intros Hwf Hal. cbn [completed_world w_db set_db put_command set_commands commands].
  rewrite (fetched_commands n w cmd) by done. apply insert_insert_eq.
Qed.

Lemma completed_wf : db_wf (w_db w) -> alone (w_db w) n cmd -> db_wf (w_db after).
Proof.
  intros Hwf Hal. pose proof (does_AckCommand (Some (cmd_ID cmd)) (ack_status (ak_Status ack))
    (ack_result (ak_Error ack) (ak_Result ack)) (w_now w) (w_db (fetched n w)) (fetched_wf n w Hwf)) as Hd.
  rewrite (run_AckCommand _ _ _ _ _ (dispatched (w_now w) cmd)) in Hd.
  - eapply db_step_wf; [by apply (fetched_wf n w)|exact Hd].
  - exact (fetched_command n w cmd Hwf Hal).
  - done.
  - unfold ack_status. by case_bool_decide.
Qed.

Lemma completed_quiet : db_wf (w_db w) -> alone (w_db w) n cmd -> quiet (w_db after) n.
Proof.
  intros Hwf Hal. eapply quiet_done; [exact Hwf|exact Hal|by apply completed_commands|apply ack_status_done].
Qed.
End Completed.

Section After.
Context `{External} (d : Deployment) (n : uuid) (w : World) (cmd : Store.Command) (id : uuid) (sb : Sandbox)
  (ack : AckRequest) (ev st : string).
#[local] Abbreviation after := (acked_world d ev st ack id sb (dispatched (w_now w) cmd) (fetched n w)).

(** The row of the sandbox, and the command with its outcome. *)
Lemma after_row :
  sandboxes (w_db after) !! id =
    Some (ack_final (dp_lifecycle d) ev st (ack_result (ak_Error ack) (ak_Result ack)) (w_now w)
            (in_state st (w_now w) sb)).
Proof. apply lookup_insert_eq. Qed.

Lemma after_rows i : i <> id -> sandboxes (w_db after) !! i = sandboxes (w_db w) !! i.
Proof. intros Hi. by apply lookup_insert_ne. Qed.

Lemma after_command :
  commands (w_db after) !! cmd_ID cmd =
    Some (acked (dispatched (w_now w) cmd) (ack_status (ak_Status ack)) (w_now w)
            (ack_result (ak_Error ack) (ak_Result ack))).
Proof. apply lookup_insert_eq. Qed.

Lemma after_keeps :
  w_faults after = w_faults w /\ w_rng after = w_rng w /\ w_now after = w_now w /\
  nodes (w_db after) = nodes (w_db w).
Proof.
  unfold acked_world. destruct (announce_keeps (dp_lifecycle d) st (reread ev
    (runtime_row ev (ack_result (ak_Error ack) (ak_Result ack)) (w_now (fetched n w))
      (in_state st (w_now (fetched n w)) sb)) sb) id (fetched n w)) as (_ & Hn & Hf & Hr).
  simpl in *. by rewrite Hn, Hf, Hr.
Qed.

(** The other commands are as they were. *)
Lemma after_commands : db_wf (w_db w) -> alone (w_db w) n cmd ->
  commands (w_db after) =
    <[cmd_ID cmd := acked (dispatched (w_now w) cmd) (ack_status (ak_Status ack)) (w_now w)
                      (ack_result (ak_Error ack) (ak_Result ack))]> (commands (w_db w)).
Proof.
  intros Hwf Hal. unfold acked_world. simpl.
  change (foldr _ _ _) with (commands (w_db (fetched n w))).
  by rewrite (fetched_commands n w cmd), insert_insert_eq.
Qed.

Lemma after_quiet : db_wf (w_db w) -> alone (w_db w) n cmd -> quiet (w_db after) n.
Proof.
  intros Hwf Hal. eapply quiet_done; [exact Hwf|exact Hal|by apply after_commands|apply ack_status_done].
Qed.

(** The schema holds in it. *)
Lemma after_wf :
  w_faults w = [] -> db_wf (w_db w) -> alone (w_db w) n cmd -> cmd_SandboxID cmd = Some id ->
  sandboxes (w_db w) !! id = Some sb -> roomy sb ->
  ack_event (cmd_CommandType cmd) (ak_Status ack) (sb_State sb) = Some ev ->
  NextState (sb_State sb) ev = (st, true) -> db_wf (w_db after).
Proof.
  intros Hf Hwf Hal Hid Hsb Hroom Hev Hst.
  pose proof (fetched_wf n w Hwf) as Hwf1. pose proof (fetched_command n w cmd Hwf Hal) as Hdis.
  pose proof (HandleAck_accepted (dp_lifecycle d) (cmd_ID cmd) id (cmd_CommandType cmd) (ak_Status ack)
    (ack_result (ak_Error ack) (ak_Result ack)) (fetched n w) sb (dispatched (w_now w) cmd) ev st
    Hf Hwf1 Hsb Hroom Hdis Hev Hst) as Hack.
  pose proof (exec_within service_move _ (fetched n w)
    (issues_ack (dp_lifecycle d) (cmd_ID cmd) id (cmd_CommandType cmd) (ak_Status ack)
       (ack_result (ak_Error ack) (ak_Result ack))) Hwf1) as Hin.
  cbv zeta in Hack. rewrite Hack in Hin. simpl in Hin. by eapply db_steps_wf.
Qed.
End After.
