(* ===== verification/Startup.v ===== *)
(** From a request to a running sandbox: the control plane places it, the
    agent's poll fetches the command, the executor has Docker create the
    container, and the acknowledgment makes the row run. *)

From S2P Require Import Prelude Time Netip Hmac Url UrlFacts Json Models Scheduler Store StoreFacts.
From S2P Require Import Routing Effects StoreRuns Lifecycle LifecycleMoves CreateFacts AckFacts.
From S2P Require Import Interleave Reconciler Adapters.
From S2P Require Import Api Responses Register Push PushFacts Ports Executor ExecutorFacts Wire.
From S2P Require Import AgentClient ClientFacts Watcher AgentHttp DockerClient AgentLoops System.
From S2P Require Import Router Cluster EndToEnd Turns RequestFacts.

(** ** The payload of a start command *)

Lemma dec_int64_int32 z : in_int32 z -> dec_int64 0 (JInt z) = (z, true).
Proof. unfold in_int32, min_int32, max_int32. intros ?. apply dec_int64_in. split; lia. Qed.

#[local] Arguments dec_int64 : simpl never.
#[local] Arguments json_of_float : simpl never.
#[local] Arguments dec_env : simpl never.
#[local] Arguments json_of_env : simpl never.

(** The container a request asks for: its application, its image, its memory,
    CPU (as a number prints) and its environment. *)
Definition asked_for (req : CreateRequest) (spec : SandboxSpec) : Prop :=
  sp_AppName spec = cr_AppName req /\ sp_Image spec = cr_Image req /\
  sp_MemoryMB spec = MemoryMB (cr_Resources req) /\
  json_of_float (sp_CPUCores spec) = json_of_float (CPUCores (cr_Resources req)) /\
  sp_Env spec = cr_Env req.

(** The agent reads what the control plane wrote. *)
Lemma read_payload req :
  in_int32 (MemoryMB (cr_Resources req)) ->
  exists pl, decode_start (Some (create_payload req)) = Some pl /\
    st_AppName pl = cr_AppName req /\ forall e cmd port, asked_for req (build_spec e cmd pl port).
Proof.
  intros Hm. destruct (dec_float_print (CPUCores (cr_Resources req))) as [Hok Hprint].
  destruct (dec_float 0%Q (json_of_float (CPUCores (cr_Resources req)))) as [q ok] eqn:Hq.
  simpl in Hok, Hprint. subst ok.
  exists (mkStartPayload (cr_AppName req) (cr_Image req) (q, MemoryMB (cr_Resources req)) (cr_Env req)).
  split_and!; [|done|done]. unfold create_payload, start_payload, json_of_resources, decode_start.
  unfold dec_field at 1 2 3 4. simpl. rewrite dec_env_roundtrip. cbn [fst snd].
  unfold dec_resourceSpec, dec_field. simpl. rewrite Hq. cbn [fst snd].
  by rewrite dec_int64_int32.
Qed.

(** ** The executor's run of a start *)

Section Start.
Context `{External, ClientTexts, AgentTexts} (d : Deployment) (zone : Z) (ticks : list bool).
Context (c : ClientConfig) (host : forall X, agentE X -> X).

(** The commands an executor can run at once: not late, well formed, a port
    free, and Docker creates the container. *)
Record startable (e : CommandExecutor) (cmd : Executor.Command) (pl : startSandboxPayload)
    (port : Z) (cid : string) : Prop := {
  sa_type : ac_Type cmd = CmdStartSandbox;
  sa_payload : decode_start (ac_Payload cmd) = Some pl;
  sa_clock : host _ ANow <= ac_IssuedAt cmd + wrap64 (ac_TimeoutSeconds cmd * nanoseconds);
  sa_port : first_key (host _ AMapStart) (available (ex_ports e)) = Some port;
  sa_range : 1 <= port <= 65535;
  sa_docker : host _ (ACreateContainer (build_spec e cmd pl port)) = Ok cid;
  sa_cid : cid <> "";
}.

Definition start_ack (cid : string) (port : Z) : AckRequest :=
  mkAck "success" "" (Some (JObj [("container_id", JStr cid); ("host_port", JInt port)])).

Lemma start_turns e cmd pl port cid s s' :
  startable e cmd pl port cid ->
  performs d zone ticks (AckCommand c (ac_ID cmd) (start_ack cid port)) s = (Ok tt, s') ->
  turns d zone ticks host (interp (@on_client _ c) (Execute e cmd)) s = ((Ok tt, started e cmd pl port cid), s').
Proof.
  intros [Hty Hpl Hck Hport _ Hdock _] Hack. rewrite runs_in_time by done.
  unfold Executor.dispatch. rewrite Hty. change (String.eqb CmdStartSandbox "start_sandbox") with true.
  cbv iota. unfold executeStartSandbox. rewrite Hpl, runs_asks by done. unfold Allocate. rewrite Hport.
  rewrite runs_asks by done. change (mkAllocator _ _ _ _) with (take_port port (ex_ports e)).
  rewrite Hdock. by apply runs_succeed.
Qed.
End Start.

(** ** From the request on *)

Section Created.
Context `{External} (req : CreateRequest) (node : uuid) (w : World) (db0 : DB).

Definition created_id : uuid := uuid_New (w_rng w).
Definition created_cmd : uuid := uuid_New (S (w_rng w)).

(** What [CreateSandbox] needs to place the sandbox on [node]. *)
Record placeable_on : Prop := {
  po_faults : w_faults w = [];
  po_wf : db_wf (w_db w);
  po_recycle : recycles (w_db w) (cr_AppName req) db0;
  po_new : sandboxes (w_db w) !! created_id = None;
  po_cmd : commands (w_db w) !! created_cmd = None;
  po_memory : memory_ok (w_db w) = true;
  po_chosen : chosen_node (w_db w) (create_mem req) = Ok node;
}.

Definition start_command : Store.Command :=
  command_row (create_command req created_cmd created_id node) node (w_now w).

(** The world the request leaves, some time later. *)
Definition created_world (later : Z) : World :=
  set_now later (set_db (placed req created_id created_cmd node (w_now w) db0) (next_rng (next_rng w))).

Lemma created_facts later : placeable_on ->
  quiet (w_db w) node ->
  let w1 := created_world later in
  w_faults w1 = [] /\ db_wf (w_db w1) /\ alone (w_db w1) node start_command /\
  sandboxes (w_db w1) !! created_id = Some (assigned_to node (w_now w) (pending_row created_id req (w_now w))).
Proof.
  intros [Hf Hwf Hrec Hnew Hcmd Hmem Hch] Hnone w1.
  destruct (recycles_keeps _ _ _ Hrec) as (_ & Hc & _ & _ & _).
  assert (db_wf (w_db w1)) as Hwf1.
  { pose proof (CreateSandbox_exec req w db0 node Hf Hwf Hrec Hnew Hcmd Hmem Hch) as Hex.
    pose proof (exec_within service_move (CreateSandbox req) w (issues_create req) Hwf) as Hin.
    rewrite Hex in Hin. simpl in Hin. by eapply db_steps_wf. }
  split_and!; [done|done| |simpl; apply lookup_insert_eq].
  apply (alone_put (put_event (event_row (create_event req created_id node) (w_now w) db0)
    (put_sandbox (assigned_to node (w_now w) (pending_row created_id req (w_now w))) db0)) node start_command); [|done].
  intros i x Hx. apply (Hnone i). simpl in Hx. by rewrite Hc in Hx.
Qed.
End Created.

(** The agent's host: its clock is not past the command's deadline, the next
    free port is [port], and Docker creates the container that was asked for. *)
Record able_host (host : forall X, agentE X -> X) (e : CommandExecutor) (req : CreateRequest)
    (deadline port : Z) (cid : string) : Prop := {
  ab_clock : host _ ANow <= deadline;
  ab_port : first_key (host _ AMapStart) (available (ex_ports e)) = Some port;
  ab_range : 1 <= port <= 65535;
  ab_docker : forall spec, asked_for req spec -> sp_HostPort spec = port ->
    host _ (ACreateContainer spec) = Ok cid;
  ab_cid : cid <> "";
}.

(** The row of a sandbox that has come up. *)
Definition up (node : uuid) (cid : string) (port : Z) (s : Sandbox) : Prop :=
  sb_State s = StateRunning /\ sb_NodeID s = Some node /\ sb_ContainerID s = Some cid /\
  sb_HostPort s = Some port.

Lemma runtime_info_start cid port : cid <> "" -> 1 <= port <= 65535 ->
  runtime_info (Some (JObj [("container_id", JStr cid); ("host_port", JInt port)])) =
    Some (Some cid, Some port).
Proof.
  intros Hc Hp. unfold runtime_info, dec_field. simpl.
  unfold dec_int32, dec_int, min_int32, max_int32.
  rewrite (proj2 (andb_true_iff _ _)) by (split; apply Z.leb_le; lia). simpl.
  rewrite !bool_decide_eq_false_2; [done|lia|done|]. by intros [? _].
Qed.

(** A turn of the poll loop brings a placed sandbox up: the world after it is
    that of the acknowledgment. *)
Lemma turn_brings_up `{External, ClientTexts, AgentTexts} d zone ticks c h p host s n e cmd id sb pl cid port :
  let w := ct_world s in
  uuid_laws -> zone_ok zone -> connected d c h p s n -> w_faults w = [] -> db_wf (w_db w) ->
  alone (w_db w) n cmd -> sendable zone cmd -> cmd_SandboxID cmd = Some id ->
  sandboxes (w_db w) !! id = Some sb -> roomy sb -> sb_State sb = StateStarting ->
  startable host e (received cmd) pl port cid ->
  turns d zone ticks host (poll_turn c e) s =
    (started e (received cmd) pl port cid,
     in_world (acked_world d EventStarted StateRunning (start_ack cid port) id sb
                 (dispatched (w_now w) cmd) (fetched n w)) s).
Proof.
  intros w Hu Hz Hco Hf Hwf Hal Hsend Hid Hsb Hroom Hst Hstart.
  apply (turn_single d zone ticks c h p host s n e _ cmd id sb (start_ack cid port) EventStarted StateRunning);
    try done.
  - destruct Hstart as [Hty _ _ _ _ _ _]. cbn [received ac_Type] in Hty. by rewrite Hty.
  - by rewrite Hst.
  - intros s1 s2 Hper. by apply start_turns.
Qed.

(** A host able to bring a created sandbox up can run its command. *)
Lemma able_startable `{External} host e cmd req pl cid port :
  cmd_CommandType cmd = CmdStartSandbox -> cmd_Payload cmd = create_payload req ->
  cmd_TimeoutSeconds cmd = 60 -> decode_start (Some (create_payload req)) = Some pl ->
  (forall e cmd port, asked_for req (build_spec e cmd pl port)) ->
  able_host host e req ((cmd_CreatedAt cmd / second + 60) * nanoseconds) port cid ->
  startable host e (received cmd) pl port cid.
Proof.
  intros Hty Hpl Hto Hread Hspec [Hck Hport Hrange Hdock Hcid].
  split; [done|by simpl; rewrite Hpl| |done|done|by apply (Hdock _ (Hspec _ _ _))|done].
  cbn [received ac_IssuedAt ac_TimeoutSeconds]. rewrite Hto.
  change (wrap64 (60 * nanoseconds)) with (60 * nanoseconds). lia.
Qed.

(** The row after the acknowledgment of a start. *)
Lemma started_up ls now s n cid port : cid <> "" -> 1 <= port <= 65535 -> sb_NodeID s = Some n ->
  up n cid port (ack_final ls EventStarted StateRunning (ak_Result (start_ack cid port)) now
    (in_state StateRunning now s)).
Proof.
  intros Hc Hp Hn. unfold up, ack_final, runtime_row. cbn [ak_Result start_ack].
  rewrite runtime_info_start by done. unfold reset_row. by repeat case_match.
Qed.

Section Up.
Context `{External} (d : Deployment) (req : CreateRequest) (node : uuid) (w : World) (db0 : DB).
Context (later : Z) (cid : string) (port : Z).

(** The row of the created sandbox, and the world in which it is up. *)
Definition starting_row : Sandbox :=
  assigned_to node (w_now w) (pending_row (created_id w) req (w_now w)).

Definition up_world : World :=
  acked_world d EventStarted StateRunning (start_ack cid port) (created_id w) starting_row
    (dispatched later (start_command req node w)) (fetched node (created_world req node w db0 later)).

Definition up_row : Sandbox :=
  ack_final (dp_lifecycle d) EventStarted StateRunning (ak_Result (start_ack cid port)) later
    (in_state StateRunning later starting_row).

Lemma up_facts : placeable_on req node w db0 -> quiet (w_db w) node ->
  w_faults up_world = [] /\ db_wf (w_db up_world) /\ quiet (w_db up_world) node /\
  w_rng up_world = S (S (w_rng w)) /\
  sandboxes (w_db up_world) !! created_id w = Some up_row /\
  (cmd_Status <$> commands (w_db up_world) !! created_cmd w) = Some CmdCompleted /\
  (forall i, i <> created_cmd w -> commands (w_db up_world) !! i = commands (w_db w) !! i).
Proof.
  intros Hpo Hq. destruct (created_facts req node w db0 later Hpo Hq) as (Hf1 & Hwf1 & Hal & Hsb).
  destruct (recycles_keeps _ _ _ (po_recycle _ _ _ _ Hpo)) as (_ & Hc & _ & _ & _).
  destruct (after_keeps d node (created_world req node w db0 later) (start_command req node w) (created_id w)
    starting_row (start_ack cid port) EventStarted StateRunning) as (Hf & Hr & _).
  pose proof (after_commands d node (created_world req node w db0 later) (start_command req node w) (created_id w)
    starting_row (start_ack cid port) EventStarted StateRunning Hwf1 Hal) as Hcs.
  change (acked_world _ _ _ _ _ _ _ _) with up_world in *. split_and!; [by rewrite Hf| | |done|apply after_row| |].
  - by apply after_wf.
  - by apply after_quiet.
  - rewrite Hcs. simpl. by rewrite lookup_insert_eq.
  - intros i Hi. rewrite Hcs. simpl. by rewrite !lookup_insert_ne, Hc.
Qed.

Lemma comes_up `{ClientTexts, AgentTexts} zone ticks c h p host token e :
  uuid_laws -> zone_ok zone -> linked c h p -> cc_apiToken c = dp_apiToken d -> dp_apiToken d <> "" ->
  placeable_on req node w db0 -> quiet (w_db w) node ->
  in_int32 (MemoryMB (cr_Resources req)) -> plain_year zone (w_now w / second) ->
  able_host host e req ((w_now w / second + 60) * nanoseconds) port cid ->
  let s := mkSite (uuid_String node) token (created_world req node w db0 later) in
  connected d c h p s node /\
  exec (CreateSandbox req) w = (Ok (placed_result req (created_id w) node),
    set_db (placed req (created_id w) (created_cmd w) node (w_now w) db0) (next_rng (next_rng w))) /\
  exists pl, st_AppName pl = cr_AppName req /\
    turns d zone ticks host (poll_turn c e) s =
      (started e (received (start_command req node w)) pl port cid, in_world up_world s).
Proof.
  intros Hu Hz Hl Ht Hne Hpo Hq Hm Hy Hhost s. pose proof Hpo as [Hf Hwf Hrec Hnew Hcmd Hmem Hch].
  assert (connected d c h p s node) as Hco by (split; try done; apply Hu).
  split; [done|]. split; [by apply CreateSandbox_exec|].
  destruct (created_facts req node w db0 later Hpo Hq) as (Hf1 & Hwf1 & Hal & Hsb).
  destruct (read_payload req Hm) as (pl & Hread & Happ & Hspec). exists pl. split; [done|].
  apply (turn_brings_up d zone ticks c h p host s node e (start_command req node w) (created_id w)
    starting_row pl cid port); try done. by apply (able_startable host e _ req).
Qed.
End Up.

(** ** Properties *)

(** C2: A created sandbox comes up: when [CreateSandbox] places a sandbox on a node
    whose agent has no other command waiting, the next turn of that agent's
    poll loop, within the minute the command allows and on a host with a free
    port and a Docker that creates the container, leaves the sandbox running
    on that node with the container and the port, its command completed, and
    the agent tracking it under the sandbox's id; through the payload, the
    response of the poll, the executor and the acknowledgment. *)
Theorem created_sandbox_runs `{External, ClientTexts, AgentTexts} d zone ticks c h p host w db0 req
    node later token e cid port :
  uuid_laws -> zone_ok zone -> linked c h p -> cc_apiToken c = dp_apiToken d -> dp_apiToken d <> "" ->
  placeable_on req node w db0 -> pending_commands (w_db w) (Some node) = [] ->
  in_int32 (MemoryMB (cr_Resources req)) -> plain_year zone (w_now w / second) ->
  able_host host e req ((w_now w / second + 60) * nanoseconds) port cid ->
  let id := created_id w in
  let '(r, w1) := exec (CreateSandbox req) w in
  let '(e', s') := turns d zone ticks host (poll_turn c e)
                     (mkSite (uuid_String node) token (set_now later w1)) in
  r = Ok (placed_result req id node) /\
  (exists row, sandboxes (w_db (ct_world s')) !! id = Some row /\ up node cid port row) /\
  (cmd_Status <$> commands (w_db (ct_world s')) !! created_cmd w) = Some CmdCompleted /\
  ex_sandboxes e' !! uuid_String id = Some (mkInfo cid port (cr_AppName req)).
Proof.
  intros Hu Hz Hl Ht Hne Hpo Hnone%quiet_pending Hm Hy Hhost id.
  destruct (comes_up d req node w db0 later cid port zone ticks c h p host token e)
    as (_ & -> & pl & Happ & Hturn); try done.
  fold (created_world req node w db0 later). rewrite Hturn.
  destruct (up_facts d req node w db0 later cid port Hpo Hnone) as (_ & _ & _ & _ & Hrow & Hdone & _).
  split; [done|split_and!].
  - exists (up_row d req node w later cid port). split; [exact Hrow|]. destruct Hhost. by apply started_up.
  - exact Hdone.
  - simpl. by rewrite lookup_insert_eq, Happ.
Qed.

(** Docker creates "c0ffee"; the clock is a second late. *)
Definition demo_host (X : Type) (e : agentE X) : X :=
  match e in agentE X return X with
  | ANow => second
  | AMapStart => 0%nat
  | ACreateContainer _ => Ok "c0ffee"
  | AStopContainer _ _ => Ok tt
  | ARemoveContainer _ => Ok tt
  | ARestartContainer _ _ => Ok tt
  | AGetLogs _ _ _ => Err (OtherError "")
  | AAckCommand _ _ => Ok tt
  end.

Definition demo_fleet : DB := set_sandboxes ∅ (demo_db StateRunning 0).

Lemma demo_fleet_wf : db_wf demo_fleet.
Proof.
  pose proof (demo_db_wf StateRunning 0 (in_states StateRunning eq_refl)) as [_ _ Hn Hc He].
  split; simpl; [done|done|exact Hn| |exact He]. intros id x Hx. by rewrite lookup_empty in Hx.
Qed.

Lemma created_sandbox_runs_witness :
  let w := demo_cluster_world demo_fleet in
  let e := NewCommandExecutor (NewAllocator 40000 40000) "/srv" in
  let '(r, w1) := @exec demo_cluster _ (@CreateSandbox demo_cluster (demo_request "my-app" 512)) w in
  let '(e', s') := @turns demo_cluster demo_deployment 0 [] demo_host _
    (@poll_turn demo_client_texts demo_client_config demo_texts e)
    (@mkSite demo_cluster "1" "" (set_now 1000000 w1)) in
  exists row, sandboxes (w_db (ct_world s')) !! 1000%N = Some row /\ up 1 "c0ffee" 40000 row.
Proof.
  intros w e.
  pose proof (@created_sandbox_runs demo_cluster demo_client_texts demo_texts demo_deployment 0 []
    demo_client_config "10.0.0.1" "8080" demo_host w demo_fleet (demo_request "my-app" 512) 1 1000000 ""
    e "c0ffee" 40000 demo_cluster_laws) as Hrun.
  change (created_id w) with 1000%N in Hrun. change (@uuid_String demo_cluster 1%N) with "1" in Hrun.
  cbv zeta in Hrun. destruct (exec _ w) as [r w1]. destruct (turns _ _ _ _ _ _) as [e' s'].
  apply Hrun.
  - by split.
  - apply demo_linked.
  - reflexivity.
  - discriminate.
  - split; try reflexivity; [apply demo_fleet_wf|by apply no_prior].
  - reflexivity.
  - vm_compute. split; discriminate.
  - vm_compute. split; [discriminate|reflexivity].
  - by split.
Defined.
