(* ===== verification/Teardown.v ===== *)
(** From a destroy request to a sandbox that is gone: the control plane moves
    the row and queues a stop command, the agent's poll fetches it, Docker stops
    and removes the container, the port is free again, and the acknowledgment
    makes the row terminal. With file Startup, the whole life of a sandbox. *)

From S2P Require Import Prelude Time Netip Hmac Url UrlFacts Json Models Scheduler Store StoreFacts.
From S2P Require Import Routing Effects StoreRuns Restart Lifecycle LifecycleMoves CreateFacts AckFacts.
From S2P Require Import Interleave Reconciler Adapters.
From S2P Require Import Api Responses Register Push PushFacts Ports Executor ExecutorFacts Wire.
From S2P Require Import AgentClient ClientFacts Watcher AgentHttp DockerClient AgentLoops System.
From S2P Require Import Router Cluster EndToEnd Turns RequestFacts Startup.

(** ** The executor's run of a stop *)

Definition stop_ack : AckRequest := mkAck "success" "" (Some json_empty).

(** The host stops and removes the container, before the deadline. *)
Record stopping_host (host : forall X, agentE X -> X) (cid : string) (deadline : Z) : Prop := {
  sh_clock : host _ ANow <= deadline;
  sh_stop : host _ (AStopContainer cid 10) = Ok tt;
  sh_remove : host _ (ARemoveContainer cid) = Ok tt;
}.

Lemma stop_turns `{External, ClientTexts, AgentTexts} d zone ticks c host e cmd cid s s' :
  ac_Type cmd = CmdStopSandbox -> decode_container (ac_Payload cmd) = Some cid ->
  stopping_host host cid (ac_IssuedAt cmd + wrap64 (ac_TimeoutSeconds cmd * nanoseconds)) ->
  performs d zone ticks (AckCommand c (ac_ID cmd) stop_ack) s = (Ok tt, s') ->
  turns d zone ticks host (interp (@on_client _ c) (Execute e cmd)) s =
    ((Ok tt, untrack (ac_SandboxID cmd) e), s').
Proof.
  intros Hty Hcid [Hck Hstop Hrem] Hack. rewrite runs_in_time by done.
  unfold Executor.dispatch. rewrite Hty. change (String.eqb CmdStopSandbox "start_sandbox") with false.
  change (String.eqb CmdStopSandbox "stop_sandbox") with true. cbv iota.
  unfold executeStopSandbox. rewrite Hcid, runs_asks, Hstop by done.
  rewrite runs_asks, Hrem by done. by apply runs_succeed.
Qed.

(** A turn of the poll loop takes a sandbox down. *)
Lemma turn_takes_down `{External, ClientTexts, AgentTexts} d zone ticks c h p host s n e cmd id sb cid :
  let w := ct_world s in
  uuid_laws -> zone_ok zone -> connected d c h p s n -> w_faults w = [] -> db_wf (w_db w) ->
  alone (w_db w) n cmd -> plain_year zone (cmd_CreatedAt cmd / second) -> cmd_TimeoutSeconds cmd = 60 ->
  cmd_CommandType cmd = CmdStopSandbox -> cmd_SandboxID cmd = Some id ->
  decode_container (Some (cmd_Payload cmd)) = Some cid ->
  sandboxes (w_db w) !! id = Some sb -> roomy sb -> sb_State sb = StateDestroying ->
  stopping_host host cid ((cmd_CreatedAt cmd / second + 60) * nanoseconds) ->
  turns d zone ticks host (poll_turn c e) s =
    (untrack (uuid_String id) e,
     in_world (acked_world d EventDestroyed StateDestroyed stop_ack id sb
                 (dispatched (w_now w) cmd) (fetched n w)) s).
Proof.
  intros w Hu Hz Hco Hf Hwf Hal Hy Hto Hty Hid Hpl Hsb Hroom Hst [Hck Hstop Hrem].
  apply (turn_single d zone ticks c h p host s n e _ cmd id sb stop_ack EventDestroyed StateDestroyed);
    try done.
  - split; [rewrite Hto; by split|done].
  - by rewrite Hty, Hst.
  - by rewrite Hst.
  - intros s1 s2 Hper. rewrite (stop_turns d zone ticks c host e (received cmd) cid s1 s2); try done.
    + do 3 f_equal. simpl. by rewrite Hid.
    + split; [|done..]. cbn [received ac_IssuedAt ac_TimeoutSeconds]. rewrite Hto.
      change (wrap64 (60 * nanoseconds)) with (60 * nanoseconds). lia.
Qed.

(** ** The request *)

Section Destroyed.
Context `{External} (id n : uuid) (s : Sandbox) (w : World).

Definition destroy_id : uuid := uuid_New (w_rng w).

Definition stop_command : Store.Command :=
  command_row (destroy_command s destroy_id) n (w_now w).

(** The world a destroy request leaves. *)
Definition destroying_world : World :=
  set_db (dispatched_db s StateDestroying (destroy_command s destroy_id)
            (destroy_event s StateDestroying) n (w_now w) (w_db w)) (next_rng w).

Lemma destroying_facts :
  w_faults w = [] -> db_wf (w_db w) -> sandboxes (w_db w) !! id = Some s -> roomy s ->
  sb_NodeID s = Some n -> NextState (sb_State s) EventDestroyRequest = (StateDestroying, true) ->
  commands (w_db w) !! destroy_id = None -> quiet (w_db w) n ->
  exec (DestroySandbox id) w = (Ok tt, destroying_world) /\
  db_wf (w_db destroying_world) /\ alone (w_db destroying_world) n stop_command /\
  sandboxes (w_db destroying_world) !! id = Some (in_state StateDestroying (w_now w) s).
Proof.
  intros Hf Hwf Hs Hroom Hn Hst Hcmd Hq.
  pose proof (DestroySandbox_exec id w s n Hf Hwf Hs Hroom Hn Hcmd) as Hex. rewrite Hst in Hex.
  fold destroy_id destroying_world in Hex.
  assert (sb_ID s = id) as Hid by by apply (wf_sandboxes _ Hwf) in Hs as [? _].
  split_and!; [done| | |].
  - pose proof (exec_within service_move (DestroySandbox id) w (issues_destroy id) Hwf) as Hin.
    rewrite Hex in Hin. simpl in Hin. by eapply db_steps_wf.
  - by apply (alone_put (mkDB (<[sb_ID s := in_state StateDestroying (w_now w) s]> (sandboxes (w_db w)))
      (nodes (w_db w)) (commands (w_db w))
      (events (w_db w) ++ [event_row (destroy_event s StateDestroying) (w_now w) (w_db w)])
      (events_seq (w_db w) + 1)) n stop_command).
  - simpl. rewrite Hid. apply lookup_insert_eq.
Qed.
End Destroyed.

(** What the agent forgets is what it took. *)
Lemma untrack_started e cmd pl port cid host :
  alloc_ok (ex_ports e) -> first_key host (available (ex_ports e)) = Some port ->
  ex_sandboxes e !! ac_SandboxID cmd = None ->
  untrack (ac_SandboxID cmd) (started e cmd pl port cid) = e.
Proof.
  intros Hok Hport Hnew. unfold untrack, started, track. cbn [ex_sandboxes ex_ports ex_sandboxDir with_ports].
  rewrite lookup_insert_eq. cbn [si_HostPort].
  assert (Allocate host (ex_ports e) = (Ok port, take_port port (ex_ports e))) as Hal
    by (unfold Allocate; by rewrite Hport).
  rewrite (Release_Allocate _ _ _ _ Hok Hal), delete_insert_id by done. by destruct e.
Qed.

(** *** The request and the turn *)

(** A placed sandbox that can be destroyed, whose agent has nothing else to
    do. *)
Record destroyable `{External} (id n : uuid) (row : Sandbox) (w : World) : Prop := mk_destroyable {
  ds_faults : w_faults w = [];
  ds_wf : db_wf (w_db w);
  ds_row : sandboxes (w_db w) !! id = Some row;
  ds_roomy : roomy row /\ roomy (in_state StateDestroying (w_now w) row);
  ds_node : sb_NodeID row = Some n;
  ds_state : NextState (sb_State row) EventDestroyRequest = (StateDestroying, true);
  ds_fresh : commands (w_db w) !! destroy_id w = None;
  ds_quiet : quiet (w_db w) n;
}.

Section Down.
Context `{External} (d : Deployment) (id n : uuid) (row : Sandbox) (w : World) (later : Z).

(** The world in which the sandbox is gone. *)
Definition gone_world : World :=
  acked_world d EventDestroyed StateDestroyed stop_ack id (in_state StateDestroying (w_now w) row)
    (dispatched later (stop_command n row w)) (fetched n (set_now later (destroying_world n row w))).

Lemma gone_facts : destroyable id n row w ->
  (exists row', sandboxes (w_db gone_world) !! id = Some row' /\ sb_State row' = StateDestroyed) /\
  (cmd_Status <$> commands (w_db gone_world) !! destroy_id w) = Some CmdCompleted /\
  (forall i, i <> destroy_id w -> commands (w_db gone_world) !! i = commands (w_db w) !! i) /\
  quiet (w_db gone_world) n.
Proof.
  intros [Hf Hwf Hs [Hroom Hroom'] Hn Hst Hcmd Hq].
  destruct (destroying_facts id n row w Hf Hwf Hs Hroom Hn Hst Hcmd Hq) as (_ & Hwf1 & Hal & Hrow).
  pose proof (after_commands d n (set_now later (destroying_world n row w)) (stop_command n row w) id
    (in_state StateDestroying (w_now w) row) stop_ack EventDestroyed StateDestroyed Hwf1 Hal) as Hcs.
  change (acked_world _ _ _ _ _ _ _ _) with gone_world in Hcs.
  split_and!; [| | |by apply (after_quiet d n (set_now later (destroying_world n row w)))].
  - eexists. split; [apply after_row|]. unfold ack_final, runtime_row, reset_row. by repeat case_match.
  - rewrite Hcs. simpl. by rewrite lookup_insert_eq.
  - intros i Hi. rewrite Hcs. simpl. by rewrite !lookup_insert_ne.
Qed.

Lemma goes_down `{ClientTexts, AgentTexts} zone ticks c h p host s e :
  uuid_laws -> zone_ok zone -> connected d c h p s n -> destroyable id n row w ->
  plain_year zone (w_now w / second) ->
  stopping_host host (text_String (sb_ContainerID row)) ((w_now w / second + 60) * nanoseconds) ->
  exec (DestroySandbox id) w = (Ok tt, destroying_world n row w) /\
  turns d zone ticks host (poll_turn c e) (in_world (set_now later (destroying_world n row w)) s) =
    (untrack (uuid_String id) e, in_world gone_world s).
Proof.
  intros Hu Hz Hco [Hf Hwf Hs [Hroom Hroom'] Hn Hst Hcmd Hq] Hy Hhost.
  destruct (destroying_facts id n row w Hf Hwf Hs Hroom Hn Hst Hcmd Hq) as (Hex & Hwf1 & Hal & Hrow).
  split; [exact Hex|].
  rewrite (turn_takes_down d zone ticks c h p host (in_world (set_now later (destroying_world n row w)) s) n e
    (stop_command n row w) id (in_state StateDestroying (w_now w) row) (text_String (sb_ContainerID row))); try done.
  - by destruct Hco; split.
  - simpl. f_equal. by apply (wf_sandboxes _ Hwf) in Hs as [? _].
Qed.
End Down.

(** *** A sandbox that has come up *)

Section Running.
Context `{External} (d : Deployment) (req : CreateRequest) (node : uuid) (w : World) (db0 : DB).
Context (t1 t2 : Z) (cid : string) (port : Z).
#[local] Abbreviation row := (up_row d req node w t1 cid port).
#[local] Abbreviation running := (set_now t2 (up_world d req node w db0 t1 cid port)).

Lemma up_row_counters : sb_StateVersion row = 2 /\ sb_FailureCount row = 0.
Proof.
  unfold up_row, ack_final.
  rewrite (proj2 (proj2 (reset_row_keeps _ _ _ _))).
  destruct (runtime_row_keeps EventStarted (ak_Result (start_ack cid port)) t1
    (in_state StateRunning t1 (starting_row req node w))) as (_ & _ & _ & Hv & Hf).
  rewrite Hv. split; [done|]. unfold reset_row. case_match; [done|exact Hf].
Qed.

(** It can be destroyed, when the next command's id is new. *)
Lemma up_destroyable :
  placeable_on req node w db0 -> quiet (w_db w) node -> cid <> "" -> 1 <= port <= 65535 ->
  uuid_New (S (S (w_rng w))) <> created_cmd w -> commands (w_db w) !! uuid_New (S (S (w_rng w))) = None ->
  destroyable (created_id w) node row running /\ text_String (sb_ContainerID row) = cid /\
  destroy_id running = uuid_New (S (S (w_rng w))).
Proof.
  intros Hpo Hq Hcid Hport Hne Hfresh.
  destruct (up_facts d req node w db0 t1 cid port Hpo Hq) as (Hf & Hwf & Hq' & Hr & Hrow & _ & Hothers).
  destruct (started_up (dp_lifecycle d) t1 (starting_row req node w) node cid port Hcid Hport eq_refl)
    as (Hst & Hn & Hc & _). fold row in Hst, Hn, Hc. destruct up_row_counters as [Hv Hfc].
  assert (destroy_id running = uuid_New (S (S (w_rng w)))) as Hid by (unfold destroy_id; rewrite <- Hr; reflexivity).
  split; [|by rewrite Hc]. split; try done.
  - unfold roomy, in_state. simpl. rewrite Hv, Hfc. unfold max_int32. lia.
  - by rewrite Hst.
  - rewrite Hid. simpl. by rewrite Hothers.
Qed.
End Running.

(** ** Properties *)

(** A destroyed sandbox goes away: when a placed sandbox in a state that can be
    destroyed is, and its node's agent has no other command waiting, the next
    turn of that agent's poll loop, within the minute the command allows and on
    a host whose Docker stops and removes the container, leaves the row
    destroyed, the stop command completed and no command waiting, and the agent
    tracking the sandbox no more. *)
Theorem destroyed_sandbox_gone `{External, ClientTexts, AgentTexts} d zone ticks c h p host w row id
    node later token e :
  uuid_laws -> zone_ok zone -> linked c h p -> cc_apiToken c = dp_apiToken d -> dp_apiToken d <> "" ->
  destroyable id node row w -> plain_year zone (w_now w / second) ->
  stopping_host host (text_String (sb_ContainerID row)) ((w_now w / second + 60) * nanoseconds) ->
  let '(r, w1) := exec (DestroySandbox id) w in
  let '(e', s') := turns d zone ticks host (poll_turn c e)
                     (mkSite (uuid_String node) token (set_now later w1)) in
  r = Ok tt /\ e' = untrack (uuid_String id) e /\
  (exists row', sandboxes (w_db (ct_world s')) !! id = Some row' /\ sb_State row' = StateDestroyed) /\
  (cmd_Status <$> commands (w_db (ct_world s')) !! destroy_id w) = Some CmdCompleted /\
  pending_commands (w_db (ct_world s')) (Some node) = [].
Proof.
  intros Hu Hz Hl Ht Hne Hds Hy Hhost. set (s := mkSite (uuid_String node) token w).
  assert (connected d c h p s node) as Hco by (split; try done; apply Hu).
  destruct (goes_down d id node row w later zone ticks c h p host s e Hu Hz Hco Hds Hy Hhost) as [-> Hturn].
  change (mkSite _ _ _) with (in_world (set_now later (destroying_world node row w)) s). rewrite Hturn.
  destruct (gone_facts d id node row w later Hds) as (Hrow & Hc & _ & Hq).
  split_and!; [done..|]. by apply quiet_pending.
Qed.

(** C1: The whole life of a sandbox leaves its agent as it was: created, brought up
    by a turn of the poll loop, destroyed some time later and taken down by the
    next turn, the sandbox ends destroyed with both commands completed, and the
    executor ends with the ports and the sandboxes it began with. *)
Theorem sandbox_round_trip `{External, ClientTexts, AgentTexts} d zone ticks c h p up_host down_host w db0 req
    node t1 t2 t3 token e cid port :
  uuid_laws -> zone_ok zone -> linked c h p -> cc_apiToken c = dp_apiToken d -> dp_apiToken d <> "" ->
  placeable_on req node w db0 -> pending_commands (w_db w) (Some node) = [] ->
  in_int32 (MemoryMB (cr_Resources req)) -> plain_year zone (w_now w / second) -> plain_year zone (t2 / second) ->
  able_host up_host e req ((w_now w / second + 60) * nanoseconds) port cid ->
  stopping_host down_host cid ((t2 / second + 60) * nanoseconds) ->
  alloc_ok (ex_ports e) -> ex_sandboxes e !! uuid_String (created_id w) = None ->
  uuid_New (S (S (w_rng w))) <> created_cmd w -> commands (w_db w) !! uuid_New (S (S (w_rng w))) = None ->
  let id := created_id w in
  let turn host e s := turns d zone ticks host (poll_turn c e) s in
  let '(_, w1) := exec (CreateSandbox req) w in
  let '(e1, s1) := turn up_host e (mkSite (uuid_String node) token (set_now t1 w1)) in
  let '(r, w2) := exec (DestroySandbox id) (set_now t2 (ct_world s1)) in
  let '(e2, s2) := turn down_host e1 (in_world (set_now t3 w2) s1) in
  (exists row, sandboxes (w_db (ct_world s1)) !! id = Some row /\ up node cid port row) /\
  r = Ok tt /\ e2 = e /\
  (exists row, sandboxes (w_db (ct_world s2)) !! id = Some row /\ sb_State row = StateDestroyed) /\
  (cmd_Status <$> commands (w_db (ct_world s2)) !! created_cmd w) = Some CmdCompleted /\
  (cmd_Status <$> commands (w_db (ct_world s2)) !! uuid_New (S (S (w_rng w)))) = Some CmdCompleted /\
  pending_commands (w_db (ct_world s2)) (Some node) = [].
Proof.
  intros Hu Hz Hl Ht Hne Hpo Hq%quiet_pending Hm Hy Hy2 Hup Hdown Hok Hnew Hne' Hfresh id turn.
  destruct (comes_up d req node w db0 t1 cid port zone ticks c h p up_host token e)
    as (Hco & -> & pl & Happ & Hturn); try done.
  fold (created_world req node w db0 t1). unfold turn, id. rewrite Hturn. cbn [ct_world in_world].
  pose proof Hup as [_ Hport Hrange _ Hcid].
  destruct (up_destroyable d req node w db0 t1 t2 cid port Hpo Hq Hcid Hrange Hne' Hfresh) as (Hds & Hc & Hid).
  destruct (up_facts d req node w db0 t1 cid port Hpo Hq) as (_ & _ & _ & _ & Hrow & Hdone & _).
  destruct (goes_down d (created_id w) node (up_row d req node w t1 cid port)
    (set_now t2 (up_world d req node w db0 t1 cid port)) t3 zone ticks c h p down_host
    (mkSite (uuid_String node) token (created_world req node w db0 t1))
    (started e (received (start_command req node w)) pl port cid)) as [-> Hturn2]; try done.
  { by rewrite Hc. }
  change (in_world ?v (in_world ?u ?s)) with (in_world v s). rewrite Hturn2.
  destruct (gone_facts d _ node _ _ t3 Hds) as (Hgone & Hstop & Hothers & Hq2). rewrite Hid in Hstop, Hothers.
  split_and!; [|done| |exact Hgone| |exact Hstop|by apply quiet_pending].
  - exists (up_row d req node w t1 cid port). split; [exact Hrow|]. by apply started_up.
  - by apply (untrack_started e (received (start_command req node w)) pl port cid (up_host _ AMapStart)).
  - cbn [ct_world in_world]. rewrite Hothers by done. exact Hdone.
Qed.

Lemma destroyed_sandbox_gone_witness :
  let w := demo_cluster_world (demo_db StateRunning 0) in
  let e := NewCommandExecutor (NewAllocator 40000 40000) "/srv" in
  let '(r, w1) := @exec demo_cluster _ (@DestroySandbox 7) w in
  let '(e', s') := @turns demo_cluster demo_deployment 0 [] demo_host _
    (@poll_turn demo_client_texts demo_client_config demo_texts e)
    (@mkSite demo_cluster "1" "" (set_now 1000000 w1)) in
  exists row, sandboxes (w_db (ct_world s')) !! 7%N = Some row /\ sb_State row = StateDestroyed.
Proof.
  intros w e.
  pose proof (@destroyed_sandbox_gone demo_cluster demo_client_texts demo_texts demo_deployment 0 []
    demo_client_config "10.0.0.1" "8080" demo_host w (demo_sandbox StateRunning 0) 7 1 1000000 "" e
    demo_cluster_laws) as Hrun.
  change (@uuid_String demo_cluster 1%N) with "1" in Hrun.
  destruct (exec _ w) as [r w1]. destruct (turns _ _ _ _ _ _) as [e' s'].
  apply Hrun.
  - by split.
  - apply demo_linked.
  - reflexivity.
  - discriminate.
  - split; try reflexivity; [by apply demo_db_wf, in_states|vm_compute; repeat split; discriminate|].
    by apply quiet_pending.
  - vm_compute. split; [discriminate|reflexivity].
  - by split.
Defined.

Lemma sandbox_round_trip_witness :
  let w := demo_cluster_world demo_fleet in
  let e := NewCommandExecutor (NewAllocator 40000 40000) "/srv" in
  let turn e s := @turns demo_cluster demo_deployment 0 [] demo_host _
    (@poll_turn demo_client_texts demo_client_config demo_texts e) s in
  let '(_, w1) := @exec demo_cluster _ (@CreateSandbox demo_cluster (demo_request "my-app" 512)) w in
  let '(e1, s1) := turn e (@mkSite demo_cluster "1" "" (set_now 1000000 w1)) in
  let '(r, w2) := @exec demo_cluster _ (@DestroySandbox 1000) (set_now 2000000 (ct_world s1)) in
  let '(e2, s2) := turn e1 (in_world (set_now 3000000 w2) s1) in
  r = Ok tt /\ e2 = e.
Proof.
  intros w e turn.
  pose proof (@sandbox_round_trip demo_cluster demo_client_texts demo_texts demo_deployment 0 []
    demo_client_config "10.0.0.1" "8080" demo_host demo_host w demo_fleet (demo_request "my-app" 512) 1
    1000000 2000000 3000000 "" e "c0ffee" 40000 demo_cluster_laws) as Hrun.
  change (created_id w) with 1000%N in Hrun. change (@uuid_String demo_cluster 1%N) with "1" in Hrun.
  cbv zeta in Hrun. unfold turn. destruct (exec (CreateSandbox _) w) as [r0 w1].
  destruct (turns _ _ _ _ (poll_turn _ e) _) as [e1 s1]. destruct (exec (DestroySandbox _) _) as [r w2].
  destruct (turns _ _ _ _ (poll_turn _ e1) _) as [e2 s2].
  destruct Hrun as (_ & Hr & He & _); [..|by split].
  - by split.
  - apply demo_linked.
  - reflexivity.
  - discriminate.
  - split; try reflexivity; [apply demo_fleet_wf|by apply no_prior].
  - reflexivity.
  - vm_compute. split; discriminate.
  - vm_compute. split; [discriminate|reflexivity].
  - vm_compute. split; [discriminate|reflexivity].
  - by split.
  - by split.
  - apply NewAllocator_ok.
  - reflexivity.
  - discriminate.
  - reflexivity.
Defined.
