(* ===== verification/Recovery.v ===== *)
(** From a crash to a sandbox that runs again: the watcher's event, the agent's
    report of it, the restart the control plane decides on, the poll that
    fetches the start command, the executor's run of it and the acknowledgment
    that clears the failure count. *)

From S2P Require Import Prelude Time Netip Hmac Url UrlFacts Json Models Scheduler Store StoreFacts.
From S2P Require Import Routing Effects StoreRuns Restart Lifecycle LifecycleMoves CreateFacts AckFacts EventFacts.
From S2P Require Import Interleave Reconciler Adapters.
From S2P Require Import Api Responses Register Push PushFacts Ports Executor ExecutorFacts Wire.
From S2P Require Import AgentClient ClientFacts Watcher AgentHttp DockerClient AgentLoops System.
From S2P Require Import Router Cluster EndToEnd Turns RequestFacts Startup Teardown.

(** ** The agent's report *)

(** The agent tracks the sandbox [id], and no other, for the application. *)
Definition tracks_alone (e : CommandExecutor) (id app : string) : Prop :=
  (exists info, ex_sandboxes e !! id = Some info /\ si_AppName info = app) /\
  forall i info, ex_sandboxes e !! i = Some info -> si_AppName info = app -> i = id.

Lemma resolve_tracked k e id app : tracks_alone e id app -> resolveSandboxID k e app = id.
Proof.
  intros [(info & Hid & Happ) Hone]. unfold resolveSandboxID.
  rewrite (singleton_of (filter _ (map_to_list _)) (id, info)).
  - cbn [fmap list_fmap fst length]. by rewrite Nat.mod_1_r.
  - apply NoDup_filter, NoDup_map_to_list.
  - intros [i x]. rewrite list_elem_of_filter, elem_of_map_to_list. simpl. split.
    + intros [Hx Hi]. pose proof (Hone _ _ Hi Hx) as ->. by simplify_eq.
    + intros [= -> ->]. done.
Qed.

(** A container ends: the report of it reaches the lifecycle service. *)
Lemma report_exec `{External} ls n idStr ev w w' id :
  uuid_laws -> uuid_Parse idStr = Some n -> er_SandboxID ev = uuid_String id ->
  er_EventType ev <> "" -> in_int64 (er_ExitCode ev) ->
  exec (HandleEvent ls n id (er_EventType ev) (er_Payload ev)) w = (Ok tt, w') ->
  exec (handleReportEvent ls idStr (Some (event_json ev))) w = (mkReply 200 BEmpty, w').
Proof.
  intros Hu Hp Hid Hty Hx Hex. apply exec_wp_eq. unfold handleReportEvent.
  rewrite Hp, read_event, Hid by done. destruct (Hu id) as [[_ Hne] Hparse].
  rewrite (proj2 (String.eqb_neq _ _) Hne), (proj2 (String.eqb_neq _ _) Hty), Hparse.
  apply ctl_wp_bind, wp_run. unfold exec in Hex. rewrite Hex. by apply ctl_wp_ret.
Qed.

(** ** The restart *)

(** A running sandbox that crashes, with attempts left, on a node whose agent
    has no command waiting. *)
Record crashing `{External} (ls : LifecycleService) (id n : uuid) (row : Sandbox) (w : World) : Prop := mk_crashing {
  ca_faults : w_faults w = [];
  ca_wf : db_wf (w_db w);
  ca_row : sandboxes (w_db w) !! id = Some row;
  ca_roomy : roomy row /\ roomy (in_state StateStarting (w_now w) (crashed_row (w_now w) row));
  ca_state : sb_State row = StateRunning;
  ca_node : sb_NodeID row = Some n;
  ca_manager : ls_restartMgr ls = true;
  ca_fresh : commands (w_db w) !! uuid_New (w_rng w) = None;
  ca_attempts : sb_FailureCount row < maxRestartAttempts;
  ca_quiet : quiet (w_db w) n;
}.

(** The seconds a restart has, those of the backoff included. *)
Definition restart_timeout (row : Sandbox) : Z := 60 + 5 * 2 ^ sb_FailureCount row.

(** What the payload of a restart leaves of the container that was: its name
    and image; no limits and no environment. *)
Definition bare_spec (e : CommandExecutor) (id : string) (row : Sandbox) (port : Z) : SandboxSpec :=
  mkSpec id (sb_AppName row) (sb_Image row) port 0%Q 0 None (ex_sandboxDir e).

Lemma read_restart row delay :
  decode_start (Some (restart_payload row delay)) =
    Some (mkStartPayload (sb_AppName row) (sb_Image row) (0%Q, 0) None).
Proof. reflexivity. Qed.

(** The agent's host: not late, a free port, and a Docker that creates the bare
    container. *)
Record reviving_host (host : forall X, agentE X -> X) (e : CommandExecutor) (id : string) (row : Sandbox)
    (deadline port : Z) (cid : string) : Prop := {
  rv_clock : host _ ANow <= deadline;
  rv_port : first_key (host _ AMapStart) (available (ex_ports e)) = Some port;
  rv_range : 1 <= port <= 65535;
  rv_docker : host _ (ACreateContainer (bare_spec e id row port)) = Ok cid;
  rv_cid : cid <> "";
}.

Lemma wrap64_seconds t : 0 <= t <= 3600 -> wrap64 (t * nanoseconds) = t * nanoseconds.
Proof. intros Ht. unfold wrap64, nanoseconds. rewrite Z.mod_small; lia. Qed.

Section Restarted.
Context `{External} (d : Deployment) (id n : uuid) (row : Sandbox) (ty : string) (payload : option json) (w : World).
#[local] Abbreviation ls := (dp_lifecycle d).
#[local] Abbreviation restarting := (restarting_world ls row n n ty payload w).

Definition restart_order : Store.Command :=
  command_row (restart_command row (uuid_New (w_rng w)) (baseRestartDelay * 2 ^ sb_FailureCount row)) n (w_now w).

Definition restarting_row : Sandbox := in_state StateStarting (w_now w) (crashed_row (w_now w) row).

Lemma restart_order_timeout : roomy row -> cmd_TimeoutSeconds restart_order = restart_timeout row.
Proof.
  intros [_ Hf]. unfold restart_order, restart_timeout. cbn [cmd_TimeoutSeconds command_row restart_command cc_TimeoutSeconds].
  replace (sb_FailureCount row) with (sb_FailureCount row + 1 - 1) by lia.
  by rewrite restart_delay_seconds by lia.
Qed.

Lemma restart_timeout_small : roomy row -> sb_FailureCount row < maxRestartAttempts ->
  65 <= restart_timeout row <= 80.
Proof.
  intros [_ Hf] Hlt. unfold restart_timeout, maxRestartAttempts in *.
  assert (sb_FailureCount row = 0 \/ sb_FailureCount row = 1 \/ sb_FailureCount row = 2) as [-> |[-> | ->]] by lia;
    simpl; lia.
Qed.

Lemma restarting_facts : crashing ls id n row w -> crash_type ty ->
  exec (HandleEvent ls n id ty payload) w = (Ok tt, restarting) /\
  w_faults restarting = [] /\ db_wf (w_db restarting) /\ alone (w_db restarting) n restart_order /\
  sandboxes (w_db restarting) !! id = Some restarting_row.
Proof.
  intros [Hf Hwf Hs [Hroom Hroom'] Hst Hn Hmgr Hcmd Hlt Hq] Hty.
  pose proof (HandleEvent_restarts ls n id ty payload w row n Hf Hwf Hs Hroom Hst Hty Hmgr Hn Hcmd Hlt) as Hex.
  destruct (unroute_keeps ls row w) as (_ & _ & Hfl & _).
  assert (sb_ID row = id) as Hid by by apply (wf_sandboxes _ Hwf) in Hs as [? _].
  split_and!; [done|by simpl; rewrite Hfl| | |].
  - pose proof (exec_within service_move _ w (issues_event ls n id ty payload) Hwf) as Hin.
    rewrite Hex in Hin. simpl in Hin. by eapply db_steps_wf.
  - by apply (alone_put (put_sandbox restarting_row (crashing_db row n ty payload (w_now w) (w_db w))) n restart_order).
  - simpl. rewrite Hid. apply lookup_insert_eq.
Qed.

(** The world in which the sandbox runs again, when the agent polls in [v]. *)
Definition revived_at (later : Z) (cid : string) (port : Z) (v : World) : World :=
  acked_world d EventStarted StateRunning (start_ack cid port) id restarting_row
    (dispatched later restart_order) (fetched n (set_now later v)).

Definition revived_world (later : Z) (cid : string) (port : Z) : World := revived_at later cid port restarting.

(** Its row has no failures left on it. *)
Lemma revived_row later cid port :
  crashing ls id n row w -> cid <> "" -> 1 <= port <= 65535 ->
  exists row', sandboxes (w_db (revived_world later cid port)) !! id = Some row' /\
    up n cid port row' /\ sb_FailureCount row' = 0.
Proof.
  intros Hca Hcid Hport. eexists. split; [apply after_row|]. split; [by apply started_up, Hca|].
  destruct (ca_roomy _ _ _ _ _ Hca) as [[_ Hfc] _].
  unfold ack_final, reset_row. rewrite (ca_manager _ _ _ _ _ Hca).
  rewrite (proj2 (proj2 (proj2 (proj2 (runtime_row_keeps _ _ _ _))))).
  rewrite bool_decide_eq_true_2, (proj2 (Z.ltb_lt _ _)) by (done || simpl; lia). done.
Qed.

(** The report of the crash. *)
Lemma crash_reported `{ClientTexts} zone ticks c h p s e k ev :
  let report := event_report (uuid_String id) ev in
  uuid_laws -> connected d c h p s n -> ct_world s = w -> crashing ls id n row w ->
  crash_type (se_EventType ev) -> tracks_alone e (uuid_String id) (se_AppName ev) ->
  ty = er_EventType report -> payload = er_Payload report ->
  performs d zone ticks (forwardEvent c k e ev) s = (Ok tt, in_world restarting s).
Proof.
  intros report Hu Hco Hw Hca Hty Htr Ht Hp.
  assert (crash_type ty) as Hty' by by rewrite Ht.
  destruct (restarting_facts Hca Hty') as (Hex & _).
  unfold forwardEvent. rewrite (resolve_tracked _ _ _ _ Htr).
  pose proof (performs_ReportEvent d zone ticks c h p s n report Hco) as Hr. rewrite Hw in Hr.
  rewrite (report_exec _ n _ _ _ restarting id) in Hr; [by apply Hr|done|apply Hco|done| |apply Sscanf_d_int|].
  - by destruct Hty as [Hty|Hty]; simpl; rewrite Hty.
  - by rewrite <- Ht, <- Hp.
Qed.

(** The turn that runs the restart, in a world with the tables of [restarting]. *)
Lemma turn_revives_at `{ClientTexts, AgentTexts} zone ticks c h p host s e later cid port v :
  uuid_laws -> zone_ok zone -> connected d c h p s n -> crashing ls id n row w -> crash_type ty ->
  w_db v = w_db restarting -> w_faults v = [] -> plain_year zone (w_now w / second) ->
  reviving_host host e (uuid_String id) row ((w_now w / second + restart_timeout row) * nanoseconds) port cid ->
  turns d zone ticks host (poll_turn c e) (in_world (set_now later v) s) =
    (track (uuid_String id) (mkInfo cid port (sb_AppName row)) (with_ports (take_port port (ex_ports e)) e),
     in_world (revived_at later cid port v) s).
Proof.
  intros Hu Hz Hco Hca Hty Hdb Hf Hy [Hck Hport Hrange Hdock Hcid].
  destruct (restarting_facts Hca Hty) as (_ & _ & Hwf & Hal & Hrow). rewrite <- Hdb in Hwf, Hal, Hrow.
  pose proof (ca_roomy _ _ _ _ _ Hca) as [Hroom Hroom'].
  pose proof (restart_timeout_small Hroom (ca_attempts _ _ _ _ _ Hca)) as Hsmall.
  pose proof (restart_order_timeout Hroom) as Hto.
  pose proof (ca_row _ _ _ _ _ Hca) as [Hid _]%(wf_sandboxes _ (ca_wf _ _ _ _ _ Hca)).
  assert (ac_SandboxID (received restart_order) = uuid_String id) as Hsid by (simpl; by rewrite Hid).
  rewrite (turn_brings_up d zone ticks c h p host (in_world (set_now later v) s) n e
    restart_order id restarting_row (mkStartPayload (sb_AppName row) (sb_Image row) (0%Q, 0) None) cid port);
    try done.
  - unfold started. by rewrite Hsid.
  - by destruct Hco; split.
  - split; [rewrite Hto; unfold in_int64; lia|done].
  - simpl. by rewrite Hid.
  - split; try done.
    + cbn [received ac_IssuedAt ac_TimeoutSeconds]. rewrite Hto, wrap64_seconds by lia. simpl. lia.
    + unfold build_spec. by rewrite Hsid.
Qed.

(** At once. *)
Lemma turn_revives `{ClientTexts, AgentTexts} zone ticks c h p host s e later cid port :
  uuid_laws -> zone_ok zone -> connected d c h p s n -> crashing ls id n row w -> crash_type ty ->
  plain_year zone (w_now w / second) ->
  reviving_host host e (uuid_String id) row ((w_now w / second + restart_timeout row) * nanoseconds) port cid ->
  turns d zone ticks host (poll_turn c e) (in_world (set_now later restarting) s) =
    (track (uuid_String id) (mkInfo cid port (sb_AppName row)) (with_ports (take_port port (ex_ports e)) e),
     in_world (revived_world later cid port) s).
Proof.
  intros Hu Hz Hco Hca Hty Hy Hhost. destruct (restarting_facts Hca Hty) as (_ & Hf & _).
  by apply (turn_revives_at zone ticks c h p).
Qed.
End Restarted.

(** ** Properties *)

(** C3: A crash is recovered from: when the container of a running sandbox that
    its agent tracks ends or runs out of memory, with attempts left and nothing
    else waiting for the node, the agent's report and its next turn of the poll
    loop, within a minute and the backoff, leave the sandbox running in a new
    container on a new port.  The new container has the application's name and
    image, no limit on memory or CPU and no environment, whatever the sandbox
    was created with; the old port is not given back; and the count of failures
    is zero again, so crashes that follow each other are never counted up. *)
Theorem crash_recovers `{External, ClientTexts, AgentTexts} d zone ticks c h p host w row id node later
    token e k ev port cid :
  uuid_laws -> zone_ok zone -> linked c h p -> cc_apiToken c = dp_apiToken d -> dp_apiToken d <> "" ->
  crashing (dp_lifecycle d) id node row w -> plain_year zone (w_now w / second) ->
  crash_type (se_EventType ev) -> tracks_alone e (uuid_String id) (se_AppName ev) ->
  reviving_host host e (uuid_String id) row ((w_now w / second + restart_timeout row) * nanoseconds) port cid ->
  let '(r, s1) := performs d zone ticks (forwardEvent c k e ev) (mkSite (uuid_String node) token w) in
  let '(e', s2) := turns d zone ticks host (poll_turn c e) (in_world (set_now later (ct_world s1)) s1) in
  r = Ok tt /\
  sandboxes (w_db (ct_world s1)) !! id = Some (restarting_row row w) /\
  (exists row', sandboxes (w_db (ct_world s2)) !! id = Some row' /\ up node cid port row' /\
     sb_FailureCount row' = 0) /\
  pending_commands (w_db (ct_world s2)) (Some node) = [] /\
  ex_sandboxes e' = <[uuid_String id := mkInfo cid port (sb_AppName row)]> (ex_sandboxes e) /\
  ex_ports e' = take_port port (ex_ports e).
Proof.
  intros Hu Hz Hl Ht Hne Hca Hy Hty Htr Hhost. set (s := mkSite (uuid_String node) token w).
  assert (connected d c h p s node) as Hco by (split; try done; apply Hu).
  set (report := event_report (uuid_String id) ev).
  rewrite (crash_reported d id node row (er_EventType report) (er_Payload report) w zone ticks c h p s e k ev) by done.
  change (in_world (set_now later _) _) with
    (in_world (set_now later (restarting_world (dp_lifecycle d) row node node (er_EventType report) (er_Payload report) w)) s).
  rewrite (turn_revives d id node row (er_EventType report) (er_Payload report) w zone ticks c h p host s e later
    cid port) by done.
  destruct (restarting_facts d id node row (er_EventType report) (er_Payload report) w Hca Hty)
    as (_ & _ & Hwf & Hal & Hrow). pose proof Hhost as [_ _ Hrange _ Hcid].
  split; [done|]. split; [done|]. split; [by apply (revived_row d)|]. split; [|done].
  by apply quiet_pending, (after_quiet d node (set_now later (restarting_world _ _ _ _ _ _ _))).
Qed.

(** The container of the demo sandbox runs out of memory after two failures. *)
Lemma crash_recovers_witness :
  let w := demo_cluster_world (demo_db StateRunning 2) in
  let ev := mkSandboxEvent "my-app" "c0ffee" "container_oom" "" 0 true in
  let e := mkExecutor (NewAllocator 40001 40002) "/srv" {["7" := mkInfo "c0ffee" 40000 "my-app"]} in
  let '(r, s1) := @performs demo_cluster demo_deployment 0 [] _
    (@forwardEvent demo_client_texts demo_client_config 0 e ev) (@mkSite demo_cluster "1" "" w) in
  let '(e', s2) := @turns demo_cluster demo_deployment 0 [] demo_host _
    (@poll_turn demo_client_texts demo_client_config demo_texts e)
    (in_world (set_now 9000000 (ct_world s1)) s1) in
  exists row, sandboxes (w_db (ct_world s2)) !! 7%N = Some row /\ up 1 "c0ffee" 40001 row /\
    sb_FailureCount row = 0.
Proof.
  intros w ev e.
  pose proof (@crash_recovers demo_cluster demo_client_texts demo_texts demo_deployment 0 []
    demo_client_config "10.0.0.1" "8080" demo_host w (demo_sandbox StateRunning 2) 7 1 9000000 "" e 0 ev
    40001 "c0ffee" demo_cluster_laws) as Hrun.
  change (@uuid_String demo_cluster 1%N) with "1" in Hrun.
  destruct (performs _ _ _ _ _) as [r s1]. destruct (turns _ _ _ _ _ _) as [e' s2].
  apply Hrun.
  - by split.
  - apply demo_linked.
  - reflexivity.
  - discriminate.
  - split; try reflexivity; [by apply demo_db_wf, in_states|vm_compute; repeat split; discriminate|].
    by apply quiet_pending.
  - vm_compute. split; [discriminate|reflexivity].
  - by right.
  - split; [by eexists|]. intros i x Hi _.
    change (({["7" := mkInfo "c0ffee" 40000 "my-app"]} : gmap string sandboxInfo) !! i = Some x) in Hi.
    by apply lookup_singleton_Some in Hi as [<- _].
  - by split.
Defined.
