(* ===== verification/Misrouting.v ===== *)
(** A crash and its restart against the proxy.  When the batcher's timer fires
    between them the proxy ends with the new route alone; when the agent starts
    the sandbox again before it fires, on another port, the proxy keeps the route
    to the old port and refuses the new one. *)

From S2P Require Import Prelude Time Netip Hmac Url UrlFacts Json Models Scheduler Store StoreFacts.
From S2P Require Import Routing Effects StoreRuns Sweep Restart Lifecycle LifecycleMoves CreateFacts AckFacts EventFacts.
From S2P Require Import Caddy Flushes Interleave Reconciler Adapters.
From S2P Require Import Api Responses Register Push PushFacts Ports Executor ExecutorFacts Wire.
From S2P Require Import AgentClient ClientFacts Watcher AgentHttp DockerClient AgentLoops System.
From S2P Require Import Router Cluster EndToEnd Turns RequestFacts Startup Teardown Recovery.

(** ** What the batcher holds when the sandbox runs again *)

(** The route of a sandbox started on [port] of the node [nd]. *)
Definition started_route `{External} (id : uuid) (row : Sandbox) (nd : Node) (port : Z) : Route :=
  mkRoute (sb_AppName row) (uuid_String id) (Addr_String (nd_TailscaleIp nd) +:+ ":" +:+ pretty port).

Lemma upstream_not_empty a b : String.eqb (a +:+ ":" +:+ b) "" = false.
Proof. by destruct a. Qed.

Section Restarted.
Context `{External} (d : Deployment) (id n : uuid) (row : Sandbox) (ty : string) (payload : option json) (w : World).
Context (nd : Node) (later : Z) (cid : string) (port : Z).
#[local] Abbreviation ls := (dp_lifecycle d).
#[local] Abbreviation restarting := (restarting_world ls row n n ty payload w).
Hypothesis Hroutes : ls_routeNotifier ls = true.
Hypothesis Hbatcher : w_batcher w = NewBatcher.
Hypothesis Hnode : nodes (w_db w) !! n = Some nd.
Hypothesis Hca : crashing ls id n row w.
Hypothesis Hty : crash_type ty.
Hypothesis Hcid : cid <> "".
Hypothesis Hport : 1 <= port <= 65535.

(** The crash has the route removed. *)
Lemma restarting_batcher :
  w_batcher restarting = removing (sb_AppName row) /\ w_peers restarting = w_peers w.
Proof.
  unfold restarting_world, unroute. rewrite Hroutes. unfold call_notify, notify, route_change.
  change (mkChange "remove" zero_route (sb_AppName row)) with (remove_change (sb_AppName row)).
  by rewrite Hbatcher, enqueue_lone.
Qed.

(** The row as the acknowledgment reads it again names the node and the new port. *)
Lemma reread_started now :
  let s := reread EventStarted (runtime_row EventStarted (ak_Result (start_ack cid port)) now
             (in_state StateRunning now (restarting_row row w))) (restarting_row row w) in
  sb_NodeID s = Some n /\ sb_HostPort s = Some port /\ sb_AppName s = sb_AppName row.
Proof.
  unfold reread, runtime_row. rewrite !bool_decide_eq_true_2 by done. cbn [ak_Result start_ack].
  rewrite runtime_info_start by done. split_and!; [|done..]. apply (ca_node _ _ _ _ _ Hca).
Qed.

(** The agent polls in a world with the tables of [restarting]: the start has
    the new route added. *)
Context (v : World).
Hypothesis Hdb : w_db v = w_db restarting.
Hypothesis Hfaults : w_faults v = [].
#[local] Abbreviation revived := (revived_at d id n row w later cid port v).

Lemma revived_batcher :
  w_batcher revived = (Enqueue defaultMaxBuf (add_change (started_route id row nd port)) (w_batcher v)).1 /\
  w_peers revived = w_peers v.
Proof.
  unfold revived_at, acked_world, announce. rewrite Hroutes, bool_decide_eq_true_2 by done.
  destruct (reread_started (w_now (fetched n (set_now later v)))) as (Hn & Hpt & Happ).
  change (ack_result _ _) with (ak_Result (start_ack cid port)).
  rewrite Hn, Hpt, Happ. change (nodes (w_db (fetched _ _)) !! n) with (nodes (w_db v) !! n).
  rewrite Hdb. change (nodes (w_db restarting)) with (nodes (w_db w)). rewrite Hnode.
  unfold call_notify, notify, route_change. rewrite upstream_not_empty.
  change (mkChange "add" _ "") with (add_change (started_route id row nd port)).
  cbn [w_batcher fetched set_now set_db]. by destruct (Enqueue _ _ _) as [b o].
Qed.

(** Nothing fails in it, and the application runs. *)
Lemma revived_runs : w_faults revived = [] /\ is_Some (pg_map (w_db revived) !! sb_AppName row).
Proof.
  destruct (restarting_facts d id n row ty payload w Hca Hty) as (_ & _ & Hwf & Hal & Hs).
  rewrite <- Hdb in Hwf, Hal, Hs.
  pose proof (ca_roomy _ _ _ _ _ Hca) as [_ Hroom].
  pose proof (ca_row _ _ _ _ _ Hca) as [Hid _]%(wf_sandboxes _ (ca_wf _ _ _ _ _ Hca)).
  assert (db_wf (w_db revived)) as Hwf'.
  { apply (after_wf d n (set_now later v) (restart_order n row w) id (restarting_row row w)); try done.
    simpl. by rewrite Hid. }
  split.
  { unfold revived_at. by rewrite (proj1 (after_keeps d n (set_now later v) _ id _ _ _ _)). }
  set (row' := ack_final ls EventStarted StateRunning (ak_Result (start_ack cid port)) later
    (in_state StateRunning later (restarting_row row w))).
  assert (sb_ID row' = id /\ sb_State row' = StateRunning /\ sb_AppName row' = sb_AppName row) as (Hi & Hst & Happ).
  { unfold row', ack_final, reset_row, runtime_row. by repeat case_match. }
  exists row'. apply pg_map_Some; [done|]. split; [|done]. apply find_by_app_Some; [done|].
  rewrite Hi. split; [apply after_row|done].
Qed.
End Restarted.

(** ** Properties *)

(** C40: A restart that is faster than the debounce misroutes: when a crashed
    sandbox runs again before the batcher's timer fires, the removal of its
    route and the addition of the new one share a batch in which only the
    addition is left; the proxy, which still holds the old route, refuses it,
    so nothing changes there, and the drift detector, which compares
    applications only, leaves the old route as well: the traffic keeps going to
    the old port. *)
Theorem quick_restart_misroutes `{External, MapOrder, ClientTexts, AgentTexts} d zone ticks c h p host w row id
    node later token e k ev port cid nd old cc `{!CaddyServer cc} :
  uuid_laws -> zone_ok zone -> linked c h p -> cc_apiToken c = dp_apiToken d -> dp_apiToken d <> "" ->
  crashing (dp_lifecycle d) id node row w -> plain_year zone (w_now w / second) ->
  crash_type (se_EventType ev) -> tracks_alone e (uuid_String id) (se_AppName ev) ->
  reviving_host host e (uuid_String id) row ((w_now w / second + restart_timeout row) * nanoseconds) port cid ->
  ls_routeNotifier (dp_lifecycle d) = true -> w_batcher w = NewBatcher -> nodes (w_db w) !! node = Some nd ->
  Forall (fun x => rt_AppName x <> "") (w_held cc w) ->
  old ∈ w_held cc w -> rt_AppName old = sb_AppName row ->
  let '(_, s1) := performs d zone ticks (forwardEvent c k e ev) (mkSite (uuid_String node) token w) in
  let '(_, s2) := turns d zone ticks host (poll_turn c e) (in_world (set_now later (ct_world s1)) s1) in
  w_batcher (ct_world s2) = adding (started_route id row nd port) /\
  let w' := one_by_one cc [BTimer] (ct_world s2) in
  w_held cc w' = w_held cc w /\
  routes_for (sb_AppName row) (w_held cc (exec (detect cc) w').2) = [old].
Proof.
  intros Hu Hz Hl Ht Hne Hca Hy Hty Htr Hhost Hrn Hb Hnd Hheld Hold Happ.
  set (s := mkSite (uuid_String node) token w).
  assert (connected d c h p s node) as Hco by (split; try done; apply Hu).
  set (report := event_report (uuid_String id) ev).
  rewrite (crash_reported d id node row (er_EventType report) (er_Payload report) w zone ticks c h p s e k ev) by done.
  change (in_world (set_now later _) _) with
    (in_world (set_now later (restarting_world (dp_lifecycle d) row node node (er_EventType report) (er_Payload report) w)) s).
  rewrite (turn_revives d id node row (er_EventType report) (er_Payload report) w zone ticks c h p host s e later
    cid port) by done.
  pose proof Hhost as [_ _ Hrange _ Hcid].
  set (ty := er_EventType report) in *. set (payload := er_Payload report) in *.
  destruct (restarting_facts d id node row ty payload w Hca Hty) as (_ & Hf & _).
  destruct (restarting_batcher d node row ty payload w Hrn Hb) as [Hb1 Hp1].
  set (w1 := restarting_world _ _ _ _ _ _ _) in *.
  destruct (revived_batcher d id node row ty payload w nd later cid port Hrn Hnd Hca Hcid Hrange w1 eq_refl)
    as [Hb2 Hp2].
  destruct (revived_runs d id node row ty payload w later cid port Hca Hty w1 eq_refl Hf) as [Hf2 Hrun].
  change (ct_world (in_world ?x _)) with x.
  change (revived_world _ _ _ _ _ _ _ _ _ _) with (revived_at d id node row w later cid port w1).
  set (w2 := revived_at _ _ _ _ _ _ _ _ _) in *.
  rewrite Hb1, (enqueue_over _ (sb_AppName row) (remove_change (sb_AppName row))) in Hb2 by done.
  split; [exact Hb2|].
  destruct (added_held cc w2 (started_route id row nd port) Hb2) as (Hh & Hdb & Hfl).
  apply (refused_keeps cc w _ old (started_route id row nd port)); [| |done..|].
  - rewrite Hh. unfold w_held. by rewrite Hp2, Hp1.
  - by rewrite Hfl.
  - by rewrite Hdb.
Qed.

(** The demo cluster with a Caddy. *)
Definition routed_cluster : External := {|
  uuid_New := @uuid_New demo_cluster;
  uuid_String := @uuid_String demo_cluster;
  uuid_Parse := @uuid_Parse demo_cluster;
  random_bytes := @random_bytes demo_cluster;
  pg_text := @pg_text demo_cluster;
  peers := list Route;
  peer_http := demo_caddy_http;
|}.

#[refine] Definition routed_caddy : @CaddyServer routed_cluster Caddy.demo_client := {|
  held := fun p : @peers routed_cluster => distinct p |}.
Proof.
  - apply distinct_unique.
  - intros p. reflexivity.
  - apply demo_post_new.
  - apply demo_post_taken.
  - apply demo_deleted.
Defined.

(** C24: A restart that is slower than the debounce reroutes: when the batcher's
    timer fires after the crash was reported and again after the sandbox runs,
    and its calls go through, the proxy ends with one route for the application:
    to the new port of the node the sandbox runs on, with its id. *)
Theorem slow_restart_reroutes `{External, ClientTexts, AgentTexts} d zone ticks c h p host w row id
    node later token e k ev port cid nd cc `{!CaddyServer cc} :
  uuid_laws -> zone_ok zone -> linked c h p -> cc_apiToken c = dp_apiToken d -> dp_apiToken d <> "" ->
  crashing (dp_lifecycle d) id node row w -> plain_year zone (w_now w / second) ->
  crash_type (se_EventType ev) -> tracks_alone e (uuid_String id) (se_AppName ev) ->
  reviving_host host e (uuid_String id) row ((w_now w / second + restart_timeout row) * nanoseconds) port cid ->
  ls_routeNotifier (dp_lifecycle d) = true -> w_batcher w = NewBatcher -> nodes (w_db w) !! node = Some nd ->
  let '(_, s1) := performs d zone ticks (forwardEvent c k e ev) (mkSite (uuid_String node) token w) in
  let w1 := one_by_one cc [BTimer] (ct_world s1) in
  let '(_, s2) := turns d zone ticks host (poll_turn c e) (in_world (set_now later w1) s1) in
  let w2 := one_by_one cc [BTimer] (ct_world s2) in
  routes_for (sb_AppName row) (w_held cc w1) = [] /\
  routes_for (sb_AppName row) (w_held cc w2) = [started_route id row nd port] /\
  (forall app, app <> sb_AppName row -> routes_for app (w_held cc w2) = routes_for app (w_held cc w)).
Proof.
  intros Hu Hz Hl Ht Hne Hca Hy Hty Htr Hhost Hrn Hb Hnd. set (s := mkSite (uuid_String node) token w).
  assert (connected d c h p s node) as Hco by (split; try done; apply Hu).
  set (report := event_report (uuid_String id) ev).
  rewrite (crash_reported d id node row (er_EventType report) (er_Payload report) w zone ticks c h p s e k ev) by done.
  pose proof Hhost as [_ _ Hrange _ Hcid].
  set (ty := er_EventType report) in *. set (payload := er_Payload report) in *.
  destruct (restarting_facts d id node row ty payload w Hca Hty) as (_ & Hf & _).
  destruct (restarting_batcher d node row ty payload w Hrn Hb) as [Hb0 Hp0].
  change (ct_world (in_world ?x _)) with x. cbv zeta.
  destruct (removed_held cc _ _ Hb0) as (Hh1 & Hdb1 & Hfl1 & Hb1).
  set (w1 := one_by_one cc [BTimer] (restarting_world _ _ _ _ _ _ _)) in *. rewrite Hf in Hfl1.
  change (in_world (set_now later w1) _) with (in_world (set_now later w1) s).
  rewrite (turn_revives_at d id node row ty payload w zone ticks c h p host s e later cid port w1) by done.
  destruct (revived_batcher d id node row ty payload w nd later cid port Hrn Hnd Hca Hcid Hrange w1 Hdb1)
    as [Hb2 Hp2].
  rewrite Hb1, enqueue_lone in Hb2 by done.
  change (ct_world (in_world ?x _)) with x. set (w2 := revived_at _ _ _ _ _ _ _ _ _) in *.
  destruct (added_held cc w2 (started_route id row nd port) Hb2) as (Hh & _ & _).
  unfold w_held in Hh, Hh1 |- *. rewrite Hp2, Hh1, Hp0 in Hh.
  rewrite post_route_new in Hh.
  2: { intros (x & Hx & [Hno _]%list_elem_of_filter)%list_elem_of_fmap. by apply Hno. }
  rewrite Hh, Hh1, Hp0. split; [apply routes_removed|].
  exact (routes_replaced (started_route id row nd port) (held (w_peers w))).
Qed.

(** The demo sandbox runs on port 40000, which the proxy has a route to. *)
Definition demo_old : Route := mkRoute "my-app" "7" "100.64.1.5:40000".
Definition demo_routed : @World routed_cluster :=
  @mkWorld routed_cluster (demo_db StateRunning 2) 100 0 [] NewBatcher [] [demo_old].
Definition demo_oom : SandboxEvent := mkSandboxEvent "my-app" "c0ffee" "container_oom" "" 0 true.
Definition demo_agent : CommandExecutor :=
  mkExecutor (NewAllocator 40001 40002) "/srv" {["7" := mkInfo "c0ffee" 40000 "my-app"]}.

Lemma demo_crashing : @crashing routed_cluster (mkService true true) 7 1 (demo_sandbox StateRunning 2) demo_routed.
Proof.
  split; try reflexivity; [by apply demo_db_wf, in_states|vm_compute; repeat split; discriminate|].
  by apply quiet_pending.
Qed.

Lemma demo_tracks : tracks_alone demo_agent "7" "my-app".
Proof.
  split; [by eexists|]. intros i x Hi _.
  change (({["7" := mkInfo "c0ffee" 40000 "my-app"]} : gmap string sandboxInfo) !! i = Some x) in Hi.
  by apply lookup_singleton_Some in Hi as [<- _].
Qed.

(** It comes back on 40001 at once; the proxy has the route to 40000. *)
Lemma quick_restart_misroutes_witness :
  let '(_, s1) := @performs routed_cluster demo_deployment 0 [] _
    (@forwardEvent demo_client_texts demo_client_config 0 demo_agent demo_oom) (@mkSite routed_cluster "1" "" demo_routed) in
  let '(_, s2) := @turns routed_cluster demo_deployment 0 [] demo_host _
    (@poll_turn demo_client_texts demo_client_config demo_texts demo_agent)
    (in_world (set_now 9000000 (ct_world s1)) s1) in
  let w' := @one_by_one routed_cluster Caddy.demo_client [BTimer] (ct_world s2) in
  routes_for "my-app" (@w_held routed_cluster Caddy.demo_client routed_caddy
    (@exec routed_cluster _ (@detect routed_cluster demo_order Caddy.demo_client) w').2) =
    [demo_old].
Proof.
  pose proof (@quick_restart_misroutes routed_cluster demo_order demo_client_texts demo_texts demo_deployment 0 []
    demo_client_config "10.0.0.1" "8080" demo_host demo_routed (demo_sandbox StateRunning 2) 7 1 9000000 ""
    demo_agent 0 demo_oom 40001 "c0ffee" demo_node demo_old Caddy.demo_client routed_caddy demo_cluster_laws) as Hrun.
  change (@uuid_String routed_cluster 1%N) with "1" in Hrun.
  destruct (performs _ _ _ _ _) as [r s1]. destruct (turns _ _ _ _ _ _) as [e' s2].
  apply Hrun; try reflexivity.
  - by split.
  - apply demo_linked.
  - discriminate.
  - apply demo_crashing.
  - vm_compute. split; [discriminate|reflexivity].
  - by right.
  - apply demo_tracks.
  - by split.
  - repeat constructor. discriminate.
  - left.
Defined.

(** With a timer in between, the new route alone. *)
Lemma slow_restart_reroutes_witness :
  let '(_, s1) := @performs routed_cluster demo_deployment 0 [] _
    (@forwardEvent demo_client_texts demo_client_config 0 demo_agent demo_oom) (@mkSite routed_cluster "1" "" demo_routed) in
  let w1 := @one_by_one routed_cluster Caddy.demo_client [BTimer] (ct_world s1) in
  let '(_, s2) := @turns routed_cluster demo_deployment 0 [] demo_host _
    (@poll_turn demo_client_texts demo_client_config demo_texts demo_agent)
    (in_world (set_now 9000000 w1) s1) in
  let w2 := @one_by_one routed_cluster Caddy.demo_client [BTimer] (ct_world s2) in
  routes_for "my-app" (@w_held routed_cluster Caddy.demo_client routed_caddy w2) =
    [mkRoute "my-app" "7" "100.64.1.5:40001"].
Proof.
  pose proof (@slow_restart_reroutes routed_cluster demo_client_texts demo_texts demo_deployment 0 []
    demo_client_config "10.0.0.1" "8080" demo_host demo_routed (demo_sandbox StateRunning 2) 7 1 9000000 ""
    demo_agent 0 demo_oom 40001 "c0ffee" demo_node Caddy.demo_client routed_caddy demo_cluster_laws) as Hrun.
  change (@uuid_String routed_cluster 1%N) with "1" in Hrun.
  destruct (performs _ _ _ _ _) as [r s1]. cbv zeta in Hrun |- *. destruct (turns _ _ _ _ _ _) as [e' s2].
  apply Hrun; try reflexivity.
  - by split.
  - apply demo_linked.
  - discriminate.
  - apply demo_crashing.
  - vm_compute. split; [discriminate|reflexivity].
  - by right.
  - apply demo_tracks.
  - by split.
Defined.
