(* ===== verification/CrashLoop.v ===== *)
(** A container that crashes again and again: every round of Recovery.v brings
    the sandbox back with its failures cleared and one host port fewer, so the
    attempts are never used up and the node's ports are. *)

From S2P Require Import Prelude Time Netip Hmac Url UrlFacts Json Models Scheduler Store StoreFacts.
From S2P Require Import Routing Effects StoreRuns Restart Lifecycle LifecycleMoves CreateFacts AckFacts EventFacts.
From S2P Require Import Interleave Reconciler Adapters.
From S2P Require Import Api Responses Register Push PushFacts Ports Executor ExecutorFacts Wire.
From S2P Require Import AgentClient ClientFacts Watcher AgentHttp DockerClient AgentLoops System.
From S2P Require Import Router Cluster EndToEnd Turns RequestFacts Startup Teardown Recovery.

(** ** Rounds *)

(** A crash at [cr_time], and the poll at [cr_poll] in which the agent's host
    creates the container [cr_cid] on [cr_port]. *)
Record round := mkRound {
  cr_event : SandboxEvent;
  cr_time : Z;
  cr_poll : Z;
  cr_host : forall X, agentE X -> X;
  cr_port : Z;
  cr_cid : string;
}.

Section Loop.
Context `{External, ClientTexts, AgentTexts} (d : Deployment) (zone : Z) (ticks : list bool).
Context (c : ClientConfig) (k : nat) (id n : uuid).
#[local] Abbreviation ls := (dp_lifecycle d).

(** The report of the crash, then the turn that runs the restart. *)
Definition run_round (r : round) (st : CommandExecutor * site) : CommandExecutor * site :=
  let '(e, s) := st in
  let '(_, s1) := performs d zone ticks (forwardEvent c k e (cr_event r)) (in_world (set_now (cr_time r) (ct_world s)) s) in
  turns d zone ticks (cr_host r) (poll_turn c e) (in_world (set_now (cr_poll r) (ct_world s1)) s1).

(** The event is a crash of the application [row] runs, and the host can start
    it again in time. *)
Record round_ok (r : round) (e : CommandExecutor) (row : Sandbox) : Prop := {
  ro_type : crash_type (se_EventType (cr_event r));
  ro_app : se_AppName (cr_event r) = sb_AppName row;
  ro_year : plain_year zone (cr_time r / second);
  ro_host : reviving_host (cr_host r) e (uuid_String id) row
    ((cr_time r / second + restart_timeout row) * nanoseconds) (cr_port r) (cr_cid r);
}.

(** The sandbox runs on the node, is alone there with its application, and its
    row can take [rounds] more crashes (each writes its version three times). *)
Record endures (rounds : nat) (row : Sandbox) (e : CommandExecutor) (w : World) : Prop := mk_endures {
  en_faults : w_faults w = [];
  en_wf : db_wf (w_db w);
  en_row : sandboxes (w_db w) !! id = Some row;
  en_version : 0 <= sb_StateVersion row /\ sb_StateVersion row + 3 * Z.of_nat rounds <= max_int32 - 4;
  en_count : 0 <= sb_FailureCount row < maxRestartAttempts;
  en_state : sb_State row = StateRunning;
  en_node : sb_NodeID row = Some n;
  en_fresh : forall m, (w_rng w <= m)%nat -> commands (w_db w) !! uuid_New m = None;
  en_quiet : quiet (w_db w) n;
  en_tracks : tracks_alone e (uuid_String id) (sb_AppName row);
}.

Lemma endures_crashing rounds row e w t :
  ls_restartMgr ls = true -> endures (S rounds) row e w -> crashing ls id n row (set_now t w).
Proof.
  intros Hm [Hf Hwf Hs Hv Hc Hst Hn Hfr Hq _]. unfold maxRestartAttempts in Hc. split; try done.
  - unfold roomy, crashed_row. simpl. unfold max_int32 in *. lia.
  - by apply Hfr.
  - apply Hc.
Qed.

(** The row when it runs again. *)
Definition back_row (r : round) (row : Sandbox) (w : World) : Sandbox :=
  ack_final ls EventStarted StateRunning (ak_Result (start_ack (cr_cid r) (cr_port r))) (cr_poll r)
    (in_state StateRunning (cr_poll r) (restarting_row row w)).

Lemma back_row_keeps r row w :
  sb_AppName (back_row r row w) = sb_AppName row /\
  sb_StateVersion (back_row r row w) = sb_StateVersion row + 3.
Proof.
  unfold back_row, ack_final. rewrite (proj2 (proj2 (reset_row_keeps _ _ _ _))).
  rewrite (proj1 (proj2 (proj2 (proj2 (runtime_row_keeps _ _ _ _))))). split; [|simpl; lia].
  unfold reset_row, runtime_row. by repeat case_match.
Qed.

Lemma tracks_again e app cid port a :
  tracks_alone e (uuid_String id) app ->
  tracks_alone (track (uuid_String id) (mkInfo cid port app) (with_ports a e)) (uuid_String id) app.
Proof.
  intros [_ Hone]. split; [eexists; split; [apply lookup_insert_eq|done]|].
  intros i info Hi Ha. simpl in Hi. apply lookup_insert_Some in Hi as [[<- _]|[_ Hi]]; [done|].
  by apply (Hone i info).
Qed.

(** What a round leaves of the executor. *)
Definition back_executor (r : round) (row : Sandbox) (e : CommandExecutor) : CommandExecutor :=
  track (uuid_String id) (mkInfo (cr_cid r) (cr_port r) (sb_AppName row))
    (with_ports (take_port (cr_port r) (ex_ports e)) e).

(** The world after it. *)
Lemma revived_endures rounds r row e w ty payload :
  Inj (=) (=) uuid_New -> ls_restartMgr ls = true ->
  endures (S rounds) row e w -> crash_type ty -> cr_cid r <> "" -> 1 <= cr_port r <= 65535 ->
  let w0 := set_now (cr_time r) w in
  endures rounds (back_row r row w0) (back_executor r row e)
    (revived_world d id n row ty payload w0 (cr_poll r) (cr_cid r) (cr_port r)) /\
  sb_FailureCount (back_row r row w0) = 0.
Proof.
  intros Hinj Hmgr Hen Hty Hcid Hport w0.
  pose proof (endures_crashing rounds row e w (cr_time r) Hmgr Hen) as Hca. fold w0 in Hca.
  destruct (restarting_facts d id n row ty payload w0 Hca Hty) as (_ & Hf & Hwf & Hal & Hs).
  pose proof (ca_roomy _ _ _ _ _ Hca) as [_ Hroom].
  pose proof (ca_row _ _ _ _ _ Hca) as [Hid _]%(wf_sandboxes _ (ca_wf _ _ _ _ _ Hca)).
  destruct (revived_row d id n row ty payload w0 (cr_poll r) (cr_cid r) (cr_port r) Hca Hcid Hport)
    as (row' & Hrow & (Hst & Hn & _) & Hfc).
  set (w1 := set_now (cr_poll r) (restarting_world ls row n n ty payload w0)) in *.
  pose proof (after_row d n w1 (restart_order n row w0) id (restarting_row row w0)
    (start_ack (cr_cid r) (cr_port r)) EventStarted StateRunning) as Hrow'.
  fold (back_row r row w0) in Hrow'. unfold revived_world, revived_at in Hrow |- *. fold w1 in Hrow |- *.
  change (w_now w1) with (cr_poll r) in Hrow'.
  rewrite Hrow' in Hrow. injection Hrow as <-.
  destruct (back_row_keeps r row w0) as [Happ Hver]. destruct (after_keeps d n w1 (restart_order n row w0) id
    (restarting_row row w0) (start_ack (cr_cid r) (cr_port r)) EventStarted StateRunning) as (Hf' & Hrng & _ & _).
  change (w_now w1) with (cr_poll r) in Hf', Hrng.
  assert (w_rng w1 = S (w_rng w)) as Hrng1 by exact (f_equal S (proj2 (proj2 (proj2 (unroute_keeps ls row w0))))).
  destruct (en_version _ _ _ _ Hen) as [Hv Hvk].
  split; [|done]. split; try done.
  - by rewrite Hf'.
  - apply (after_wf d n w1 (restart_order n row w0)); try done. simpl. by rewrite Hid.
  - rewrite Hver. split; [lia|]. rewrite Nat2Z.inj_succ in Hvk. lia.
  - assert (sb_FailureCount (back_row r row w0) = 0) as -> by exact Hfc. by unfold maxRestartAttempts.
  - intros m Hm. rewrite Hrng, Hrng1 in Hm.
    change (cr_poll r) with (w_now w1) at 1. rewrite (after_commands d n w1 (restart_order n row w0)) by done.
    rewrite lookup_insert_ne; [|intros Heq%Hinj; change (w_rng w0) with (w_rng w) in Heq; lia].
    change (commands (w_db w1)) with (<[uuid_New (w_rng w) := restart_order n row w0]> (commands (w_db w))).
    rewrite lookup_insert_ne by (intros Heq%Hinj; lia). apply (en_fresh _ _ _ _ Hen). lia.
  - by apply (after_quiet d n w1 (restart_order n row w0)).
  - rewrite Happ. apply tracks_again, Hen.
Qed.

(** A round in which the sandbox comes back, with room for one crash less. *)
Lemma round_endures rounds r row e s h p :
  uuid_laws -> Inj (=) (=) uuid_New -> zone_ok zone -> connected d c h p s n -> ls_restartMgr ls = true ->
  endures (S rounds) row e (ct_world s) -> round_ok r e row ->
  exists w', run_round r (e, s) = (back_executor r row e, in_world w' s) /\
    endures rounds (back_row r row (set_now (cr_time r) (ct_world s))) (back_executor r row e) w' /\
    sb_FailureCount (back_row r row (set_now (cr_time r) (ct_world s))) = 0.
Proof.
  intros Hu Hinj Hz Hco Hmgr Hen [Hty Happ Hy Hhost].
  set (w := set_now (cr_time r) (ct_world s)). set (s0 := in_world w s).
  pose proof (endures_crashing rounds row e _ (cr_time r) Hmgr Hen) as Hca. fold w in Hca.
  assert (connected d c h p s0 n) as Hco0 by (by destruct Hco; split).
  pose proof (en_tracks _ _ _ _ Hen) as Htr. rewrite <- Happ in Htr.
  set (report := event_report (uuid_String id) (cr_event r)).
  unfold run_round. fold w s0.
  rewrite (crash_reported d id n row (er_EventType report) (er_Payload report) w zone ticks c h p s0 e k (cr_event r))
    by done.
  set (w1 := restarting_world _ _ _ _ _ _ _). change (ct_world (in_world w1 s0)) with w1.
  rewrite (turn_revives d id n row (er_EventType report) (er_Payload report) w zone ticks c h p (cr_host r)
    s0 e (cr_poll r) (cr_cid r) (cr_port r)) by done.
  pose proof Hhost as [_ _ Hrange _ Hcid].
  exists (revived_world d id n row (er_EventType report) (er_Payload report) w (cr_poll r) (cr_cid r) (cr_port r)).
  split; [done|]. by eapply revived_endures.
Qed.

(** Rounds one after another, each of which the host can serve. *)
Inductive crash_rounds : list round -> CommandExecutor * site -> CommandExecutor * site -> Prop :=
| rounds_end st : crash_rounds [] st st
| rounds_next r rs e s row st :
    sandboxes (w_db (ct_world s)) !! id = Some row -> round_ok r e row ->
    crash_rounds rs (run_round r (e, s)) st -> crash_rounds (r :: rs) (e, s) st.

(** A port that is taken is one fewer. *)
Lemma take_port_size m port a : first_key m (available a) = Some port ->
  S (size (available (take_port port a))) = size (available a).
Proof.
  intros Hp%first_key_in. simpl.
  rewrite size_difference, size_singleton by set_solver.
  assert (size (available a) <> 0%nat); [|lia].
  intros He%size_empty_inv. by apply He in Hp.
Qed.

Lemma rounds_endure rs e s st h p row :
  uuid_laws -> Inj (=) (=) uuid_New -> zone_ok zone -> connected d c h p s n -> ls_restartMgr ls = true ->
  crash_rounds rs (e, s) st -> endures (length rs) row e (ct_world s) ->
  exists row', endures 0 row' st.1 (ct_world st.2) /\ (rs <> [] \/ sb_FailureCount row = 0 -> sb_FailureCount row' = 0) /\
    (size (available (ex_ports st.1)) + length rs = size (available (ex_ports e)))%nat.
Proof.
  intros Hu Hinj Hz Hco Hmgr Hr. revert row Hco. remember (e, s) as st0 eqn:Hst. revert e s Hst.
  induction Hr as [st0|r rs e0 s0 row0 st Hrow Hok _ IH]; intros e s Hst row Hco Hen.
  { subst st0. exists row. simpl. split; [done|]. split; [by intros [?|?]|lia]. }
  injection Hst as -> ->. assert (row0 = row) as -> by (pose proof (en_row _ _ _ _ Hen); congruence).
  destruct (round_endures (length rs) r row e s h p) as (w' & Hrun & Hen' & Hfc); [done..|].
  destruct (IH _ _ Hrun (back_row r row (set_now (cr_time r) (ct_world s)))) as (row' & Hend & Hz' & Hsize);
    [by destruct Hco|exact Hen'|].
  exists row'. split; [done|]. split; [by intros _; apply Hz'; right|].
  pose proof (take_port_size _ _ _ (rv_port _ _ _ _ _ _ _ (ro_host _ _ _ Hok))) as Hp.
  unfold back_executor in Hsize. simpl in Hsize, Hp |- *. lia.
Qed.
End Loop.

(** ** Properties *)

(** C31: A crash loop never ends and drains the node: however many times the
    container of a running sandbox crashes, each time with a host that can start
    it again in time, the sandbox runs again with its count of failures at zero,
    so the three attempts are never used up; and every crash takes one host port
    that is not given back, until after as many crashes as there were free ports
    no sandbox can be started on the node. *)
Theorem crash_loop_drains `{External, ClientTexts, AgentTexts} d zone ticks c k id n h p rs e s st row :
  uuid_laws -> Inj (=) (=) uuid_New -> zone_ok zone -> connected d c h p s n ->
  ls_restartMgr (dp_lifecycle d) = true -> endures id n (length rs) row e (ct_world s) ->
  crash_rounds d zone ticks c k id rs (e, s) st ->
  (exists row', sandboxes (w_db (ct_world st.2)) !! id = Some row' /\ sb_State row' = StateRunning /\
     sb_NodeID row' = Some n /\ (rs <> [] -> sb_FailureCount row' = 0)) /\
  (size (available (ex_ports st.1)) + length rs = size (available (ex_ports e)))%nat /\
  (length rs = size (available (ex_ports e)) ->
     forall m, exists err, (Allocate m (ex_ports st.1)).1 = Err err).
Proof.
  intros Hu Hinj Hz Hco Hmgr Hen Hr.
  destruct (rounds_endure d zone ticks c k id n rs e s st h p row) as (row' & [_ _ Hrow _ _ Hst Hn _ _ _] & Hfc & Hs);
    [done..|].
  split; [by exists row'; split_and!; auto|]. split; [done|]. intros Hall m.
  assert (available (ex_ports st.1) = ∅) as He by (apply leibniz_equiv, size_empty_inv; lia).
  unfold Allocate. rewrite He. by eexists.
Qed.

(** One port, one crash. *)
Lemma crash_loop_drains_witness :
  let s := @mkSite demo_cluster "1" "" (demo_cluster_world (demo_db StateRunning 2)) in
  let ev := mkSandboxEvent "my-app" "c0ffee" "container_oom" "" 0 true in
  let e := mkExecutor (NewAllocator 40001 40001) "/srv" {["7" := mkInfo "c0ffee" 40000 "my-app"]} in
  let r := mkRound ev 100 9000000 demo_host 40001 "c0ffee" in
  let st := @run_round demo_cluster demo_client_texts demo_texts demo_deployment 0 [] demo_client_config 0 r (e, s) in
  (sb_FailureCount <$> sandboxes (w_db (ct_world st.2)) !! 7%N) = Some 0 /\
  exists err, (Allocate 0 (ex_ports st.1)).1 = Err err.
Proof.
  intros s ev e r st.
  pose proof (@crash_loop_drains demo_cluster demo_client_texts demo_texts demo_deployment 0 [] demo_client_config 0
    7 1 "10.0.0.1" "8080" [r] e s st (demo_sandbox StateRunning 2) demo_cluster_laws) as Hloop.
  destruct Hloop as [(row' & Hrow & _ & _ & Hfc) [_ Hall]].
  - intros i j Hij. cbn [uuid_New demo_cluster] in Hij. lia.
  - by split.
  - split; [apply demo_linked|reflexivity|discriminate|by split|reflexivity].
  - reflexivity.
  - split; try reflexivity.
    + by apply demo_db_wf, in_states.
    + vm_compute. split; discriminate.
    + vm_compute. split; [discriminate|reflexivity].
    + by apply quiet_pending.
    + split; [by eexists|]. intros i x Hi _.
      change (({["7" := mkInfo "c0ffee" 40000 "my-app"]} : gmap string sandboxInfo) !! i = Some x) in Hi.
      by apply lookup_singleton_Some in Hi as [<- _].
  - eapply rounds_next; [reflexivity| |apply rounds_end]. split; [by right|reflexivity| |by split].
    vm_compute. split; [discriminate|reflexivity].
  - rewrite Hrow. split; [exact (f_equal Some (Hfc ltac:(discriminate)))|]. apply Hall. reflexivity.
Defined.
