(* ===== verification/Failover.v ===== *)
(** From a silent node to a sandbox that runs on another: the tick of the
    heartbeat monitor, the rescheduler, the poll of the new node's agent, the
    executor's run of the start and the acknowledgment. *)

From S2P Require Import Prelude Time Netip Hmac Url UrlFacts Json Models Scheduler Store StoreFacts.
From S2P Require Import Routing Effects StoreRuns Sweep Restart Lifecycle LifecycleMoves CreateFacts AckFacts RequestFacts.
From S2P Require Import Reschedule Interleave Reconciler Adapters.
From S2P Require Import Api Responses Register Push PushFacts Ports Executor ExecutorFacts Wire.
From S2P Require Import AgentClient ClientFacts Watcher AgentHttp DockerClient AgentLoops System.
From S2P Require Import Router Cluster EndToEnd Turns Startup Teardown.

(** ** The monitor's tick *)

(** The database with node [nd] marked. *)
Definition marked_db (nd : Node) (db : DB) : DB := put_node (with_status NodeUnhealthy nd) db.

Lemma marked_wf nd n db : db_wf db -> nodes db !! n = Some nd -> db_wf (marked_db nd db).
Proof.
  intros Hwf Hn. eapply db_step_wf; [exact Hwf|].
  pose proof (does_UpdateNodeStatus (Some n) NodeUnhealthy 0 db Hwf) as Hd.
  by rewrite (run_UpdateNodeStatus n NodeUnhealthy _ _ nd) in Hd.
Qed.

(** One node is silent, with one sandbox running on it, and there is a place
    for it on node [target], which has no command waiting. *)
Record failing `{External} (cfg : MonitorConfig) (id n target : uuid) (row : Sandbox) (nd : Node) (w : World)
  : Prop := mk_failing {
  fl_faults : w_faults w = [];
  fl_wf : db_wf (w_db w);
  fl_uuids : Inj (=) (=) uuid_New;
  fl_fresh : fresh_from (w_rng w) (commands (w_db w));
  fl_node : nodes (w_db w) !! n = Some nd;
  fl_silent : silent cfg (w_now w) nd = true;
  fl_others : forall m x, nodes (w_db w) !! m = Some x -> m <> n -> silent cfg (w_now w) x = false;
  fl_row : sandboxes (w_db w) !! id = Some row;
  fl_roomy : roomy row;
  fl_running : running_on n row;
  fl_lone : forall i s, sandboxes (w_db w) !! i = Some s -> running_on n s -> i = id;
  fl_memory : memory_ok (marked_db nd (w_db w)) = true;
  fl_chosen : chosen_node (marked_db nd (w_db w)) (required_mb row) = Ok target;
  fl_quiet : quiet (w_db w) target;
}.

Section Tick.
Context `{External} (cfg : MonitorConfig) (id n target : uuid) (row : Sandbox) (nd : Node) (w : World).

(** The row and the command of the move. *)
Definition moving_row : Sandbox := assigned_to target (w_now w) (reset_pending (w_now w) row).

Definition moving_command : Store.Command :=
  command_row (failover_command row (uuid_New (w_rng w)) target) target (w_now w).

(** What the tick leaves. *)
Record moved (w' : World) : Prop := mk_moved {
  mv_faults : w_faults w' = [];
  mv_nodes : nodes (w_db w') = <[n := with_status NodeUnhealthy nd]> (nodes (w_db w));
  mv_sandboxes : sandboxes (w_db w') = <[id := moving_row]> (sandboxes (w_db w));
  mv_commands : commands (w_db w') = <[cmd_ID moving_command := moving_command]> (commands (w_db w));
}.

Lemma stranded_lone : failing cfg id n target row nd w -> stranded n (w_db w) = [row].
Proof.
  intros Hfl. eapply selection_lone; [apply Hfl|apply (fl_row _ _ _ _ _ _ _ Hfl)|apply Hfl..].
Qed.

Lemma reschedule_lone : failing cfg id n target row nd w ->
  ctl_wp (RescheduleNode true n) (fun _ w' => moved w') (set_db (marked_db nd (w_db w)) w).
Proof.
  intros Hfl. pose proof (stranded_lone Hfl) as Hl.
  destruct Hfl as [Hf Hwf Hinj Hfr Hn Hsil Hoth Hs Hroom Hon _ Hmem Hch Hq].
  pose proof (so_key _ _ _ (wf_sandboxes _ Hwf _ _ Hs)) as Hid.
  destruct (wf_nodes _ Hwf _ _ Hn) as [Hnid _].
  set (w1 := set_db (marked_db nd (w_db w)) w).
  assert (db_wf (w_db w1)) as Hwf1 by by apply (marked_wf _ n).
  unfold RescheduleNode. step_with (eq_refl (ListRunningSandboxesByNode (Some n) (w_now w1) (w_db w1))).
  change (order_by _ _) with (stranded n (w_db w)). rewrite Hl, set_db_same.
  apply ctl_wp_bind. cbn [range]. unfold reschedule_next at 1. apply ctl_wp_bind, ctl_wp_bind.
  eapply ctl_wp_mono; [|apply (reschedule_runs true (w_db w1) (w_now w) w1 row); try done].
  - change (w_db w1) with (marked_db nd (w_db w)).
    intros r w' (_ & [Hf' Hnow' Hn' _] & _ & Hs' & Hc'). apply ctl_wp_ret, ctl_wp_ret, ctl_wp_ret.
    split; [done| | |].
    + rewrite Hn'. simpl. by rewrite Hnid.
    + rewrite Hs', Hid. unfold moved_row. by rewrite Hch.
    + rewrite Hc'. unfold moved_commands. by rewrite Hch.
  - by apply row_in_wf; rewrite ?Hid.
  - apply Hon.
Qed.

(** The monitor marks the node and moves its sandbox. *)
Lemma monitor_moves : failing cfg id n target row nd w ->
  ctl_wp (monitor_tick cfg) (fun _ w' => moved w') w.
Proof.
  intros Hfl. pose proof (reschedule_lone Hfl) as Hre.
  destruct Hfl as [Hf Hwf _ _ Hn Hsil Hoth _ _ _ _ _ _ _].
  destruct (wf_nodes _ Hwf _ _ Hn) as [Hnid _].
  unfold monitor_tick. step_with (eq_refl (ListNodes (w_now w) (w_db w))). rewrite set_db_same.
  apply wp_bind_now, (wp_range_lone _ _ _ nd).
  - rewrite order_by_perm. by apply (NoDup_fmap_1 nd_ID), NoDup_node_rows.
  - apply elem_of_order_by, elem_of_node_rows; [done|]. by rewrite Hnid.
  - intros x b Hx%elem_of_order_by Hne. apply elem_of_node_rows in Hx; [|done].
    unfold monitor_node. rewrite (Hoth _ _ Hx); [by destruct b|]. intros Heq. rewrite Heq in Hx. congruence.
  - unfold monitor_node. rewrite Hsil, Hnid.
    step_by (by apply run_UpdateNodeStatus). apply ctl_wp_bind.
    eapply ctl_wp_mono; [|exact Hre]. intros r w' Hm. by apply ctl_wp_ret.
Qed.
End Tick.


(** The world in which the sandbox runs on its new node, and what is in it. *)
Section Moved.
Context `{External} (d : Deployment) (cfg : MonitorConfig) (id n target : uuid) (row : Sandbox) (nd : Node).
Context (w w' : World) (Hfl : failing cfg id n target row nd w) (Hmv : moved id n target row nd w w').
Context (later : Z) (cid : string) (port : Z).
#[local] Abbreviation cmd := (moving_command target row w).
#[local] Abbreviation new_row := (moving_row target row w).

Definition settled_world : World :=
  acked_world d EventStarted StateRunning (start_ack cid port) id new_row
    (dispatched later cmd) (fetched target (set_now later w')).

Lemma moved_alone : alone (w_db w') target cmd.
Proof. apply (alone_insert (w_db w)); [apply Hmv|apply Hfl|done]. Qed.

Lemma settled_up : cid <> "" -> 1 <= port <= 65535 ->
  exists row', sandboxes (w_db settled_world) !! id = Some row' /\ up target cid port row' /\
    sb_FailureCount row' = 0.
Proof.
  intros Hcid Hport. eexists. split; [apply after_row|]. split; [by apply started_up|].
  unfold ack_final, reset_row. rewrite (proj2 (proj2 (proj2 (proj2 (runtime_row_keeps _ _ _ _))))).
  case_match; [done|]. by rewrite (proj2 (proj2 (proj2 (proj2 (runtime_row_keeps _ _ _ _))))).
Qed.

Lemma settled_others : db_wf (w_db w') ->
  target <> n /\ (nd_Status <$> nodes (w_db settled_world) !! n) = Some NodeUnhealthy /\
  (forall i, i <> id -> sandboxes (w_db settled_world) !! i = sandboxes (w_db w) !! i) /\
  pending_commands (w_db settled_world) (Some target) = [].
Proof.
  intros Hwf. destruct Hmv as [_ Hn Hs _].
  destruct (after_keeps d target (set_now later w') cmd id new_row (start_ack cid port) EventStarted StateRunning)
    as (_ & _ & _ & Hnodes).
  split_and!.
  - intros ->. destruct Hfl as [_ Hwf0 _ _ Hnd _ _ _ _ _ _ _ Hch _].
    destruct (wf_nodes _ Hwf0 _ _ Hnd) as [Hid _].
    destruct (chosen_node_there _ _ _ (marked_wf _ _ _ Hwf0 Hnd) Hch) as (x & Hx & Hhealthy).
    simpl in Hx. rewrite Hid, lookup_insert_eq in Hx. by simplify_eq.
  - change (nodes (w_db settled_world) = nodes (w_db w')) in Hnodes. by rewrite Hnodes, Hn, lookup_insert_eq.
  - intros i Hi. transitivity (sandboxes (w_db w') !! i); [|by rewrite Hs, lookup_insert_ne].
    by apply (after_rows d target (set_now later w')).
  - apply quiet_pending, (after_quiet d target (set_now later w')); [exact Hwf|exact moved_alone].
Qed.
End Moved.

(** ** Properties *)

(** C4: Failover brings a sandbox back: when one node has been silent for longer
    than the threshold, with one sandbox running on it, and the scheduler finds
    another for that sandbox, a tick of the heartbeat monitor and the next turn
    of the other node's poll loop, within a minute and on a host able to create
    the container the sandbox was created with, leave the sandbox running on
    the other node in the new container, with no failures counted, the silent
    node unhealthy, and every other sandbox as it was. *)
Theorem failed_over_runs `{External, ClientTexts, AgentTexts} d zone ticks c h p host cfg w row id n target nd
    req later token e cid port :
  uuid_laws -> zone_ok zone -> linked c h p -> cc_apiToken c = dp_apiToken d -> dp_apiToken d <> "" ->
  failing cfg id n target row nd w -> made_for req row -> in_int32 (MemoryMB (cr_Resources req)) ->
  roomy (moving_row target row w) -> plain_year zone (w_now w / second) ->
  able_host host e req ((w_now w / second + 60) * nanoseconds) port cid ->
  let w1 := (exec (monitor_tick cfg) w).2 in
  let '(e', s') := turns d zone ticks host (poll_turn c e)
                     (mkSite (uuid_String target) token (set_now later w1)) in
  target <> n /\
  (exists row', sandboxes (w_db (ct_world s')) !! id = Some row' /\ up target cid port row' /\
     sb_FailureCount row' = 0) /\
  (nd_Status <$> nodes (w_db (ct_world s')) !! n) = Some NodeUnhealthy /\
  (forall i, i <> id -> sandboxes (w_db (ct_world s')) !! i = sandboxes (w_db w) !! i) /\
  pending_commands (w_db (ct_world s')) (Some target) = [] /\
  ex_sandboxes e' !! uuid_String id = Some (mkInfo cid port (cr_AppName req)).
Proof.
  intros Hu Hz Hl Ht Hne Hfl Hmade Hm Hroom Hy Hhost w1.
  pose proof (wp_exec _ _ _ (monitor_moves cfg id n target row nd w Hfl)) as Hmv. fold w1 in Hmv.
  assert (db_wf (w_db w1)) as Hwf.
  { eapply db_steps_wf; [apply (fl_wf _ _ _ _ _ _ _ Hfl)|].
    apply (exec_within failover_move), (fl_wf _ _ _ _ _ _ _ Hfl). apply issues_monitor_tick. }
  destruct (read_payload req Hm) as (pl & Hread & Happ & Hspec).
  assert (failover_payload row = create_payload req) as Hpay.
  { destruct Hmade as (Ha & Hi & Hr & He). unfold failover_payload. rewrite Ha, Hi, Hr, He.
    by rewrite (proj2 (resources_roundtrip _ Hm)). }
  pose proof (so_key _ _ _ (wf_sandboxes _ (fl_wf _ _ _ _ _ _ _ Hfl) _ _ (fl_row _ _ _ _ _ _ _ Hfl))) as Hid.
  set (s := mkSite (uuid_String target) token (set_now later w1)).
  rewrite (turn_brings_up d zone ticks c h p host s target e (moving_command target row w) id
    (moving_row target row w) pl cid port); try done.
  - destruct (settled_others d cfg id n target row nd w w1 Hfl Hmv later cid port Hwf) as (Hne' & Hun & Hoth & Hp).
    pose proof Hhost as [_ _ Hrange _ Hcid].
    split; [done|]. split; [by apply (settled_up d id target row w w1)|]. split; [done|]. split; [done|].
    split; [done|]. simpl. by rewrite Hid, lookup_insert_eq, Happ.
  - by split; try done; apply Hu.
  - apply Hmv.
  - by apply (moved_alone cfg id n target row nd w w1).
  - simpl. by rewrite Hid.
  - simpl. by rewrite (mv_sandboxes _ _ _ _ _ _ _ Hmv), lookup_insert_eq.
  - by apply (able_startable host e _ req).
Qed.

(** Node 1 was last seen in 1970; node 2 is new. *)
Definition demo_spare : Node :=
  mkNode 2%N "node-2" (Addr4 [100; 64; 1; 6]) 8090 4096 40 0 0 NodeHealthy "0.1.0" (100 * second) 0 json_empty "tok".

Definition demo_made : Sandbox :=
  in_state StateRunning 0 (assigned_to 1 0 (pending_row 7 (demo_request "my-app" 512) 0)).

Definition demo_pair : DB :=
  put_node demo_spare (set_sandboxes {[7%N := demo_made]} (demo_db StateRunning 0)).

Lemma demo_pair_wf : db_wf demo_pair.
Proof.
  pose proof (demo_db_wf StateRunning 0 (in_states StateRunning eq_refl)) as [_ _ Hn _ He].
  split; simpl; [| | |by intros id c Hid; rewrite lookup_empty in Hid|exact He].
  - intros id s [<- <-]%lookup_singleton_Some. split; [done|by apply in_states|]. intros n [= <-]. by eexists.
  - by intros i j s t [<- _]%lookup_singleton_Some [<- _]%lookup_singleton_Some _.
  - intros id x [[<- <-]|[_ Hx]]%lookup_insert_Some; [by split|by apply Hn].
Qed.

Lemma failed_over_runs_witness :
  let w := set_now (100 * second) (demo_cluster_world demo_pair) in
  let e := NewCommandExecutor (NewAllocator 40000 40000) "/srv" in
  let w1 := (exec (@monitor_tick demo_cluster (mkMonitorConfig 15 3)) w).2 in
  let '(e', s') := @turns demo_cluster demo_deployment 0 [] demo_host _
    (@poll_turn demo_client_texts demo_client_config demo_texts e)
    (@mkSite demo_cluster "2" "" (set_now (101 * second) w1)) in
  exists row, sandboxes (w_db (ct_world s')) !! 7%N = Some row /\ up 2 "c0ffee" 40000 row /\
    sb_FailureCount row = 0.
Proof.
  intros w e w1.
  pose proof (@failed_over_runs demo_cluster demo_client_texts demo_texts demo_deployment 0 []
    demo_client_config "10.0.0.1" "8080" demo_host (mkMonitorConfig 15 3) w demo_made
    7 1 2 demo_node (demo_request "my-app" 512) (101 * second) "" e "c0ffee" 40000 demo_cluster_laws) as Hrun.
  change (@uuid_String demo_cluster 2%N) with "2" in Hrun. cbv zeta in Hrun. fold w1 in Hrun.
  destruct (turns _ _ _ _ _ _) as [e' s']. apply Hrun.
  - by split.
  - apply demo_linked.
  - reflexivity.
  - discriminate.
  - split; try reflexivity.
    + exact demo_pair_wf.
    + intros a b Hab. simpl in Hab. lia.
    + intros k _. reflexivity.
    + intros m x Hx Hne. change ((<[2%N := demo_spare]> {[1%N := demo_node]} : gmap uuid Node) !! m = Some x) in Hx.
      apply lookup_insert_Some in Hx as [[<- <-]|[_ [<- _]%lookup_singleton_Some]]; [reflexivity|by destruct Hne].
    + vm_compute. repeat split; discriminate.
    + split; [by eexists|by split].
    + intros i s Hs _. change (({[7%N := demo_made]} : gmap uuid Sandbox) !! i = Some s) in Hs.
      by apply lookup_singleton_Some in Hs as [<- _].
    + by apply quiet_pending.
  - by split.
  - vm_compute. split; discriminate.
  - vm_compute. repeat split; discriminate.
  - vm_compute. split; [discriminate|reflexivity].
  - split; [vm_compute; discriminate|reflexivity|lia|done|done].
Defined.
