(* ===== verification/Restarts.v ===== *)
(** What becomes of a restart a user asks for: the control plane queues it and
    leaves the row running, the agent has Docker restart the container, and
    Docker reports that the container has ended, which the control plane takes
    for a crash. *)

From S2P Require Import Prelude Time Netip Hmac Url UrlFacts Json Models Scheduler Store StoreFacts.
From S2P Require Import Routing Effects StoreRuns Restart Lifecycle LifecycleMoves CreateFacts AckFacts EventFacts RequestFacts.
From S2P Require Import Interleave Reconciler Adapters.
From S2P Require Import Api Responses Register Push PushFacts Ports Executor ExecutorFacts Wire.
From S2P Require Import AgentClient ClientFacts Watcher AgentHttp DockerClient AgentLoops System.
From S2P Require Import Router Cluster EndToEnd Turns Startup Teardown Recovery.

(** ** The executor's run of a restart *)

Record restarting_host (host : forall X, agentE X -> X) (cid : string) (deadline : Z) : Prop := {
  rh_clock : host _ ANow <= deadline;
  rh_restart : host _ (ARestartContainer cid 10) = Ok tt;
}.

Lemma reboot_turns `{External, ClientTexts, AgentTexts} d zone ticks c host e cmd cid s s' :
  ac_Type cmd = CmdRestartSandbox -> decode_container (ac_Payload cmd) = Some cid ->
  restarting_host host cid (ac_IssuedAt cmd + wrap64 (ac_TimeoutSeconds cmd * nanoseconds)) ->
  performs d zone ticks (AckCommand c (ac_ID cmd) stop_ack) s = (Ok tt, s') ->
  turns d zone ticks host (interp (@on_client _ c) (Execute e cmd)) s = ((Ok tt, e), s').
Proof.
  intros Hty Hcid [Hck Hrestart] Hack. rewrite runs_in_time by done.
  unfold Executor.dispatch. rewrite Hty. change (String.eqb CmdRestartSandbox "start_sandbox") with false.
  change (String.eqb CmdRestartSandbox "stop_sandbox") with false.
  change (String.eqb CmdRestartSandbox "restart_sandbox") with true. cbv iota.
  unfold executeRestartSandbox. rewrite Hcid, runs_asks, Hrestart by done. by apply runs_succeed.
Qed.

(** ** The request and the turn *)

Section Reboot.
Context `{External} (d : Deployment) (id n : uuid) (row : Sandbox) (w : World) (later : Z).
#[local] Abbreviation ls := (dp_lifecycle d).

Definition reboot_order : Store.Command := command_row (reboot_command row id (uuid_New (w_rng w))) n (w_now w).

(** The world after the turn. *)
Definition rebooted_world : World :=
  completed_world n reboot_order stop_ack (set_now later (rebooting_world row id n w)).

Lemma rebooting_facts : crashing ls id n row w ->
  exec (RestartSandbox id) w = (Ok tt, rebooting_world row id n w) /\
  db_wf (w_db (rebooting_world row id n w)) /\ alone (w_db (rebooting_world row id n w)) n reboot_order.
Proof.
  intros [Hf Hwf Hs [Hroom _] Hst Hn _ Hcmd _ Hq].
  pose proof (RestartSandbox_exec id w row n Hf Hwf Hs Hroom Hst Hn Hcmd) as Hex. split_and!; [done| |].
  - pose proof (exec_within service_move _ w (issues_restart id) Hwf) as Hin.
    rewrite Hex in Hin. simpl in Hin. by eapply db_steps_wf.
  - by apply (alone_insert (w_db w)).
Qed.

(** The sandbox is as it was, and can crash as before. *)
Lemma rebooted_crashing now :
  crashing ls id n row w -> roomy (in_state StateStarting now (crashed_row now row)) ->
  uuid_New (S (w_rng w)) <> uuid_New (w_rng w) -> commands (w_db w) !! uuid_New (S (w_rng w)) = None ->
  crashing ls id n row (set_now now rebooted_world).
Proof.
  intros Hca Hroom' Hne Hfresh. destruct (rebooting_facts Hca) as (_ & Hwf1 & Hal).
  destruct Hca as [Hf Hwf Hs [Hroom _] Hst Hn Hmgr Hcmd Hlt Hq].
  set (w1 := set_now later (rebooting_world row id n w)). split; try done.
  - by apply (completed_wf n w1).
  - cbn [set_now w_db w_rng]. unfold rebooted_world. rewrite (completed_commands n w1) by done. simpl.
    by rewrite !lookup_insert_ne.
  - by apply (completed_quiet n w1).
Qed.

Lemma turn_reboots `{ClientTexts, AgentTexts} zone ticks c h p host s e :
  uuid_laws -> zone_ok zone -> connected d c h p s n -> crashing ls id n row w ->
  plain_year zone (w_now w / second) ->
  restarting_host host (text_String (sb_ContainerID row)) ((w_now w / second + 60) * nanoseconds) ->
  turns d zone ticks host (poll_turn c e) (in_world (set_now later (rebooting_world row id n w)) s) =
    (e, in_world rebooted_world s).
Proof.
  intros Hu Hz Hco Hca Hy [Hck Hrestart]. destruct (rebooting_facts Hca) as (_ & Hwf1 & Hal).
  apply (turn_completes d zone ticks c h p host (in_world (set_now later (rebooting_world row id n w)) s) n e e
    reboot_order id row stop_ack); try done.
  - by destruct Hco; split.
  - apply Hca.
  - apply (ca_row _ _ _ _ _ Hca).
  - intros s1 s2 Hper.
    apply (reboot_turns d zone ticks c host e _ (text_String (sb_ContainerID row))); try done.
    split; [|done]. cbn [received reboot_order ac_IssuedAt ac_TimeoutSeconds].
    change (cmd_TimeoutSeconds reboot_order) with 60. rewrite wrap64_seconds by lia. simpl. lia.
Qed.
End Reboot.

(** ** Properties *)

(** Docker's event of a sandbox's container that ends. *)
Definition die_event (app cid code : string) (at_ : Z) : ContainerEvent :=
  mkContainerEvent cid (containerPrefix +:+ app) "die" code at_.

Lemma mapped_die app cid code at_ :
  mapEvent (die_event app cid code at_) = Some (mkSandboxEvent app cid "container_exited" code at_ false).
Proof.
  unfold mapEvent, die_event. cbn [ce_ContainerName]. unfold HasPrefix. rewrite prefix_app. cbn [negb].
  by rewrite TrimPrefix_app.
Qed.

(** C25: A requested restart is taken for a crash: when a user restarts a running
    sandbox, the agent's next turn has Docker restart the container and the row
    stays running; Docker reports that the container has ended, as it does in
    every restart, and when the watcher's event of it reaches the control plane,
    the agent's following turn replaces the container that was just restarted by
    a new one on a new port, without the limits and the environment of the
    sandbox, and the old port stays taken. *)
Theorem requested_restart_recreates `{External, ClientTexts, AgentTexts} d zone ticks c h p host host' w row id
    node t1 t2 t3 token e k code at_ cid port :
  uuid_laws -> zone_ok zone -> linked c h p -> cc_apiToken c = dp_apiToken d -> dp_apiToken d <> "" ->
  crashing (dp_lifecycle d) id node row w -> roomy (in_state StateStarting t2 (crashed_row t2 row)) ->
  uuid_New (S (w_rng w)) <> uuid_New (w_rng w) -> commands (w_db w) !! uuid_New (S (w_rng w)) = None ->
  plain_year zone (w_now w / second) -> plain_year zone (t2 / second) ->
  tracks_alone e (uuid_String id) (sb_AppName row) ->
  restarting_host host (text_String (sb_ContainerID row)) ((w_now w / second + 60) * nanoseconds) ->
  reviving_host host' e (uuid_String id) row ((t2 / second + restart_timeout row) * nanoseconds) port cid ->
  let turn host e s := turns d zone ticks host (poll_turn c e) s in
  let '(r1, w1) := exec (RestartSandbox id) w in
  let '(e1, s1) := turn host e (mkSite (uuid_String node) token (set_now t1 w1)) in
  exists ev, mapEvent (die_event (sb_AppName row) (text_String (sb_ContainerID row)) code at_) = Some ev /\
  let '(r2, s2) := performs d zone ticks (forwardEvent c k e1 ev) (in_world (set_now t2 (ct_world s1)) s1) in
  let '(e3, s3) := turn host' e1 (in_world (set_now t3 (ct_world s2)) s2) in
  r1 = Ok tt /\ e1 = e /\ sandboxes (w_db (ct_world s1)) !! id = Some row /\ r2 = Ok tt /\
  (exists row', sandboxes (w_db (ct_world s3)) !! id = Some row' /\ up node cid port row') /\
  ex_sandboxes e3 = <[uuid_String id := mkInfo cid port (sb_AppName row)]> (ex_sandboxes e) /\
  ex_ports e3 = take_port port (ex_ports e).
Proof.
  intros Hu Hz Hl Ht Hne Hca Hroom' Hids Hfresh Hy Hy2 Htr Hhost Hhost' turn.
  set (s := mkSite (uuid_String node) token w).
  assert (connected d c h p s node) as Hco by (split; try done; apply Hu).
  destruct (rebooting_facts d id node row w Hca) as (-> & _ & _).
  change (mkSite _ _ (set_now t1 _)) with (in_world (set_now t1 (rebooting_world row id node w)) s).
  unfold turn. rewrite (turn_reboots d id node row w t1 zone ticks c h p host s e) by done.
  rewrite mapped_die. eexists. split; [done|]. cbn [ct_world in_world].
  set (ev := mkSandboxEvent _ _ _ _ _ _). set (w2 := set_now t2 (rebooted_world id node row w t1)).
  assert (crashing (dp_lifecycle d) id node row w2) as Hca2 by by apply rebooted_crashing.
  set (report := event_report (uuid_String id) ev). assert (crash_type (er_EventType report)) as Hty by by left.
  assert (connected d c h p (in_world w2 s) node) as Hco2 by by destruct Hco; split.
  rewrite (crash_reported d id node row (er_EventType report) (er_Payload report) w2 zone ticks c h p
    (in_world w2 s) e k ev) by done.
  change (in_world (set_now t3 _) _) with (in_world (set_now t3
    (restarting_world (dp_lifecycle d) row node node (er_EventType report) (er_Payload report) w2)) s).
  rewrite (turn_revives d id node row (er_EventType report) (er_Payload report) w2 zone ticks c h p host'
    s e t3 cid port) by done.
  pose proof Hhost' as [_ _ Hrange _ Hcid].
  split; [done|]. split; [done|]. split; [apply (ca_row _ _ _ _ _ Hca2)|]. split; [done|].
  split; [|done]. destruct (revived_row d id node row (er_EventType report) (er_Payload report) w2 t3 cid port
    Hca2 Hcid Hrange) as (row' & Hrow & Hup & _). by exists row'.
Qed.

Lemma requested_restart_recreates_witness :
  let w := demo_cluster_world (demo_db StateRunning 0) in
  let e := mkExecutor (NewAllocator 40001 40002) "/srv" {["7" := mkInfo "abc" 40000 "my-app"]} in
  let turn e s := @turns demo_cluster demo_deployment 0 [] demo_host _
    (@poll_turn demo_client_texts demo_client_config demo_texts e) s in
  let '(r1, w1) := @exec demo_cluster _ (RestartSandbox 7) w in
  let '(e1, s1) := turn e (@mkSite demo_cluster "1" "" (set_now second w1)) in
  exists ev, mapEvent (die_event "my-app" "abc" "137" 0) = Some ev /\
  let '(r2, s2) := @performs demo_cluster demo_deployment 0 [] _
    (@forwardEvent demo_client_texts demo_client_config 0 e1 ev) (in_world (set_now (2 * second) (ct_world s1)) s1) in
  let '(e3, s3) := turn e1 (in_world (set_now (3 * second) (ct_world s2)) s2) in
  exists row', sandboxes (w_db (ct_world s3)) !! 7%N = Some row' /\ up 1 "c0ffee" 40001 row'.
Proof.
  intros w e turn.
  pose proof (@requested_restart_recreates demo_cluster demo_client_texts demo_texts demo_deployment 0 []
    demo_client_config "10.0.0.1" "8080" demo_host demo_host w (demo_sandbox StateRunning 0) 7 1
    second (2 * second) (3 * second) "" e 0 "137" 0 "c0ffee" 40001 demo_cluster_laws) as Hrun.
  change (@uuid_String demo_cluster 1%N) with "1" in Hrun.
  change (sb_AppName (demo_sandbox StateRunning 0)) with "my-app" in Hrun.
  change (text_String (sb_ContainerID (demo_sandbox StateRunning 0))) with "abc" in Hrun.
  cbv zeta in Hrun. unfold turn. destruct (exec _ w) as [r1 w1]. destruct (turns _ _ _ _ (poll_turn _ e) _) as [e1 s1].
  destruct Hrun as (ev & Hev & Hrun).
  - by split.
  - apply demo_linked.
  - reflexivity.
  - discriminate.
  - split; try reflexivity; [by apply demo_db_wf, in_states|vm_compute; repeat split; discriminate|].
    by apply quiet_pending.
  - vm_compute. repeat split; discriminate.
  - discriminate.
  - reflexivity.
  - vm_compute. split; [discriminate|reflexivity].
  - vm_compute. split; [discriminate|reflexivity].
  - split; [by eexists|]. intros i x Hi _.
    change (({["7" := mkInfo "abc" 40000 "my-app"]} : gmap string sandboxInfo) !! i = Some x) in Hi.
    by apply lookup_singleton_Some in Hi as [<- _].
  - by split.
  - by split.
  - exists ev. split; [exact Hev|]. destruct (performs _ _ _ _ _) as [r2 s2].
    destruct (turns _ _ _ _ (poll_turn _ e1) _) as [e3 s3]. apply Hrun.
Defined.
