(* ===== verification/Idle.v ===== *)
(** A sandbox that falls asleep and wakes up: the idle reaper stops it, the
    agent takes its container down, a request wakes it, and the agent starts a
    container like the first. *)

From S2P Require Import Prelude Time Netip Hmac Url UrlFacts Json Models Scheduler Store StoreFacts.
From S2P Require Import Routing Effects StoreRuns Sweep Restart Lifecycle LifecycleMoves CreateFacts AckFacts RequestFacts.
From S2P Require Import Reschedule IdleReaper Interleave Reconciler Adapters.
From S2P Require Import Api Responses Register Push PushFacts Ports Executor ExecutorFacts Wire.
From S2P Require Import AgentClient ClientFacts Watcher AgentHttp DockerClient AgentLoops System.
From S2P Require Import Router Cluster EndToEnd Turns Startup Teardown Recovery Failover.

(** ** Falling asleep *)

(** One sandbox is idle, on a node whose agent has no command waiting. *)
Record idling `{External} (id n : uuid) (row : Sandbox) (w : World) : Prop := mk_idling {
  il_faults : w_faults w = [];
  il_wf : db_wf (w_db w);
  il_row : sandboxes (w_db w) !! id = Some row;
  il_roomy : roomy row;
  il_idle : idle_row (w_now w) row;
  il_lone : forall i s, sandboxes (w_db w) !! i = Some s -> idle_row (w_now w) s -> i = id;
  il_node : sb_NodeID row = Some n;
  il_fresh : commands (w_db w) !! uuid_New (w_rng w) = None;
  il_quiet : quiet (w_db w) n;
}.

Section Asleep.
Context `{External} (id n : uuid) (row : Sandbox) (w : World).

Definition asleep_row : Sandbox := in_state StateStopped (w_now w) row.

Definition reap_order : Store.Command := command_row (reap_command row (uuid_New (w_rng w))) n (w_now w).

(** What a pass of the reaper leaves. *)
Record reaped (w' : World) : Prop := mk_reaped {
  rp_faults : w_faults w' = [];
  rp_rng : w_rng w' = S (w_rng w);
  rp_sandboxes : sandboxes (w_db w') = <[id := asleep_row]> (sandboxes (w_db w));
  rp_commands : commands (w_db w') = <[cmd_ID reap_order := reap_order]> (commands (w_db w));
}.

Lemma reaper_stops : idling id n row w ->
  ctl_wp (reap true) (fun r w' => r = Ok 1 /\ reaped w') w.
Proof.
  intros [Hf Hwf Hs Hroom Hidle Hone Hn Hcmd Hq].
  pose proof (so_key _ _ _ (wf_sandboxes _ Hwf _ _ Hs)) as Hid.
  unfold reap. step_with (eq_refl (ListIdleSandboxes (w_now w) (w_db w))). rewrite set_db_same.
  rewrite (selection_lone (w_db w) (idle_row (w_now w)) _ id row) by done.
  apply ctl_wp_bind. cbn [range]. unfold reap_next at 1. apply ctl_wp_bind, ctl_wp_bind.
  eapply ctl_wp_mono; [|apply (reapOne_runs (w_now w) true w row); try done].
  - intros r w' (-> & [Hf' _] & _ & Hs' & Hr' & Hc'). apply ctl_wp_ret, ctl_wp_ret, ctl_wp_ret.
    split; [done|]. split; [done|done|by rewrite Hs', Hid|exact (Hc' n Hn Hcmd)].
  - by apply row_in_wf; rewrite ?Hid.
  - apply Hidle.
Qed.

(** The turn that takes the container down. *)
Lemma turn_puts_down `{ClientTexts, AgentTexts} d zone ticks c h p host s e w1 later :
  uuid_laws -> zone_ok zone -> connected d c h p s n -> idling id n row w -> reaped w1 -> db_wf (w_db w1) ->
  plain_year zone (w_now w / second) ->
  stopping_host host (text_String (sb_ContainerID row)) ((w_now w / second + 60) * nanoseconds) ->
  turns d zone ticks host (poll_turn c e) (in_world (set_now later w1) s) =
    (untrack (uuid_String id) e, in_world (completed_world n reap_order stop_ack (set_now later w1)) s).
Proof.
  intros Hu Hz Hco Hil [Hf1 _ Hs1 Hc1] Hwf1 Hy [Hck Hstop Hrem].
  pose proof (so_key _ _ _ (wf_sandboxes _ (il_wf _ _ _ _ Hil) _ _ (il_row _ _ _ _ Hil))) as Hid.
  apply (turn_completes d zone ticks c h p host (in_world (set_now later w1) s) n e _ reap_order id asleep_row stop_ack);
    try done.
  - by destruct Hco; split.
  - apply (alone_insert (w_db w)); [done|apply Hil|done].
  - simpl. by rewrite Hid.
  - simpl. by rewrite Hs1, lookup_insert_eq.
  - intros s1 s2 Hper.
    rewrite (stop_turns d zone ticks c host e (received reap_order) (text_String (sb_ContainerID row)) s1 s2); try done.
    + do 3 f_equal. simpl. by rewrite Hid.
    + split; [|done..]. cbn [received reap_order ac_IssuedAt ac_TimeoutSeconds].
      change (cmd_TimeoutSeconds reap_order) with 60. rewrite wrap64_seconds by lia. simpl. lia.
Qed.
End Asleep.

(** ** Waking up *)

(** A stopped sandbox, on a node whose agent has no command waiting. *)
Record wakeable `{External} (id n : uuid) (row : Sandbox) (w : World) : Prop := mk_wakeable {
  wk_faults : w_faults w = [];
  wk_wf : db_wf (w_db w);
  wk_row : sandboxes (w_db w) !! id = Some row;
  wk_roomy : roomy row /\ roomy (in_state StateStarting (w_now w) row);
  wk_state : sb_State row = StateStopped;
  wk_node : sb_NodeID row = Some n;
  wk_fresh : commands (w_db w) !! uuid_New (w_rng w) = None;
  wk_quiet : quiet (w_db w) n;
}.

Section Awake.
Context `{External} (d : Deployment) (id n : uuid) (row : Sandbox) (w : World).

Definition wake_order : Store.Command := command_row (wake_command row (uuid_New (w_rng w))) n (w_now w).

Definition waking_world : World :=
  set_db (dispatched_db row StateStarting (wake_command row (uuid_New (w_rng w))) (wake_event row) n (w_now w) (w_db w))
    (next_rng w).

Lemma waking_facts : wakeable id n row w ->
  exec (WakeSandbox id) w = (Ok tt, waking_world) /\ db_wf (w_db waking_world) /\
  alone (w_db waking_world) n wake_order /\
  sandboxes (w_db waking_world) !! id = Some (in_state StateStarting (w_now w) row).
Proof.
  intros [Hf Hwf Hs [Hroom _] Hst Hn Hcmd Hq].
  pose proof (WakeSandbox_exec id w row n Hf Hwf Hs Hroom Hn Hcmd) as Hex. rewrite decide_True in Hex by done.
  split_and!; [done| | |].
  - pose proof (exec_within service_move _ w (issues_wake id) Hwf) as Hin.
    rewrite Hex in Hin. simpl in Hin. by eapply db_steps_wf.
  - by apply (alone_insert (w_db w)).
  - simpl. rewrite (so_key _ _ _ (wf_sandboxes _ Hwf _ _ Hs)). apply lookup_insert_eq.
Qed.

Definition awake_world (later : Z) (cid : string) (port : Z) : World :=
  acked_world d EventStarted StateRunning (start_ack cid port) id (in_state StateStarting (w_now w) row)
    (dispatched later wake_order) (fetched n (set_now later waking_world)).

Lemma awake_facts later cid port : wakeable id n row w -> cid <> "" -> 1 <= port <= 65535 ->
  (exists row', sandboxes (w_db (awake_world later cid port)) !! id = Some row' /\ up n cid port row') /\
  pending_commands (w_db (awake_world later cid port)) (Some n) = [].
Proof.
  intros Hwk Hcid Hport. destruct (waking_facts Hwk) as (_ & Hwf & Hal & _). split.
  - eexists. split; [apply after_row|]. by apply started_up, Hwk.
  - by apply quiet_pending, (after_quiet d n (set_now later waking_world)).
Qed.

Lemma turn_wakes `{ClientTexts, AgentTexts} zone ticks c h p host s e req later cid port :
  uuid_laws -> zone_ok zone -> connected d c h p s n -> wakeable id n row w ->
  made_for req row -> in_int32 (MemoryMB (cr_Resources req)) -> plain_year zone (w_now w / second) ->
  able_host host e req ((w_now w / second + 60) * nanoseconds) port cid ->
  exists e', turns d zone ticks host (poll_turn c e) (in_world (set_now later waking_world) s) =
    (e', in_world (awake_world later cid port) s) /\
  ex_sandboxes e' = <[uuid_String id := mkInfo cid port (cr_AppName req)]> (ex_sandboxes e).
Proof.
  intros Hu Hz Hco Hwk Hmade Hm Hy Hhost. destruct (waking_facts Hwk) as (_ & Hwf & Hal & Hrow).
  destruct Hwk as [Hf Hwf0 Hs [_ Hroom] Hst Hn Hcmd Hq].
  pose proof (so_key _ _ _ (wf_sandboxes _ Hwf0 _ _ Hs)) as Hid.
  destruct (read_payload req Hm) as (pl & Hread & Happ & Hspec).
  exists (started e (received wake_order) pl port cid). split.
  - apply (turn_brings_up d zone ticks c h p host (in_world (set_now later waking_world) s) n e wake_order id
      (in_state StateStarting (w_now w) row) pl cid port); try done.
    + by destruct Hco; split.
    + simpl. by rewrite Hid.
    + apply (able_startable host e _ req); try done. by apply wake_payload_made.
  - simpl. by rewrite Hid, Happ.
Qed.
End Awake.

(** ** Properties *)

(** C5: An idle sandbox sleeps and wakes: a pass of the reaper stops the one sandbox
    that is idle, the next turn of its agent's poll loop takes its container
    down and gives its port back, the row staying stopped; and when it is woken
    at any later time, the turn after that leaves it running on its node in a
    new container that asks for the image, the memory, the CPU and the
    environment of the request that created it. *)
Theorem idle_sandbox_wakes `{External, ClientTexts, AgentTexts} d zone ticks c h p down_host up_host w row id node
    req t1 t2 t3 token e cid port :
  uuid_laws -> zone_ok zone -> linked c h p -> cc_apiToken c = dp_apiToken d -> dp_apiToken d <> "" ->
  idling id node row w -> made_for req row -> in_int32 (MemoryMB (cr_Resources req)) ->
  roomy (asleep_row row w) -> roomy (in_state StateStarting t2 (asleep_row row w)) ->
  uuid_New (S (w_rng w)) <> uuid_New (w_rng w) -> commands (w_db w) !! uuid_New (S (w_rng w)) = None ->
  plain_year zone (w_now w / second) -> plain_year zone (t2 / second) ->
  stopping_host down_host (text_String (sb_ContainerID row)) ((w_now w / second + 60) * nanoseconds) ->
  able_host up_host (untrack (uuid_String id) e) req ((t2 / second + 60) * nanoseconds) port cid ->
  let turn host e s := turns d zone ticks host (poll_turn c e) s in
  let '(r1, w1) := exec (reap true) w in
  let '(e1, s1) := turn down_host e (mkSite (uuid_String node) token (set_now t1 w1)) in
  let '(r2, w2) := exec (WakeSandbox id) (set_now t2 (ct_world s1)) in
  let '(e2, s2) := turn up_host e1 (in_world (set_now t3 w2) s1) in
  r1 = Ok 1 /\ e1 = untrack (uuid_String id) e /\
  sandboxes (w_db (ct_world s1)) !! id = Some (asleep_row row w) /\ r2 = Ok tt /\
  (exists row', sandboxes (w_db (ct_world s2)) !! id = Some row' /\ up node cid port row') /\
  pending_commands (w_db (ct_world s2)) (Some node) = [] /\
  ex_sandboxes e2 = <[uuid_String id := mkInfo cid port (cr_AppName req)]> (ex_sandboxes e1).
Proof.
  intros Hu Hz Hl Ht Hne Hil Hmade Hm Hroom Hroom2 Hids Hfresh Hy Hy2 Hdown Hup turn.
  set (s := mkSite (uuid_String node) token w).
  assert (connected d c h p s node) as Hco by (split; try done; apply Hu).
  pose proof (wp_exec _ _ _ (reaper_stops id node row w Hil)) as [Hr1 Hre].
  pose proof (exec_within edge _ w (issues_reap true) (il_wf _ _ _ _ Hil)) as Hin.
  apply db_steps_wf in Hin; [|apply Hil].
  destruct (exec (reap true) w) as [r1 w1]. simpl in Hr1, Hre, Hin.
  change (mkSite _ _ (set_now t1 w1)) with (in_world (set_now t1 w1) s). unfold turn.
  rewrite (turn_puts_down id node row w d zone ticks c h p down_host s e w1 t1) by done. cbn [ct_world in_world].
  set (w2 := completed_world node (reap_order node row w) stop_ack (set_now t1 w1)).
  assert (alone (w_db (set_now t1 w1)) node (reap_order node row w)) as Hal
    by (apply (alone_insert (w_db w)); [apply Hre|apply Hil|done]).
  assert (sandboxes (w_db w2) !! id = Some (asleep_row row w)) as Hrow
    by (simpl; by rewrite (rp_sandboxes _ _ _ _ _ Hre), lookup_insert_eq).
  assert (wakeable id node (asleep_row row w) (set_now t2 w2)) as Hwk.
  { split; [apply Hre|by apply (completed_wf node (set_now t1 w1))|exact Hrow|by split|done|apply Hil| |].
    - cbn [set_now w_db w_rng]. unfold w2. rewrite (completed_commands node (set_now t1 w1)) by done. simpl.
      by rewrite (rp_commands _ _ _ _ _ Hre), (rp_rng _ _ _ _ _ Hre), !lookup_insert_ne.
    - by apply (completed_quiet node (set_now t1 w1)). }
  destruct (waking_facts id node _ _ Hwk) as (-> & _).
  assert (connected d c h p (in_world w2 s) node) as Hco2 by by destruct Hco; split.
  change (in_world (set_now t3 ?v) ?u) with (in_world (set_now t3 v) (in_world w2 s)).
  destruct (turn_wakes d id node (asleep_row row w) (set_now t2 w2) zone ticks c h p up_host (in_world w2 s)
    (untrack (uuid_String id) e) req t3 cid port) as (e2 & -> & He2); try done.
  pose proof Hup as [_ _ Hrange _ Hcid].
  destruct (awake_facts d id node _ _ t3 cid port Hwk Hcid Hrange) as [Hup' Hq'].
  by split_and!.
Qed.

Lemma idle_sandbox_wakes_witness :
  let w := set_now (3600 * second) (demo_cluster_world demo_pair) in
  let e := NewCommandExecutor (NewAllocator 40000 40000) "/srv" in
  let turn e s := @turns demo_cluster demo_deployment 0 [] demo_host _
    (@poll_turn demo_client_texts demo_client_config demo_texts e) s in
  let '(r1, w1) := @exec demo_cluster _ (reap true) w in
  let '(e1, s1) := turn e (@mkSite demo_cluster "1" "" (set_now (3601 * second) w1)) in
  let '(r2, w2) := exec (WakeSandbox 7) (set_now (7200 * second) (ct_world s1)) in
  let '(e2, s2) := turn e1 (in_world (set_now (7201 * second) w2) s1) in
  (sb_State <$> sandboxes (w_db (ct_world s1)) !! 7%N) = Some StateStopped /\
  exists row, sandboxes (w_db (ct_world s2)) !! 7%N = Some row /\ up 1 "c0ffee" 40000 row.
Proof.
  intros w e turn.
  pose proof (@idle_sandbox_wakes demo_cluster demo_client_texts demo_texts demo_deployment 0 []
    demo_client_config "10.0.0.1" "8080" demo_host demo_host w demo_made 7 1 (demo_request "my-app" 512)
    (3601 * second) (7200 * second) (7201 * second) "" e "c0ffee" 40000 demo_cluster_laws) as Hrun.
  change (@uuid_String demo_cluster 1%N) with "1" in Hrun. cbv zeta in Hrun. unfold turn.
  destruct (exec _ w) as [r1 w1]. destruct (turns _ _ _ _ (poll_turn _ e) _) as [e1 s1].
  destruct (exec (WakeSandbox 7) _) as [r2 w2]. destruct (turns _ _ _ _ (poll_turn _ e1) _) as [e2 s2].
  destruct Hrun as (_ & _ & Hs & _ & Hup & _); [..|by rewrite Hs].
  - by split.
  - apply demo_linked.
  - reflexivity.
  - discriminate.
  - split; try reflexivity.
    + exact demo_pair_wf.
    + vm_compute. repeat split; discriminate.
    + by split.
    + intros i s Hs _. change (({[7%N := demo_made]} : gmap uuid Sandbox) !! i = Some s) in Hs.
      by apply lookup_singleton_Some in Hs as [<- _].
    + by apply quiet_pending.
  - by split.
  - vm_compute. split; discriminate.
  - vm_compute. repeat split; discriminate.
  - vm_compute. repeat split; discriminate.
  - discriminate.
  - reflexivity.
  - vm_compute. split; [discriminate|reflexivity].
  - vm_compute. split; [discriminate|reflexivity].
  - by split.
  - split; [vm_compute; discriminate|reflexivity|lia|done|done].
Defined.
