(* ===== verification/Agent.v ===== *)
(** The agent process (agent/internal/agent/agent.go, agent/internal/config,
    agent/cmd/forge-agent): how it is put together from its configuration, the
    start-up sequence with the loops it starts, and the shutdown. *)

From S2P Require Import Prelude Netip Json Float64 Time Models Scheduler Store StoreFacts Routing Effects.
From S2P Require Import Reconciler Adapters Api Responses Register Push Ports Executor Wire AgentClient ClientFacts.
From S2P Require Import UrlFacts Hmac ExecutorFacts Watcher AgentHttp DockerClient AgentLoops System Router Cluster Turns Startup.

(** ** Configuration (config/config.go)

    The environment variables are read by envconfig; the values are given. *)
Record Config := mkConfig {
  ac_ControlURL : string;
  ac_Hostname : string;
  ac_TailscaleIP : string;
  ac_AgentPort : Z;
  ac_PortRangeMin : Z;
  ac_PortRangeMax : Z;
  ac_HMACSecret : string;
  ac_SandboxDir : string;
  ac_AgentVersion : string;
  ac_SandboxImage : string;
  ac_CapacityMB : Z;
  ac_CapacityCPU : Q;
  ac_APIToken : string;
}.

(** The defaults of the tags, for the variables that are not required. *)
Definition with_defaults (controlURL hostname secret token : string) (capacityMB : Z) : Config :=
  mkConfig controlURL hostname "" 8090 40000 50000 secret "/var/lib/forge/sandboxes" "0.1.0"
    "appx/sandbox:v1" capacityMB 1 token.

(** ** [New] *)

Definition register_request_of (cfg : Config) : RegisterRequest :=
  mkRegisterReq (ac_Hostname cfg) (ac_TailscaleIP cfg) (ac_AgentPort cfg) (ac_CapacityMB cfg)
    (ac_CapacityCPU cfg) (ac_AgentVersion cfg).

Definition client_config (cfg : Config) : ClientConfig :=
  mkClientConfig (ac_ControlURL cfg) (register_request_of cfg) (ac_APIToken cfg).

Definition heartbeat_interval : Z := seconds 15.

Record Agent := mkAgent {
  ag_cfg : Config;
  ag_ctrlClient : ClientConfig;
  ag_executor : CommandExecutor;
  ag_heartbeat : Z;                     (* the interval *)
  ag_puller : string;                   (* the image *)
  ag_filePush : string;                 (* the secret; the resolver is the executor *)
}.

(** [sdk] is the outcome of making the Docker client. *)
Definition New (cfg : Config) (sdk : result unit) : result Agent :=
  match sdk with
  | Err e => Err (Wrap "agent: create docker client" (Wrap "docker: create client" e))
  | Ok _ =>
      Ok (mkAgent cfg (client_config cfg)
            (NewCommandExecutor (NewAllocator (ac_PortRangeMin cfg) (ac_PortRangeMax cfg)) (ac_SandboxDir cfg))
            heartbeat_interval (ac_SandboxImage cfg) (ac_HMACSecret cfg))
  end.

(** ** Effects of the process

    Those of Docker and of the poll loop, and what it starts in the background. *)
Inductive task :=
| Heartbeats (interval : Z)
| ForwardEvents
| InitialPull (image : string)
| PeriodicPull (image : string) (interval : Z)
| HttpServer (addr : string).

Inductive runE : Type -> Type :=
| RDocker {X} (e : dockerE X) : runE X
| RLoop {X} (e : loopE X) : runE X
| RGo (t : task) : runE unit
| RShutdownServer : runE (result unit)
| RCloseDocker : runE (result unit).

Definition of_docker {A} (p : dock A) : prog runE A := interp (fun X e => trigger (@RDocker X e)) p.
Definition of_loop {A} (p : prog loopE A) : prog runE A := interp (fun X e => trigger (@RLoop X e)) p.

Definition go (t : task) : prog runE unit := trigger (RGo t).

(** ** [Run] *)

(** [net.JoinHostPort]. *)
Definition JoinHostPort (host port : string) : string :=
  if Contains host ":" then "[" +:+ host +:+ "]:" +:+ port else host +:+ ":" +:+ port.

Definition listen_addr (cfg : Config) : string :=
  if String.eqb (ac_TailscaleIP cfg) "" then ":" +:+ pretty (ac_AgentPort cfg)
  else JoinHostPort (ac_TailscaleIP cfg) (pretty (ac_AgentPort cfg)).

Definition take_snapshot : prog runE (result (list ContainerSnapshot)) :=
  l <- of_docker ListContainers ;; Ret (Snapshot l).

(** What is started, in this order. *)
Definition tasks (a : Agent) : list task :=
  [Heartbeats (ag_heartbeat a); ForwardEvents; InitialPull (ag_puller a);
   PeriodicPull (ag_puller a) (3600 * nanoseconds); HttpServer (listen_addr (ag_cfg a))].

Section Run.
Context `{ClientTexts, AgentTexts, Quoting, MapOrder}.

(** [pollLoop] of an agent that is shut down after [turns] turns. *)
Fixpoint pollLoop (a : Agent) (turns : nat) (e : CommandExecutor) : prog runE CommandExecutor :=
  match turns with
  | O => Ret e
  | S turns' => e' <- of_loop (poll_turn (ag_ctrlClient a) e) ;; pollLoop a turns' e'
  end.

Definition Run (turns : nat) (a : Agent) : prog runE (result unit) :=
  initial <- take_snapshot ;;
  match initial with
  | Err e => Ret (Err (Wrap "agent: startup snapshot failed" e))
  | Ok _ =>
      reg <- of_loop (by_client (Register (ag_ctrlClient a))) ;;
      match reg with
      | Err e => Ret (Err (Wrap "agent: registration failed" e))
      | Ok _ =>
          go (Heartbeats (ag_heartbeat a)) ;;; go ForwardEvents ;;; go (InitialPull (ag_puller a)) ;;;
          go (PeriodicPull (ag_puller a) (3600 * nanoseconds)) ;;;
          go (HttpServer (listen_addr (ag_cfg a))) ;;;
          pollLoop a turns (ag_executor a) ;;; Ret (Ok tt)
      end
  end.

(** ** Loops *)

(** [HeartbeatSender.Start], for [ticks] ticks. *)
Fixpoint Start (a : Agent) (ticks : nat) : prog runE unit :=
  match ticks with
  | O => Ret tt
  | S ticks' =>
      snap <- take_snapshot ;;
      of_loop (by_client (sendHeartbeat (ag_ctrlClient a) snap)) ;;; Start a ticks'
  end.

(** [StartPeriodicPull]: at once, then at every tick; errors are only logged. *)
Fixpoint StartPeriodicPull (image : string) (ticks : nat) : prog runE unit :=
  of_docker (PullOnce image) ;;;
  match ticks with O => Ret tt | S ticks' => StartPeriodicPull image ticks' end.

(** [Shutdown], of an agent whose server was made ([started]) or not: both are
    closed and the first error is returned. *)
Definition Shutdown (started : bool) : prog runE (result unit) :=
  first <- (if started then trigger RShutdownServer else Ret (Ok tt)) ;;
  closed <- trigger RCloseDocker ;;
  Ret (match first with Err e => Err e | Ok _ => closed end).

(** main.go: the exit code. *)
Definition agent_main (turns : nat) (cfg : result Config) (sdk : result unit) : prog runE Z :=
  match cfg with
  | Err _ => Ret 1
  | Ok cfg =>
      match New cfg sdk with
      | Err _ => Ret 1
      | Ok a =>
          r <- Run turns a ;;
          match r with
          | Err e => if errors_Is e context_canceled then Shutdown false ;;; Ret 0 else Ret 1
          | Ok _ => Shutdown true ;;; Ret 0
          end
      end
  end.
End Run.

(** ** Facts *)

Inductive run_obs := ObsListed | ObsClient (o : client_obs) | ObsGo (t : task) | ObsOther.

Definition observe_run {X} (e : runE X) : X -> run_obs :=
  match e in runE X return X -> run_obs with
  | RDocker (DList _) => fun _ => ObsListed
  | RLoop e => match e in loopE X return X -> run_obs with
               | LClient e => fun x => ObsClient (observe_client e x)
               | LAgent _ => fun _ => ObsOther
               end
  | RGo t => fun _ => ObsGo t
  | _ => fun _ => ObsOther
  end.

Definition started_of (o : run_obs) : option task := match o with ObsGo t => Some t | _ => None end.

(** Nothing is put into the background. *)
Definition no_go {X} (e : runE X) : Prop := match e with RGo _ => False | _ => True end.

Lemma no_go_starts {A} (p : prog runE A) :
  issues (@no_go) p -> behaves (@observe_run) p (fun t _ => omap started_of t = []).
Proof.
  induction p as [a|X e k IH]; intros Hp; [done|]. destruct Hp as [He Hk]. intros x.
  eapply behaves_mono; [|apply IH, Hk]. intros t a Ht. destruct e as [? e|? e| | |]; try done.
  - by destruct e.
  - by destruct e.
Qed.

Lemma started_in_order os ts t :
  omap started_of (ObsListed :: (ObsClient <$> os) ++ (ObsGo <$> ts) ++ t) = ts ++ omap started_of t.
Proof.
  change (omap started_of (ObsListed :: ?l)) with (omap started_of l). rewrite !omap_app.
  assert (omap started_of (ObsClient <$> os) = []) as -> by (induction os; done).
  assert (omap started_of (ObsGo <$> ts) = ts) as ->; [|done].
  induction ts as [|x ts IH]; [done|]. change (x :: omap started_of (ObsGo <$> ts) = x :: ts). by rewrite IH.
Qed.

Lemma issues_any {E : Type -> Type} {A} (p : prog E A) : issues (fun _ _ => True) p.
Proof. induction p; simpl; auto. Qed.

Lemma of_loop_no_go {A} (p : prog loopE A) : issues (@no_go) (of_loop p).
Proof. apply (issues_interp (fun _ _ => True)); [done|apply issues_any]. Qed.

Section RunFacts.
Context `{ClientTexts, AgentTexts, Quoting, MapOrder}.

Lemma pollLoop_no_go a turns e : issues (@no_go) (pollLoop a turns e).
Proof.
  revert e. induction turns as [|turns IH]; intros e; [done|].
  apply issues_bind; [apply of_loop_no_go|apply IH].
Qed.

(** A call of the client is seen as it is. *)
Lemma of_client_behaves {A} (p : client A) (Q : list client_obs -> A -> Prop) :
  behaves (@observe_client) p Q ->
  behaves (@observe_run) (of_loop (by_client p)) (fun t a => exists os, t = ObsClient <$> os /\ Q os a).
Proof.
  induction p as [a|X e k IH] in Q |- *; simpl; [intros HQ; by exists []|]. intros HQ x.
  eapply behaves_mono; [|apply IH, HQ]. intros t a (os & -> & Ha). by exists (observe_client e x :: os).
Qed.

(** What a registration shows: attempts, and the credentials if it went well. *)
Lemma Register_shape c rq :
  NewRequest c "POST" register_path (Some (register_json (cc_regReq c))) = Ok rq ->
  behaves (@observe_client) (Register c) (fun t r => exists t0, omap stored_of t0 = [] /\
    Forall (fun q => q = rq) (omap request_of t0) /\ (length (omap request_of t0) <= 5)%nat /\
    t = t0 ++ match r with Ok reg => [ObsStore (rs_NodeID reg) (rs_AgentToken reg)] | Err _ => [] end).
Proof.
  intros Hrq. eapply behaves_mono; [|by apply Register_runs].
  intros t r (t0 & a & Ht & -> & ->). exists t0.
  destruct (attempts_shape _ _ _ _ Ht) as (Hs & _ & (n & Hn & Hlen) & _).
  split_and!; [done| | |done]; rewrite Hn.
  - clear. generalize (S n). intros k. by induction k; constructor.
  - rewrite length_replicate. simpl in Hlen. lia.
Qed.
End RunFacts.

(** ** Against the control plane *)

Section Started.
Context `{External, ClientTexts, AgentTexts, Quoting, MapOrder} (d : Deployment) (zone : Z) (ticks : list bool).
(** What Docker, and the clock and Docker of the executor, answer. *)
Context (daemon : forall X, dockerE X -> X) (host : forall X, agentE X -> X).

Definition answer_run {X} (e : runE X) (s : site) : X * site :=
  match e in runE X return X * site with
  | RDocker e => (daemon _ e, s)
  | RLoop e => answer_loop d zone ticks host e s
  | RGo _ => (tt, s)
  | RShutdownServer => (Ok tt, s)
  | RCloseDocker => (Ok tt, s)
  end.

Definition process {A} (p : prog runE A) (s : site) : A * site := run (@answer_run) p s.

Lemma process_bind {A B} (p : prog runE A) (f : A -> prog runE B) s :
  process (bind p f) s = let '(a, s') := process p s in process (f a) s'.
Proof. apply run_bind. Qed.

Lemma process_client {A} (p : client A) s : process (of_loop (by_client p)) s = performs d zone ticks p s.
Proof.
  unfold process, of_loop, by_client. rewrite !run_interp. unfold performs.
  induction p as [a|X e k IH] in s |- *; [done|]. cbn [run trigger answer_run answer_loop].
  destruct (answer d zone ticks e s) as [x s']. apply IH.
Qed.

Lemma process_snapshot items s :
  daemon _ (DList true) = Ok items ->
  process take_snapshot s = (Ok (omap snapshot_of items), s).
Proof. intros Hl. unfold process, take_snapshot. cbn. by rewrite Hl. Qed.

(** A registration that is refused is not tried again. *)
Lemma performs_refused c h p s msg :
  linked c h p ->
  register_request (Some (register_json (cc_regReq c))) = inl msg ->
  performs d zone ticks (Register c) s =
    (Err (OtherError ("register returned 400: " +:+ body_text (respond zone (BadRequest msg)))), s).
Proof.
  intros Hl Hreq. unfold Register. rewrite performs_bind. change (Z.to_nat (maxAttempts - 1)) with 4%nat.
  cbn [register_loop].
  pose proof (NewRequest_plain c h p "POST" "v1/nodes/register" ""
    (Some (register_json (cc_regReq c))) Hl eq_refl eq_refl) as Hnew.
  change ("/" +:+ "v1/nodes/register" +:+ query_text "") with register_path in Hnew.
  rewrite Hnew, performs_bind.
  change (performs d zone ticks (trigger ?e) s) with (let '(x, s') := answer d zone ticks e s in (x, s')).
  rewrite (answer_do _ _ _ _ c h p _ _ _ _ _ (RqRegister (Some (register_json (cc_regReq c))))) by
    (done || by left).
  cbn [handler]. unfold handleRegisterNode. rewrite Hreq. by destruct s.
Qed.
End Started.

(** Without an address the request has none, and is refused. *)
Lemma no_address_refused cfg :
  ac_TailscaleIP cfg = "" -> in_int32 (ac_AgentPort cfg) -> in_int32 (ac_CapacityMB cfg) ->
  exists msg, register_request (Some (register_json (register_request_of cfg))) = inl msg.
Proof.
  intros Hip Hp Hm. unfold register_request. rewrite read_register by done.
  destruct (round64 _) as [f|]; [|by eexists]. cbn [mbind option_bind rr_Hostname rr_TailscaleIP].
  destruct (String.eqb _ ""); [by eexists|]. cbn [register_request_of rq_TailscaleIP]. rewrite Hip. by eexists.
Qed.

(** ** Properties *)

(** C33: The agent starts in order: it lists its containers first and gives up
    without a request if Docker does not answer; then it registers, with at most
    five requests, and gives up with nothing started if that fails; and only
    after its credentials are kept it starts the heartbeats, the events, both
    pulls and the HTTP server, in this order and each once, before it polls. *)
Theorem Run_in_order `{ClientTexts, AgentTexts, Quoting, MapOrder} turns a rq :
  NewRequest (ag_ctrlClient a) "POST" register_path
    (Some (register_json (cc_regReq (ag_ctrlClient a)))) = Ok rq ->
  behaves (@observe_run) (Run turns a) (fun t r =>
    (exists e, r = Err (Wrap "agent: startup snapshot failed" e) /\ t = [ObsListed]) \/
    exists t0, omap stored_of t0 = [] /\ Forall (fun q => q = rq) (omap request_of t0) /\
      (length (omap request_of t0) <= 5)%nat /\
      ((exists e, r = Err (Wrap "agent: registration failed" e) /\ t = ObsListed :: (ObsClient <$> t0)) \/
       (exists id token t1, r = Ok tt /\
          t = ObsListed :: (ObsClient <$> t0 ++ [ObsStore id token]) ++ (ObsGo <$> tasks a) ++ t1 /\
          omap started_of t1 = []))).
Proof.
  intros Hrq. unfold Run, take_snapshot. cbn [of_docker ListContainers interp bind trigger]. intros l.
  destruct (Snapshot _) as [initial|e]; [|left; by exists e].
  apply behaves_bind. eapply behaves_mono; [|by apply of_client_behaves, Register_shape].
  intros t r (os & -> & t0 & Hs & Hq & Hn & ->). destruct r as [reg|e].
  - do 5 (cbn [go bind trigger]; intros []). apply behaves_bind.
    eapply behaves_mono; [|apply no_go_starts, pollLoop_no_go]. intros t1 e Ht. right. exists t0.
    split_and!; [done..|]. right. exists (rs_NodeID reg), (rs_AgentToken reg), t1.
    rewrite !fmap_app, app_nil_r. split_and!; [done| |done]. by rewrite <- !app_assoc.
  - right. exists t0. split_and!; [done..|]. left. exists e. by rewrite !app_nil_r.
Qed.

(** An agent without a Tailscale address never runs: nothing detects one, the
    registration is refused with 400 and not repeated, and [Run] ends with the
    error, so the "dev mode" of [listen_addr] is never reached.  Neither side's
    state changes. *)
Theorem no_address_never_runs `{External, ClientTexts, AgentTexts, Quoting, MapOrder} d zone ticks
    (daemon : forall X, dockerE X -> X) (host : forall X, agentE X -> X) cfg a h p items turns s :
  New cfg (Ok tt) = Ok a -> ac_TailscaleIP cfg = "" ->
  in_int32 (ac_AgentPort cfg) -> in_int32 (ac_CapacityMB cfg) ->
  linked (client_config cfg) h p -> daemon _ (DList true) = Ok items ->
  exists text, process d zone ticks daemon host (Run turns a) s =
    (Err (Wrap "agent: registration failed" (OtherError ("register returned 400: " +:+ text))), s).
Proof.
  intros [= <-] Hip Hp Hm Hl Hd. destruct (no_address_refused cfg Hip Hp Hm) as [msg Hmsg].
  eexists. unfold Run. rewrite process_bind, (process_snapshot _ _ _ _ _ items) by done.
  rewrite process_bind, process_client, (performs_refused _ _ _ _ h p _ msg) by done. reflexivity.
Qed.

(** The control plane calls an agent where it listens, if its address has no
    colon and a port is set: the URL it makes of the node it registered is the
    agent's listening address.  Of an IPv6 address the brackets are missing. *)
Theorem dialed_where_it_listens cfg req ip id cpu now token name :
  register_request (Some (register_json (register_request_of cfg))) = inr (req, ip) ->
  in_int32 (ac_AgentPort cfg) -> in_int32 (ac_CapacityMB cfg) -> ac_AgentPort cfg <> 0 ->
  Addr_String (inet ip) = ac_TailscaleIP cfg ->
  let url := container_url (new_node id req ip cpu now token) name in
  if Contains (ac_TailscaleIP cfg) ":"
  then "http://" +:+ listen_addr cfg +:+ "/v1/containers/" +:+ name =
         "http://[" +:+ ac_TailscaleIP cfg +:+ "]:" +:+ pretty (ac_AgentPort cfg) +:+ "/v1/containers/" +:+ name /\
       url = "http://" +:+ ac_TailscaleIP cfg +:+ ":" +:+ pretty (ac_AgentPort cfg) +:+ "/v1/containers/" +:+ name
  else url = "http://" +:+ listen_addr cfg +:+ "/v1/containers/" +:+ name.
Proof.
  intros Hreq Hp Hm Hport Hip url.
  assert (rr_AgentListenPort req = ac_AgentPort cfg /\ ac_TailscaleIP cfg <> "") as [Hrp Hne].
  { unfold register_request in Hreq. rewrite read_register in Hreq by done.
    destruct (round64 _) as [f|]; [|done]. cbn [mbind option_bind] in Hreq.
    repeat case_match; try done. injection Hreq as <- <-. split; [done|].
    cbn in *. by destruct (String.eqb_spec (ac_TailscaleIP cfg) ""). }
  assert (url = "http://" +:+ ac_TailscaleIP cfg +:+ ":" +:+ pretty (ac_AgentPort cfg) +:+ "/v1/containers/" +:+ name) as Hurl.
  { unfold url, container_url, new_node. cbn [nd_TailscaleIp nd_AgentListenPort]. unfold listen_port.
    by rewrite Hip, Hrp, (proj2 (Z.eqb_neq _ 0) Hport). }
  rewrite Hurl. unfold listen_addr, JoinHostPort. rewrite (proj2 (String.eqb_neq _ "") Hne).
  destruct (Contains (ac_TailscaleIP cfg) ":"); [split; [|done]|]; by rewrite <- !string_app_assoc.
Qed.

(** *** A concrete agent *)

Definition demo_daemon : forall X, dockerE X -> X := fun X e =>
  match e in dockerE X return X with
  | DMkdirAll _ _ => Ok tt | DChown _ _ _ => Ok tt | DCreate _ _ _ => Ok "c0ffee" | DStart _ => Ok tt
  | DStop _ _ => Ok tt | DRemove _ _ => Ok tt | DRestart _ _ => Ok tt | DLogs _ _ _ => Ok (Ok "") | DInspect _ => Err (OtherError "")
  | DList _ => Ok [] | DPull _ => Ok (Ok tt) | DDone => false | DWait _ => true
  end.

Definition demo_agent_config (ip : string) : Config :=
  mkConfig "http://10.0.0.1:8080" "node-9" ip 8090 40000 50000 "k" "/var/lib/forge/sandboxes" "0.1.0"
    "appx/sandbox:v1" 16384 4 "secret".

Lemma Run_in_order_witness :
  let a := mkAgent (demo_agent_config "100.64.0.9") demo_client_config
    (NewCommandExecutor (NewAllocator 40000 40002) "/d") heartbeat_interval "img" "k" in
  behaves (@observe_run) (@Run demo_client_texts demo_texts 3 a) (fun t r =>
    r = Ok tt -> omap started_of t = tasks a).
Proof.
  intros a. eapply behaves_mono.
  2: { eapply (@Run_in_order demo_client_texts demo_texts demo_quoting demo_order 3 a). vm_compute. reflexivity. }
  intros t r [(e & -> & _)|(t0 & _ & _ & _ & [(e & -> & _)|(id & token & t1 & _ & -> & Ht1)])]; try discriminate.
  intros _. by rewrite started_in_order, Ht1, app_nil_r.
Defined.

Lemma no_address_never_runs_witness :
  let s := @mkSite demo_cluster "" "" (demo_cluster_world empty_db) in
  exists a text, New (demo_agent_config "") (Ok tt) = Ok a /\
    @process demo_cluster demo_deployment 0 [] demo_daemon demo_host _
      (@Run demo_client_texts demo_texts 3 a) s =
    (Err (Wrap "agent: registration failed" (OtherError ("register returned 400: " +:+ text))), s).
Proof.
  intros s. eexists.
  destruct (@no_address_never_runs demo_cluster demo_client_texts demo_texts demo_quoting demo_order
    demo_deployment 0 [] demo_daemon demo_host (demo_agent_config "") _ "10.0.0.1" "8080" [] 3 s eq_refl)
    as [text Ht].
  - reflexivity.
  - vm_compute. split; discriminate.
  - vm_compute. split; discriminate.
  - by split.
  - reflexivity.
  - exists text. split; [reflexivity|exact Ht].
Defined.

Lemma dialed_where_it_listens_witness :
  exists req ip, register_request (Some (register_json (register_request_of (demo_agent_config "fd7a::9")))) = inr (req, ip) /\
  container_url (new_node 1 req ip 40 0 "") "my-app" = "http://fd7a::9:8090/v1/containers/my-app" /\
  listen_addr (demo_agent_config "fd7a::9") = "[fd7a::9]:8090".
Proof.
  eexists _, _. split; [vm_compute; reflexivity|].
  pose proof (dialed_where_it_listens (demo_agent_config "fd7a::9") _ _ 1 40 0 "" "my-app"
    ltac:(vm_compute; reflexivity)) as Hd. split; [|reflexivity].
  apply Hd; first [reflexivity|vm_compute; split; discriminate|discriminate].
Defined.
